(* ===== verification/_CoqProject ===== *)
-Q . S2P
Prelude.v
RustStr.v
NetAddr.v
BTree.v
Extern.v
Config.v
ConfigHash.v
Secrets.v
AppError.v
Proxy.v
Attest.v
MockTee.v
AttestedTls.v
Handshake.v
SnpReport.v
SevSnp.v
KdsThreads.v
Launcher.v
GcpPolicy.v
GcpCs.v
Server.v
RelaySpec.v
Listen.v
BufRead.v
Gateway.v
Backends.v
Reports.v
Sdk.v
LocalProxy.v
OnlineCheck.v
OnlinePrint.v
EndToEnd.v
UnitTests.v
