(* ===== verification/Prelude.v ===== *)
(** * Confidential relay service: verification development

    A relay forwards chat requests of its clients to an upstream provider from inside a
    trusted execution environment. It proves to the client, inside the TLS handshake,
    which program it is and which configuration it runs with. This library models the
    Rust crates of the repository and proves what makes the relay trustworthy. It models
    the sources as they are written: where the code has a defect, the model has it too,
    and a theorem says so.

    ** Parts and files

    - [Prelude.v] (this file): outcomes (success, error value, panic), slices and machine
      arithmetic, the state and error monad [stm], the stable sort, tactics.
      [RustStr.v]: strings as UTF-8 bytes with the operations of [str]. [BTree.v]:
      [BTreeMap] and [BTreeSet] as sorted lists, refined by [gmap]. [NetAddr.v]: IP and
      socket addresses with the standard library's parser.
    - [Extern.v]: the crates the code calls, each a class of operations with a separate
      class of the documented laws; [Module Ref] has concrete instances for the
      witnesses. Other files add classes of the same form next to their only user.
    - [Config.v], [ConfigHash.v]: crates/relay-core/src/config.rs. Routing, allowlist, TLS
      pins, validation; the canonical text of a configuration and its hash.
    - [Secrets.v], [AppError.v], [Proxy.v]: secrets.rs, error.rs and proxy.rs of relay-core.
      The provider credential store, error responses and redaction, and the proxy handler
      split at the upstream call: [prepare_request] before, [finish_response] after.
    - [Attest.v]: types.rs, traits.rs and quote.rs of relay-attest. [Attester] and
      [Verifier] are the interfaces the TLS layer is proved against; [AttestsFor] and, for
      Confidential Space, [AttestsBound] state that a verifier accepts what an attester
      makes.
    - [MockTee.v]: mock.rs and tdx.rs. [SnpReport.v], [SevSnp.v]: sev_snp.rs, the report,
      certificate table and attester, and the verifier with its certificate cache;
      [KdsThreads.v]: that cache under concurrent verifications, as a step relation.
      [Launcher.v], [GcpPolicy.v], [GcpCs.v]: gcp_confidential_space.rs, the launcher
      protocol, nonces and policies, and the token verifier with its JSON cache.
    - [AttestedTls.v]: server.rs and client.rs of relay-tls. [Handshake.v]: the three
      certificate verifiers as rustls calls them in a handshake. [Reports.v]: which
      verifier reports what which attester attested ([Attest.Reports]), per backend.
    - [Server.v]: server/src/main.rs and relay-core/src/router.rs. Startup, choice of the
      backend, admin endpoint, and the running server as a step relation. [RelaySpec.v]:
      the abstract relay that the running server refines. [Listen.v]: the rest of [main],
      the listeners and the log lines about them.
    - [BufRead.v], [Gateway.v], [LocalProxy.v]: tools/gateway and tools/local-proxy with the
      line reader they share as an interface. [Backends.v]: the verifiers a client program
      chooses from at run time.
    - [Sdk.v]: crates/relay-sdk. [OnlineCheck.v], [OnlinePrint.v]: tools/online-check, the
      check and its output.
    - [EndToEnd.v]: the composition of client, attested channel and running relay.
      [UnitTests.v]: the unit tests of the crates, translated and evaluated on the model.

    ** How the parts interact

    [Server.start] builds a configuration from the command line, hashes it, and has an
    attester sign report data of 64 bytes: the SHA-384 of the TLS key and half of the
    hash. The certificate carries the evidence ([Attest.v]). A client ([Sdk.v],
    [LocalProxy.v]) checks the certificate with [AttestedTls.verify_server_cert] against a
    verifier and its pins; [OnlineCheck.v] recomputes the hash and does the same check
    outside of a handshake. Requests then reach [Proxy.proxy_chat_completions], which
    reads the credential the admin endpoint stored. In [Server.run] admin and client
    requests interleave: reading the credential and sending is one step, since the store
    is read once, and answering is another. In between, the HTTP client may follow
    redirects, each a step: [build_upstream_http_client] keeps the default policy of
    reqwest, at most ten, and nothing checks where they lead
    ([Server.redirect_leaves_allowlist]). Which responses are redirects, and which request
    follows one, is the parameter [RedirectRule]. The local proxy may reach the relay
    through the gateway, whose handler sees only the tunnel request.

    ** What the theorems show

    - The whole: a client that pins the hash of an audited configuration and accepts a
      relay reached one that behaves as that configuration says in every run, unless the
      hashed texts of these two configurations collide on half of SHA-256; the same from the command line of the local
      proxy; the credential of a local application has no influence ([EndToEnd.v]). The
      running relay refines an abstract relay of six observable actions, and from every
      reachable state a request can still be served ([RelaySpec.v]).
    - Data plane: one credential per run, accepted once and carried by every
      request a handler sends ([Server.run_credential]); no request without a required
      credential; handlers send to allowed upstreams only, and any other request is reached
      by redirects from there ([Server.started_relay]); exact headers both ways, pins on
      top of the WebPKI ([Proxy.v]).
    - Configuration: routing takes the longest prefix, validation implies every later
      allowlist check, normalised pins are canonical, and the hash binds every security
      relevant field of configurations without line feeds ([Config.v], [ConfigHash.v]).
    - Attestation: soundness of each verifier relative to the cryptographic crates, and
      of the handshake check for any verifier; completeness for attesters and verifiers
      that match, Confidential Space included ([AttestedTls.attested_tls_complete], with
      [Reports.gcp_attests_bound]); round trips for certificates and nonces; the table and chunk parsers
      agree with reference readings; no verification panics or runs forever. A completed
      handshake was signed by the attested key ([Handshake.v]).
    - Startup: no socket is opened before the configuration is validated and attested,
      the log is true of the sockets, and a relay that announces that it fails closed does
      ([Listen.v]); gateway connections do not touch each other, and no failing one ends
      the program ([Gateway.v]).
    - Clients and tools: when exactly a client is built and which verifier and pins it then
      uses (the one the caller passes in, whatever it is); the local proxy
      pins everything outside audit mode and keeps local credentials local; proxy and
      gateway agree on the tunnel; the online check agrees with the relay and the client, and its
      result line means what it says as long as no printed text holds a line feed.

    ** Conventions

    Bytes are [Byte.byte], strings and vectors lists of them, [usize] and the other integers
    [N] with the overflow behaviour written out ([BuildProfile] says whether overflow
    panics). Errors are constructors, one per error site, with the values the message
    shows; message texts are kept where a program compares or returns them. A panic is the
    outcome [Panic]. Log lines are left out, but for those of [Listen.v]. Cargo features and platforms are records
    or classes of booleans. Caches and clocks are explicit state; a fetch at a time takes
    some time and the clock moves with it.

    Fuel is used where the recursion is on consumed input: [Launcher.chunked_loop] and
    [Gateway.header_loop], [LocalProxy.skip_headers] (every round consumes a byte, and the
    fuel is one more than the length), [Launcher.connect_loop] (one round per interval of
    the timeout) and [OnlineCheck.pad4] (three rounds pad to a multiple of four). The
    theorems on these functions say that the fuel is never used up.

    Each theorem with hypotheses has a witness, [<name>_witness], that applies it to
    concrete values, with the crates instantiated by the concrete functions of the
    [Ref] modules.

    ** Not modelled

    What the operating system does with sockets, and the byte streams of hyper; TLS itself;
    the cryptographic primitives, X.509 and JSON parsers and the HTTP clients (parameters
    with laws; the answer of an [http_get] is that at the end of the redirects it follows,
    and timeouts are among its errors); code derived by [serde] and [clap]; [Display] texts for logs; the constant
    health route and the stream adapter of the local proxy; integration tests and
    scripts. *)

From Stdlib Require Export NArith Lia.
From Stdlib Require Export Strings.Byte.
From stdpp Require Export base tactics list gmap strings sorting.


(** ** Bytes and string literals *)

(** Rust's [Vec<u8>], [&[u8]], [String] and [&str] are all lists of bytes;
    a [str] is the list of its UTF-8 bytes. *)
Abbreviation byte := Byte.byte.
Abbreviation bytes := (list Byte.byte).

Definition lit (s : string) : bytes := String.list_byte_of_string s.
Arguments lit s%_string_scope : simpl never.

Definition b2n (b : byte) : N := Byte.to_N b.

(** The [as u8] cast: reduction modulo 256. *)
Definition n2b (n : N) : byte :=
  match Byte.of_N (n mod 256) with Some b => b | None => Byte.x00 end.

#[global] Instance byte_eq_dec : EqDecision byte := Byte.byte_eq_dec.

#[global] Program Instance byte_countable : Countable byte :=
  inj_countable Byte.to_N Byte.of_N _.
Next Obligation. intros x. apply Byte.of_to_N. Qed.

#[global] Instance byte_inhabited : Inhabited byte := populate Byte.x00.

(** ** Outcomes: success, an error value, or a panic *)

Inductive outcome (E A : Type) : Type :=
  | Ok (a : A)
  | Err (e : E)
  | Panic.
Arguments Ok {E A} a.
Arguments Err {E A} e.
Arguments Panic {E A}.

#[global] Instance outcome_ret {E} : MRet (outcome E) := fun _ a => Ok a.
#[global] Instance outcome_bind {E} : MBind (outcome E) := fun A B f m =>
  match m with Ok a => f a | Err e => Err e | Panic => Panic end.
#[global] Instance outcome_fmap {E} : FMap (outcome E) := fun A B f m =>
  match m with Ok a => Ok (f a) | Err e => Err e | Panic => Panic end.

Definition ok_or {E A} (o : option A) (e : E) : outcome E A :=
  match o with Some a => Ok a | None => Err e end.

Definition map_err {E F A} (f : E -> F) (m : outcome E A) : outcome F A :=
  match m with Ok a => Ok a | Err e => Err (f e) | Panic => Panic end.

(** [if cond { return Err(e) }] is [ensure (negb cond) e]. *)
Definition ensure {E} (c : bool) (e : E) : outcome E unit :=
  if c then Ok tt else Err e.

Definition is_ok {E A} (m : outcome E A) : bool :=
  match m with Ok _ => true | _ => false end.
Definition is_err {E A} (m : outcome E A) : bool :=
  match m with Err _ => true | _ => false end.

(** A loop whose body may return early with an error. *)
Fixpoint try_fold {E A S} (f : S -> A -> outcome E S) (s : S) (l : list A) : outcome E S :=
  match l with
  | [] => Ok s
  | x :: l' => s' ← f s x; try_fold f s' l'
  end.

(** ** Lengths and slices, indexed by machine-size numbers *)

Definition len {A} (l : list A) : N := N.of_nat (length l).

(** [l.get(a..b)] *)
Definition slice_get {A} (l : list A) (a b : N) : option (list A) :=
  if (N.leb a b && N.leb b (len l))%bool
  then Some (take (N.to_nat (b - a)) (drop (N.to_nat a) l)) else None.

(** [&l[a..b]], which panics out of range. *)
Definition slice_idx {E A} (l : list A) (a b : N) : outcome E (list A) :=
  match slice_get l a b with Some s => Ok s | None => Panic end.

Definition usize_max : N := 2 ^ 64 - 1.

(** [a.checked_add(b)] on a 64-bit [usize]. *)
Definition checked_add (a b : N) : option N :=
  if N.leb (a + b) usize_max then Some (a + b)%N else None.

(** [a + b] and [a - b] on [usize]: an overflow panics in a build with overflow
    checks and wraps around without. *)
Class BuildProfile := overflow_checks : bool.

Definition usize_add {BP : BuildProfile} {E} (a b : N) : outcome E N :=
  if N.leb (a + b) usize_max then Ok (a + b)%N
  else if overflow_checks then Panic else Ok ((a + b) mod 2 ^ 64)%N.
Definition usize_sub {BP : BuildProfile} {E} (a b : N) : outcome E N :=
  if N.leb b a then Ok (a - b)%N
  else if overflow_checks then Panic else Ok (2 ^ 64 + a - b)%N.

(** [l.chunks_exact(n)]: the tail that fills no chunk is left out. *)
Fixpoint chunks_exact_fuel {A} (fuel n : nat) (l : list A) : list (list A) :=
  match fuel with
  | O => []
  | S k => if Nat.leb n (length l) then take n l :: chunks_exact_fuel k n (drop n l) else []
  end.
Definition chunks_exact {A} (n : nat) (l : list A) : list (list A) :=
  chunks_exact_fuel (length l) n l.

(** ** Little-endian numbers *)

Fixpoint le_to_N (l : bytes) : N :=
  match l with
  | [] => 0
  | b :: l' => b2n b + 256 * le_to_N l'
  end.

Fixpoint N_to_le (k : nat) (n : N) : bytes :=
  match k with
  | O => []
  | S k' => n2b n :: N_to_le k' (n / 256)
  end.

(** [dst[off..off + src.len()].copy_from_slice(src)] *)
Definition copy_at (off : nat) (src dst : bytes) : bytes :=
  take off dst ++ src ++ drop (off + length src) dst.

Definition zeros (n : nat) : bytes := replicate n (n2b 0).

(** ** Sorting: the stable sort of [slice::sort_by] *)

Section sort.
Context {A : Type} (leb : A -> A -> bool).

Fixpoint sort_insert (x : A) (l : list A) : list A :=
  match l with
  | [] => [x]
  | y :: l' => if leb x y then x :: l else y :: sort_insert x l'
  end.

Fixpoint sort_by (l : list A) : list A :=
  match l with
  | [] => []
  | x :: l' => sort_insert x (sort_by l')
  end.
End sort.

(** ** Tactics *)

(** Invert every [Ok] hypothesis of a bind chain. *)
Lemma bind_Ok {E A B} (m : outcome E A) (f : A -> outcome E B) b :
  (m ≫= f) = Ok b <-> exists a, m = Ok a /\ f a = Ok b.
Proof.
  destruct m; simpl; split; try done.
  - intros H; eauto.
  - intros (a' & Ha & Hf). by simplify_eq.
  - by intros (a' & Ha & Hf).
  - by intros (a' & Ha & Hf).
Qed.

Lemma is_ok_Ok {E A} (m : outcome E A) : is_ok m = true -> exists a, m = Ok a.
Proof. destruct m; [eauto|done..]. Qed.

Lemma fmap_Ok {E A B} (m : outcome E A) (f : A -> B) b :
  (f <$> m) = Ok b <-> exists a, m = Ok a /\ f a = b.
Proof.
  destruct m; simpl; split; try done.
  - intros H; simplify_eq; eauto.
  - intros (a' & Ha & Hf). by simplify_eq.
  - by intros (a' & Ha & Hf).
  - by intros (a' & Ha & Hf).
Qed.

Lemma ok_or_Ok {E A} (o : option A) (e : E) a : ok_or o e = Ok a <-> o = Some a.
Proof. destruct o; simpl; split; congruence. Qed.

Lemma map_err_Ok {E F A} (f : E -> F) (m : outcome E A) a : map_err f m = Ok a <-> m = Ok a.
Proof. destruct m; simpl; split; congruence. Qed.

Lemma ensure_Ok {E} c (e : E) u : ensure c e = Ok u <-> c = true.
Proof. destruct c, u; simpl; split; congruence. Qed.

Ltac inv_outcome :=
  repeat match goal with
  | H : (_ ≫= _) = Ok _ |- _ => apply bind_Ok in H as (? & ? & ?)
  | H : (_ <$> _) = Ok _ |- _ => apply fmap_Ok in H as (? & ? & ?)
  | H : ok_or _ _ = Ok _ |- _ => apply ok_or_Ok in H
  | H : map_err _ _ = Ok _ |- _ => apply map_err_Ok in H
  | H : ensure _ _ = Ok _ |- _ => apply ensure_Ok in H
  | H : mret _ = Ok _ |- _ => unfold mret, outcome_ret in H
  | _ => progress simplify_eq
  end.

Ltac split_bool :=
  repeat match goal with
  | H : (_ && _)%bool = true |- _ => apply andb_true_iff in H as [? ?]
  | H : (_ || _)%bool = false |- _ => apply orb_false_iff in H as [? ?]
  | H : negb _ = true |- _ => apply negb_true_iff in H
  | H : negb _ = false |- _ => apply negb_false_iff in H
  | H : bool_decide _ = true |- _ => apply bool_decide_eq_true in H
  | H : bool_decide _ = false |- _ => apply bool_decide_eq_false in H
  end.

Create HintDb relay.
Create Rewrite HintDb relay.

(** ** Facts on bytes and little-endian numbers *)

Lemma b2n_lt b : (b2n b < 256)%N.
Proof. unfold b2n. pose proof (Byte.to_N_bounded b). lia. Qed.

Lemma n2b_b2n b : n2b (b2n b) = b.
Proof.
  unfold n2b. rewrite N.mod_small by apply b2n_lt.
  unfold b2n. by rewrite Byte.of_to_N.
Qed.

Lemma b2n_n2b n : b2n (n2b n) = (n mod 256)%N.
Proof.
  unfold n2b, b2n. destruct (Byte.of_N (n mod 256)) eqn:E.
  - by apply Byte.to_of_N.
  - apply Byte.of_N_None_iff in E.
    pose proof (N.mod_upper_bound n 256 ltac:(done)). lia.
Qed.

Lemma b2n_inj a b : b2n a = b2n b -> a = b.
Proof. intros H. by rewrite <-(n2b_b2n a), H, n2b_b2n. Qed.

Lemma length_N_to_le k n : length (N_to_le k n) = k.
Proof. revert n; induction k; simpl; auto. Qed.

Lemma le_to_N_lt l : (le_to_N l < 256 ^ len l)%N.
Proof.
  induction l as [|b l IH]; [done|].
  unfold len in *. simpl length. rewrite Nat2N.inj_succ, N.pow_succ_r'.
  cbn [le_to_N]. pose proof (b2n_lt b). lia.
Qed.

Lemma le_to_N_to_le k n : le_to_N (N_to_le k n) = (n mod 256 ^ N.of_nat k)%N.
Proof.
  revert n; induction k as [|k IH]; intros n.
  - simpl. by rewrite N.mod_1_r.
  - cbn [N_to_le le_to_N]. rewrite IH, b2n_n2b.
    rewrite Nat2N.inj_succ, N.pow_succ_r'.
    rewrite N.Div0.mod_mul_r. lia.
Qed.

Lemma N_to_le_to_N l : N_to_le (length l) (le_to_N l) = l.
Proof.
  induction l as [|b l IH]; [done|].
  cbn [length le_to_N N_to_le]. pose proof (b2n_lt b).
  assert (Hdiv : ((b2n b + 256 * le_to_N l) / 256 = le_to_N l)%N).
  { rewrite N.mul_comm, N.div_add by done. rewrite N.div_small by done. lia. }
  rewrite Hdiv, IH. f_equal.
  unfold n2b. rewrite N.mul_comm, N.Div0.mod_add, N.mod_small by done.
  unfold b2n. by rewrite Byte.of_to_N.
Qed.

Lemma le_to_N_cons_div b l : (le_to_N (b :: l) / 256 = le_to_N l)%N.
Proof.
  cbn [le_to_N]. pose proof (b2n_lt b).
  rewrite N.mul_comm, N.div_add by done. rewrite N.div_small by done. lia.
Qed.

Lemma le_to_N_cons_mod b l : (le_to_N (b :: l) mod 256 = b2n b)%N.
Proof.
  cbn [le_to_N]. pose proof (b2n_lt b). rewrite N.mul_comm, N.Div0.mod_add.
  by apply N.mod_small.
Qed.

(** Shifting right by bytes drops the low bytes. *)
Lemma le_to_N_drop k l : (le_to_N (drop k l) = le_to_N l / 256 ^ N.of_nat k)%N.
Proof.
  revert l. induction k as [|k IH]; intros l; [by rewrite drop_0, N.div_1_r|].
  rewrite Nat2N.inj_succ, N.pow_succ_r', <-N.Div0.div_div. destruct l as [|b l].
  - rewrite drop_nil. cbn [le_to_N]. by rewrite !N.Div0.div_0_l.
  - by rewrite le_to_N_cons_div, <-IH.
Qed.

(** ** Facts on slices *)

Lemma len_app {A} (l k : list A) : len (l ++ k) = (len l + len k)%N.
Proof. unfold len. rewrite length_app. lia. Qed.

Lemma len_cons {A} (x : A) l : len (x :: l) = (1 + len l)%N.
Proof. unfold len. simpl length. lia. Qed.

Lemma slice_get_Some {A} (l s : list A) a b :
  slice_get l a b = Some s <->
  (a <= b /\ b <= len l)%N /\ s = take (N.to_nat (b - a)) (drop (N.to_nat a) l).
Proof.
  unfold slice_get. destruct (N.leb_spec a b), (N.leb_spec b (len l)); simpl;
    split; intros; destruct_and?; try done; try lia; by simplify_eq.
Qed.

Lemma slice_get_None {A} (l : list A) a b :
  slice_get l a b = None <-> (b < a \/ len l < b)%N.
Proof.
  unfold slice_get. destruct (N.leb_spec a b), (N.leb_spec b (len l)); simpl;
    split; intros; try done; lia.
Qed.

Lemma slice_get_length {A} (l s : list A) a b :
  slice_get l a b = Some s -> len s = (b - a)%N.
Proof.
  intros [? ->]%slice_get_Some. unfold len in *.
  rewrite length_take, length_drop. lia.
Qed.

Lemma slice_get_is_Some {A} (l : list A) a b :
  (a <= b)%N -> (b <= len l)%N -> exists s, slice_get l a b = Some s.
Proof. intros. eexists. apply slice_get_Some. split; [done|reflexivity]. Qed.

Lemma slice_get_concat {A} (l s t : list A) a b c :
  slice_get l a b = Some s -> slice_get l b c = Some t -> slice_get l a c = Some (s ++ t).
Proof.
  rewrite !slice_get_Some. intros [[H1 H2] ->] [[H3 H4] ->]. split; [lia|].
  unfold len in *. replace (N.to_nat b) with (N.to_nat a + N.to_nat (b - a))%nat by lia.
  replace (N.to_nat (c - a)) with (N.to_nat (b - a) + N.to_nat (c - b))%nat by lia.
  by rewrite <-drop_drop, take_take_drop.
Qed.

Lemma slice_get_slice {A} (l s t : list A) a b c d :
  slice_get l a b = Some s -> slice_get s c d = Some t -> slice_get l (a + c) (a + d) = Some t.
Proof.
  intros H1 H2. pose proof (slice_get_length _ _ _ _ H1) as Hl.
  apply slice_get_Some in H1 as [[? ?] ->]. apply slice_get_Some in H2 as [[? ?] ->].
  apply slice_get_Some. split; [lia|].
  unfold len in *. rewrite length_take, length_drop in *.
  rewrite skipn_firstn_comm, take_take, drop_drop. f_equal; [lia|]. f_equal. lia.
Qed.

Lemma slice_get_drop {A} (l s : list A) a b :
  slice_get l a b = Some s -> drop (N.to_nat a) l = s ++ drop (N.to_nat b) l.
Proof.
  intros [[? ?] ->]%slice_get_Some.
  replace (N.to_nat b) with (N.to_nat a + N.to_nat (b - a))%nat by lia.
  by rewrite <-drop_drop, take_drop.
Qed.

Lemma slice_get_full {A} (l s : list A) : slice_get l 0 (len l) = Some s -> s = l.
Proof.
  intros [_ ->]%slice_get_Some. rewrite drop_0. apply take_ge. unfold len. lia.
Qed.

Lemma slice_get_here {A} (p s t : list A) :
  slice_get (p ++ s ++ t) (len p) (len p + len s) = Some s.
Proof.
  apply slice_get_Some. rewrite !len_app. split; [lia|].
  replace (N.to_nat (len p)) with (length p) by (unfold len; lia).
  rewrite drop_app_length.
  replace (N.to_nat (len p + len s - len p)) with (length s) by (unfold len; lia).
  by rewrite take_app_length.
Qed.

(** A slice only depends on the bytes in its range. *)
Lemma slice_get_app_l {A} (l k : list A) a b :
  (b <= len l)%N -> slice_get (l ++ k) a b = slice_get l a b.
Proof.
  intros Hb. unfold slice_get. rewrite len_app.
  destruct (N.leb_spec a b); simpl; [|done].
  destruct (N.leb_spec b (len l)), (N.leb_spec b (len l + len k)); try done; try lia.
  f_equal. unfold len in *. rewrite drop_app_le by lia.
  rewrite take_app_le; [done|]. rewrite length_drop. lia.
Qed.

Lemma slice_get_take {A} (l : list A) n a b :
  (b <= n)%N -> (n <= len l)%N ->
  slice_get (take (N.to_nat n) l) a b = slice_get l a b.
Proof.
  intros Hb Hn. rewrite <-(take_drop (N.to_nat n) l) at 2.
  symmetry. apply slice_get_app_l. unfold len in *. rewrite length_take. lia.
Qed.

Lemma slice_idx_Ok {E A} (l s : list A) a b :
  slice_idx (E:=E) l a b = Ok s <-> slice_get l a b = Some s.
Proof. unfold slice_idx. destruct (slice_get l a b); split; congruence. Qed.

Lemma slice_idx_total {E A} (l : list A) a b :
  (a <= b)%N -> (b <= len l)%N -> exists s, slice_idx (E:=E) l a b = Ok s /\ len s = (b - a)%N.
Proof.
  intros Ha Hb. destruct (slice_get_is_Some l a b Ha Hb) as [s Hs].
  exists s. rewrite slice_idx_Ok. eauto using slice_get_length.
Qed.

Lemma checked_add_Some a b c :
  checked_add a b = Some c <-> c = (a + b)%N /\ (a + b <= usize_max)%N.
Proof. unfold checked_add. destruct (N.leb_spec (a + b) usize_max); split; intros; destruct_and?; simplify_eq; try done; lia. Qed.

(** A wrapped sum is smaller than both operands. *)
Lemma usize_add_Ok {BP : BuildProfile} {E} a b r :
  usize_add (E:=E) a b = Ok r -> (a <= usize_max)%N -> (b <= usize_max)%N ->
  r = (a + b)%N \/ (r < a)%N.
Proof.
  unfold usize_add. intros H Ha Hb. destruct (N.leb_spec (a + b) usize_max) as [|Hov].
  - left. congruence.
  - right. destruct overflow_checks; [done|]. injection H as <-.
    change (2 ^ 64)%N with (usize_max + 1)%N. rewrite <-(N.mod_unique (a + b) (usize_max + 1) 1
      (a + b - (usize_max + 1))); lia.
Qed.

(** ** Facts on the stable sort *)

Section sort_facts.
Context {A : Type} (leb : A -> A -> bool).

Lemma sort_insert_perm x l : sort_insert leb x l ≡ₚ x :: l.
Proof.
  induction l as [|y l IH]; simpl; [done|].
  destruct (leb x y); [done|]. rewrite IH. by constructor.
Qed.

Lemma sort_by_perm l : sort_by leb l ≡ₚ l.
Proof. induction l as [|x l IH]; simpl; [done|]. by rewrite sort_insert_perm, IH. Qed.

Hypothesis leb_total : forall x y, leb x y = true \/ leb y x = true.
Hypothesis leb_trans : forall x y z, leb x y = true -> leb y z = true -> leb x z = true.

Let R x y := leb x y = true.

Lemma sort_insert_sorted x l : StronglySorted R l -> StronglySorted R (sort_insert leb x l).
Proof.
  induction 1 as [|y l Hs IH Hy]; simpl; [repeat constructor|].
  destruct (leb x y) eqn:E.
  - constructor; [by constructor|]. constructor; [done|].
    eapply Forall_impl; [exact Hy|]. intros z Hz. by eapply leb_trans.
  - constructor; [done|]. rewrite sort_insert_perm. constructor; [|done].
    destruct (leb_total x y) as [?|?]; [congruence|done].
Qed.

Lemma sort_by_sorted l : StronglySorted R (sort_by leb l).
Proof. induction l; simpl; [constructor|by apply sort_insert_sorted]. Qed.
End sort_facts.

(** Two sorted permutations of each other coincide when the order is antisymmetric. *)
Lemma sorted_perm_unique {A} (leb : A -> A -> bool) l k :
  (forall x y, leb x y = true -> leb y x = true -> x = y) ->
  StronglySorted (fun x y => leb x y = true) l ->
  StronglySorted (fun x y => leb x y = true) k -> l ≡ₚ k -> l = k.
Proof.
  intros Hanti. revert k. induction l as [|x l IH]; intros k Hl Hk Hp.
  - by apply Permutation_nil in Hp.
  - destruct k as [|y k]; [by symmetry in Hp; apply Permutation_nil in Hp|].
    inversion Hl as [|?? Hl' Hx]; inversion Hk as [|?? Hk' Hy]; subst.
    assert (x = y) as ->.
    { assert (x ∈ y :: k) as Hxin by (rewrite <-Hp; left).
      assert (y ∈ x :: l) as Hyin by (rewrite Hp; left).
      apply elem_of_cons in Hxin as [->|Hxin]; [done|].
      apply elem_of_cons in Hyin as [->|Hyin]; [done|].
      rewrite Forall_forall in Hx, Hy. apply Hanti; auto. }
    f_equal. apply IH; [done..|]. by apply Permutation_cons_inv in Hp.
Qed.

#[export] Hint Resolve b2n_lt : relay.

(** ** Facts on early-exit loops *)

Section try_fold_facts.
Context {E A S : Type} (f : S -> A -> outcome E S).

Lemma try_fold_app s l k : try_fold f s (l ++ k) = (s' ← try_fold f s l; try_fold f s' k).
Proof. revert s. induction l as [|x l IH]; intros s; simpl; [done|]. destruct (f s x); simpl; auto. Qed.

(** Loop invariant rule: [P] relates the elements already processed to the state. *)
Lemma try_fold_inv (P : list A -> S -> Prop) s l s' :
  P [] s ->
  (forall done x s1 s2, P done s1 -> f s1 x = Ok s2 -> P (done ++ [x]) s2) ->
  try_fold f s l = Ok s' -> P l s'.
Proof.
  intros H0 Hstep. revert s'. induction l as [|x l IH] using rev_ind; intros s' Hl.
  - simpl in Hl. by simplify_eq.
  - rewrite try_fold_app in Hl. inv_outcome. simpl in *. inv_outcome. eauto.
Qed.

(** A loop whose body never panics does not panic. *)
Lemma try_fold_no_panic s l :
  (forall s1 x, x ∈ l -> f s1 x <> Panic) -> try_fold f s l <> Panic.
Proof.
  revert s. induction l as [|x l IH]; intros s H; simpl; [done|].
  destruct (f s x) eqn:Ef; simpl; [|done|].
  - apply IH. intros. apply H. by right.
  - exfalso. apply (H s x); [left|done].
Qed.
End try_fold_facts.

(** A validation loop succeeds exactly when every step does. *)
Lemma try_fold_unit_Ok {E A} (f : unit -> A -> outcome E unit) l :
  try_fold f tt l = Ok tt <-> forall x, x ∈ l -> f tt x = Ok tt.
Proof.
  induction l as [|x l IH]; simpl.
  - split; [intros _ x Hx; by apply elem_of_nil in Hx|done].
  - split.
    + intros H. inv_outcome. destruct x0. rewrite IH in H0.
      intros y [->|Hy]%elem_of_cons; auto.
    + intros H. rewrite (H x) by left. apply IH. intros y Hy. apply H. by right.
Qed.

Lemma filter_none {A} (P : A -> Prop) `{forall x, Decision (P x)} l :
  (forall x, x ∈ l -> ~ P x) -> filter P l = [].
Proof.
  induction l as [|x l IH]; intros Hno; [done|].
  rewrite filter_cons_False by (apply Hno; left). apply IH. intros y Hy. apply Hno. by right.
Qed.

(** Reduce the plumbing of the outcome monad and nothing else. *)
Ltac simp_out :=
  cbn [mbind outcome_bind ok_or map_err ensure mret outcome_ret fmap outcome_fmap].
Tactic Notation "simp_out" "in" hyp(H) :=
  cbn [mbind outcome_bind ok_or map_err ensure mret outcome_ret fmap outcome_fmap] in H.

(** ** Absence of panics *)

Section no_panic.
Context {E : Type}.

Lemma ok_or_no_panic {A} (o : option A) (e : E) : ok_or o e <> Panic.
Proof. by destruct o. Qed.
Lemma ensure_no_panic c (e : E) : ensure c e <> Panic.
Proof. by destruct c. Qed.
Lemma map_err_no_panic {F A} (f : E -> F) (m : outcome E A) : m <> Panic -> map_err f m <> Panic.
Proof. by destruct m. Qed.
Lemma bind_no_panic {A B} (m : outcome E A) (f : A -> outcome E B) :
  m <> Panic -> (forall a, m = Ok a -> f a <> Panic) -> (m ≫= f) <> Panic.
Proof. destruct m; simpl; auto. Qed.
Lemma slice_no_panic {A} (l : list A) a b :
  (a <= b)%N -> (b <= len l)%N -> slice_idx (E:=E) l a b <> Panic.
Proof. intros Ha Hb. by destruct (slice_idx_total (E:=E) l a b Ha Hb) as (? & -> & _). Qed.
Lemma usize_sub_no_panic {BP : BuildProfile} a b :
  overflow_checks = false -> usize_sub (E:=E) a b <> Panic.
Proof. intros Ho. unfold usize_sub. rewrite Ho. by destruct (b <=? a)%N. Qed.
Lemma usize_add_no_panic {BP : BuildProfile} a b :
  overflow_checks = false -> usize_add (E:=E) a b <> Panic.
Proof. intros Ho. unfold usize_add. rewrite Ho. by destruct (a + b <=? usize_max)%N. Qed.
End no_panic.

(** Decompose a goal [m <> Panic] along the structure of [m]. *)
Ltac no_panic :=
  repeat first
    [ apply ok_or_no_panic | apply ensure_no_panic
    | apply usize_sub_no_panic; done | apply usize_add_no_panic; done
    | apply map_err_no_panic
    | apply bind_no_panic; [|intros ? _] | done
    | match goal with |- (if ?c then _ else _) <> _ => destruct c end ].

(** ** State and errors: handlers that thread a state and keep it on an error *)

Definition stm (S E A : Type) : Type := S -> outcome E A * S.
#[global] Instance stm_ret {S E} : MRet (stm S E) := fun A a s => (Ok a, s).
#[global] Instance stm_bind {S E} : MBind (stm S E) := fun A B f m s =>
  match m s with
  | (Ok a, s') => f a s'
  | (Err e, s') => (Err e, s')
  | (Panic, s') => (Panic, s')
  end.
Definition pure {S E A} (r : outcome E A) : stm S E A := fun s => (r, s).

Section stm_facts.
Context {S E : Type}.

Lemma stm_bind_Ok {A B} (m : stm S E A) (f : A -> stm S E B) s b s' :
  (m ≫= f) s = (Ok b, s') <-> exists a s1, m s = (Ok a, s1) /\ f a s1 = (Ok b, s').
Proof.
  unfold mbind, stm_bind. destruct (m s) as [[a|e|] s1]; split; try done.
  - eauto.
  - by intros (a' & s2 & [= -> ->] & ?).
  - by intros (? & ? & ? & _).
  - by intros (? & ? & ? & _).
Qed.

Lemma pure_Ok {A} (r : outcome E A) s b s' :
  (pure r : stm S E A) s = (Ok b, s') <-> r = Ok b /\ s' = s.
Proof. unfold pure. split; [intros [= -> ->]|intros [-> ->]]; done. Qed.

Lemma stm_bind_run {A B} (m : stm S E A) (f : A -> stm S E B) a s s' :
  m s = (Ok a, s') -> (m ≫= f) s = f a s'.
Proof. unfold mbind, stm_bind. by intros ->. Qed.

Lemma mret_Ok {A} (a : A) s b s' : (mret a : stm S E A) s = (Ok b, s') <-> a = b /\ s' = s.
Proof. unfold mret, stm_ret. split; [intros [= -> ->]|intros [-> ->]]; done. Qed.

(** An error that leaves the state alone. *)
Definition refused {A} (x : outcome E A * S) (s : S) : Prop := x.2 = s /\ is_err x.1 = true.

Lemma refused_step {A B} (r : outcome E A) (f : A -> stm S E B) s :
  r <> Panic -> (forall a, r = Ok a -> refused (f a s) s) -> refused ((pure r ≫= f) s) s.
Proof. intros Hr Hf. unfold mbind, stm_bind, pure. destruct r as [a|e|]; [by apply Hf|done..]. Qed.

(** A computation that keeps the invariant [I], moves the state along the preorder [R]
    and does not panic. *)
Context (I : S -> Prop) (R : S -> S -> Prop) {R_pre : PreOrder R}.

Definition safe {A} (m : stm S E A) : Prop := forall s, I s ->
  I (m s).2 /\ R s (m s).2 /\ (m s).1 <> Panic.

Lemma safe_bind {A B} (m : stm S E A) (f : A -> stm S E B) :
  safe m -> (forall a, safe (f a)) -> safe (m ≫= f).
Proof.
  intros Hm Hf s Hi. destruct (Hm s Hi) as (H1 & H2 & H3). unfold mbind, stm_bind.
  destruct (m s) as [[a|e|] s1]; cbn [fst snd] in *; [|by split_and!|done].
  destruct (Hf a s1 H1) as (? & ? & ?). split_and!; [done|by etrans|done].
Qed.

Lemma safe_pure {A} (r : outcome E A) : r <> Panic -> safe (pure r).
Proof. intros Hr s Hi. unfold pure. by split_and!. Qed.

Lemma safe_ret {A} (a : A) : safe (mret a).
Proof. intros s Hi. unfold mret, stm_ret. by split_and!. Qed.

Lemma safe_bind_pure {A B} (r : outcome E A) (f : A -> stm S E B) :
  r <> Panic -> (forall a, r = Ok a -> safe (f a)) -> safe (pure r ≫= f).
Proof.
  intros Hr Hf s Hi. unfold mbind, stm_bind, pure. destruct r as [a|e|]; [by apply Hf|by split_and!|done].
Qed.
End stm_facts.

Ltac inv_stm :=
  repeat match goal with
  | H : (_ ≫= _) _ = (Ok _, _) |- _ => apply stm_bind_Ok in H as (? & ? & ? & ?)
  | H : pure _ _ = (Ok _, _) |- _ => apply pure_Ok in H as [? ->]
  | H : mret _ _ = (Ok _, _) |- _ => apply mret_Ok in H as [? ->]
  | _ => progress inv_outcome
  end.
