(* ===== verification/RustStr.v ===== *)
(** * Rust string operations on UTF-8 bytes

    The [str], [u8] and [char] methods the source calls, on the byte lists of
    [Prelude]. Whitespace is Unicode [White_Space], recognised on its UTF-8
    encoding, as [str::trim] and [str::split_whitespace] do. *)

From Stdlib Require DecimalN.
From S2P Require Import Prelude.

Local Open Scope N_scope.

(** ** [u8] classes *)

Definition in_range (lo hi : N) (b : byte) : bool := (lo <=? b2n b) && (b2n b <=? hi).

Definition is_ascii_digit (b : byte) : bool := in_range 48 57 b.
Definition is_ascii_upper (b : byte) : bool := in_range 65 90 b.
Definition is_ascii_lower (b : byte) : bool := in_range 97 122 b.
Definition is_ascii_alphanumeric (b : byte) : bool :=
  is_ascii_digit b || is_ascii_upper b || is_ascii_lower b.
Definition is_ascii_hexdigit (b : byte) : bool :=
  is_ascii_digit b || in_range 65 70 b || in_range 97 102 b.
Definition is_ascii_control (b : byte) : bool := (b2n b <? 32) || (b2n b =? 127).
(** Space, tab, line feed, form feed and carriage return, but not vertical tab. *)
Definition is_ascii_whitespace (b : byte) : bool :=
  (b2n b =? 32) || (b2n b =? 9) || (b2n b =? 10) || (b2n b =? 12) || (b2n b =? 13).
Definition is_ascii (b : byte) : bool := b2n b <? 128.

Definition ascii_lower (b : byte) : byte :=
  if is_ascii_upper b then n2b (b2n b + 32) else b.
Definition to_ascii_lowercase (s : bytes) : bytes := map ascii_lower s.
Definition eq_ignore_ascii_case (s t : bytes) : bool :=
  bool_decide (to_ascii_lowercase s = to_ascii_lowercase t).

(** ** Prefixes, suffixes and substrings *)

Fixpoint strip_prefix (p s : bytes) : option bytes :=
  match p, s with
  | [], _ => Some s
  | a :: p', b :: s' => if decide (a = b) then strip_prefix p' s' else None
  | _ :: _, [] => None
  end.
Definition starts_with (p s : bytes) : bool :=
  match strip_prefix p s with Some _ => true | None => false end.

(** [s.find(sub)], as the text before the first occurrence and the text from it. *)
Fixpoint find_at (sub s : bytes) : option (bytes * bytes) :=
  if starts_with sub s then Some ([], s)
  else match s with
       | [] => None
       | b :: s' => match find_at sub s' with
                    | Some (pre, rest) => Some (b :: pre, rest)
                    | None => None
                    end
       end.
Definition contains (sub s : bytes) : bool :=
  match find_at sub s with Some _ => true | None => false end.

(** [s.split_once(c)] and [s.split(c)] for a one-byte separator. *)
Fixpoint split_once (c : byte) (s : bytes) : option (bytes * bytes) :=
  match s with
  | [] => None
  | b :: s' => if decide (b = c) then Some ([], s')
               else match split_once c s' with
                    | Some (l, r) => Some (b :: l, r)
                    | None => None
                    end
  end.

Fixpoint split_char (c : byte) (s : bytes) : list bytes :=
  match s with
  | [] => [[]]
  | b :: s' =>
      if decide (b = c) then [] :: split_char c s'
      else match split_char c s' with
           | w :: ws => (b :: w) :: ws
           | [] => [[b]]
           end
  end.

Fixpoint drop_while (p : byte -> bool) (s : bytes) : bytes :=
  match s with
  | b :: s' => if p b then drop_while p s' else s
  | [] => []
  end.
Fixpoint take_while (p : byte -> bool) (s : bytes) : bytes :=
  match s with
  | b :: s' => if p b then b :: take_while p s' else []
  | [] => []
  end.

(** [s.trim_end_matches(p)] for a one-byte pattern class. *)
Definition trim_end_matches (p : byte -> bool) (s : bytes) : bytes :=
  rev (drop_while p (rev s)).

(** [s.trim_start_matches(pat)] for a non-empty string pattern: the pattern is
    removed as often as it occurs. The length of [s] bounds the repetitions. *)
Fixpoint trim_start_matches_fuel (fuel : nat) (p s : bytes) : bytes :=
  match fuel with
  | O => s
  | S n => match strip_prefix p s with
           | Some s' => trim_start_matches_fuel n p s'
           | None => s
           end
  end.
Definition trim_start_matches (p s : bytes) : bytes :=
  trim_start_matches_fuel (length s) p s.

(** ** Unicode whitespace on UTF-8 *)

Definition ws1 (a : byte) : bool := in_range 9 13 a || (b2n a =? 32).
Definition ws2 (a b : byte) : bool :=
  (b2n a =? 0xC2) && ((b2n b =? 0x85) || (b2n b =? 0xA0)).
Definition ws3 (a b c : byte) : bool :=
  ((b2n a =? 0xE1) && (b2n b =? 0x9A) && (b2n c =? 0x80))
  || ((b2n a =? 0xE2) && (b2n b =? 0x80)
      && (in_range 0x80 0x8A c || in_range 0xA8 0xA9 c || (b2n c =? 0xAF)))
  || ((b2n a =? 0xE2) && (b2n b =? 0x81) && (b2n c =? 0x9F))
  || ((b2n a =? 0xE3) && (b2n b =? 0x80) && (b2n c =? 0x80)).

Fixpoint trim_start (s : bytes) : bytes :=
  match s with
  | a :: s1 =>
      if ws1 a then trim_start s1 else
      match s1 with
      | b :: s2 =>
          if ws2 a b then trim_start s2 else
          match s2 with
          | c :: s3 => if ws3 a b c then trim_start s3 else s
          | [] => s
          end
      | [] => s
      end
  | [] => []
  end.

(** The same on the reversed string. *)
Fixpoint trim_start_rev (s : bytes) : bytes :=
  match s with
  | a :: s1 =>
      if ws1 a then trim_start_rev s1 else
      match s1 with
      | b :: s2 =>
          if ws2 b a then trim_start_rev s2 else
          match s2 with
          | c :: s3 => if ws3 c b a then trim_start_rev s3 else s
          | [] => s
          end
      | [] => s
      end
  | [] => []
  end.
Definition trim_end (s : bytes) : bytes := rev (trim_start_rev (rev s)).
Definition trim (s : bytes) : bytes := trim_end (trim_start s).

(** [s.split_whitespace()]; [acc] is the current word, reversed. *)
Definition flush (acc : bytes) (ws : list bytes) : list bytes :=
  match acc with [] => ws | _ => rev acc :: ws end.

Fixpoint split_ws_acc (acc s : bytes) : list bytes :=
  match s with
  | [] => flush acc []
  | a :: s1 =>
      if ws1 a then flush acc (split_ws_acc [] s1) else
      match s1 with
      | b :: s2 =>
          if ws2 a b then flush acc (split_ws_acc [] s2) else
          match s2 with
          | c :: s3 => if ws3 a b c then flush acc (split_ws_acc [] s3)
                       else split_ws_acc (a :: acc) s1
          | [] => split_ws_acc (a :: acc) s1
          end
      | [] => split_ws_acc (a :: acc) s1
      end
  end.
Definition split_whitespace (s : bytes) : list bytes := split_ws_acc [] s.

(** [words.join(sep)] *)
Fixpoint join (sep : bytes) (ws : list bytes) : bytes :=
  match ws with
  | [] => []
  | [w] => w
  | w :: ws' => w ++ sep ++ join sep ws'
  end.

(** ** Lines *)

Definition byte_lf : byte := "010"%byte.
Definition byte_cr : byte := "013"%byte.
Definition crlf : bytes := [byte_cr; byte_lf].

Definition strip_cr (s : bytes) : bytes :=
  match rev s with
  | b :: r => if decide (b = byte_cr) then rev r else s
  | [] => s
  end.

(** [s.lines()]: pieces ended by a line feed, an optional carriage return before
    it removed; the text after the last line feed is a line when not empty. *)
Fixpoint lines_pieces (ps : list bytes) : list bytes :=
  match ps with
  | [] => []
  | [p] => match p with [] => [] | _ => [p] end
  | p :: ps' => strip_cr p :: lines_pieces ps'
  end.
Definition lines (s : bytes) : list bytes := lines_pieces (split_char byte_lf s).

(** ** Numbers *)

Fixpoint uint_bytes (d : Decimal.uint) : bytes :=
  match d with
  | Decimal.Nil => []
  | Decimal.D0 d => "0"%byte :: uint_bytes d
  | Decimal.D1 d => "1"%byte :: uint_bytes d
  | Decimal.D2 d => "2"%byte :: uint_bytes d
  | Decimal.D3 d => "3"%byte :: uint_bytes d
  | Decimal.D4 d => "4"%byte :: uint_bytes d
  | Decimal.D5 d => "5"%byte :: uint_bytes d
  | Decimal.D6 d => "6"%byte :: uint_bytes d
  | Decimal.D7 d => "7"%byte :: uint_bytes d
  | Decimal.D8 d => "8"%byte :: uint_bytes d
  | Decimal.D9 d => "9"%byte :: uint_bytes d
  end.

(** [n.to_string()] *)
Definition dec (n : N) : bytes := uint_bytes (N.to_uint n).

Definition hex_digit_val (b : byte) : option N :=
  if is_ascii_digit b then Some (b2n b - 48)
  else if in_range 97 102 b then Some (b2n b - 87)
  else if in_range 65 70 b then Some (b2n b - 55)
  else None.

Fixpoint radix16_acc (acc : N) (s : bytes) : option N :=
  match s with
  | [] => Some acc
  | b :: s' =>
      match hex_digit_val b with
      | Some d => let acc' := acc * 16 + d in
                  if acc' <=? usize_max then radix16_acc acc' s' else None
      | None => None
      end
  end.

(** [usize::from_str_radix(s, 16)]: one leading plus sign is accepted; an empty
    or sign-only text, a bad digit and an overflow are errors. *)
Definition from_str_radix16 (s : bytes) : option N :=
  match s with
  | [] => None
  | b :: s' =>
      if decide (b = "+"%byte)
      then match s' with [] => None | _ => radix16_acc 0 s' end
      else radix16_acc 0 s
  end.

(** ** UTF-8 validity: [std::str::from_utf8] succeeds *)

Definition cont (b : byte) : bool := in_range 0x80 0xBF b.

Fixpoint utf8_valid (s : bytes) : bool :=
  match s with
  | [] => true
  | a :: s1 =>
      if is_ascii a then utf8_valid s1 else
      match s1 with
      | [] => false
      | b :: s2 =>
          if in_range 0xC2 0xDF a then cont b && utf8_valid s2 else
          match s2 with
          | [] => false
          | c :: s3 =>
              if in_range 0xE0 0xEF a then
                (if b2n a =? 0xE0 then in_range 0xA0 0xBF b
                 else if b2n a =? 0xED then in_range 0x80 0x9F b else cont b)
                && cont c && utf8_valid s3
              else
              match s3 with
              | [] => false
              | d :: s4 =>
                  in_range 0xF0 0xF4 a
                  && (if b2n a =? 0xF0 then in_range 0x90 0xBF b
                      else if b2n a =? 0xF4 then in_range 0x80 0x8F b else cont b)
                  && cont c && cont d && utf8_valid s4
              end
          end
      end
  end.

(** ** Byte-wise order of strings ([Ord for str]) *)

Fixpoint bcmp (s t : bytes) : comparison :=
  match s, t with
  | [], [] => Eq
  | [], _ :: _ => Lt
  | _ :: _, [] => Gt
  | a :: s', b :: t' =>
      match N.compare (b2n a) (b2n b) with Eq => bcmp s' t' | c => c end
  end.
Definition blt (s t : bytes) : Prop := bcmp s t = Lt.
Definition bleb (s t : bytes) : bool :=
  match bcmp s t with Gt => false | _ => true end.

(** [Vec<String>::sort] *)
Definition sort_strings (l : list bytes) : list bytes := sort_by bleb l.

(** ** Facts: prefixes and substrings *)

Lemma strip_prefix_Some p s r : strip_prefix p s = Some r <-> s = p ++ r.
Proof.
  revert s. induction p as [|a p IH]; intros s; simpl; [split; congruence|].
  destruct s as [|b s]; [split; intros; discriminate|].
  destruct (decide (a = b)) as [->|Hne].
  - rewrite IH. simpl. split; congruence.
  - split; [discriminate|]. intros [=]. congruence.
Qed.

Lemma strip_prefix_app p r : strip_prefix p (p ++ r) = Some r.
Proof. by apply strip_prefix_Some. Qed.

Lemma starts_with_true p s : starts_with p s = true <-> exists r, s = p ++ r.
Proof.
  unfold starts_with. destruct (strip_prefix p s) as [r|] eqn:E.
  - apply strip_prefix_Some in E. split; eauto.
  - split; [discriminate|]. intros [r Hr]. apply strip_prefix_Some in Hr. congruence.
Qed.

Lemma starts_with_app p r : starts_with p (p ++ r) = true.
Proof. apply starts_with_true; eauto. Qed.

Lemma find_at_Some sub s pre rest :
  find_at sub s = Some (pre, rest) -> s = pre ++ rest /\ starts_with sub rest = true.
Proof.
  revert pre. induction s as [|b s IH]; intros pre H; cbn [find_at] in H;
    [destruct (starts_with sub []) eqn:E|destruct (starts_with sub (b :: s)) eqn:E];
    try discriminate H.
  - injection H as <- <-. auto.
  - injection H as <- <-. auto.
  - destruct (find_at sub s) as [[pre' rest']|]; [|discriminate H].
    injection H as <- <-. destruct (IH pre') as [-> ?]; auto.
Qed.

Lemma find_at_None sub s pre post : find_at sub s = None -> s <> pre ++ sub ++ post.
Proof.
  revert pre. induction s as [|b s IH]; intros pre H Heq; cbn [find_at] in H;
    [destruct (starts_with sub []) eqn:E|destruct (starts_with sub (b :: s)) eqn:E];
    try discriminate H.
  - symmetry in Heq. apply app_eq_nil in Heq as [-> [-> ->]%app_eq_nil]. done.
  - destruct pre as [|a pre].
    + simpl in Heq. rewrite Heq, starts_with_app in E. done.
    + injection Heq as -> Hs. destruct (find_at sub s) as [[]|] eqn:F; [done|].
      by eapply IH.
Qed.

Lemma contains_true sub s : contains sub s = true <-> exists pre post, s = pre ++ sub ++ post.
Proof.
  unfold contains. destruct (find_at sub s) as [[pre rest]|] eqn:E.
  - apply find_at_Some in E as [-> [post ->]%starts_with_true]. split; eauto.
  - split; [done|]. intros (pre & post & Hs). by eapply find_at_None in Hs.
Qed.

(** The first occurrence of a separator that does not overlap itself. *)
Lemma find_at_first c sep pre post :
  c ∉ sep -> contains (c :: sep) pre = false ->
  find_at (c :: sep) (pre ++ (c :: sep) ++ post) = Some (pre, (c :: sep) ++ post).
Proof.
  intros Hc. induction pre as [|b pre IH]; intros Hn.
  - cbn [app]. unfold find_at; fold find_at.
    change (c :: sep ++ post) with ((c :: sep) ++ post). by rewrite starts_with_app.
  - assert (Hpre : contains (c :: sep) pre = false).
    { destruct (contains (c :: sep) pre) eqn:E; [|done].
      apply contains_true in E as (p & q & ->). rewrite <-Hn. symmetry.
      apply contains_true. by exists (b :: p), q. }
    assert (Hst : starts_with (c :: sep) ((b :: pre) ++ (c :: sep) ++ post) = false).
    { destruct (starts_with _ _) eqn:E; [|done]. apply starts_with_true in E as [r Hr].
      exfalso. injection Hr as -> Hr.
      destruct (decide (length sep <= length pre)%nat) as [Hle|Hgt].
      - assert (contains (c :: sep) (c :: pre) = true); [|congruence].
        apply contains_true. exists [], (take (length pre - length sep) r).
        cbn [app]. f_equal. transitivity (take (length pre) (sep ++ r)).
        + by rewrite <-Hr, take_app_length.
        + by rewrite take_app_ge.
      - apply (f_equal (fun l => l !! length pre)) in Hr.
        rewrite lookup_app_r, Nat.sub_diag in Hr by done. cbn in Hr.
        rewrite lookup_app_l in Hr by lia. apply Hc.
        apply list_elem_of_lookup. by exists (length pre). }
    specialize (IH Hpre). cbn [app] in IH, Hst. cbn [app find_at]. by rewrite Hst, IH.
Qed.

Lemma find_at_absent sub s : contains sub s = false -> find_at sub s = None.
Proof. unfold contains. by destruct (find_at sub s). Qed.

Lemma split_once_Some c s l r :
  split_once c s = Some (l, r) <-> s = l ++ c :: r /\ c ∉ l.
Proof.
  revert l. induction s as [|b s IH]; intros l; simpl.
  - split; [done|]. intros [H _]. by destruct l.
  - destruct (decide (b = c)) as [->|Hne].
    + split; [intros [= <- <-]; split; [done|set_solver]|].
      intros [H Hn]. destruct l as [|a l]; simpl in H; [by simplify_eq|].
      injection H as -> ->. set_solver.
    + destruct (split_once c s) as [[l' r']|].
      * split.
        -- intros [= <- <-]. destruct (proj1 (IH l') eq_refl) as [-> ?]. set_solver.
        -- intros [H Hn]. destruct l as [|a l]; simpl in H; [by simplify_eq|].
           injection H as -> Hs.
           assert (Some (l', r') = Some (l, r)) as [= -> ->]; [|done].
           apply IH. split; [done|set_solver].
      * split; [done|]. intros [H Hn]. destruct l as [|a l]; simpl in H; [by simplify_eq|].
        injection H as -> Hs. assert (None = Some (l, r)); [|done].
        apply IH. split; [done|set_solver].
Qed.

Lemma split_once_None c s : split_once c s = None <-> c ∉ s.
Proof.
  induction s as [|b s IH]; simpl; [set_solver|].
  destruct (decide (b = c)) as [->|Hne]; [set_solver|].
  destruct (split_once c s) as [[]|]; set_solver.
Qed.

Lemma split_once_app c l r : c ∉ l -> split_once c (l ++ c :: r) = Some (l, r).
Proof. intros. by apply split_once_Some. Qed.

Lemma take_drop_while p s : take_while p s ++ drop_while p s = s.
Proof. induction s as [|b s IH]; simpl; [done|]. destruct (p b); simpl; congruence. Qed.

Lemma take_while_Forall p s : Forall (fun b => p b = true) (take_while p s).
Proof. induction s as [|b s IH]; simpl; [done|]. destruct (p b) eqn:E; by constructor. Qed.

Lemma drop_while_idemp p s : drop_while p (drop_while p s) = drop_while p s.
Proof.
  induction s as [|b s IH]; simpl; [done|]. destruct (p b) eqn:E; [done|].
  simpl. by rewrite E.
Qed.

Lemma trim_end_matches_idemp p s :
  trim_end_matches p (trim_end_matches p s) = trim_end_matches p s.
Proof. unfold trim_end_matches. by rewrite rev_involutive, drop_while_idemp. Qed.

Lemma trim_end_matches_prefix p s : exists t, s = trim_end_matches p s ++ t.
Proof.
  exists (rev (take_while p (rev s))). unfold trim_end_matches.
  by rewrite <-rev_app_distr, take_drop_while, rev_involutive.
Qed.

Lemma split_char_not_nil c s : split_char c s <> [].
Proof. destruct s as [|b s]; simpl; [done|]. case_decide; [done|]. by destruct (split_char c s). Qed.

(** Trimming leaves a word of ASCII bytes without blanks alone. *)
Definition word_byte (b : byte) : bool := is_ascii b && negb (ws1 b).

Lemma ws2_ascii a b : is_ascii a = true -> ws2 a b = false.
Proof. unfold is_ascii, ws2. intros H%N.ltb_lt. destruct (N.eqb_spec (b2n a) 0xC2); [lia|done]. Qed.
Lemma ws3_ascii a b c : is_ascii a = true -> ws3 a b c = false.
Proof.
  unfold is_ascii, ws3. intros H%N.ltb_lt.
  by destruct (N.eqb_spec (b2n a) 0xE1), (N.eqb_spec (b2n a) 0xE2), (N.eqb_spec (b2n a) 0xE3);
    try lia.
Qed.

Lemma trim_word s : Forall (fun b => word_byte b = true) s -> trim s = s.
Proof.
  intros H.
  assert (Hs : trim_start s = s).
  { destruct H as [|a s Ha H]; [done|]. apply andb_true_iff in Ha as [Ha Hw].
    apply negb_true_iff in Hw. cbn [trim_start]. rewrite Hw.
    destruct s as [|b [|c s]]; rewrite ?ws2_ascii, ?ws3_ascii by done; done. }
  unfold trim. rewrite Hs. unfold trim_end.
  assert (Hr : trim_start_rev (rev s) = rev s).
  { assert (Hf : Forall (fun b => word_byte b = true) (rev s)) by by apply List.Forall_rev.
    revert Hf. generalize (rev s). clear. intros s H.
    destruct H as [|a s Ha H]; [done|]. apply andb_true_iff in Ha as [Ha Hw].
    apply negb_true_iff in Hw. cbn [trim_start_rev]. rewrite Hw.
    destruct H as [|b s Hb H]; [done|]. apply andb_true_iff in Hb as [Hb _].
    rewrite ws2_ascii by done. destruct H as [|c s Hc H]; [done|].
    apply andb_true_iff in Hc as [Hc _]. by rewrite ws3_ascii by done. }
  by rewrite Hr, rev_involutive.
Qed.

(** Trimming leaves ASCII text alone that starts and ends with a visible byte. *)
Lemma trim_start_word a s : word_byte a = true -> trim_start (a :: s) = a :: s.
Proof.
  intros [Ha Hw%negb_true_iff]%andb_true_iff. cbn [trim_start]. rewrite Hw.
  destruct s as [|b [|c s]]; rewrite ?ws2_ascii, ?ws3_ascii by done; done.
Qed.

Lemma trim_end_word s a : Forall (fun b => is_ascii b = true) s -> word_byte a = true ->
  trim_end (s ++ [a]) = s ++ [a].
Proof.
  intros Hs [Ha Hw%negb_true_iff]%andb_true_iff. unfold trim_end.
  rewrite rev_app_distr. cbn [rev app trim_start_rev]. rewrite Hw.
  assert (Hf : Forall (fun b => is_ascii b = true) (rev s)) by by apply List.Forall_rev.
  assert (Hr : rev (a :: rev s) = s ++ [a]) by (cbn [rev]; by rewrite rev_involutive).
  destruct Hf as [|b s' Hb Hf]; [done|]. rewrite ws2_ascii by done.
  destruct Hf as [|c s' Hc Hf]; [done|]. by rewrite ws3_ascii.
Qed.

Lemma trim_visible a m b : Forall (fun b => is_ascii b = true) (a :: m) ->
  word_byte a = true -> word_byte b = true -> trim (a :: m ++ [b]) = a :: m ++ [b].
Proof.
  intros Hm Ha Hb. unfold trim. rewrite trim_start_word by done.
  by apply (trim_end_word (a :: m) b).
Qed.

Lemma word_ascii s : Forall (fun b => word_byte b = true) s -> Forall (fun b => is_ascii b = true) s.
Proof. intros H. eapply Forall_impl; [exact H|]. by intros b [? _]%andb_true_iff. Qed.

(** A word is collected whole. *)
Lemma split_ws_word acc w rest : Forall (fun b => word_byte b = true) w ->
  split_ws_acc acc (w ++ rest) = split_ws_acc (rev w ++ acc) rest.
Proof.
  intros H. revert acc. induction H as [|a w [Ha Hw%negb_true_iff]%andb_true_iff _ IH]; intros acc;
    [done|]. cbn [app split_ws_acc rev]. rewrite Hw.
  transitivity (split_ws_acc (a :: acc) (w ++ rest)); [|rewrite IH, <-app_assoc; done].
  destruct (w ++ rest) as [|b [|c s]]; rewrite ?ws2_ascii, ?ws3_ascii by done; done.
Qed.

Lemma split_ws_space acc rest : split_ws_acc acc (" "%byte :: rest) = flush acc (split_ws_acc [] rest).
Proof. done. Qed.

Lemma utf8_ascii s : Forall (fun b => is_ascii b = true) s -> utf8_valid s = true.
Proof. induction 1 as [|a s Ha _ IH]; [done|]. cbn [utf8_valid]. by rewrite Ha. Qed.

Lemma hexdigit_word b : is_ascii_hexdigit b = true -> word_byte b = true.
Proof. by destruct b; vm_compute. Qed.

(** ** Facts: ASCII case *)

Lemma ascii_lower_idemp b : ascii_lower (ascii_lower b) = ascii_lower b.
Proof. by destruct b; vm_compute. Qed.

Lemma to_ascii_lowercase_idemp s :
  to_ascii_lowercase (to_ascii_lowercase s) = to_ascii_lowercase s.
Proof. induction s as [|b s IH]; simpl; [done|]. by rewrite ascii_lower_idemp, IH. Qed.

Lemma to_ascii_lowercase_app s t :
  to_ascii_lowercase (s ++ t) = to_ascii_lowercase s ++ to_ascii_lowercase t.
Proof. apply map_app. Qed.

Lemma len_to_ascii_lowercase s : len (to_ascii_lowercase s) = len s.
Proof. unfold len, to_ascii_lowercase. by rewrite length_map. Qed.

(** ** Facts: decimal numerals *)

Lemma uint_bytes_digits d : Forall (fun b => is_ascii_digit b = true) (uint_bytes d).
Proof. induction d; simpl; by constructor. Qed.

Lemma uint_bytes_inj d e : uint_bytes d = uint_bytes e -> d = e.
Proof.
  revert e. induction d; intros e; destruct e; simpl; try done;
    intros [= H]; f_equal; auto.
Qed.

Lemma dec_digits n : Forall (fun b => is_ascii_digit b = true) (dec n).
Proof. apply uint_bytes_digits. Qed.

Lemma dec_inj n m : dec n = dec m -> n = m.
Proof. intros H%uint_bytes_inj. by apply DecimalN.Unsigned.to_uint_inj in H. Qed.

Lemma dec_not_in n c : is_ascii_digit c = false -> c ∉ dec n.
Proof.
  intros Hc Hin. pose proof (dec_digits n) as H.
  rewrite Forall_forall in H. specialize (H c Hin). simpl in H. congruence.
Qed.

Lemma radix16_acc_bound acc s n : acc <= usize_max -> radix16_acc acc s = Some n -> n <= usize_max.
Proof.
  revert acc. induction s as [|b s IH]; intros acc Ha; cbn [radix16_acc]; [congruence|].
  destruct (hex_digit_val b); [|done].
  destruct (N.leb_spec (acc * 16 + n0) usize_max); [|done]. by apply IH.
Qed.

Lemma from_str_radix16_bound s n : from_str_radix16 s = Some n -> n <= usize_max.
Proof.
  unfold from_str_radix16. destruct s as [|b s]; [done|].
  case_decide; [destruct s; [done|]|]; apply radix16_acc_bound; done.
Qed.

(** ** Facts: the byte-wise order *)

Lemma bcmp_refl s : bcmp s s = Eq.
Proof. induction s as [|a s IH]; simpl; [done|]. by rewrite N.compare_refl. Qed.

Lemma bcmp_eq s t : bcmp s t = Eq <-> s = t.
Proof.
  split; [|intros ->; apply bcmp_refl].
  revert t. induction s as [|a s IH]; intros [|b t]; simpl; try done.
  destruct (N.compare_spec (b2n a) (b2n b)) as [H|H|H]; try done.
  apply b2n_inj in H as ->. intros. f_equal. auto.
Qed.

Lemma bcmp_antisym s t : bcmp s t = CompOpp (bcmp t s).
Proof.
  revert t. induction s as [|a s IH]; intros [|b t]; simpl; try done.
  rewrite (N.compare_antisym (b2n b)). destruct (N.compare (b2n b) (b2n a)); simpl; auto.
Qed.

Lemma blt_trans s t u : blt s t -> blt t u -> blt s u.
Proof.
  unfold blt. revert t u. induction s as [|a s IH]; intros [|b t] [|c u]; simpl; try done.
  destruct (N.compare_spec (b2n a) (b2n b)) as [H1|H1|H1]; try done;
  destruct (N.compare_spec (b2n b) (b2n c)) as [H2|H2|H2]; try done; intros E1 E2;
  destruct (N.compare_spec (b2n a) (b2n c)) as [H3|H3|H3]; try done; try lia; eauto.
Qed.

#[global] Instance blt_strict : StrictOrder blt.
Proof.
  split; [|exact blt_trans].
  intros s H. unfold blt in H. by rewrite bcmp_refl in H.
Qed.

Lemma blt_gt s t : bcmp s t = Gt <-> blt t s.
Proof. unfold blt. rewrite bcmp_antisym. destruct (bcmp t s); split; done. Qed.

Lemma bleb_total s t : bleb s t = true \/ bleb t s = true.
Proof. unfold bleb. rewrite (bcmp_antisym t). destruct (bcmp s t); simpl; auto. Qed.

Lemma bleb_anti s t : bleb s t = true -> bleb t s = true -> s = t.
Proof.
  unfold bleb. rewrite (bcmp_antisym t). intros H1 H2. apply bcmp_eq.
  destruct (bcmp s t); simpl in *; congruence.
Qed.

Lemma bleb_trans s t u : bleb s t = true -> bleb t u = true -> bleb s u = true.
Proof.
  unfold bleb. intros H1 H2.
  destruct (bcmp s t) eqn:E1; try done; destruct (bcmp t u) eqn:E2; try done.
  - apply bcmp_eq in E1 as ->. by rewrite E2.
  - apply bcmp_eq in E1 as ->. by rewrite E2.
  - apply bcmp_eq in E2 as ->. by rewrite E1.
  - by rewrite (blt_trans s t u).
Qed.

(** Sorting strings is canonical: permuted inputs give the same list. *)
Lemma sort_strings_perm l k : l ≡ₚ k <-> sort_strings l = sort_strings k.
Proof.
  unfold sort_strings. split; intros H.
  - apply (sorted_perm_unique bleb).
    + apply bleb_anti.
    + apply sort_by_sorted; [apply bleb_total|apply bleb_trans].
    + apply sort_by_sorted; [apply bleb_total|apply bleb_trans].
    + by rewrite !sort_by_perm.
  - by rewrite <-(sort_by_perm bleb l), H, sort_by_perm.
Qed.

#[export] Hint Rewrite strip_prefix_app starts_with_app : relay.
#[export] Hint Resolve bcmp_refl bleb_total bleb_anti bleb_trans : relay.

Example byte_lf_code : b2n byte_lf = 10. Proof. reflexivity. Qed.
Example byte_cr_code : b2n byte_cr = 13. Proof. reflexivity. Qed.
