(* ===== verification/NetAddr.v ===== *)
(** * Internet addresses

    The addresses the programs listen on: [IpAddr] and [SocketAddr] of the standard
    library, the parser behind [str::parse::<SocketAddr>], and what binding a listener can do. *)

From S2P Require Import Prelude RustStr.

Local Open Scope N_scope.

(** ** Addresses *)

(** Octets of an IPv4 address and 16-bit segments of an IPv6 address. *)
Inductive IpAddr :=
  | V4 (o0 o1 o2 o3 : N)
  | V6 (s0 s1 s2 s3 s4 s5 s6 s7 : N).
#[global] Instance IpAddr_eq_dec : EqDecision IpAddr.
Proof. solve_decision. Defined.

(** [is_loopback] and [is_private] of the standard library. *)
Definition is_loopback (ip : IpAddr) : bool :=
  match ip with
  | V4 o0 _ _ _ => o0 =? 127
  | V6 _ _ _ _ _ _ _ _ => bool_decide (ip = V6 0 0 0 0 0 0 0 1)
  end.
Definition is_private_v4 (o0 o1 : N) : bool :=
  (o0 =? 10) || ((o0 =? 172) && (16 <=? o1) && (o1 <=? 31)) || ((o0 =? 192) && (o1 =? 168)).

Definition ip_wf (ip : IpAddr) : Prop :=
  match ip with
  | V4 o0 o1 o2 o3 => Forall (fun o => o < 256) [o0; o1; o2; o3]
  | V6 s0 s1 s2 s3 s4 s5 s6 s7 => Forall (fun s => s < 65536) [s0; s1; s2; s3; s4; s5; s6; s7]
  end.

(** The scope of an IPv4 address is zero. *)
Record SocketAddr := {
  sa_ip : IpAddr;
  sa_port : N;
  sa_scope : N;
}.
#[global] Instance SocketAddr_eq_dec : EqDecision SocketAddr.
Proof. solve_decision. Defined.

Definition socket_wf (a : SocketAddr) : Prop :=
  ip_wf (sa_ip a) /\ sa_port a < 65536 /\ sa_scope a < 2 ^ 32.

(** ** The parser *)

(** What is read and what remains; a parser that fails consumes nothing. *)
Definition addr_parser (A : Type) : Type := bytes -> option (A * bytes).

Definition read_given_char (target : byte) : addr_parser unit := fun s =>
  match s with
  | c :: s' => if bool_decide (c = target) then Some (tt, s') else None
  | [] => None
  end.

(** Items after the first are preceded by the separator. *)
Definition read_separator {A} (sep : byte) (index : nat) (inner : addr_parser A) : addr_parser A :=
  fun s =>
  match index with
  | O => inner s
  | S _ => '(_, s') ← read_given_char sep s; inner s'
  end.

(** [char::to_digit] for radix 10 and 16. *)
Definition to_digit (radix : N) (b : byte) : option N :=
  d ← hex_digit_val b; if d <? radix then Some d else None.

(** The digit loops, which give up as soon as the value or the number of digits is too
    large. *)
Fixpoint digit_loop (radix : N) (gives_up : N -> nat -> bool) (acc : N) (count : nat) (s : bytes)
  : option (N * nat * bytes) :=
  match s with
  | b :: s' =>
      match to_digit radix b with
      | Some d => if gives_up (acc * radix + d) (S count) then None
                  else digit_loop radix gives_up (acc * radix + d) (S count) s'
      | None => Some (acc, count, s)
      end
  | [] => Some (acc, count, [])
  end.
Definition too_many (max_digits : nat) (_ : N) (count : nat) : bool := (max_digits <? count)%nat.
Definition too_large (bound : N) (acc : N) (_ : nat) : bool := bound <? acc.

(** Both reject an empty number, and a leading zero before other digits unless allowed. *)
Definition read_number (radix : N) (max_digits : option nat) (allow_zero_prefix : bool) (bound : N)
  : addr_parser N := fun s =>
  let has_leading_zero := bool_decide (head s = Some "0"%byte) in
  '(result, count, s') ← match max_digits with
                         | Some max => digit_loop radix (too_many max) 0 0 s
                         | None => digit_loop radix (too_large bound) 0 0 s
                         end;
  if (count =? 0)%nat then None
  else if negb allow_zero_prefix && has_leading_zero && (1 <? count)%nat then None
  else if result <=? bound then Some (result, s') else None.

Definition read_octet : addr_parser N := read_number 10 (Some 3%nat) false 255.

Definition read_ipv4_addr : addr_parser (N * N * N * N) := fun s =>
  '(a, s) ← read_separator "."%byte 0 read_octet s;
  '(b, s) ← read_separator "."%byte 1 read_octet s;
  '(c, s) ← read_separator "."%byte 2 read_octet s;
  '(d, s) ← read_separator "."%byte 3 read_octet s;
  Some ((a, b, c, d), s).

(** The groups up to [limit], of which [todo] are left, whether an IPv4 address ended
    them, and the rest. *)
Fixpoint read_groups (limit i todo : nat) (s : bytes) : list N * bool * bytes :=
  match todo with
  | O => ([], false, s)
  | S todo' =>
      match (if (i <? limit - 1)%nat then read_separator ":"%byte i read_ipv4_addr s else None) with
      | Some ((one, two, three, four), s') => ([one * 256 + two; three * 256 + four], true, s')
      | None =>
          match read_separator ":"%byte i (read_number 16 (Some 4%nat) true 65535) s with
          | Some (g, s') =>
              let '(gs, ipv4, s'') := read_groups limit (S i) todo' s' in (g :: gs, ipv4, s'')
          | None => ([], false, s)
          end
      end
  end.

Definition v6_of_groups (gs : list N) : option IpAddr :=
  match gs with
  | [s0; s1; s2; s3; s4; s5; s6; s7] => Some (V6 s0 s1 s2 s3 s4 s5 s6 s7)
  | _ => None
  end.

Definition read_ipv6_addr : addr_parser IpAddr := fun s =>
  let '(front, front_ipv4, s1) := read_groups 8 0 8 s in
  if (length front =? 8)%nat then ip ← v6_of_groups front; Some (ip, s1)
  else if front_ipv4 then None
  else
    '(_, s2) ← read_given_char ":"%byte s1;
    '(_, s3) ← read_given_char ":"%byte s2;
    let limit := (8 - (length front + 1))%nat in
    let '(back, _, s4) := read_groups limit 0 limit s3 in
    ip ← v6_of_groups (front ++ replicate (8 - length front - length back) 0 ++ back);
    Some (ip, s4).

Definition read_port : addr_parser N := fun s =>
  '(_, s1) ← read_given_char ":"%byte s; read_number 10 None true 65535 s1.
Definition read_scope_id : addr_parser N := fun s =>
  '(_, s1) ← read_given_char "%"%byte s; read_number 10 None true (2 ^ 32 - 1) s1.

Definition read_socket_addr_v4 : addr_parser SocketAddr := fun s =>
  '((a, b, c, d), s1) ← read_ipv4_addr s;
  '(port, s2) ← read_port s1;
  Some ({| sa_ip := V4 a b c d; sa_port := port; sa_scope := 0 |}, s2).
Definition read_socket_addr_v6 : addr_parser SocketAddr := fun s =>
  '(_, s1) ← read_given_char "["%byte s;
  '(ip, s2) ← read_ipv6_addr s1;
  let '(scope_id, s3) := default (0, s2) (read_scope_id s2) in
  '(_, s4) ← read_given_char "]"%byte s3;
  '(port, s5) ← read_port s4;
  Some ({| sa_ip := ip; sa_port := port; sa_scope := scope_id |}, s5).

Definition read_socket_addr : addr_parser SocketAddr := fun s =>
  match read_socket_addr_v4 s with
  | Some r => Some r
  | None => read_socket_addr_v6 s
  end.

(** The whole text has to be consumed. *)
Definition parse_socket_addr (s : bytes) : option SocketAddr :=
  match read_socket_addr s with
  | Some (a, []) => Some a
  | _ => None
  end.

(** ** Listening sockets *)

(** [TcpListener::bind], for a process that holds some sockets already. *)
Class TcpBind := tcp_bind : list SocketAddr -> SocketAddr -> bool.
Definition any_bind : TcpBind := fun _ _ => true.

Example parse_some_addresses :
  map parse_socket_addr [lit "0.0.0.0:8443"; lit "127.0.0.01:1"; lit "1.2.3.4:"; lit "1.2.3.256:1";
    lit "1.2.3.4:065535"; lit "1.2.3.4:65536"; lit "[::]:443"; lit "[1:2::3.4.5.6%7]:80";
    lit "[1:2:3:4:5:6:7:8]:1"; lit "[1::2::3]:1"; lit "localhost:1"; lit "[1:2:3:4:5:6:7::]:1"] =
  [Some {| sa_ip := V4 0 0 0 0; sa_port := 8443; sa_scope := 0 |}; None; None; None;
   Some {| sa_ip := V4 1 2 3 4; sa_port := 65535; sa_scope := 0 |}; None;
   Some {| sa_ip := V6 0 0 0 0 0 0 0 0; sa_port := 443; sa_scope := 0 |};
   Some {| sa_ip := V6 1 2 0 0 0 0 0x304 0x506; sa_port := 80; sa_scope := 7 |};
   Some {| sa_ip := V6 1 2 3 4 5 6 7 8; sa_port := 1; sa_scope := 0 |}; None; None;
   Some {| sa_ip := V6 1 2 3 4 5 6 7 0; sa_port := 1; sa_scope := 0 |}].
Proof. vm_compute. reflexivity. Qed.

(** ** Facts: ranges *)

Lemma read_number_bound radix max z bound s n r :
  read_number radix max z bound s = Some (n, r) -> n <= bound.
Proof.
  unfold read_number. intros H. destruct (match max with Some _ => _ | None => _ end) as [[[res cnt] s']|];
    cbn [mbind option_bind] in H; [|done].
  destruct (cnt =? 0)%nat; [done|]. destruct (_ && _); [done|].
  destruct (N.leb_spec res bound); [|done]. by injection H as -> ->.
Qed.

Lemma read_octet_bound s n r : read_octet s = Some (n, r) -> n < 256.
Proof. unfold read_octet. intros H%read_number_bound. lia. Qed.

Lemma read_separator_Some {A} sep i (p : addr_parser A) s a r :
  read_separator sep i p s = Some (a, r) -> exists s', p s' = Some (a, r).
Proof.
  unfold read_separator. destruct i; [by eauto|]. intros H.
  destruct (read_given_char sep s) as [[u s']|]; cbn [mbind option_bind] in H; [eauto|done].
Qed.

(** Take the parsers in a hypothesis apart. *)
Ltac inv_parse :=
  repeat match goal with
  | H : (?x ≫= _) = Some _ |- _ =>
      let E := fresh "E" in destruct x as [?|] eqn:E; cbn [mbind option_bind] in H; [|discriminate H]
  | p : (_ * _)%type |- _ => destruct p
  | H : Some _ = Some _ |- _ => injection H as H; subst
  end.

Lemma read_ipv4_bound s a b c d r : read_ipv4_addr s = Some ((a, b, c, d), r) -> ip_wf (V4 a b c d).
Proof.
  unfold read_ipv4_addr. intros H. inv_parse. simplify_eq.
  repeat match goal with H : read_separator _ _ read_octet _ = Some _ |- _ =>
    apply read_separator_Some in H as [? H%read_octet_bound] end.
  cbn [ip_wf]. by repeat constructor.
Qed.

Lemma read_groups_bound limit i todo s :
  Forall (fun g => g < 65536) (read_groups limit i todo s).1.1.
Proof.
  revert i s. induction todo as [|todo IH]; intros i s; cbn [read_groups]; [constructor|].
  destruct (if (i <? limit - 1)%nat then _ else None) as [[[[[a b] c] d] s']|] eqn:E.
  - destruct (i <? limit - 1)%nat; [|done]. apply read_separator_Some in E as [? E%read_ipv4_bound].
    cbn [ip_wf] in E. rewrite !Forall_cons in E. cbn [fst]. repeat constructor; lia.
  - clear E. destruct (read_separator ":"%byte i (read_number _ _ _ _) s) as [[g s']|] eqn:Eg; [|constructor].
    apply read_separator_Some in Eg as [? Eg%read_number_bound].
    specialize (IH (S i) s'). destruct (read_groups _ _ _ _) as [[gs v] s'']. cbn [fst] in *.
    constructor; [lia|done].
Qed.

Lemma v6_of_groups_wf gs ip : Forall (fun g => g < 65536) gs -> v6_of_groups gs = Some ip -> ip_wf ip.
Proof.
  intros H E. unfold v6_of_groups in E. repeat (destruct gs as [|? gs]; try done).
  by injection E as <-.
Qed.

Lemma read_ipv6_wf s ip r : read_ipv6_addr s = Some (ip, r) -> ip_wf ip.
Proof.
  unfold read_ipv6_addr. intros H. pose proof (read_groups_bound 8 0 8 s) as Hf.
  destruct (read_groups 8 0 8 s) as [[front v] s1]. cbn [fst] in Hf.
  destruct (length front =? 8)%nat.
  - inv_parse. simplify_eq. by eapply v6_of_groups_wf.
  - destruct v; [done|]. do 2 (destruct (read_given_char _ _) as [[? ?]|]; cbn [mbind option_bind] in H; [|done]).
    cbv zeta in H.
    match type of H with context [read_groups ?l 0 ?l ?x] => pose proof (read_groups_bound l 0 l x) as Hb;
      destruct (read_groups l 0 l x) as [[back w] s4] end. cbn [fst] in Hb.
    inv_parse. simplify_eq. eapply v6_of_groups_wf; [|done].
    rewrite !Forall_app. split_and!; [done| |done]. by apply Forall_replicate.
Qed.

Lemma read_ipv6_is_v6 s ip r : read_ipv6_addr s = Some (ip, r) -> forall b0 b1 b2 b3, ip <> V4 b0 b1 b2 b3.
Proof.
  assert (Hg : forall gs i, v6_of_groups gs = Some i -> forall b0 b1 b2 b3, i <> V4 b0 b1 b2 b3).
  { intros gs i E. unfold v6_of_groups in E. repeat (destruct gs as [|? gs]; try done). by injection E as <-. }
  unfold read_ipv6_addr. intros H. destruct (read_groups 8 0 8 s) as [[front v] s1].
  destruct (length front =? 8)%nat.
  - apply bind_Some in H as (i & E & [= <- <-]). by eapply Hg.
  - destruct v; [done|]. apply bind_Some in H as ([u s2] & _ & H). apply bind_Some in H as ([w s3] & _ & H).
    cbv zeta in H. destruct (read_groups _ _ _ s3) as [[back x] s4].
    apply bind_Some in H as (i & E & [= <- <-]). by eapply Hg.
Qed.

Lemma read_port_bound s p r : read_port s = Some (p, r) -> p < 65536.
Proof. unfold read_port. intros H. inv_parse. apply read_number_bound in H. lia. Qed.
Lemma read_scope_bound s p r : read_scope_id s = Some (p, r) -> p < 2 ^ 32.
Proof. unfold read_scope_id. intros H. inv_parse. apply read_number_bound in H. lia. Qed.

(** ** Facts: decimal numbers *)

Definition digits (ds : bytes) : Prop := Forall (fun b => is_ascii_digit b = true) ds.
(** No digit follows. *)
Definition digits_end (rest : bytes) : Prop := forall b r, rest = b :: r -> is_ascii_digit b = false.

Definition push_digit (acc : N) (b : byte) : N := acc * 10 + (b2n b - 48).
Definition digits_value (ds : bytes) : N := fold_left push_digit ds 0.

Lemma to_digit_10 b : to_digit 10 b = if is_ascii_digit b then Some (b2n b - 48) else None.
Proof. by destruct b. Qed.

Section digit_loop.
Context (gives_up : N -> nat -> bool).
Hypothesis Hmono : forall acc k b, gives_up acc k = true -> gives_up (push_digit acc b) (S k) = true.

Lemma gives_up_later acc k ds : gives_up acc k = true ->
  gives_up (fold_left push_digit ds acc) (k + length ds) = true.
Proof using Hmono.
  revert acc k. induction ds as [|b ds IH]; intros acc k H; cbn [fold_left length].
  - by rewrite Nat.add_0_r.
  - rewrite Nat.add_succ_r. apply (IH _ (S k)). by apply Hmono.
Qed.

(** The loop reads the digits up to the first other byte. *)
Lemma digit_loop_spec acc cnt s n k rest :
  digit_loop 10 gives_up acc cnt s = Some (n, k, rest) <->
  exists ds, s = ds ++ rest /\ digits ds /\ digits_end rest /\ n = fold_left push_digit ds acc /\
    k = (cnt + length ds)%nat /\ (ds <> [] -> gives_up n k = false).
Proof using Hmono.
  assert (Hend : forall s, digits_end s -> forall ds, s = ds ++ rest -> digits ds -> ds = []).
  { intros s' He [|c ds] -> Hd; [done|]. apply Forall_cons in Hd as [Hd _].
    by rewrite (He c (ds ++ rest) eq_refl) in Hd. }
  revert acc cnt. induction s as [|b s IH]; intros acc cnt; cbn [digit_loop].
  - split.
    + intros [= <- <- <-]. exists []. cbn [length]. rewrite Nat.add_0_r. split_and!; try done; by constructor.
    + intros (ds & Hs & _ & _ & -> & -> & _). symmetry in Hs. apply app_nil in Hs as [-> ->].
      by rewrite Nat.add_0_r.
  - rewrite to_digit_10. destruct (is_ascii_digit b) eqn:Hb.
    + change (acc * 10 + (b2n b - 48)) with (push_digit acc b). split.
      * destruct (gives_up (push_digit acc b) (S cnt)) eqn:Hg; [done|].
        intros (ds & -> & Hd & He & -> & -> & Hk)%IH. exists (b :: ds). cbn [app fold_left length].
        rewrite Nat.add_succ_r. split_and!; try done; [by constructor|]. intros _.
        destruct ds as [|c ds]; [by rewrite Nat.add_0_r|]. by apply Hk.
      * intros (ds & Hs & Hd & He & -> & -> & Hk). destruct ds as [|c ds].
        { cbn [app] in Hs. subst rest. by rewrite (He b s eq_refl) in Hb. }
        injection Hs as <- ->. apply Forall_cons in Hd as [_ Hd]. cbn [fold_left length] in *.
        rewrite Nat.add_succ_r in *.
        destruct (gives_up (push_digit acc b) (S cnt)) eqn:Hg.
        { apply (gives_up_later _ _ ds) in Hg. cbn [Nat.add] in Hg. by rewrite Hk in Hg. }
        apply IH. exists ds. split_and!; try done. intros _. by apply Hk.
    + assert (He : digits_end (b :: s)) by (by intros c r [= <- _]). split.
      * intros [= <- <- <-]. exists []. cbn [length]. rewrite Nat.add_0_r. split_and!; try done; by constructor.
      * intros (ds & Hs & Hd & _ & -> & -> & _). pose proof (Hend _ He ds Hs Hd) as ->.
        cbn [app] in Hs. by rewrite Nat.add_0_r, Hs.
Qed.
End digit_loop.

Lemma too_many_mono max acc k b : too_many max acc k = true -> too_many max (push_digit acc b) (S k) = true.
Proof. unfold too_many. rewrite !Nat.ltb_lt. lia. Qed.
Lemma too_large_mono bound acc k b :
  too_large bound acc k = true -> too_large bound (push_digit acc b) (S k) = true.
Proof. unfold too_large, push_digit. rewrite !N.ltb_lt. lia. Qed.

(** ** Facts: the text of an IPv4 socket address *)

(** Three digits without a leading zero are the decimal text of their value. *)
Definition ten_digits : bytes := lit "0123456789".
Definition octet_text (ds : bytes) : bool :=
  bool_decide (ds <> []) && (length ds <=? 3)%nat
  && negb (bool_decide (head ds = Some "0"%byte) && (1 <? length ds)%nat)
  && (digits_value ds <=? 255).

Definition three_digits : list bytes :=
  a ← ten_digits; b ← ten_digits; c ← ten_digits; [[a]; [a; b]; [a; b; c]].

Lemma three_digits_dec :
  forallb (fun ds => implb (octet_text ds) (bool_decide (ds = dec (digits_value ds)))) three_digits = true.
Proof. vm_compute. reflexivity. Qed.

Lemma digit_in b : is_ascii_digit b = true -> b ∈ ten_digits.
Proof. intros H. apply (bool_decide_unpack _). revert H. by destruct b. Qed.

Lemma in_three_digits f a b c : is_ascii_digit a = true -> is_ascii_digit b = true -> is_ascii_digit c = true ->
  f ∈ [[a]; [a; b]; [a; b; c]] -> f ∈ three_digits.
Proof.
  intros Ha%digit_in Hb%digit_in Hc%digit_in Hf. unfold three_digits.
  apply list_elem_of_bind. exists a. split; [|done]. apply list_elem_of_bind. exists b. split; [|done].
  apply list_elem_of_bind. by exists c.
Qed.

Lemma octet_text_dec ds : digits ds -> octet_text ds = true -> ds = dec (digits_value ds).
Proof.
  intros Hd Ho. assert (Hin : ds ∈ three_digits).
  { unfold octet_text in Ho. rewrite !andb_true_iff in Ho. destruct Ho as [[[Hne Hl] _] _].
    apply bool_decide_eq_true in Hne. apply Nat.leb_le in Hl.
    destruct ds as [|a [|b [|c [|]]]]; cbn [length] in Hl; [done| | | |lia];
      repeat (apply Forall_cons in Hd as [? Hd]);
      [eapply (in_three_digits _ a a a)|eapply (in_three_digits _ a b b)|eapply (in_three_digits _ a b c)];
      try done; rewrite !elem_of_cons; auto. }
  pose proof three_digits_dec as H. rewrite forallb_forall in H.
  apply list_elem_of_In, H in Hin. rewrite Ho in Hin. by apply bool_decide_eq_true in Hin.
Qed.

Lemma octets_text : forallb (fun n => octet_text (dec n) && (digits_value (dec n) =? n))
  (map N.of_nat (seq 0 256)) = true.
Proof. vm_compute. reflexivity. Qed.

Lemma dec_octet n : n < 256 -> octet_text (dec n) = true /\ digits_value (dec n) = n.
Proof.
  intros Hn. pose proof octets_text as H. rewrite forallb_forall in H. specialize (H n).
  rewrite andb_true_iff, N.eqb_eq in H. apply H, in_map_iff. exists (N.to_nat n).
  split; [lia|]. apply in_seq. lia.
Qed.

Lemma read_octet_spec s n rest :
  read_octet s = Some (n, rest) <-> n < 256 /\ s = dec n ++ rest /\ digits_end rest.
Proof.
  unfold read_octet, read_number. cbn [negb andb]. split.
  - intros H. inv_parse. match goal with H : digit_loop _ _ _ _ _ = _ |- _ =>
      apply (digit_loop_spec _ (too_many_mono 3)) in H as (ds & -> & Hd & He & -> & -> & Hg) end.
    cbn [Nat.add] in *. fold (digits_value ds) in *. unfold too_many in Hg.
    destruct ds as [|a ds]; [done|]. cbn [length Nat.eqb app head] in *.
    destruct (bool_decide _ && _) eqn:Hz; [done|]. destruct (N.leb_spec (digits_value (a :: ds)) 255); [|done].
    simplify_eq. split; [lia|]. split; [|done].
    rewrite app_comm_cons. f_equal. apply octet_text_dec; [done|].
    specialize (Hg ltac:(done)). apply Nat.ltb_ge in Hg. unfold octet_text. cbn [length head].
    rewrite bool_decide_eq_true_2 by done. apply Nat.leb_le in Hg. rewrite Hg, Hz. by apply N.leb_le.
  - intros (Hn & -> & He). destruct (dec_octet n Hn) as [Ho Hv].
    unfold octet_text in Ho. rewrite !andb_true_iff in Ho. destruct Ho as [[[Hne Hl] Hz] Hb].
    apply bool_decide_eq_true in Hne. rewrite negb_true_iff in Hz.
    assert (Hloop : digit_loop 10 (too_many 3) 0 0 (dec n ++ rest) = Some (n, length (dec n), rest)).
    { apply (digit_loop_spec _ (too_many_mono 3)). exists (dec n). split_and!; try done; [apply dec_digits|].
      intros _. unfold too_many. apply Nat.ltb_ge. by apply Nat.leb_le. }
    rewrite Hloop. cbn [mbind option_bind]. rewrite Hv in Hb.
    assert (Hh : head (dec n ++ rest) = head (dec n)) by by destruct (dec n).
    rewrite Hh, Hz, Hb. by destruct (dec n).
Qed.

Lemma read_port_spec s n rest :
  read_port s = Some (n, rest) <->
  exists ds, s = ":"%byte :: ds ++ rest /\ digits ds /\ ds <> [] /\ digits_end rest /\
    n = digits_value ds /\ n < 65536.
Proof.
  unfold read_port, read_number. cbn [negb andb]. split.
  - intros H. inv_parse. apply (digit_loop_spec _ (too_large_mono 65535)) in E0 as (ds & -> & Hd & He & -> & -> & _).
    cbn [Nat.add] in H. destruct s as [|c s]; [done|]. cbn [read_given_char] in E.
    case_bool_decide; [|done]. simplify_eq.
    destruct ds as [|d ds]; [done|]. cbn [length Nat.eqb] in H. fold (digits_value (d :: ds)) in H.
    destruct (N.leb_spec (digits_value (d :: ds)) 65535); [|done]. simplify_eq.
    exists (d :: ds). split_and!; try done. lia.
  - intros (ds & -> & Hd & Hne & He & -> & Hn). cbn [read_given_char].
    rewrite bool_decide_eq_true_2 by done. cbn [mbind option_bind].
    assert (Hloop : digit_loop 10 (too_large 65535) 0 0 (ds ++ rest) = Some (digits_value ds, length ds, rest)).
    { apply (digit_loop_spec _ (too_large_mono 65535)). exists ds. split_and!; try done.
      intros _. unfold too_large. apply N.ltb_ge. lia. }
    rewrite Hloop. cbn [mbind option_bind]. destruct (N.leb_spec (digits_value ds) 65535); [|lia].
    by destruct ds.
Qed.

Lemma read_separator_S {A} sep i (p : addr_parser A) s a r :
  read_separator sep (S i) p s = Some (a, r) <-> exists s', s = sep :: s' /\ p s' = Some (a, r).
Proof.
  cbn [read_separator]. split.
  - destruct s as [|c s]; cbn [read_given_char]; [done|]. case_bool_decide; [|done].
    cbn [mbind option_bind]. subst c. by eauto.
  - intros (s' & -> & Hp). cbn [read_given_char]. by rewrite bool_decide_eq_true_2.
Qed.

Definition dotted (a b c d : N) : bytes :=
  dec a ++ lit "." ++ dec b ++ lit "." ++ dec c ++ lit "." ++ dec d.

Lemma dot_ends s : digits_end ("."%byte :: s).
Proof. by intros b r [= <- _]. Qed.
Lemma colon_ends s : digits_end (":"%byte :: s).
Proof. by intros b r [= <- _]. Qed.

Lemma read_ipv4_spec s a b c d rest :
  read_ipv4_addr s = Some ((a, b, c, d), rest) <->
  ip_wf (V4 a b c d) /\ s = dotted a b c d ++ rest /\ digits_end rest.
Proof.
  unfold read_ipv4_addr, dotted. split.
  - intros H. pose proof (read_ipv4_bound s a b c d rest H) as Hwf. split; [done|]. inv_parse. simplify_eq.
    cbn [read_separator] in E. apply read_octet_spec in E as (_ & -> & _).
    apply read_separator_S in E0 as (? & -> & (_ & -> & _)%read_octet_spec).
    apply read_separator_S in E1 as (? & -> & (_ & -> & _)%read_octet_spec).
    apply read_separator_S in E2 as (? & -> & (_ & -> & He)%read_octet_spec).
    split; [|done]. change (lit ".") with ["."%byte]. by rewrite <-!app_assoc.
  - intros (Hwf & -> & He). cbn [ip_wf] in Hwf. rewrite !Forall_cons in Hwf. change (lit ".") with ["."%byte].
    rewrite <-!app_assoc. cbn [app].
    assert (Hread : forall n r, n < 256 -> digits_end r -> read_octet (dec n ++ r) = Some (n, r))
      by (intros n r ? ?; by apply read_octet_spec).
    assert (Hsep : forall i n r, n < 256 -> digits_end r ->
      read_separator "."%byte (S i) read_octet ("."%byte :: dec n ++ r) = Some (n, r))
      by (intros i n r ? ?; apply read_separator_S; eexists; split; [done|by apply read_octet_spec]).
    change (read_separator "."%byte 0 read_octet) with read_octet. rewrite Hread by (tauto || apply dot_ends). cbn [mbind option_bind].
    repeat first [rewrite Hsep by first [tauto|apply dot_ends]|progress cbn [mbind option_bind]]. done.
Qed.

Lemma read_v6_shape s a r : read_socket_addr_v6 s = Some (a, r) ->
  socket_wf a /\ forall s0 s1 s2 s3, sa_ip a <> V4 s0 s1 s2 s3.
Proof.
  unfold read_socket_addr_v6. intros H. apply bind_Some in H as ([u s1] & _ & H).
  apply bind_Some in H as ([ip s2] & Hip & H). cbn beta iota in H.
  destruct (default (0, s2) (read_scope_id s2)) as [scope s3] eqn:Es.
  apply bind_Some in H as ([v s4] & _ & H). apply bind_Some in H as ([port s5] & Hp & H). simplify_eq.
  unfold socket_wf. cbn [sa_ip sa_port sa_scope]. split_and!.
  - by eapply read_ipv6_wf.
  - by eapply read_port_bound.
  - destruct (read_scope_id s2) as [[n s']|] eqn:E; cbn [default id] in Es; simplify_eq; [|lia].
    by eapply read_scope_bound.
  - intros b0 b1 b2 b3. by eapply read_ipv6_is_v6.
Qed.

Lemma read_v4_shape s a r : read_socket_addr_v4 s = Some (a, r) -> socket_wf a.
Proof.
  unfold read_socket_addr_v4. intros H. apply bind_Some in H as ([[[[b0 b1] b2] b3] s1] & Hip & H).
  apply bind_Some in H as ([port s2] & Hp & H). simplify_eq. split; [by eapply read_ipv4_bound|].
  split; [by eapply read_port_bound|]. cbn. lia.
Qed.

Lemma parse_socket_wf s a : parse_socket_addr s = Some a -> socket_wf a.
Proof.
  unfold parse_socket_addr, read_socket_addr.
  destruct (read_socket_addr_v4 s) as [[b [|]]|] eqn:E4; [intros [= ->]; by eapply read_v4_shape|done|].
  destruct (read_socket_addr_v6 s) as [[b [|]]|] eqn:E6; try done. intros [= ->]. by eapply read_v6_shape.
Qed.

(** Exactly four octets without leading zeros and a port are read as an IPv4 address. *)
Lemma parse_v4_text s b0 b1 b2 b3 port scope :
  parse_socket_addr s = Some {| sa_ip := V4 b0 b1 b2 b3; sa_port := port; sa_scope := scope |} <->
  ip_wf (V4 b0 b1 b2 b3) /\ scope = 0 /\
  exists ds, s = dotted b0 b1 b2 b3 ++ lit ":" ++ ds /\ digits ds /\ ds <> [] /\
    digits_value ds = port /\ port < 65536.
Proof.
  unfold parse_socket_addr, read_socket_addr. split.
  - destruct (read_socket_addr_v4 s) as [[x [|]]|] eqn:E4; [intros [= ->]|done|].
    + unfold read_socket_addr_v4 in E4. apply bind_Some in E4 as ([[[[c0 c1] c2] c3] s1] & Hip & E4).
      apply bind_Some in E4 as ([p s2] & Hp & E4). simplify_eq.
      apply read_ipv4_spec in Hip as (Hwf & -> & _). apply read_port_spec in Hp as (ds & -> & Hd & Hne & _ & -> & Hlt).
      split; [done|]. split; [done|]. exists ds. rewrite app_nil_r. done.
    + destruct (read_socket_addr_v6 s) as [[x [|]]|] eqn:E6; try done. intros [= ->].
      apply read_v6_shape in E6 as [_ Hne]. by destruct (Hne b0 b1 b2 b3).
  - intros (Hwf & -> & ds & -> & Hd & Hne & <- & Hlt). unfold read_socket_addr_v4.
    assert (Hip : read_ipv4_addr (dotted b0 b1 b2 b3 ++ lit ":" ++ ds) =
      Some ((b0, b1, b2, b3), ":"%byte :: ds)) by (apply read_ipv4_spec; split_and!; [done|done|apply colon_ends]).
    assert (Hp : read_port (":"%byte :: ds) = Some (digits_value ds, [])).
    { apply read_port_spec. exists ds. rewrite app_nil_r. by split_and!. }
    rewrite Hip. cbn [mbind option_bind]. by rewrite Hp.
Qed.
