(* ===== verification/BTree.v ===== *)
(** * Ordered maps and sets keyed by strings

    [BTreeMap<String, V>] and [BTreeSet<String>] as association lists in
    strictly increasing byte-wise key order, which is the order the source
    iterates in. The map operations refine those of [gmap]. *)

From S2P Require Import Prelude RustStr.

(** ** Maps *)

Definition btree (V : Type) : Type := list (bytes * V).

Section btree.
Context {V : Type}.

Definition bt_empty : btree V := [].

Fixpoint bt_get (k : bytes) (m : btree V) : option V :=
  match m with
  | [] => None
  | (k', v) :: m' => if decide (k' = k) then Some v else bt_get k m'
  end.

(** [m.insert(k, v)]: an existing value is replaced. *)
Fixpoint bt_insert (k : bytes) (v : V) (m : btree V) : btree V :=
  match m with
  | [] => [(k, v)]
  | (k', v') :: m' =>
      match bcmp k k' with
      | Lt => (k, v) :: m
      | Eq => (k, v) :: m'
      | Gt => (k', v') :: bt_insert k v m'
      end
  end.

(** [f(m.entry(k).or_default())] *)
Definition bt_entry (k : bytes) (dflt : V) (f : V -> V) (m : btree V) : btree V :=
  bt_insert k (f (default dflt (bt_get k m))) m.

(** The map invariant: keys strictly increase. *)
Definition bt_wf (m : btree V) : Prop := StronglySorted (fun x y => blt x.1 y.1) m.

Definition bt_to_gmap (m : btree V) : gmap bytes V := list_to_map m.
End btree.

(** ** Sets *)

Fixpoint bs_insert (k : bytes) (s : list bytes) : list bytes :=
  match s with
  | [] => [k]
  | k' :: s' =>
      match bcmp k k' with
      | Lt => k :: s
      | Eq => s
      | Gt => k' :: bs_insert k s'
      end
  end.

(** [s.extend(ks)] *)
Definition bs_extend (s ks : list bytes) : list bytes :=
  fold_left (fun acc k => bs_insert k acc) ks s.

Definition bs_wf (s : list bytes) : Prop := StronglySorted blt s.

(** ** Facts on maps *)

Section btree_facts.
Context {V : Type}.
Implicit Types (m : btree V) (k : bytes) (v : V).

Lemma bt_get_insert k k' v m :
  bt_get k' (bt_insert k v m) = if decide (k = k') then Some v else bt_get k' m.
Proof.
  induction m as [|[k1 v1] m IH]; cbn [bt_insert bt_get]; [done|].
  destruct (bcmp k k1) eqn:E; cbn [bt_get].
  - apply bcmp_eq in E as ->. repeat case_decide; congruence.
  - done.
  - rewrite IH. repeat case_decide; try done. subst.
    by rewrite bcmp_refl in E.
Qed.

Lemma bt_get_insert_eq k v m : bt_get k (bt_insert k v m) = Some v.
Proof. rewrite bt_get_insert. by case_decide. Qed.

Lemma bt_get_insert_ne k k' v m : k <> k' -> bt_get k' (bt_insert k v m) = bt_get k' m.
Proof. intros. rewrite bt_get_insert. by case_decide. Qed.

Lemma bt_get_gmap k m : bt_get k m = bt_to_gmap m !! k.
Proof.
  unfold bt_to_gmap. induction m as [|[k1 v1] m IH]; simpl; [by rewrite lookup_empty|].
  rewrite lookup_insert. by repeat case_decide.
Qed.

Lemma bt_to_gmap_insert k v m : bt_to_gmap (bt_insert k v m) = <[k:=v]> (bt_to_gmap m).
Proof.
  apply map_eq. intros k'. rewrite <-bt_get_gmap, bt_get_insert, lookup_insert.
  case_decide; [done|]. apply bt_get_gmap.
Qed.

Lemma bt_insert_elem k v m x : x ∈ bt_insert k v m -> x = (k, v) \/ x ∈ m.
Proof.
  induction m as [|[k1 v1] m IH]; cbn [bt_insert].
  - rewrite list_elem_of_singleton. auto.
  - destruct (bcmp k k1); rewrite !elem_of_cons; intuition.
Qed.

Lemma bt_insert_wf k v m : bt_wf m -> bt_wf (bt_insert k v m).
Proof.
  unfold bt_wf. induction 1 as [|[k1 v1] m Hs IH Hlt]; cbn [bt_insert].
  - repeat constructor.
  - destruct (bcmp k k1) eqn:E.
    + apply bcmp_eq in E as ->. by constructor.
    + constructor; [by constructor|]. constructor; [done|].
      eapply Forall_impl; [exact Hlt|]. simpl. intros x Hx.
      eapply blt_trans; [exact E|exact Hx].
    + constructor; [done|]. apply Forall_forall. intros x [->|Hx]%bt_insert_elem; simpl.
      * by apply blt_gt.
      * rewrite Forall_forall in Hlt. exact (Hlt x Hx).
Qed.

Lemma bt_entry_wf k d f m : bt_wf m -> bt_wf (bt_entry k d f m).
Proof. apply bt_insert_wf. Qed.

Lemma bt_get_elem k v m : bt_get k m = Some v -> (k, v) ∈ m.
Proof.
  induction m as [|[k1 v1] m IH]; cbn [bt_get]; [done|].
  case_decide; [intros [= ->]; subst; left|right; auto].
Qed.

Lemma bt_elem_get k v m : bt_wf m -> (k, v) ∈ m -> bt_get k m = Some v.
Proof.
  unfold bt_wf. induction 1 as [|[k1 v1] m Hs IH Hlt]; cbn [bt_get].
  - set_solver.
  - intros [[= -> ->]|Hin]%elem_of_cons; [by case_decide|].
    case_decide; [|auto]. subst. rewrite Forall_forall in Hlt.
    specialize (Hlt _ Hin). simpl in Hlt. by apply irreflexivity in Hlt; [|apply _].
Qed.

(** Two well-formed maps with the same lookups are equal. *)
Lemma bt_ext (m1 m2 : btree V) :
  bt_wf m1 -> bt_wf m2 -> (forall k, bt_get k m1 = bt_get k m2) -> m1 = m2.
Proof.
  intros W1 W2 H.
  assert (Hin : forall x, x ∈ m1 <-> x ∈ m2).
  { intros [k v]. split; intros Hx; apply bt_get_elem;
      [rewrite <-H|rewrite H]; by apply bt_elem_get. }
  clear H. revert m2 W2 Hin. induction W1 as [|x m1 Hs IH Hlt]; intros m2 W2 Hin.
  - destruct m2 as [|y m2]; [done|]. exfalso.
    assert (y ∈ @nil (bytes * V)) as Hy by (apply Hin; left). by apply elem_of_nil in Hy.
  - destruct W2 as [|y m2 Hs2 Hlt2].
    { exfalso. assert (x ∈ @nil (bytes * V)) as Hx by (apply Hin; left). by apply elem_of_nil in Hx. }
    rewrite Forall_forall in Hlt, Hlt2.
    assert (x = y) as ->.
    { assert (x ∈ y :: m2) as Hx by (apply Hin; left).
      assert (y ∈ x :: m1) as Hy by (apply Hin; left).
      apply elem_of_cons in Hx as [->|Hx]; [done|].
      apply elem_of_cons in Hy as [->|Hy]; [done|].
      specialize (Hlt2 _ Hx). specialize (Hlt _ Hy).
      exfalso. eapply (irreflexivity blt). by eapply blt_trans. }
    f_equal. apply IH; [done|]. intros z. split; intros Hz.
    + assert (z ∈ y :: m2) as [->|?]%elem_of_cons by (apply Hin; by right); [|done].
      exfalso. by apply (irreflexivity blt y.1), Hlt.
    + assert (z ∈ y :: m1) as [->|?]%elem_of_cons by (apply Hin; by right); [|done].
      exfalso. by apply (irreflexivity blt y.1), Hlt2.
Qed.

Lemma bt_wf_NoDup_keys m : bt_wf m -> NoDup m.*1.
Proof.
  unfold bt_wf. induction 1 as [|[k v] m Hs IH Hlt]; simpl; constructor; [|done].
  intros ([k' v'] & -> & Hx)%list_elem_of_fmap. rewrite Forall_forall in Hlt.
  specialize (Hlt _ Hx). simpl in Hlt. by apply irreflexivity in Hlt; [|apply _].
Qed.
End btree_facts.

(** ** Facts on sets *)

Lemma bs_insert_elem k s x : x ∈ bs_insert k s <-> x = k \/ x ∈ s.
Proof.
  induction s as [|k1 s IH]; cbn [bs_insert].
  - rewrite list_elem_of_singleton, elem_of_nil. tauto.
  - destruct (bcmp k k1) eqn:E; rewrite ?elem_of_cons, ?IH; try tauto.
    apply bcmp_eq in E as ->. tauto.
Qed.

Lemma bs_insert_wf k s : bs_wf s -> bs_wf (bs_insert k s).
Proof.
  unfold bs_wf. induction 1 as [|k1 s Hs IH Hlt]; cbn [bs_insert]; [repeat constructor|].
  destruct (bcmp k k1) eqn:E.
  - by constructor.
  - constructor; [by constructor|]. constructor; [done|].
    eapply Forall_impl; [exact Hlt|]. intros x Hx. by eapply blt_trans.
  - constructor; [done|]. apply Forall_forall. intros x [->|Hx]%bs_insert_elem.
    + by apply blt_gt.
    + rewrite Forall_forall in Hlt. auto.
Qed.

Lemma bs_extend_elem s ks x : x ∈ bs_extend s ks <-> x ∈ s \/ x ∈ ks.
Proof.
  unfold bs_extend. revert s. induction ks as [|k ks IH]; intros s; simpl.
  - rewrite elem_of_nil. tauto.
  - rewrite IH, bs_insert_elem, elem_of_cons. tauto.
Qed.

Lemma bs_extend_wf s ks : bs_wf s -> bs_wf (bs_extend s ks).
Proof.
  unfold bs_extend. revert s. induction ks as [|k ks IH]; intros s Hs; simpl; [done|].
  by apply IH, bs_insert_wf.
Qed.

#[export] Hint Resolve bt_insert_wf bt_entry_wf bs_insert_wf bs_extend_wf : relay.
#[export] Hint Constructors StronglySorted : relay.
