(* ===== verification/Extern.v ===== *)
(** * Third-party code the relay calls

    The crates the source depends on are not part of the repository: each is a
    class of operations, and the documented behaviour a theorem relies on is a
    separate class of laws. Definitions take the operations, theorems the laws
    they need. [Module Ref] gives concrete functions that satisfy the laws; the
    witnesses instantiate the classes with them. *)

From S2P Require Import Prelude RustStr BTree.

(** ** Operations *)

(** The [url] crate: the accessors of a parsed [Url] the source reads. *)
Record Url := {
  u_scheme : bytes;
  u_username : bytes;
  u_password : option bytes;
  u_host_str : option bytes;
  u_port_or_known_default : option N;
  u_path : bytes;
}.
Class UrlCrate := url_parse : bytes -> option Url.

(** The Unicode case tables behind [str::to_lowercase], used outside ASCII. *)
Class UnicodeTables := unicode_to_lowercase : bytes -> bytes.

Definition to_lowercase `{UnicodeTables} (s : bytes) : bytes :=
  if forallb is_ascii s then to_ascii_lowercase s else unicode_to_lowercase s.

(** The [sha2] crate. Successive [update] calls hash the concatenation. *)
Class Sha2Crate := {
  sha256 : bytes -> bytes;
  sha384 : bytes -> bytes;
}.

(** The [hex] crate. *)
Class HexCrate := {
  hex_encode : bytes -> bytes;
  hex_decode : bytes -> option bytes;
}.

(** [base64::engine::general_purpose::URL_SAFE_NO_PAD]. *)
Class Base64Crate := {
  b64url_encode : bytes -> bytes;
  b64url_decode : bytes -> option bytes;
}.

(** The [http] crate: which texts are header values and names, which values
    [HeaderValue::to_str] accepts, and which numbers are status codes. *)
Class HeaderValueCrate := {
  header_value_valid : bytes -> bool;
  header_name_valid : bytes -> bool;
  header_to_str_ok : bytes -> bool;
  status_code_valid : N -> bool;
}.

(** [serde_json::Value], with numbers as their text, and [serde_json::from_slice]. *)
Inductive Value :=
  | VNull
  | VBool (b : bool)
  | VNumber (text : bytes)
  | VString (s : bytes)
  | VArray (l : list Value)
  | VObject (m : list (bytes * Value)).
Class JsonCrate := json_parse : bytes -> option Value.

(** [Value::get(key)] and [Value::as_str]. *)
Definition value_get (k : bytes) (v : Value) : option Value :=
  match v with VObject m => bt_get k m | _ => None end.
Definition value_as_str (v : Value) : option bytes :=
  match v with VString s => Some s | _ => None end.

(** [http::HeaderMap], a multimap from lower-case header names. *)
Class HeaderMapCrate (M : Type) := {
  hm_empty : M;
  hm_get : bytes -> M -> option bytes;
  hm_insert : bytes -> bytes -> M -> M;
  hm_append : bytes -> bytes -> M -> M;
  hm_remove : bytes -> M -> M;
  hm_get_all : bytes -> M -> list bytes;
}.

(** The HTTP client and the async runtime. A request made at a time takes some time. *)
Inductive HttpReply :=
  | SendFailed
  | HttpResponse (status : N) (body : option bytes).
Inductive RuntimeFlavor := MultiThread | CurrentThread | NoRuntime.
Class HttpHost := {
  http_client_builds : bool;
  http_get : N -> bytes -> HttpReply * N;
  runtime_flavor : RuntimeFlavor;
  runtime_builds : bool;
}.

(** [StatusCode::is_success] *)
Definition is_success (status : N) : bool := (200 <=? status)%N && (status <=? 299)%N.

(** ** Laws *)

Class Sha2Laws `{Sha2Crate} : Prop := {
  sha256_length : forall m, length (sha256 m) = 32;
  sha384_length : forall m, length (sha384 m) = 48;
}.

Class HexLaws `{HexCrate} : Prop := {
  hex_decode_encode : forall x, hex_decode (hex_encode x) = Some x;
}.

Class Base64Laws `{Base64Crate} : Prop := {
  b64url_decode_encode : forall x, b64url_decode (b64url_encode x) = Some x;
  b64url_encode_no_comma : forall x, ","%byte ∉ b64url_encode x;
}.

(** A header value holds no control byte other than a tab. *)
Class HeaderValueLaws `{HeaderValueCrate} : Prop := {
  header_value_no_control : forall v b,
    header_value_valid v = true -> b ∈ v -> is_ascii_control b = true -> b = "009"%byte;
}.

Class HeaderMapLaws M `{HeaderMapCrate M} : Prop := {
  hm_get_empty : forall k, hm_get k hm_empty = None;
  hm_get_head : forall k (m : M), hm_get k m = head (hm_get_all k m);
  hm_get_all_empty : forall k, hm_get_all k (hm_empty : M) = [];
  hm_get_all_insert : forall k k' v (m : M),
    hm_get_all k' (hm_insert k v m) = if decide (k = k') then [v] else hm_get_all k' m;
  hm_get_all_append : forall k k' v (m : M),
    hm_get_all k' (hm_append k v m) =
    if decide (k = k') then hm_get_all k' m ++ [v] else hm_get_all k' m;
  hm_get_all_remove : forall k k' (m : M),
    hm_get_all k' (hm_remove k m) = if decide (k = k') then [] else hm_get_all k' m;
}.

Section header_facts.
Context {M : Type} `{HeaderMapLaws M}.

Lemma hm_get_insert k k' v (m : M) :
  hm_get k' (hm_insert k v m) = if decide (k = k') then Some v else hm_get k' m.
Proof. rewrite !hm_get_head, hm_get_all_insert. by case_decide. Qed.

Lemma hm_get_remove k k' (m : M) :
  hm_get k' (hm_remove k m) = if decide (k = k') then None else hm_get k' m.
Proof. rewrite !hm_get_head, hm_get_all_remove. by case_decide. Qed.
End header_facts.

(** ** Concrete instances *)

Module Ref.
Local Open Scope N_scope.

(** A parser for [scheme://[user[:password]@]host[:port][/path]]. *)
Definition parse_dec (s : bytes) : N := fold_left (fun acc b => acc * 10 + (b2n b - 48)) s 0.

Definition default_port (scheme : bytes) : option N :=
  if decide (scheme = lit "https") then Some 443
  else if decide (scheme = lit "http") then Some 80 else None.

Definition not_slash (b : byte) : bool := negb (bool_decide (b = "/"%byte)).

Definition parse_url (raw : bytes) : option Url :=
  match find_at (lit "://") raw with
  | None => None
  | Some (scheme, rest) =>
      let scheme := to_ascii_lowercase scheme in
      let rest := drop 3 rest in
      let authority := take_while not_slash rest in
      let path := drop_while not_slash rest in
      let '(userinfo, hostport) :=
        match split_once "@"%byte authority with
        | Some (u, h) => (Some u, h)
        | None => (None, authority)
        end in
      let '(user, pass) :=
        match userinfo with
        | None => ([], None)
        | Some u => match split_once ":"%byte u with
                    | Some (n, p) => (n, Some p)
                    | None => (u, None)
                    end
        end in
      let '(host, port) :=
        match split_once ":"%byte hostport with
        | Some (h, p) => (h, Some (parse_dec p))
        | None => (hostport, default_port scheme)
        end in
      match host with
      | [] => None
      | _ => Some {| u_scheme := scheme; u_username := user; u_password := pass;
                     u_host_str := Some (to_ascii_lowercase host);
                     u_port_or_known_default := port; u_path := path |}
      end
  end.
#[export] Instance url : UrlCrate := parse_url.

#[export] Instance unicode : UnicodeTables := fun s => s.

(** Fixed-length mixing functions in place of the digests. *)
Definition mix (k : nat) (m : bytes) : bytes :=
  N_to_le k (fold_left (fun acc b => N.land (acc * 257 + b2n b + 1) 0xFFFFFFFF) m 0).
#[export] Instance sha2 : Sha2Crate := {| sha256 := mix 32; sha384 := mix 48 |}.
#[export] Instance sha2_laws : Sha2Laws.
Proof. split; intros; apply length_N_to_le. Qed.

(** Lower-case hexadecimal. *)
Definition hex_char (n : N) : byte := if n <? 10 then n2b (48 + n) else n2b (87 + n).
Fixpoint hex_enc (l : bytes) : bytes :=
  match l with
  | [] => []
  | b :: l' => hex_char (b2n b / 16) :: hex_char (b2n b mod 16) :: hex_enc l'
  end.
Fixpoint hex_dec (l : bytes) : option bytes :=
  match l with
  | [] => Some []
  | a :: b :: l' =>
      match hex_digit_val a, hex_digit_val b, hex_dec l' with
      | Some x, Some y, Some r => Some (n2b (x * 16 + y) :: r)
      | _, _, _ => None
      end
  | [_] => None
  end.
#[export] Instance hex : HexCrate := {| hex_encode := hex_enc; hex_decode := hex_dec |}.

Lemma hex_pair_dec (b : byte) :
  match hex_digit_val (hex_char (b2n b / 16)), hex_digit_val (hex_char (b2n b mod 16)) with
  | Some x, Some y => n2b (x * 16 + y) = b
  | _, _ => False
  end.
Proof. by destruct b; vm_compute. Qed.

#[export] Instance hex_laws : HexLaws.
Proof.
  split. intros x. simpl. induction x as [|b x IH]; [done|].
  cbn [hex_enc hex_dec]. pose proof (hex_pair_dec b) as Hb.
  destruct (hex_digit_val (hex_char (b2n b / 16))) as [u|]; [|done].
  destruct (hex_digit_val (hex_char (b2n b mod 16))) as [v|]; [|done].
  by rewrite IH, Hb.
Qed.

(** Hexadecimal also serves as the concrete text encoding of nonces. *)
#[export] Instance base64 : Base64Crate :=
  {| b64url_encode := hex_enc; b64url_decode := hex_dec |}.

Lemma hex_char_not_comma n : n < 16 -> hex_char n <> ","%byte.
Proof.
  intros Hn E. apply (f_equal b2n) in E. change (b2n ","%byte) with 44 in E. revert E.
  unfold hex_char. destruct (N.ltb_spec n 10); rewrite b2n_n2b, N.mod_small by lia; lia.
Qed.

#[export] Instance base64_laws : Base64Laws.
Proof.
  split; [apply hex_laws|]. intros x. simpl. induction x as [|b x IH]; cbn [hex_enc].
  - apply not_elem_of_nil.
  - pose proof (b2n_lt b). rewrite !not_elem_of_cons. split_and!; [| |done].
    + intros E. symmetry in E. revert E. apply hex_char_not_comma.
      apply N.Div0.div_lt_upper_bound; lia.
    + intros E. symmetry in E. revert E. apply hex_char_not_comma.
      apply N.mod_upper_bound. lia.
Qed.

Definition is_header_value : bytes -> bool :=
  forallb (fun b => ((32 <=? b2n b) && negb (b2n b =? 127)) || (b2n b =? 9)).
#[export] Instance header_value : HeaderValueCrate := {|
  header_value_valid := is_header_value;
  header_name_valid n := negb (bool_decide (n = []));
  header_to_str_ok := forallb is_ascii;
  status_code_valid n := (100 <=? n) && (n <=? 999);
|}.
#[export] Instance header_value_laws : HeaderValueLaws.
Proof.
  split. intros v b Hv Hin Hc. cbn [header_value_valid header_value] in Hv.
  unfold is_header_value in Hv.
  rewrite forallb_forall in Hv. specialize (Hv b).
  rewrite <-list_elem_of_In in Hv. specialize (Hv Hin).
  apply b2n_inj. change (b2n "009"%byte) with 9.
  unfold is_ascii_control in Hc.
  destruct (N.ltb_spec (b2n b) 32), (N.eqb_spec (b2n b) 127), (N.leb_spec 32 (b2n b)),
    (N.eqb_spec (b2n b) 9); simpl in *; try done; lia.
Qed.

(** A body [{...}] is taken as an object whose model field is the text between braces. *)
#[export] Instance json : JsonCrate := fun body =>
  match strip_prefix (lit "{") body with
  | Some rest => match split_once "}"%byte rest with
                 | Some (m, []) => Some (VObject [(lit "model", VString m)])
                 | _ => None
                 end
  | None => None
  end.

(** Header maps as association lists in insertion order. *)
Abbreviation headers := (list (bytes * bytes)).
Definition hl_get_all (k : bytes) (m : headers) : list bytes :=
  (filter (fun x => x.1 = k) m).*2.
Definition hl_remove (k : bytes) (m : headers) : headers := filter (fun x => x.1 <> k) m.
#[export] Instance header_map : HeaderMapCrate headers := {|
  hm_empty := [];
  hm_get k m := head (hl_get_all k m);
  hm_insert k v m := hl_remove k m ++ [(k, v)];
  hm_append k v m := m ++ [(k, v)];
  hm_remove := hl_remove;
  hm_get_all := hl_get_all;
|}.

Lemma hl_get_all_remove k k' m :
  hl_get_all k' (hl_remove k m) = if decide (k = k') then [] else hl_get_all k' m.
Proof.
  unfold hl_get_all, hl_remove.
  induction m as [|[k1 v1] m IH]; [by case_decide|].
  rewrite !filter_cons. cbn [fst].
  destruct (decide (k1 <> k)) as [H1|H1%dec_stable]; rewrite ?filter_cons; cbn [fst].
  - destruct (decide (k1 = k')) as [H2|H2]; rewrite ?fmap_cons, IH;
      destruct (decide (k = k')); congruence.
  - rewrite IH. destruct (decide (k = k')), (decide (k1 = k')); congruence.
Qed.

Lemma hl_get_all_app k m1 m2 : hl_get_all k (m1 ++ m2) = hl_get_all k m1 ++ hl_get_all k m2.
Proof. unfold hl_get_all. by rewrite filter_app, fmap_app. Qed.

Lemma hl_get_all_one k k' v : hl_get_all k' [(k, v)] = if decide (k = k') then [v] else [].
Proof. unfold hl_get_all. rewrite filter_cons. simpl. by case_decide. Qed.

#[export] Instance header_map_laws : HeaderMapLaws headers.
Proof.
  split; simpl; try done.
  - intros k k' v m. rewrite hl_get_all_app, hl_get_all_remove, hl_get_all_one.
    case_decide; [done|]. by rewrite app_nil_r.
  - intros k k' v m. rewrite hl_get_all_app, hl_get_all_one. case_decide; [done|].
    by rewrite app_nil_r.
  - apply hl_get_all_remove.
Qed.
End Ref.
