(* ===== verification/Config.v ===== *)
(** * Relay configuration

    [crates/relay-core/src/config.rs]: upstream routing, the upstream
    allowlist, TLS leaf pins and startup validation. [ConfigHash.v] models
    [RelayConfig::config_hash]. Error texts are the constructors of
    [ConfigError], one per error site, with the values the text shows. *)

From S2P Require Import Prelude RustStr BTree Extern.

Local Open Scope N_scope.

(** ** Data *)

Record RuntimeConfig := {
  allow_client_provider_auth : bool;
  private_admin_enabled : bool;
  provider_auth_scheme : bytes;
  body_log_policy : bytes;
}.

Record ProviderConfig := {
  base_url : bytes;
  path : option bytes;
}.

Record RelayConfig := {
  listen_addr : bytes;
  runtime : RuntimeConfig;
  default_upstream : bytes;
  routes : btree ProviderConfig;
  allowed_upstreams : list bytes;
  max_request_bytes : N;
  release_artifact_digest : option bytes;
  upstream_timeout_secs : N;
  upstream_tls_leaf_sha256 : btree (list bytes);
}.

Inductive ConfigError :=
  | TokenEmpty (field : bytes)
  | TokenInvalid (field : bytes)
  | BodyLogPolicy (got : bytes)
  | DigestLength (got : N)
  | DigestNotHex
  | PinOriginNotUrl (origin : bytes)
  | PinOriginNotHttps (origin : bytes)
  | PinOriginInvalid (origin : bytes)
  | PinOriginEmpty (origin : bytes)
  | PinInvalid (origin value : bytes)
  | PinHostNotUrl (origin : bytes)
  | PinHostMissing (origin : bytes)
  | UpstreamNotUrl (url : bytes)
  | UpstreamNotAllowed (origin url : bytes) (allowed : list bytes)
  | DefaultNotAllowed (e : ConfigError)
  | RouteNotAllowed (prefix : bytes) (e : ConfigError).

Abbreviation config_result A := (outcome ConfigError A).

(** ** Defaults *)

Definition default_provider_auth_scheme : bytes := lit "Bearer".
Definition default_body_log_policy : bytes := lit "metadata-only".
Definition default_max_request_bytes : N := 1024 * 1024.
Definition default_upstream_timeout_secs : N := 120.

Definition RuntimeConfig_default : RuntimeConfig := {|
  allow_client_provider_auth := false;
  private_admin_enabled := false;
  provider_auth_scheme := default_provider_auth_scheme;
  body_log_policy := default_body_log_policy;
|}.

Definition RelayConfig_default : RelayConfig := {|
  listen_addr := lit "0.0.0.0:8443";
  runtime := RuntimeConfig_default;
  default_upstream := lit "https://api.openai.com";
  routes := bt_empty;
  allowed_upstreams := [];
  max_request_bytes := default_max_request_bytes;
  release_artifact_digest := None;
  upstream_timeout_secs := default_upstream_timeout_secs;
  upstream_tls_leaf_sha256 := bt_empty;
|}.

(** ** Runtime section *)

Definition is_http_tchar (b : byte) : bool :=
  is_ascii_alphanumeric b ||
  bool_decide (b ∈ ["!"; "#"; "$"; "%"; "&"; "'"; "*"; "+"; "-"; "."; "^"; "_"; "`"; "|"; "~"]%byte).

Definition validate_http_token (value field : bytes) : config_result unit :=
  match value with
  | [] => Err (TokenEmpty field)
  | _ => if negb (forallb is_http_tchar value) then Err (TokenInvalid field) else Ok tt
  end.

Definition RuntimeConfig_validate (r : RuntimeConfig) : config_result unit :=
  _ ← validate_http_token (provider_auth_scheme r) (lit "provider_auth_scheme");
  if decide (body_log_policy r = lit "metadata-only") then Ok tt
  else Err (BodyLogPolicy (body_log_policy r)).

(** ** Digests and pins *)

Definition validate_release_artifact_digest (raw : bytes) : config_result unit :=
  let digest := trim raw in
  let hex :=
    match strip_prefix (lit "sha256:") digest with
    | Some h => h
    | None => match strip_prefix (lit "SHA256:") digest with
              | Some h => h
              | None => digest
              end
    end in
  if negb (len hex =? 64) then Err (DigestLength (len hex))
  else if negb (forallb is_ascii_hexdigit hex) then Err DigestNotHex
  else Ok tt.

Definition normalize_sha256_pin (raw : bytes) : option bytes :=
  let pin := to_ascii_lowercase (trim raw) in
  let hex := match strip_prefix (lit "sha256:") pin with Some h => h | None => pin end in
  if (len hex =? 64) && forallb is_ascii_hexdigit hex
  then Some (lit "sha256:" ++ hex) else None.

Section url.
Context {UC : UrlCrate} {UT : UnicodeTables}.

Definition is_local_http_url (parsed : Url) : bool :=
  bool_decide (u_scheme parsed = lit "http") &&
  match u_host_str parsed with
  | Some host =>
      bool_decide (to_ascii_lowercase host ∈ [lit "localhost"; lit "127.0.0.1"; lit "::1"])
  | None => false
  end.

Definition url_origin (raw : bytes) : option bytes :=
  parsed ← url_parse raw;
  let scheme := u_scheme parsed in
  if negb (bool_decide (scheme = lit "https")) && negb (is_local_http_url parsed) then None
  else if negb (bool_decide (u_username parsed = [])) || bool_decide (is_Some (u_password parsed))
  then None
  else
    host ← u_host_str parsed;
    port ← u_port_or_known_default parsed;
    Some (scheme ++ lit "://" ++ to_lowercase host ++ lit ":" ++ dec port).

(** The inner loop of [normalize_upstream_tls_pins]. *)
Definition push_pin (origin : bytes) (acc : list bytes) (value : bytes)
  : config_result (list bytes) :=
  pin ← ok_or (normalize_sha256_pin value) (PinInvalid origin value);
  Ok (if bool_decide (pin ∈ acc) then acc else acc ++ [pin]).

Definition normalize_pin_entry (normalized : btree (list bytes)) (entry : bytes * list bytes)
  : config_result (btree (list bytes)) :=
  let '(origin, values) := entry in
  parsed ← ok_or (url_parse origin) (PinOriginNotUrl origin);
  _ ← ensure (bool_decide (u_scheme parsed = lit "https")) (PinOriginNotHttps origin);
  origin' ← ok_or (url_origin origin) (PinOriginInvalid origin);
  _ ← ensure (negb (bool_decide (values = []))) (PinOriginEmpty origin');
  normalized_values ← try_fold (push_pin origin') [] values;
  Ok (bt_insert origin' (sort_strings normalized_values) normalized).

Definition normalize_upstream_tls_pins (pins : btree (list bytes))
  : config_result (btree (list bytes)) :=
  try_fold normalize_pin_entry bt_empty pins.

(** ** Routing *)

(** The comparator [b.0.len().cmp(&a.0.len())]: longer prefixes first. *)
Definition longer_first (a b : bytes * ProviderConfig) : bool := len b.1 <=? len a.1.

Fixpoint first_match (model : bytes) (l : list (bytes * ProviderConfig))
  : option ProviderConfig :=
  match l with
  | [] => None
  | (prefix, config) :: l' =>
      if starts_with prefix model then Some config else first_match model l'
  end.

Definition resolve_upstream (c : RelayConfig) (model : bytes) : bytes * option bytes :=
  match first_match model (sort_by longer_first (routes c)) with
  | Some config => (base_url config, path config)
  | None => (default_upstream c, None)
  end.

(** ** Allowlist *)

Definition origin_in (candidate : bytes) (allowed : list bytes) : bool :=
  existsb (fun a => match url_origin a with
                    | Some o => bool_decide (candidate = o)
                    | None => false
                    end) allowed.

Definition check_upstream_allowed (c : RelayConfig) (upstream_url : bytes) : config_result unit :=
  match allowed_upstreams c with
  | [] => Ok tt
  | _ =>
      candidate ← ok_or (url_origin upstream_url) (UpstreamNotUrl upstream_url);
      if origin_in candidate (allowed_upstreams c) then Ok tt
      else Err (UpstreamNotAllowed candidate upstream_url (allowed_upstreams c))
  end.

(** ** Pins for the TLS layer *)

Definition upstream_tls_pins_for (c : RelayConfig) (upstream_url : bytes)
  : config_result (option (list bytes)) :=
  pins ← normalize_upstream_tls_pins (upstream_tls_leaf_sha256 c);
  origin ← ok_or (url_origin upstream_url) (UpstreamNotUrl upstream_url);
  Ok (bt_get origin pins).

Definition add_host_pins (by_host : btree (list bytes)) (entry : bytes * list bytes)
  : config_result (btree (list bytes)) :=
  let '(origin, origin_pins) := entry in
  parsed ← ok_or (url_parse origin) (PinHostNotUrl origin);
  host ← ok_or (u_host_str parsed) (PinHostMissing origin);
  Ok (bt_entry (to_ascii_lowercase host) [] (fun s => bs_extend s origin_pins) by_host).

Definition upstream_tls_pin_hosts (c : RelayConfig) : config_result (btree (list bytes)) :=
  pins ← normalize_upstream_tls_pins (upstream_tls_leaf_sha256 c);
  try_fold add_host_pins bt_empty pins.

(** ** Startup validation *)

Definition check_route (c : RelayConfig) (_ : unit) (route : bytes * ProviderConfig)
  : config_result unit :=
  map_err (RouteNotAllowed route.1) (check_upstream_allowed c (base_url route.2)).

Definition RelayConfig_validate (c : RelayConfig) : config_result unit :=
  _ ← RuntimeConfig_validate (runtime c);
  _ ← match release_artifact_digest c with
      | Some digest => validate_release_artifact_digest digest
      | None => Ok tt
      end;
  _ ← normalize_upstream_tls_pins (upstream_tls_leaf_sha256 c);
  match allowed_upstreams c with
  | [] => Ok tt
  | _ =>
      _ ← map_err DefaultNotAllowed (check_upstream_allowed c (default_upstream c));
      try_fold (check_route c) tt (routes c)
  end.
End url.

(** ** Specifications *)

(** The route a model name is meant to take: the longest matching prefix. *)
Inductive resolves (c : RelayConfig) (model : bytes) : bytes * option bytes -> Prop :=
  | resolves_route p pc :
      (p, pc) ∈ routes c -> starts_with p model = true ->
      (forall p' pc', (p', pc') ∈ routes c -> starts_with p' model = true -> len p' <= len p) ->
      resolves c model (base_url pc, path pc)
  | resolves_default :
      (forall p pc, (p, pc) ∈ routes c -> starts_with p model = false) ->
      resolves c model (default_upstream c, None).

(** The canonical text of a leaf pin. *)
Definition canonical_pin (p : bytes) : Prop :=
  exists hex, p = lit "sha256:" ++ hex /\ len hex = 64 /\
    forallb is_ascii_hexdigit hex = true /\ to_ascii_lowercase hex = hex.

(** The canonical pin list of configured values: strictly sorted, without duplicates. *)
Definition canonical_pins (values ps : list bytes) : Prop :=
  bs_wf ps /\ forall p, p ∈ ps <-> exists v, v ∈ values /\ normalize_sha256_pin v = Some p.

Section url_facts.
Context {UC : UrlCrate} {UT : UnicodeTables}.

(** The values configured under the last key whose origin is [o]. *)
Definition last_values (o : bytes) (pins : btree (list bytes)) : option (list bytes) :=
  fold_left (fun acc e => if bool_decide (url_origin e.1 = Some o) then Some e.2 else acc)
    pins None.

(** *** Routing *)

Lemma first_match_Some model l c :
  first_match model l = Some c -> exists p l1 l2,
    l = l1 ++ (p, c) :: l2 /\ starts_with p model = true /\
    Forall (fun x => starts_with x.1 model = false) l1.
Proof.
  induction l as [|[p pc] l IH]; simpl; [done|].
  destruct (starts_with p model) eqn:E.
  - intros [= ->]. exists p, [], l. auto.
  - intros (p' & l1 & l2 & -> & ? & ?)%IH. exists p', ((p, pc) :: l1), l2.
    split_and!; [done..|]. by constructor.
Qed.

Lemma first_match_None model l :
  first_match model l = None -> forall p pc, (p, pc) ∈ l -> starts_with p model = false.
Proof.
  induction l as [|[p pc] l IH]; simpl.
  - intros _ p pc Hx. by apply elem_of_nil in Hx.
  - destruct (starts_with p model) eqn:E; [done|].
    intros Hn p' pc' [[= -> ->]|Hx]%elem_of_cons; eauto.
Qed.

Lemma longer_first_sorted l :
  StronglySorted (fun a b => longer_first a b = true) (sort_by longer_first l).
Proof.
  apply sort_by_sorted; unfold longer_first; intros *.
  - rewrite !N.leb_le. lia.
  - rewrite !N.leb_le. lia.
Qed.

Lemma resolve_upstream_resolves c model : resolves c model (resolve_upstream c model).
Proof.
  unfold resolve_upstream.
  destruct (first_match model _) as [pc|] eqn:E.
  - apply first_match_Some in E as (p & l1 & l2 & Hl & Hp & Hno).
    pose proof (longer_first_sorted (routes c)) as Hs. rewrite Hl in Hs.
    assert (Hperm : forall x, x ∈ routes c <-> x ∈ l1 ++ (p, pc) :: l2).
    { intros x. by rewrite <-Hl, (sort_by_perm longer_first (routes c)). }
    apply (resolves_route c model p pc); [apply Hperm; set_solver|done|].
    intros p' pc' [Hin|[[= -> ->]|Hin]%elem_of_cons]%Hperm%elem_of_app Hp'; [|done|].
    + rewrite Forall_forall in Hno. specialize (Hno _ Hin). simpl in Hno. congruence.
    + apply StronglySorted_app in Hs as (_ & _ & Hs).
      inversion Hs as [|?? _ Hf]; subst. rewrite Forall_forall in Hf.
      specialize (Hf _ Hin). unfold longer_first in Hf. simpl in Hf. by apply N.leb_le in Hf.
  - apply resolves_default. intros p pc Hin. eapply first_match_None; [done|].
    by rewrite (sort_by_perm longer_first (routes c)).
Qed.

Lemma starts_with_same_len p q s :
  starts_with p s = true -> starts_with q s = true -> len p = len q -> p = q.
Proof.
  intros [r ->]%starts_with_true [r' E]%starts_with_true Hl.
  apply app_inj_1 in E; [tauto|]. unfold len in Hl. lia.
Qed.

Lemma resolves_functional c model r1 r2 :
  bt_wf (routes c) -> resolves c model r1 -> resolves c model r2 -> r1 = r2.
Proof.
  intros W [p pc Hin Hp Hmax|Hno] [p' pc' Hin' Hp' Hmax'|Hno']; [| | |done].
  - assert (p = p') as <-.
    { eapply starts_with_same_len; [done..|]. apply N.le_antisymm; eauto. }
    apply bt_elem_get in Hin, Hin'; [|done..]. congruence.
  - rewrite (Hno' _ _ Hin) in Hp. done.
  - rewrite (Hno _ _ Hin') in Hp'. done.
Qed.

(** *** Origins and the allowlist *)

Lemma url_origin_Some raw o :
  url_origin raw = Some o <->
  exists u host port, url_parse raw = Some u /\
    (u_scheme u = lit "https" \/ is_local_http_url u = true) /\
    u_username u = [] /\ u_password u = None /\
    u_host_str u = Some host /\ u_port_or_known_default u = Some port /\
    o = u_scheme u ++ lit "://" ++ to_lowercase host ++ lit ":" ++ dec port.
Proof.
  unfold url_origin. destruct (url_parse raw) as [u|]; simpl;
    [|split; [done|by intros (? & ? & ? & ? & _)]].
  destruct (bool_decide_reflect (u_scheme u = lit "https")) as [Hs|Hs];
    destruct (is_local_http_url u) eqn:Hl; simpl;
    destruct (bool_decide_reflect (u_username u = [])) as [Hn|Hn]; simpl;
    destruct (u_password u) as [pw|] eqn:Hpw; simpl;
    destruct (u_host_str u) as [host|] eqn:Hh; simpl;
    destruct (u_port_or_known_default u) as [port|] eqn:Hp; simpl;
    (split; [intros Ho|intros (u' & host' & port' & Hu & Hsch & ? & ? & ? & ? & ->)]);
    simplify_eq/=; try congruence; try (destruct Hsch; congruence);
    repeat eexists; eauto.
Qed.

Lemma origin_in_true o allowed :
  origin_in o allowed = true <-> exists a, a ∈ allowed /\ url_origin a = Some o.
Proof.
  unfold origin_in. rewrite existsb_exists. split.
  - intros (a & Ha & Hm). exists a. rewrite list_elem_of_In. split; [done|].
    destruct (url_origin a) as [o'|]; [|done]. split_bool. congruence.
  - intros (a & Ha & Hm). exists a. rewrite <-list_elem_of_In. split; [done|].
    rewrite Hm. by apply bool_decide_eq_true.
Qed.

Lemma check_upstream_allowed_Ok c u :
  check_upstream_allowed c u = Ok tt <->
  allowed_upstreams c = [] \/
  exists o a, url_origin u = Some o /\ a ∈ allowed_upstreams c /\ url_origin a = Some o.
Proof.
  unfold check_upstream_allowed. destruct (allowed_upstreams c) as [|a0 l].
  - split; auto.
  - destruct (url_origin u) as [o|]; simp_out.
    + destruct (origin_in o (a0 :: l)) eqn:E.
      * split; [|done]. intros _. right. apply origin_in_true in E as (a & ? & ?). eauto.
      * split; [done|]. intros [?|(o' & a & [= <-] & Ha & Hoa)]; [done|].
        assert (origin_in o (a0 :: l) = true) by (apply origin_in_true; eauto). congruence.
    + split; [done|]. by intros [?|(o' & a & ? & _)].
Qed.

(** *** Pins *)

Lemma normalize_sha256_pin_canonical v p : normalize_sha256_pin v = Some p -> canonical_pin p.
Proof.
  unfold normalize_sha256_pin. set (pin := to_ascii_lowercase (trim v)).
  assert (Hpin : to_ascii_lowercase pin = pin) by apply to_ascii_lowercase_idemp.
  destruct (strip_prefix (lit "sha256:") pin) as [h|] eqn:E; intros Hif;
    match type of Hif with (if ?b then _ else _) = _ => destruct b eqn:Hb; [|done] end;
    injection Hif as <-; split_bool; eexists; split_and!; try done;
    try (by apply N.eqb_eq).
  apply strip_prefix_Some in E. rewrite E, to_ascii_lowercase_app in Hpin.
  by apply app_inj_1 in Hpin as [_ ?]; [|unfold to_ascii_lowercase; by rewrite length_map].
Qed.

Lemma push_pins_spec o values acc :
  try_fold (push_pin o) [] values = Ok acc ->
  Forall (fun v => is_Some (normalize_sha256_pin v)) values /\ NoDup acc /\
  forall p, p ∈ acc <-> exists v, v ∈ values /\ normalize_sha256_pin v = Some p.
Proof.
  apply (try_fold_inv (push_pin o) (fun vs acc =>
    Forall (fun v => is_Some (normalize_sha256_pin v)) vs /\ NoDup acc /\
    forall p, p ∈ acc <-> exists v, v ∈ vs /\ normalize_sha256_pin v = Some p)).
  - split_and!; [constructor..|]. intros p. split; [intros Hp; by apply elem_of_nil in Hp|].
    intros (v & Hv & _). by apply elem_of_nil in Hv.
  - intros vs v s1 s2 (Hall & Hnd & Hs) Hf. unfold push_pin in Hf. inv_outcome.
    split; [apply Forall_app; split; [done|]; repeat constructor; eauto|].
    case_bool_decide as Hin; simplify_eq.
    + split; [done|]. intros p. rewrite Hs. split.
      * intros (v' & ? & ?). exists v'. rewrite elem_of_app. auto.
      * intros (v' & [?|?%list_elem_of_singleton]%elem_of_app & ?); [eauto|].
        subst. simplify_eq. by apply Hs.
    + split.
      * apply NoDup_app. split_and!; [done| |apply NoDup_singleton].
        intros y Hy Hy'%list_elem_of_singleton. congruence.
      * intros p. rewrite elem_of_app, Hs, list_elem_of_singleton. split.
        -- intros [(v' & ? & ?)| ->]; [exists v'|exists v]; rewrite elem_of_app, ?list_elem_of_singleton; auto.
        -- intros (v' & [?|?%list_elem_of_singleton]%elem_of_app & ?); [eauto|].
           subst. right. congruence.
Qed.

Lemma sort_strings_strict l : NoDup l -> bs_wf (sort_strings l).
Proof.
  intros Hnd. unfold bs_wf, sort_strings.
  assert (Hs := sort_by_sorted bleb bleb_total bleb_trans l).
  assert (Hnd' : NoDup (sort_by bleb l)) by (by rewrite sort_by_perm).
  induction Hs as [|x k Hk IH Hx]; [constructor|].
  apply NoDup_cons in Hnd' as [Hni Hnd']. constructor; [auto|].
  rewrite Forall_forall in *. intros y Hy. specialize (Hx y Hy).
  unfold blt. unfold bleb in Hx. destruct (bcmp x y) eqn:E; [|done|done].
  apply bcmp_eq in E as ->. done.
Qed.

Lemma normalize_pin_entry_Ok m e m' :
  normalize_pin_entry m e = Ok m' -> exists u o ps,
    url_parse e.1 = Some u /\ u_scheme u = lit "https" /\ url_origin e.1 = Some o /\
    ps <> [] /\ canonical_pins e.2 ps /\ m' = bt_insert o ps m.
Proof.
  destruct e as [origin values]. cbn [normalize_pin_entry fst snd]. intros H.
  inv_outcome. split_bool.
  match goal with H : try_fold _ _ _ = Ok ?acc |- _ =>
    apply push_pins_spec in H as (Hall & Hnd & Hin); rename acc into nv end.
  exists x, x1, (sort_strings nv). split_and!; try done; [|split].
  - destruct values as [|v vs]; [done|]. inversion Hall as [|?? [p Hp] _]; subst.
    assert (Hps : p ∈ sort_strings nv).
    { unfold sort_strings. rewrite sort_by_perm. apply Hin. exists v. split; [left|done]. }
    intros Hnil. rewrite Hnil in Hps. by apply elem_of_nil in Hps.
  - by apply sort_strings_strict.
  - intros p. unfold sort_strings. rewrite sort_by_perm. apply Hin.
Qed.

Lemma last_values_snoc o pins e :
  last_values o (pins ++ [e]) =
  if bool_decide (url_origin e.1 = Some o) then Some e.2 else last_values o pins.
Proof. unfold last_values. by rewrite fold_left_app. Qed.

Lemma normalize_pins_inv pins m :
  normalize_upstream_tls_pins pins = Ok m ->
  bt_wf m /\ (forall e, e ∈ pins -> is_Some (url_origin e.1)) /\
  forall o, match last_values o pins, bt_get o m with
            | Some vs, Some ps => ps <> [] /\ canonical_pins vs ps
            | None, None => True
            | _, _ => False
            end.
Proof.
  unfold normalize_upstream_tls_pins. apply (try_fold_inv normalize_pin_entry
    (fun pins m => bt_wf m /\ (forall e, e ∈ pins -> is_Some (url_origin e.1)) /\
      forall o, match last_values o pins, bt_get o m with
            | Some vs, Some ps => ps <> [] /\ canonical_pins vs ps
            | None, None => True
            | _, _ => False
            end)).
  - split_and!; [constructor| |done]. intros e He. by apply elem_of_nil in He.
  - intros pins' e m1 m2 (W & Hall & Hget) He.
    apply normalize_pin_entry_Ok in He as (u & o & ps & _ & _ & Ho & Hne & Hc & ->).
    split_and!.
    + by apply bt_insert_wf.
    + intros e2 [Hin|Hin]%elem_of_app; [eauto|]. apply list_elem_of_singleton in Hin as ->. eauto.
    + intros o'. rewrite last_values_snoc, bt_get_insert. specialize (Hget o').
      case_decide; case_bool_decide; simplify_eq; try congruence; done.
Qed.
End url_facts.

(** ** Properties *)

(** C27: [resolve_upstream] computes the routing specification exactly: the route with the
    longest prefix of the model name, the default upstream when no prefix matches, and no
    other answer; the sort by length never makes the result depend on map order. *)
Theorem resolve_upstream_spec (c : RelayConfig) (model : bytes) (r : bytes * option bytes)
  (Hwf : bt_wf (routes c)) :
  resolve_upstream c model = r <-> resolves c model r.
Proof.
  split.
  - intros <-. apply resolve_upstream_resolves.
  - intros Hr. eapply resolves_functional; [done| |done]. apply resolve_upstream_resolves.
Qed.

Definition two_routes : RelayConfig := {|
  listen_addr := lit "0.0.0.0:8443"; runtime := RuntimeConfig_default;
  default_upstream := lit "https://api.openai.com";
  routes := bt_insert (lit "gpt-4") {| base_url := lit "https://special.openai.com"; path := None |}
    (bt_insert (lit "gpt-") {| base_url := lit "https://api.openai.com"; path := None |} bt_empty);
  allowed_upstreams := [lit "https://special.openai.com"; lit "https://api.openai.com/v1"];
  max_request_bytes := 1024; release_artifact_digest := None; upstream_timeout_secs := 120;
  upstream_tls_leaf_sha256 :=
    bt_insert (lit "https://api.openai.com")
      [lit "AAAAAAAAAAAAAAAAAAAAAAAAAAAAAAAAAAAAAAAAAAAAAAAAAAAAAAAAAAAAAAAA"] bt_empty;
|}.

Lemma resolve_upstream_spec_witness :
  bt_wf (routes two_routes) /\
  resolves two_routes (lit "gpt-4-turbo") (lit "https://special.openai.com", None).
Proof.
  assert (W : bt_wf (routes two_routes)) by (repeat apply bt_insert_wf; constructor).
  split; [exact W|].
  apply (proj1 (resolve_upstream_spec two_routes (lit "gpt-4-turbo") _ W)). reflexivity.
Defined.

(** A URL passes the allowlist exactly when the list is empty or its origin (scheme,
    host, port) equals the origin of an entry; an entry or a URL without an origin
    never matches. *)
Theorem check_upstream_allowed_spec {UC : UrlCrate} {UT : UnicodeTables} (c : RelayConfig) (u : bytes) :
  check_upstream_allowed c u = Ok tt <->
  allowed_upstreams c = [] \/
  exists o a, url_origin u = Some o /\ a ∈ allowed_upstreams c /\ url_origin a = Some o.
Proof. apply check_upstream_allowed_Ok. Qed.

(** An allowlisted URL, under a non-empty allowlist, is an https URL or plain http to
    the local host, and never carries user information, which is how
    [https://api.openai.com@evil.com] is kept out. *)
Theorem allowed_url_is_safe {UC : UrlCrate} {UT : UnicodeTables} (c : RelayConfig) (u : bytes)
  (Hne : allowed_upstreams c <> []) (Hok : check_upstream_allowed c u = Ok tt) :
  exists parsed, url_parse u = Some parsed /\
    (u_scheme parsed = lit "https" \/ is_local_http_url parsed = true) /\
    u_username parsed = [] /\ u_password parsed = None.
Proof.
  apply check_upstream_allowed_Ok in Hok as [?|(o & a & Ho & _)]; [done|].
  apply url_origin_Some in Ho as (p & ? & ? & ? & ? & ? & ? & _). eauto.
Qed.

Lemma allowed_url_is_safe_witness :
  exists parsed, Ref.parse_url (lit "https://api.openai.com/v1/chat") = Some parsed /\
    (u_scheme parsed = lit "https" \/ is_local_http_url parsed = true) /\
    u_username parsed = [] /\ u_password parsed = None.
Proof.
  apply (allowed_url_is_safe (UC := Ref.url) (UT := Ref.unicode) two_routes);
    [discriminate|vm_compute; reflexivity].
Defined.

(** C26: Startup validation is enough for routing: once [validate] accepts a configuration
    with an allowlist, every model name resolves to an upstream the allowlist permits. *)
Theorem validated_routes_are_allowed {UC : UrlCrate} {UT : UnicodeTables} (c : RelayConfig)
  (model : bytes) (Hv : RelayConfig_validate c = Ok tt) :
  check_upstream_allowed c (resolve_upstream c model).1 = Ok tt.
Proof.
  destruct (decide (allowed_upstreams c = [])) as [Hnil|Hne].
  { apply check_upstream_allowed_Ok. by left. }
  unfold RelayConfig_validate in Hv. inv_outcome.
  assert (check_upstream_allowed c (default_upstream c) = Ok tt /\
               try_fold (check_route c) tt (routes c) = Ok tt) as [Hdef Hroutes].
  { destruct (allowed_upstreams c); [done|]. inv_outcome. by destruct x2. }
  rewrite try_fold_unit_Ok in Hroutes.
  destruct (resolve_upstream_resolves c model) as [p pc Hin _ _|_]; [|done].
  specialize (Hroutes _ Hin). unfold check_route in Hroutes. by inv_outcome.
Qed.

Lemma validated_routes_are_allowed_witness :
  check_upstream_allowed (UC := Ref.url) (UT := Ref.unicode) two_routes
    (resolve_upstream two_routes (lit "gpt-4-turbo")).1 = Ok tt.
Proof. apply validated_routes_are_allowed. vm_compute. reflexivity. Defined.

(** C31: Pin normalisation, when it succeeds, yields a well-formed map with one entry per
    configured origin; the entry is the strictly sorted, duplicate-free list of the
    canonical forms of the values under the last key with that origin, each
    [sha256:] and 64 lower-case hexadecimal digits. *)
Theorem normalize_upstream_tls_pins_spec {UC : UrlCrate} {UT : UnicodeTables}
  (pins m : btree (list bytes)) (Hn : normalize_upstream_tls_pins pins = Ok m) :
  bt_wf m /\
  (forall o, is_Some (bt_get o m) <-> exists e, e ∈ pins /\ url_origin e.1 = Some o) /\
  (forall o ps, bt_get o m = Some ps -> exists vs, last_values o pins = Some vs /\
     ps <> [] /\ canonical_pins vs ps /\ Forall canonical_pin ps).
Proof.
  destruct (normalize_pins_inv pins m Hn) as (W & Hall & Hget). split_and!; [done| |].
  - intros o. specialize (Hget o).
    assert (Hlast : is_Some (last_values o pins) <-> exists e, e ∈ pins /\ url_origin e.1 = Some o).
    { clear Hget Hall Hn. induction pins as [|e pins IH] using rev_ind.
      - split; [by intros [? ?]|]. intros (e & He & _). by apply elem_of_nil in He.
      - rewrite last_values_snoc. case_bool_decide as Ho.
        + split; [intros _|eauto]. exists e. rewrite elem_of_app, list_elem_of_singleton. auto.
        + rewrite IH. setoid_rewrite elem_of_app. setoid_rewrite list_elem_of_singleton.
          split; [intros (e' & ? & ?); eauto|]. intros (e' & [?| ->] & ?); [eauto|done]. }
    rewrite <-Hlast. destruct (last_values o pins), (bt_get o m); try done;
      split; intros [? ?]; eauto; done.
  - intros o ps Hps. specialize (Hget o). rewrite Hps in Hget.
    destruct (last_values o pins) as [vs|]; [|done]. destruct Hget as [Hne Hc].
    exists vs. split_and!; try done.
    apply Forall_forall. intros p Hp. apply Hc in Hp as (v & _ & Hv).
    by eapply normalize_sha256_pin_canonical.
Qed.

Lemma normalize_upstream_tls_pins_spec_witness :
  exists m, normalize_upstream_tls_pins (UC := Ref.url) (UT := Ref.unicode)
    (upstream_tls_leaf_sha256 two_routes) = Ok m /\ bt_wf m /\
    is_Some (bt_get (lit "https://api.openai.com:443") m).
Proof.
  destruct (normalize_upstream_tls_pins (UC := Ref.url) (UT := Ref.unicode)
    (upstream_tls_leaf_sha256 two_routes)) as [m| |] eqn:E; [|vm_compute in E; discriminate E..].
  exists m. split; [reflexivity|].
  destruct (normalize_upstream_tls_pins_spec _ m E) as (W & Hdom & _).
  split; [exact W|]. apply Hdom.
  eexists (_, _). split; [left; reflexivity|]. vm_compute. reflexivity.
Defined.

(** Pins of two configured keys that name one origin are not merged: the later key
    replaces the earlier one, so a pin listed only under the earlier key is lost. *)
Theorem normalize_pins_alias_overwrites {UC : UrlCrate} {UT : UnicodeTables}
  (k1 k2 o : bytes) (u1 u2 : Url) (v1 v2 p1 p2 : bytes)
  (Hu1 : url_parse k1 = Some u1) (Hs1 : u_scheme u1 = lit "https") (Ho1 : url_origin k1 = Some o)
  (Hu2 : url_parse k2 = Some u2) (Hs2 : u_scheme u2 = lit "https") (Ho2 : url_origin k2 = Some o)
  (Hp1 : normalize_sha256_pin v1 = Some p1) (Hp2 : normalize_sha256_pin v2 = Some p2) :
  normalize_upstream_tls_pins [(k1, [v1]); (k2, [v2])] = Ok [(o, [p2])].
Proof.
  unfold normalize_upstream_tls_pins. cbn [try_fold normalize_pin_entry].
  rewrite Hu1, Hu2. simp_out. rewrite Hs1, Hs2, Ho1, Ho2. cbn [try_fold]. unfold push_pin.
  rewrite Hp1, Hp2. simpl. rewrite bcmp_refl. reflexivity.
Qed.

Definition sixty_four (b : byte) : bytes := replicate 64 b.

Lemma normalize_pins_alias_overwrites_witness :
  normalize_upstream_tls_pins (UC := Ref.url) (UT := Ref.unicode)
    [(lit "https://API.openai.com", [sixty_four "a"%byte]);
     (lit "https://api.openai.com:443", [sixty_four "b"%byte])]
  = Ok [(lit "https://api.openai.com:443", [lit "sha256:" ++ sixty_four "b"%byte])].
Proof.
  eapply (normalize_pins_alias_overwrites (UC := Ref.url) (UT := Ref.unicode));
    vm_compute; reflexivity.
Defined.

Lemma upstream_tls_pin_hosts_elem {UC : UrlCrate} {UT : UnicodeTables} (c : RelayConfig)
  (by_host : btree (list bytes)) (Hok : upstream_tls_pin_hosts c = Ok by_host) :
  exists pins, normalize_upstream_tls_pins (upstream_tls_leaf_sha256 c) = Ok pins /\
    bt_wf by_host /\
    forall host p,
      p ∈ default [] (bt_get host by_host) <->
      exists o ps u h, bt_get o pins = Some ps /\ p ∈ ps /\
        url_parse o = Some u /\ u_host_str u = Some h /\ to_ascii_lowercase h = host.
Proof.
  unfold upstream_tls_pin_hosts in Hok. apply bind_Ok in Hok as (x & Hx & Hfold).
  exists x. split; [done|].
  destruct (normalize_pins_inv _ _ Hx) as (W & _ & _).
  assert (Hs : bt_wf by_host /\ forall host p,
    p ∈ default [] (bt_get host by_host) <->
    exists o ps u h, (o, ps) ∈ x /\ p ∈ ps /\
      url_parse o = Some u /\ u_host_str u = Some h /\ to_ascii_lowercase h = host).
  { revert Hfold. apply (try_fold_inv add_host_pins (fun es m => bt_wf m /\ forall host p,
      p ∈ default [] (bt_get host m) <->
      exists o ps u h, (o, ps) ∈ es /\ p ∈ ps /\
        url_parse o = Some u /\ u_host_str u = Some h /\ to_ascii_lowercase h = host)).
    - split; [constructor|]. intros host p. split; [intros Hp; by apply elem_of_nil in Hp|].
      intros (? & ? & ? & ? & He & _). by apply elem_of_nil in He.
    - intros es [o ps] m1 m2 [W1 Hs] Ha. unfold add_host_pins in Ha. inv_outcome.
      split; [by apply bt_entry_wf|]. intros host p. unfold bt_entry. rewrite bt_get_insert.
      setoid_rewrite elem_of_app. setoid_rewrite list_elem_of_singleton.
      case_decide as Hh; simpl.
      + rewrite bs_extend_elem, <-Hh, Hs. split.
        * intros [(o' & ps' & u & h & ? & ? & ? & ? & ?)|Hp];
            [exists o', ps', u, h; auto|exists o, ps, x0, x1; auto].
        * intros (o' & ps' & u & h & [Hin|[= -> ->]] & Hp & ? & ? & ?); [left|by right].
          exists o', ps', u, h; auto.
      + rewrite Hs. split; intros (o' & ps' & u & h & Hin & Hp & Hu & Hhs & Hl);
          exists o', ps', u, h; split_and!; auto.
        destruct Hin as [?|[= -> ->]]; [done|]. simplify_eq. }
  destruct Hs as [Hw Hs]. split; [done|]. intros host p. rewrite Hs.
  split; intros (o & ps & u & h & Hin & ?); exists o, ps, u, h; split; try done.
  - by apply bt_elem_get.
  - by apply bt_get_elem.
Qed.

(** A host name has no pins when no normalised origin is on that host. *)
Lemma upstream_tls_pin_hosts_none {UC : UrlCrate} {UT : UnicodeTables} (c : RelayConfig)
  (by_host : btree (list bytes)) pins (Hok : upstream_tls_pin_hosts c = Ok by_host)
  (Hn : normalize_upstream_tls_pins (upstream_tls_leaf_sha256 c) = Ok pins) host :
  bt_get host by_host = None <->
  forall o ps u h, bt_get o pins = Some ps -> url_parse o = Some u -> u_host_str u = Some h ->
    to_ascii_lowercase h <> host.
Proof.
  unfold upstream_tls_pin_hosts in Hok. rewrite Hn in Hok. simp_out in Hok.
  destruct (normalize_pins_inv _ _ Hn) as (W & _ & _).
  assert (Hs : bt_wf by_host /\ (bt_get host by_host = None <->
    forall o ps u h, (o, ps) ∈ pins -> url_parse o = Some u -> u_host_str u = Some h ->
      to_ascii_lowercase h <> host)).
  { revert Hok. apply (try_fold_inv add_host_pins (fun es m => bt_wf m /\ (bt_get host m = None <->
      forall o ps u h, (o, ps) ∈ es -> url_parse o = Some u -> u_host_str u = Some h ->
        to_ascii_lowercase h <> host))).
    - split; [constructor|]. split; [intros _ ? ? ? ? He; by apply elem_of_nil in He|done].
    - intros es [o ps] m1 m2 [W1 Hs] Ha. unfold add_host_pins in Ha. inv_outcome.
      split; [by apply bt_entry_wf|]. unfold bt_entry. rewrite bt_get_insert by done.
      setoid_rewrite elem_of_app. setoid_rewrite list_elem_of_singleton.
      case_decide as Hh.
      + split; [done|]. intros Hno. exfalso. by apply (Hno o ps x x0); auto.
      + rewrite Hs. split.
        * intros Hno o' ps' u h [Hin|[= -> ->]] Hu Hhs; [by eapply Hno|]. by simplify_eq.
        * intros Hno o' ps' u h Hin. by apply (Hno o' ps'); left. }
  rewrite (proj2 Hs). split; intros H o ps u h Hin; apply (H o ps).
  - by apply bt_get_elem.
  - by apply bt_elem_get.
Qed.

(** The pins handed to the TLS layer are, for each host name, exactly the union of the
    normalised pins of the origins on that host; ports do not separate them. *)
Theorem upstream_tls_pin_hosts_spec {UC : UrlCrate} {UT : UnicodeTables} (c : RelayConfig)
  (by_host : btree (list bytes)) (Hok : upstream_tls_pin_hosts c = Ok by_host) :
  exists pins, normalize_upstream_tls_pins (upstream_tls_leaf_sha256 c) = Ok pins /\
    bt_wf by_host /\
    forall host p,
      p ∈ default [] (bt_get host by_host) <->
      exists o ps u h, bt_get o pins = Some ps /\ p ∈ ps /\
        url_parse o = Some u /\ u_host_str u = Some h /\ to_ascii_lowercase h = host.
Proof. by apply upstream_tls_pin_hosts_elem. Qed.

Lemma upstream_tls_pin_hosts_spec_witness :
  exists by_host, upstream_tls_pin_hosts (UC := Ref.url) (UT := Ref.unicode) two_routes = Ok by_host
    /\ bt_wf by_host.
Proof.
  destruct (upstream_tls_pin_hosts (UC := Ref.url) (UT := Ref.unicode) two_routes)
    as [m| |] eqn:E; [|vm_compute in E; discriminate E..].
  exists m. split; [reflexivity|].
  destruct (upstream_tls_pin_hosts_spec two_routes m E) as (pins & _ & W & _). exact W.
Defined.
