(* ===== verification/ConfigHash.v ===== *)
(** * The configuration hash

    [RelayConfig::config_hash] of [crates/relay-core/src/config.rs]: the bytes
    fed to SHA-256, in order, and what two configurations with the same hash
    have in common. *)

From S2P Require Import Prelude RustStr BTree Extern Config.

Local Open Scope N_scope.

(** ** The hashed bytes *)

Definition bool_text (b : bool) : bytes := if b then lit "true" else lit "false".
Definition nl : bytes := [byte_lf].

Definition runtime_updates (r : RuntimeConfig) : list bytes :=
  [lit "runtime.allow_client_provider_auth:"; bool_text (allow_client_provider_auth r); nl;
   lit "runtime.private_admin_enabled:"; bool_text (private_admin_enabled r); nl;
   lit "runtime.provider_auth_scheme:"; provider_auth_scheme r; nl;
   lit "runtime.body_log_policy:"; body_log_policy r; nl].

Definition route_updates (route : bytes * ProviderConfig) : list bytes :=
  [lit "route:"; route.1; lit "=>"; base_url route.2] ++
  match path route.2 with
  | Some p => [lit "|path:"; p]
  | None => []
  end ++ [nl].

Definition allowed_updates (allowed : bytes) : list bytes := [lit "allowed:"; allowed; nl].

Definition digest_updates (digest : option bytes) : list bytes :=
  match digest with
  | Some d => [lit "release_artifact_digest:"; to_ascii_lowercase (trim d); nl]
  | None => []
  end.

Definition pins_updates (entry : bytes * list bytes) : list bytes :=
  [lit "upstream_tls_leaf_sha256:"; entry.1; lit "=>"] ++
  flat_map (fun pin => [pin; lit ","]) entry.2 ++ [nl].

(** Every [hasher.update] argument, in order; [pins] is the normalised pin map. *)
Definition config_hash_updates (c : RelayConfig) (pins : btree (list bytes)) : list bytes :=
  [lit "config_hash_schema:v2" ++ nl] ++
  runtime_updates (runtime c) ++
  [lit "default_upstream:"; default_upstream c; nl] ++
  flat_map route_updates (routes c) ++
  flat_map allowed_updates (sort_strings (allowed_upstreams c)) ++
  [lit "max_request_bytes:"; dec (max_request_bytes c); nl] ++
  digest_updates (release_artifact_digest c) ++
  [lit "upstream_timeout_secs:"; dec (upstream_timeout_secs c); nl] ++
  flat_map pins_updates pins.

Definition config_preimage (c : RelayConfig) (pins : btree (list bytes)) : bytes :=
  concat (config_hash_updates c pins).

(** Pins that fail to normalise make [expect] panic. *)
Definition config_hash {UC : UrlCrate} {UT : UnicodeTables} {SC : Sha2Crate} {E} (c : RelayConfig)
  : outcome E bytes :=
  match normalize_upstream_tls_pins (upstream_tls_leaf_sha256 c) with
  | Ok pins => Ok (sha256 (config_preimage c pins))
  | _ => Panic
  end.

(** ** The preimage as lines *)

Definition route_line (route : bytes * ProviderConfig) : bytes :=
  lit "route:" ++ route.1 ++ lit "=>" ++ base_url route.2 ++
  match path route.2 with Some p => lit "|path:" ++ p | None => [] end.
Definition allowed_line (a : bytes) : bytes := lit "allowed:" ++ a.
Definition pins_line (entry : bytes * list bytes) : bytes :=
  lit "upstream_tls_leaf_sha256:" ++ entry.1 ++ lit "=>" ++
  flat_map (fun pin => pin ++ lit ",") entry.2.
Definition digest_lines (digest : option bytes) : list bytes :=
  match digest with
  | Some d => [lit "release_artifact_digest:" ++ to_ascii_lowercase (trim d)]
  | None => []
  end.

Definition head_lines (c : RelayConfig) : list bytes :=
  [lit "config_hash_schema:v2";
   lit "runtime.allow_client_provider_auth:" ++ bool_text (allow_client_provider_auth (runtime c));
   lit "runtime.private_admin_enabled:" ++ bool_text (private_admin_enabled (runtime c));
   lit "runtime.provider_auth_scheme:" ++ provider_auth_scheme (runtime c);
   lit "runtime.body_log_policy:" ++ body_log_policy (runtime c);
   lit "default_upstream:" ++ default_upstream c].

Definition preimage_lines (c : RelayConfig) (pins : btree (list bytes)) : list bytes :=
  head_lines c ++
  map route_line (routes c) ++
  map allowed_line (sort_strings (allowed_upstreams c)) ++
  [lit "max_request_bytes:" ++ dec (max_request_bytes c)] ++
  digest_lines (release_artifact_digest c) ++
  [lit "upstream_timeout_secs:" ++ dec (upstream_timeout_secs c)] ++
  map pins_line pins.

Definition unlines (ls : list bytes) : bytes := flat_map (fun l => l ++ nl) ls.

(** ** When the lines can be read back *)

Definition no_lf (s : bytes) : Prop := byte_lf ∉ s.

(** A separator whose first byte does not recur in it, absent from a text. *)
Definition clean_route (route : bytes * ProviderConfig) : Prop :=
  no_lf route.1 /\ contains (lit "=>") route.1 = false /\
  no_lf (base_url route.2) /\ contains (lit "|path:") (base_url route.2) = false /\
  no_lf (default [] (path route.2)).
Definition clean_pins (entry : bytes * list bytes) : Prop :=
  no_lf entry.1 /\ contains (lit "=>") entry.1 = false /\ Forall canonical_pin entry.2.

Record clean_config (c : RelayConfig) (pins : btree (list bytes)) : Prop := {
  clean_scheme : no_lf (provider_auth_scheme (runtime c));
  clean_policy : no_lf (body_log_policy (runtime c));
  clean_default : no_lf (default_upstream c);
  clean_routes : Forall clean_route (routes c);
  clean_allowed : Forall no_lf (allowed_upstreams c);
  clean_digest : Forall no_lf (digest_lines (release_artifact_digest c));
  clean_tls : Forall clean_pins pins;
}.

(** What the hash identifies: everything but the listen address, the order of the
    allowlist, the case and surrounding blanks of the digest and the spelling of pins. *)
Record same_hashed_config (c1 c2 : RelayConfig) (pins1 pins2 : btree (list bytes)) : Prop := {
  same_runtime : runtime c1 = runtime c2;
  same_default : default_upstream c1 = default_upstream c2;
  same_routes : routes c1 = routes c2;
  same_allowed : allowed_upstreams c1 ≡ₚ allowed_upstreams c2;
  same_max : max_request_bytes c1 = max_request_bytes c2;
  same_digest : (to_ascii_lowercase ∘ trim) <$> release_artifact_digest c1
              = (to_ascii_lowercase ∘ trim) <$> release_artifact_digest c2;
  same_timeout : upstream_timeout_secs c1 = upstream_timeout_secs c2;
  same_pins : pins1 = pins2;
}.

(** ** Reading lines back *)

Lemma unlines_app l k : unlines (l ++ k) = unlines l ++ unlines k.
Proof. apply flat_map_app. Qed.

Lemma no_lf_app s t : no_lf (s ++ t) <-> no_lf s /\ no_lf t.
Proof. unfold no_lf. rewrite elem_of_app. tauto. Qed.

Lemma unlines_inj l k :
  Forall no_lf l -> Forall no_lf k -> unlines l = unlines k -> l = k.
Proof.
  intros Hl. revert k. induction Hl as [|x l Hx Hl IH]; intros k Hk E.
  - destruct k as [|y k]; [done|]. cbn in E. by destruct y.
  - destruct Hk as [|y k Hy Hk]; [cbn in E; by destruct x|].
    cbn [unlines flat_map] in E. unfold nl in E. rewrite <-!app_assoc in E. cbn [app] in E.
    assert (Hs := split_once_app byte_lf x (unlines l) Hx).
    assert (Hs' := split_once_app byte_lf y (unlines k) Hy).
    unfold unlines at 1 in Hs. unfold unlines at 1 in Hs'. unfold nl in Hs, Hs'.
    rewrite E in Hs. rewrite Hs in Hs'. injection Hs' as -> E'.
    f_equal. by apply IH.
Qed.

Lemma sep_split_inj c sep p q r s :
  c ∉ sep -> contains (c :: sep) p = false -> contains (c :: sep) q = false ->
  p ++ (c :: sep) ++ r = q ++ (c :: sep) ++ s -> p = q /\ r = s.
Proof.
  intros Hc Hp Hq E.
  pose proof (find_at_first c sep p r Hc Hp) as F1.
  pose proof (find_at_first c sep q s Hc Hq) as F2.
  rewrite E, F2 in F1. injection F1 as -> F. split; [done|]. by apply app_inv_head in F.
Qed.

Lemma arrow_split_inj p q r s :
  contains (lit "=>") p = false -> contains (lit "=>") q = false ->
  p ++ lit "=>" ++ r = q ++ lit "=>" ++ s -> p = q /\ r = s.
Proof. apply (sep_split_inj "="%byte [">"%byte]). by vm_compute; set_solver. Qed.

Lemma path_sep_split_inj p q r s :
  contains (lit "|path:") p = false -> contains (lit "|path:") q = false ->
  p ++ lit "|path:" ++ r = q ++ lit "|path:" ++ s -> p = q /\ r = s.
Proof.
  apply (sep_split_inj "|"%byte (lit "path:")).
  apply (bool_decide_unpack _). by vm_compute.
Qed.

Lemma route_line_inj x y : clean_route x -> clean_route y -> route_line x = route_line y -> x = y.
Proof.
  destruct x as [p [b po]], y as [q [d qo]]. unfold clean_route, route_line.
  cbn [fst snd base_url path]. intros (_ & Hp & _ & Hb & _) (_ & Hq & _ & Hd & _) E.
  apply app_inv_head in E. apply arrow_split_inj in E as [-> E]; [|done..].
  assert (b = d /\ po = qo) as [-> ->]; [|done].
  destruct po as [po|], qo as [qo|].
  - apply path_sep_split_inj in E as [-> ->]; done.
  - rewrite app_nil_r in E. subst d. exfalso.
    assert (contains (lit "|path:") (b ++ lit "|path:" ++ po) = true); [|congruence].
    apply contains_true; eauto.
  - rewrite app_nil_r in E. subst b. exfalso.
    assert (contains (lit "|path:") (d ++ lit "|path:" ++ qo) = true); [|congruence].
    apply contains_true; eauto.
  - rewrite !app_nil_r in E. done.
Qed.

Lemma canonical_pin_bytes p b : canonical_pin p -> b ∈ p ->
  b = ":"%byte \/ is_ascii_alphanumeric b = true.
Proof.
  intros (hex & -> & _ & Hhex & _) [Hb|Hb]%elem_of_app.
  - assert (bool_decide (b = ":"%byte) || is_ascii_alphanumeric b = true) as Hor.
    { revert b Hb. apply Forall_forall. by repeat constructor. }
    apply orb_true_iff in Hor as [?%bool_decide_eq_true|?]; auto.
  - right. rewrite forallb_forall in Hhex. specialize (Hhex b).
    rewrite <-list_elem_of_In in Hhex. specialize (Hhex Hb).
    unfold is_ascii_hexdigit, is_ascii_alphanumeric, is_ascii_lower, is_ascii_upper, in_range in *.
    destruct (is_ascii_digit b); [done|]. cbn [orb] in *.
    repeat match goal with H : context [?x <=? ?y] |- _ => destruct (N.leb_spec x y) end;
      repeat match goal with |- context [?x <=? ?y] => destruct (N.leb_spec x y) end;
      simpl in *; try done; lia.
Qed.

Lemma pins_text_inj l k :
  Forall canonical_pin l -> Forall canonical_pin k ->
  flat_map (fun pin => pin ++ lit ",") l = flat_map (fun pin => pin ++ lit ",") k -> l = k.
Proof.
  assert (Hcomma : forall p, canonical_pin p -> ","%byte ∉ p).
  { intros p Hp Hin. by destruct (canonical_pin_bytes p _ Hp Hin). }
  intros Hl. revert k. induction Hl as [|x l Hx Hl IH]; intros k Hk E.
  - destruct k as [|y k]; [done|]. cbn in E. by destruct y.
  - destruct Hk as [|y k Hy Hk]; [cbn in E; by destruct x|].
    cbn [flat_map] in E. change (lit ",") with [","%byte] in E.
    rewrite <-!app_assoc in E. cbn [app] in E.
    assert (Hs := split_once_app ","%byte x
      (flat_map (fun pin => pin ++ [","%byte]) l) (Hcomma _ Hx)).
    assert (Hs' := split_once_app ","%byte y
      (flat_map (fun pin => pin ++ [","%byte]) k) (Hcomma _ Hy)).
    rewrite E in Hs. rewrite Hs in Hs'. injection Hs' as -> E'.
    f_equal. by apply IH.
Qed.

Lemma pins_line_inj x y : clean_pins x -> clean_pins y -> pins_line x = pins_line y -> x = y.
Proof.
  destruct x as [o l], y as [u k]. unfold clean_pins, pins_line. cbn [fst snd].
  intros (_ & Ho & Hl) (_ & Hu & Hk) E. apply app_inv_head in E.
  apply arrow_split_inj in E as [-> E]; [|done..]. apply pins_text_inj in E as ->; done.
Qed.

(** Blocks of tagged lines are delimited by their tags. *)
Lemma block_split {A} (P : A -> bool) l1 l2 r1 r2 :
  Forall (fun x => P x = true) l1 -> Forall (fun x => P x = true) l2 ->
  match head r1 with Some x => P x = false | None => True end ->
  match head r2 with Some x => P x = false | None => True end ->
  l1 ++ r1 = l2 ++ r2 -> l1 = l2 /\ r1 = r2.
Proof.
  intros H1. revert l2. induction H1 as [|x l1 Hx H1 IH]; intros l2 H2 Hr1 Hr2 E.
  - destruct H2 as [|y l2 Hy H2]; [done|]. simpl in E. subst r1. simpl in Hr1. congruence.
  - destruct H2 as [|y l2 Hy H2].
    + simpl in E. subst r2. simpl in Hr2. congruence.
    + injection E as -> E. apply IH in E as [-> ->]; done.
Qed.

Lemma map_inj_Forall {A B} (f : A -> B) (P : A -> Prop) l k :
  (forall x y, P x -> P y -> f x = f y -> x = y) ->
  Forall P l -> Forall P k -> map f l = map f k -> l = k.
Proof.
  intros Hf Hl. revert k. induction Hl as [|x l Hx Hl IH]; intros k Hk E.
  - by destruct k.
  - destruct Hk as [|y k Hy Hk]; [done|]. injection E as Ex E. f_equal; auto.
Qed.

(** ** The preimage *)

Lemma concat_flat_map {A} (f : A -> list bytes) l :
  concat (flat_map f l) = flat_map (fun x => concat (f x)) l.
Proof. induction l as [|x l IH]; [done|]. cbn [flat_map]. by rewrite concat_app, IH. Qed.

Lemma unlines_map {A} (f : A -> bytes) l : unlines (map f l) = flat_map (fun x => f x ++ nl) l.
Proof. unfold unlines. induction l as [|x l IH]; [done|]. cbn [map flat_map]. by rewrite IH. Qed.

Lemma flat_map_ext' {A B} (f g : A -> list B) l : (forall x, f x = g x) -> flat_map f l = flat_map g l.
Proof. intros E. induction l as [|x l IH]; [done|]. cbn [flat_map]. by rewrite E, IH. Qed.

Lemma concat_route_updates r : concat (route_updates r) = route_line r ++ nl.
Proof.
  unfold route_updates, route_line.
  by destruct (path r.2); cbn [concat app]; rewrite ?app_nil_r, <-?app_assoc.
Qed.

Lemma concat_pin_texts l :
  concat (flat_map (fun pin => [pin; lit ","]) l) = flat_map (fun pin => pin ++ lit ",") l.
Proof.
  induction l as [|x l IH]; [done|]. cbn [flat_map]. rewrite concat_app, IH. cbn [concat].
  by rewrite app_nil_r.
Qed.

Lemma concat_pins_updates e : concat (pins_updates e) = pins_line e ++ nl.
Proof.
  unfold pins_updates, pins_line. rewrite !concat_app, concat_pin_texts. cbn [concat].
  by rewrite !app_nil_r, <-!app_assoc.
Qed.

Lemma config_preimage_lines c pins : config_preimage c pins = unlines (preimage_lines c pins).
Proof.
  unfold config_preimage, config_hash_updates, preimage_lines.
  rewrite !unlines_app, !unlines_map, !concat_app, !concat_flat_map.
  rewrite (flat_map_ext' _ _ (routes c) concat_route_updates).
  rewrite (flat_map_ext' _ _ pins concat_pins_updates).
  assert (Hhead : concat [lit "config_hash_schema:v2" ++ nl] ++ concat (runtime_updates (runtime c)) ++
    concat [lit "default_upstream:"; default_upstream c; nl] =
    unlines (head_lines c)).
  { cbn [head_lines unlines flat_map runtime_updates concat app].
    by rewrite ?app_nil_r, <-?app_assoc. }
  rewrite <-Hhead, <-!app_assoc.
  do 5 f_equal.
  unfold digest_updates, digest_lines, unlines.
  by destruct (release_artifact_digest c); cbn [concat flat_map app];
    rewrite ?app_nil_r, <-?app_assoc.
Qed.

Lemma no_lf_decide s : bool_decide (byte_lf ∈ s) = false -> no_lf s.
Proof. apply bool_decide_eq_false. Qed.

Lemma bool_text_no_lf b : no_lf (bool_text b).
Proof. apply no_lf_decide. by destruct b; vm_compute. Qed.

Ltac solve_no_lf :=
  repeat (apply no_lf_app; split);
  first [done | apply bool_text_no_lf | by apply dec_not_in | by apply no_lf_decide; vm_compute].

Lemma preimage_lines_no_lf c pins : clean_config c pins -> Forall no_lf (preimage_lines c pins).
Proof.
  intros [Hs Hp Hd Hr Ha Hg Ht]. unfold preimage_lines. rewrite !Forall_app. split_and!.
  - unfold head_lines. repeat (constructor; [solve_no_lf|]). constructor.
  - apply Forall_map. eapply Forall_impl; [exact Hr|]. intros [q [b po]] (? & _ & ? & _ & ?).
    unfold route_line. cbn [fst snd base_url path] in *. destruct po; solve_no_lf.
  - apply Forall_map. unfold sort_strings. rewrite sort_by_perm.
    eapply Forall_impl; [exact Ha|]. intros a Hno. unfold allowed_line. solve_no_lf.
  - repeat (constructor; [solve_no_lf|]). constructor.
  - done.
  - repeat (constructor; [solve_no_lf|]). constructor.
  - apply Forall_map. eapply Forall_impl; [exact Ht|]. intros [o ps] (? & _ & Hps).
    unfold pins_line. cbn [fst snd] in *. repeat (apply no_lf_app; split); [solve_no_lf..|].
    intros Hin. apply list_elem_of_In, in_flat_map in Hin as (p & Hp' & Hq).
    apply list_elem_of_In in Hp', Hq. rewrite Forall_forall in Hps.
    apply elem_of_app in Hq as [Hin|Hin].
    + by destruct (canonical_pin_bytes p _ (Hps _ Hp') Hin).
    + revert Hin. apply no_lf_decide. by vm_compute.
Qed.

Lemma route_lines_tag rs : Forall (fun l => starts_with (lit "route:") l = true) (map route_line rs).
Proof. apply Forall_map, Forall_true. intros r. apply starts_with_app. Qed.
Lemma allowed_lines_tag l : Forall (fun l => starts_with (lit "allowed:") l = true) (map allowed_line l).
Proof. apply Forall_map, Forall_true. intros r. apply starts_with_app. Qed.

Lemma bool_text_inj a b : bool_text a = bool_text b -> a = b.
Proof. by destruct a, b. Qed.

Lemma head_lines_inj c1 c2 : head_lines c1 = head_lines c2 ->
  runtime c1 = runtime c2 /\ default_upstream c1 = default_upstream c2.
Proof.
  intros E. unfold head_lines in E.
  destruct c1 as [? [a1 b1 s1 l1] d1 ? ? ? ? ? ?], c2 as [? [a2 b2 s2 l2] d2 ? ? ? ? ? ?].
  cbn [runtime allow_client_provider_auth private_admin_enabled provider_auth_scheme
    body_log_policy default_upstream] in *.
  apply (f_equal (fun l => (l !! 1, l !! 2, l !! 3, l !! 4, l !! 5)%nat)) in E.
  cbn [lookup list_lookup] in E.
  injection E as E1 E2 E3 E4 E5.
  apply bool_text_inj in E1, E2. by subst.
Qed.

(** The lines after the allowlist: limits, optional digest, pins. *)
Definition tail_lines (c : RelayConfig) (pins : btree (list bytes)) : list bytes :=
  [lit "max_request_bytes:" ++ dec (max_request_bytes c)] ++
  digest_lines (release_artifact_digest c) ++
  [lit "upstream_timeout_secs:" ++ dec (upstream_timeout_secs c)] ++ map pins_line pins.

Lemma tail_lines_inj c1 c2 p1 p2 :
  Forall clean_pins p1 -> Forall clean_pins p2 -> tail_lines c1 p1 = tail_lines c2 p2 ->
  max_request_bytes c1 = max_request_bytes c2 /\
  (to_ascii_lowercase ∘ trim) <$> release_artifact_digest c1
  = (to_ascii_lowercase ∘ trim) <$> release_artifact_digest c2 /\
  upstream_timeout_secs c1 = upstream_timeout_secs c2 /\ p1 = p2.
Proof.
  intros H1 H2 E. unfold tail_lines in E. cbn [app] in E.
  injection E as E1 E. apply dec_inj in E1. split; [done|].
  apply (block_split (starts_with (lit "release_artifact_digest:"))) in E as [Ed E].
  - injection E as Et E. apply dec_inj in Et.
    apply (map_inj_Forall pins_line clean_pins) in E as ->; [|apply pins_line_inj|done..].
    split; [|done].
    destruct (release_artifact_digest c1) as [d1|], (release_artifact_digest c2) as [d2|];
      try done. unfold digest_lines in Ed. injection Ed as Ed.
    simpl. unfold compose. by rewrite Ed.
  - destruct (release_artifact_digest c1); repeat constructor; apply starts_with_app.
  - destruct (release_artifact_digest c2); repeat constructor; apply starts_with_app.
  - reflexivity.
  - reflexivity.
Qed.

Lemma preimage_lines_inj c1 c2 p1 p2 :
  clean_config c1 p1 -> clean_config c2 p2 ->
  preimage_lines c1 p1 = preimage_lines c2 p2 -> same_hashed_config c1 c2 p1 p2.
Proof.
  intros C1 C2 E. unfold preimage_lines in E.
  apply app_inj_1 in E as [Eh E]; [|done]. apply head_lines_inj in Eh as [Er Ed].
  apply (block_split (starts_with (lit "route:"))) in E as [Ero E];
    [|apply route_lines_tag|apply route_lines_tag| |];
    [|by destruct (sort_strings (allowed_upstreams c1))|by destruct (sort_strings (allowed_upstreams c2))].
  apply (block_split (starts_with (lit "allowed:"))) in E as [Eal E];
    [|apply allowed_lines_tag|apply allowed_lines_tag|reflexivity|reflexivity].
  apply tail_lines_inj in E as (Em & Edg & Et & Ep); [|by destruct C1|by destruct C2].
  apply (map_inj_Forall route_line clean_route) in Ero;
    [|apply route_line_inj|by destruct C1|by destruct C2].
  apply (map_inj_Forall allowed_line (fun _ => True)) in Eal;
    [|intros x y _ _; apply app_inv_head|by apply Forall_true|by apply Forall_true].
  apply sort_strings_perm in Eal. by split.
Qed.

Lemma config_preimage_same c1 c2 pins1 pins2 : clean_config c1 pins1 -> clean_config c2 pins2 ->
  config_preimage c1 pins1 = config_preimage c2 pins2 -> same_hashed_config c1 c2 pins1 pins2.
Proof.
  intros H1 H2. rewrite !config_preimage_lines. intros E. apply preimage_lines_inj; [done..|].
  apply unlines_inj; [by apply preimage_lines_no_lf..|done].
Qed.

(** ** Properties *)

(** The hash input determines the configuration: when no field holds a line feed, no
    route prefix holds [=>] and no base URL holds [|path:], two configurations feed the
    same bytes to SHA-256 exactly when they agree on every security-relevant field. *)
Theorem config_preimage_injective (c1 c2 : RelayConfig) (pins1 pins2 : btree (list bytes))
  (H1 : clean_config c1 pins1) (H2 : clean_config c2 pins2) :
  config_preimage c1 pins1 = config_preimage c2 pins2 <->
  same_hashed_config c1 c2 pins1 pins2.
Proof.
  split; [by apply config_preimage_same|]. rewrite !config_preimage_lines.
  - intros [Er Ed Ero Ea Em Eg Et Ep]. f_equal. unfold preimage_lines, head_lines.
    apply sort_strings_perm in Ea. rewrite Er, Ed, Ero, Ea, Em, Et, Ep.
    do 3 f_equal. f_equal. f_equal.
    destruct (release_artifact_digest c1), (release_artifact_digest c2); try done.
    simpl in Eg. unfold compose in Eg. injection Eg as Eg. simpl. by rewrite Eg.
Qed.

Definition hash_pins : btree (list bytes) :=
  [(lit "https://api.openai.com:443", [lit "sha256:" ++ sixty_four "a"%byte])].

Lemma two_routes_clean : clean_config two_routes hash_pins.
Proof.
  assert (Hd : forall s, bool_decide (byte_lf ∈ s) = false -> no_lf s) by apply no_lf_decide.
  split; repeat first
    [ apply Forall_nil_2 | apply Forall_cons_2
    | apply Hd; vm_compute; reflexivity
    | split | vm_compute; reflexivity ].
  cbn [snd]. exists (sixty_four "a"%byte). repeat split; vm_compute; reflexivity.
Defined.

Lemma config_preimage_injective_witness :
  same_hashed_config two_routes two_routes hash_pins hash_pins.
Proof.
  apply (config_preimage_injective two_routes two_routes hash_pins hash_pins);
    [apply two_routes_clean|apply two_routes_clean|reflexivity].
Defined.

Lemma normalize_pins_no_err_after_validate {UC : UrlCrate} {UT : UnicodeTables} c :
  RelayConfig_validate c = Ok tt ->
  exists pins, normalize_upstream_tls_pins (upstream_tls_leaf_sha256 c) = Ok pins.
Proof. unfold RelayConfig_validate. intros Hv. inv_outcome. eauto. Qed.

(** [config_hash] never reaches its [expect] panic on a validated configuration, and
    returns a 32-byte digest. *)
Theorem config_hash_total {UC : UrlCrate} {UT : UnicodeTables} {SC : Sha2Crate} {SL : Sha2Laws} (E : Type) (c : RelayConfig)
  (Hv : RelayConfig_validate c = Ok tt) :
  exists h, config_hash (E:=E) c = Ok h /\ length h = 32%nat.
Proof.
  destruct (normalize_pins_no_err_after_validate c Hv) as [pins Hp].
  unfold config_hash. rewrite Hp. eexists. split; [done|]. apply sha256_length.
Qed.

Lemma config_hash_total_witness :
  exists h, config_hash (UC := Ref.url) (UT := Ref.unicode)
    (SC := Ref.sha2) (E := Empty_set) two_routes = Ok h /\ length h = 32%nat.
Proof.
  apply (config_hash_total (UC := Ref.url) (UT := Ref.unicode) (SC := Ref.sha2) (SL := Ref.sha2_laws)). vm_compute. reflexivity.
Defined.

(** C15: A client that pins the hash of a clean configuration accepts only relays whose clean
    configuration agrees on every security-relevant field, unless the texts hashed for the
    two configurations differ and collide under SHA-256. *)
Theorem config_hash_binds {UC : UrlCrate} {UT : UnicodeTables} {SC : Sha2Crate} (E : Type)
  (c1 c2 : RelayConfig) (pins1 pins2 : btree (list bytes)) (h : bytes)
  (Hn1 : normalize_upstream_tls_pins (upstream_tls_leaf_sha256 c1) = Ok pins1)
  (Hn2 : normalize_upstream_tls_pins (upstream_tls_leaf_sha256 c2) = Ok pins2)
  (Hc1 : clean_config c1 pins1) (Hc2 : clean_config c2 pins2)
  (Hh1 : config_hash (E:=E) c1 = Ok h) (Hh2 : config_hash (E:=E) c2 = Ok h) :
  same_hashed_config c1 c2 pins1 pins2 \/
  (config_preimage c1 pins1 <> config_preimage c2 pins2 /\
   sha256 (config_preimage c1 pins1) = sha256 (config_preimage c2 pins2)).
Proof.
  unfold config_hash in *. rewrite Hn1 in Hh1. rewrite Hn2 in Hh2.
  destruct (decide (config_preimage c1 pins1 = config_preimage c2 pins2)) as [Heq|Hne].
  - left. by apply config_preimage_same.
  - right. split; [exact Hne|]. congruence.
Qed.

Lemma config_hash_binds_witness :
  same_hashed_config two_routes two_routes hash_pins hash_pins.
Proof.
  edestruct (config_hash_binds (UC := Ref.url) (UT := Ref.unicode) (SC := Ref.sha2) Empty_set
    two_routes two_routes hash_pins hash_pins) as [H|[Hne _]];
    [vm_compute; reflexivity|vm_compute; reflexivity|apply two_routes_clean|apply two_routes_clean
    |vm_compute; reflexivity|vm_compute; reflexivity|exact H|].
  destruct (Hne eq_refl).
Defined.

(** ** Ambiguity without the side conditions *)

Definition with_default (u : bytes) (allowed : list bytes) : RelayConfig := {|
  listen_addr := lit "0.0.0.0:8443"; runtime := RuntimeConfig_default;
  default_upstream := u; routes := bt_empty; allowed_upstreams := allowed;
  max_request_bytes := 1024; release_artifact_digest := None; upstream_timeout_secs := 120;
  upstream_tls_leaf_sha256 := bt_empty;
|}.

Definition with_route (p : ProviderConfig) : RelayConfig := {|
  listen_addr := lit "0.0.0.0:8443"; runtime := RuntimeConfig_default;
  default_upstream := lit "https://api.openai.com"; routes := [(lit "gpt-", p)];
  allowed_upstreams := []; max_request_bytes := 1024; release_artifact_digest := None;
  upstream_timeout_secs := 120; upstream_tls_leaf_sha256 := bt_empty;
|}.

(** Without those conditions the hash does not separate configurations, whatever the
    URL parser and the digest: a line feed in the default upstream can spell an
    allowlist entry, and [|path:] in a base URL can spell a path override. *)
Theorem config_hash_ambiguous {UC : UrlCrate} {UT : UnicodeTables} {SC : Sha2Crate} (E : Type) :
  (exists c1 c2, allowed_upstreams c1 <> allowed_upstreams c2 /\
     lit "https://evil.com" ∈ allowed_upstreams c2 /\
     lit "https://evil.com" ∉ allowed_upstreams c1 /\
     config_hash (E:=E) c1 = config_hash c2) /\
  (exists c1 c2, resolve_upstream c1 (lit "gpt-4") <> resolve_upstream c2 (lit "gpt-4") /\
     config_hash (E:=E) c1 = config_hash c2).
Proof.
  split.
  - exists (with_default (lit "https://a.com/" ++ nl ++ lit "allowed:https://evil.com")
      [lit "https://z.com"]),
      (with_default (lit "https://a.com/") [lit "https://evil.com"; lit "https://z.com"]).
    split_and!; [done|left| |].
    + cbn [with_default allowed_upstreams]. apply (bool_decide_unpack _). by vm_compute.
    + unfold config_hash. cbn [with_default upstream_tls_leaf_sha256]. simpl. do 2 f_equal.
  - exists (with_route {| base_url := lit "https://a.com/"; path := Some (lit "/v1") |}),
      (with_route {| base_url := lit "https://a.com/|path:/v1"; path := None |}).
    split; [by vm_compute|].
    unfold config_hash. cbn [with_route upstream_tls_leaf_sha256]. simpl. do 2 f_equal.
Qed.
