(* ===== verification/Secrets.v ===== *)
(** * Provider credentials

    [crates/relay-core/src/secrets.rs]: the credential the relay presents to the
    upstream provider and the store that holds at most one. Every store
    operation takes the lock once, so each is one atomic step on the state. *)

From S2P Require Import Prelude RustStr Extern.

Local Open Scope N_scope.

Record ProviderCredential := {
  auth_scheme : bytes;
  token : bytes;
}.

#[global] Instance ProviderCredential_eq_dec : EqDecision ProviderCredential.
Proof. solve_decision. Defined.

Inductive CredentialError :=
  | SchemeEmpty
  | SchemeNotToken
  | TokenIsEmpty
  | TokenHasBlank
  | NotAHeader.

Definition default_auth_scheme : bytes := lit "Bearer".

(** The named fields [Debug] prints. *)
Definition debug_fields (c : ProviderCredential) : list (bytes * bytes) :=
  [(lit "auth_scheme", auth_scheme c); (lit "token", lit "<redacted>")].

Definition blank_or_control (b : byte) : bool := is_ascii_control b || is_ascii_whitespace b.

Section credential.
Context {HV : HeaderValueCrate}.

Definition header_value_from_str (v : bytes) : option bytes :=
  if header_value_valid v then Some v else None.

Definition authorization_value (c : ProviderCredential) : option bytes :=
  header_value_from_str (auth_scheme c ++ lit " " ++ token c).

Definition ProviderCredential_validate (c : ProviderCredential) : outcome CredentialError unit :=
  let scheme := trim (auth_scheme c) in
  if bool_decide (scheme = []) then Err SchemeEmpty
  else if existsb blank_or_control scheme then Err SchemeNotToken
  else if bool_decide (token c = []) then Err TokenIsEmpty
  else if existsb blank_or_control (token c) then Err TokenHasBlank
  else
    _ ← ok_or (authorization_value c) NotAHeader;
    Ok tt.
End credential.

(** ** The store *)

Definition ProviderCredentialStore : Type := option ProviderCredential.
Definition store_new : ProviderCredentialStore := None.
Definition store_get (s : ProviderCredentialStore) : option ProviderCredential := s.
Definition is_loaded (s : ProviderCredentialStore) : bool :=
  match s with Some _ => true | None => false end.
Definition store_set (c : ProviderCredential) (s : ProviderCredentialStore)
  : ProviderCredentialStore := Some c.
(** [set_once] gives back the credential it refused. *)
Definition set_once (c : ProviderCredential) (s : ProviderCredentialStore)
  : outcome ProviderCredential unit * ProviderCredentialStore :=
  match s with
  | Some _ => (Err c, s)
  | None => (Ok tt, Some c)
  end.

(** ** Facts *)

Lemma existsb_false_forall {A} (p : A -> bool) l :
  existsb p l = false <-> forall x, x ∈ l -> p x = false.
Proof.
  induction l as [|x l IH]; simpl.
  - split; [intros _ y Hy; by apply elem_of_nil in Hy|done].
  - rewrite orb_false_iff, IH. setoid_rewrite elem_of_cons. split.
    + intros [? ?] y [->|?]; auto.
    + intros H. split; auto.
Qed.

Lemma set_once_loaded c s r s' : set_once c s = (r, s') -> is_loaded s' = true.
Proof. unfold set_once. destruct s; intros [= <- <-]; done. Qed.

Lemma set_once_keeps c c0 : set_once c (Some c0) = (Err c, Some c0).
Proof. done. Qed.

Lemma ProviderCredential_validate_Ok {HV : HeaderValueCrate} c :
  ProviderCredential_validate c = Ok tt ->
  trim (auth_scheme c) <> [] /\
  (forall b, b ∈ trim (auth_scheme c) -> blank_or_control b = false) /\
  token c <> [] /\ (forall b, b ∈ token c -> blank_or_control b = false) /\
  authorization_value c = Some (auth_scheme c ++ lit " " ++ token c).
Proof.
  unfold ProviderCredential_validate. intros H.
  case_bool_decide; [done|]. destruct (existsb blank_or_control (trim _)) eqn:E1; [done|].
  case_bool_decide; [done|]. destruct (existsb blank_or_control (token c)) eqn:E2; [done|].
  rewrite existsb_false_forall in E1, E2. inv_outcome. split_and!; try done.
  unfold authorization_value, header_value_from_str in *. by case_match; simplify_eq.
Qed.

(** ** Properties *)

(** A validated credential yields an Authorization header that cannot be split: the value
    is the scheme, one space and the token, the token is its suffix after the last
    blank, and no control byte other than a tab occurs anywhere in it. *)
Theorem validated_credential_header {HV : HeaderValueCrate} {HVL : HeaderValueLaws}
  (c : ProviderCredential) (Hv : ProviderCredential_validate c = Ok tt) :
  exists v, authorization_value c = Some v /\ v = auth_scheme c ++ lit " " ++ token c /\
    token c <> [] /\
    (forall b, b ∈ token c -> is_ascii_whitespace b = false /\ is_ascii_control b = false) /\
    (forall b, b ∈ v -> is_ascii_control b = true -> b = "009"%byte) /\
    (trim (auth_scheme c) = auth_scheme c ->
       split_once " "%byte v = Some (auth_scheme c, token c)).
Proof.
  apply ProviderCredential_validate_Ok in Hv as (_ & Hs & Hne & Ht & Ha).
  exists (auth_scheme c ++ lit " " ++ token c). split_and!; try done.
  - intros b Hb. apply Ht in Hb. unfold blank_or_control in Hb.
    apply orb_false_iff in Hb as [? ?]. done.
  - intros b Hb Hc. unfold authorization_value, header_value_from_str in Ha.
    case_match eqn:Hok; [|done]. by eapply header_value_no_control.
  - intros Htrim. apply split_once_app. intros Hin. rewrite <-Htrim in Hin.
    apply Hs in Hin. vm_compute in Hin. done.
Qed.

Definition sample_credential : ProviderCredential :=
  {| auth_scheme := lit "Bearer"; token := lit "provider-key" |}.

Lemma validated_credential_header_witness :
  exists v, authorization_value (HV := Ref.header_value) sample_credential = Some v /\
    split_once " "%byte v = Some (lit "Bearer", lit "provider-key").
Proof.
  destruct (validated_credential_header (HV := Ref.header_value) (HVL := Ref.header_value_laws)
    sample_credential) as (v & Hv & _ & _ & _ & _ & Hsplit); [vm_compute; reflexivity|].
  exists v. split; [exact Hv|]. apply Hsplit. vm_compute. reflexivity.
Defined.
