(* ===== verification/AppError.v ===== *)
(** * Handler errors and log redaction

    [crates/relay-core/src/error.rs]. The text of an internal error is replaced
    by the value it is built from, [InternalCause]; the redaction that guards
    the log works on bytes as the source does. *)

From S2P Require Import Prelude RustStr Extern Config.

Local Open Scope N_scope.

(** ** Errors *)

Inductive InternalCause :=
  | UpstreamDenied (e : ConfigError)
  | BadInjectedCredential
  | UpstreamRequestFailed (e : bytes)
  | ResponseBuildFailed
  | UpstreamBodyFailed.

Inductive AppError :=
  | Upstream (status : N) (body : bytes)
  | PayloadTooLarge (limit : N)
  | MissingProviderCredential
  | Internal (cause : InternalCause).

(** [From<reqwest::Error>] *)
Definition AppError_from_reqwest (e : bytes) : AppError := Internal (UpstreamRequestFailed e).

Definition payload_too_large_body : bytes :=
  lit "{'error':{'message':'request body too large','type':'relay_error'}}".
Definition missing_credential_body : bytes :=
  lit "{'error':{'message':'provider credential not loaded','type':'relay_error'}}".
Definition internal_error_body : bytes :=
  lit "{'error':{'message':'internal relay error','type':'relay_error'}}".

(** The JSON literals of the source, written above with apostrophes, use double quotes. *)
Definition requote (s : bytes) : bytes :=
  map (fun b => if decide (b = "'"%byte) then "034"%byte else b) s.

(** Status and body of [into_response]; headers are the framework's defaults. *)
Definition into_response (e : AppError) : N * bytes :=
  match e with
  | Upstream status body => (status, body)
  | PayloadTooLarge _ => (413, requote payload_too_large_body)
  | MissingProviderCredential => (503, requote missing_credential_body)
  | Internal _ => (500, requote internal_error_body)
  end.

(** ** Redaction of log lines *)

Definition redacted : bytes := lit "<redacted>".

Definition is_token_char (b : byte) : bool :=
  is_ascii_alphanumeric b || bool_decide (b = "-"%byte) || bool_decide (b = "_"%byte).

Definition is_sensitive_word (lower : bytes) : bool :=
  starts_with (lit "authorization") lower
  || starts_with (lit "bearer") lower
  || contains (lit "api_key") lower
  || contains (lit "token") lower
  || contains (lit "secret") lower.

Definition redact_sk (part : bytes) : bytes :=
  match find_at (lit "sk-") part with
  | Some (prefix, rest) =>
      if 8 <=? len (take_while is_token_char rest)
      then prefix ++ redacted ++ drop_while is_token_char rest
      else part
  | None => part
  end.

Definition redact_sensitive_part (part : bytes) : bytes :=
  if is_sensitive_word (to_ascii_lowercase part) then redacted else redact_sk part.

Definition redact_sensitive (raw : bytes) : bytes :=
  join (lit " ") (map redact_sensitive_part (split_whitespace raw)).

(** ** Facts *)

Lemma take_while_app p s t :
  Forall (fun b => p b = true) s -> take_while p (s ++ t) = s ++ take_while p t.
Proof. induction 1 as [|b s Hb _ IH]; simpl; [done|]. by rewrite Hb, IH. Qed.

Lemma drop_while_app p s t :
  Forall (fun b => p b = true) s -> drop_while p (s ++ t) = drop_while p t.
Proof. induction 1 as [|b s Hb _ IH]; simpl; [done|]. by rewrite Hb. Qed.

Lemma stop_while p t :
  match t with b :: _ => p b = false | [] => True end ->
  take_while p t = [] /\ drop_while p t = t.
Proof. destruct t as [|b t]; simpl; [done|]. by intros ->. Qed.

(** ** Properties *)

(** An API key in a word is cut out: when the first [sk-] of a word starts a run of at
    least eight key characters, the logged word is either wholly redacted or the text
    around the run with the marker in its place. *)
Theorem redact_removes_first_key (pre key post : bytes)
  (Hpre : forall p q, pre ++ lit "sk" <> p ++ lit "sk-" ++ q)
  (Hkey : Forall (fun b => is_token_char b = true) key)
  (Hlen : 5 <= len key)
  (Hpost : match post with b :: _ => is_token_char b = false | [] => True end) :
  redact_sensitive_part (pre ++ lit "sk-" ++ key ++ post) =
  if is_sensitive_word (to_ascii_lowercase (pre ++ lit "sk-" ++ key ++ post))
  then redacted else pre ++ redacted ++ post.
Proof.
  unfold redact_sensitive_part. destruct (is_sensitive_word _); [done|]. unfold redact_sk.
  assert (Hfind : find_at (lit "sk-") (pre ++ lit "sk-" ++ key ++ post)
                  = Some (pre, lit "sk-" ++ key ++ post)).
  { generalize (key ++ post) as t. intros t. clear -Hpre. induction pre as [|b pre IH].
    - unfold find_at; fold find_at. cbn [app]. by destruct t.
    - assert (Hst : starts_with (lit "sk-") ((b :: pre) ++ lit "sk-" ++ t) = false).
      { destruct (starts_with _ _) eqn:E; [|done].
        apply starts_with_true in E as [r Hr]. exfalso.
        destruct pre as [|b1 [|b2 pre]]; injection Hr; intros; subst; try discriminate.
        by eapply (Hpre [] (pre ++ lit "sk")). }
      cbn [app find_at] in *. rewrite Hst, IH; [done|].
      intros p q E. apply (Hpre (b :: p) q). cbn [app]. by rewrite E. }
  rewrite Hfind.
  assert (Hrun : Forall (fun b => is_token_char b = true) (lit "sk-" ++ key)).
  { apply Forall_app. split; [|done]. by repeat constructor. }
  rewrite app_assoc, take_while_app, drop_while_app by done.
  destruct (stop_while is_token_char post Hpost) as [-> ->].
  rewrite app_nil_r, len_app. change (len (lit "sk-")) with 3.
  by destruct (N.leb_spec 8 (3 + len key)); [|lia].
Qed.

Lemma redact_removes_first_key_witness :
  redact_sensitive_part (lit "key=" ++ lit "sk-" ++ lit "abcdef12" ++ lit ";")
  = lit "key=<redacted>;".
Proof.
  apply (redact_removes_first_key (lit "key=") (lit "abcdef12") (lit ";")).
  - intros p q E. assert (contains (lit "sk-") (lit "key=" ++ lit "sk") = true) as Hc.
    { apply contains_true. eauto. }
    vm_compute in Hc. discriminate.
  - repeat constructor.
  - vm_compute. discriminate.
  - reflexivity.
Defined.

(** The redaction works word by word and once per word: the token after the word
    [Bearer], and a second key in one word, reach the log unchanged. *)
Theorem redact_leaks :
  redact_sensitive (lit "Authorization: Bearer opaque123456789") =
    lit "<redacted> <redacted> opaque123456789" /\
  redact_sensitive (lit "sk-aaaaaaaaaa,sk-bbbbbbbbbb") = lit "<redacted>,sk-bbbbbbbbbb" /\
  redact_sensitive (lit "sk-1:sk-bbbbbbbbbb") = lit "sk-1:sk-bbbbbbbbbb".
Proof. by vm_compute. Qed.

(** The client never learns the cause of an internal error: the response to it is one
    constant, and no error but an upstream one lets a variable byte into the body. *)
Theorem error_response_hides_cause (e : AppError) :
  match e with
  | Upstream status body => into_response e = (status, body)
  | PayloadTooLarge _ => into_response e = into_response (PayloadTooLarge 0)
  | MissingProviderCredential => (into_response e).1 = 503
  | Internal _ => forall c', into_response e = into_response (Internal c')
  end.
Proof. by destruct e. Qed.
