(* ===== verification/Proxy.v ===== *)
(** * The reverse proxy handler

    [crates/relay-core/src/proxy.rs]: request preparation, the upstream call,
    response forwarding, and the pinning certificate verifier of the upstream
    client. The HTTP client is a function from the request it is handed to a result;
    the requests a handler hands to it are returned with its answer. What the client
    does with one, redirects included, is a part of the running server (Server.v). *)

From S2P Require Import Prelude RustStr BTree Extern Config ConfigHash Secrets AppError.

Local Open Scope N_scope.

Definition FORWARDED_REQUEST_HEADERS : list bytes :=
  [lit "accept"; lit "anthropic-version"; lit "anthropic-beta"; lit "authorization";
   lit "openai-beta"; lit "x-stainless-arch"; lit "x-stainless-lang"; lit "x-stainless-os";
   lit "x-stainless-package-version"; lit "x-stainless-runtime";
   lit "x-stainless-runtime-version"].

Definition FORWARDED_RESPONSE_HEADERS : list bytes :=
  [lit "content-type"; lit "openai-processing-ms"; lit "openai-version"; lit "request-id";
   lit "x-request-id"].

(** ** State and messages *)

Record AppState := {
  config : RelayConfig;
  provider_credentials : ProviderCredentialStore;
  require_provider_credential : bool;
}.

Record UpstreamRequest (M : Type) := {
  rq_method : bytes;
  rq_url : bytes;
  rq_headers : M;
  rq_body : bytes;
}.
Arguments rq_method {M}. Arguments rq_url {M}. Arguments rq_headers {M}. Arguments rq_body {M}.

(** The body arrives in chunks and ends well or with a transport error. *)
Record UpstreamResponse (M : Type) := {
  rs_status : N;
  rs_headers : M;
  rs_chunks : list bytes;
  rs_complete : bool;
}.
Arguments rs_status {M}. Arguments rs_headers {M}. Arguments rs_chunks {M}. Arguments rs_complete {M}.

Inductive ResponseBody :=
  | Buffered (b : bytes)
  | Streamed (chunks : list bytes) (complete : bool).

Record Response (M : Type) := {
  status : N;
  headers : M;
  body : ResponseBody;
}.
Arguments status {M}. Arguments headers {M}. Arguments body {M}.

(** ** Model name *)

Definition extract_model_name {JC : JsonCrate} (body : bytes) : option bytes :=
  v ← json_parse body;
  m ← value_get (lit "model") v;
  value_as_str m.

Section proxy.
Context {UC : UrlCrate} {UT : UnicodeTables} {JC : JsonCrate}.
Context {HV : HeaderValueCrate} {M : Type} {HM : HeaderMapCrate M}.

(** ** Request *)

(** One round of the header-forwarding loop. *)
Definition forward_header (client : M) (credential : option ProviderCredential)
  (acc : M) (header_name : bytes) : M :=
  if bool_decide (header_name = lit "authorization") && bool_decide (is_Some credential)
  then acc
  else match hm_get header_name client with
       | Some value =>
           if header_name_valid header_name && header_value_valid value
           then hm_insert header_name value acc else acc
       | None => acc
       end.

Definition forwarded_headers (client : M) (credential : option ProviderCredential) : M :=
  fold_left (forward_header client credential) FORWARDED_REQUEST_HEADERS hm_empty.

Definition add_credential (credential : option ProviderCredential) (hs : M)
  : outcome AppError M :=
  match credential with
  | Some c =>
      value ← ok_or (authorization_value c) (Internal BadInjectedCredential);
      Ok (hm_insert (lit "authorization") value hs)
  | None => Ok hs
  end.

Definition is_slash (b : byte) : bool := bool_decide (b = "/"%byte).

Definition upstream_url (base : bytes) (path_override : option bytes) : bytes :=
  trim_end_matches is_slash base ++ default (lit "/v1/chat/completions") path_override.

(** Everything before the upstream call. *)
Definition prepare_request (st : AppState) (client : M) (body : bytes)
  : outcome AppError (UpstreamRequest M) :=
  _ ← ensure (len body <=? max_request_bytes (config st))
        (PayloadTooLarge (max_request_bytes (config st)));
  let model := default [] (extract_model_name body) in
  let '(base, path_override) := resolve_upstream (config st) model in
  _ ← map_err (fun e => Internal (UpstreamDenied e)) (check_upstream_allowed (config st) base);
  let credential := store_get (provider_credentials st) in
  _ ← ensure (negb (require_provider_credential st && negb (bool_decide (is_Some credential))))
        MissingProviderCredential;
  hs ← add_credential credential (forwarded_headers client credential);
  Ok {| rq_method := lit "POST"; rq_url := upstream_url base path_override;
        rq_headers := hm_insert (lit "content-type") (lit "application/json") hs;
        rq_body := body |}.

(** ** Response *)

Definition filtered_response_headers (hs : M) : list (bytes * bytes) :=
  omap (fun name => (fun value => (name, value)) <$> hm_get name hs) FORWARDED_RESPONSE_HEADERS.

(** [http::response::Builder]: the first invalid header makes [body] fail. *)
Definition add_header (acc : option M) (h : bytes * bytes) : option M :=
  hs ← acc;
  if header_name_valid h.1 && header_value_valid h.2 then Some (hm_append h.1 h.2 hs) else None.

Definition build_response (st : N) (hs : list (bytes * bytes)) (b : ResponseBody)
  : outcome AppError (Response M) :=
  match fold_left add_header hs (Some hm_empty) with
  | Some m => Ok {| status := st; headers := m; body := b |}
  | None => Err (Internal ResponseBuildFailed)
  end.

Definition status_or (fallback s : N) : N := if status_code_valid s then s else fallback.

Definition provider_auth_failed_body : bytes :=
  requote (lit "{'error':{'message':'upstream provider authentication failed','type':'relay_error'}}").

Definition response_content_type (r : UpstreamResponse M) : bytes :=
  match hm_get (lit "content-type") (rs_headers r) with
  | Some v => if header_to_str_ok v then v else lit "application/json"
  | None => lit "application/json"
  end.

Definition is_streaming (r : UpstreamResponse M) : bool :=
  contains (lit "text/event-stream") (response_content_type r).

Definition streaming_response (r : UpstreamResponse M) : outcome AppError (Response M) :=
  build_response (status_or 200 (rs_status r))
    ([(lit "content-type", lit "text/event-stream"); (lit "cache-control", lit "no-cache")]
     ++ filtered_response_headers (rs_headers r))
    (Streamed (rs_chunks r) (rs_complete r)).

Definition buffered_response (provider_auth_failed : bool) (r : UpstreamResponse M)
  : outcome AppError (Response M) :=
  _ ← ensure (rs_complete r) (Internal UpstreamBodyFailed);
  let resp_body := concat (rs_chunks r) in
  let axum_status := status_or 500 (rs_status r) in
  if provider_auth_failed then
    build_response axum_status [(lit "content-type", lit "application/json")]
      (Buffered provider_auth_failed_body)
  else
    let ct := response_content_type r in
    build_response axum_status
      ((lit "content-type", if header_value_valid ct then ct else lit "application/json")
       :: filter (fun h => h.1 <> lit "content-type") (filtered_response_headers (rs_headers r)))
      (Buffered resp_body).

(** Everything after the upstream call returned a response. *)
Definition finish_response (using_injected : bool) (r : UpstreamResponse M)
  : outcome AppError (Response M) :=
  let provider_auth_failed :=
    using_injected && ((rs_status r =? 401) || (rs_status r =? 403)) in
  if is_streaming r then streaming_response r else buffered_response provider_auth_failed r.

(** ** The handler *)

Definition proxy_chat_completions (st : AppState)
  (send : UpstreamRequest M -> bytes + UpstreamResponse M) (client : M) (body : bytes)
  : list (UpstreamRequest M) * outcome AppError (Response M) :=
  match prepare_request st client body with
  | Ok req =>
      ([req], match send req with
              | inl e => Err (AppError_from_reqwest e)
              | inr r => finish_response (is_loaded (provider_credentials st)) r
              end)
  | Err e => ([], Err e)
  | Panic => ([], Panic)
  end.
End proxy.

Definition health : bytes := lit "ok".

(** [DefaultBodyLimit::max] *)
Definition body_limit (c : RelayConfig) : N := max_request_bytes c.

(** ** The pinning verifier of the upstream client *)

Inductive TlsVerifyError :=
  | DelegateRefused
  | PinMismatch (host actual : bytes).

Record PinnedServerCertVerifier := {
  pins_by_host : btree (list bytes);
}.

Section pinning.
Context {SC : Sha2Crate} {HX : HexCrate}.

Definition leaf_sha256_pin (cert_der : bytes) : bytes :=
  lit "sha256:" ++ hex_encode (sha256 cert_der).

(** [webpki] says whether the WebPKI verifier accepts the certificate for the name. *)
Definition verify_server_cert (v : PinnedServerCertVerifier)
  (webpki : bytes -> bytes -> bool) (end_entity server_name : bytes)
  : outcome TlsVerifyError unit :=
  _ ← ensure (webpki end_entity server_name) DelegateRefused;
  let host := to_ascii_lowercase server_name in
  match bt_get host (pins_by_host v) with
  | Some expected_pins =>
      let actual := leaf_sha256_pin end_entity in
      if existsb (fun pin => bool_decide (pin = actual)) expected_pins then Ok tt
      else Err (PinMismatch host actual)
  | None => Ok tt
  end.
End pinning.

(** ** The upstream client *)

(** How the upstream client verifies servers: plain WebPKI, or WebPKI and pins. *)
Inductive UpstreamTls :=
  | WebPkiOnly
  | WebPkiPinned (v : PinnedServerCertVerifier).

Inductive HttpClientError :=
  | InvalidPins (e : ConfigError)
  | WebPkiVerifierFailed
  | ClientBuildFailed.

(** Whether [rustls] builds the WebPKI verifier and [reqwest] the client. *)
Class UpstreamClient := {
  webpki_verifier_builds : bool;
  reqwest_client_builds : bool;
}.

Definition pinned_rustls_client_config {UCL : UpstreamClient} (by_host : btree (list bytes))
  : outcome HttpClientError UpstreamTls :=
  _ ← ensure webpki_verifier_builds WebPkiVerifierFailed;
  Ok (WebPkiPinned {| pins_by_host := by_host |}).

(** [reqwest::redirect::Policy]: hand redirects to the caller, or follow at most so many. *)
Inductive RedirectPolicy :=
  | PolicyNone
  | PolicyLimited (max : nat).

(** [reqwest::Client] and its builder, as far as the source sets it up: an unset timeout
    is none, and the redirect policy of a builder is the documented default of ten. *)
Record UpstreamHttpClient := {
  hc_timeout_secs : option N;
  hc_redirect : RedirectPolicy;
  hc_tls : UpstreamTls;
}.
Definition Client_builder : UpstreamHttpClient :=
  {| hc_timeout_secs := None; hc_redirect := PolicyLimited 10; hc_tls := WebPkiOnly |}.
Definition with_timeout (secs : N) (b : UpstreamHttpClient) : UpstreamHttpClient :=
  {| hc_timeout_secs := Some secs; hc_redirect := hc_redirect b; hc_tls := hc_tls b |}.
Definition use_preconfigured_tls (t : UpstreamTls) (b : UpstreamHttpClient) : UpstreamHttpClient :=
  {| hc_timeout_secs := hc_timeout_secs b; hc_redirect := hc_redirect b; hc_tls := t |}.

Definition build_upstream_http_client {UC : UrlCrate} {UT : UnicodeTables} {UCL : UpstreamClient}
  (c : RelayConfig) : outcome HttpClientError UpstreamHttpClient :=
  let builder := with_timeout (upstream_timeout_secs c) Client_builder in
  pins_by_host ← map_err InvalidPins (upstream_tls_pin_hosts c);
  builder ← (if bool_decide (pins_by_host = []) then Ok builder
             else tls_config ← pinned_rustls_client_config pins_by_host;
                  Ok (use_preconfigured_tls tls_config builder));
  _ ← ensure reqwest_client_builds ClientBuildFailed;
  Ok builder.

(** How [reqwest] reads a response to a request: the request it sends next when it takes
    the response for a redirect, and [None] for a response the caller gets. Which headers
    and whether method and body go along is the library's choice. *)
Class RedirectRule (M : Type) :=
  redirect_request : UpstreamRequest M -> UpstreamResponse M -> option (UpstreamRequest M).

(** Whether the client follows one more redirect after so many. *)
Definition follows (p : RedirectPolicy) (hops : nat) : bool :=
  match p with PolicyNone => false | PolicyLimited max => (hops <? max)%nat end.

(** What [send] can return when the last request was [current]: an error (one of them is
    that there were too many redirects), or a response that is not to be followed. *)
Definition final_reply {M : Type} {RD : RedirectRule M} (p : RedirectPolicy)
  (current : UpstreamRequest M) (reply : bytes + UpstreamResponse M) : bool :=
  match reply with
  | inl _ => true
  | inr r => match p, redirect_request current r with PolicyLimited _, Some _ => false | _, _ => true end
  end.

(** The check a connection to [server_name] passes through. *)
Definition upstream_tls_verify {SC : Sha2Crate} {HX : HexCrate} (t : UpstreamTls)
  (webpki : bytes -> bytes -> bool) (end_entity server_name : bytes)
  : outcome TlsVerifyError unit :=
  match t with
  | WebPkiOnly => ensure (webpki end_entity server_name) DelegateRefused
  | WebPkiPinned v => verify_server_cert v webpki end_entity server_name
  end.

(** ** Facts on header forwarding *)

Section proxy_facts.
Context {UC : UrlCrate} {UT : UnicodeTables} {JC : JsonCrate}.
Context {HV : HeaderValueCrate} {M : Type} {HM : HeaderMapCrate M} {HML : HeaderMapLaws M}.
Implicit Types (client : M) (st : AppState).

(** The client value forwarded under a header name, if any. *)
Definition forwarded_value client (credential : option ProviderCredential) (k : bytes)
  : option bytes :=
  if bool_decide (k = lit "authorization") && bool_decide (is_Some credential) then None
  else v ← hm_get k client;
       if header_name_valid k && header_value_valid v then Some v else None.

Lemma fold_forward_header client cred l (acc : M) k :
  hm_get_all k (fold_left (forward_header client cred) l acc) =
  match (if bool_decide (k ∈ l) then forwarded_value client cred k else None) with
  | Some v => [v]
  | None => hm_get_all k acc
  end.
Proof.
  revert acc. induction l as [|x l IH]; intros acc; [done|]. cbn [fold_left]. rewrite IH.
  assert (Hx : hm_get_all k (forward_header client cred acc x) =
    match (if bool_decide (k = x) then forwarded_value client cred k else None) with
    | Some v => [v] | None => hm_get_all k acc end).
  { unfold forward_header, forwarded_value.
    destruct (bool_decide_reflect (k = x)) as [Hk|Hk].
    - subst x. destruct (bool_decide _ && bool_decide _); [done|].
      destruct (hm_get k client) as [v|]; [|done]. cbn [mbind option_bind].
      destruct (header_name_valid k && header_value_valid v); [|done].
      by rewrite hm_get_all_insert, decide_True.
    - destruct (bool_decide _ && bool_decide _); [done|].
      destruct (hm_get x client) as [v|]; [|done].
      destruct (header_name_valid x && header_value_valid v); [|done].
      by rewrite hm_get_all_insert, decide_False by congruence. }
  rewrite Hx. destruct (forwarded_value client cred k) as [v|] eqn:E;
    repeat case_bool_decide; try done; exfalso;
    rewrite elem_of_cons in *; tauto.
Qed.

Definition credential_headers (credential : option ProviderCredential) client : list bytes :=
  match credential with
  | Some c => [auth_scheme c ++ lit " " ++ token c]
  | None => option_list (forwarded_value client None (lit "authorization"))
  end.

(** Every value the upstream request carries under a name. *)
Definition expected_values (credential : option ProviderCredential) client (k : bytes)
  : list bytes :=
  if decide (k = lit "content-type") then [lit "application/json"]
  else if decide (k = lit "authorization") then credential_headers credential client
  else if decide (k ∈ FORWARDED_REQUEST_HEADERS)
  then option_list (forwarded_value client credential k) else [].

Lemma prepare_request_Ok st client bd req :
  prepare_request st client bd = Ok req ->
  exists base po,
    len bd <= max_request_bytes (config st) /\
    resolve_upstream (config st) (default [] (extract_model_name bd)) = (base, po) /\
    check_upstream_allowed (config st) base = Ok tt /\
    (require_provider_credential st = true -> is_Some (provider_credentials st)) /\
    exists hs, add_credential (provider_credentials st)
                 (forwarded_headers client (provider_credentials st)) = Ok hs /\
      req = {| rq_method := lit "POST"; rq_url := upstream_url base po;
               rq_headers := hm_insert (lit "content-type") (lit "application/json") hs;
               rq_body := bd |}.
Proof.
  unfold prepare_request, store_get. intros H.
  destruct (resolve_upstream _ _) as [base po]. inv_outcome.
  exists base, po. split_and!; try done.
  - by apply N.leb_le.
  - by match goal with H : check_upstream_allowed _ _ = Ok ?u |- _ => destruct u end.
  - intros Hr. rewrite Hr in *. match goal with H : negb (true && negb _) = true |- _ =>
      cbn [andb] in H; rewrite negb_involutive in H; by apply bool_decide_eq_true in H end.
  - eauto.
Qed.

Lemma prepared_headers st client bd req :
  prepare_request st client bd = Ok req -> forall k,
  hm_get_all k (rq_headers req) = expected_values (provider_credentials st) client k.
Proof.
  intros (base & po & _ & _ & _ & _ & hs & Hcred & ->)%prepare_request_Ok k.
  cbn [rq_headers]. unfold expected_values. rewrite hm_get_all_insert.
  destruct (decide (lit "content-type" = k)) as [<-|Hct]; [by rewrite decide_True|].
  rewrite (decide_False (P := k = lit "content-type")) by congruence.
  unfold add_credential in Hcred. destruct (provider_credentials st) as [c|].
  - inv_outcome. unfold authorization_value, header_value_from_str in *.
    case_match; simplify_eq. rewrite hm_get_all_insert.
    destruct (decide (lit "authorization" = k)) as [<-|Ha]; [by rewrite decide_True|].
    rewrite (decide_False (P := k = lit "authorization")) by congruence.
    unfold forwarded_headers. rewrite fold_forward_header, hm_get_all_empty.
    destruct (decide (k ∈ FORWARDED_REQUEST_HEADERS)) as [Hin|Hin];
      [rewrite bool_decide_eq_true_2 by done|by rewrite bool_decide_eq_false_2 by done].
    by destruct (forwarded_value client (Some c) k).
  - simplify_eq. unfold forwarded_headers. rewrite fold_forward_header, hm_get_all_empty.
    assert (Hauth : lit "authorization" ∈ FORWARDED_REQUEST_HEADERS)
      by (apply (bool_decide_unpack _); by vm_compute).
    destruct (decide (k = lit "authorization")) as [->|Ha].
    + rewrite bool_decide_eq_true_2 by done. unfold credential_headers.
      by destruct (forwarded_value client None (lit "authorization")).
    + destruct (decide (k ∈ FORWARDED_REQUEST_HEADERS)) as [Hin|Hin];
        [rewrite bool_decide_eq_true_2 by done|by rewrite bool_decide_eq_false_2 by done].
      by destruct (forwarded_value client None k).
Qed.

Lemma proxy_sends st send client bd reqs r :
  proxy_chat_completions st send client bd = (reqs, r) ->
  (exists req, prepare_request st client bd = Ok req /\ reqs = [req]) \/
  (exists e, prepare_request st client bd = Err e /\ reqs = [] /\ r = Err e).
Proof.
  unfold proxy_chat_completions. destruct (prepare_request st client bd) eqn:E.
  - intros [= <- <-]. eauto.
  - intros [= <- <-]. eauto.
  - exfalso. revert E. unfold prepare_request.
    destruct (len bd <=? _); simp_out; [|done].
    destruct (resolve_upstream _ _) as [base po].
    unfold check_upstream_allowed. destruct (allowed_upstreams _); simp_out.
    all: try (destruct (url_origin base); simp_out; [|done]; destruct (origin_in _ _); simp_out; [|done]).
    all: destruct (negb _); simp_out; [|done]; unfold add_credential, store_get;
      destruct (provider_credentials st); simp_out; [|done]; by destruct (authorization_value _).
Qed.
End proxy_facts.

(** ** Properties *)

(** A request to the handler used by the witnesses: its user tries to pass an own
    credential and a cookie. *)
Definition sample_state : AppState := {|
  config := two_routes; provider_credentials := Some sample_credential;
  require_provider_credential := true;
|}.
Definition unloaded_state : AppState := {|
  config := two_routes; provider_credentials := None; require_provider_credential := true;
|}.
Definition sample_headers : Ref.headers :=
  [(lit "accept", lit "*/*"); (lit "authorization", lit "Bearer user"); (lit "cookie", lit "a=b")].
Definition sample_body : bytes := lit "{gpt-4-turbo}".
Definition sample_reply (st : N) (ct : bytes) : UpstreamResponse Ref.headers := {|
  rs_status := st; rs_headers := [(lit "content-type", ct); (lit "x-internal", lit "1")];
  rs_chunks := [lit "key sk-123 "; lit "was refused"]; rs_complete := true;
|}.

Definition pinned_config : RelayConfig := {|
  listen_addr := lit "0.0.0.0:8443"; runtime := RuntimeConfig_default;
  default_upstream := lit "https://api.openai.com"; routes := bt_empty;
  allowed_upstreams := []; max_request_bytes := 1024; release_artifact_digest := None;
  upstream_timeout_secs := 120;
  upstream_tls_leaf_sha256 := [(lit "https://API.openai.com", [sixty_four "a"%byte])];
|}.
Definition glued_config : RelayConfig := {|
  listen_addr := lit "0.0.0.0:8443"; runtime := RuntimeConfig_default;
  default_upstream := lit "https://api.openai.com";
  routes := [(lit "gpt-", {| base_url := lit "https://api.openai.com";
                             path := Some (lit ".evil.com/v1") |})];
  allowed_upstreams := [lit "https://api.openai.com"]; max_request_bytes := 1024;
  release_artifact_digest := None; upstream_timeout_secs := 120;
  upstream_tls_leaf_sha256 := bt_empty;
|}.

Section claims.
Context {UC : UrlCrate} {UT : UnicodeTables} {JC : JsonCrate}.
Context {HV : HeaderValueCrate} {M : Type} {HM : HeaderMapCrate M}.

(** C30: The relay fails closed: while a provider credential is required and none is loaded,
    no request reaches the upstream, the client gets an error, and it is the missing
    credential error whenever the body fits and the route is allowed. *)
Theorem fails_closed_without_credential (st : AppState)
  (send : UpstreamRequest M -> bytes + UpstreamResponse M) (client : M) (bd : bytes)
  (Hreq : require_provider_credential st = true) (Hnone : provider_credentials st = None) :
  (proxy_chat_completions st send client bd).1 = [] /\
  is_err (proxy_chat_completions st send client bd).2 = true /\
  (len bd <= max_request_bytes (config st) ->
   check_upstream_allowed (config st)
     (resolve_upstream (config st) (default [] (extract_model_name bd))).1 = Ok tt ->
   (proxy_chat_completions st send client bd).2 = Err MissingProviderCredential).
Proof.
  destruct (proxy_chat_completions st send client bd) as [reqs r] eqn:E. cbn [fst snd].
  pose proof E as E'. apply proxy_sends in E' as [(req & Hp & ->)|(e & Hp & -> & ->)].
  - apply prepare_request_Ok in Hp as (? & ? & _ & _ & _ & Hload & _).
    specialize (Hload Hreq). rewrite Hnone in Hload. by destruct Hload.
  - split_and!; [done..|]. intros Hlen Hallow. f_equal.
    unfold prepare_request, store_get in Hp. apply N.leb_le in Hlen.
    rewrite Hlen in Hp. simp_out in Hp.
    destruct (resolve_upstream _ _) as [base po]. cbn [fst] in Hallow.
    rewrite Hallow, Hreq, Hnone in Hp. simp_out in Hp.
    rewrite bool_decide_eq_false_2 in Hp by (by intros [? ?]).
    cbn [andb negb] in Hp. simp_out in Hp. congruence.
Qed.

(** C13: A request that is sent satisfies every check of the handler: the body is within the
    limit and forwarded verbatim, the base URL is the one the longest matching route
    names and it passed the allowlist, and a required credential was loaded. At most one
    request is sent for one client request, and the handler does not panic before it. *)
Theorem sent_request_checked (st : AppState)
  (send : UpstreamRequest M -> bytes + UpstreamResponse M) (client : M) (bd : bytes) :
  (length (proxy_chat_completions st send client bd).1 <= 1)%nat /\
  prepare_request st client bd <> Panic /\
  forall req, req ∈ (proxy_chat_completions st send client bd).1 ->
    len bd <= max_request_bytes (config st) /\ rq_body req = bd /\
    (require_provider_credential st = true -> is_loaded (provider_credentials st) = true) /\
    exists base po,
      resolves (config st) (default [] (extract_model_name bd)) (base, po) /\
      check_upstream_allowed (config st) base = Ok tt /\
      rq_url req = upstream_url base po.
Proof.
  destruct (proxy_chat_completions st send client bd) as [reqs r] eqn:E. cbn [fst].
  apply proxy_sends in E as [(req & Hp & ->)|(e & Hp & -> & _)].
  - split; [simpl; lia|]. split; [congruence|]. intros req' ->%list_elem_of_singleton.
    apply prepare_request_Ok in Hp as (base & po & Hlen & Hres & Hal & Hc & hs & _ & ->).
    split_and!; [done|done| |].
    + intros Hr. by destruct (Hc Hr) as [c ->].
    + exists base, po. split_and!; [|done|done].
      pose proof (resolve_upstream_resolves (config st) (default [] (extract_model_name bd))) as H.
      by rewrite Hres in H.
  - split; [simpl; lia|]. split; [congruence|]. intros req' Hin. by apply elem_of_nil in Hin.
Qed.
End claims.

Lemma fails_closed_without_credential_witness :
  proxy_chat_completions (UC := Ref.url) (UT := Ref.unicode) (JC := Ref.json)
    (HV := Ref.header_value) (HM := Ref.header_map) unloaded_state
    (fun _ => inr (sample_reply 200 (lit "text/plain"))) sample_headers sample_body
  = ([], Err MissingProviderCredential).
Proof.
  destruct (fails_closed_without_credential (UC := Ref.url) (UT := Ref.unicode) (JC := Ref.json)
    (HV := Ref.header_value) (HM := Ref.header_map) unloaded_state
    (fun _ => inr (sample_reply 200 (lit "text/plain"))) sample_headers sample_body)
    as (H1 & _ & H2); [reflexivity|reflexivity|].
  rewrite (surjective_pairing (proxy_chat_completions _ _ _ _)), H1, H2; [reflexivity|..];
    by vm_compute.
Defined.

(** ** What the upstream sees *)

(** C14: The upstream request is a POST that carries exactly the headers the policy names: the
    content type is fixed, an injected credential is the only Authorization value
    whatever the client sent, without one the client's own first value is forwarded like
    every other header of the allowlist (a header is forwarded when the client sent it and
    its value is a valid one), and no other header is present. *)
Theorem upstream_headers_exact {UC : UrlCrate} {UT : UnicodeTables} {JC : JsonCrate}
  {HV : HeaderValueCrate} {M : Type} {HM : HeaderMapCrate M} {HML : HeaderMapLaws M}
  (st : AppState) (client : M) (bd : bytes) (req : UpstreamRequest M)
  (Hp : prepare_request st client bd = Ok req) :
  rq_method req = lit "POST" /\
  hm_get_all (lit "content-type") (rq_headers req) = [lit "application/json"] /\
  (forall c, provider_credentials st = Some c ->
     hm_get_all (lit "authorization") (rq_headers req) = [auth_scheme c ++ lit " " ++ token c]) /\
  (forall k, k ∈ FORWARDED_REQUEST_HEADERS -> k <> lit "authorization" \/ provider_credentials st = None ->
     hm_get_all k (rq_headers req) =
     match hm_get k client with
     | Some v => if header_name_valid k && header_value_valid v then [v] else []
     | None => []
     end) /\
  (forall k, k ∉ lit "content-type" :: FORWARDED_REQUEST_HEADERS ->
     hm_get_all k (rq_headers req) = []).
Proof.
  pose proof (prepared_headers _ _ _ _ Hp) as Hh.
  assert (Hv : forall cr k, k <> lit "authorization" \/ cr = None ->
    option_list (forwarded_value client cr k) =
    match hm_get k client with
    | Some v => if header_name_valid k && header_value_valid v then [v] else []
    | None => [] end).
  { intros cr k Hor. unfold forwarded_value.
    assert (bool_decide (k = lit "authorization") && bool_decide (is_Some cr) = false) as ->.
    { apply andb_false_iff. rewrite !bool_decide_eq_false, <-eq_None_not_Some. tauto. }
    destruct (hm_get k client) as [v|]; [|done]. cbn [mbind option_bind]. by destruct (_ && _). }
  split_and!.
  - by apply prepare_request_Ok in Hp as (? & ? & _ & _ & _ & _ & ? & _ & ->).
  - by rewrite Hh.
  - intros c Hc. by rewrite Hh, Hc.
  - intros k Hin Hor. rewrite Hh, <-(Hv _ _ Hor). unfold expected_values.
    rewrite decide_False by (intros ->; revert Hin; apply (bool_decide_unpack _); by vm_compute).
    destruct (decide (k = lit "authorization")) as [->|_]; [|by rewrite decide_True].
    destruct Hor as [?|Hn]; [done|]. by rewrite Hn.
  - intros k [Hct Hk]%not_elem_of_cons. rewrite Hh. unfold expected_values.
    rewrite decide_False by congruence.
    rewrite decide_False by (intros ->; apply Hk; apply (bool_decide_unpack _); by vm_compute).
    by rewrite decide_False.
Qed.

Lemma upstream_headers_exact_witness :
  exists req, prepare_request (UC := Ref.url) (UT := Ref.unicode) (JC := Ref.json)
    (HV := Ref.header_value) (HM := Ref.header_map) sample_state sample_headers sample_body = Ok req
  /\ hm_get_all (HeaderMapCrate := Ref.header_map) (lit "authorization") (rq_headers req)
     = [lit "Bearer provider-key"]
  /\ hm_get_all (HeaderMapCrate := Ref.header_map) (lit "cookie") (rq_headers req) = [].
Proof.
  destruct (prepare_request (UC := Ref.url) (UT := Ref.unicode) (JC := Ref.json)
    (HV := Ref.header_value) (HM := Ref.header_map) sample_state sample_headers sample_body)
    as [req| |] eqn:E; [|vm_compute in E; discriminate E..].
  exists req. split; [reflexivity|].
  destruct (upstream_headers_exact (UC := Ref.url) (UT := Ref.unicode) (JC := Ref.json)
    (HV := Ref.header_value) (HM := Ref.header_map) (HML := Ref.header_map_laws)
    _ _ _ _ E) as (_ & _ & Hcred & _ & Hno).
  split.
  - exact (Hcred sample_credential eq_refl).
  - apply Hno. apply (bool_decide_unpack _). vm_compute. exact I.
Defined.

(** ** What the client gets back *)

Section responses.
Context {HV : HeaderValueCrate} {M : Type} {HM : HeaderMapCrate M} {HML : HeaderMapLaws M}.

Lemma add_headers_get_all l (m0 m : M) k :
  fold_left add_header l (Some m0) = Some m ->
  hm_get_all k m = hm_get_all k m0 ++ (filter (fun h => h.1 = k) l).*2.
Proof.
  revert m0. induction l as [|[n v] l IH]; intros m0 H; cbn [fold_left] in H.
  - injection H as ->. by rewrite app_nil_r.
  - cbn [add_header mbind option_bind fst snd] in H.
    destruct (header_name_valid n && header_value_valid v).
    + rewrite (IH _ H), hm_get_all_append, filter_cons. cbn [fst].
      destruct (decide (n = k)); [|done]. by rewrite fmap_cons, <-app_assoc.
    + exfalso. clear IH. induction l as [|x l IHl]; [done|]. by apply IHl.
Qed.

Lemma build_response_Ok st hs b (r : Response M) :
  build_response st hs b = Ok r ->
  status r = st /\ body r = b /\
  forall k, hm_get_all k (headers r) = (filter (fun h => h.1 = k) hs).*2.
Proof.
  unfold build_response. destruct (fold_left _ _ _) as [m|] eqn:E; intros H; simplify_eq.
  split_and!; [done..|]. intros k. cbn [headers].
  by rewrite (add_headers_get_all _ _ _ _ E), hm_get_all_empty.
Qed.

(** Every value the filter keeps under a name. *)
Lemma filtered_values (hs : M) k : (filter (fun h => h.1 = k) (filtered_response_headers hs)).*2 =
  if decide (k ∈ FORWARDED_RESPONSE_HEADERS) then option_list (hm_get k hs) else [].
Proof.
  unfold filtered_response_headers.
  assert (Hnd : NoDup FORWARDED_RESPONSE_HEADERS) by (apply (bool_decide_unpack _); by vm_compute).
  induction Hnd as [|n l Hn _ IH]; [by rewrite decide_False by (by intros ?%elem_of_nil)|].
  cbn [omap list_omap]. destruct (decide (n = k)) as [->|Hne].
  - rewrite decide_True by (by left). rewrite decide_False in IH by done.
    destruct (hm_get k hs); cbn [fmap option_fmap option_map option_list]; [|exact IH].
    rewrite filter_cons_True by done. by rewrite fmap_cons, IH.
  - assert (Hd : (if decide (k ∈ n :: l) then option_list (hm_get k hs) else []) =
      if decide (k ∈ l) then option_list (hm_get k hs) else []).
    { apply decide_ext. rewrite elem_of_cons. intuition congruence. }
    rewrite Hd, <-IH. destruct (hm_get n hs); cbn [fmap option_fmap option_map]; [|done]. by rewrite filter_cons_False.
Qed.

Lemma filtered_elem (hs : M) k v :
  (k, v) ∈ filtered_response_headers hs ->
  k ∈ FORWARDED_RESPONSE_HEADERS /\ hm_get k hs = Some v.
Proof.
  unfold filtered_response_headers. rewrite list_elem_of_omap. intros (n & Hn & Hv).
  destruct (hm_get n hs) eqn:E; simplify_eq/=. by rewrite E.
Qed.

(** C28: A buffered reply to a client: if the relay used its own credential and the provider
    answered 401 or 403, no byte of the provider's body or headers passes, only the
    status and a fixed text; otherwise the body is the provider's, byte for byte and
    complete, its one content type is the provider's first one (JSON when that is missing
    or not a text), each other allowlisted header carries the provider's first value if
    there is one, and no header else is present. *)
Theorem buffered_reply (injected : bool) (r : UpstreamResponse M) (resp : Response M)
  (Hbuf : is_streaming r = false) (Hok : finish_response injected r = Ok resp) :
  rs_complete r = true /\ status resp = status_or 500 (rs_status r) /\
  if injected && ((rs_status r =? 401) || (rs_status r =? 403))
  then body resp = Buffered provider_auth_failed_body /\
       forall k, hm_get_all k (headers resp) =
         if decide (lit "content-type" = k) then [lit "application/json"] else []
  else body resp = Buffered (concat (rs_chunks r)) /\
       hm_get_all (lit "content-type") (headers resp) =
         [match hm_get (lit "content-type") (rs_headers r) with
          | Some v => if header_to_str_ok v && header_value_valid v then v
                      else lit "application/json"
          | None => lit "application/json"
          end] /\
       forall k, k <> lit "content-type" -> hm_get_all k (headers resp) =
         if decide (k ∈ FORWARDED_RESPONSE_HEADERS) then option_list (hm_get k (rs_headers r)) else [].
Proof.
  unfold finish_response in Hok. rewrite Hbuf in Hok. unfold buffered_response in Hok.
  inv_outcome. split; [done|].
  destruct (injected && _); apply build_response_Ok in H0 as (-> & -> & Hh); (split; [done|]).
  - split; [done|]. intros k. rewrite Hh, filter_cons. cbn [fst]. by case_decide.
  - split; [done|]. split.
    + rewrite Hh, filter_cons, decide_True by done. rewrite list_filter_filter.
      rewrite filter_none by (by intros [n v] _ [? ?]). cbn [fmap list_fmap fst snd].
      clear Hh. unfold response_content_type. destruct (hm_get _ (rs_headers r)) as [v|]; [|by case_match].
      destruct (header_to_str_ok v); [done|]. by case_match.
    + intros k Hne. rewrite Hh, filter_cons, <-filtered_values. cbn [fst].
      rewrite decide_False by congruence. f_equal. rewrite list_filter_filter.
      apply list_filter_iff. intros [n v]. cbn [fst]. intuition congruence.
Qed.

(** The streaming path is not covered by that protection: an event stream passes through
    chunk by chunk for every status and every credential, and its content type is sent
    twice when the provider sent one valid content type. *)
Theorem streamed_reply (injected : bool) (r : UpstreamResponse M) (resp : Response M)
  (Hsse : is_streaming r = true) (Hok : finish_response injected r = Ok resp) :
  status resp = status_or 200 (rs_status r) /\
  body resp = Streamed (rs_chunks r) (rs_complete r) /\
  hm_get_all (lit "content-type") (headers resp) =
    lit "text/event-stream" :: option_list (hm_get (lit "content-type") (rs_headers r)) /\
  hm_get_all (lit "cache-control") (headers resp) = [lit "no-cache"].
Proof.
  unfold finish_response in Hok. rewrite Hsse in Hok. unfold streaming_response in Hok.
  apply build_response_Ok in Hok as (-> & -> & Hh). split_and!; [done..| |]; rewrite Hh.
  - cbn [app]. rewrite filter_cons_True by done. rewrite filter_cons_False by done.
    rewrite fmap_cons. f_equal. unfold filtered_response_headers, FORWARDED_RESPONSE_HEADERS.
    cbn [omap list_omap]. repeat match goal with |- context [hm_get ?n ?m] =>
      destruct (hm_get n m) end; reflexivity.
  - cbn [app]. rewrite filter_cons_False by done. rewrite filter_cons_True by done.
    rewrite fmap_cons. f_equal. rewrite filter_none; [done|].
    intros [n v] [Hin _]%filtered_elem Hn. cbn [fst] in Hn. subst n.
    revert Hin. apply (bool_decide_unpack _). by vm_compute.
Qed.
End responses.

Lemma buffered_reply_witness :
  exists resp, finish_response (HV := Ref.header_value) (HM := Ref.header_map) true
      (sample_reply 401 (lit "text/plain")) = Ok resp /\
    status resp = 401 /\ body resp = Buffered provider_auth_failed_body.
Proof.
  destruct (finish_response (HV := Ref.header_value) (HM := Ref.header_map) true
    (sample_reply 401 (lit "text/plain"))) as [resp| |] eqn:E; [|vm_compute in E; discriminate E..].
  exists resp. split; [reflexivity|].
  destruct (buffered_reply (HV := Ref.header_value) (HM := Ref.header_map)
    (HML := Ref.header_map_laws) true (sample_reply 401 (lit "text/plain")) resp)
    as (_ & Hs & Hb & _); [vm_compute; reflexivity|exact E|].
  split; [exact Hs|exact Hb].
Defined.

Lemma streamed_reply_witness :
  exists resp, finish_response (HV := Ref.header_value) (HM := Ref.header_map) true
      (sample_reply 401 (lit "text/event-stream")) = Ok resp /\
    status resp = 401 /\ body resp = Streamed [lit "key sk-123 "; lit "was refused"] true.
Proof.
  destruct (finish_response (HV := Ref.header_value) (HM := Ref.header_map) true
    (sample_reply 401 (lit "text/event-stream"))) as [resp| |] eqn:E;
    [|vm_compute in E; discriminate E..].
  exists resp. split; [reflexivity|].
  destruct (streamed_reply (HV := Ref.header_value) (HM := Ref.header_map)
    (HML := Ref.header_map_laws) true (sample_reply 401 (lit "text/event-stream")) resp)
    as (Hs & Hb & _); [vm_compute; reflexivity|exact E|].
  split; [exact Hs|exact Hb].
Defined.

(** ** Pinned upstream connections *)

Section upstream_client.
Context {UC : UrlCrate} {UT : UnicodeTables} {UCL : UpstreamClient}.

(** What the source's builder calls amount to. *)
Lemma build_client_Ok (c : RelayConfig) client : build_upstream_http_client c = Ok client ->
  exists by_host, upstream_tls_pin_hosts c = Ok by_host /\
    client = {| hc_timeout_secs := Some (upstream_timeout_secs c); hc_redirect := PolicyLimited 10;
                hc_tls := if bool_decide (by_host = []) then WebPkiOnly
                          else WebPkiPinned {| pins_by_host := by_host |} |} /\
    reqwest_client_builds = true.
Proof.
  unfold build_upstream_http_client, pinned_rustls_client_config. intros H.
  apply bind_Ok in H as (by_host & Hhosts & H). apply map_err_Ok in Hhosts. exists by_host.
  split; [done|]. apply bind_Ok in H as (builder & Hb & H). inv_outcome. split; [|done].
  case_bool_decide as Hnil; inv_outcome; unfold use_preconfigured_tls, with_timeout;
    [by rewrite bool_decide_eq_true_2|by rewrite bool_decide_eq_false_2].
Qed.

(** No pins at all and an empty table of pins are the same check. *)
Lemma pinned_tls_verify {SC : Sha2Crate} {HX : HexCrate} by_host webpki cert name :
  upstream_tls_verify (if bool_decide (by_host = []) then WebPkiOnly
     else WebPkiPinned {| pins_by_host := by_host |}) webpki cert name
  = verify_server_cert {| pins_by_host := by_host |} webpki cert name.
Proof.
  case_bool_decide as Hnil; [|done]. subst by_host. unfold verify_server_cert.
  simpl. by destruct (webpki cert name).
Qed.
End upstream_client.

(** C29: Pins are enforced on top of the WebPKI: a connection to a server name passes exactly
    when the WebPKI accepts the certificate and either no configured origin is on that
    host or the SHA-256 of the leaf is one of the pins of an origin on that host. *)
Theorem upstream_pins_enforced {UC : UrlCrate} {UT : UnicodeTables} {SC : Sha2Crate} {HX : HexCrate}
  {UCL : UpstreamClient}
  (c : RelayConfig) (client : UpstreamHttpClient) (webpki : bytes -> bytes -> bool)
  (cert name : bytes) (Hb : build_upstream_http_client c = Ok client) :
  exists pins, normalize_upstream_tls_pins (upstream_tls_leaf_sha256 c) = Ok pins /\
    (upstream_tls_verify (hc_tls client) webpki cert name = Ok tt <->
     webpki cert name = true /\
     ((forall o ps u h, bt_get o pins = Some ps -> url_parse o = Some u -> u_host_str u = Some h ->
         to_ascii_lowercase h <> to_ascii_lowercase name) \/
      exists o ps u h, bt_get o pins = Some ps /\ leaf_sha256_pin cert ∈ ps /\
        url_parse o = Some u /\ u_host_str u = Some h /\
        to_ascii_lowercase h = to_ascii_lowercase name)).
Proof.
  apply build_client_Ok in Hb as (by_host & Hhosts & -> & _). cbn [hc_tls].
  destruct (upstream_tls_pin_hosts_elem c by_host Hhosts) as (pins & Hn & _ & Hel).
  exists pins. split; [done|]. setoid_rewrite <-Hel.
  rewrite <-(upstream_tls_pin_hosts_none c by_host pins Hhosts Hn).
  rewrite pinned_tls_verify. unfold verify_server_cert. cbn [pins_by_host].
  destruct (webpki cert name); simp_out; [|split; [done|by intros [? _]]].
  destruct (bt_get (to_ascii_lowercase name) by_host) as [ps|].
  - destruct (existsb _ ps) eqn:Ex.
    + apply existsb_exists in Ex as (p & Hp & Heq). apply bool_decide_eq_true in Heq as ->.
      split; [|done]. intros _. split; [done|]. right. by apply list_elem_of_In.
    + split; [done|]. intros [_ [?|Hin]]; [done|]. simpl in Hin.
      rewrite existsb_false_forall in Ex. specialize (Ex _ Hin). by rewrite bool_decide_eq_true_2 in Ex.
  - split; auto.
Qed.

(** The client of [pinned_config]. *)
Definition pinned_client : UpstreamHttpClient := {|
  hc_timeout_secs := Some 120; hc_redirect := PolicyLimited 10;
  hc_tls := WebPkiPinned {| pins_by_host :=
    [(lit "api.openai.com", [lit "sha256:" ++ sixty_four "a"%byte])] |} |}.

Lemma upstream_pins_enforced_witness :
  upstream_tls_verify (SC := Ref.sha2) (HX := Ref.hex) (hc_tls pinned_client)
    (fun _ _ => true) (lit "leaf") (lit "API.openai.com") <> Ok tt.
Proof.
  destruct (upstream_pins_enforced (UC := Ref.url) (UT := Ref.unicode) (SC := Ref.sha2)
    (HX := Ref.hex) (UCL := {| webpki_verifier_builds := true; reqwest_client_builds := true |})
    pinned_config pinned_client (fun _ _ => true) (lit "leaf") (lit "API.openai.com"))
    as (pins & Hpins & Hiff); [vm_compute; reflexivity|].
  vm_compute in Hpins. injection Hpins as <-.
  intros Hok. apply Hiff in Hok as [_ [Hn|(o & ps & u & h & Ho & Hin & _)]].
  - eapply (Hn (lit "https://api.openai.com:443")); vm_compute; reflexivity.
  - cbn [bt_get] in Ho. destruct (decide _) in Ho; [|discriminate Ho]. injection Ho as <-.
    apply list_elem_of_singleton in Hin. vm_compute in Hin. discriminate Hin.
Defined.

Lemma glued_allowed {UC : UrlCrate} {UT : UnicodeTables} o :
  url_origin (lit "https://api.openai.com") = Some o ->
  check_upstream_allowed glued_config (lit "https://api.openai.com") = Ok tt.
Proof.
  intros Ho. apply check_upstream_allowed_Ok. right. exists o, (lit "https://api.openai.com").
  split; [exact Ho|]. split; [left|exact Ho].
Qed.

Lemma glued_resolves :
  resolve_upstream glued_config (lit "gpt-4")
  = (lit "https://api.openai.com", Some (lit ".evil.com/v1")).
Proof. vm_compute. reflexivity. Qed.

Lemma validate_intro {UC : UrlCrate} {UT : UnicodeTables} c :
  RuntimeConfig_validate (runtime c) = Ok tt -> release_artifact_digest c = None ->
  upstream_tls_leaf_sha256 c = [] ->
  check_upstream_allowed c (default_upstream c) = Ok tt ->
  (forall r, r ∈ routes c -> check_upstream_allowed c (base_url r.2) = Ok tt) ->
  RelayConfig_validate c = Ok tt.
Proof.
  intros Hr Hd Hp Hdef Hroutes. unfold RelayConfig_validate, normalize_upstream_tls_pins.
  rewrite Hr, Hd, Hp. cbn [try_fold]. simp_out.
  destruct (allowed_upstreams c); [done|]. rewrite Hdef. simp_out.
  apply try_fold_unit_Ok. intros r Hin. unfold check_route. by rewrite (Hroutes r Hin).
Qed.

Lemma glued_valid {UC : UrlCrate} {UT : UnicodeTables} o :
  url_origin (lit "https://api.openai.com") = Some o ->
  RelayConfig_validate glued_config = Ok tt.
Proof.
  intros Ho%glued_allowed. apply validate_intro; [vm_compute; reflexivity|done|done|exact Ho|].
  intros r Hr. apply list_elem_of_singleton in Hr as ->. exact Ho.
Qed.

Lemma prepare_request_intro {UC : UrlCrate} {UT : UnicodeTables} {JC : JsonCrate}
  {HV : HeaderValueCrate} {M : Type} {HM : HeaderMapCrate M} st (client : M) bd m base po :
  len bd <= max_request_bytes (config st) -> extract_model_name bd = Some m ->
  resolve_upstream (config st) m = (base, po) ->
  check_upstream_allowed (config st) base = Ok tt ->
  provider_credentials st = None -> require_provider_credential st = false ->
  exists req, prepare_request st client bd = Ok req /\ rq_url req = upstream_url base po.
Proof.
  intros Hlen%N.leb_le Hm Hres Hal Hn Hr. unfold prepare_request, store_get.
  rewrite Hlen, Hm, Hn, Hr. simp_out. unfold default, from_option, id. rewrite Hres, Hal.
  cbn [andb negb add_credential]. simp_out. eexists. split; reflexivity.
Qed.

(** The allowlist is checked on the base URL, not on the URL the request goes to: a path
    override without a leading slash is glued to the host. The configuration passes
    startup validation under an allowlist that names the base only, and the request is
    sent to the text below, whatever the URL parser. *)
Theorem path_override_extends_host {UC : UrlCrate} {UT : UnicodeTables} {JC : JsonCrate}
  {HV : HeaderValueCrate} {M : Type} {HM : HeaderMapCrate M}
  (o bd : bytes) (client : M)
  (Hparse : url_origin (lit "https://api.openai.com") = Some o)
  (Hmodel : extract_model_name bd = Some (lit "gpt-4")) (Hlen : len bd <= 1024) :
  RelayConfig_validate glued_config = Ok tt /\
  exists req,
    prepare_request {| config := glued_config; provider_credentials := None;
                       require_provider_credential := false |} client bd = Ok req /\
    rq_url req = lit "https://api.openai.com.evil.com/v1".
Proof.
  split; [exact (glued_valid o Hparse)|].
  edestruct (prepare_request_intro (HM := HM) {| config := glued_config;
    provider_credentials := None; require_provider_credential := false |} client bd)
    as (req & Hreq & Hurl);
    [exact Hlen|exact Hmodel|exact glued_resolves|exact (glued_allowed o Hparse)|done|done|].
  exists req. split; [exact Hreq|]. rewrite Hurl. vm_compute. reflexivity.
Qed.

Lemma path_override_extends_host_witness :
  exists req,
    prepare_request (UC := Ref.url) (UT := Ref.unicode) (JC := Ref.json)
      (HV := Ref.header_value) (HM := Ref.header_map)
      {| config := glued_config; provider_credentials := None;
         require_provider_credential := false |} [] (lit "{gpt-4}") = Ok req /\
    is_ok (check_upstream_allowed (UC := Ref.url) (UT := Ref.unicode) glued_config (rq_url req))
    = false.
Proof.
  destruct (path_override_extends_host (UC := Ref.url) (UT := Ref.unicode) (JC := Ref.json)
    (HV := Ref.header_value) (HM := Ref.header_map)
    (lit "https://api.openai.com:443") (lit "{gpt-4}") []) as (_ & req & Hreq & Hurl);
    [vm_compute; reflexivity|vm_compute; reflexivity|vm_compute; discriminate|].
  exists req. split; [exact Hreq|]. rewrite Hurl. vm_compute. reflexivity.
Defined.
