(* ===== verification/Attest.v ===== *)
(** * Attestation evidence and its X.509 carrier

    [crates/relay-attest/src/types.rs], [traits.rs] and [quote.rs]: the data of
    attestation, the two backend traits as type classes, and the certificate
    extensions that carry evidence. Messages of errors are their fixed text; a
    text a crate appends to it is left out. *)

From S2P Require Import Prelude RustStr Extern.

Local Open Scope N_scope.

(** ** Data ([types.rs]) *)

Inductive TeeType := Tdx | SevSnp | GcpConfidentialSpace | Mock.
#[global] Instance TeeType_eq_dec : EqDecision TeeType.
Proof. solve_decision. Defined.

Record Evidence := {
  tee_type : TeeType;
  data : bytes;
}.

Inductive AttestError :=
  | GenerationFailed (msg : bytes)
  | VerificationFailed (msg : bytes)
  | MeasurementMismatch (expected actual : bytes)
  | ImageDigestMismatch (expected actual : bytes)
  | ReportDataMismatch
  | UnsupportedTeeType (t : TeeType)
  | X509Error (msg : bytes)
  | Other (msg : bytes).

Abbreviation attest_result A := (outcome AttestError A).

Definition TeeType_debug (t : TeeType) : bytes :=
  match t with
  | Tdx => lit "Tdx"
  | SevSnp => lit "SevSnp"
  | GcpConfidentialSpace => lit "GcpConfidentialSpace"
  | Mock => lit "Mock"
  end.

(** [Display], derived from the [error] attributes. *)
Definition AttestError_display (e : AttestError) : bytes :=
  match e with
  | GenerationFailed m => lit "attestation generation failed: " ++ m
  | VerificationFailed m => lit "verification failed: " ++ m
  | MeasurementMismatch e a => lit "measurement mismatch: expected " ++ e ++ lit ", got " ++ a
  | ImageDigestMismatch e a =>
      lit "Confidential Space image digest mismatch: expected " ++ e ++ lit ", got " ++ a
  | ReportDataMismatch => lit "REPORTDATA mismatch"
  | UnsupportedTeeType t => lit "unsupported TEE type: " ++ TeeType_debug t
  | X509Error m => lit "X.509 error: " ++ m
  | Other m => m
  end.

(** ** Backends ([traits.rs]) *)

(** [trait Attester] and [trait Verifier]; 64-byte arrays are byte lists. *)
Class Attester (A : Type) := attest : A -> bytes -> attest_result Evidence.
Class Verifier (V : Type) := verify : V -> Evidence -> option bytes -> attest_result bytes.

(** What a verifier's return type [[u8; 64]] promises. *)
Class VerifierLaws (V : Type) `{Verifier V} : Prop := {
  verify_length : forall (v : V) ev m rd, verify v ev m = Ok rd -> length rd = 64%nat;
}.

(** An attester whose evidence a verifier accepts: the evidence is of type [t] and the
    verifier, given the input [m], returns the data that was attested. *)
Class AttestsFor {A V : Type} `{Attester A} `{Verifier V} (a : A) (v : V) (t : TeeType)
  (m : option bytes) : Prop := {
  attest_type : forall rd ev, attest a rd = Ok ev -> tee_type ev = t;
  attest_accepted : forall rd ev, length rd = 64%nat -> attest a rd = Ok ev -> verify v ev m = Ok rd;
}.

(** The same for Confidential Space, where the verifier is asked to expect report data and
    not a measurement: without an expectation it returns the data that was attested, and
    with one it compares. *)
Class AttestsBound {A V : Type} `{Attester A} `{Verifier V} (a : A) (v : V) : Prop := {
  bound_type : forall rd ev, attest a rd = Ok ev -> tee_type ev = GcpConfidentialSpace;
  bound_accepted : forall rd ev, length rd = 64%nat -> attest a rd = Ok ev -> verify v ev None = Ok rd;
  bound_expected : forall rd ev e, length rd = 64%nat -> length e = 64%nat -> attest a rd = Ok ev ->
    verify v ev (Some e) = if bool_decide (rd = e) then Ok rd else Err ReportDataMismatch;
}.

(** A verifier that reports what an attester attested, whatever else it is asked to expect:
    of the evidence of this attester it returns no other data. *)
Class Reports {A V : Type} `{Attester A} `{Verifier V} (a : A) (v : V) : Prop :=
  reports : forall rd ev m rd', length rd = 64%nat -> attest a rd = Ok ev ->
    verify v ev m = Ok rd' -> rd' = rd.

(** ** Certificates: the [rcgen] and [x509_parser] crates *)

(** The parts of a parsed certificate the source reads: extensions as pairs of dotted
    object identifier and value, and the raw subject public key info. *)
Record X509 := {
  x_extensions : list (bytes * bytes);
  x_spki : bytes;
}.
Class X509Crate := x509_from_der : bytes -> option X509.

Record CertificateParams := {
  subject_alt_names : list bytes;
  distinguished_name : list (bytes * bytes);
  custom_extensions : list (list N * bytes);
}.
Class RcgenCrate (KeyPair : Type) := {
  public_key_der : KeyPair -> bytes;
  serialize_der : KeyPair -> bytes;
  self_signed : CertificateParams -> KeyPair -> option bytes;
}.

(** [Oid]'s [Display]: the arcs in decimal, separated by dots. *)
Definition dotted (arcs : list N) : bytes := join (lit ".") (map dec arcs).

(** A self-signed certificate parses to its public key and, after the standard
    extensions under [2.5.29], its custom extensions in order. *)
Class X509Laws (KeyPair : Type) `{RcgenCrate KeyPair} `{X509Crate} : Prop := {
  self_signed_parses : forall params (kp : KeyPair) der, self_signed params kp = Some der ->
    exists x std, x509_from_der der = Some x /\ x_spki x = public_key_der kp /\
      x_extensions x = std ++ map (fun e => (dotted e.1, e.2)) (custom_extensions params) /\
      Forall (fun e => starts_with (lit "2.5.29.") e.1 = true) std;
}.

(** ** Extensions ([quote.rs]) *)

Definition OID_EVIDENCE_BLOB : list N := [1; 2; 840; 113741; 1337; 6].
Definition OID_TEE_TYPE : list N := [1; 2; 840; 113741; 1337; 7].
Definition OID_EVIDENCE_BLOB_STR : bytes := lit "1.2.840.113741.1337.6".
Definition OID_TEE_TYPE_STR : bytes := lit "1.2.840.113741.1337.7".

Definition tee_type_to_byte (t : TeeType) : byte :=
  match t with
  | Mock => n2b 0
  | Tdx => n2b 1
  | SevSnp => n2b 2
  | GcpConfidentialSpace => n2b 3
  end.

Definition byte_to_tee_type (b : byte) : attest_result TeeType :=
  if b2n b =? 0 then Ok Mock
  else if b2n b =? 1 then Ok Tdx
  else if b2n b =? 2 then Ok SevSnp
  else if b2n b =? 3 then Ok GcpConfidentialSpace
  else Err (X509Error (lit "unknown TEE type byte: " ++ dec (b2n b))).

Definition cert_params_with_evidence (evidence : Evidence) : CertificateParams := {|
  subject_alt_names := [lit "trusted-relay"];
  distinguished_name :=
    [(lit "CN", lit "trusted-relay"); (lit "O", lit "trusted-relay")];
  custom_extensions :=
    [(OID_EVIDENCE_BLOB, data evidence);
     (OID_TEE_TYPE, [tee_type_to_byte (tee_type evidence)])];
|}.

(** [generated] is the outcome of [KeyPair::generate]. *)
Definition generate_attested_cert {KP : Type} {RG : RcgenCrate KP} (generated : option KP)
  (evidence : Evidence) : attest_result (bytes * KP) :=
  key_pair ← ok_or generated (X509Error (lit "keygen failed"));
  cert ← ok_or (self_signed (cert_params_with_evidence evidence) key_pair)
    (X509Error (lit "self-sign failed"));
  Ok (cert, key_pair).

(** One round of the loop over the extensions; the state is [(evidence_data, tee_type)]. *)
Definition extension_step (st : option bytes * option TeeType) (ext : bytes * bytes)
  : attest_result (option bytes * option TeeType) :=
  if bool_decide (ext.1 = OID_EVIDENCE_BLOB_STR) then Ok (Some ext.2, st.2)
  else if bool_decide (ext.1 = OID_TEE_TYPE_STR) then
    match ext.2 with
    | [] => Err (X509Error (lit "TEE type extension is empty"))
    | b :: _ => t ← byte_to_tee_type b; Ok (st.1, Some t)
    end
  else Ok st.

Definition extract_evidence_from_cert {XC : X509Crate} (cert_der : bytes)
  : attest_result Evidence :=
  cert ← ok_or (x509_from_der cert_der) (X509Error (lit "failed to parse cert"));
  st ← try_fold extension_step (None, None) (x_extensions cert);
  d ← ok_or st.1 (X509Error (lit "missing attestation evidence extension"));
  tt ← ok_or st.2 (X509Error (lit "missing TEE type extension"));
  Ok {| tee_type := tt; data := d |}.

Definition extract_spki_from_cert {XC : X509Crate} (cert_der : bytes) : attest_result bytes :=
  cert ← ok_or (x509_from_der cert_der) (X509Error (lit "failed to parse cert"));
  Ok (x_spki cert).

(** ** Facts *)

Lemma byte_to_tee_type_to_byte t : byte_to_tee_type (tee_type_to_byte t) = Ok t.
Proof. by destruct t; vm_compute. Qed.

Lemma tee_type_to_byte_to_type b t : byte_to_tee_type b = Ok t -> tee_type_to_byte t = b.
Proof.
  unfold byte_to_tee_type. intros H. apply b2n_inj.
  destruct (N.eqb_spec (b2n b) 0) as [->|]; [by injection H as <-|].
  destruct (N.eqb_spec (b2n b) 1) as [->|]; [by injection H as <-|].
  destruct (N.eqb_spec (b2n b) 2) as [->|]; [by injection H as <-|].
  destruct (N.eqb_spec (b2n b) 3) as [->|]; [by injection H as <-|done].
Qed.

Lemma dotted_oids :
  dotted OID_EVIDENCE_BLOB = OID_EVIDENCE_BLOB_STR /\ dotted OID_TEE_TYPE = OID_TEE_TYPE_STR.
Proof. by split; vm_compute. Qed.

(** Extensions with other identifiers do not change the state of the loop. *)
Lemma extension_steps_skip st l :
  Forall (fun e => e.1 <> OID_EVIDENCE_BLOB_STR /\ e.1 <> OID_TEE_TYPE_STR) l ->
  try_fold extension_step st l = Ok st.
Proof.
  induction 1 as [|e l [H1 H2] _ IH]; [done|]. cbn [try_fold].
  assert (Hs : extension_step st e = Ok st).
  { unfold extension_step. by rewrite !bool_decide_eq_false_2. }
  rewrite Hs. exact IH.
Qed.

(** The value of the last extension with an identifier. *)
Definition last_ext (oid : bytes) (l : list (bytes * bytes)) : option bytes :=
  fold_left (fun acc e => if bool_decide (e.1 = oid) then Some e.2 else acc) l None.

Lemma last_ext_snoc oid l e :
  last_ext oid (l ++ [e]) = if bool_decide (e.1 = oid) then Some e.2 else last_ext oid l.
Proof. unfold last_ext. by rewrite fold_left_app. Qed.

Lemma extension_steps_last l st :
  try_fold extension_step (None, None) l = Ok st ->
  st.1 = last_ext OID_EVIDENCE_BLOB_STR l /\
  (forall t, st.2 = Some t -> exists r,
     last_ext OID_TEE_TYPE_STR l = Some (tee_type_to_byte t :: r)).
Proof.
  apply (try_fold_inv extension_step (fun l st => st.1 = last_ext OID_EVIDENCE_BLOB_STR l /\
    (forall t, st.2 = Some t -> exists r,
       last_ext OID_TEE_TYPE_STR l = Some (tee_type_to_byte t :: r)))); [done|].
  intros l' [oid v] [d t] s2 [H1 H2] Hs. unfold extension_step in Hs. cbn [fst snd] in *.
  rewrite !last_ext_snoc. cbn [fst snd].
  destruct (bool_decide_reflect (oid = OID_EVIDENCE_BLOB_STR)) as [->|Hne].
  - injection Hs as <-. cbn [fst snd]. split; [done|]. by rewrite bool_decide_eq_false_2.
  - destruct (bool_decide_reflect (oid = OID_TEE_TYPE_STR)) as [->|Hnt].
    + destruct v as [|b v]; [done|]. inv_outcome. cbn [fst snd]. split; [done|].
      intros t' [= <-]. exists v. by erewrite tee_type_to_byte_to_type.
    + injection Hs as <-. done.
Qed.

(** ** Properties *)

Section quote_claims.
Context {KP : Type} {RG : RcgenCrate KP} {XC : X509Crate} {XL : X509Laws KP}.

Lemma extract_from_self_signed ev (kp : KP) der :
  self_signed (cert_params_with_evidence ev) kp = Some der ->
  extract_evidence_from_cert der = Ok ev /\ extract_spki_from_cert der = Ok (public_key_der kp).
Proof.
  intros (x & std & Hx & Hk & He & Hstd)%self_signed_parses.
  unfold extract_evidence_from_cert, extract_spki_from_cert. rewrite Hx. simp_out.
  split; [|by rewrite Hk]. rewrite He, try_fold_app, extension_steps_skip; simp_out.
  - destruct dotted_oids as [D1 D2].
    cbn [cert_params_with_evidence custom_extensions map fst snd]. rewrite D1, D2.
    assert (H1 : extension_step (None, None) (OID_EVIDENCE_BLOB_STR, data ev)
                 = Ok (Some (data ev), None)).
    { unfold extension_step. cbn [fst snd]. by rewrite bool_decide_eq_true_2. }
    assert (H2 : extension_step (Some (data ev), None)
                   (OID_TEE_TYPE_STR, [tee_type_to_byte (tee_type ev)])
                 = Ok (Some (data ev), Some (tee_type ev))).
    { unfold extension_step. cbn [fst snd].
      rewrite bool_decide_eq_false_2, bool_decide_eq_true_2 by (try done; by vm_compute).
      by rewrite byte_to_tee_type_to_byte. }
    cbn [try_fold]. rewrite H1. simp_out. rewrite H2. simp_out. by destruct ev.
  - eapply Forall_impl; [exact Hstd|]. intros [oid v] Ho. cbn [fst] in *.
    split; intros ->; vm_compute in Ho; discriminate.
Qed.

(** C39: Evidence survives the certificate: what a relay embeds in its self-signed certificate
    is what a client extracts, with the type and every byte, and the key the client
    extracts is the relay's public key. *)
Theorem evidence_roundtrip (generated : option KP) (ev : Evidence) (der : bytes) (kp : KP)
  (Hgen : generate_attested_cert generated ev = Ok (der, kp)) :
  extract_evidence_from_cert der = Ok ev /\ extract_spki_from_cert der = Ok (public_key_der kp).
Proof.
  unfold generate_attested_cert in Hgen. inv_outcome. by apply extract_from_self_signed.
Qed.
End quote_claims.

(** Extraction is exact on any certificate: it succeeds only if the certificate parses and
    holds both extensions, its result is the last value of the blob extension with the
    type named by the first byte of the last type extension, and no panic is possible. *)
Theorem extract_evidence_exact {XC : X509Crate} (der : bytes) :
  extract_evidence_from_cert der <> Panic /\
  forall ev, extract_evidence_from_cert der = Ok ev ->
    exists x r, x509_from_der der = Some x /\
      last_ext OID_EVIDENCE_BLOB_STR (x_extensions x) = Some (data ev) /\
      last_ext OID_TEE_TYPE_STR (x_extensions x) = Some (tee_type_to_byte (tee_type ev) :: r).
Proof.
  unfold extract_evidence_from_cert. split.
  - destruct (x509_from_der der) as [x|]; simp_out; [|done].
    destruct (try_fold _ _ _) as [[d t]| |] eqn:E; simp_out; [by destruct d, t|done|].
    exfalso. revert E. apply try_fold_no_panic. intros [d t] [oid v] _. unfold extension_step.
    destruct (bool_decide _); [done|]. destruct (bool_decide _); [|done].
    destruct v as [|b v]; [done|]. unfold byte_to_tee_type. cbn [snd].
    by repeat (match goal with |- context [if ?c then _ else _] => destruct c end).
  - intros ev H. inv_outcome. exists x. destruct (extension_steps_last _ _ H0) as [Hd Ht].
    rewrite H1 in Hd. destruct (Ht _ H2) as [r Hr]. exists r. by rewrite <-Hd, Hr.
Qed.

(** ** Concrete certificates *)

Module RefX509.
(** A certificate is the key of a two-byte key pair, its single-byte lengths and values. *)
Definition enc (v : bytes) : bytes := n2b (len v) :: v.
Definition params_der (p : CertificateParams) (kp : bytes) : option bytes :=
  match custom_extensions p with
  | [(o1, v1); (o2, v2)] =>
      if bool_decide (o1 = OID_EVIDENCE_BLOB) && bool_decide (o2 = OID_TEE_TYPE)
         && (len kp <? 256) && (len v2 =? 1)
      then Some (enc kp ++ v2 ++ v1) else None
  | _ => None
  end.
#[export] Instance rcgen : RcgenCrate bytes := {|
  public_key_der kp := kp; serialize_der kp := kp; self_signed := params_der |}.
Definition parse (der : bytes) : option X509 :=
  match der with
  | [] => None
  | n :: rest =>
      match drop (N.to_nat (b2n n)) rest with
      | t :: v => Some {| x_spki := take (N.to_nat (b2n n)) rest;
                          x_extensions := [(lit "2.5.29.17", lit "trusted-relay");
                            (OID_EVIDENCE_BLOB_STR, v); (OID_TEE_TYPE_STR, [t])] |}
      | [] => None
      end
  end.
#[export] Instance x509 : X509Crate := parse.

#[export] Instance laws : X509Laws bytes.
Proof.
  split. intros params kp der H. cbn [self_signed rcgen] in H. unfold params_der in H.
  destruct (custom_extensions params) as [|[o1 v1] [|[o2 v2] [|]]] eqn:Hc; try done.
  destruct (bool_decide_reflect (o1 = OID_EVIDENCE_BLOB)) as [->|]; [|done].
  destruct (bool_decide_reflect (o2 = OID_TEE_TYPE)) as [->|]; [|done].
  destruct (N.ltb_spec (len kp) 256) as [Hl|]; [|done].
  destruct (N.eqb_spec (len v2) 1) as [Hv|]; [|done]. cbn [andb] in H. injection H as <-.
  destruct v2 as [|t [|]]; try (unfold len in Hv; simpl in Hv; lia).
  eexists {| x_spki := kp; x_extensions := _ |}, [(lit "2.5.29.17", lit "trusted-relay")].
  cbn [enc app]. unfold x509_from_der, x509, parse. rewrite b2n_n2b, N.mod_small by done.
  unfold len at 1 2. rewrite Nat2N.id, drop_app_length, take_app_length.
  cbn [app]. split_and!; [reflexivity|done| |apply Forall_singleton; by vm_compute].
  cbn [x_extensions map fst snd]. destruct dotted_oids as [-> ->]. reflexivity.
Qed.
End RefX509.

Definition enc_sample (kp : bytes) (t : TeeType) (d : bytes) : bytes :=
  RefX509.enc kp ++ [tee_type_to_byte t] ++ d.

Lemma evidence_roundtrip_witness :
  extract_evidence_from_cert (XC := RefX509.x509)
    (enc_sample (lit "key") SevSnp (lit "report")) =
  Ok {| tee_type := SevSnp; data := lit "report" |}.
Proof.
  apply (evidence_roundtrip (RG := RefX509.rcgen) (XC := RefX509.x509) (XL := RefX509.laws)
    (Some (lit "key")) _ _ (lit "key")).
  vm_compute. reflexivity.
Defined.
