(* ===== verification/MockTee.v ===== *)
(** * Software backends

    [crates/relay-attest/src/mock.rs]: quotes signed by a fixed Ed25519 key, and
    [tdx.rs]: the TDX stubs. *)

From S2P Require Import Prelude RustStr Extern Attest.

Local Open Scope N_scope.

(** ** Third-party code: Ed25519 and the serialisation of quotes *)

Record MockQuote := {
  measurement : bytes;
  user_data : bytes;
}.

(** [ed25519_dalek], with keys given by their seed, and the code [serde_json] derives. *)
Class Ed25519Crate := {
  ed25519_sign : bytes -> bytes -> bytes;
  ed25519_verify : bytes -> bytes -> bytes -> bool;
}.
Class Ed25519Laws `{Ed25519Crate} : Prop := {
  ed25519_correct : forall seed m, ed25519_verify seed m (ed25519_sign seed m) = true;
  ed25519_length : forall seed m, length (ed25519_sign seed m) = 64%nat;
}.
Class MockQuoteJson := {
  quote_to_vec : MockQuote -> bytes;
  quote_from_slice : bytes -> option MockQuote;
}.
Class MockQuoteJsonLaws `{MockQuoteJson} : Prop := {
  quote_json_roundtrip : forall q, quote_from_slice (quote_to_vec q) = Some q;
}.

Definition MOCK_SEED : bytes := lit "trusted-relay-mock-key-seed!0000".

Inductive MockAttester := mock_attester.
Record MeasuredMockAttester := { mock_attester_measurement : bytes }.
Inductive MockVerifier := mock_verifier.
Inductive TdxAttester := tdx_attester.
Inductive TdxVerifier := tdx_verifier.

Section mock.
Context {SC : Sha2Crate} {ED : Ed25519Crate} {QJ : MockQuoteJson} {HX : HexCrate}.

Definition mock_measurement : bytes := sha256 (lit "trusted-relay-mock-measurement").
Definition get_mock_measurement : bytes := mock_measurement.

Definition with_measurement (m : bytes) : MeasuredMockAttester :=
  {| mock_attester_measurement := m |}.

(** The payload length is stored as a [u32]. *)
Definition sign_mock_quote (m ud : bytes) : attest_result Evidence :=
  let payload := quote_to_vec {| measurement := m; user_data := ud |} in
  let signature := ed25519_sign MOCK_SEED payload in
  Ok {| tee_type := Mock; data := N_to_le 4 (len payload) ++ payload ++ signature |}.

#[global] Instance MockAttester_attest : Attester MockAttester :=
  fun _ ud => sign_mock_quote mock_measurement ud.
#[global] Instance MeasuredMockAttester_attest : Attester MeasuredMockAttester :=
  fun a ud => sign_mock_quote (mock_attester_measurement a) ud.

Definition parse_evidence (evidence : Evidence) : attest_result (bytes * MockQuote * bytes) :=
  _ ← ensure (bool_decide (tee_type evidence = Mock)) (UnsupportedTeeType (tee_type evidence));
  let d := data evidence in
  _ ← ensure (4 + 64 <=? len d) (VerificationFailed (lit "evidence too short"));
  prefix ← slice_idx d 0 4;
  let payload_len := le_to_N prefix in
  _ ← ensure (len d =? 4 + payload_len + 64)
    (VerificationFailed (lit "evidence length mismatch: expected "
       ++ dec (4 + payload_len + 64) ++ lit ", got " ++ dec (len d)));
  payload ← slice_idx d 4 (4 + payload_len);
  signature ← slice_idx d (4 + payload_len) (len d);
  quote ← ok_or (quote_from_slice payload) (VerificationFailed (lit "bad quote JSON"));
  Ok (payload, quote, signature).

#[global] Instance MockVerifier_verify : Verifier MockVerifier :=
  fun _ evidence expected_measurement =>
  '(payload, quote, signature) ← parse_evidence evidence;
  _ ← ensure (ed25519_verify MOCK_SEED payload signature)
    (VerificationFailed (lit "signature invalid"));
  _ ← match expected_measurement with
      | Some expected =>
          ensure (bool_decide (measurement quote = expected))
            (MeasurementMismatch (hex_encode expected) (hex_encode (measurement quote)))
      | None => Ok tt
      end;
  _ ← ensure (len (user_data quote) =? 64) (VerificationFailed (lit "user_data not 64 bytes"));
  Ok (user_data quote).
End mock.

(** ** TDX *)

#[global] Instance TdxAttester_attest : Attester TdxAttester := fun _ _ =>
  Err (GenerationFailed
    (lit "TDX attestation requires /dev/tdx_guest (not available on this platform)")).
#[global] Instance TdxVerifier_verify : Verifier TdxVerifier := fun _ _ _ =>
  Err (VerificationFailed (lit "TDX verification not yet implemented")).

(** ** Facts *)

Section mock_facts.
Context {SC : Sha2Crate} {ED : Ed25519Crate} {QJ : MockQuoteJson} {HX : HexCrate}.

Lemma parse_evidence_no_panic ev : parse_evidence ev <> Panic.
Proof.
  unfold parse_evidence. destruct (bool_decide _); simp_out; [|done].
  destruct (N.leb_spec (4 + 64) (len (data ev))); simp_out; [|done].
  destruct (slice_idx_total (E:=AttestError) (data ev) 0 4) as (p & -> & _); [unfold len in *; lia..|]. simp_out.
  destruct (N.eqb_spec (len (data ev)) (4 + le_to_N p + 64)); simp_out; [|done].
  destruct (slice_idx_total (E:=AttestError) (data ev) 4 (4 + le_to_N p)) as (q & -> & _); [lia..|].
  simp_out.
  destruct (slice_idx_total (E:=AttestError) (data ev) (4 + le_to_N p) (len (data ev)))
    as (s & -> & _); [lia..|].
  simp_out. by destruct (quote_from_slice q).
Qed.

Lemma parse_evidence_Ok ev payload quote sig :
  parse_evidence ev = Ok (payload, quote, sig) ->
  tee_type ev = Mock /\ quote_from_slice payload = Some quote /\ length sig = 64%nat /\
  data ev = N_to_le 4 (len payload) ++ payload ++ sig.
Proof.
  unfold parse_evidence. intros H. inv_outcome. split_bool.
  match goal with H1 : slice_idx _ 0 4 = Ok ?p, H2 : slice_idx _ _ _ = Ok payload,
    H3 : slice_idx _ _ _ = Ok sig, H4 : (len _ =? _) = true |- _ =>
    rename p into pre, H1 into Hp, H2 into Hq, H3 into Hs, H4 into Hl end.
  apply slice_idx_Ok in Hp, Hq, Hs. apply N.eqb_eq in Hl.
  pose proof (slice_get_length _ _ _ _ Hp) as Lp. pose proof (slice_get_length _ _ _ _ Hq) as Lq.
  pose proof (slice_get_length _ _ _ _ Hs) as Ls.
  split_and!; [done|done|unfold len in *; lia|].
  pose proof (slice_get_concat _ _ _ _ _ _ Hq Hs) as Hqs.
  apply (slice_get_concat _ _ _ _ _ _ Hp), slice_get_full in Hqs. rewrite <-Hqs. f_equal.
  replace (len payload) with (le_to_N pre) by lia.
  assert (length pre = 4%nat) as <- by (unfold len in *; lia). by rewrite N_to_le_to_N.
Qed.

Lemma parse_evidence_intro q sig :
  len (quote_to_vec q) < 2 ^ 32 -> length sig = 64%nat ->
  parse_evidence {| tee_type := Mock;
    data := N_to_le 4 (len (quote_to_vec q)) ++ quote_to_vec q ++ sig |} =
  match quote_from_slice (quote_to_vec q) with
  | Some q' => Ok (quote_to_vec q, q', sig)
  | None => Err (VerificationFailed (lit "bad quote JSON"))
  end.
Proof.
  intros Hq Hs. unfold parse_evidence. cbn [tee_type data].
  rewrite bool_decide_eq_true_2 by done. simp_out.
  set (p := quote_to_vec q) in *. set (n := N_to_le 4 (len p)).
  assert (Ln : len n = 4) by (unfold len, n; rewrite length_N_to_le; done).
  assert (Lt : len (n ++ p ++ sig) = 4 + len p + 64)
    by (rewrite !len_app, Ln; unfold len; rewrite Hs; lia).
  assert (E0 : slice_get (n ++ p ++ sig) 0 4 = Some n).
  { rewrite <-Ln. apply (slice_get_here [] n (p ++ sig)). }
  assert (E1 : slice_get (n ++ p ++ sig) 4 (4 + len p) = Some p).
  { rewrite <-Ln. apply slice_get_here. }
  assert (E2 : slice_get (n ++ p ++ sig) (4 + len p) (len (n ++ p ++ sig)) = Some sig).
  { pose proof (slice_get_here (n ++ p) sig []) as H. rewrite app_nil_r, <-!app_assoc in H.
    rewrite len_app, Ln in H. rewrite Lt. replace (4 + len p + 64) with (4 + len p + len sig)
      by (unfold len; rewrite Hs; lia). exact H. }
  assert (Hv : le_to_N n = len p) by (unfold n; rewrite le_to_N_to_le; apply N.mod_small; exact Hq).
  unfold slice_idx. rewrite E0. simp_out. rewrite Hv, E1, E2, Lt.
  destruct (N.leb_spec (4 + 64) (4 + len p + 64)); [|lia]. simp_out.
  rewrite N.eqb_refl. simp_out. by destruct (quote_from_slice p).
Qed.

#[global] Instance MockVerifier_laws : VerifierLaws MockVerifier.
Proof.
  split. intros v ev m rd H. unfold verify, MockVerifier_verify in H.
  apply bind_Ok in H as ([[payload quote] sig] & _ & H). inv_outcome.
  match goal with H : (_ =? 64) = true |- _ => apply N.eqb_eq in H; unfold len in H end. lia.
Qed.
End mock_facts.

(** ** Properties *)

Section mock_claims.
Context {SC : Sha2Crate} {ED : Ed25519Crate} {QJ : MockQuoteJson} {HX : HexCrate}.
Context {EDL : Ed25519Laws} {QJL : MockQuoteJsonLaws}.

Lemma mock_verify_signed m ud expected ev :
  len (quote_to_vec {| measurement := m; user_data := ud |}) < 2 ^ 32 ->
  sign_mock_quote m ud = Ok ev -> length ud = 64%nat ->
  verify mock_verifier ev expected =
  match expected with
  | Some e => if bool_decide (m = e) then Ok ud
              else Err (MeasurementMismatch (hex_encode e) (hex_encode m))
  | None => Ok ud
  end.
Proof.
  intros Hl Hs Hud. unfold sign_mock_quote in Hs. cbv zeta in Hs.
  match type of Hs with Ok ?x = Ok _ => assert (ev = x) as -> by congruence end.
  unfold verify, MockVerifier_verify. rewrite parse_evidence_intro by (try done; apply ed25519_length).
  rewrite quote_json_roundtrip. simp_out. rewrite ed25519_correct. simp_out.
  cbn [measurement user_data].
  assert (Hlen : (len ud =? 64) = true) by (unfold len; rewrite Hud; done).
  destruct expected as [e|]; [case_bool_decide|]; simp_out; rewrite ?Hlen; done.
Qed.

(** The mock backend round-trips: evidence of a mock attester for 64 bytes of report data
    verifies to exactly those bytes without an expected measurement or with the
    attester's own one, and any other expected measurement is refused as a mismatch. *)
Theorem mock_attest_verify (m ud : bytes) (expected : option bytes) (ev : Evidence)
  (Hlen : len (quote_to_vec {| measurement := m; user_data := ud |}) < 2 ^ 32)
  (Hud : length ud = 64%nat) (Ha : attest (with_measurement m) ud = Ok ev) :
  verify mock_verifier ev expected =
  match expected with
  | Some e => if bool_decide (m = e) then Ok ud
              else Err (MeasurementMismatch (hex_encode e) (hex_encode m))
  | None => Ok ud
  end.
Proof. by apply mock_verify_signed. Qed.

(** The mock pair implements the interface of attested TLS. *)
Lemma mock_attests_for (Hsmall : forall ud, length ud = 64%nat ->
    len (quote_to_vec {| measurement := mock_measurement; user_data := ud |}) < 2 ^ 32) m :
  m = None \/ m = Some mock_measurement ->
  AttestsFor mock_attester mock_verifier Mock m.
Proof.
  intros Hm. split.
  - intros rd ev H. by injection H as <-.
  - intros rd ev Hlen H. rewrite (mock_verify_signed _ _ _ _ (Hsmall rd Hlen) H Hlen).
    destruct Hm as [->| ->]; [done|]. by rewrite bool_decide_eq_true_2.
Qed.
End mock_claims.

(** Mock verification accepts only what the key signed: the evidence is exactly the length
    of a payload, the payload and a 64-byte signature that verifies under the fixed key,
    the measurement is the expected one, and the result is the 64 bytes of user data
    inside the signed payload; malformed evidence is an error, never a panic. *)
Theorem mock_verify_sound {ED : Ed25519Crate} {QJ : MockQuoteJson} {HX : HexCrate}
  (ev : Evidence) (expected : option bytes) :
  match verify mock_verifier ev expected with
  | Ok rd =>
      tee_type ev = Mock /\ length rd = 64%nat /\
      exists payload quote sig,
        data ev = N_to_le 4 (len payload) ++ payload ++ sig /\ length sig = 64%nat /\
        ed25519_verify MOCK_SEED payload sig = true /\
        quote_from_slice payload = Some quote /\ user_data quote = rd /\
        (forall e, expected = Some e -> measurement quote = e)
  | Err _ => True
  | Panic => False
  end.
Proof.
  destruct (verify mock_verifier ev expected) as [rd| |] eqn:E; [|done|].
  - unfold verify, MockVerifier_verify in E.
    apply bind_Ok in E as ([[payload quote] sig] & Hp & E). inv_outcome.
    apply parse_evidence_Ok in Hp as (Ht & Hq & Hl & Hd).
    match goal with H : (_ =? 64) = true |- _ => apply N.eqb_eq in H; unfold len in H end.
    split_and!; [done|lia|]. exists payload, quote, sig. split_and!; try done.
    intros e ->. inv_outcome. by split_bool.
  - unfold verify, MockVerifier_verify in E. revert E.
    destruct (parse_evidence ev) as [[[payload quote] sig]| |] eqn:Hp; simp_out; [|done|].
    + destruct (ed25519_verify _ _ _); simp_out; [|done].
      destruct expected as [e|]; [case_bool_decide|]; simp_out; try done;
        by destruct (len _ =? 64).
    + by destruct (parse_evidence_no_panic ev).
Qed.

(** ** A concrete mock backend *)

Module RefMock.
(** A keyed checksum stands for the signature, and two length-prefixed fields for JSON. *)
Definition sign (seed m : bytes) : bytes := Ref.mix 64 (seed ++ m).
#[export] Instance ed25519 : Ed25519Crate := {|
  ed25519_sign := sign; ed25519_verify seed m s := bool_decide (s = sign seed m) |}.
#[export] Instance ed25519_laws : Ed25519Laws.
Proof.
  split; intros; cbn [ed25519_verify ed25519_sign ed25519].
  - by apply bool_decide_eq_true_2.
  - apply length_N_to_le.
Qed.

Definition to_vec (q : MockQuote) : bytes :=
  Ref.hex_enc (measurement q) ++ lit "," ++ Ref.hex_enc (user_data q).
Definition from_slice (s : bytes) : option MockQuote :=
  '(m, u) ← split_once ","%byte s;
  m ← Ref.hex_dec m; u ← Ref.hex_dec u;
  Some {| measurement := m; user_data := u |}.
#[export] Instance json : MockQuoteJson := {| quote_to_vec := to_vec; quote_from_slice := from_slice |}.
#[export] Instance json_laws : MockQuoteJsonLaws.
Proof.
  split. intros [m u]. cbn [quote_from_slice quote_to_vec json]. unfold from_slice, to_vec.
  cbn [measurement user_data].
  change (lit ",") with [","%byte]. cbn [app]. rewrite split_once_app.
  - cbn [mbind option_bind].
    pose proof (hex_decode_encode (H := Ref.hex) (HexLaws := Ref.hex_laws) m) as Hm.
    pose proof (hex_decode_encode (H := Ref.hex) (HexLaws := Ref.hex_laws) u) as Hu.
    cbn [hex_decode hex_encode Ref.hex] in Hm, Hu. by rewrite Hm, Hu.
  - apply (b64url_encode_no_comma (H := Ref.base64) (Base64Laws := Ref.base64_laws)).
Qed.
End RefMock.

Lemma mock_attest_verify_witness :
  exists ev, attest (Attester := MeasuredMockAttester_attest (ED := RefMock.ed25519) (QJ := RefMock.json))
      (with_measurement (lit "image")) (replicate 64 "u"%byte) = Ok ev /\
  verify (Verifier := MockVerifier_verify (ED := RefMock.ed25519) (QJ := RefMock.json) (HX := Ref.hex))
    mock_verifier ev (Some (lit "image")) = Ok (replicate 64 "u"%byte).
Proof.
  eexists. split; [reflexivity|].
  apply (mock_attest_verify (ED := RefMock.ed25519) (QJ := RefMock.json) (HX := Ref.hex)
    (EDL := RefMock.ed25519_laws) (QJL := RefMock.json_laws)
    (lit "image") (replicate 64 "u"%byte) (Some (lit "image"))).
  - vm_compute. reflexivity.
  - reflexivity.
  - reflexivity.
Defined.
