(* ===== verification/AttestedTls.v ===== *)
(** * Attested TLS

    [crates/relay-tls/src/server.rs] and [client.rs]: the relay binds its TLS key
    and configuration hash into the report data it has attested, and the client
    checks the evidence inside the certificate during the handshake. Handshake
    signatures are the TLS library's. *)

From S2P Require Import Prelude RustStr Extern Attest MockTee.

Local Open Scope N_scope.

(** ** Server *)

(** [PrivateKeyDer::try_from], and [rustls::ServerConfig]'s builder, which accepts or
    refuses a certificate and key. *)
Class RustlsServer := {
  private_key_der_ok : bytes -> bool;
  with_single_cert : bytes -> bytes -> bool;
}.

Record AttestedTlsServer := {
  server_cert_der : bytes;
  server_private_key : bytes;
  send_tls13_tickets : N;
}.

Section server.
Context {SC : Sha2Crate} {KP : Type} {RG : RcgenCrate KP} {RS : RustlsServer}.

Definition server_reportdata (spki : bytes) (config_hash : option bytes) : bytes :=
  let reportdata := copy_at 0 (sha384 spki) (zeros 64) in
  match config_hash with
  | Some ch => copy_at 48 (take 16 ch) reportdata
  | None => reportdata
  end.

Definition from_cert_der_and_key (cert_der private_key : bytes)
  : attest_result AttestedTlsServer :=
  _ ← ensure (with_single_cert cert_der private_key) (Other (lit "rustls config"));
  Ok {| server_cert_der := cert_der; server_private_key := private_key;
        send_tls13_tickets := 0 |}.

Definition from_cert_key_pair (cert_der : bytes) (key_pair : KP)
  : attest_result AttestedTlsServer :=
  let private_key_bytes := serialize_der key_pair in
  _ ← ensure (private_key_der_ok private_key_bytes) (X509Error (lit "private key DER"));
  from_cert_der_and_key cert_der private_key_bytes.

Definition from_key_pair {A : Type} {AT : Attester A} (attester : A)
  (config_hash : option bytes) (key_pair : KP) : attest_result AttestedTlsServer :=
  evidence ← attest attester (server_reportdata (public_key_der key_pair) config_hash);
  cert ← ok_or (self_signed (cert_params_with_evidence evidence) key_pair)
    (X509Error (lit "self-sign"));
  from_cert_key_pair cert key_pair.

(** [generated] is the outcome of [KeyPair::generate]. *)
Definition AttestedTlsServer_new {A : Type} {AT : Attester A} (attester : A)
  (config_hash : option bytes) (generated : option KP) : attest_result AttestedTlsServer :=
  key_pair ← ok_or generated (GenerationFailed (lit "keygen"));
  from_key_pair attester config_hash key_pair.
End server.

(** ** Client *)

Inductive TlsError :=
  | ExtractEvidenceFailed (e : AttestError)
  | ExtractSpkiFailed (e : AttestError)
  | AttestationFailed (e : AttestError)
  | KeyNotAttested
  | ConfigHashMismatch (expected actual : bytes).

Record AttestedCertVerifier (V : Type) := {
  verifier : V;
  expected_measurement : option bytes;
  expected_config_hash : option bytes;
}.
Arguments verifier {V}. Arguments expected_measurement {V}. Arguments expected_config_hash {V}.

Section client.
Context {SC : Sha2Crate} {HX : HexCrate} {XC : X509Crate} {V : Type} {VF : Verifier V}.

Definition client_reportdata (spki : bytes) (config_hash : option bytes) : bytes :=
  let expected_reportdata := copy_at 0 (sha384 spki) (zeros 64) in
  match config_hash with
  | Some ch => copy_at 48 (take 16 ch) expected_reportdata
  | None => expected_reportdata
  end.

Definition expected_attested_data (c : AttestedCertVerifier V) (t : TeeType)
  (expected_reportdata : bytes) : option bytes :=
  match t with
  | GcpConfidentialSpace =>
      if bool_decide (is_Some (expected_config_hash c)) then Some expected_reportdata else None
  | _ => expected_measurement c
  end.

(** The ranges [..48] and [48..64] of a 64-byte array. *)
Definition key_part (rd : bytes) : bytes := take 48 rd.
Definition config_part (rd : bytes) : bytes := take 16 (drop 48 rd).

Definition verify_server_cert (c : AttestedCertVerifier V) (cert_der : bytes)
  : outcome TlsError unit :=
  evidence ← map_err ExtractEvidenceFailed (extract_evidence_from_cert cert_der);
  spki_bytes ← map_err ExtractSpkiFailed (extract_spki_from_cert cert_der);
  let expected_reportdata := client_reportdata spki_bytes (expected_config_hash c) in
  actual_reportdata ← map_err AttestationFailed
    (verify (verifier c) evidence
       (expected_attested_data c (tee_type evidence) expected_reportdata));
  _ ← ensure (bool_decide (key_part actual_reportdata = key_part expected_reportdata))
    KeyNotAttested;
  ensure (negb (bool_decide (is_Some (expected_config_hash c))
                && negb (bool_decide (config_part actual_reportdata
                                      = config_part expected_reportdata))))
    (ConfigHashMismatch (hex_encode (config_part expected_reportdata))
                        (hex_encode (config_part actual_reportdata))).

Definition attested_client_config (v : V) (m ch : option bytes) : AttestedCertVerifier V :=
  {| verifier := v; expected_measurement := m; expected_config_hash := ch |}.
End client.

(** ** Facts *)

(** The layout of report data. *)
Definition reportdata_layout (spki : bytes) (ch : option bytes) `{Sha2Crate} : bytes :=
  sha384 spki ++ match ch with Some h => take 16 h | None => zeros 16 end.

Definition hash_ok (ch : option bytes) : Prop :=
  match ch with Some h => length h = 32%nat | None => True end.

Section tls_facts.
Context {SC : Sha2Crate} {SL : Sha2Laws}.

Lemma reportdata_is_layout spki ch : hash_ok ch -> server_reportdata spki ch = reportdata_layout spki ch.
Proof.
  intros Hch. unfold server_reportdata, reportdata_layout, copy_at, zeros.
  pose proof (sha384_length spki) as L. rewrite take_0, Nat.add_0_l, L. cbn [app].
  rewrite drop_replicate. cbn [Nat.sub].
  destruct ch as [h|]; [|done]. cbn [hash_ok] in Hch.
  rewrite length_take, Hch. change (48 + min 16 32)%nat with 64%nat.
  rewrite take_app_le, take_ge by lia.
  rewrite drop_ge, app_nil_r; [done|]. rewrite length_app, length_replicate. lia.
Qed.

Lemma client_server_reportdata spki ch : client_reportdata spki ch = server_reportdata spki ch.
Proof. done. Qed.

Lemma layout_length spki ch : hash_ok ch -> length (reportdata_layout spki ch) = 64%nat.
Proof.
  intros H. unfold reportdata_layout. rewrite length_app, sha384_length.
  destruct ch as [h|]; cbn [hash_ok] in H; [rewrite length_take; lia|done].
Qed.

Lemma layout_parts spki ch :
  hash_ok ch ->
  key_part (reportdata_layout spki ch) = sha384 spki /\
  config_part (reportdata_layout spki ch) = match ch with Some h => take 16 h | None => zeros 16 end.
Proof.
  intros H. unfold key_part, config_part, reportdata_layout. pose proof (sha384_length spki) as L.
  rewrite take_app_le, take_ge by lia. split; [done|].
  rewrite drop_app_ge, L by lia. cbn [Nat.sub]. rewrite drop_0. apply take_ge.
  destruct ch as [h|]; [rewrite length_take; lia|done].
Qed.
End tls_facts.

(** What the client's check amounts to. *)
Lemma verify_server_cert_Ok {SC : Sha2Crate} {SL : Sha2Laws} {HX : HexCrate} {XC : X509Crate}
  {V : Type} {VF : Verifier V} (c : AttestedCertVerifier V) cert_der :
  hash_ok (expected_config_hash c) ->
  verify_server_cert c cert_der = Ok tt <->
  exists ev spki rd,
    extract_evidence_from_cert cert_der = Ok ev /\ extract_spki_from_cert cert_der = Ok spki /\
    verify (verifier c) ev (expected_attested_data c (tee_type ev)
      (reportdata_layout spki (expected_config_hash c))) = Ok rd /\
    take 48 rd = sha384 spki /\
    (forall h, expected_config_hash c = Some h -> take 16 (drop 48 rd) = take 16 h).
Proof.
  intros Hch. unfold verify_server_cert. split.
  - intros Hok. inv_outcome. split_bool.
    match goal with H : extract_evidence_from_cert _ = Ok ?e, H2 : extract_spki_from_cert _ = Ok ?s,
      H3 : verify _ _ _ = Ok ?r |- _ => exists e, s, r; rename H3 into Hv; set (spki := s) in * end.
    rewrite client_server_reportdata, reportdata_is_layout in * by done.
    destruct (layout_parts spki (expected_config_hash c) Hch) as [Hk Hc].
    split_and!; [done..|change (key_part x1 = sha384 spki); congruence|].
    intros h Hh. rewrite Hh in *.
    match goal with H : (bool_decide (is_Some _) && _) = false |- _ => rename H into Hb end.
    rewrite bool_decide_eq_true_2 in Hb by eauto. cbn [andb] in Hb. split_bool.
    unfold config_part in *. congruence.
  - intros (ev & spki & rd & -> & -> & Hv & Hk & Hc). simp_out.
    rewrite client_server_reportdata, reportdata_is_layout, Hv by done. simp_out.
    destruct (layout_parts spki (expected_config_hash c) Hch) as [Hk' Hc'].
    rewrite Hk', Hc', (bool_decide_eq_true_2 (key_part rd = sha384 spki)) by done. simp_out.
    destruct (expected_config_hash c) as [h|].
    + rewrite (bool_decide_eq_true_2 (config_part rd = take 16 h)) by (by apply Hc).
      cbn [negb]. by rewrite andb_false_r.
    + by rewrite bool_decide_eq_false_2 by (intros [? ?]; discriminate).
Qed.

(** What a relay's certificate holds. *)
Lemma relay_certificate {SC : Sha2Crate} {SL : Sha2Laws} {XC : X509Crate}
  {KP : Type} {RG : RcgenCrate KP} {XL : X509Laws KP} {RS : RustlsServer} {A : Type} {AT : Attester A}
  (a : A) relay_hash (generated : option KP) s :
  hash_ok relay_hash -> AttestedTlsServer_new a relay_hash generated = Ok s ->
  exists kp ev, send_tls13_tickets s = 0 /\
    attest a (reportdata_layout (public_key_der kp) relay_hash) = Ok ev /\
    extract_evidence_from_cert (server_cert_der s) = Ok ev /\
    extract_spki_from_cert (server_cert_der s) = Ok (public_key_der kp).
Proof.
  intros Hr Hs. unfold AttestedTlsServer_new, from_key_pair, from_cert_key_pair,
    from_cert_der_and_key in Hs. inv_outcome. cbn [server_cert_der send_tls13_tickets].
  match goal with H : self_signed (cert_params_with_evidence ?e) ?k = Some ?d |- _ =>
    destruct (extract_from_self_signed e k d H) as [He Hk]; exists k, e end.
  rewrite reportdata_is_layout in * by done. by split_and!.
Qed.

(** Report data for one key is the same when its second half is. *)
Lemma layout_eq {SC : Sha2Crate} {SL : Sha2Laws} spki (ch : option bytes) h :
  reportdata_layout spki ch = reportdata_layout spki (Some h) <->
  take 16 h = match ch with Some h' => take 16 h' | None => zeros 16 end.
Proof.
  unfold reportdata_layout. split; [by intros H%app_inv_head|]. by intros ->.
Qed.

(** What a client's backend makes of the evidence of the attester it goes with. *)
Lemma paired_verify {A V : Type} {AT : Attester A} {VF : Verifier V} (a : A)
  (c : AttestedCertVerifier V) t rd e ev :
  match t with
  | GcpConfidentialSpace => AttestsBound a (verifier c)
  | _ => AttestsFor a (verifier c) t (expected_measurement c)
  end ->
  length rd = 64%nat -> length e = 64%nat -> attest a rd = Ok ev ->
  verify (verifier c) ev (expected_attested_data c (tee_type ev) e) =
  match t, expected_config_hash c with
  | GcpConfidentialSpace, Some _ => if bool_decide (rd = e) then Ok rd else Err ReportDataMismatch
  | _, _ => Ok rd
  end.
Proof.
  intros Hpair Hr He Ha. unfold expected_attested_data. destruct t; first
    [ rewrite (attest_type _ _ Ha); exact (attest_accepted _ _ Hr Ha)
    | rewrite (bound_type _ _ Ha); destruct (expected_config_hash c) as [h|];
      [ rewrite bool_decide_eq_true_2 by eauto; exact (bound_expected _ _ _ Hr He Ha)
      | rewrite bool_decide_eq_false_2 by (by intros [? ?]); exact (bound_accepted _ _ Hr Ha) ] ].
Qed.

(** ** Properties *)

(** C5: A completed handshake check binds the channel: the certificate carries evidence which
    the backend verified against the pinned measurement (or, for Confidential Space with
    a pinned hash, against the full report data), and the attested data starts with the
    SHA-384 of the certificate's own key and, when a configuration hash is pinned,
    continues with its first 16 bytes. Every other outcome is an error. *)
Theorem attested_tls_sound {SC : Sha2Crate} {SL : Sha2Laws} {HX : HexCrate} {XC : X509Crate}
  {V : Type} {VF : Verifier V} (c : AttestedCertVerifier V) (cert_der : bytes)
  (Hch : hash_ok (expected_config_hash c))
  (Hok : verify_server_cert c cert_der = Ok tt) :
  exists ev spki rd,
    extract_evidence_from_cert cert_der = Ok ev /\ extract_spki_from_cert cert_der = Ok spki /\
    verify (verifier c) ev
      (if bool_decide (tee_type ev = GcpConfidentialSpace)
       then (fun h => sha384 spki ++ take 16 h) <$> expected_config_hash c
       else expected_measurement c) = Ok rd /\
    take 48 rd = sha384 spki /\
    (forall h, expected_config_hash c = Some h -> take 16 (drop 48 rd) = take 16 h).
Proof.
  apply verify_server_cert_Ok in Hok as (ev & spki & rd & He & Hs & Hv & Hk & Hc); [|done].
  exists ev, spki, rd. split_and!; try done. revert Hv.
  unfold expected_attested_data, reportdata_layout.
  destruct (tee_type ev), (expected_config_hash c); repeat case_bool_decide; try done;
    match goal with H : ~ is_Some (Some _) |- _ => destruct H; eauto | H : is_Some None |- _ =>
      destruct H; done end.
Qed.

(** C16: A relay and a client with compatible settings connect, for every backend: a
    certificate a relay creates with an attester whose evidence the client's backend
    accepts (for Confidential Space without an expectation, for the others under the
    client's measurement) passes the client's check exactly when the client pins no
    configuration hash or one with the same first 16 bytes (with none pinned by the relay
    read as zeros). Otherwise the check fails: for Confidential Space because the verifier
    refuses the report data, for every other backend with the configuration mismatch, and
    with no other error. *)
Theorem attested_tls_complete {SC : Sha2Crate} {SL : Sha2Laws} {HX : HexCrate} {XC : X509Crate}
  {KP : Type} {RG : RcgenCrate KP} {XL : X509Laws KP} {RS : RustlsServer}
  {A V : Type} {AT : Attester A} {VF : Verifier V}
  (a : A) (c : AttestedCertVerifier V) (t : TeeType) (relay_hash : option bytes)
  (generated : option KP) (s : AttestedTlsServer)
  (Hpair : match t with
           | GcpConfidentialSpace => AttestsBound a (verifier c)
           | _ => AttestsFor a (verifier c) t (expected_measurement c)
           end)
  (Hr : hash_ok relay_hash) (Hc : hash_ok (expected_config_hash c))
  (Hs : AttestedTlsServer_new a relay_hash generated = Ok s) :
  let relay_part := match relay_hash with Some h => take 16 h | None => zeros 16 end in
  send_tls13_tickets s = 0 /\
  verify_server_cert c (server_cert_der s) =
  match expected_config_hash c with
  | None => Ok tt
  | Some h =>
      if bool_decide (take 16 h = relay_part) then Ok tt
      else match t with
           | GcpConfidentialSpace => Err (AttestationFailed ReportDataMismatch)
           | _ => Err (ConfigHashMismatch (hex_encode (take 16 h)) (hex_encode relay_part))
           end
  end.
Proof.
  cbv zeta. destruct (relay_certificate _ _ _ _ Hr Hs) as (kp & ev & Ht & Ha & He & Hk).
  split; [done|]. set (k := public_key_der kp) in *.
  pose proof (paired_verify a c t _ _ ev Hpair (layout_length k _ Hr) (layout_length k _ Hc) Ha) as Hv.
  unfold verify_server_cert. rewrite He, Hk. simp_out.
  rewrite client_server_reportdata, reportdata_is_layout by done. rewrite Hv.
  destruct (layout_parts k relay_hash Hr) as [K1 C1].
  destruct (layout_parts k (expected_config_hash c) Hc) as [K2 C2].
  destruct (expected_config_hash c) as [h|].
  - rewrite (bool_decide_ext _ _ (layout_eq k relay_hash h)).
    set (part := match relay_hash with Some h' => take 16 h' | None => zeros 16 end) in *.
    assert (Hh : bool_decide (is_Some (Some h)) = true) by (apply bool_decide_eq_true; eauto).
    destruct (decide (take 16 h = part)) as [Heq|Heq];
      [rewrite !(bool_decide_eq_true_2 (take 16 h = part)) by done
      |rewrite !(bool_decide_eq_false_2 (take 16 h = part)) by done];
      destruct t; simp_out; try done;
      rewrite K1, K2, C1, C2, (bool_decide_eq_true_2 (sha384 _ = sha384 _)), Hh by done; simp_out;
      cbn [andb]; rewrite negb_involutive;
      first [rewrite bool_decide_eq_true_2 by done|rewrite bool_decide_eq_false_2 by congruence]; done.
  - destruct t; simp_out;
      rewrite K1, K2, (bool_decide_eq_true_2 (sha384 _ = sha384 _)) by done; simp_out;
      by rewrite bool_decide_eq_false_2 by (intros [? ?]; discriminate).
Qed.

(** ** Witnesses with the mock backend *)

Definition rustls_ok : RustlsServer :=
  {| private_key_der_ok _ := true; with_single_cert _ _ := true |}.

Definition sample_mock_attester : Attester MockAttester :=
  MockAttester_attest (SC := Ref.sha2) (ED := RefMock.ed25519) (QJ := RefMock.json).
Definition sample_mock_verifier : Verifier MockVerifier :=
  MockVerifier_verify (ED := RefMock.ed25519) (QJ := RefMock.json) (HX := Ref.hex).

Definition sample_client (ch : option bytes) : AttestedCertVerifier MockVerifier :=
  attested_client_config mock_verifier (Some (mock_measurement (SC := Ref.sha2))) ch.

Definition sample_hash (b : byte) : bytes := replicate 32 b.

Lemma hex_enc_length x : length (Ref.hex_enc x) = (2 * length x)%nat.
Proof. induction x as [|b x IH]; [done|]. cbn [Ref.hex_enc length]. lia. Qed.

Lemma sample_small ud : length ud = 64%nat ->
  len (quote_to_vec (MockQuoteJson := RefMock.json)
    {| measurement := mock_measurement (SC := Ref.sha2); user_data := ud |}) < 2 ^ 32.
Proof.
  intros Hud. cbn [quote_to_vec RefMock.json]. unfold RefMock.to_vec.
  cbn [measurement user_data]. unfold len. rewrite !length_app, !hex_enc_length, Hud.
  unfold mock_measurement. rewrite (sha256_length (Sha2Laws := Ref.sha2_laws)). done.
Qed.

Lemma sample_pair :
  AttestsFor (H := sample_mock_attester) (H0 := sample_mock_verifier) mock_attester mock_verifier
    Mock (Some (mock_measurement (SC := Ref.sha2))).
Proof.
  apply (mock_attests_for (SC := Ref.sha2) (ED := RefMock.ed25519) (QJ := RefMock.json)
    (HX := Ref.hex) (EDL := RefMock.ed25519_laws) (QJL := RefMock.json_laws)); [|by right].
  apply sample_small.
Qed.

Lemma attested_tls_complete_witness :
  exists s, AttestedTlsServer_new (SC := Ref.sha2) (RG := RefX509.rcgen) (RS := rustls_ok)
      (AT := sample_mock_attester) mock_attester (Some (sample_hash "a"%byte)) (Some (lit "key"))
      = Ok s /\
    verify_server_cert (SC := Ref.sha2) (HX := Ref.hex) (XC := RefX509.x509)
      (VF := sample_mock_verifier) (sample_client (Some (sample_hash "a"%byte)))
      (server_cert_der s) = Ok tt.
Proof.
  destruct (is_ok_Ok (AttestedTlsServer_new (SC := Ref.sha2) (RG := RefX509.rcgen)
    (RS := rustls_ok) (AT := sample_mock_attester) mock_attester (Some (sample_hash "a"%byte))
    (Some (lit "key")))) as [s E]; [vm_compute; reflexivity|]. rewrite E.
  exists s. split; [reflexivity|].
  destruct (attested_tls_complete (SL := Ref.sha2_laws) (HX := Ref.hex) (XC := RefX509.x509)
    (XL := RefX509.laws) (RS := rustls_ok) (VF := sample_mock_verifier) mock_attester
    (sample_client (Some (sample_hash "a"%byte))) Mock
    (Some (sample_hash "a"%byte)) (Some (lit "key")) s sample_pair) as [_ Hv];
    [reflexivity|reflexivity|exact E|].
  rewrite Hv. reflexivity.
Defined.

Lemma attested_tls_sound_witness :
  exists s ev, AttestedTlsServer_new (SC := Ref.sha2) (RG := RefX509.rcgen) (RS := rustls_ok)
      (AT := sample_mock_attester) mock_attester None (Some (lit "key")) = Ok s /\
    extract_evidence_from_cert (XC := RefX509.x509) (server_cert_der s) = Ok ev.
Proof.
  destruct (is_ok_Ok (s ← map_err ExtractEvidenceFailed
      (AttestedTlsServer_new (SC := Ref.sha2) (RG := RefX509.rcgen) (RS := rustls_ok)
        (AT := sample_mock_attester) mock_attester None (Some (lit "key")));
    verify_server_cert (SC := Ref.sha2) (HX := Ref.hex) (XC := RefX509.x509)
      (VF := sample_mock_verifier) (sample_client None) (server_cert_der s)))
    as [u E]; [vm_compute; reflexivity|].
  apply bind_Ok in E as (s & Hs & Hv). apply map_err_Ok in Hs. destruct u.
  destruct (attested_tls_sound (SC := Ref.sha2) (SL := Ref.sha2_laws) (HX := Ref.hex)
    (XC := RefX509.x509) (VF := sample_mock_verifier) (sample_client None) (server_cert_der s))
    as (ev & _ & _ & Hev & _); [exact I|exact Hv|].
  exists s, ev. split; [exact Hs|exact Hev].
Defined.
