(* ===== verification/Handshake.v ===== *)
(** * The certificate verifiers as rustls calls them

    [ServerCertVerifier] of rustls is implemented three times: by the attested verifier
    of relay-tls, by the pinning verifier of the relay's upstream client, and by the
    capturing verifier of the online check. The first and the last verify handshake
    signatures with the ring provider, the second delegates. *)

From S2P Require Import Prelude RustStr BTree Extern Config Proxy Attest MockTee AttestedTls.

Local Open Scope N_scope.

Inductive SignatureScheme :=
  | ECDSA_NISTP256_SHA256
  | ECDSA_NISTP384_SHA384
  | ED25519
  | RSA_PSS_SHA256
  | RSA_PSS_SHA384
  | RSA_PSS_SHA512
  | RSA_PKCS1_SHA256
  | RSA_PKCS1_SHA384
  | RSA_PKCS1_SHA512
  | OtherScheme (code : N).
#[global] Instance SignatureScheme_eq_dec : EqDecision SignatureScheme.
Proof. solve_decision. Defined.

Record DigitallySignedStruct := {
  dss_scheme : SignatureScheme;
  dss_signature : bytes;
}.

(** [verify_tls12_signature] and [verify_tls13_signature] of rustls with the algorithms of
    ring, on the signed message and the certificate. *)
Class RingProvider := {
  crypto_verify_tls12 : bytes -> bytes -> DigitallySignedStruct -> bool;
  crypto_verify_tls13 : bytes -> bytes -> DigitallySignedStruct -> bool;
}.

(** The trait: the certificate for a server name, the handshake signatures, and the
    schemes that are offered to the server. *)
Record ServerCertVerifier := {
  scv_verify_server_cert : bytes -> bytes -> bool;
  scv_verify_tls12_signature : bytes -> bytes -> DigitallySignedStruct -> bool;
  scv_verify_tls13_signature : bytes -> bytes -> DigitallySignedStruct -> bool;
  scv_supported_verify_schemes : list SignatureScheme;
}.

Section verifiers.
Context {RP : RingProvider}.

Definition attested_verify_tls12_signature : bytes -> bytes -> DigitallySignedStruct -> bool :=
  crypto_verify_tls12.
Definition attested_verify_tls13_signature : bytes -> bytes -> DigitallySignedStruct -> bool :=
  crypto_verify_tls13.
Definition attested_supported_verify_schemes : list SignatureScheme :=
  [ECDSA_NISTP256_SHA256; ECDSA_NISTP384_SHA384; ED25519; RSA_PSS_SHA256; RSA_PSS_SHA384;
   RSA_PSS_SHA512; RSA_PKCS1_SHA256; RSA_PKCS1_SHA384; RSA_PKCS1_SHA512].

(** The server name plays no part. *)
Definition attested_cert_verifier {SC : Sha2Crate} {HX : HexCrate} {XC : X509Crate} {V : Type}
  {VF : Verifier V} (c : AttestedCertVerifier V) : ServerCertVerifier := {|
  scv_verify_server_cert end_entity _ := is_ok (AttestedTls.verify_server_cert c end_entity);
  scv_verify_tls12_signature := attested_verify_tls12_signature;
  scv_verify_tls13_signature := attested_verify_tls13_signature;
  scv_supported_verify_schemes := attested_supported_verify_schemes |}.

Definition capture_verify_server_cert (_ _ : bytes) : bool := true.
Definition capture_verify_tls12_signature : bytes -> bytes -> DigitallySignedStruct -> bool :=
  crypto_verify_tls12.
Definition capture_verify_tls13_signature : bytes -> bytes -> DigitallySignedStruct -> bool :=
  crypto_verify_tls13.
Definition capture_supported_verify_schemes : list SignatureScheme :=
  [ECDSA_NISTP256_SHA256; ECDSA_NISTP384_SHA384; ED25519; RSA_PSS_SHA256; RSA_PSS_SHA384;
   RSA_PSS_SHA512; RSA_PKCS1_SHA256; RSA_PKCS1_SHA384; RSA_PKCS1_SHA512].
Definition capture_only_verifier : ServerCertVerifier := {|
  scv_verify_server_cert := capture_verify_server_cert;
  scv_verify_tls12_signature := capture_verify_tls12_signature;
  scv_verify_tls13_signature := capture_verify_tls13_signature;
  scv_supported_verify_schemes := capture_supported_verify_schemes |}.
End verifiers.

(** The pinning verifier around the WebPKI verifier. *)
Definition pinned_verify_tls12_signature (delegate : ServerCertVerifier) :=
  scv_verify_tls12_signature delegate.
Definition pinned_verify_tls13_signature (delegate : ServerCertVerifier) :=
  scv_verify_tls13_signature delegate.
Definition pinned_supported_verify_schemes (delegate : ServerCertVerifier) :=
  scv_supported_verify_schemes delegate.
Definition pinned_server_cert_verifier {SC : Sha2Crate} {HX : HexCrate} (delegate : ServerCertVerifier)
  (v : PinnedServerCertVerifier) : ServerCertVerifier := {|
  scv_verify_server_cert end_entity server_name :=
    is_ok (Proxy.verify_server_cert v (scv_verify_server_cert delegate) end_entity server_name);
  scv_verify_tls12_signature := pinned_verify_tls12_signature delegate;
  scv_verify_tls13_signature := pinned_verify_tls13_signature delegate;
  scv_supported_verify_schemes := pinned_supported_verify_schemes delegate |}.

(** ** What rustls asks of a verifier *)

Inductive TlsVersion := Tls12 | Tls13.

(** A client handshake completes only if the verifier accepts the server's certificate
    and its signature over the handshake, made with a scheme that was offered. *)
Record Handshake := {
  hs_version : TlsVersion;
  hs_server_name : bytes;
  hs_certificate : bytes;
  hs_message : bytes;
  hs_signed : DigitallySignedStruct;
}.
Definition handshake_passes (v : ServerCertVerifier) (h : Handshake) : bool :=
  scv_verify_server_cert v (hs_certificate h) (hs_server_name h)
  && bool_decide (dss_scheme (hs_signed h) ∈ scv_supported_verify_schemes v)
  && match hs_version h with
     | Tls12 => scv_verify_tls12_signature v (hs_message h) (hs_certificate h) (hs_signed h)
     | Tls13 => scv_verify_tls13_signature v (hs_message h) (hs_certificate h) (hs_signed h)
     end.

(** What rustls documents: both functions verify the signature with the public key of
    the certificate. [signed_by] is ring's verification for a key. *)
Class RingLaws {RP : RingProvider} {XC : X509Crate}
  (signed_by : bytes -> SignatureScheme -> bytes -> bytes -> bool) : Prop := {
  ring_tls12 m cert dss : crypto_verify_tls12 m cert dss = true ->
    exists spki, extract_spki_from_cert cert = Ok spki /\ signed_by spki (dss_scheme dss) m (dss_signature dss) = true;
  ring_tls13 m cert dss : crypto_verify_tls13 m cert dss = true ->
    exists spki, extract_spki_from_cert cert = Ok spki /\ signed_by spki (dss_scheme dss) m (dss_signature dss) = true;
}.

(** ** Properties *)

(** C4: The attested channel ends where the attestation says: whenever a handshake of an
    attested client completes, in either TLS version, the server signed this very
    handshake with the key whose SHA-384 the verified evidence starts with, and with a
    pinned configuration hash the evidence continues with its first half; a copied
    certificate alone is never enough. The online check's capturing connection differs
    in nothing but the certificate check, so fetching and checking afterwards decides as
    the handshake does. *)
Theorem attested_channel {SC : Sha2Crate} {SL : Sha2Laws} {HX : HexCrate} {XC : X509Crate} {RP : RingProvider}
  (signed_by : bytes -> SignatureScheme -> bytes -> bytes -> bool) {RL : RingLaws signed_by}
  {V : Type} {VF : Verifier V} (c : AttestedCertVerifier V) (h : Handshake)
  (Hch : hash_ok (expected_config_hash c)) :
  handshake_passes (attested_cert_verifier c) h =
    handshake_passes capture_only_verifier h && is_ok (AttestedTls.verify_server_cert c (hs_certificate h)) /\
  (handshake_passes (attested_cert_verifier c) h = true ->
   exists ev spki rd, extract_evidence_from_cert (hs_certificate h) = Ok ev /\
     extract_spki_from_cert (hs_certificate h) = Ok spki /\
     (exists m, verify (verifier c) ev m = Ok rd) /\ take 48 rd = sha384 spki /\
     (forall ch, expected_config_hash c = Some ch -> take 16 (drop 48 rd) = take 16 ch) /\
     signed_by spki (dss_scheme (hs_signed h)) (hs_message h) (dss_signature (hs_signed h)) = true /\
     dss_scheme (hs_signed h) ∈ attested_supported_verify_schemes).
Proof.
  split.
  - unfold handshake_passes. cbn [attested_cert_verifier capture_only_verifier scv_verify_server_cert
      scv_supported_verify_schemes scv_verify_tls12_signature scv_verify_tls13_signature].
    unfold capture_verify_server_cert. cbn [andb].
    by rewrite <-andb_assoc, (andb_comm (is_ok _)).
  - unfold handshake_passes. rewrite !andb_true_iff, bool_decide_eq_true.
    cbn [attested_cert_verifier scv_verify_server_cert scv_supported_verify_schemes
      scv_verify_tls12_signature scv_verify_tls13_signature]. intros [[Hc Hs] Hsig].
    destruct (AttestedTls.verify_server_cert c (hs_certificate h)) as [[]|e|] eqn:E; try done.
    apply verify_server_cert_Ok in E as (ev & spki & rd & He & Hk & Hv & Hkey & Hcfg); [|done].
    assert (Hring : exists k, extract_spki_from_cert (hs_certificate h) = Ok k /\
      signed_by k (dss_scheme (hs_signed h)) (hs_message h) (dss_signature (hs_signed h)) = true).
    { destruct (hs_version h); [by apply ring_tls12|by apply ring_tls13]. }
    destruct Hring as (k & Hk' & Hsigned). assert (k = spki) as -> by congruence.
    exists ev, spki, rd. split_and!; eauto.
Qed.

(** Pins only narrow what the WebPKI verifier lets through. *)
Lemma pinned_narrows {SC : Sha2Crate} {HX : HexCrate} (delegate : ServerCertVerifier)
  (v : PinnedServerCertVerifier) (h : Handshake) :
  handshake_passes (pinned_server_cert_verifier delegate v) h =
  handshake_passes delegate h &&
  match bt_get (to_ascii_lowercase (hs_server_name h)) (pins_by_host v) with
  | Some expected_pins =>
      existsb (fun p => bool_decide (p = leaf_sha256_pin (hs_certificate h))) expected_pins
  | None => true
  end.
Proof.
  unfold handshake_passes. cbn [pinned_server_cert_verifier scv_verify_server_cert
    scv_supported_verify_schemes scv_verify_tls12_signature scv_verify_tls13_signature].
  unfold Proxy.verify_server_cert, ensure.
  destruct (scv_verify_server_cert delegate (hs_certificate h) (hs_server_name h)); [|done]. simp_out.
  destruct (bt_get _ _) as [pins|]; [|by rewrite andb_true_r].
  destruct (existsb _ pins); cbn [is_ok andb]; [by rewrite andb_true_r|by rewrite andb_false_r].
Qed.

(** ** Witness *)

Module RefRing.
(** A signature is the key followed by the message. *)
Definition signed_by (key : bytes) (_ : SignatureScheme) (m sig : bytes) : bool :=
  bool_decide (sig = key ++ m).
Definition check (m cert : bytes) (dss : DigitallySignedStruct) : bool :=
  match extract_spki_from_cert (XC := RefX509.x509) cert with
  | Ok key => signed_by key (dss_scheme dss) m (dss_signature dss)
  | _ => false
  end.
#[export] Instance provider : RingProvider := {| crypto_verify_tls12 := check; crypto_verify_tls13 := check |}.
#[export] Instance laws : RingLaws (XC := RefX509.x509) signed_by.
Proof.
  split; intros m cert dss; cbn [crypto_verify_tls12 crypto_verify_tls13 provider]; unfold check;
    (destruct (extract_spki_from_cert cert) as [key|e|] eqn:E; intros H; [by exists key|discriminate H..]).
Qed.
End RefRing.

Lemma attested_channel_witness :
  exists s ev, AttestedTlsServer_new (SC := Ref.sha2) (RG := RefX509.rcgen) (RS := rustls_ok)
      (AT := sample_mock_attester) mock_attester None (Some (lit "key")) = Ok s /\
    extract_evidence_from_cert (XC := RefX509.x509) (server_cert_der s) = Ok ev /\
    RefRing.signed_by (lit "key") ED25519 (lit "transcript") (lit "keytranscript") = true.
Proof.
  destruct (is_ok_Ok (AttestedTlsServer_new (SC := Ref.sha2) (RG := RefX509.rcgen) (RS := rustls_ok)
    (AT := sample_mock_attester) mock_attester None (Some (lit "key")))) as [s E]; [vm_compute; reflexivity|].
  destruct (attested_channel (SC := Ref.sha2) (SL := Ref.sha2_laws) (HX := Ref.hex) (XC := RefX509.x509)
    (RP := RefRing.provider) RefRing.signed_by (RL := RefRing.laws) (VF := sample_mock_verifier)
    (sample_client None)
    {| hs_version := Tls13; hs_server_name := lit "relay"; hs_certificate := server_cert_der s;
       hs_message := lit "transcript";
       hs_signed := {| dss_scheme := ED25519; dss_signature := lit "keytranscript" |} |} I) as [_ H].
  destruct H as (ev & spki & rd & He & Hs & _ & _ & _ & Hsig & _).
  - vm_compute in E. injection E as <-. vm_compute. reflexivity.
  - exists s, ev. split; [exact E|]. split; [exact He|].
    assert (spki = lit "key") as -> by (vm_compute in E; injection E as <-; vm_compute in Hs; by injection Hs as <-).
    exact Hsig.
Defined.
