(* ===== verification/SnpReport.v ===== *)
(** * SEV-SNP reports

    The parts of [crates/relay-attest/src/sev_snp.rs] that work on bytes: the
    report layout, the signing key selector, GUIDs, the certificate table, AMD's
    signature encoding, KDS addresses, and the attester, whose ioctls are the
    device's. *)

From S2P Require Import Prelude RustStr Extern Attest.

Local Open Scope N_scope.

Definition SNP_REPORT_SIZE : N := 0x4A0.
Definition REPORT_DATA_OFFSET : N := 0x50.
Definition REPORT_DATA_LEN : N := 64.
Definition MEASUREMENT_OFFSET : N := 0x90.
Definition MEASUREMENT_LEN : N := 48.
Definition GUEST_SVN_OFFSET : N := 0x04.
Definition POLICY_OFFSET : N := 0x08.
Definition SIGNING_KEY_OFFSET : N := 0x48.
Definition SIGNATURE_OFFSET : N := 0x2A0.
Definition SIGNATURE_LEN : N := 512.
Definition ECDSA_P384_SCALAR_LEN : N := 48.
Definition ECDSA_P384_AMD_SCALAR_LEN : N := 72.
Definition SIGNED_DATA_LEN : N := SIGNATURE_OFFSET.
Definition CHIP_ID_OFFSET : N := 0x1A0.
Definition CHIP_ID_LEN : N := 64.
Definition REPORTED_TCB_OFFSET : N := 0x180.
Definition POLICY_DEBUG_ALLOWED_BIT : N := N.shiftl 1 19.
Definition SNP_CERT_BLOB_SIZE : N := 16 * 1024.
Definition SNP_CERT_TABLE_ENTRY_SIZE : nat := 24.
Definition SNP_SIGNING_KEY_VCEK : N := 0.
Definition SNP_SIGNING_KEY_VLEK : N := 1.

(** ** Fields *)

Definition too_short (msg : bytes) : AttestError := VerificationFailed msg.

Definition read_le (width : N) (msg : bytes) (report : bytes) (offset : N) : attest_result N :=
  b ← ok_or (slice_get report offset (offset + width)) (too_short msg);
  Ok (le_to_N b).
Definition read_le_u32 := read_le 4 (lit "report too short for u32").
Definition read_le_u64 := read_le 8 (lit "report too short for u64").

Definition report_bytes (d : bytes) : attest_result bytes :=
  ok_or (slice_get d 0 SNP_REPORT_SIZE) (too_short (lit "report too short")).

Definition cert_blob_bytes (d : bytes) : option bytes :=
  match slice_get d SNP_REPORT_SIZE (len d) with
  | Some [] | None => None
  | Some certs => Some certs
  end.

Definition signing_key (report : bytes) : attest_result N :=
  b ← ok_or (slice_get report SIGNING_KEY_OFFSET (SIGNING_KEY_OFFSET + 4))
    (too_short (lit "report too short for signing key flags"));
  let flags := le_to_N b in
  _ ← ensure (N.shiftr flags 5 =? 0)
    (VerificationFailed (lit "SEV-SNP signer info has non-zero reserved bits"));
  let key := N.land (N.shiftr flags 2) 7 in
  _ ← ensure (negb ((SNP_SIGNING_KEY_VLEK <? key) && negb (key =? 7)))
    (VerificationFailed (lit "reserved SEV-SNP signing key selector: " ++ dec key));
  _ ← ensure (negb (key =? 7)) (VerificationFailed (lit "SEV-SNP report is marked unsigned"));
  Ok key.

Definition signing_key_name (key : N) : bytes :=
  if key =? SNP_SIGNING_KEY_VCEK then lit "VCEK"
  else if key =? SNP_SIGNING_KEY_VLEK then lit "VLEK"
  else if key =? 7 then lit "None" else lit "unknown".

(** ** GUIDs *)

Definition hex_nibble (c : byte) : N :=
  if in_range 48 57 c then b2n c - 48
  else if in_range 97 102 c then b2n c - 97 + 10
  else if in_range 65 70 c then b2n c - 65 + 10
  else 0.

Definition hex_pair (hi lo : byte) : byte :=
  n2b (N.lor (N.shiftl (hex_nibble hi) 4) (hex_nibble lo)).

(** Evaluated at compile time on literals of 36 bytes. *)
Definition guid_bytes (text : bytes) : bytes :=
  map (fun i : nat * nat => hex_pair (nth i.1 text (n2b 0)) (nth i.2 text (n2b 0)))
    [(6, 7); (4, 5); (2, 3); (0, 1); (11, 12); (9, 10); (16, 17); (14, 15); (19, 20); (21, 22);
     (24, 25); (26, 27); (28, 29); (30, 31); (32, 33); (34, 35)]%nat.

Definition GUID_VCEK : bytes := guid_bytes (lit "63da758d-e664-4564-adc5-f4b93be8accd").
Definition GUID_VLEK : bytes := guid_bytes (lit "a8074bc2-a25a-483e-aae6-39c045a0b8a1").

Example GUID_VCEK_bytes : map b2n GUID_VCEK =
  [0x8d; 0x75; 0xda; 0x63; 0x64; 0xe6; 0x64; 0x45; 0xad; 0xc5; 0xf4; 0xb9; 0x3b; 0xe8; 0xac; 0xcd].
Proof. reflexivity. Qed.
Example GUID_VLEK_bytes : map b2n GUID_VLEK =
  [0xc2; 0x4b; 0x07; 0xa8; 0x5a; 0xa2; 0x3e; 0x48; 0xaa; 0xe6; 0x39; 0xc0; 0x45; 0xa0; 0xb8; 0xa1].
Proof. reflexivity. Qed.

(** ** The certificate table *)

Definition all_zero (l : bytes) : bool := forallb (fun b => b2n b =? 0) l.

Definition entry_guid (entry : bytes) : bytes := take 16 entry.
Definition entry_offset (entry : bytes) : N := le_to_N (take 4 (drop 16 entry)).
Definition entry_length (entry : bytes) : N := le_to_N (take 4 (drop 20 entry)).

(** The loop of [cert_blob_used_len]; the result is [(used, header_end)]. *)
Fixpoint used_len_loop (total : N) (entries : list bytes) (used header_end : N) : N * N :=
  match entries with
  | [] => (used, header_end)
  | entry :: rest =>
      let header_end := header_end + 24 in
      if all_zero entry then (used, header_end)
      else
        let used := match checked_add (entry_offset entry) (entry_length entry) with
                    | Some e => N.max used (N.min e total)
                    | None => used
                    end in
        used_len_loop total rest used header_end
  end.

Definition cert_blob_used_len (certs : bytes) : N :=
  let '(used, header_end) :=
    used_len_loop (len certs) (chunks_exact SNP_CERT_TABLE_ENTRY_SIZE certs) 0 0 in
  if used =? 0 then 0 else N.max used header_end.

(** The first loop of [find_cert]; [None] is its early return. *)
Fixpoint find_matches (guid : bytes) (entries : list bytes) (header_end : N)
  (matches : list (N * N)) : option (N * list (N * N)) :=
  match entries with
  | [] => Some (header_end, matches)
  | entry :: rest =>
      let header_end := header_end + 24 in
      if all_zero entry then Some (header_end, matches)
      else if negb (bool_decide (entry_guid entry = guid))
      then find_matches guid rest header_end matches
      else
        e ← checked_add (entry_offset entry) (entry_length entry);
        find_matches guid rest header_end (matches ++ [(entry_offset entry, e)])
  end.

Fixpoint first_in_bounds (certs : bytes) (header_end : N) (matches : list (N * N))
  : option bytes :=
  match matches with
  | [] => None
  | (offset, e) :: rest =>
      if (offset <? header_end) || (len certs <? e) then first_in_bounds certs header_end rest
      else match slice_get certs offset e with
           | Some cert => Some cert
           | None => first_in_bounds certs header_end rest
           end
  end.

Definition find_cert (certs guid : bytes) : option bytes :=
  '(header_end, matches) ← find_matches guid (chunks_exact SNP_CERT_TABLE_ENTRY_SIZE certs) 0 [];
  first_in_bounds certs header_end matches.

(** ** Addresses of the key distribution service *)

Definition vcek_url {HX : HexCrate} (product_name chip_id : bytes) (reported_tcb : N) : bytes :=
  let boot_loader := N.land reported_tcb 0xFF in
  let tee := N.land (N.shiftr reported_tcb 8) 0xFF in
  let snp := N.land (N.shiftr reported_tcb 48) 0xFF in
  let microcode := N.land (N.shiftr reported_tcb 56) 0xFF in
  lit "https://kdsintf.amd.com/vcek/v1/" ++ product_name ++ lit "/" ++ hex_encode chip_id
  ++ lit "?blSPL=" ++ dec boot_loader ++ lit "&teeSPL=" ++ dec tee ++ lit "&snpSPL=" ++ dec snp
  ++ lit "&ucodeSPL=" ++ dec microcode.

Definition cert_chain_url (endorser product_name : bytes) : bytes :=
  lit "https://kdsintf.amd.com/" ++ endorser ++ lit "/v1/" ++ product_name ++ lit "/cert_chain".

Definition candidate_product_names : list bytes := [lit "Milan"; lit "Genoa"; lit "Turin"].

(** ** The attester *)

(** [/dev/sev-guest]: whether it opens, and what the two ioctls return for the
    user data: the 4000-byte response, with the certificate buffer for the extended
    report; [None] is a failing ioctl. *)
Class SevGuest := {
  sev_guest_open : bool;
  snp_get_report : bytes -> option bytes;
  snp_get_ext_report : bytes -> option (bytes * bytes);
}.

Section attester.
Context {DEV : SevGuest}.

Definition open_device : attest_result unit :=
  ensure sev_guest_open (GenerationFailed (lit "open /dev/sev-guest")).

Definition attest_linux_report_only (user_data : bytes) : attest_result Evidence :=
  _ ← open_device;
  resp ← ok_or (snp_get_report user_data) (GenerationFailed (lit "SNP_GET_REPORT ioctl failed"));
  report ← slice_idx resp 32 (32 + SNP_REPORT_SIZE);
  Ok {| tee_type := SevSnp; data := report |}.

Definition attest_linux_ext (user_data : bytes) : attest_result Evidence :=
  _ ← open_device;
  '(resp, certs) ← ok_or (snp_get_ext_report user_data)
    (GenerationFailed (lit "SNP_GET_EXT_REPORT ioctl failed"));
  st ← slice_idx resp 0 4;
  sz ← slice_idx resp 4 8;
  _ ← ensure (le_to_N st =? 0) (GenerationFailed (lit "SNP_GET_EXT_REPORT firmware status"));
  _ ← ensure (negb ((le_to_N sz <? SNP_REPORT_SIZE) || (len resp <? 32 + SNP_REPORT_SIZE)))
    (GenerationFailed (lit "SNP_GET_EXT_REPORT returned invalid report size: "
       ++ dec (le_to_N sz)));
  report ← slice_idx resp 32 (32 + SNP_REPORT_SIZE);
  used ← slice_idx certs 0 (cert_blob_used_len certs);
  Ok {| tee_type := SevSnp; data := report ++ used |}.

Definition attest_linux (user_data : bytes) : attest_result Evidence :=
  match attest_linux_ext user_data with
  | Ok evidence => Ok evidence
  | Err _ => attest_linux_report_only user_data
  | Panic => Panic
  end.
End attester.

Inductive SevSnpAttester := sev_snp_attester.
#[global] Instance SevSnpAttester_attest {DEV : SevGuest} : Attester SevSnpAttester :=
  fun _ user_data => attest_linux user_data.

(** ** A reference for the table *)

(** The entries before the terminator and the length of the header with it. *)
Fixpoint scan (entries : list bytes) : list bytes * N :=
  match entries with
  | [] => ([], 0)
  | e :: r => if all_zero e then ([], 24) else (e :: (scan r).1, 24 + (scan r).2)
  end.
Definition table (certs : bytes) : list bytes * N :=
  scan (chunks_exact SNP_CERT_TABLE_ENTRY_SIZE certs).

Definition entry_end (entry : bytes) : N := entry_offset entry + entry_length entry.

(** The bytes an entry points to, if they lie after the header and inside the blob. *)
Definition entry_cert (certs : bytes) (entry : bytes) : option bytes :=
  if entry_offset entry <? (table certs).2 then None
  else slice_get certs (entry_offset entry) (entry_end entry).

(** The first well-placed certificate among the entries with the GUID. *)
Definition find_cert_reference (certs guid : bytes) : option bytes :=
  head (omap (entry_cert certs) (filter (fun e => entry_guid e = guid) (table certs).1)).

(** ** Facts *)

Lemma le_to_N_take4 l : le_to_N (take 4 l) < 2 ^ 32.
Proof.
  eapply N.lt_le_trans; [apply le_to_N_lt|]. change (2 ^ 32) with (256 ^ 4).
  apply N.pow_le_mono_r; [done|]. unfold len. rewrite length_take. lia.
Qed.

Lemma entry_checked_add e :
  checked_add (entry_offset e) (entry_length e) = Some (entry_end e).
Proof.
  apply checked_add_Some. split; [done|].
  pose proof (le_to_N_take4 (drop 16 e)). pose proof (le_to_N_take4 (drop 20 e)).
  unfold entry_offset, entry_length, usize_max. lia.
Qed.

Definition max_end (total : N) (es : list bytes) (u : N) : N :=
  fold_left (fun acc e => N.max acc (N.min (entry_end e) total)) es u.

Lemma used_len_loop_scan total es u h :
  used_len_loop total es u h = (max_end total (scan es).1 u, h + (scan es).2).
Proof.
  revert u h. induction es as [|e es IH]; intros u h; cbn [used_len_loop scan].
  - by rewrite N.add_0_r.
  - destruct (all_zero e); [done|]. rewrite entry_checked_add, IH. cbn [fst snd].
    f_equal. lia.
Qed.

Lemma find_matches_scan guid es h ms :
  find_matches guid es h ms =
  Some (h + (scan es).2,
        ms ++ map (fun e => (entry_offset e, entry_end e))
                (filter (fun e => entry_guid e = guid) (scan es).1)).
Proof.
  revert h ms. induction es as [|e es IH]; intros h ms; cbn [find_matches scan fst snd].
  - by rewrite N.add_0_r, filter_nil, app_nil_r.
  - destruct (all_zero e); cbn [fst snd]; [by rewrite filter_nil, app_nil_r|].
    rewrite filter_cons. case_bool_decide as Hg; cbn [negb].
    + rewrite entry_checked_add. cbn [mbind option_bind]. rewrite IH, decide_True by done.
      cbn [map]. rewrite <-app_assoc. do 2 f_equal. lia.
    + rewrite IH, decide_False by done. do 2 f_equal. lia.
Qed.

Lemma first_in_bounds_omap certs h ms :
  first_in_bounds certs h ms =
  head (omap (fun m => if m.1 <? h then None else slice_get certs m.1 m.2) ms).
Proof.
  induction ms as [|[o e] ms IH]; [done|]. cbn [first_in_bounds omap list_omap fst snd].
  destruct (N.ltb_spec o h) as [|Ho]; cbn [orb]; [done|].
  destruct (N.ltb_spec (len certs) e) as [He|He].
  - rewrite (proj2 (slice_get_None certs o e)) by lia. done.
  - by destruct (slice_get certs o e).
Qed.

Lemma find_cert_is_reference certs guid : find_cert certs guid = find_cert_reference certs guid.
Proof.
  unfold find_cert, find_cert_reference. rewrite find_matches_scan. cbn [mbind option_bind app].
  rewrite first_in_bounds_omap, N.add_0_l. f_equal. unfold entry_cert, table.
  generalize (scan (chunks_exact SNP_CERT_TABLE_ENTRY_SIZE certs)) as t. intros [es h].
  cbn [fst snd]. generalize (filter (fun e => entry_guid e = guid) es) as l.
  induction l as [|e l IH]; [done|]. cbn [map omap list_omap fst snd].
  destruct (entry_offset e <? h); [done|].
  destruct (slice_get certs (entry_offset e) (entry_end e)); [by f_equal|done].
Qed.

(** *** Trimming *)

Lemma scan_le k l : (scan (chunks_exact_fuel k 24 l)).2 <= len l.
Proof.
  revert l. induction k as [|k IH]; intros l; cbn [chunks_exact_fuel scan snd]; [lia|].
  destruct (Nat.leb_spec 24 (length l)) as [H|H]; cbn [scan snd]; [|lia].
  destruct (all_zero _); cbn [snd]; [unfold len; lia|].
  specialize (IH (drop 24 l)). unfold len in *. rewrite length_drop in IH. lia.
Qed.

Lemma scan_take k k' l u :
  (length l <= k)%nat -> (length (take u l) <= k')%nat ->
  (scan (chunks_exact_fuel k 24 l)).2 <= N.of_nat u ->
  scan (chunks_exact_fuel k' 24 (take u l)) = scan (chunks_exact_fuel k 24 l).
Proof.
  revert k' l u. induction k as [|k IH]; intros k' l u Hk Hk' Hs.
  - destruct l; [|simpl in Hk; lia]. rewrite take_nil. by destruct k'.
  - cbn [chunks_exact_fuel] in Hs |- *. destruct (Nat.leb_spec 24 (length l)) as [Hl|Hl].
    + cbn [scan] in Hs.
      assert (Hu : (24 <= u)%nat) by (destruct (all_zero (take 24 l)); cbn [snd] in Hs; lia).
      rewrite length_take in Hk'. destruct k' as [|k']; [lia|]. cbn [chunks_exact_fuel].
      rewrite length_take. destruct (Nat.leb_spec 24 (Nat.min u (length l))); [|lia].
      rewrite take_take, Nat.min_l by lia. cbn [scan].
      destruct (all_zero (take 24 l)); [done|]. cbn [snd] in Hs.
      rewrite skipn_firstn_comm, IH; [done|rewrite length_drop; lia| |lia].
      rewrite length_take, length_drop. lia.
    + destruct k' as [|k']; [done|]. cbn [chunks_exact_fuel]. rewrite length_take.
      by destruct (Nat.leb_spec 24 (Nat.min u (length l))); [lia|].
Qed.

Lemma max_end_ge total es u e :
  e ∈ es -> N.min (entry_end e) total <= max_end total es u /\ u <= max_end total es u.
Proof.
  revert u. induction es as [|e' es IH]; intros u Hin; [by apply elem_of_nil in Hin|].
  assert (Hmono : forall l v, v <= max_end total l v).
  { induction l as [|x l IHl]; intros v; cbn [max_end fold_left]; [lia|].
    etrans; [|apply IHl]. lia. }
  unfold max_end. cbn [fold_left]. fold (max_end total es (N.max u (N.min (entry_end e') total))).
  apply elem_of_cons in Hin as [->|Hin].
  - pose proof (Hmono es (N.max u (N.min (entry_end e') total))). lia.
  - destruct (IH (N.max u (N.min (entry_end e') total)) Hin). lia.
Qed.

Lemma max_end_le total es u : u <= total -> max_end total es u <= total.
Proof.
  revert u. induction es as [|e es IH]; intros u Hu; cbn [max_end fold_left]; [done|].
  apply IH. lia.
Qed.

Lemma cert_blob_used_len_eq certs :
  cert_blob_used_len certs =
  let u := max_end (len certs) (table certs).1 0 in
  if u =? 0 then 0 else N.max u (table certs).2.
Proof.
  unfold cert_blob_used_len, table. rewrite used_len_loop_scan. by rewrite N.add_0_l.
Qed.

Lemma cert_blob_used_len_le certs : cert_blob_used_len certs <= len certs.
Proof.
  rewrite cert_blob_used_len_eq. cbv zeta.
  pose proof (max_end_le (len certs) (table certs).1 0 ltac:(lia)).
  pose proof (scan_le (length certs) certs). unfold table, chunks_exact, SNP_CERT_TABLE_ENTRY_SIZE in *.
  destruct (_ =? 0); lia.
Qed.

Lemma head_omap_none {A B} (f : A -> option B) (l : list A) :
  (forall x, x ∈ l -> f x = None) -> head (omap f l) = None.
Proof.
  induction l as [|x l IH]; intros H; [done|]. cbn [omap list_omap].
  rewrite (H x) by left. apply IH. intros y Hy. apply H. by right.
Qed.

Lemma omap_ext_in {A B} (f g : A -> option B) (l : list A) :
  (forall x, x ∈ l -> f x = g x) -> omap f l = omap g l.
Proof.
  induction l as [|x l IH]; intros H; [done|]. cbn [omap list_omap].
  rewrite (H x) by left. rewrite IH; [done|]. intros y Hy. apply H. by right.
Qed.

Lemma scan_header_pos k l e : e ∈ (scan (chunks_exact_fuel k 24 l)).1 ->
  24 <= (scan (chunks_exact_fuel k 24 l)).2.
Proof.
  destruct k as [|k]; cbn [chunks_exact_fuel scan fst snd]; [intros H; by apply elem_of_nil in H|].
  destruct (24 <=? length l)%nat; cbn [scan]; [|intros H; by apply elem_of_nil in H].
  destruct (all_zero _); cbn [fst snd]; [intros H; by apply elem_of_nil in H|lia].
Qed.

(** ** Properties *)

(** C37: The two passes of [find_cert] compute the reference: the first entry before the
    terminator that has the GUID and whose range lies after the table and inside the
    blob; its early return is never taken, and a certificate found is that range. *)
Theorem find_cert_spec (certs guid : bytes) :
  find_cert certs guid = find_cert_reference certs guid /\
  forall c, find_cert certs guid = Some c ->
    exists e, e ∈ (table certs).1 /\ entry_guid e = guid /\ (table certs).2 <= entry_offset e /\
      entry_end e <= len certs /\ slice_get certs (entry_offset e) (entry_end e) = Some c.
Proof.
  split; [apply find_cert_is_reference|]. intros c. rewrite find_cert_is_reference.
  unfold find_cert_reference. intros Hh. apply head_Some_elem_of in Hh.
  apply list_elem_of_omap in Hh as (e & He & Hc). apply list_elem_of_filter in He as [Hg He].
  unfold entry_cert in Hc. destruct (N.ltb_spec (entry_offset e) (table certs).2); [done|].
  exists e. split_and!; try done. by apply slice_get_Some in Hc as [[_ ?] _].
Qed.

Lemma trimming_preserves_find_cert (certs guid : bytes) :
  cert_blob_used_len certs <= len certs /\
  find_cert (take (N.to_nat (cert_blob_used_len certs)) certs) guid = find_cert certs guid.
Proof.
  split; [apply cert_blob_used_len_le|]. rewrite !find_cert_is_reference.
  pose proof (cert_blob_used_len_le certs) as Hle. rewrite cert_blob_used_len_eq in *.
  cbv zeta in *. destruct (N.eqb_spec (max_end (len certs) (table certs).1 0) 0) as [H0|H0].
  - unfold find_cert_reference. symmetry. rewrite take_0. change (table []) with ([] : list bytes, 0).
    cbn [fst]. rewrite filter_nil. apply head_omap_none. intros e [_ He]%list_elem_of_filter.
    unfold entry_cert. destruct (N.ltb_spec (entry_offset e) (table certs).2) as [|Ho]; [done|].
    destruct (max_end_ge (len certs) (table certs).1 0 e He) as [Hm _]. rewrite H0 in Hm.
    pose proof (scan_header_pos _ _ _ He). pose proof (scan_le (length certs) certs).
    unfold table, chunks_exact, SNP_CERT_TABLE_ENTRY_SIZE, entry_end in *. lia.
  - set (u := N.max _ _) in *.
    assert (Ht : table (take (N.to_nat u) certs) = table certs).
    { unfold table, chunks_exact, SNP_CERT_TABLE_ENTRY_SIZE. apply scan_take; [done|done|].
      unfold table, chunks_exact, SNP_CERT_TABLE_ENTRY_SIZE in u. lia. }
    unfold find_cert_reference. rewrite Ht. f_equal. apply omap_ext_in.
    intros e [_ He]%list_elem_of_filter. unfold entry_cert. rewrite Ht.
    destruct (entry_offset e <? (table certs).2); [done|].
    destruct (max_end_ge (len certs) (table certs).1 0 e He) as [Hm _].
    destruct (N.le_gt_cases (entry_end e) u) as [Hu|Hu].
    + by apply slice_get_take.
    + rewrite (proj2 (slice_get_None certs _ _)) by lia. apply slice_get_None. right.
      unfold len. rewrite length_take. unfold len in *. lia.
Qed.

(** Evidence of the extended request is complete: on a device that fills its 4000-byte
    response and certificate buffer, the attester does not panic, the verifier splits the
    evidence back into the firmware's report, and although the certificate buffer is cut
    to its used length, the verifier finds for every GUID the certificate it would find
    in the whole buffer. *)
Theorem ext_evidence_complete {DEV : SevGuest} (user_data resp certs : bytes)
  (Hdev : snp_get_ext_report user_data = Some (resp, certs)) (Hlen : len resp = 4000) :
  match attest_linux_ext user_data with
  | Ok ev =>
      tee_type ev = SevSnp /\
      (exists report, slice_get resp 32 (32 + SNP_REPORT_SIZE) = Some report /\
         report_bytes (data ev) = Ok report) /\
      forall guid, (c ← cert_blob_bytes (data ev); find_cert c guid) = find_cert certs guid
  | Err _ => True
  | Panic => False
  end.
Proof.
  unfold attest_linux_ext, open_device. destruct sev_guest_open; simp_out; [|done].
  rewrite Hdev. simp_out.
  destruct (slice_idx_total (E:=AttestError) resp 0 4) as (st & -> & _); [lia..|].
  destruct (slice_idx_total (E:=AttestError) resp 4 8) as (sz & -> & _); [lia..|]. simp_out.
  destruct (le_to_N st =? 0); simp_out; [|done]. destruct (negb _); simp_out; [|done].
  destruct (slice_get_is_Some resp 32 (32 + SNP_REPORT_SIZE)) as [report Hr];
    [unfold SNP_REPORT_SIZE; lia..|].
  rewrite (proj2 (slice_idx_Ok (E:=AttestError) _ _ _ _) Hr). simp_out.
  destruct (trimming_preserves_find_cert certs []) as [Hle _].
  assert (Hu : slice_get certs 0 (cert_blob_used_len certs)
               = Some (take (N.to_nat (cert_blob_used_len certs)) certs)).
  { apply slice_get_Some. rewrite N.sub_0_r, drop_0. split; [lia|done]. }
  rewrite (proj2 (slice_idx_Ok (E:=AttestError) _ _ _ _) Hu). simp_out. cbn [tee_type data].
  assert (Lr : len report = SNP_REPORT_SIZE) by (by apply slice_get_length in Hr).
  split; [done|]. split.
  - exists report. split; [done|]. unfold report_bytes.
    pose proof (slice_get_here [] report (take (N.to_nat (cert_blob_used_len certs)) certs)) as H.
    cbn [app] in H. change (len []) with 0 in H. rewrite N.add_0_l, Lr in H. by rewrite H.
  - intros guid. destruct (trimming_preserves_find_cert certs guid) as [_ <-].
    set (t := take _ certs). unfold cert_blob_bytes.
    pose proof (slice_get_here report t []) as H. rewrite app_nil_r, <-len_app, Lr in H.
    rewrite H. by destruct t.
Qed.

(** The signing key selector is read exactly: it is accepted when the report has the four
    bytes, the bits above the selector are zero, and it selects VCEK (0) or VLEK (1). *)
Theorem signing_key_spec (report : bytes) (k : N) :
  signing_key report = Ok k <->
  exists flags, read_le_u32 report SIGNING_KEY_OFFSET = Ok flags /\ flags < 8 /\ k = flags / 4 /\
    (k = SNP_SIGNING_KEY_VCEK \/ k = SNP_SIGNING_KEY_VLEK).
Proof.
  unfold signing_key, read_le_u32, read_le.
  destruct (slice_get report SIGNING_KEY_OFFSET (SIGNING_KEY_OFFSET + 4)) as [b|]; simp_out;
    [|by split; [|intros (? & ? & _)]].
  set (f := le_to_N b). rewrite !N.shiftr_div_pow2. change (2 ^ 5) with 32. change (2 ^ 2) with 4.
  destruct (N.eqb_spec (f / 32) 0) as [H5|H5]; simp_out.
  - assert (Hf : f < 32) by (apply N.div_small_iff in H5; lia).
    rewrite (N.land_ones _ 3). change (2 ^ 3) with 8.
    assert (Hd : f / 4 < 8) by (apply N.Div0.div_lt_upper_bound; lia).
    rewrite N.mod_small by done.
    unfold SNP_SIGNING_KEY_VLEK, SNP_SIGNING_KEY_VCEK.
    destruct (N.ltb_spec 1 (f / 4)), (N.eqb_spec (f / 4) 7); cbn [andb negb]; simp_out;
      (split; [intros Hk; simplify_eq; try done|intros (f' & [= <-] & Hf' & -> & Hk); try lia]).
    + exists f. pose proof (N.div_mod' f 4). pose proof (N.mod_upper_bound f 4 ltac:(done)).
      split_and!; [done|lia|done|lia].
    + done.
  - split; [done|]. intros (f' & [= <-] & Hf' & _). exfalso. apply H5. apply N.div_small. lia.
Qed.

(** The VCEK address names the security versions of the reported TCB: the boot loader, TEE,
    SNP and microcode versions in the address are bytes 0, 1, 6 and 7 of the field. *)
Theorem vcek_url_versions {HX : HexCrate} (product chip : bytes) (b0 b1 b2 b3 b4 b5 b6 b7 : byte) :
  vcek_url product chip (le_to_N [b0; b1; b2; b3; b4; b5; b6; b7]) =
  lit "https://kdsintf.amd.com/vcek/v1/" ++ product ++ lit "/" ++ hex_encode chip
  ++ lit "?blSPL=" ++ dec (b2n b0) ++ lit "&teeSPL=" ++ dec (b2n b1)
  ++ lit "&snpSPL=" ++ dec (b2n b6) ++ lit "&ucodeSPL=" ++ dec (b2n b7).
Proof.
  unfold vcek_url. set (l := [b0; b1; b2; b3; b4; b5; b6; b7]).
  assert (Hbyte : forall k b r, drop k l = b :: r ->
    N.land (N.shiftr (le_to_N l) (8 * N.of_nat k)) 0xFF = b2n b).
  { intros k b r E. change 0xFF with (N.ones 8). rewrite N.land_ones, N.shiftr_div_pow2.
    rewrite N.pow_mul_r. change (2 ^ 8) with 256. rewrite <-le_to_N_drop, E.
    apply le_to_N_cons_mod. }
  pose proof (Hbyte 0%nat b0 _ eq_refl) as H0. change (N.shiftr _ _) with (le_to_N l) in H0.
  pose proof (Hbyte 1%nat b1 _ eq_refl) as H1. change (8 * N.of_nat 1) with 8 in H1.
  pose proof (Hbyte 6%nat b6 _ eq_refl) as H6. change (8 * N.of_nat 6) with 48 in H6.
  pose proof (Hbyte 7%nat b7 _ eq_refl) as H7. change (8 * N.of_nat 7) with 56 in H7.
  by rewrite H0, H1, H6, H7.
Qed.

(** ** A concrete device *)

Definition sample_table : bytes :=
  GUID_VLEK ++ N_to_le 4 48 ++ N_to_le 4 4 ++ replicate 24 (n2b 0) ++ lit "vlek" ++ lit "junk".
Definition sample_response : bytes :=
  N_to_le 4 0 ++ N_to_le 4 SNP_REPORT_SIZE ++ replicate 3992 "r"%byte.
Definition sample_device : SevGuest := {|
  sev_guest_open := true;
  snp_get_report := fun _ => None;
  snp_get_ext_report := fun _ => Some (sample_response, sample_table);
|}.

Lemma ext_evidence_complete_witness :
  exists ev, attest_linux_ext (DEV := sample_device) [] = Ok ev /\
    (c ← cert_blob_bytes (data ev); find_cert c GUID_VLEK) = Some (lit "vlek").
Proof.
  pose proof (ext_evidence_complete (DEV := sample_device) [] sample_response sample_table
    eq_refl ltac:(vm_compute; reflexivity)) as H.
  destruct (is_ok_Ok (attest_linux_ext (DEV := sample_device) [])) as [ev E];
    [vm_compute; reflexivity|].
  rewrite E in H. destruct H as (_ & _ & Hf). exists ev. split; [exact E|].
  rewrite Hf. vm_compute. reflexivity.
Defined.
