(* ===== verification/SevSnp.v ===== *)
(** * The SEV-SNP verifier

    The part of [crates/relay-attest/src/sev_snp.rs] that talks to AMD's key
    distribution service and checks certificates and signatures: the certificate
    cache, the endorsement chain up to a pinned root, and [SevSnpVerifier]. The
    clock and the cache are the state of a small state-and-error monad; the
    network and the cryptographic crates are parameters. *)

From S2P Require Import Prelude RustStr Extern Attest SnpReport.

Local Open Scope N_scope.

(** ** Third-party code *)

(** What the source reads of an [X509Certificate]. [pss_params] is [None] when the
    signature algorithm has no parameters and [Some None] when they do not parse. *)
Record EndorsementCert := {
  signature_algorithm : bytes;
  pss_params : option (option bytes);
  signature_value : bytes;
  subject_public_key : bytes;
  valid_at : N -> bool;
}.

Inductive PssAlg := RSA_PSS_2048_8192_SHA256 | RSA_PSS_2048_8192_SHA384 | RSA_PSS_2048_8192_SHA512.

(** [p384], [x509_parser], [pem], [asn1_rs], [ring] and [webpki]. [asn1_header]
    returns the rest of the input and the definite length, if the length is one. *)
Class EndorsementCrates := {
  p384_signature_from_slice : bytes -> option bytes;
  p384_key_from_sec1 : bytes -> option bytes;
  p384_verify : bytes -> bytes -> bytes -> bool;
  endorsement_from_der : bytes -> option EndorsementCert;
  pem_parse_many : bytes -> option (list bytes);
  pem_parse : bytes -> option bytes;
  asn1_header : bytes -> option (bytes * option N);
  ring_verify : PssAlg -> bytes -> bytes -> bytes -> bool;
  webpki_anchor_ok : bytes -> bool;
  webpki_end_entity_ok : bytes -> bool;
  webpki_path_ok : N -> bytes -> bytes -> bool;
}.

(** ** State *)

Record CachedCert := {
  fetched_at : N;
  cert_bytes : bytes;
}.
Record KdsState := {
  cert_cache : gmap bytes CachedCert;
  clock : N;
}.
Definition KDS_CACHE_TTL : N := 6 * 60 * 60.

Abbreviation kds := (stm KdsState AttestError).

Definition failed (msg : bytes) : AttestError := VerificationFailed msg.

(** ** Fetching *)

Section fetch.
Context {HH : HttpHost}.

Definition fetch_url_bytes (now : N) (url : bytes) : attest_result bytes * N :=
  if negb http_client_builds then (Err (failed (lit "HTTP client error")), 0)
  else
    let '(reply, elapsed) := http_get now url in
    (match reply with
     | SendFailed => Err (failed (lit "failed to fetch from AMD KDS (" ++ url ++ lit ")"))
     | HttpResponse status body =>
         if negb (is_success status)
         then Err (failed (lit "AMD KDS returned HTTP " ++ dec status ++ lit ": " ++ url))
         else ok_or body (failed (lit "failed to read response body"))
     end, elapsed).

Definition fetch_cert_bytes (now : N) (url : bytes) : attest_result bytes * N :=
  match runtime_flavor with
  | MultiThread => fetch_url_bytes now url
  | CurrentThread =>
      if runtime_builds then fetch_url_bytes now url
      else (Err (failed (lit "failed to create runtime for cert fetch")), 0)
  | NoRuntime =>
      if runtime_builds then fetch_url_bytes now url
      else (Err (failed (lit "failed to create runtime")), 0)
  end.

Definition fetch_cert_bytes_cached (url : bytes) : kds bytes := fun s =>
  let now := clock s in
  match (entry ← cert_cache s !! url;
         if now - fetched_at entry <? KDS_CACHE_TTL then Some (cert_bytes entry) else None) with
  | Some b => (Ok b, s)
  | None =>
      let '(r, elapsed) := fetch_cert_bytes now url in
      (r, {| cert_cache :=
               match r with
               | Ok b => <[url := {| fetched_at := now; cert_bytes := b |}]> (cert_cache s)
               | _ => cert_cache s
               end;
             clock := now + elapsed |})
  end.
End fetch.

(** ** Certificates *)

Definition PINNED_ARK_FINGERPRINTS : list (bytes * bytes) :=
  [(lit "Milan", lit "69d063b45344d26a2e94e1f4210de49ef555308287d4c174445c95639a540bcd");
   (lit "Genoa", lit "4c6598d19c18719c5dfd4a7d335f674e5bfe1d8f800cea2cf270c10d103db2f1");
   (lit "Turin", lit "1f084161a44bb6d93778a904877d4819cafa5d05ef4193b2ded9dd9c73dd3f6a")].

Definition OID_PKCS1_RSASSAPSS : bytes := lit "1.2.840.113549.1.1.10".
Definition OID_NIST_HASH_SHA256 : bytes := lit "2.16.840.1.101.3.4.2.1".
Definition OID_NIST_HASH_SHA384 : bytes := lit "2.16.840.1.101.3.4.2.2".
Definition OID_NIST_HASH_SHA512 : bytes := lit "2.16.840.1.101.3.4.2.3".

Section chain.
Context {EC : EndorsementCrates} {SC : Sha2Crate} {HX : HexCrate} {BP : BuildProfile}.

Definition rsa_pss_verification_alg (cert : EndorsementCert) : attest_result PssAlg :=
  _ ← ensure (bool_decide (signature_algorithm cert = OID_PKCS1_RSASSAPSS))
    (failed (lit "certificate uses unsupported signature algorithm: " ++ signature_algorithm cert));
  params ← ok_or (pss_params cert) (failed (lit "RSA-PSS signature is missing parameters"));
  hash_algo ← ok_or params (failed (lit "invalid RSA-PSS signature parameters"));
  if bool_decide (hash_algo = OID_NIST_HASH_SHA256) then Ok RSA_PSS_2048_8192_SHA256
  else if bool_decide (hash_algo = OID_NIST_HASH_SHA384) then Ok RSA_PSS_2048_8192_SHA384
  else if bool_decide (hash_algo = OID_NIST_HASH_SHA512) then Ok RSA_PSS_2048_8192_SHA512
  else Err (failed (lit "unsupported RSA-PSS hash algorithm: " ++ hash_algo)).

Definition tbs_certificate_der (cert_der : bytes) : attest_result bytes :=
  outer ← ok_or (asn1_header cert_der) (failed (lit "failed to parse certificate DER header"));
  outer_len ← ok_or outer.2 (failed (lit "invalid certificate DER length"));
  start ← usize_sub (len cert_der) outer_len;
  cert_inner ← ok_or (slice_get cert_der start (len cert_der))
    (failed (lit "certificate DER length is inconsistent"));
  tbs ← ok_or (asn1_header cert_inner) (failed (lit "failed to parse TBS DER header"));
  tbs_content_len ← ok_or tbs.2 (failed (lit "invalid TBS DER length"));
  tbs_header_len ← usize_sub (len cert_inner) (len tbs.1);
  total_tbs_len ← usize_add tbs_header_len tbs_content_len;
  ok_or (slice_get cert_inner 0 total_tbs_len) (failed (lit "TBS DER extends past certificate")).

Definition verify_cert_signature_with_alg (cert_der issuer_der label : bytes)
  : attest_result unit :=
  cert ← ok_or (endorsement_from_der cert_der)
    (failed (lit "failed to parse " ++ label ++ lit " certificate"));
  issuer ← ok_or (endorsement_from_der issuer_der)
    (failed (lit "failed to parse " ++ label ++ lit " issuer certificate"));
  tbs_der ← tbs_certificate_der cert_der;
  alg ← rsa_pss_verification_alg cert;
  ensure (ring_verify alg (subject_public_key issuer) tbs_der (signature_value cert))
    (failed (label ++ lit " certificate signature validation failed")).

(** Without intermediates, and with every key usage allowed. *)
Definition verify_cert_signed_by_trust_anchor (unix_now : N) (cert_der anchor_der label : bytes)
  : attest_result unit :=
  _ ← ensure (webpki_anchor_ok anchor_der)
    (failed (lit "failed to parse " ++ label ++ lit " issuer as trust anchor"));
  _ ← ensure (webpki_end_entity_ok cert_der)
    (failed (lit "failed to parse " ++ label ++ lit " certificate"));
  ensure (webpki_path_ok unix_now cert_der anchor_der)
    (failed (label ++ lit " certificate signature/path validation failed")).

Definition is_known_ark (ark_der : bytes) : bool :=
  existsb (fun p => bool_decide (p.2 = hex_encode (sha256 ark_der))) PINNED_ARK_FINGERPRINTS.

Definition verify_vcek_chain (unix_now : N) (leaf_der chain_pem_bytes : bytes)
  : attest_result unit :=
  _ ← ensure (utf8_valid chain_pem_bytes) (failed (lit "cert chain PEM is not valid UTF-8"));
  pems ← ok_or (pem_parse_many chain_pem_bytes) (failed (lit "failed to parse cert chain PEM"));
  match pems with
  | ask_der :: ark_der :: _ =>
      _ ← ok_or (endorsement_from_der ask_der) (failed (lit "failed to parse ASK/ASVK certificate"));
      _ ← ok_or (endorsement_from_der ark_der) (failed (lit "failed to parse ARK certificate"));
      _ ← ensure (is_known_ark ark_der)
        (failed (lit "ARK certificate fingerprint " ++ hex_encode (sha256 ark_der)
           ++ lit " does not match any known AMD root key."));
      _ ← verify_cert_signature_with_alg ask_der ark_der (lit "ASK/ASVK");
      _ ← verify_cert_signed_by_trust_anchor unix_now leaf_der ask_der (lit "VCEK/VLEK");
      _ ← ok_or (endorsement_from_der leaf_der)
        (failed (lit "failed to parse VCEK/VLEK certificate"));
      Ok tt
  | _ => Err (failed (lit "expected at least 2 certificates in chain (ASK + ARK), got "
                ++ dec (len pems)))
  end.

Definition extract_p384_pubkey_from_der (cert : bytes) : attest_result bytes :=
  der ← (if starts_with (lit "-----BEGIN") cert then
           _ ← ensure (utf8_valid cert) (failed (lit "VCEK/VLEK PEM is not valid UTF-8"));
           ok_or (pem_parse cert) (failed (lit "failed to parse VCEK/VLEK PEM"))
         else Ok cert);
  parsed ← ok_or (endorsement_from_der der)
    (failed (lit "failed to parse VCEK/VLEK X.509 certificate"));
  ok_or (p384_key_from_sec1 (subject_public_key parsed))
    (failed (lit "VCEK/VLEK public key is not a valid P-384 key ("
       ++ dec (len (subject_public_key parsed)) ++ lit " bytes)")).

Definition verify_vcek_certificate (unix_now : N) (endorsement_der : bytes) : attest_result unit :=
  cert ← ok_or (endorsement_from_der endorsement_der)
    (failed (lit "failed to parse VCEK/VLEK X.509 certificate"));
  ensure (valid_at cert unix_now) (failed (lit "VCEK/VLEK certificate is not currently valid")).

(** AMD's little-endian 72-byte scalars to big-endian 48-byte ones. *)
Definition amd_signature_to_p384 (sig_r sig_s : bytes) : attest_result bytes :=
  _ ← ensure ((len sig_r =? ECDSA_P384_AMD_SCALAR_LEN) && (len sig_s =? ECDSA_P384_AMD_SCALAR_LEN))
    (failed (lit "invalid SEV-SNP ECDSA signature field length: r=" ++ dec (len sig_r)
       ++ lit ", s=" ++ dec (len sig_s) ++ lit ", expected 72 each"));
  r ← slice_idx sig_r 0 ECDSA_P384_SCALAR_LEN;
  s ← slice_idx sig_s 0 ECDSA_P384_SCALAR_LEN;
  ok_or (p384_signature_from_slice (rev r ++ rev s))
    (failed (lit "invalid ECDSA P-384 signature encoding")).
End chain.

(** ** The report signature *)

Section report_signature.
Context {EC : EndorsementCrates} {SC : Sha2Crate} {HX : HexCrate} {BP : BuildProfile} {HH : HttpHost}.

(** The leaf certificate, the address of its chain and the endorser's name. *)
Definition endorsement_leaf (product_name chip_id : bytes) (reported_tcb key : N)
  (certs : option bytes) : kds (bytes * bytes * bytes) :=
  if key =? SNP_SIGNING_KEY_VCEK then
    leaf_der ← (match (c ← certs; find_cert c GUID_VCEK) with
                | Some cert => mret cert
                | None => fetch_cert_bytes_cached (vcek_url product_name chip_id reported_tcb)
                end);
    mret (leaf_der, cert_chain_url (lit "vcek") product_name, lit "VCEK")
  else if key =? SNP_SIGNING_KEY_VLEK then
    c ← pure (ok_or certs
      (failed (lit "SEV-SNP report is signed by VLEK but no certificate blob is embedded")));
    leaf_der ← pure (ok_or (find_cert c GUID_VLEK)
      (failed (lit "SEV-SNP certificate blob does not contain a VLEK certificate")));
    mret (leaf_der, cert_chain_url (lit "vlek") product_name, lit "VLEK")
  else pure (Err (failed (lit "unsupported SEV-SNP signing key selector: " ++ dec key))).

(** The closure run for each product. *)
Definition try_product (unix_now : N) (signed_data signature chip_id : bytes)
  (reported_tcb key : N) (certs : option bytes) (product_name : bytes) : kds unit :=
  '(leaf_der, chain_url, endorser_name)
    ← endorsement_leaf product_name chip_id reported_tcb key certs;
  chain_pem_bytes ← fetch_cert_bytes_cached chain_url;
  _ ← pure (verify_vcek_chain unix_now leaf_der chain_pem_bytes);
  _ ← pure (verify_vcek_certificate unix_now leaf_der);
  vcek_pubkey ← pure (extract_p384_pubkey_from_der leaf_der);
  pure (ensure (p384_verify vcek_pubkey signed_data signature)
    (failed (lit "SEV-SNP report signature verification failed against " ++ product_name
       ++ lit " " ++ endorser_name))).

Fixpoint try_products (attempt : bytes -> kds unit) (errors products : list bytes) : kds unit :=
  match products with
  | [] => pure (Err (failed
      (lit "SEV-SNP report could not be verified against AMD KDS product roots: "
       ++ join (lit "; ") errors)))
  | p :: rest => fun s =>
      match attempt p s with
      | (Ok _, s') => (Ok tt, s')
      | (Err e, s') =>
          try_products attempt (errors ++ [p ++ lit ": " ++ AttestError_display e]) rest s'
      | (Panic, s') => (Panic, s')
      end
  end.

Definition verify_report_signature (unix_now : N) (signed_data sig_r sig_s chip_id : bytes)
  (reported_tcb key : N) (certs : option bytes) : kds unit :=
  _ ← pure (ensure (negb (all_zero sig_r && all_zero sig_s))
    (failed (lit "SEV-SNP report has all-zero signature")));
  signature ← pure (amd_signature_to_p384 sig_r sig_s);
  try_products (try_product unix_now signed_data signature chip_id reported_tcb key certs) []
    candidate_product_names.

(** ** The verifier *)

Definition sev_verify (unix_now : N) (evidence : Evidence) (expected_measurement : option bytes)
  : kds bytes :=
  _ ← pure (ensure (bool_decide (tee_type evidence = SevSnp))
    (UnsupportedTeeType (tee_type evidence)));
  _ ← pure (ensure (SNP_REPORT_SIZE <=? len (data evidence))
    (failed (lit "report too short: " ++ dec (len (data evidence)) ++ lit " < "
       ++ dec SNP_REPORT_SIZE)));
  report ← pure (report_bytes (data evidence));
  let certs := cert_blob_bytes (data evidence) in
  policy ← pure (read_le_u64 report POLICY_OFFSET);
  _ ← pure (ensure (N.land policy POLICY_DEBUG_ALLOWED_BIT =? 0)
    (failed (lit "SEV-SNP guest policy enables debug access")));
  guest_svn ← pure (read_le_u32 report GUEST_SVN_OFFSET);
  report_data ← pure (slice_idx report REPORT_DATA_OFFSET (REPORT_DATA_OFFSET + REPORT_DATA_LEN));
  measurement ← pure (slice_idx report MEASUREMENT_OFFSET (MEASUREMENT_OFFSET + MEASUREMENT_LEN));
  _ ← pure (match expected_measurement with
            | Some expected =>
                ensure (bool_decide (measurement = expected))
                  (MeasurementMismatch (hex_encode expected) (hex_encode measurement))
            | None => Ok tt
            end);
  signed_data ← pure (slice_idx report 0 SIGNED_DATA_LEN);
  sig_area ← pure (slice_idx report SIGNATURE_OFFSET (SIGNATURE_OFFSET + SIGNATURE_LEN));
  sig_r ← pure (slice_idx sig_area 0 ECDSA_P384_AMD_SCALAR_LEN);
  sig_s ← pure (slice_idx sig_area ECDSA_P384_AMD_SCALAR_LEN (ECDSA_P384_AMD_SCALAR_LEN * 2));
  key ← pure (signing_key report);
  chip_id ← pure (slice_idx report CHIP_ID_OFFSET (CHIP_ID_OFFSET + CHIP_ID_LEN));
  reported_tcb_bytes ← pure (slice_idx report REPORTED_TCB_OFFSET (REPORTED_TCB_OFFSET + 8));
  _ ← verify_report_signature unix_now signed_data sig_r sig_s chip_id
        (le_to_N reported_tcb_bytes) key certs;
  mret report_data.
End report_signature.

(** The verifier object: the trait's method runs on the process-wide cache. *)
Record SevSnpVerifier := {
  sev_time : N;
  sev_state : KdsState;
}.
#[global] Instance SevSnpVerifier_verify {EC : EndorsementCrates} {SC : Sha2Crate} {HX : HexCrate}
  {BP : BuildProfile} {HH : HttpHost} : Verifier SevSnpVerifier :=
  fun v evidence expected => (sev_verify (sev_time v) evidence expected (sev_state v)).1.

(** ** Facts: the cache *)

Section sev_facts.
Context {EC : EndorsementCrates} {SC : Sha2Crate} {HX : HexCrate} {BP : BuildProfile} {HH : HttpHost}.

(** Every cached text is what the network gave for its address at its time. *)
Definition kds_inv (s : KdsState) : Prop := forall url e, cert_cache s !! url = Some e ->
  fetched_at e <= clock s /\ exists el, fetch_cert_bytes (fetched_at e) url = (Ok (cert_bytes e), el).

(** The network gave [b] for [url] within the last six hours before [now]. *)
Definition fetched (now : N) (url b : bytes) : Prop := exists t el,
  fetch_cert_bytes t url = (Ok b, el) /\ t <= now /\ (t = now \/ now - t < KDS_CACHE_TTL).

Lemma fetch_cert_bytes_no_panic t url : (fetch_cert_bytes t url).1 <> Panic.
Proof.
  unfold fetch_cert_bytes, fetch_url_bytes. destruct runtime_flavor, runtime_builds, http_client_builds;
    try done; cbn [negb]; destruct (http_get t url) as [[|st [b|]] el]; try done; cbn [fst];
    by destruct (negb (is_success st)).
Qed.

Definition later (s s' : KdsState) : Prop := clock s <= clock s'.
#[local] Instance later_preorder : PreOrder later.
Proof. split; unfold later; [intros s|intros s1 s2 s3]; lia. Qed.

(** A computation that keeps the cache invariant, lets time pass forward and does not panic. *)
Definition good {A} (m : kds A) : Prop := safe kds_inv later m.

Lemma fetch_cached_good url : good (fetch_cert_bytes_cached url).
Proof.
  intros s Hi. unfold fetch_cert_bytes_cached.
  pose proof (fetch_cert_bytes_no_panic (clock s) url) as Hp.
  destruct (cert_cache s !! url ≫= _) as [b|]; [by split_and!|].
  destruct (fetch_cert_bytes (clock s) url) as [r el] eqn:E. cbn [fst snd clock] in *.
  split_and!; [|unfold later; cbn [clock]; lia|done]. intros u e. cbn [cert_cache clock]. destruct r as [b|err|].
  - rewrite lookup_insert. case_decide as Hu.
    + intros [= <-]. subst u. cbn [fetched_at cert_bytes]. split; [lia|eauto].
    + intros [Hl ?]%Hi. split; [lia|done].
  - intros [Hl ?]%Hi. split; [lia|done].
  - done.
Qed.

Lemma fetch_cached_Ok url s b s' : kds_inv s ->
  fetch_cert_bytes_cached url s = (Ok b, s') -> fetched (clock s) url b.
Proof.
  intros Hi. unfold fetch_cert_bytes_cached.
  destruct (cert_cache s !! url) as [e|] eqn:Hc; cbn [mbind option_bind].
  - destruct (N.ltb_spec (clock s - fetched_at e) KDS_CACHE_TTL) as [Hf|Hf].
    + intros [= <- <-]. destruct (Hi _ _ Hc) as [? [el ?]]. exists (fetched_at e), el. auto.
    + destruct (fetch_cert_bytes (clock s) url) as [r el] eqn:E. intros [= -> _].
      exists (clock s), el. split_and!; [done|lia|by left].
  - destruct (fetch_cert_bytes (clock s) url) as [r el] eqn:E. intros [= -> _].
    exists (clock s), el. split_and!; [done|lia|by left].
Qed.

Lemma good_bind {A B} (m : kds A) (f : A -> kds B) :
  good m -> (forall a, good (f a)) -> good (m ≫= f).
Proof. apply safe_bind, _. Qed.
Lemma good_pure {A} (r : attest_result A) : r <> Panic -> good (pure r).
Proof. apply safe_pure, _. Qed.
Lemma good_ret {A} (a : A) : good (mret a).
Proof. apply safe_ret, _. Qed.
Lemma good_bind_pure {A B} (r : attest_result A) (f : A -> kds B) :
  r <> Panic -> (forall a, r = Ok a -> good (f a)) -> good (pure r ≫= f).
Proof. apply safe_bind_pure, _. Qed.

Lemma good_try_products attempt errors products :
  (forall p, good (attempt p)) -> good (try_products attempt errors products).
Proof.
  intros Ha. revert errors. induction products as [|p ps IH]; intros errors; cbn [try_products].
  - by apply good_pure.
  - intros s Hi. destruct (Ha p s Hi) as (H1 & H2 & H3).
    destruct (attempt p s) as [[u|e|] s1]; cbn [fst snd] in *; [by split_and!| |done].
    destruct (IH (errors ++ [p ++ lit ": " ++ AttestError_display e]) s1 H1) as (? & ? & ?).
    split_and!; [done|by etrans|done].
Qed.

(** ** Facts: panics *)

Lemma chain_no_panic t leaf chain : overflow_checks = false -> verify_vcek_chain t leaf chain <> Panic.
Proof.
  intros Ho. unfold verify_vcek_chain. apply bind_no_panic; [no_panic|]. intros _ _.
  apply bind_no_panic; [no_panic|]. intros [|ask [|ark rest]] _; [done..|].
  unfold verify_cert_signature_with_alg, verify_cert_signed_by_trust_anchor.
  no_panic.
Qed.

Lemma p384_key_no_panic c : extract_p384_pubkey_from_der c <> Panic.
Proof. unfold extract_p384_pubkey_from_der. destruct (starts_with _ c); no_panic. Qed.

Lemma amd_sig_no_panic r s : amd_signature_to_p384 r s <> Panic.
Proof.
  unfold amd_signature_to_p384. destruct (N.eqb_spec (len r) ECDSA_P384_AMD_SCALAR_LEN) as [Hr|];
    [|done]. destruct (N.eqb_spec (len s) ECDSA_P384_AMD_SCALAR_LEN) as [Hs|]; [|done].
  unfold ECDSA_P384_AMD_SCALAR_LEN, ECDSA_P384_SCALAR_LEN in *. cbn [andb]. simp_out.
  destruct (slice_idx_total (E:=AttestError) r 0 48) as (r' & -> & _); [lia..|].
  destruct (slice_idx_total (E:=AttestError) s 0 48) as (s' & -> & _); [lia..|].
  simp_out. no_panic.
Qed.

Lemma try_product_good t signed sig chip tcb key certs p :
  overflow_checks = false -> good (try_product t signed sig chip tcb key certs p).
Proof.
  intros Ho. unfold try_product. apply good_bind.
  - unfold endorsement_leaf. destruct (key =? SNP_SIGNING_KEY_VCEK).
    + apply good_bind; [|intros; apply good_ret].
      destruct (certs ≫= _); [apply good_ret|apply fetch_cached_good].
    + destruct (key =? SNP_SIGNING_KEY_VLEK); [|by apply good_pure].
      repeat (apply good_bind; [apply good_pure, ok_or_no_panic|intros ?]). apply good_ret.
  - intros [[leaf url] name]. apply good_bind; [apply fetch_cached_good|]. intros chain.
    apply good_bind; [by apply good_pure, chain_no_panic|]. intros _.
    apply good_bind; [apply good_pure; unfold verify_vcek_certificate; no_panic|]. intros _.
    apply good_bind; [apply good_pure, p384_key_no_panic|]. intros k.
    apply good_pure, ensure_no_panic.
Qed.

Lemma signing_key_no_panic r : signing_key r <> Panic.
Proof. unfold signing_key. no_panic. Qed.

Lemma sev_verify_good t ev m : overflow_checks = false -> good (sev_verify t ev m).
Proof.
  intros Ho. unfold sev_verify.
  do 2 (apply good_bind_pure; [no_panic|intros _ _]).
  apply good_bind_pure; [unfold report_bytes; no_panic|]. intros report Hr.
  assert (Hlen : len report = SNP_REPORT_SIZE).
  { unfold report_bytes in Hr. inv_outcome. by apply slice_get_length in Hr. }
  cbv zeta. unfold SNP_REPORT_SIZE in Hlen.
  apply good_bind_pure; [unfold read_le_u64, read_le; no_panic|intros policy _].
  apply good_bind_pure; [no_panic|intros _ _].
  apply good_bind_pure; [unfold read_le_u32, read_le; no_panic|intros _ _].
  do 2 (apply good_bind_pure;
    [apply slice_no_panic; rewrite ?Hlen; vm_compute; discriminate|intros ? _]).
  apply good_bind_pure; [destruct m; no_panic|intros _ _].
  apply good_bind_pure; [apply slice_no_panic; rewrite ?Hlen; vm_compute; discriminate|intros ? _].
  apply good_bind_pure; [apply slice_no_panic; rewrite ?Hlen; vm_compute; discriminate|].
  intros area Ha. apply slice_idx_Ok, slice_get_length in Ha.
  change (SIGNATURE_OFFSET + SIGNATURE_LEN - SIGNATURE_OFFSET) with 512 in Ha.
  do 2 (apply good_bind_pure;
    [apply slice_no_panic; rewrite ?Ha; vm_compute; discriminate|intros ? _]).
  apply good_bind_pure; [apply signing_key_no_panic|intros key _].
  do 2 (apply good_bind_pure;
    [apply slice_no_panic; rewrite ?Hlen; vm_compute; discriminate|intros ? _]).
  apply good_bind; [|intros _; apply good_ret].
  unfold verify_report_signature. apply good_bind_pure; [no_panic|intros _ _].
  apply good_bind_pure; [apply amd_sig_no_panic|intros sig _].
  apply good_try_products. intros p. by apply try_product_good.
Qed.

(** ** What acceptance means *)

(** The chain text ends in a pinned root, which signed the intermediate certificate
    under which the leaf has a valid path; the leaf is valid now and its P-384 key
    verifies the signature over the signed data. *)
Record endorsed (unix_now : N) (leaf chain signed signature : bytes) : Prop := {
  endorsed_chain : exists ask ark rest ask_cert ark_cert alg tbs,
    pem_parse_many chain = Some (ask :: ark :: rest) /\
    hex_encode (sha256 ark) ∈ PINNED_ARK_FINGERPRINTS.*2 /\
    endorsement_from_der ask = Some ask_cert /\ endorsement_from_der ark = Some ark_cert /\
    tbs_certificate_der ask = Ok tbs /\ rsa_pss_verification_alg ask_cert = Ok alg /\
    ring_verify alg (subject_public_key ark_cert) tbs (signature_value ask_cert) = true /\
    webpki_path_ok unix_now leaf ask = true;
  endorsed_leaf : exists leaf_cert key,
    endorsement_from_der leaf = Some leaf_cert /\ valid_at leaf_cert unix_now = true /\
    extract_p384_pubkey_from_der leaf = Ok key /\ p384_verify key signed signature = true;
}.

(** Where the leaf came from: embedded in the evidence, or fetched for the chip. *)
Definition leaf_source (now : N) (product chip : bytes) (tcb key : N) (certs : option bytes)
  (leaf : bytes) : Prop :=
  if key =? SNP_SIGNING_KEY_VCEK
  then (c ← certs; find_cert c GUID_VCEK) = Some leaf \/
       (c ← certs; find_cert c GUID_VCEK) = None /\ fetched now (vcek_url product chip tcb) leaf
  else key = SNP_SIGNING_KEY_VLEK /\ (c ← certs; find_cert c GUID_VLEK) = Some leaf.

Definition endorser_text (key : N) : bytes :=
  if key =? SNP_SIGNING_KEY_VCEK then lit "vcek" else lit "vlek".

Lemma chain_Ok t leaf chain :
  verify_vcek_chain t leaf chain = Ok tt ->
  exists ask ark rest ask_cert ark_cert alg tbs,
    pem_parse_many chain = Some (ask :: ark :: rest) /\
    hex_encode (sha256 ark) ∈ PINNED_ARK_FINGERPRINTS.*2 /\
    endorsement_from_der ask = Some ask_cert /\ endorsement_from_der ark = Some ark_cert /\
    tbs_certificate_der ask = Ok tbs /\ rsa_pss_verification_alg ask_cert = Ok alg /\
    ring_verify alg (subject_public_key ark_cert) tbs (signature_value ask_cert) = true /\
    webpki_path_ok t leaf ask = true.
Proof.
  unfold verify_vcek_chain. intros H. apply bind_Ok in H as (u & _ & H).
  apply bind_Ok in H as (pems & Hp & H). apply ok_or_Ok in Hp.
  destruct pems as [|ask [|ark rest]]; [done..|].
  unfold verify_cert_signature_with_alg, verify_cert_signed_by_trust_anchor in H. inv_outcome.
  do 7 eexists. split_and!; try eassumption; try done.
  match goal with H : is_known_ark ark = true |- _ => apply existsb_exists in H as ([n fp] & Hin & He) end.
  split_bool. cbn [snd] in *. subst fp. apply list_elem_of_In in Hin.
  by apply (list_elem_of_fmap_2 snd) in Hin.
Qed.

Lemma leaf_Ok s product chip tcb key certs leaf url name s' : kds_inv s ->
  endorsement_leaf product chip tcb key certs s = (Ok (leaf, url, name), s') ->
  leaf_source (clock s) product chip tcb key certs leaf /\
  url = cert_chain_url (endorser_text key) product.
Proof.
  intros Hi. unfold endorsement_leaf, leaf_source, endorser_text.
  destruct (key =? SNP_SIGNING_KEY_VCEK).
  - intros H. apply stm_bind_Ok in H as (l & s1 & Hl & H). apply mret_Ok in H as [[= -> <- _] ->].
    split; [|done]. destruct (certs ≫= _) as [c|] eqn:E.
    + apply mret_Ok in Hl as [-> ->]. by left.
    + right. split; [done|]. by apply fetch_cached_Ok in Hl.
  - destruct (N.eqb_spec key SNP_SIGNING_KEY_VLEK); [|done].
    intros H. inv_stm. done.
Qed.

Lemma try_product_Ok s t signed sig chip tcb key certs product u s' :
  overflow_checks = false -> kds_inv s ->
  try_product t signed sig chip tcb key certs product s = (Ok u, s') ->
  exists now leaf chain, clock s <= now <= clock s' /\
    leaf_source (clock s) product chip tcb key certs leaf /\
    fetched now (cert_chain_url (endorser_text key) product) chain /\ endorsed t leaf chain signed sig.
Proof.
  intros Ho Hi H. unfold try_product in H. apply stm_bind_Ok in H as ([[leaf url] name] & s1 & Hl & H).
  destruct (leaf_Ok _ _ _ _ _ _ _ _ _ _ Hi Hl) as [Hsrc ->].
  assert (Hg : good (endorsement_leaf product chip tcb key certs)).
  { unfold endorsement_leaf. destruct (key =? SNP_SIGNING_KEY_VCEK).
    - apply good_bind; [|intros; apply good_ret].
      destruct (certs ≫= _); [apply good_ret|apply fetch_cached_good].
    - destruct (key =? SNP_SIGNING_KEY_VLEK); [|by apply good_pure].
      repeat (apply good_bind; [apply good_pure, ok_or_no_panic|intros ?]). apply good_ret. }
  destruct (Hg s Hi) as (Hi1 & Hc1 & _). unfold later in Hc1. rewrite Hl in Hi1, Hc1. cbn [snd] in *.
  apply stm_bind_Ok in H as (chain & s2 & Hch & H).
  destruct (fetch_cached_good (cert_chain_url (endorser_text key) product) s1 Hi1) as (_ & Hc2 & _).
  unfold later in Hc2. rewrite Hch in Hc2. cbn [snd] in Hc2. apply fetch_cached_Ok in Hch; [|done].
  apply stm_bind_Ok in H as (u1 & s3 & H1 & H). apply pure_Ok in H1 as [H1 ->].
  apply stm_bind_Ok in H as (u2 & s4 & H2 & H). apply pure_Ok in H2 as [H2 ->].
  apply stm_bind_Ok in H as (k & s5 & H3 & H). apply pure_Ok in H3 as [H3 ->].
  apply pure_Ok in H as [H4 ->]. apply ensure_Ok in H4. destruct u1.
  exists (clock s1), leaf, chain. split_and!; [done|done|done|done|].
  split; [by apply chain_Ok|]. unfold verify_vcek_certificate in H2. inv_outcome. eauto 10.
Qed.

Lemma try_products_Ok (R : bytes -> Prop) attempt errors products s u s' :
  (forall p, good (attempt p)) ->
  (forall p s1 s2, p ∈ products -> kds_inv s1 -> clock s <= clock s1 ->
     attempt p s1 = (Ok u, s2) -> R p) ->
  kds_inv s -> try_products attempt errors products s = (Ok u, s') ->
  exists p, p ∈ products /\ R p.
Proof.
  intros Hg. revert errors s. induction products as [|p ps IH]; intros errors s HR Hi;
    cbn [try_products]; [done|].
  destruct (Hg p s Hi) as (Hi1 & Hc & _). unfold later in Hc. destruct (attempt p s) as [[v|e|] s1] eqn:E; [| |done].
  - intros _. destruct u, v. exists p. split; [left|]. eapply HR; [left|exact Hi|lia|exact E].
  - cbn [snd] in *. intros H. eapply IH in H as (q & Hq & Rq); [|..|exact Hi1].
    + exists q. split; [by right|done].
    + intros q s2 s3 Hq Hi2 Hc2. apply HR; [by right|done|lia].
Qed.
End sev_facts.

(** ** Refusals *)

Lemma debug_bit_clear p :
  (N.land p POLICY_DEBUG_ALLOWED_BIT =? 0) = true -> N.testbit p 19 = false.
Proof.
  intros H%N.eqb_eq. apply (f_equal (fun n => N.testbit n 19)) in H.
  rewrite N.land_spec, N.bits_0 in H.
  change (N.testbit POLICY_DEBUG_ALLOWED_BIT 19) with true in H. by rewrite andb_true_r in H.
Qed.

(** ** Properties *)

Section sev_claims.
Context {EC : EndorsementCrates} {SC : Sha2Crate} {HX : HexCrate} {BP : BuildProfile} {HH : HttpHost}.

(** C7: An accepted SEV-SNP report is endorsed by AMD: the evidence holds a whole report
    without the debug policy bit, the result is its REPORT_DATA field, its measurement is
    the expected one, and for some known product the signature over the signed part
    verifies under a currently valid VCEK or VLEK whose chain, as the network gave it,
    ends in a pinned root. The leaf is the embedded one or was fetched for the report's
    chip and TCB, and the signing key selector says which of the two kinds it is. *)
Theorem sev_verify_sound (t : N) (ev : Evidence) (m : option bytes) (s s' : KdsState) (rd : bytes)
  (Hprofile : overflow_checks = false) (Hinv : kds_inv s)
  (Hok : sev_verify t ev m s = (Ok rd, s')) :
  tee_type ev = SevSnp /\
  exists report policy key chip tcb signed r q sig,
    slice_get (data ev) 0 SNP_REPORT_SIZE = Some report /\
    read_le_u64 report POLICY_OFFSET = Ok policy /\ N.testbit policy 19 = false /\
    slice_get report 0x50 0x90 = Some rd /\
    (forall e, m = Some e -> slice_get report 0x90 0xC0 = Some e) /\
    signing_key report = Ok key /\
    slice_get report 0x1A0 0x1E0 = Some chip /\ slice_get report 0x180 0x188 = Some tcb /\
    slice_get report 0 0x2A0 = Some signed /\
    length r = 72%nat /\ length q = 72%nat /\ amd_signature_to_p384 r q = Ok sig /\
    slice_get report 0x2A0 0x330 = Some (r ++ q) /\
    exists product now now' leaf chain, product ∈ candidate_product_names /\
      leaf_source now product chip (le_to_N tcb) key (cert_blob_bytes (data ev)) leaf /\
      fetched now' (cert_chain_url (endorser_text key) product) chain /\
      endorsed t leaf chain signed sig.
Proof.
  unfold sev_verify in Hok. cbv zeta in Hok. unfold verify_report_signature in Hok.
  repeat match goal with
  | H : (_ ≫= _) _ = (Ok _, _) |- _ => apply stm_bind_Ok in H as (? & ? & ? & ?)
  | H : pure _ _ = (Ok _, _) |- _ => apply pure_Ok in H as [? ->]
  | H : mret _ _ = (Ok _, _) |- _ => apply mret_Ok in H as [-> ->]
  | H : slice_idx _ _ _ = Ok _ |- _ => apply slice_idx_Ok in H
  | H : ensure _ _ = Ok _ |- _ => apply ensure_Ok in H
  | H : bool_decide _ = true |- _ => apply bool_decide_eq_true in H
  end.
  split; [done|].
  match goal with
  | H1 : report_bytes _ = Ok ?rp, H2 : read_le_u64 _ _ = Ok ?pol, Hk : signing_key _ = Ok ?k,
    Hc : slice_get _ CHIP_ID_OFFSET _ = Some ?ch, Ht : slice_get _ REPORTED_TCB_OFFSET _ = Some ?tcb,
    Hs : slice_get _ 0 SIGNED_DATA_LEN = Some ?sg, Ha : slice_get _ SIGNATURE_OFFSET _ = Some ?ar,
    Hr : slice_get ?ar 0 _ = Some ?r, Hq : slice_get ?ar ECDSA_P384_AMD_SCALAR_LEN _ = Some ?q,
    Hsig : amd_signature_to_p384 _ _ = Ok ?sig |- _ =>
      exists rp, pol, k, ch, tcb, sg, r, q, sig;
      rename Ha into Harea, Hr into HR, Hq into HQ
  end.
  pose proof (slice_get_slice _ _ _ _ _ _ _ Harea (slice_get_concat _ _ _ _ _ _ HR HQ)) as Hrq.
  apply slice_get_length in HR, HQ.
  change (ECDSA_P384_AMD_SCALAR_LEN - 0) with 72 in HR.
  change (ECDSA_P384_AMD_SCALAR_LEN * 2 - ECDSA_P384_AMD_SCALAR_LEN) with 72 in HQ.
  split_and!; try done.
  - match goal with H : report_bytes _ = _ |- _ => unfold report_bytes in H; by inv_outcome end.
  - by apply debug_bit_clear.
  - intros e ->. match goal with H : ensure _ _ = Ok _ |- _ => apply ensure_Ok in H end.
    split_bool. by subst e.
  - unfold len in HR. lia.
  - unfold len in HQ. lia.
  - match goal with H : try_products _ _ _ _ = _ |- _ => rename H into Htry end.
    apply (try_products_Ok (fun p => exists now now' leaf chain,
      leaf_source now p x27 (le_to_N x29) x25 (cert_blob_bytes (data ev)) leaf /\
      fetched now' (cert_chain_url (endorser_text x25) p) chain /\
      endorsed t leaf chain x17 x35)) in Htry; [|by intros p; apply try_product_good|
      |done].
    + destruct Htry as (p & Hp & now & now' & leaf & chain & ? & ? & ?).
      exists p, now, now', leaf, chain. done.
    + intros p s1 s2 _ Hi1 _ Hp.
      destruct (try_product_Ok _ _ _ _ _ _ _ _ _ _ _ Hprofile Hi1 Hp)
        as (n & leaf & chain & _ & ? & ? & ?).
      by exists (clock s1), n, leaf, chain.
Qed.

(** C36: Verification is total in a build without overflow checks, on any evidence and network:
    it never panics, time does not run backwards, and it keeps the cache sound: every
    cached text is what the network answered for its address at its recorded time. *)
Theorem sev_verify_total (t : N) (ev : Evidence) (m : option bytes) (s : KdsState)
  (Hprofile : overflow_checks = false) (Hinv : kds_inv s) :
  (sev_verify t ev m s).1 <> Panic /\ kds_inv (sev_verify t ev m s).2 /\
  clock s <= clock (sev_verify t ev m s).2.
Proof. destruct (sev_verify_good t ev m Hprofile s Hinv) as (? & ? & ?). done. Qed.

(** Report contents are judged before the network is used: a debug policy, a wrong
    measurement, a reserved selector or an all-zero signature is refused with the state,
    and so the cache and the network, untouched. *)
Theorem sev_offline_refusals (t : N) (ev : Evidence) (m : option bytes) (s : KdsState)
  (report : bytes) (policy : N) (measured area : bytes)
  (Ht : tee_type ev = SevSnp) (Hr : slice_get (data ev) 0 SNP_REPORT_SIZE = Some report)
  (Hp : read_le_u64 report POLICY_OFFSET = Ok policy)
  (Hm : slice_get report 0x90 0xC0 = Some measured)
  (Ha : slice_get report 0x2A0 0x330 = Some area)
  (Hbad : N.testbit policy 19 = true \/ (exists e, m = Some e /\ e <> measured) \/
          is_err (signing_key report) = true \/ all_zero area = true) :
  refused (sev_verify t ev m s) s.
Proof.
  unfold sev_verify. cbv zeta.
  apply refused_step; [no_panic|]. intros _ _.
  apply refused_step; [no_panic|]. intros _ _.
  apply refused_step; [unfold report_bytes; no_panic|]. intros rp Hrp.
  unfold report_bytes in Hrp. rewrite Hr in Hrp. simp_out in Hrp. injection Hrp as <-.
  pose proof (slice_get_length _ _ _ _ Hr) as Hlen. rewrite N.sub_0_r in Hlen.
  unfold SNP_REPORT_SIZE in Hlen.
  apply refused_step; [unfold read_le_u64, read_le; no_panic|]. intros pol Hpol.
  rewrite Hp in Hpol. injection Hpol as <-.
  apply refused_step; [no_panic|]. intros u Hdbg. apply ensure_Ok, debug_bit_clear in Hdbg.
  apply refused_step; [unfold read_le_u32, read_le; no_panic|]. intros svn _.
  apply refused_step; [apply slice_no_panic; rewrite ?Hlen; vm_compute; discriminate|].
  intros rd _.
  apply refused_step; [apply slice_no_panic; rewrite ?Hlen; vm_compute; discriminate|].
  intros me Hme. apply slice_idx_Ok in Hme. change (slice_get report 0x90 0xC0 = Some me) in Hme.
  rewrite Hm in Hme. injection Hme as <-.
  apply refused_step; [destruct m; no_panic|]. intros u1 Hmm.
  apply refused_step; [apply slice_no_panic; rewrite ?Hlen; vm_compute; discriminate|]. intros sg _.
  apply refused_step; [apply slice_no_panic; rewrite ?Hlen; vm_compute; discriminate|].
  intros ar Har. apply slice_idx_Ok in Har. pose proof (slice_get_length _ _ _ _ Har) as Lar.
  change (SIGNATURE_OFFSET + SIGNATURE_LEN - SIGNATURE_OFFSET) with 512 in Lar.
  apply refused_step; [apply slice_no_panic; rewrite ?Lar; vm_compute; discriminate|].
  intros r HR. apply slice_idx_Ok in HR.
  apply refused_step; [apply slice_no_panic; rewrite ?Lar; vm_compute; discriminate|].
  intros q HQ. apply slice_idx_Ok in HQ.
  pose proof (slice_get_slice _ _ _ _ _ _ _ Har (slice_get_concat _ _ _ _ _ _ HR HQ)) as Hrq.
  change (slice_get report 0x2A0 0x330 = Some (r ++ q)) in Hrq. rewrite Ha in Hrq.
  injection Hrq as ->.
  apply refused_step; [apply signing_key_no_panic|]. intros k Hk.
  apply refused_step; [apply slice_no_panic; rewrite ?Hlen; vm_compute; discriminate|]. intros ? _.
  apply refused_step; [apply slice_no_panic; rewrite ?Hlen; vm_compute; discriminate|]. intros ? _.
  destruct Hbad as [Hd|[(e & -> & Hne)|[Hs|Hz]]].
  - congruence.
  - apply ensure_Ok in Hmm. by split_bool.
  - by rewrite Hk in Hs.
  - unfold all_zero in Hz. rewrite forallb_app in Hz. unfold verify_report_signature, all_zero.
    rewrite Hz. done.
Qed.
End sev_claims.

(** ** A concrete key distribution service *)

Module RefSev.
(** Crates that accept one key and one certificate signature, and a digest that maps
    one text to the first pinned fingerprint. *)
#[export] Instance crates : EndorsementCrates := {|
  p384_signature_from_slice := Some;
  p384_key_from_sec1 := Some;
  p384_verify k _ _ := bool_decide (k = lit "key");
  endorsement_from_der der := Some {|
    signature_algorithm := OID_PKCS1_RSASSAPSS;
    pss_params := Some (Some OID_NIST_HASH_SHA384);
    signature_value := lit "sig"; subject_public_key := lit "key"; valid_at _ := true |};
  pem_parse_many _ := Some [lit "ask"; lit "ark"];
  pem_parse := Some;
  asn1_header b := Some (b, Some (len b));
  ring_verify _ _ _ s := bool_decide (s = lit "sig");
  webpki_anchor_ok _ := true;
  webpki_end_entity_ok _ := true;
  webpki_path_ok _ _ _ := true;
|}.
#[export] Instance sha : Sha2Crate := {|
  sha256 m := match Ref.hex_dec (from_option snd [] (head PINNED_ARK_FINGERPRINTS)) with
              | Some fp => if bool_decide (m = lit "ark") then fp else Ref.mix 32 m
              | None => Ref.mix 32 m
              end;
  sha384 := Ref.mix 48;
|}.
#[export] Instance release : BuildProfile := false.
#[export] Instance host : HttpHost := {|
  http_client_builds := true;
  http_get _ _ := (HttpResponse 200 (Some (lit "pem")), 1);
  runtime_flavor := MultiThread;
  runtime_builds := true;
|}.
Definition start : KdsState := {| cert_cache := ∅; clock := 0 |}.
Definition report (signature : byte) : Evidence := {|
  tee_type := SevSnp;
  data := replicate 672 (n2b 0) ++ replicate 512 signature;
|}.
Lemma start_inv : kds_inv start.
Proof. intros url e H. cbn [cert_cache start] in H. by rewrite lookup_empty in H. Qed.
End RefSev.

Lemma sev_verify_sound_witness :
  exists rd s', sev_verify (EC := RefSev.crates) (SC := RefSev.sha) (HX := Ref.hex)
      (BP := RefSev.release) (HH := RefSev.host) 0 (RefSev.report "s"%byte) None RefSev.start
    = (Ok rd, s') /\
  exists report, slice_get (data (RefSev.report "s"%byte)) 0 SNP_REPORT_SIZE = Some report /\
    slice_get report 0x50 0x90 = Some rd.
Proof.
  destruct (sev_verify (EC := RefSev.crates) (SC := RefSev.sha) (HX := Ref.hex)
      (BP := RefSev.release) (HH := RefSev.host) 0 (RefSev.report "s"%byte) None RefSev.start)
    as [r s'] eqn:E.
  destruct (is_ok_Ok r) as [rd ->].
  { apply (f_equal (fun x => is_ok x.1)) in E. etrans; [symmetry; exact E|].
    vm_compute. reflexivity. }
  exists rd, s'. split; [reflexivity|].
  destruct (sev_verify_sound (EC := RefSev.crates) (SC := RefSev.sha) (HX := Ref.hex)
    (BP := RefSev.release) (HH := RefSev.host) 0 (RefSev.report "s"%byte) None RefSev.start s' rd
    eq_refl RefSev.start_inv E)
    as (_ & report & policy & key & chip & tcb & signed & r & q & sig & Hr & _ & _ & Hrd & _).
  exists report. split; [exact Hr|exact Hrd].
Defined.

Lemma sev_verify_total_witness :
  (sev_verify (EC := RefSev.crates) (SC := RefSev.sha) (HX := Ref.hex) (BP := RefSev.release)
     (HH := RefSev.host) 0 (RefSev.report "s"%byte) None RefSev.start).1 <> Panic.
Proof.
  destruct (sev_verify_total (EC := RefSev.crates) (SC := RefSev.sha) (HX := Ref.hex)
    (BP := RefSev.release) (HH := RefSev.host) 0 (RefSev.report "s"%byte) None RefSev.start
    eq_refl RefSev.start_inv) as [H _]. exact H.
Defined.

Lemma sev_offline_refusals_witness :
  refused (sev_verify (EC := RefSev.crates) (SC := RefSev.sha) (HX := Ref.hex)
     (BP := RefSev.release) (HH := RefSev.host) 0 (RefSev.report "s"%byte) (Some [])
     RefSev.start) RefSev.start.
Proof.
  apply (sev_offline_refusals (EC := RefSev.crates) (SC := RefSev.sha) (HX := Ref.hex)
    (BP := RefSev.release) (HH := RefSev.host) 0 (RefSev.report "s"%byte) (Some []) RefSev.start
    (replicate 672 (n2b 0) ++ replicate 512 "s"%byte) 0 (replicate 48 (n2b 0))
    (replicate 144 "s"%byte)); [vm_compute; reflexivity..|].
  right. left. exists []. split; [reflexivity|discriminate].
Defined.
