(* ===== verification/KdsThreads.v ===== *)
(** * The certificate cache under concurrent verifications

    [fetch_cert_bytes_cached] of sev_snp.rs locks the process-wide cache twice, to look an
    address up and to insert what was fetched, and not while it fetches. Verifications
    run on many threads: here each is a phase, and a step relation interleaves them with
    the passing of time. *)

From S2P Require Import Prelude RustStr Extern Attest SevSnp.

Local Open Scope N_scope.

(** Where a thread is, with the address, the time it was called, and then: nothing, the
    time its request went out, what came back, or what it returned. *)
Inductive Phase :=
  | Called (url : bytes) (now : N)
  | Missed (url : bytes) (now : N)
  | Fetching (url : bytes) (now started : N)
  | Fetched (url : bytes) (now : N) (b : bytes)
  | Returned (url : bytes) (now : N) (r : attest_result bytes).

Record Threads := {
  shared : KdsState;
  threads : gmap nat Phase;
}.

(** The lookup under the first lock. *)
Definition kds_lookup (now : N) (url : bytes) (cache : gmap bytes CachedCert) : option bytes :=
  entry ← cache !! url;
  if now - fetched_at entry <? KDS_CACHE_TTL then Some (cert_bytes entry) else None.

(** The insertion under the second. *)
Definition kds_insert (now : N) (url b : bytes) (s : KdsState) : KdsState := {|
  cert_cache := <[url := {| fetched_at := now; cert_bytes := b |}]> (cert_cache s); clock := clock s |}.

Definition tick (n : N) (s : KdsState) : KdsState :=
  {| cert_cache := cert_cache s; clock := clock s + n |}.

Section threads.
Context {HH : HttpHost}.

Inductive step : Threads -> Threads -> Prop :=
  | step_tick s ts n : step {| shared := s; threads := ts |} {| shared := tick n s; threads := ts |}
  | step_call s ts i url : ts !! i = None ->
      step {| shared := s; threads := ts |}
        {| shared := s; threads := <[i := Called url (clock s)]> ts |}
  | step_hit s ts i url now b :
      ts !! i = Some (Called url now) -> kds_lookup now url (cert_cache s) = Some b ->
      step {| shared := s; threads := ts |}
        {| shared := s; threads := <[i := Returned url now (Ok b)]> ts |}
  | step_miss s ts i url now :
      ts !! i = Some (Called url now) -> kds_lookup now url (cert_cache s) = None ->
      step {| shared := s; threads := ts |} {| shared := s; threads := <[i := Missed url now]> ts |}
  | step_send s ts i url now :
      ts !! i = Some (Missed url now) ->
      step {| shared := s; threads := ts |}
        {| shared := s; threads := <[i := Fetching url now (clock s)]> ts |}
  | step_receive s ts i url now t b el :
      ts !! i = Some (Fetching url now t) -> fetch_cert_bytes t url = (Ok b, el) -> t + el <= clock s ->
      step {| shared := s; threads := ts |} {| shared := s; threads := <[i := Fetched url now b]> ts |}
  | step_fail s ts i url now t e el :
      ts !! i = Some (Fetching url now t) -> fetch_cert_bytes t url = (Err e, el) -> t + el <= clock s ->
      step {| shared := s; threads := ts |}
        {| shared := s; threads := <[i := Returned url now (Err e)]> ts |}
  | step_insert s ts i url now b :
      ts !! i = Some (Fetched url now b) ->
      step {| shared := s; threads := ts |}
        {| shared := kds_insert now url b s; threads := <[i := Returned url now (Ok b)]> ts |}.

Inductive steps : Threads -> Threads -> Prop :=
  | steps_refl x : steps x x
  | steps_cons x y z : step x y -> steps y z -> steps x z.

Lemma steps_trans x y z : steps x y -> steps y z -> steps x z.
Proof. induction 1; [done|]. intros. econstructor; eauto. Qed.
Lemma steps_one x y : step x y -> steps x y.
Proof. intros. econstructor; [done|constructor]. Qed.

(** ** The invariant *)

(** The network gave [b] for [url] to a request made no earlier than [since] and answered
    by [until]. *)
Definition from_network (since : N) (url b : bytes) (until : N) : Prop :=
  exists t el, fetch_cert_bytes t url = (Ok b, el) /\ since <= t /\ t + el <= until.

(** ... to a request made at most six hours before [now], or later. *)
Definition fresh (now : N) (url b : bytes) (until : N) : Prop :=
  exists t el, fetch_cert_bytes t url = (Ok b, el) /\ now - t < KDS_CACHE_TTL /\ t + el <= until.

Definition phase_ok (clk : N) (p : Phase) : Prop :=
  match p with
  | Called _ now | Missed _ now => now <= clk
  | Fetching _ now t => now <= t /\ t <= clk
  | Fetched url now b => from_network now url b clk
  | Returned url now (Ok b) => fresh now url b clk
  | Returned url now (Err e) =>
      exists t el, fetch_cert_bytes t url = (Err e, el) /\ now <= t /\ t + el <= clk
  | Returned _ _ Panic => False
  end.

Record threads_inv (x : Threads) : Prop := {
  ti_cache url e : cert_cache (shared x) !! url = Some e ->
    from_network (fetched_at e) url (cert_bytes e) (clock (shared x));
  ti_phases i p : threads x !! i = Some p -> phase_ok (clock (shared x)) p;
}.

Lemma from_network_later since url b u u' : u <= u' -> from_network since url b u -> from_network since url b u'.
Proof. intros Hu (t & el & H & Hs & Ht). exists t, el. split_and!; [done..|lia]. Qed.

Lemma phase_later p c c' : c <= c' -> phase_ok c p -> phase_ok c' p.
Proof.
  intros Hc. destruct p as [url now|url now|url now t|url now b|url now [b|e|]]; cbn [phase_ok]; try lia.
  - by apply from_network_later.
  - intros (t & el & H & Hs & Ht). exists t, el. split_and!; [done..|lia].
  - intros (t & el & H & Hs & Ht). exists t, el. split_and!; [done..|lia].
Qed.

(** A request made during the call is fresh. *)
Lemma from_network_fresh now url b u : from_network now url b u -> fresh now url b u.
Proof.
  intros (t & el & H & Hs & Ht). exists t, el. split_and!; [done| |done].
  unfold KDS_CACHE_TTL. lia.
Qed.

(** An entry that passes the check is fresh. *)
Lemma lookup_fresh now url b cache u :
  (forall url' e, cache !! url' = Some e -> from_network (fetched_at e) url' (cert_bytes e) u) ->
  kds_lookup now url cache = Some b -> fresh now url b u.
Proof.
  intros Hc H. unfold kds_lookup in H. apply bind_Some in H as (e & He & H).
  destruct (N.ltb_spec (now - fetched_at e) KDS_CACHE_TTL) as [Hlt|]; [|done]. injection H as <-.
  destruct (Hc url e He) as (t & el & Hf & Hs & Ht). exists t, el. split_and!; [done|lia|done].
Qed.

Lemma phases_insert s ts i p :
  threads_inv {| shared := s; threads := ts |} -> phase_ok (clock s) p ->
  threads_inv {| shared := s; threads := <[i := p]> ts |}.
Proof.
  intros [Hc Hp] H. split; cbn [shared threads] in *; [done|]. intros j q.
  destruct (decide (i = j)) as [<-|Hne]; [rewrite lookup_insert_eq; by intros [= <-]|].
  rewrite lookup_insert_ne by done. apply Hp.
Qed.

Lemma step_inv x y : threads_inv x -> step x y -> threads_inv y.
Proof.
  intros Hx Hs. destruct Hs as [s ts n|s ts i url Hi|s ts i url now b Hi Hl|s ts i url now Hi Hl|s ts i url now Hi
    |s ts i url now t b el Hi Hf Ht|s ts i url now t e el Hi Hf Ht|s ts i url now b Hi];
    try (pose proof (ti_phases _ Hx i _ Hi) as Hp; cbn [shared phase_ok] in Hp);
    try (apply phases_insert; [exact Hx|]; cbn [phase_ok]).
  - destruct Hx as [Hc Hp]. split; cbn [shared threads tick cert_cache clock] in *.
    + intros url e He. eapply from_network_later; [|by apply Hc]. lia.
    + intros i p Hi. eapply phase_later; [|by eapply Hp]. lia.
  - lia.
  - eapply lookup_fresh; [|exact Hl]. apply (ti_cache _ Hx).
  - exact Hp.
  - lia.
  - exists t, el. split_and!; [done|lia|done].
  - exists t, el. split_and!; [done|lia|done].
  - apply (phases_insert (kds_insert now url b s)); [|by apply from_network_fresh].
    destruct Hx as [Hc Hps]. split; cbn [shared threads kds_insert cert_cache clock] in *; [|done].
    intros u e. destruct (decide (url = u)) as [<-|Hne]; [rewrite lookup_insert_eq; by intros [= <-]|].
    rewrite lookup_insert_ne by done. apply Hc.
Qed.

(** ** One thread alone *)

(** A call that is not interleaved with others is the sequential function. *)
Lemma sequential_steps s ts i url r s' : ts !! i = None -> fetch_cert_bytes_cached url s = (r, s') ->
  steps {| shared := s; threads := ts |}
    {| shared := s'; threads := <[i := Returned url (clock s) r]> ts |}.
Proof.
  intros Hi Hf. eapply steps_cons; [by apply (step_call _ _ i url)|].
  unfold fetch_cert_bytes_cached in Hf. fold (kds_lookup (clock s) url (cert_cache s)) in Hf.
  assert (Hins : forall p q, <[i := p]> (<[i := q]> ts) = <[i := p]> ts) by (intros; apply insert_insert_eq).
  destruct (kds_lookup (clock s) url (cert_cache s)) as [b|] eqn:El.
  { injection Hf as <- <-. apply steps_one. rewrite <-(Hins (Returned url (clock s) (Ok b)) (Called url (clock s))).
    apply step_hit; [apply lookup_insert_eq|done]. }
  eapply steps_cons; [eapply (step_miss _ _ i); [apply lookup_insert_eq|done]|]. rewrite Hins.
  eapply steps_cons; [eapply (step_send _ _ i); apply lookup_insert_eq|]. rewrite Hins.
  pose proof (fetch_cert_bytes_no_panic (clock s) url) as Hnp.
  destruct (fetch_cert_bytes (clock s) url) as [[b|e|] el] eqn:Ef; [| |by destruct Hnp];
    injection Hf as <- <-; (eapply steps_cons; [apply (step_tick _ _ el)|]).
  - eapply steps_cons; [eapply (step_receive _ _ i); [apply lookup_insert_eq|exact Ef|]; cbn [tick clock]; lia|].
    rewrite Hins. apply steps_one. rewrite <-(Hins (Returned url (clock s) (Ok b)) (Fetched url (clock s) b)).
    apply (step_insert (tick el s)). apply lookup_insert_eq.
  - apply steps_one. rewrite <-(Hins (Returned url (clock s) (Err e)) (Fetching url (clock s) (clock s))).
    eapply (step_fail (tick el s)); [apply lookup_insert_eq|exact Ef|]. cbn [tick clock]. lia.
Qed.

(** From every state, a thread that was called can return, whatever the others do not do. *)
Lemma fetching_completes s ts i url now t : ts !! i = Some (Fetching url now t) ->
  exists s' r, steps {| shared := s; threads := ts |} {| shared := s'; threads := <[i := Returned url now r]> ts |}.
Proof.
  intros Hi. pose proof (fetch_cert_bytes_no_panic t url) as Hnp.
  destruct (fetch_cert_bytes t url) as [[b|e|] el] eqn:Ef; [| |by destruct Hnp].
  - eexists (kds_insert now url b (tick (t + el) s)), (Ok b).
    eapply steps_cons; [apply (step_tick _ _ (t + el))|].
    eapply steps_cons; [eapply (step_receive _ _ i); [done|exact Ef|]; cbn [tick clock]; lia|].
    apply steps_one. rewrite <-(insert_insert_eq ts i (Returned url now (Ok b)) (Fetched url now b)).
    apply step_insert. apply lookup_insert_eq.
  - eexists (tick (t + el) s), (Err e). eapply steps_cons; [apply (step_tick _ _ (t + el))|].
    apply steps_one. eapply step_fail; [done|exact Ef|]. cbn [tick clock]. lia.
Qed.

Lemma thread_completes s ts i p : ts !! i = Some p ->
  exists s' url now r, steps {| shared := s; threads := ts |}
    {| shared := s'; threads := <[i := Returned url now r]> ts |}.
Proof.
  intros Hi.
  assert (Hsend : forall url now ts', ts' !! i = Some (Missed url now) ->
    (forall q, <[i := q]> ts' = <[i := q]> ts) -> exists s' r,
    steps {| shared := s; threads := ts' |} {| shared := s'; threads := <[i := Returned url now r]> ts |}).
  { intros url now ts' Hm Heq.
    destruct (fetching_completes s (<[i := Fetching url now (clock s)]> ts') i url now (clock s)) as (s' & r & H);
      [apply lookup_insert_eq|]. exists s', r. eapply steps_cons; [by apply step_send|].
    by rewrite insert_insert_eq, (Heq (Returned url now r)) in H. }
  destruct p as [url now|url now|url now t|url now b|url now r].
  - destruct (kds_lookup now url (cert_cache s)) as [b|] eqn:El.
    + exists s, url, now, (Ok b). apply steps_one. by apply step_hit.
    + destruct (Hsend url now (<[i := Missed url now]> ts)) as (s' & r & H);
        [apply lookup_insert_eq|intros; apply insert_insert_eq|].
      exists s', url, now, r. eapply steps_cons; [by apply step_miss|exact H].
  - destruct (Hsend url now ts Hi (fun _ => eq_refl)) as (s' & r & H). by exists s', url, now, r.
  - destruct (fetching_completes s ts i url now t Hi) as (s' & r & H). by exists s', url, now, r.
  - exists (kds_insert now url b s), url, now, (Ok b). apply steps_one. by apply step_insert.
  - exists s, url, now, r. rewrite insert_id by done. constructor.
Qed.

(** ** Properties *)

Definition no_threads (now : N) : Threads :=
  {| shared := {| cert_cache := ∅; clock := now |}; threads := ∅ |}.

Lemma no_threads_inv now : threads_inv (no_threads now).
Proof. split; cbn [no_threads shared threads cert_cache]; intros ? ?; by rewrite lookup_empty. Qed.

Lemma reachable_inv x y : threads_inv x -> steps x y -> threads_inv y.
Proof. intros Hx H. induction H as [|x y z Hs _ IH]; [done|]. eapply IH, step_inv; eauto. Qed.

(** C9: The certificate cache is safe to share: in every interleaving of verifications, what a
    call returns is what the network gave for that very address, to a request that was
    sent at most six hours before the call or during it, or the error of a request sent
    during the call, and never a panic that would poison the lock; no call waits for
    another, each can return from every state; and a call that is not interleaved is the
    sequential function the verifier is proved with. *)
Theorem kds_threads_fresh (now0 : N) (x : Threads) (Hrun : steps (no_threads now0) x) :
  (forall i url now r, threads x !! i = Some (Returned url now r) ->
     match r with
     | Ok b => fresh now url b (clock (shared x))
     | Err e => exists t el, fetch_cert_bytes t url = (Err e, el) /\ now <= t /\ t + el <= clock (shared x)
     | Panic => False
     end) /\
  (forall i p, threads x !! i = Some p -> exists s' url now r,
     steps x {| shared := s'; threads := <[i := Returned url now r]> (threads x) |}) /\
  (forall i url r s', threads x !! i = None -> fetch_cert_bytes_cached url (shared x) = (r, s') ->
     steps x {| shared := s'; threads := <[i := Returned url (clock (shared x)) r]> (threads x) |}).
Proof.
  pose proof (reachable_inv _ _ (no_threads_inv now0) Hrun) as [Hc Hp]. destruct x as [s ts].
  cbn [shared threads] in *. split_and!.
  - intros i url now r Hi. by apply Hp in Hi.
  - intros i p Hi. by eapply thread_completes.
  - intros i url r s'. apply sequential_steps.
Qed.
End threads.

(** ** Witness *)

Lemma kds_threads_fresh_witness :
  exists x b, steps (HH := RefSev.host) (no_threads 100) x /\
    threads x !! 0%nat = Some (Returned (lit "https://kds.example/vcek") 100 (Ok b)) /\
    fresh (HH := RefSev.host) 100 (lit "https://kds.example/vcek") b (clock (shared x)).
Proof.
  destruct (fetch_cert_bytes_cached (HH := RefSev.host) (lit "https://kds.example/vcek")
    (shared (no_threads 100))) as [r s'] eqn:E.
  assert (exists b, r = Ok b) as [b ->] by (vm_compute in E; injection E as <- _; eexists; reflexivity).
  pose proof (kds_threads_fresh (HH := RefSev.host) 100 (no_threads 100) (steps_refl _)) as (_ & _ & Hseq).
  pose proof (Hseq 0%nat (lit "https://kds.example/vcek") (Ok b) s' (lookup_empty _) E) as Hrun.
  eexists _, b. split; [exact Hrun|]. split; [apply lookup_insert_eq|].
  exact (proj1 (kds_threads_fresh (HH := RefSev.host) 100 _ Hrun) 0%nat _ _ (Ok b) (lookup_insert_eq _ _ _)).
Defined.
