(* ===== verification/Launcher.v ===== *)
(** * The launcher's HTTP reply

    The part of [crates/relay-attest/src/gcp_confidential_space.rs] that asks the
    Confidential Space launcher for a token over a Unix socket and parses its
    reply by hand, chunked transfer encoding included. *)

From S2P Require Import Prelude RustStr Extern Attest.

Local Open Scope N_scope.

Definition generation_failed (msg : bytes) : AttestError := GenerationFailed msg.

(** ** Chunked bodies *)

(** The size a chunk header announces: hexadecimal before an optional extension. *)
Definition chunk_size (size_line : bytes) : option N :=
  from_str_radix16 (trim (default [] (head (split_char ";"%byte size_line)))).

Section chunked.
Context {BP : BuildProfile}.

(** One round of the loop of [decode_chunked_body] at position [pos]: [None] at the last
    chunk, else the chunk and the position after it. *)
Definition chunk_step (body : bytes) (pos : N) : attest_result (option (bytes * N)) :=
  rest ← slice_idx body pos (len body);
  idx ← ok_or (len ∘ fst <$> find_at crlf rest)
    (generation_failed (lit "chunked launcher token response has unterminated chunk header"));
  let line_end := pos + idx in
  size_line ← slice_idx body pos line_end;
  _ ← ensure (utf8_valid size_line)
    (generation_failed (lit "chunked launcher token response chunk header is not UTF-8"));
  size ← ok_or (chunk_size size_line)
    (generation_failed (lit "chunked launcher token response has invalid chunk size"));
  pos' ← usize_add line_end 2;
  if size =? 0 then Ok None
  else
    chunk_end ← ok_or (checked_add pos' size)
      (generation_failed (lit "chunked launcher token response chunk size overflow"));
    past ← usize_add chunk_end 2;
    _ ← ensure (negb (len body <? past))
      (generation_failed (lit "chunked launcher token response chunk is truncated"));
    mark ← slice_idx body chunk_end past;
    _ ← ensure (bool_decide (mark = crlf))
      (generation_failed (lit "chunked launcher token response chunk is truncated"));
    chunk ← slice_idx body pos' chunk_end;
    Ok (Some (chunk, past)).

(** [None] is an exhausted fuel. *)
Fixpoint chunked_loop (fuel : nat) (body : bytes) (pos : N) (out : bytes)
  : option (attest_result bytes) :=
  match fuel with
  | O => None
  | S fuel' =>
      match chunk_step body pos with
      | Ok None => Some (Ok out)
      | Ok (Some (chunk, past)) => chunked_loop fuel' body past (out ++ chunk)
      | Err e => Some (Err e)
      | Panic => Some Panic
      end
  end.

Definition decode_chunked_body (body : bytes) : attest_result bytes :=
  default Panic (chunked_loop (S (length body)) body 0 []).
End chunked.

(** ** The reply *)

(** Cutting ASCII whitespace at both ends. *)
Definition trim_ascii (b : bytes) : bytes :=
  trim_end_matches is_ascii_whitespace (drop_while is_ascii_whitespace b).

Definition header_terminator : bytes := crlf ++ crlf.

Definition is_chunked_header (line : bytes) : bool :=
  match split_once ":"%byte line with
  | Some (name, value) =>
      eq_ignore_ascii_case name (lit "transfer-encoding")
      && contains (lit "chunked") (to_ascii_lowercase value)
  | None => false
  end.

Definition parse_http_token_response {BP : BuildProfile} (response : bytes) : attest_result bytes :=
  idx ← ok_or (len ∘ fst <$> find_at header_terminator response)
    (generation_failed (lit "launcher token response lacks HTTP headers"));
  let header_end := idx + 4 in
  headers ← slice_idx response 0 header_end;
  _ ← ensure (utf8_valid headers)
    (generation_failed (lit "launcher token response headers not UTF-8"));
  let status := default [] (head (lines headers)) in
  rest ← slice_idx response header_end (len response);
  _ ← ensure (contains (lit " 200 ") status)
    (generation_failed (lit "launcher token request failed: " ++ status));
  body ← (if existsb is_chunked_header (lines headers) then decode_chunked_body rest else Ok rest);
  let body := trim_ascii body in
  _ ← ensure (negb (bool_decide (body = [])))
    (generation_failed (lit "launcher returned an empty token"));
  Ok body.

(** ** The request *)

Definition TOKEN_URL_PATH : bytes := lit "/v1/token".
Definition SOCKET_WAIT_TIMEOUT : N := 60 * 1000.
Definition SOCKET_WAIT_INTERVAL : N := 250.

Definition token_request_head (body_len : N) : bytes :=
  lit "POST " ++ TOKEN_URL_PATH ++ lit " HTTP/1.1" ++ crlf ++ lit "Host: localhost" ++ crlf
  ++ lit "Content-Type: application/json" ++ crlf ++ lit "Content-Length: " ++ dec body_len ++ crlf
  ++ lit "Connection: close" ++ crlf ++ crlf.

(** The Unix socket: whether connecting at a time (in milliseconds) succeeds, whether
    writing succeeds, and everything the launcher sends for a request. *)
Class LauncherSocket := {
  socket_connects : bytes -> N -> bool;
  socket_write_ok : bytes -> bool;
  socket_reply : bytes -> option bytes;
}.

Section request.
Context {LS : LauncherSocket} {BP : BuildProfile}.

Definition can_connect_launcher_socket (socket_path : bytes) (now : N) : bool :=
  socket_connects socket_path now.

(** Polling until the timeout: [Some t] is a connection at time [t]. The number of
    rounds that fit in the timeout bounds the loop. *)
Fixpoint connect_loop (rounds : nat) (socket_path : bytes) (elapsed timeout : N) : option N :=
  match rounds with
  | O => None
  | S rounds' =>
      if elapsed <=? timeout then
        if socket_connects socket_path elapsed then Some elapsed
        else connect_loop rounds' socket_path (elapsed + SOCKET_WAIT_INTERVAL) timeout
      else None
  end.
Definition connect_launcher_socket (socket_path : bytes) (timeout : N) : attest_result N :=
  ok_or (connect_loop (S (N.to_nat (timeout / SOCKET_WAIT_INTERVAL))) socket_path 0 timeout)
    (generation_failed (lit "connect Confidential Space launcher socket " ++ socket_path)).

Definition request_token_over_stream (body : bytes) : attest_result bytes :=
  _ ← ensure (socket_write_ok (token_request_head (len body)))
    (generation_failed (lit "write token request headers"));
  _ ← ensure (socket_write_ok body) (generation_failed (lit "write token request body"));
  response ← ok_or (socket_reply (token_request_head (len body) ++ body))
    (generation_failed (lit "read token response"));
  parse_http_token_response response.

Definition request_token_over_unix_socket (socket_path body : bytes) : attest_result bytes :=
  _ ← connect_launcher_socket socket_path SOCKET_WAIT_TIMEOUT;
  request_token_over_stream body.
End request.

(** The rounds suffice: past them the timeout has expired, and more rounds change nothing. *)
Section polling.
Context {LS : LauncherSocket}.

Lemma connect_loop_expired rounds path elapsed timeout : timeout < elapsed ->
  connect_loop rounds path elapsed timeout = None.
Proof.
  intros H. destruct rounds as [|r]; cbn [connect_loop]; [done|].
  destruct (N.leb_spec elapsed timeout); [lia|done].
Qed.

Lemma connect_loop_more rounds k path elapsed timeout :
  timeout < elapsed + N.of_nat rounds * SOCKET_WAIT_INTERVAL ->
  connect_loop (rounds + k) path elapsed timeout = connect_loop rounds path elapsed timeout.
Proof.
  revert elapsed. induction rounds as [|r IH]; intros elapsed H.
  - rewrite !connect_loop_expired by lia. done.
  - cbn [connect_loop Nat.add]. destruct (elapsed <=? timeout); [|done].
    destruct (socket_connects _ _); [done|]. apply IH. lia.
Qed.

Lemma connect_loop_enough k path timeout :
  let rounds := S (N.to_nat (timeout / SOCKET_WAIT_INTERVAL)) in
  connect_loop (rounds + k) path 0 timeout = connect_loop rounds path 0 timeout.
Proof.
  intros rounds. apply connect_loop_more. subst rounds.
  pose proof (N.mul_succ_div_gt timeout SOCKET_WAIT_INTERVAL ltac:(done)). lia.
Qed.
End polling.

(** ** The grammar of chunked bodies *)

Inductive chunked : bytes -> bytes -> Prop :=
  | chunked_last line rest :
      contains crlf line = false -> utf8_valid line = true -> chunk_size line = Some 0 ->
      chunked (line ++ crlf ++ rest) []
  | chunked_more line c rest out :
      contains crlf line = false -> utf8_valid line = true -> chunk_size line = Some (len c) ->
      c <> [] -> chunked rest out ->
      chunked (line ++ crlf ++ c ++ crlf ++ rest) (c ++ out).

(** ** Facts *)

Lemma slice_from {E} (l : bytes) n : n <= len l ->
  slice_idx (E:=E) l n (len l) = Ok (drop (N.to_nat n) l).
Proof.
  intros Hn. apply slice_idx_Ok, slice_get_Some. split; [lia|].
  rewrite take_ge; [done|]. unfold len in *. rewrite length_drop. lia.
Qed.

Lemma slice_of_drop l n a b (p s t : bytes) :
  drop (N.to_nat n) l = p ++ s ++ t -> n <= len l -> a = n + len p -> b = n + len p + len s ->
  slice_get l a b = Some s.
Proof.
  intros Hd Hn -> ->.
  assert (Hr : slice_get l n (len l) = Some (drop (N.to_nat n) l)).
  { rewrite <-(slice_idx_Ok (E:=Empty_set)). by apply slice_from. }
  rewrite Hd in Hr. rewrite <-N.add_assoc.
  exact (slice_get_slice _ _ _ _ _ _ _ Hr (slice_get_here p s t)).
Qed.

Section chunk_facts.
Context {BP : BuildProfile}.

Definition body_fits (body : bytes) : Prop := len body < 2 ^ 63.

Lemma usize_add_small {E} a b : a + b < 2 ^ 63 + 2 -> usize_add (E:=E) a b = Ok (a + b).
Proof.
  intros H. unfold usize_add, usize_max. destruct (N.leb_spec (a + b) (2 ^ 64 - 1)); [done|lia].
Qed.

(** What a header line at a position is. *)
Definition header_at (rest line tail : bytes) (size : N) : Prop :=
  rest = line ++ crlf ++ tail /\ contains crlf line = false /\ utf8_valid line = true /\
  chunk_size line = Some size.

Lemma find_crlf line tail : contains crlf line = false ->
  find_at crlf (line ++ crlf ++ tail) = Some (line, crlf ++ tail).
Proof. apply (find_at_first byte_cr [byte_lf]). apply (bool_decide_unpack _). by vm_compute. Qed.

Lemma find_crlf_Some rest line r : find_at crlf rest = Some (line, r) ->
  exists tail, rest = line ++ crlf ++ tail /\ contains crlf line = false.
Proof.
  intros H. pose proof H as H'. apply find_at_Some in H as [-> Hs].
  apply starts_with_true in Hs as [tail ->]. exists tail. split; [done|].
  destruct (contains crlf line) eqn:Hc; [|done]. exfalso.
  apply contains_true in Hc as (p & q & ->).
  assert (Hp : exists p' r', find_at crlf ((p ++ crlf ++ q) ++ crlf ++ tail) = Some (p', r') /\
    (length p' <= length p)%nat).
  { clear. induction p as [|b p IH].
    - cbn [app]. eexists [], _. split; [reflexivity|simpl; lia].
    - cbn [app find_at] in *. destruct (starts_with crlf (b :: _)); [by eexists [], _; split; [|simpl; lia]|].
      destruct IH as (p' & r' & -> & ?). eexists _, _. split; [done|simpl; lia]. }
  destruct Hp as (p' & r' & Hf & Hl). rewrite H' in Hf. injection Hf as <- _.
  rewrite !length_app in Hl. simpl in Hl. lia.
Qed.

Lemma chunk_step_header body pos : body_fits body -> pos <= len body ->
  match find_at crlf (drop (N.to_nat pos) body) with
  | None => exists e, chunk_step body pos = Err e
  | Some (line, r) => exists tail, drop (N.to_nat pos) body = line ++ crlf ++ tail /\
      contains crlf line = false /\ pos + len line + 2 + len tail = len body /\
      chunk_step body pos =
        (_ ← ensure (utf8_valid line)
           (generation_failed (lit "chunked launcher token response chunk header is not UTF-8"));
         size ← ok_or (chunk_size line)
           (generation_failed (lit "chunked launcher token response has invalid chunk size"));
         if size =? 0 then Ok None
         else
           chunk_end ← ok_or (checked_add (pos + len line + 2) size)
             (generation_failed (lit "chunked launcher token response chunk size overflow"));
           past ← usize_add chunk_end 2;
           _ ← ensure (negb (len body <? past))
             (generation_failed (lit "chunked launcher token response chunk is truncated"));
           mark ← slice_idx body chunk_end past;
           _ ← ensure (bool_decide (mark = crlf))
             (generation_failed (lit "chunked launcher token response chunk is truncated"));
           chunk ← slice_idx body (pos + len line + 2) chunk_end;
           Ok (Some (chunk, past)))
  end.
Proof.
  intros Hf Hp. unfold chunk_step. rewrite slice_from by done. simp_out.
  destruct (find_at crlf (drop (N.to_nat pos) body)) as [[line r]|] eqn:Hfind.
  - cbn [fmap option_fmap option_map compose fst]. simp_out.
    apply find_crlf_Some in Hfind as (tail & Hd & Hc). exists tail.
    assert (Hlen : pos + len line + 2 + len tail = len body).
    { apply (f_equal (@length _)) in Hd. rewrite length_drop, !length_app in Hd.
      change (length crlf) with 2%nat in Hd. unfold len in *. lia. }
    split_and!; [done..|].
    rewrite (proj2 (slice_idx_Ok (E:=AttestError) body line pos (pos + len line))); [|].
    2: { apply (slice_of_drop body pos _ _ [] line (crlf ++ tail)); [done|done| |];
           change (len []) with 0; lia. }
    simp_out. destruct (utf8_valid line); simp_out; [|done].
    destruct (chunk_size line) as [size|]; simp_out; [|done].
    unfold body_fits in Hf. rewrite usize_add_small by lia. simp_out. done.
  - cbn [fmap option_fmap option_map]. simp_out. eauto.
Qed.

Lemma chunk_step_None body pos : body_fits body -> pos <= len body ->
  chunk_step body pos = Ok None <->
  exists line tail, header_at (drop (N.to_nat pos) body) line tail 0.
Proof.
  intros Hf Hp. pose proof (chunk_step_header body pos Hf Hp) as Hh. unfold header_at.
  destruct (find_at crlf _) as [[line r]|] eqn:Hfind.
  - destruct Hh as (tail & Hd & Hc & Hl & ->). split.
    + intros H. inv_outcome. destruct (N.eqb_spec x0 0) as [->|]; [eauto 10|].
      inv_outcome.
    + intros (line' & tail' & Hd' & Hc' & Hu & Hs). rewrite Hd', find_crlf in Hfind by done.
      injection Hfind as <- _. by rewrite Hu, Hs.
  - destruct Hh as [e ->]. split; [done|]. intros (line & tail & Hd & Hc & _).
    by rewrite Hd, find_crlf in Hfind.
Qed.

Lemma chunk_step_Some body pos c past : body_fits body -> pos <= len body ->
  chunk_step body pos = Ok (Some (c, past)) <->
  exists line tail, header_at (drop (N.to_nat pos) body) line (c ++ crlf ++ tail) (len c) /\
    c <> [] /\ past = pos + len line + 2 + len c + 2.
Proof.
  intros Hf Hp. pose proof (chunk_step_header body pos Hf Hp) as Hh. unfold header_at, body_fits in *.
  destruct (find_at crlf _) as [[line r]|] eqn:Hfind.
  - destruct Hh as (tail & Hd & Hc & Hl & ->). split.
    + intros H. inv_outcome. destruct (N.eqb_spec x0 0) as [|Hz]; [done|]. inv_outcome.
      repeat match goal with H : slice_idx _ _ _ = Ok _ |- _ => apply slice_idx_Ok in H end.
      match goal with H : checked_add _ _ = Some _ |- _ => apply checked_add_Some in H as [-> Hmax] end.
      split_bool. simplify_eq.
      match goal with H : usize_add _ _ = Ok _ |- _ => rename H into Hadd end.
      match goal with H : slice_get _ (pos + len line + 2) _ = Some c |- _ => rename H into Hchunk end.
      match goal with H : slice_get _ _ past = Some _ |- _ => rename H into Hmark end.
      pose proof (proj1 (slice_get_Some _ _ _ _) Hmark) as [[Hle Hle'] _].
      assert (past = pos + len line + 2 + x0 + 2) as ->.
      { apply usize_add_Ok in Hadd as [?|?]; [done|lia|exact Hmax|by vm_compute]. }
      pose proof (slice_get_length _ _ _ _ Hchunk) as Lc.
      apply slice_get_drop in Hchunk, Hmark.
      exists line, (drop (N.to_nat (pos + len line + 2 + x0 + 2)) body).
      assert (Ht : tail = drop (N.to_nat (pos + len line + 2)) body).
      { replace (N.to_nat (pos + len line + 2)) with (N.to_nat pos + (length line + 2))%nat
          by (unfold len; lia).
        rewrite <-drop_drop, Hd, app_assoc.
        replace (length line + 2)%nat with (length (line ++ crlf)) by (rewrite length_app; done).
        by rewrite drop_app_length. }
      rewrite <-Hmark, <-Hchunk, <-Ht. replace (len c) with x0 by lia.
      split_and!; try done. intros ->. apply Hz. change (len []) with 0 in Lc. lia.
    + intros (line' & tail' & (Hd' & Hc' & Hu & Hs) & Hne & ->).
      rewrite Hd', find_crlf in Hfind by done. injection Hfind as -> _.
      assert (Hlen : pos + len line + 2 + len c + 2 <= len body).
      { rewrite Hd in Hd'. apply app_inv_head, app_inv_head in Hd'. subst tail.
        rewrite !len_app in Hl. change (len crlf) with 2 in Hl. lia. }
      rewrite Hu, Hs. simp_out.
      assert (Hz : (len c =? 0) = false).
      { apply N.eqb_neq. destruct c; [done|]. rewrite len_cons. lia. }
      rewrite Hz. unfold checked_add, usize_max.
      destruct (N.leb_spec (pos + len line + 2 + len c) (2 ^ 64 - 1)); [|lia]. simp_out.
      rewrite usize_add_small by lia. simp_out.
      destruct (N.ltb_spec (len body) (pos + len line + 2 + len c + 2)); [lia|]. cbn [negb]. simp_out.
      rewrite (proj2 (slice_idx_Ok (E:=AttestError) body crlf (pos + len line + 2 + len c)
        (pos + len line + 2 + len c + 2)));
        [|apply (slice_of_drop body pos _ _ (line ++ crlf ++ c) crlf tail');
          [by rewrite Hd', <-!app_assoc|done|..]; rewrite !len_app; change (len crlf) with 2; lia].
      simp_out. rewrite bool_decide_eq_true_2 by done. simp_out.
      rewrite (proj2 (slice_idx_Ok (E:=AttestError) body c (pos + len line + 2)
        (pos + len line + 2 + len c)));
        [|apply (slice_of_drop body pos _ _ (line ++ crlf) c (crlf ++ tail'));
          [by rewrite Hd', <-!app_assoc|done|..]; rewrite !len_app; change (len crlf) with 2; lia].
      done.
  - destruct Hh as [e ->]. split; [done|]. intros (line & tail & (Hd & Hc & _) & _).
    by rewrite Hd, find_crlf in Hfind.
Qed.

(** *** The loop *)

Lemma header_at_length body pos line tail size :
  pos <= len body -> header_at (drop (N.to_nat pos) body) line tail size ->
  pos + len line + 2 + len tail = len body.
Proof.
  intros Hp (Hd & _). apply (f_equal (@length _)) in Hd.
  rewrite length_drop, !length_app in Hd. change (length crlf) with 2%nat in Hd. unfold len in *. lia.
Qed.

Lemma chunked_loop_terminates fuel body pos out :
  body_fits body -> pos <= len body -> (length body < fuel + N.to_nat pos)%nat ->
  chunked_loop fuel body pos out <> None.
Proof.
  intros Hf. revert pos out. induction fuel as [|fuel IH]; intros pos out Hp Hfuel;
    [unfold len in Hp; lia|]. cbn [chunked_loop].
  destruct (chunk_step body pos) as [[[c past]|]| |] eqn:Hs; try done.
  apply chunk_step_Some in Hs as (line & tail & Hh & _ & ->); [|done..].
  pose proof (header_at_length _ _ _ _ _ Hp Hh) as Hl. rewrite !len_app in Hl.
  change (len crlf) with 2 in Hl. apply IH; lia.
Qed.

Lemma drop_next body pos line c tail size :
  header_at (drop (N.to_nat pos) body) line (c ++ crlf ++ tail) size ->
  drop (N.to_nat (pos + len line + 2 + len c + 2)) body = tail.
Proof.
  intros (Hd & _).
  replace (N.to_nat (pos + len line + 2 + len c + 2))
    with (N.to_nat pos + length (line ++ crlf ++ c ++ crlf))%nat
    by (rewrite !length_app; change (length crlf) with 2%nat; unfold len; lia).
  rewrite <-drop_drop, Hd. replace (line ++ crlf ++ c ++ crlf ++ tail)
    with ((line ++ crlf ++ c ++ crlf) ++ tail) by (by rewrite <-!app_assoc).
  by rewrite drop_app_length.
Qed.

Lemma chunked_loop_Ok fuel body pos out res :
  body_fits body -> pos <= len body -> (length body < fuel + N.to_nat pos)%nat ->
  chunked_loop fuel body pos out = Some (Ok res) <->
  exists o, chunked (drop (N.to_nat pos) body) o /\ res = out ++ o.
Proof.
  intros Hf. revert pos out. induction fuel as [|fuel IH]; intros pos out Hp Hfuel;
    [unfold len in Hp; lia|]. cbn [chunked_loop]. split.
  - destruct (chunk_step body pos) as [[[c past]|]| |] eqn:Hs; try done.
    + apply chunk_step_Some in Hs as (line & tail & Hh & Hne & ->); [|done..].
      pose proof (header_at_length _ _ _ _ _ Hp Hh) as Hl. rewrite !len_app in Hl.
      change (len crlf) with 2 in Hl. rewrite IH by lia. intros (o & Ho & ->).
      rewrite (drop_next _ _ _ _ _ _ Hh) in Ho. destruct Hh as (-> & ? & ? & ?).
      exists (c ++ o). split; [by constructor|]. by rewrite app_assoc.
    + apply chunk_step_None in Hs as (line & tail & -> & ? & ? & ?); [|done..].
      intros [= <-]. exists []. rewrite app_nil_r. split; [by constructor|done].
  - intros (o & Ho & ->). inversion Ho as [line tail Hc Hu Hs Hd|line c tail o' Hc Hu Hs Hne Ho' Hd].
    + rewrite (proj2 (chunk_step_None body pos Hf Hp)); [by rewrite app_nil_r|].
      exists line, tail. by rewrite <-Hd.
    + assert (Hh : header_at (drop (N.to_nat pos) body) line (c ++ crlf ++ tail) (len c))
        by (by rewrite <-Hd).
      pose proof (header_at_length _ _ _ _ _ Hp Hh) as Hl. rewrite !len_app in Hl.
      change (len crlf) with 2 in Hl.
      rewrite (proj2 (chunk_step_Some body pos c (pos + len line + 2 + len c + 2) Hf Hp)) by eauto.
      rewrite H0, IH by lia. exists o'. rewrite (drop_next _ _ _ _ _ _ Hh), <-H0, app_assoc. done.
Qed.
End chunk_facts.

(** ** Properties *)

(** C34: The chunk decoder terminates and implements the grammar: with the fuel of the body's
    length it never runs out, so every fuel from there on gives its result, and it
    returns a body exactly when the input is a sequence of chunks ended by a chunk of
    size zero, extensions and trailers ignored, whose contents are the result. *)
Theorem decode_chunked_spec {BP : BuildProfile} (body out : bytes) (Hfits : body_fits body) :
  chunked_loop (S (length body)) body 0 [] = Some (decode_chunked_body body) /\
  (decode_chunked_body body = Ok out <-> chunked body out).
Proof.
  pose proof (chunked_loop_terminates (S (length body)) body 0 [] Hfits ltac:(lia) ltac:(lia)) as Ht.
  unfold decode_chunked_body. destruct (chunked_loop _ _ _ _) as [r|] eqn:E; [|done].
  split; [done|]. cbn [default]. unfold default, from_option, id.
  pose proof (chunked_loop_Ok (S (length body)) body 0 [] out Hfits ltac:(lia) ltac:(lia)) as H.
  rewrite E in H. rewrite drop_0 in H. split.
  - intros ->. by destruct (proj1 H eq_refl) as (o & Ho & ->).
  - intros Hc. assert (Some r = Some (Ok out)) as [= ->]; [|done]. apply H. by exists out.
Qed.

Definition sample_chunked : bytes :=
  lit "4" ++ crlf ++ lit "abc." ++ crlf ++ lit "7;x=y" ++ crlf ++ lit "def.ghi" ++ crlf
  ++ lit "0" ++ crlf ++ crlf.

Lemma decode_chunked_spec_witness : chunked sample_chunked (lit "abc.def.ghi").
Proof.
  apply (decode_chunked_spec (BP := true) sample_chunked (lit "abc.def.ghi"));
    vm_compute; reflexivity.
Defined.

(** The overflow check of the decoder is incomplete: a chunk size that puts the end of the
    chunk one or two below 2^64 passes [checked_add] and then panics, with overflow checks
    at the addition and without at the slice whose end wrapped around. *)
Theorem chunk_size_panics {BP : BuildProfile} (line rest : bytes) (size : N)
  (Hfits : body_fits (line ++ crlf ++ rest))
  (Hline : contains crlf line = false) (Hutf : utf8_valid line = true)
  (Hsize : chunk_size line = Some size)
  (Hend : len line + 2 + size = 2 ^ 64 - 2 \/ len line + 2 + size = 2 ^ 64 - 1) :
  decode_chunked_body (line ++ crlf ++ rest) = Panic.
Proof.
  set (body := line ++ crlf ++ rest).
  assert (Hs : chunk_step body 0 = Panic).
  { pose proof (chunk_step_header body 0 Hfits ltac:(lia)) as Hh. rewrite drop_0 in Hh.
    unfold body at 1 in Hh. rewrite find_crlf in Hh by done.
    destruct Hh as (tail & _ & _ & _ & ->). rewrite Hutf, Hsize. simp_out.
    assert (Hl : len line < 2 ^ 63) by (unfold body_fits in Hfits; rewrite len_app in Hfits; lia).
    destruct (N.eqb_spec size 0) as [->|_]; [exfalso; lia|].
    rewrite N.add_0_l. unfold checked_add.
    destruct (N.leb_spec (len line + 2 + size) usize_max) as [_|H]; [|unfold usize_max in H; lia].
    simp_out. unfold usize_add.
    destruct (N.leb_spec (len line + 2 + size + 2) usize_max) as [H|_]; [unfold usize_max in H; lia|].
    destruct overflow_checks; simp_out; [done|].
    assert (Hw : (len line + 2 + size + 2) mod 2 ^ 64 <= 1).
    { replace (len line + 2 + size + 2) with ((len line + 2 + size + 2 - 2 ^ 64) + 1 * 2 ^ 64) by lia.
      rewrite N.Div0.mod_add, N.mod_small; lia. }
    destruct (N.ltb_spec (len body) ((len line + 2 + size + 2) mod 2 ^ 64)) as [Hb|_].
    { unfold body in Hb. rewrite !len_app in Hb. change (len crlf) with 2 in Hb. lia. }
    set (past := (_ mod _)) in *. simp_out.
    assert (Hm : slice_idx (E:=AttestError) body (len line + 2 + size) past = Panic).
    { unfold slice_idx. by rewrite (proj2 (slice_get_None body _ _)) by (left; lia). }
    by rewrite Hm. }
  unfold decode_chunked_body. cbn [chunked_loop]. by rewrite Hs.
Qed.

Lemma chunk_size_panics_witness :
  decode_chunked_body (BP := false) (lit "ffffffffffffffed" ++ crlf ++ lit "token") = Panic.
Proof.
  apply (chunk_size_panics (lit "ffffffffffffffed") (lit "token") 0xffffffffffffffed);
    [vm_compute; reflexivity..|].
  right. vm_compute. reflexivity.
Defined.
