(* ===== verification/GcpPolicy.v ===== *)
(** * Confidential Space: nonces, attester and policy

    The parts of [crates/relay-attest/src/gcp_confidential_space.rs] around the
    64 bytes of report data: their encoding into two token nonces, the attester
    that requests such a token, and the verifier's policy. *)

From S2P Require Import Prelude RustStr Extern Attest Launcher.

Local Open Scope N_scope.

Definition DEFAULT_SOCKET_PATH : bytes := lit "/run/container_launcher/teeserver.sock".
Definition DEFAULT_ISSUER : bytes := lit "https://confidentialcomputing.googleapis.com".
Definition DEFAULT_AUDIENCE : bytes := lit "trusted-relay-attested-tls".
Definition DEFAULT_TOKEN_TYPE : bytes := lit "OIDC".
Definition NONCE_SPKI_PREFIX : bytes := lit "trr1s.".
Definition NONCE_CONFIG_PREFIX : bytes := lit "trr1c.".

Definition verification_failed (msg : bytes) : AttestError := VerificationFailed msg.

(** ** Nonces *)

Inductive NonceClaim :=
  | One (nonce : bytes)
  | Many (nonces : list bytes).

Section nonces.
Context {B64 : Base64Crate}.

Definition reportdata_nonces (reportdata : bytes) : list bytes :=
  [NONCE_SPKI_PREFIX ++ b64url_encode (take 48 reportdata);
   NONCE_CONFIG_PREFIX ++ b64url_encode (take 16 (drop 48 reportdata))].

Definition reportdata_nonce (reportdata : bytes) : bytes :=
  join (lit ",") (reportdata_nonces reportdata).

Definition decode_nonce_part (encoded : bytes) (n : N) (label : bytes) : attest_result bytes :=
  b ← ok_or (b64url_decode encoded) (verification_failed
    (lit "Confidential Space " ++ label ++ lit " nonce is not base64url"));
  _ ← ensure (len b =? n) (verification_failed
    (lit "Confidential Space " ++ label ++ lit " nonce decoded to " ++ dec (len b)
     ++ lit " bytes, expected " ++ dec n));
  Ok b.

(** One round of the loop over the nonces; the state is [(spki, config)]. *)
Definition nonce_step (st : option bytes * option bytes) (nonce : bytes)
  : attest_result (option bytes * option bytes) :=
  match strip_prefix NONCE_SPKI_PREFIX nonce with
  | Some encoded => b ← decode_nonce_part encoded 48 (lit "SPKI"); Ok (Some b, st.2)
  | None =>
      match strip_prefix NONCE_CONFIG_PREFIX nonce with
      | Some encoded => b ← decode_nonce_part encoded 16 (lit "config"); Ok (st.1, Some b)
      | None => Ok st
      end
  end.

Definition claim_nonces (nonce_claim : NonceClaim) : list bytes :=
  match nonce_claim with
  | One nonce => split_char ","%byte nonce
  | Many nonces => nonces
  end.

Definition nonce_reportdata (nonce_claim : NonceClaim) : attest_result bytes :=
  st ← try_fold nonce_step (None, None) (claim_nonces nonce_claim);
  spki ← ok_or st.1
    (verification_failed (lit "Confidential Space token lacks trusted-relay SPKI nonce"));
  config ← ok_or st.2
    (verification_failed (lit "Confidential Space token lacks trusted-relay config nonce"));
  Ok (copy_at 48 config (copy_at 0 spki (zeros 64))).
End nonces.

(** ** Digests and addresses *)

Definition normalize_digest (raw : bytes) : bytes :=
  let clean := to_ascii_lowercase (trim raw) in
  if starts_with (lit "sha256:") clean then clean else lit "sha256:" ++ clean.

Definition validate_image_digest (raw : bytes) : attest_result unit :=
  let hex := trim_start_matches (lit "sha256:") (normalize_digest raw) in
  ensure ((len hex =? 64) && forallb is_ascii_hexdigit hex)
    (verification_failed
       (lit "Confidential Space image digest must be sha256:<64 hex>, got " ++ raw)).

Definition validate_https_url {UC : UrlCrate} (raw label : bytes) : attest_result unit :=
  parsed ← ok_or (url_parse raw) (verification_failed (label ++ lit " is invalid"));
  _ ← ensure (bool_decide (u_scheme parsed = lit "https"))
    (verification_failed (label ++ lit " must use https: " ++ raw));
  ensure (bool_decide (is_Some (u_host_str parsed)) && bool_decide (u_username parsed = [])
          && negb (bool_decide (is_Some (u_password parsed))))
    (verification_failed (label ++ lit " must be an https URL without userinfo: " ++ raw)).

(** ** Environment *)

Class Environment := env_var : bytes -> option bytes.

Definition split_env {EV : Environment} (name : bytes) : list bytes :=
  match env_var name with
  | Some v => filter (fun s => s <> []) (map trim (split_char ","%byte v))
  | None => []
  end.

(** ** The attester *)

Record GcpConfidentialSpaceAttester := {
  attester_audience : bytes;
  socket_path : bytes;
  token_type : bytes;
}.

Definition attester_new (audience : bytes) : GcpConfidentialSpaceAttester := {|
  attester_audience := audience; socket_path := DEFAULT_SOCKET_PATH;
  token_type := DEFAULT_TOKEN_TYPE |}.

Definition attester_from_env {EV : Environment} : GcpConfidentialSpaceAttester := {|
  attester_audience := default DEFAULT_AUDIENCE (env_var (lit "TRUSTED_RELAY_GCP_CS_AUDIENCE"));
  socket_path := default DEFAULT_SOCKET_PATH (env_var (lit "TRUSTED_RELAY_GCP_CS_SOCKET"));
  token_type := DEFAULT_TOKEN_TYPE |}.

Definition with_socket_path (p : bytes) (a : GcpConfidentialSpaceAttester)
  : GcpConfidentialSpaceAttester := {|
  attester_audience := attester_audience a; socket_path := p; token_type := token_type a |}.
Definition with_token_type (t : bytes) (a : GcpConfidentialSpaceAttester)
  : GcpConfidentialSpaceAttester := {|
  attester_audience := attester_audience a; socket_path := socket_path a; token_type := t |}.

Record TokenRequest := {
  tr_audience : bytes;
  tr_token_type : bytes;
  tr_nonces : list bytes;
}.
(** The code [serde_json] derives for the request. *)
Class TokenRequestJson := token_request_to_vec : TokenRequest -> bytes.

Definition token_request {B64 : Base64Crate} (a : GcpConfidentialSpaceAttester)
  (user_data : bytes) : TokenRequest := {|
  tr_audience := attester_audience a; tr_token_type := token_type a;
  tr_nonces := reportdata_nonces user_data |}.

#[global] Instance GcpConfidentialSpaceAttester_attest {B64 : Base64Crate}
  {TJ : TokenRequestJson} {LS : LauncherSocket} {BP : BuildProfile}
  : Attester GcpConfidentialSpaceAttester := fun a user_data =>
  token ← request_token_over_unix_socket (socket_path a)
    (token_request_to_vec (token_request a user_data));
  Ok {| tee_type := GcpConfidentialSpace; data := token |}.

(** ** The policy *)

Record GcpConfidentialSpacePolicy := {
  audience : bytes;
  image_digest : option bytes;
  image_reference : option bytes;
  signature_key_ids : list bytes;
  service_account : option bytes;
  project_id : option bytes;
  zone : option bytes;
  instance_name : option bytes;
  require_debug_disabled : bool;
  require_confidential_space : bool;
  require_secure_boot : bool;
  issuer : bytes;
  jwks_uri : option bytes;
}.

Definition policy_new (aud : bytes) : GcpConfidentialSpacePolicy := {|
  audience := aud; image_digest := None; image_reference := None; signature_key_ids := [];
  service_account := None; project_id := None; zone := None; instance_name := None;
  require_debug_disabled := true; require_confidential_space := true;
  require_secure_boot := true; issuer := DEFAULT_ISSUER; jwks_uri := None |}.

Definition policy_from_env {EV : Environment} : GcpConfidentialSpacePolicy :=
  let base := policy_new
    (default DEFAULT_AUDIENCE (env_var (lit "TRUSTED_RELAY_GCP_CS_AUDIENCE"))) in {|
  audience := audience base;
  image_digest := env_var (lit "TRUSTED_RELAY_GCP_CS_IMAGE_DIGEST");
  image_reference := env_var (lit "TRUSTED_RELAY_GCP_CS_IMAGE_REFERENCE");
  signature_key_ids := split_env (lit "TRUSTED_RELAY_GCP_CS_SIGNATURE_KEY_ID");
  service_account := env_var (lit "TRUSTED_RELAY_GCP_CS_SERVICE_ACCOUNT");
  project_id := env_var (lit "TRUSTED_RELAY_GCP_CS_PROJECT_ID");
  zone := env_var (lit "TRUSTED_RELAY_GCP_CS_ZONE");
  instance_name := env_var (lit "TRUSTED_RELAY_GCP_CS_INSTANCE_NAME");
  require_debug_disabled := require_debug_disabled base;
  require_confidential_space := require_confidential_space base;
  require_secure_boot := require_secure_boot base;
  issuer := issuer base;
  jwks_uri := env_var (lit "TRUSTED_RELAY_GCP_CS_JWKS_URI") |}.

Definition strict_for_image (aud digest : bytes) : GcpConfidentialSpacePolicy := {|
  audience := aud; image_digest := Some (normalize_digest digest); image_reference := None;
  signature_key_ids := []; service_account := None; project_id := None; zone := None;
  instance_name := None; require_debug_disabled := true; require_confidential_space := true;
  require_secure_boot := true; issuer := DEFAULT_ISSUER; jwks_uri := None |}.

Definition is_slash (b : byte) : bool := bool_decide (b = "/"%byte).

Section validate.
Context {UC : UrlCrate}.

Definition validate_metadata_sources (p : GcpConfidentialSpacePolicy) : attest_result unit :=
  _ ← ensure (negb (bool_decide (trim (audience p) = [])))
    (verification_failed (lit "Confidential Space audience must not be empty"));
  _ ← validate_https_url (issuer p) (lit "Confidential Space issuer");
  _ ← ensure (bool_decide (trim_end_matches is_slash (issuer p) = DEFAULT_ISSUER)
              || bool_decide (is_Some (jwks_uri p)))
    (verification_failed (lit "custom Confidential Space issuer requires an explicit jwks_uri"));
  match jwks_uri p with
  | Some uri => validate_https_url uri (lit "Confidential Space JWKS URI")
  | None => Ok tt
  end.

Definition policy_validate (p : GcpConfidentialSpacePolicy) : attest_result unit :=
  _ ← validate_metadata_sources p;
  _ ← ensure (bool_decide (is_Some (image_digest p)) || negb (bool_decide (signature_key_ids p = [])))
    (verification_failed (lit "Confidential Space policy must pin --gcp-cs-image-digest or --gcp-cs-signature-key-id"));
  match image_digest p with
  | Some digest => validate_image_digest digest
  | None => Ok tt
  end.
End validate.

(** ** Facts: nonces *)

Lemma join_char_split (c : byte) (ws : list bytes) :
  ws <> [] -> Forall (fun w => c ∉ w) ws -> split_char c (join [c] ws) = ws.
Proof.
  intros Hne Hf. induction Hf as [|w ws Hw Hf IH]; [done|].
  assert (Hbase : forall t, split_char c (w ++ c :: t) = w :: split_char c t).
  { intros t. clear -Hw. induction w as [|b w IHw]; cbn [app split_char].
    - by rewrite decide_True.
    - apply not_elem_of_cons in Hw as [Hb Hw]. rewrite decide_False by congruence.
      by rewrite (IHw Hw). }
  destruct ws as [|w' ws'].
  - clear -Hw. cbn [join]. induction w as [|b w IHw]; [done|]. cbn [split_char].
    apply not_elem_of_cons in Hw as [Hb Hw]. rewrite decide_False by congruence. by rewrite IHw.
  - change (join [c] (w :: w' :: ws')) with (w ++ c :: join [c] (w' :: ws')).
    rewrite Hbase. f_equal. by apply IH.
Qed.

(** A nonce that is neither of the two kinds. *)
Definition foreign (n : bytes) : Prop :=
  strip_prefix NONCE_SPKI_PREFIX n = None /\ strip_prefix NONCE_CONFIG_PREFIX n = None.

Section nonce_facts.
Context {B64 : Base64Crate} {B64L : Base64Laws}.

Lemma nonce_steps_foreign st l : Forall foreign l -> try_fold nonce_step st l = Ok st.
Proof.
  induction 1 as [|n l [H1 H2] _ IH]; [done|]. cbn [try_fold].
  assert (Hs : nonce_step st n = Ok st) by (unfold nonce_step; by rewrite H1, H2).
  by rewrite Hs.
Qed.

Lemma nonce_step_spki st b : length b = 48%nat ->
  nonce_step st (NONCE_SPKI_PREFIX ++ b64url_encode b) = Ok (Some b, st.2).
Proof.
  intros Hb. unfold nonce_step. rewrite strip_prefix_app. unfold decode_nonce_part.
  rewrite b64url_decode_encode. simp_out. unfold len. by rewrite Hb.
Qed.

Lemma nonce_step_config st b : length b = 16%nat ->
  nonce_step st (NONCE_CONFIG_PREFIX ++ b64url_encode b) = Ok (st.1, Some b).
Proof.
  intros Hb. unfold nonce_step.
  assert (Hp : strip_prefix NONCE_SPKI_PREFIX (NONCE_CONFIG_PREFIX ++ b64url_encode b) = None)
    by reflexivity.
  rewrite Hp, strip_prefix_app. unfold decode_nonce_part.
  rewrite b64url_decode_encode. simp_out. unfold len. by rewrite Hb.
Qed.

Lemma copy_parts (a b : bytes) : length a = 48%nat -> length b = 16%nat ->
  copy_at 48 b (copy_at 0 a (zeros 64)) = a ++ b.
Proof.
  intros Ha Hb. unfold copy_at, zeros. rewrite take_0, Nat.add_0_l, Ha, Hb. cbn [app].
  rewrite drop_replicate. cbn [Nat.sub]. rewrite take_app_le, take_ge by lia. f_equal.
  rewrite drop_ge, app_nil_r; [done|]. rewrite length_app, length_replicate. lia.
Qed.

Lemma nonces_decode rd pre mid post : length rd = 64%nat ->
  Forall foreign pre -> Forall foreign mid -> Forall foreign post ->
  nonce_reportdata (Many (pre ++ [NONCE_SPKI_PREFIX ++ b64url_encode (take 48 rd)] ++ mid ++
    [NONCE_CONFIG_PREFIX ++ b64url_encode (take 16 (drop 48 rd))] ++ post)) = Ok rd.
Proof.
  intros Hl H1 H2 H3. unfold nonce_reportdata. cbn [claim_nonces].
  assert (L1 : length (take 48 rd) = 48%nat) by (rewrite length_take; lia).
  assert (L2 : length (take 16 (drop 48 rd)) = 16%nat) by (rewrite length_take, length_drop; lia).
  rewrite !try_fold_app, nonce_steps_foreign by done. simp_out.
  cbn [app try_fold]. rewrite nonce_step_spki by done. simp_out.
  rewrite try_fold_app, nonce_steps_foreign by done. simp_out.
  cbn [app try_fold]. rewrite nonce_step_config by done. simp_out.
  rewrite nonce_steps_foreign by done. simp_out. cbn [fst snd]. simp_out.
  rewrite copy_parts by done. f_equal. rewrite (take_ge (drop 48 rd)) by (rewrite length_drop; lia).
  apply take_drop.
Qed.
End nonce_facts.

(** ** Properties *)

Lemma reportdata_nonces_decode {B64 : Base64Crate} {B64L : Base64Laws} rd : length rd = 64%nat ->
  nonce_reportdata (Many (reportdata_nonces rd)) = Ok rd.
Proof. intros Hl. apply (nonces_decode rd [] [] []); [done|by constructor..]. Qed.

(** Report data survives the token: 64 bytes encoded into the two nonces decode to
    themselves, from the array form with any other nonces around and between them and
    from the single comma-separated string. *)
Theorem nonce_roundtrip {B64 : Base64Crate} {B64L : Base64Laws} (rd : bytes)
  (pre mid post : list bytes) (Hlen : length rd = 64%nat)
  (Hpre : Forall foreign pre) (Hmid : Forall foreign mid) (Hpost : Forall foreign post) :
  nonce_reportdata (Many (reportdata_nonces rd)) = Ok rd /\
  nonce_reportdata (One (reportdata_nonce rd)) = Ok rd /\
  forall n1 n2, reportdata_nonces rd = [n1; n2] ->
    nonce_reportdata (Many (pre ++ [n1] ++ mid ++ [n2] ++ post)) = Ok rd.
Proof.
  assert (Hmany : nonce_reportdata (Many (reportdata_nonces rd)) = Ok rd).
  { by apply reportdata_nonces_decode. }
  split; [done|]. split.
  - rewrite <-Hmany. unfold nonce_reportdata. cbn [claim_nonces]. unfold reportdata_nonce.
    change (lit ",") with [","%byte]. rewrite join_char_split; [done|done|].
    assert (Hc : forall p b, bool_decide (","%byte ∈ p) = false -> ","%byte ∉ p ++ b64url_encode b).
    { intros p b Hp%bool_decide_eq_false. rewrite elem_of_app. intros [?|Hb]; [done|].
      by apply b64url_encode_no_comma in Hb. }
    repeat constructor; apply Hc; by vm_compute.
  - intros n1 n2 [= <- <-]. by apply nonces_decode.
Qed.

Lemma nonce_roundtrip_witness :
  nonce_reportdata (B64 := Ref.base64)
    (One (reportdata_nonce (B64 := Ref.base64) (replicate 64 "r"%byte)))
  = Ok (replicate 64 "r"%byte).
Proof.
  destruct (nonce_roundtrip (B64 := Ref.base64) (B64L := Ref.base64_laws)
    (replicate 64 "r"%byte) [] [] []) as (_ & H & _); [reflexivity|constructor|constructor|
    constructor|exact H].
Defined.

(** *** Digests *)

Lemma lower_hex_word h : Forall (fun b => is_ascii_hexdigit b = true) h ->
  Forall (fun b => word_byte b = true) h.
Proof. intros H. eapply Forall_impl; [exact H|]. intros b. apply hexdigit_word. Qed.

Lemma lit_word (s : string) :
  forallb word_byte (lit s) = true -> Forall (fun b => word_byte b = true) (lit s).
Proof. intros H. apply Forall_forall. intros b Hb. apply list_elem_of_In in Hb.
  rewrite forallb_forall in H. auto. Qed.

Lemma ascii_lower_hex h : Forall (fun b => is_ascii_hexdigit b = true) h ->
  Forall (fun b => is_ascii_hexdigit b = true) (to_ascii_lowercase h).
Proof.
  intros H. apply Forall_map. eapply Forall_impl; [exact H|]. intros b. by destruct b; vm_compute.
Qed.

Lemma normalize_prefixed h : Forall (fun b => is_ascii_hexdigit b = true) h ->
  normalize_digest (lit "sha256:" ++ h) = lit "sha256:" ++ to_ascii_lowercase h /\
  normalize_digest (lit "sha256:" ++ lit "sha256:" ++ h)
  = lit "sha256:" ++ lit "sha256:" ++ to_ascii_lowercase h.
Proof.
  intros H. pose proof (lower_hex_word h H) as Hw.
  assert (Hp : Forall (fun b => word_byte b = true) (lit "sha256:")) by (by apply lit_word; vm_compute).
  unfold normalize_digest.
  rewrite !trim_word by (repeat apply Forall_app_2; done).
  rewrite !to_ascii_lowercase_app. change (to_ascii_lowercase (lit "sha256:")) with (lit "sha256:").
  by rewrite !starts_with_app.
Qed.

Lemma not_hex_prefix h : Forall (fun b => is_ascii_hexdigit b = true) h ->
  strip_prefix (lit "sha256:") h = None.
Proof.
  intros H. destruct (strip_prefix _ h) as [r|] eqn:E; [|done].
  apply strip_prefix_Some in E as ->. apply Forall_app in H as [H _].
  inversion H as [|? ? Hs _]. by vm_compute in Hs.
Qed.

Lemma trim_prefixes k h : Forall (fun b => is_ascii_hexdigit b = true) h ->
  trim_start_matches (lit "sha256:") (concat (replicate k (lit "sha256:")) ++ h) = h.
Proof.
  intros H. unfold trim_start_matches.
  assert (Hg : forall fuel, (k <= fuel)%nat -> trim_start_matches_fuel fuel (lit "sha256:")
    (concat (replicate k (lit "sha256:")) ++ h) = h).
  { induction k as [|k IH]; intros fuel Hf.
    - cbn [replicate concat app]. destruct fuel; [done|]. cbn [trim_start_matches_fuel].
      by rewrite not_hex_prefix.
    - destruct fuel as [|fuel]; [lia|]. cbn [trim_start_matches_fuel replicate concat].
      rewrite <-app_assoc, strip_prefix_app. apply IH. lia. }
  apply Hg. rewrite length_app. assert (k <= length (concat (replicate k (lit "sha256:"))))%nat; [|lia].
  clear. induction k as [|k IH]; [done|]. cbn [replicate concat]. rewrite length_app.
  change (length (lit "sha256:")) with 7%nat. lia.
Qed.

(** A plain digest is accepted and compared without regard to case or prefix, but policy
    validation also accepts a repeated prefix, and a policy with one can then match no
    digest of an image: validation does not imply that the policy can be met. *)
Theorem image_digest_prefixes (h actual : bytes)
  (Hh : Forall (fun b => is_ascii_hexdigit b = true) h) (Hlen : len h = 64)
  (Ha : Forall (fun b => is_ascii_hexdigit b = true) actual) (Hla : len actual = 64) :
  validate_image_digest (lit "sha256:" ++ h) = Ok tt /\
  normalize_digest (lit "sha256:" ++ h) = normalize_digest h /\
  normalize_digest (lit "sha256:" ++ to_ascii_lowercase h) = normalize_digest (lit "sha256:" ++ h) /\
  validate_image_digest (lit "sha256:" ++ lit "sha256:" ++ h) = Ok tt /\
  normalize_digest (lit "sha256:" ++ actual) <> normalize_digest (lit "sha256:" ++ lit "sha256:" ++ h).
Proof.
  pose proof (ascii_lower_hex h Hh) as Hlow.
  assert (Hok : forall k, normalize_digest (concat (replicate (S k) (lit "sha256:")) ++ h)
      = concat (replicate (S k) (lit "sha256:")) ++ to_ascii_lowercase h ->
      validate_image_digest (concat (replicate (S k) (lit "sha256:")) ++ h) = Ok tt).
  { intros k Hn. unfold validate_image_digest. rewrite Hn, trim_prefixes by done.
    rewrite len_to_ascii_lowercase, Hlen. apply ensure_Ok. apply andb_true_iff. split; [done|].
    apply forallb_forall. intros b Hb. rewrite Forall_forall in Hlow. apply Hlow.
    by apply list_elem_of_In. }
  destruct (normalize_prefixed h Hh) as [N1 N2].
  destruct (normalize_prefixed (to_ascii_lowercase h) Hlow) as [N3 _].
  destruct (normalize_prefixed actual Ha) as [N4 _]. split_and!.
  - specialize (Hok 0%nat). cbn [replicate concat] in Hok. rewrite app_nil_r in Hok. by apply Hok.
  - rewrite N1. unfold normalize_digest. rewrite (trim_word h) by (by apply lower_hex_word).
    unfold starts_with. by rewrite not_hex_prefix.
  - by rewrite N3, to_ascii_lowercase_idemp, N1.
  - specialize (Hok 1%nat). cbn [replicate concat] in Hok. rewrite app_nil_r, <-app_assoc in Hok.
    by apply Hok.
  - rewrite N4, N2. intros E. apply (f_equal len) in E.
    rewrite !len_app, !len_to_ascii_lowercase, Hlen, Hla in E. vm_compute in E. discriminate E.
Qed.

Lemma image_digest_prefixes_witness :
  validate_image_digest (lit "sha256:" ++ lit "sha256:" ++ replicate 64 "A"%byte) = Ok tt.
Proof.
  assert (Hd : Forall (fun b => is_ascii_hexdigit b = true) (replicate 64 "A"%byte))
    by (apply Forall_replicate; reflexivity).
  destruct (image_digest_prefixes (replicate 64 "A"%byte) (replicate 64 "A"%byte) Hd eq_refl Hd eq_refl)
    as (_ & _ & _ & H & _). exact H.
Defined.

(** A validated policy pins the workload and fetches keys safely: it names an image digest
    of 64 hexadecimal digits (after any prefixes) or a signature key, its issuer is an
    https URL without user information, and unless that is Google's issuer the address of
    the key set is explicit and such a URL as well. *)
Theorem validated_policy {UC : UrlCrate} (p : GcpConfidentialSpacePolicy)
  (Hv : policy_validate p = Ok tt) :
  trim (audience p) <> [] /\
  (is_Some (image_digest p) \/ signature_key_ids p <> []) /\
  (forall d, image_digest p = Some d ->
     len (trim_start_matches (lit "sha256:") (normalize_digest d)) = 64 /\
     forallb is_ascii_hexdigit (trim_start_matches (lit "sha256:") (normalize_digest d)) = true) /\
  (forall u, u = issuer p \/ jwks_uri p = Some u ->
     exists parsed, url_parse u = Some parsed /\ u_scheme parsed = lit "https" /\
       is_Some (u_host_str parsed) /\ u_username parsed = [] /\ u_password parsed = None) /\
  (jwks_uri p = None -> trim_end_matches is_slash (issuer p) = DEFAULT_ISSUER).
Proof.
  unfold policy_validate, validate_metadata_sources in Hv. inv_outcome.
  assert (Hurl : forall raw label u, validate_https_url raw label = Ok u ->
    exists parsed, url_parse raw = Some parsed /\ u_scheme parsed = lit "https" /\
       is_Some (u_host_str parsed) /\ u_username parsed = [] /\ u_password parsed = None).
  { intros raw label u Hu. unfold validate_https_url in Hu. inv_outcome. split_bool.
    eexists. split_and!; try done. by apply eq_None_not_Some. }
  split_and!.
  - by split_bool.
  - match goal with H : bool_decide (is_Some (image_digest p)) || _ = true |- _ =>
      apply orb_true_iff in H as [H|H]; split_bool; auto end.
  - intros d Hd. rewrite Hd in *. match goal with H : validate_image_digest d = Ok _ |- _ =>
      unfold validate_image_digest in H; apply ensure_Ok in H end. split_bool.
    by match goal with H : (_ =? 64) = true |- _ => apply N.eqb_eq in H end.
  - intros u [->|Hu]; [by eapply Hurl|]. rewrite Hu in *. by eapply Hurl.
  - intros Hn. match goal with H : bool_decide (_ = DEFAULT_ISSUER) || _ = true |- _ =>
      apply orb_true_iff in H as [H|H]; split_bool end; [done|].
    rewrite Hn in *. by match goal with H : is_Some None |- _ => destruct H end.
Qed.

Definition sample_policy : GcpConfidentialSpacePolicy :=
  strict_for_image (lit "relay") (replicate 64 "a"%byte).

Lemma validated_policy_witness :
  is_Some (image_digest sample_policy) \/ signature_key_ids sample_policy <> [].
Proof.
  destruct (validated_policy (UC := Ref.url) sample_policy ltac:(vm_compute; reflexivity))
    as (_ & H & _). exact H.
Defined.
