(* ===== verification/GcpCs.v ===== *)
(** * The Confidential Space verifier

    The part of [crates/relay-attest/src/gcp_confidential_space.rs] that fetches
    Google's keys, validates the token and judges its claims. The JSON cache and
    the clock are a state; the JWT crate is a parameter whose documented checks are
    named laws. *)

From S2P Require Import Prelude RustStr BTree Extern Attest GcpPolicy.

Local Open Scope N_scope.

Definition DEFAULT_WELL_KNOWN_PATH : bytes := lit "/.well-known/openid-configuration".
Definition DEFAULT_JWKS_TTL : N := 30 * 60.
Definition MAX_CLOCK_SKEW_SECS : N := 300.

(** ** Claims *)

Record ImageSignatureClaim := {
  key_id : bytes;
  signature : option bytes;
  signature_algorithm : option bytes;
}.

Record ContainerClaims := {
  c_args : list bytes;
  c_env : list (bytes * bytes);
  c_env_override : list (bytes * bytes);
  c_image_digest : option bytes;
  c_image_id : option bytes;
  c_image_reference : option bytes;
  c_image_signatures : option (list ImageSignatureClaim);
  c_restart_policy : option bytes;
  c_extra : list (bytes * Value);
}.

Record GceClaims := {
  g_instance_id : option bytes;
  g_instance_name : option bytes;
  g_project_id : option bytes;
  g_project_number : option bytes;
  g_zone : option bytes;
  g_extra : list (bytes * Value);
}.

Record SubmodsClaims := {
  container : option ContainerClaims;
  gce : option GceClaims;
  s_extra : list (bytes * Value);
}.

Record ConfidentialSpaceClaims := {
  aud : bytes;
  dbgstat : bytes;
  eat_nonce : NonceClaim;
  exp : N;
  google_service_accounts : list bytes;
  iat : N;
  iss : bytes;
  nbf : N;
  secboot : bool;
  sub : bytes;
  submods : SubmodsClaims;
  swname : bytes;
  swversion : list bytes;
  extra : list (bytes * Value);
}.

(** ** Keys *)

Record Jwk := {
  kty : bytes;
  kid : bytes;
  jwk_n : bytes;
  jwk_e : bytes;
  alg : option bytes;
  key_use : option bytes;
}.
Record JwksSet := { keys : list Jwk }.
Record WellKnown := { wk_jwks_uri : bytes }.

(** The code [serde] derives to read them from a JSON value. *)
Class KeyJson := {
  jwks_from_value : Value -> option JwksSet;
  well_known_from_value : Value -> option WellKnown;
}.

(** ** The JWT crate *)

Inductive Algorithm := RS256 | OtherAlgorithm (name : bytes).
Record Validation := {
  v_algorithm : Algorithm;
  v_issuer : list bytes;
  v_audience : list bytes;
  v_leeway : N;
  v_validate_exp : bool;
  v_validate_nbf : bool;
  v_required : list bytes;
}.
(** [jsonwebtoken]: the header, RSA keys from base64url components, and [decode] at a
    reading of the system clock, which parses the claims; [jwt_signed] is the signature relation. *)
Class JwtCrate := {
  jwt_decode_header : bytes -> option (Algorithm * option bytes);
  rsa_key : bytes -> bytes -> option bytes;
  jwt_signed : bytes -> bytes -> bool;
  jwt_decode : bytes -> bytes -> Validation -> option N -> option ConfidentialSpaceClaims;
}.
(** What the crate documents for [decode] with these settings. *)
Class JwtLaws `{JwtCrate} : Prop := {
  jwt_decode_checks : forall token key v now c, jwt_decode token key v (Some now) = Some c ->
    jwt_signed token key = true /\ iss c ∈ v_issuer v /\ aud c ∈ v_audience v /\
    (v_validate_exp v = true -> now <= exp c + v_leeway v) /\
    (v_validate_nbf v = true -> nbf c <= now + v_leeway v);
}.

(** ** The JSON cache *)

Record CacheEntry := {
  entry_fetched_at : N;
  entry_body : Value;
}.
Record JsonState := {
  json_cache : gmap bytes CacheEntry;
  json_clock : N;
}.
Abbreviation json_st := (stm JsonState AttestError).

Section fetch.
Context {UC : UrlCrate} {JC : JsonCrate} {HH : HttpHost} {KJ : KeyJson}.

Definition fetch_url_text_async (now : N) (url : bytes) : attest_result bytes * N :=
  match url_parse url with
  | None => (Err (verification_failed (lit "invalid Confidential Space metadata URL")), 0)
  | Some parsed =>
      if negb (bool_decide (u_scheme parsed = lit "https")) then
        (Err (verification_failed (lit "Confidential Space metadata URL must be https: " ++ url)), 0)
      else if negb http_client_builds then (Err (verification_failed (lit "HTTP client build")), 0)
      else
        let '(reply, elapsed) := http_get now url in
        (match reply with
         | SendFailed => Err (verification_failed (lit "failed to fetch " ++ url))
         | HttpResponse status text =>
             if negb (is_success status)
             then Err (verification_failed (lit "fetch " ++ url ++ lit " returned " ++ dec status))
             else ok_or text (verification_failed (lit "read " ++ url))
         end, elapsed)
  end.

Definition fetch_url_text (now : N) (url : bytes) : attest_result bytes * N :=
  match runtime_flavor with
  | MultiThread => fetch_url_text_async now url
  | CurrentThread | NoRuntime =>
      if runtime_builds then fetch_url_text_async now url
      else (Err (verification_failed (lit "failed to create runtime for JWKS fetch")), 0)
  end.

Definition fetch_json_cached {T} (from_value : Value -> option T) (url : bytes) (ttl : N)
  : json_st T := fun s =>
  match (entry ← json_cache s !! url;
         if json_clock s - entry_fetched_at entry <? ttl then Some (entry_body entry) else None) with
  | Some value =>
      (ok_or (from_value value)
         (verification_failed (lit "cached JSON from " ++ url ++ lit " is invalid")), s)
  | None =>
      let '(r, elapsed) := fetch_url_text (json_clock s) url in
      let now := json_clock s + elapsed in
      match r with
      | Ok body =>
          match json_parse body with
          | Some value =>
              (ok_or (from_value value)
                 (verification_failed (lit "JSON response from " ++ url ++ lit " has wrong shape")),
               {| json_cache := <[url := {| entry_fetched_at := now; entry_body := value |}]>
                                  (json_cache s);
                  json_clock := now |})
          | None =>
              (Err (verification_failed (lit "JSON response from " ++ url ++ lit " is invalid")),
               {| json_cache := json_cache s; json_clock := now |})
          end
      | Err e => (Err e, {| json_cache := json_cache s; json_clock := now |})
      | Panic => (Panic, {| json_cache := json_cache s; json_clock := now |})
      end
  end.

Definition well_known_url (iss : bytes) : bytes :=
  trim_end_matches is_slash iss ++ DEFAULT_WELL_KNOWN_PATH.
Definition fetch_well_known (iss : bytes) : json_st WellKnown :=
  fetch_json_cached well_known_from_value (well_known_url iss) DEFAULT_JWKS_TTL.

(** [trait JwksProvider] and its two implementations. *)
Inductive JwksProvider :=
  | HttpJwksProvider
  | StaticJwksProvider (jwks : JwksSet).
Definition provider_jwks (p : JwksProvider) (uri : bytes) : json_st JwksSet :=
  match p with
  | HttpJwksProvider => fetch_json_cached jwks_from_value uri DEFAULT_JWKS_TTL
  | StaticJwksProvider jwks => mret jwks
  end.
End fetch.

(** ** The verifier *)

Record GcpConfidentialSpaceVerifier := {
  policy : GcpConfidentialSpacePolicy;
  jwks : JwksProvider;
  enforce_workload_identity : bool;
}.

Section verifier.
Context {UC : UrlCrate} {JC : JsonCrate} {HH : HttpHost} {KJ : KeyJson} {JW : JwtCrate}
  {B64 : Base64Crate}.

Definition verifier_new (p : GcpConfidentialSpacePolicy) : attest_result GcpConfidentialSpaceVerifier :=
  _ ← policy_validate p;
  Ok {| policy := p; jwks := HttpJwksProvider; enforce_workload_identity := true |}.
Definition verifier_new_audit (p : GcpConfidentialSpacePolicy) : GcpConfidentialSpaceVerifier :=
  {| policy := p; jwks := HttpJwksProvider; enforce_workload_identity := false |}.
Definition with_static_jwks (p : GcpConfidentialSpacePolicy) (set : JwksSet)
  : attest_result GcpConfidentialSpaceVerifier :=
  _ ← policy_validate p;
  Ok {| policy := p; jwks := StaticJwksProvider set; enforce_workload_identity := true |}.

Definition token_validation (p : GcpConfidentialSpacePolicy) : Validation := {|
  v_algorithm := RS256; v_issuer := [issuer p]; v_audience := [audience p];
  v_leeway := MAX_CLOCK_SKEW_SECS; v_validate_exp := true; v_validate_nbf := true;
  v_required := [lit "exp"; lit "nbf"; lit "aud"; lit "iss"] |}.

(** The first key with the header's key id. *)
Fixpoint find_kid (k : bytes) (l : list Jwk) : option Jwk :=
  match l with
  | [] => None
  | j :: l' => if bool_decide (kid j = k) then Some j else find_kid k l'
  end.

Definition alg_is_rs256 (a : Algorithm) : bool :=
  match a with RS256 => true | OtherAlgorithm _ => false end.

Definition decode_and_validate (v : GcpConfidentialSpaceVerifier) (unix_now : option N) (token : bytes)
  : json_st ConfidentialSpaceClaims :=
  header ← pure (ok_or (jwt_decode_header token)
    (verification_failed (lit "invalid Confidential Space JWT header")));
  _ ← pure (ensure (alg_is_rs256 header.1)
    (verification_failed (lit "Confidential Space token alg must be RS256")));
  header_kid ← pure (ok_or header.2 (verification_failed (lit "Confidential Space token lacks kid")));
  uri ← (match jwks_uri (policy v) with
         | Some uri => mret uri
         | None => wk ← fetch_well_known (issuer (policy v)); mret (wk_jwks_uri wk)
         end);
  set ← provider_jwks (jwks v) uri;
  jwk ← pure (ok_or (find_kid header_kid (keys set))
    (verification_failed (lit "Confidential Space JWKS does not contain kid " ++ header_kid)));
  _ ← pure (ensure (bool_decide (default (lit "RS256") (alg jwk) = lit "RS256"))
    (verification_failed (lit "Confidential Space JWK alg must be RS256, got " ++ default [] (alg jwk))));
  _ ← pure (ensure (bool_decide (kty jwk = lit "RSA"))
    (verification_failed (lit "Confidential Space JWK kty must be RSA, got " ++ kty jwk)));
  decoding_key ← pure (ok_or (rsa_key (jwk_n jwk) (jwk_e jwk))
    (verification_failed (lit "invalid Confidential Space RSA JWK")));
  pure (ok_or (jwt_decode token decoding_key (token_validation (policy v)) unix_now)
    (verification_failed (lit "Confidential Space JWT validation failed"))).

Definition expect_gce (field : option bytes) (actual : option bytes) (name : bytes)
  : attest_result unit :=
  match field with
  | Some expected =>
      ensure (bool_decide (actual = Some expected))
        (verification_failed (lit "Confidential Space " ++ name ++ lit " mismatch: expected "
           ++ expected))
  | None => Ok tt
  end.

(** The workload part of [verify_claims]. *)
Definition verify_workload (p : GcpConfidentialSpacePolicy) (c : ContainerClaims)
  : attest_result unit :=
  _ ← match image_digest p with
      | Some expected =>
          actual ← ok_or (normalize_digest <$> c_image_digest c)
            (verification_failed (lit "Confidential Space token lacks container.image_digest"));
          ensure (bool_decide (actual = normalize_digest expected))
            (ImageDigestMismatch (normalize_digest expected) actual)
      | None => Ok tt
      end;
  _ ← match image_reference p with
      | Some expected =>
          ensure (bool_decide (c_image_reference c = Some expected))
            (verification_failed (lit "Confidential Space image_reference mismatch: expected "
               ++ expected))
      | None => Ok tt
      end;
  ensure (bool_decide (signature_key_ids p = [])
          || existsb (fun sig => bool_decide (key_id sig ∈ signature_key_ids p))
               (default [] (c_image_signatures c)))
    (verification_failed (lit "Confidential Space container image signature key mismatch")).

(** [unix_now] is [None] for a system clock before the epoch. *)
Definition verify_claims (v : GcpConfidentialSpaceVerifier) (unix_now : option N)
  (claims : ConfidentialSpaceClaims) (expected_reportdata : option bytes) : attest_result bytes :=
  now ← ok_or unix_now (verification_failed (lit "system clock before epoch"));
  let p := policy v in
  _ ← ensure (iat claims <=? now + MAX_CLOCK_SKEW_SECS)
    (verification_failed (lit "Confidential Space token iat is in the future: " ++ dec (iat claims)
       ++ lit " > " ++ dec now));
  _ ← ensure (negb (require_confidential_space p
                    && negb (bool_decide (swname claims = lit "CONFIDENTIAL_SPACE"))))
    (verification_failed (lit "Confidential Space swname mismatch: expected CONFIDENTIAL_SPACE, got "
       ++ swname claims));
  _ ← ensure (negb (require_debug_disabled p
                    && negb (bool_decide (dbgstat claims = lit "disabled-since-boot"))))
    (verification_failed (lit "Confidential Space debug status is not production-safe: "
       ++ dbgstat claims));
  _ ← ensure (negb (require_secure_boot p && negb (secboot claims)))
    (verification_failed (lit "Confidential Space token reports secboot=false"));
  _ ← match service_account p with
      | Some expected_sa =>
          ensure (bool_decide (expected_sa ∈ google_service_accounts claims))
            (verification_failed (lit "Confidential Space service account mismatch: expected "
               ++ expected_sa))
      | None => Ok tt
      end;
  _ ← expect_gce (project_id p) (g ← gce (submods claims); g_project_id g) (lit "project_id");
  _ ← expect_gce (zone p) (g ← gce (submods claims); g_zone g) (lit "zone");
  _ ← expect_gce (instance_name p) (g ← gce (submods claims); g_instance_name g)
        (lit "instance_name");
  c ← ok_or (container (submods claims))
    (verification_failed (lit "Confidential Space token lacks submods.container claims"));
  _ ← (if enforce_workload_identity v then verify_workload p c else Ok tt);
  reportdata ← nonce_reportdata (eat_nonce claims);
  match expected_reportdata with
  | Some expected =>
      if bool_decide (reportdata = expected) then Ok reportdata else Err ReportDataMismatch
  | None => Ok reportdata
  end.

Definition gcp_verify (v : GcpConfidentialSpaceVerifier) (unix_now : option N)
  (evidence : Evidence) (expected_measurement : option bytes) : json_st bytes :=
  _ ← pure (ensure (bool_decide (tee_type evidence = GcpConfidentialSpace))
    (UnsupportedTeeType (tee_type evidence)));
  _ ← pure (if enforce_workload_identity v then policy_validate (policy v) else Ok tt);
  _ ← pure (match expected_measurement with
            | Some m => ensure (len m =? 64) (verification_failed
                (lit "Confidential Space verifier expected a 64-byte nonce/reportdata, got "
                 ++ dec (len m) ++ lit " bytes"))
            | None => Ok tt
            end);
  _ ← pure (ensure (utf8_valid (data evidence))
    (verification_failed (lit "Confidential Space token is not UTF-8")));
  claims ← decode_and_validate v unix_now (data evidence);
  pure (verify_claims v unix_now claims expected_measurement).
End verifier.

(** The verifier object, with the process-wide cache it runs on. *)
Record GcpVerifier := {
  gcp_verifier : GcpConfidentialSpaceVerifier;
  gcp_time : option N;
  gcp_state : JsonState;
}.
#[global] Instance GcpVerifier_verify {UC : UrlCrate} {JC : JsonCrate} {HH : HttpHost}
  {KJ : KeyJson} {JW : JwtCrate} {B64 : Base64Crate} : Verifier GcpVerifier :=
  fun v evidence expected =>
    (gcp_verify (gcp_verifier v) (gcp_time v) evidence expected (gcp_state v)).1.

(** ** What acceptance means *)

(** The workload the policy pins is the one the claims name. *)
Record workload_matches (p : GcpConfidentialSpacePolicy) (c : ContainerClaims) : Prop := {
  wm_digest : forall d, image_digest p = Some d ->
    exists a, c_image_digest c = Some a /\ normalize_digest a = normalize_digest d;
  wm_reference : forall r, image_reference p = Some r -> c_image_reference c = Some r;
  wm_key : signature_key_ids p = [] \/
    exists sigs sig, c_image_signatures c = Some sigs /\ sig ∈ sigs /\
      key_id sig ∈ signature_key_ids p;
}.

Record claims_accepted (p : GcpConfidentialSpacePolicy) (enforce : bool) (now : N)
  (claims : ConfidentialSpaceClaims) : Prop := {
  ca_iat : iat claims <= now + MAX_CLOCK_SKEW_SECS;
  ca_swname : require_confidential_space p = true -> swname claims = lit "CONFIDENTIAL_SPACE";
  ca_dbgstat : require_debug_disabled p = true -> dbgstat claims = lit "disabled-since-boot";
  ca_secboot : require_secure_boot p = true -> secboot claims = true;
  ca_account : forall sa, service_account p = Some sa -> sa ∈ google_service_accounts claims;
  ca_project : forall x, project_id p = Some x ->
    (g ← gce (submods claims); g_project_id g) = Some x;
  ca_zone : forall x, zone p = Some x -> (g ← gce (submods claims); g_zone g) = Some x;
  ca_instance : forall x, instance_name p = Some x ->
    (g ← gce (submods claims); g_instance_name g) = Some x;
  ca_container : exists c, container (submods claims) = Some c /\
    (enforce = true -> workload_matches p c);
}.

(** ** Facts *)

Lemma negb_imp (a b : bool) : negb (a && negb b) = true <-> (a = true -> b = true).
Proof. destruct a, b; simpl; intuition. Qed.

Lemma expect_gce_Ok f a n u :
  expect_gce f a n = Ok u <-> forall x, f = Some x -> a = Some x.
Proof.
  unfold expect_gce. destruct u, f as [x|].
  - rewrite ensure_Ok, bool_decide_eq_true. split; [by intros -> ? [= <-]|intros H; by apply H].
  - split; [by intros _ ?|done].
Qed.

Lemma verify_workload_Ok p c u : verify_workload p c = Ok u <-> workload_matches p c.
Proof.
  unfold verify_workload. destruct u. split.
  - intros H. apply bind_Ok in H as (u1 & H1 & H). apply bind_Ok in H as (u2 & H2 & H3). split.
    + intros d Hd. rewrite Hd in H1. inv_outcome. split_bool.
      destruct (c_image_digest c) as [a|]; [|done]. simplify_eq/=. eauto.
    + intros r Hr. rewrite Hr in H2. inv_outcome. by split_bool.
    + inv_outcome. apply orb_true_iff in H3 as [H|H]; [left; by split_bool|right].
      apply existsb_exists in H as (sig & Hs & Hk). split_bool.
      destruct (c_image_signatures c) as [sigs|]; [|done]. exists sigs, sig.
      by rewrite list_elem_of_In.
  - intros [Hd Hr Hk].
    assert (H1 : match image_digest p with
      | Some expected =>
          actual ← ok_or (normalize_digest <$> c_image_digest c)
            (verification_failed (lit "Confidential Space token lacks container.image_digest"));
          ensure (bool_decide (actual = normalize_digest expected))
            (ImageDigestMismatch (normalize_digest expected) actual)
      | None => Ok tt end = Ok tt).
    { destruct (image_digest p) as [d|]; [|done]. destruct (Hd d eq_refl) as (a & -> & E).
      simpl. by rewrite E, bool_decide_eq_true_2. }
    rewrite H1. simp_out.
    assert (H2 : match image_reference p with
      | Some expected => ensure (bool_decide (c_image_reference c = Some expected))
            (verification_failed (lit "Confidential Space image_reference mismatch: expected "
               ++ expected))
      | None => Ok tt end = Ok tt).
    { destruct (image_reference p) as [r|]; [|done]. by rewrite bool_decide_eq_true_2 by auto. }
    rewrite H2. simp_out. apply ensure_Ok, orb_true_iff.
    destruct Hk as [Hk|(sigs & sig & Hs & Hin & Hkey)]; [left; by apply bool_decide_eq_true|right].
    rewrite Hs. apply existsb_exists. exists sig. rewrite <-list_elem_of_In.
    by rewrite bool_decide_eq_true.
Qed.

Section gcp_facts.
Context {B64 : Base64Crate}.

Lemma service_account_Ok o (l : list bytes) (e : bytes -> AttestError) u :
  match o with Some sa => ensure (bool_decide (sa ∈ l)) (e sa) | None => Ok tt end = Ok u <->
  forall sa, o = Some sa -> sa ∈ l.
Proof.
  destruct u, o as [sa|].
  - rewrite ensure_Ok, bool_decide_eq_true. split; [by intros ? ? [= <-]|auto].
  - by split.
Qed.

Lemma verify_claims_accepted v now claims expected rd :
  verify_claims v (Some now) claims expected = Ok rd <->
  claims_accepted (policy v) (enforce_workload_identity v) now claims /\
  nonce_reportdata (eat_nonce claims) = Ok rd /\ (forall e, expected = Some e -> e = rd).
Proof.
  unfold verify_claims. simp_out. split.
  - intros H. repeat match goal with
    | H : (_ ≫= _) = Ok _ |- _ => apply bind_Ok in H as (? & ? & H)
    end.
    repeat match goal with
    | H : ensure _ _ = Ok _ |- _ => apply ensure_Ok in H
    | H : negb (_ && negb _) = true |- _ => rewrite negb_imp in H
    | H : expect_gce _ _ _ = Ok _ |- _ => rewrite expect_gce_Ok in H
    | H : ok_or _ _ = Ok _ |- _ => apply ok_or_Ok in H
    end.
    match goal with H : (if enforce_workload_identity v then _ else _) = Ok _,
      Hn : nonce_reportdata _ = Ok ?r |- _ => rename H into Hw, Hn into Hnonce;
      assert (r = rd /\ forall e, expected = Some e -> e = rd) as [-> He] end.
    { destruct expected as [e|].
      - case_bool_decide as E; [|done]. split; [congruence|]. intros e' [= <-]. congruence.
      - split; [congruence|done]. }
    split; [|done]. split; try done.
    + by apply N.leb_le.
    + intros Hr. eapply bool_decide_eq_true. by apply H1.
    + intros Hr. eapply bool_decide_eq_true. by apply H2.
    + intros sa E. match goal with H : context [service_account (policy v)] |- _ =>
        rewrite E in H; apply ensure_Ok in H end. by split_bool.
    + eexists. split; [done|]. intros E. rewrite E in Hw. by apply verify_workload_Ok in Hw.
  - intros ([H1 H2 H3 H4 H5 H6 H7 H8 (c & Hc & Hw)] & Hn & He).
    rewrite (proj2 (ensure_Ok _ _ tt) (proj2 (N.leb_le _ _) H1)). simp_out.
    rewrite (proj2 (ensure_Ok _ _ tt) (proj2 (negb_imp _ _)
      (fun E => proj2 (bool_decide_eq_true _) (H2 E)))). simp_out.
    rewrite (proj2 (ensure_Ok _ _ tt) (proj2 (negb_imp _ _)
      (fun E => proj2 (bool_decide_eq_true _) (H3 E)))). simp_out.
    rewrite (proj2 (ensure_Ok _ _ tt) (proj2 (negb_imp _ _) H4)). simp_out.
    rewrite (proj2 (service_account_Ok _ _ _ tt) H5). simp_out.
    rewrite (proj2 (expect_gce_Ok _ _ _ tt) H6). simp_out.
    rewrite (proj2 (expect_gce_Ok _ _ _ tt) H7). simp_out.
    rewrite (proj2 (expect_gce_Ok _ _ _ tt) H8). simp_out. rewrite Hc. simp_out.
    destruct (enforce_workload_identity v).
    + rewrite (proj2 (verify_workload_Ok _ _ tt) (Hw eq_refl)). simp_out. rewrite Hn. simp_out.
      destruct expected as [e|]; [|done]. rewrite (He e eq_refl). by rewrite bool_decide_eq_true_2.
    + simp_out. rewrite Hn. simp_out.
      destruct expected as [e|]; [|done]. rewrite (He e eq_refl). by rewrite bool_decide_eq_true_2.
Qed.
End gcp_facts.

(** *** The key source *)

Section keys.
Context {UC : UrlCrate} {JC : JsonCrate} {HH : HttpHost} {KJ : KeyJson} {JW : JwtCrate}
  {B64 : Base64Crate}.

(** Every cached value was parsed from what the network gave for its address, before now. *)
Definition json_inv (s : JsonState) : Prop := forall url e, json_cache s !! url = Some e ->
  entry_fetched_at e <= json_clock s /\ exists t el body, fetch_url_text t url = (Ok body, el) /\ entry_fetched_at e = t + el /\
    json_parse body = Some (entry_body e).

(** [value] is what a request for [url], an https address, returned at some time in the last
    [ttl] seconds before [now]. *)
Definition fetched_json (now ttl : N) (url : bytes) (value : Value) : Prop :=
  exists t el body, fetch_url_text t url = (Ok body, el) /\ json_parse body = Some value /\
    t + el <= now <= t + el + ttl /\
    exists parsed, url_parse url = Some parsed /\ u_scheme parsed = lit "https".

Lemma fetch_url_text_https t url body el :
  fetch_url_text t url = (Ok body, el) ->
  exists parsed, url_parse url = Some parsed /\ u_scheme parsed = lit "https".
Proof.
  assert (H : fetch_url_text_async t url = (Ok body, el) ->
    exists parsed, url_parse url = Some parsed /\ u_scheme parsed = lit "https").
  { unfold fetch_url_text_async. destruct (url_parse url) as [p|]; [|done].
    case_bool_decide; [eauto|done]. }
  unfold fetch_url_text. destruct runtime_flavor; [done|by destruct runtime_builds..].
Qed.

Lemma fetch_json_Ok {T} (de : Value -> option T) url ttl s x s' : json_inv s ->
  fetch_json_cached de url ttl s = (Ok x, s') ->
  json_inv s' /\ json_clock s <= json_clock s' /\
  exists value, de value = Some x /\ fetched_json (json_clock s') ttl url value.
Proof.
  intros Hi. unfold fetch_json_cached.
  assert (Hnet : (let '(r, elapsed) := fetch_url_text (json_clock s) url in
      let now := json_clock s + elapsed in
      match r with
      | Ok body =>
          match json_parse body with
          | Some value =>
              (ok_or (de value)
                 (verification_failed (lit "JSON response from " ++ url ++ lit " has wrong shape")),
               {| json_cache := <[url := {| entry_fetched_at := now; entry_body := value |}]>
                                  (json_cache s);
                  json_clock := now |})
          | None =>
              (Err (verification_failed (lit "JSON response from " ++ url ++ lit " is invalid")),
               {| json_cache := json_cache s; json_clock := now |})
          end
      | Err e => (Err e, {| json_cache := json_cache s; json_clock := now |})
      | Panic => (Panic, {| json_cache := json_cache s; json_clock := now |})
      end) = (Ok x, s') ->
    json_inv s' /\ json_clock s <= json_clock s' /\
    exists value, de value = Some x /\ fetched_json (json_clock s') ttl url value).
  { destruct (fetch_url_text (json_clock s) url) as [[body|e|] el] eqn:E; [|done..].
    destruct (json_parse body) as [value|] eqn:Hp; [|done].
    destruct (de value) as [y|] eqn:Hd; [|done]. intros [= -> <-]. cbn [json_clock].
    split_and!; [|lia|].
    - intros u e. cbn [json_cache json_clock]. rewrite lookup_insert. case_decide as Hu.
      + intros [= <-]. subst u. split; [done|]. by exists (json_clock s), el, body.
      + intros He. destruct (Hi _ _ He) as [? ?]. split; [lia|done].
    - exists value. split; [done|]. exists (json_clock s), el, body.
      split_and!; [done|done|lia..|by eapply fetch_url_text_https]. }
  destruct (json_cache s !! url) as [e|] eqn:Hc; cbn [mbind option_bind]; [|exact Hnet].
  destruct (N.ltb_spec (json_clock s - entry_fetched_at e) ttl) as [Hf|Hf]; [|exact Hnet].
  destruct (de (entry_body e)) as [y|] eqn:Hd; [|done]. intros [= -> <-].
  split_and!; [done..|].
  exists (entry_body e). split; [done|]. destruct (Hi _ _ Hc) as (Hle & t & el & body & Hb & Ht & Hp).
  exists t, el, body. split_and!; [done|done|lia..|by eapply fetch_url_text_https].
Qed.

(** Where the keys of a verification that runs from [began] to [ended] come from. *)
Definition keys_from (v : GcpConfidentialSpaceVerifier) (began ended : N) (set : JwksSet) : Prop :=
  match jwks v with
  | StaticJwksProvider set' => set = set'
  | HttpJwksProvider => exists uri value,
      fetched_json ended DEFAULT_JWKS_TTL uri value /\ jwks_from_value value = Some set /\
      (jwks_uri (policy v) = Some uri \/
       jwks_uri (policy v) = None /\ exists between value' wk, began <= between <= ended /\
         fetched_json between DEFAULT_JWKS_TTL (well_known_url (issuer (policy v))) value' /\
         well_known_from_value value' = Some wk /\ uri = wk_jwks_uri wk)
  end.

Lemma find_kid_Some k l j : find_kid k l = Some j -> j ∈ l /\ kid j = k.
Proof.
  induction l as [|x l IH]; cbn [find_kid]; [done|]. case_bool_decide as Hk.
  - intros [= <-]. split; [left|done].
  - intros H. destruct (IH H) as [? ?]. split; [by right|done].
Qed.

Lemma decode_Ok v t token s claims s' : json_inv s ->
  decode_and_validate v t token s = (Ok claims, s') ->
  exists k set jwk key, jwt_decode_header token = Some (RS256, Some k) /\
    keys_from v (json_clock s) (json_clock s') set /\ jwk ∈ keys set /\ kid jwk = k /\ kty jwk = lit "RSA" /\
    (alg jwk = None \/ alg jwk = Some (lit "RS256")) /\
    rsa_key (jwk_n jwk) (jwk_e jwk) = Some key /\
    jwt_decode token key (token_validation (policy v)) t = Some claims.
Proof.
  intros Hi H. unfold decode_and_validate in H.
  apply stm_bind_Ok in H as ([a ok] & s1 & Hh & H). apply pure_Ok in Hh as [Hh ->].
  apply stm_bind_Ok in H as (u & s1 & Ha & H). apply pure_Ok in Ha as [Ha ->].
  apply stm_bind_Ok in H as (k & s1 & Hk & H). apply pure_Ok in Hk as [Hk ->].
  apply stm_bind_Ok in H as (uri & s1 & Hu & H).
  apply stm_bind_Ok in H as (set & s2 & Hs & H).
  assert (Huri : json_inv s1 /\ json_clock s <= json_clock s1 /\ (jwks_uri (policy v) = Some uri \/
       jwks_uri (policy v) = None /\ exists value' wk,
         fetched_json (json_clock s1) DEFAULT_JWKS_TTL (well_known_url (issuer (policy v))) value' /\
         well_known_from_value value' = Some wk /\ uri = wk_jwks_uri wk)).
  { destruct (jwks_uri (policy v)) as [uri'|].
    - apply mret_Ok in Hu as [-> ->]. auto.
    - apply stm_bind_Ok in Hu as (wk & s3 & Hf & Hu). apply mret_Ok in Hu as [<- ->].
      apply fetch_json_Ok in Hf as (Hi1 & Hcl & value & Hv & Hf); [|done]. split_and!; [done..|].
      right. split; [done|]. by exists value, wk. }
  destruct Huri as (Hi1 & Hcl & Huri). inv_stm. split_bool. cbn [fst snd] in *. subst ok.
  destruct a as [|n]; [|done].
  match goal with H : find_kid _ _ = Some ?j |- _ => apply find_kid_Some in H as [Hin Hkid];
    rename j into jwk end.
  match goal with H : rsa_key _ _ = Some ?kk |- _ => exists k, set, jwk, kk end.
  split_and!; try done.
  - unfold keys_from. destruct (jwks v) as [|set'].
    + apply fetch_json_Ok in Hs as (_ & Hcl2 & value & Hv & Hf); [|done].
      exists uri, value. split_and!; [done..|].
      destruct Huri as [?|(? & value' & wk & ?)]; [by left|]. right. split; [done|].
      by exists (json_clock s1), value', wk.
    + by apply mret_Ok in Hs as [-> _].
  - match goal with H : default _ (alg jwk) = _ |- _ => destruct (alg jwk); simpl in H; subst; auto end.
Qed.
End keys.

(** ** Properties *)

(** C35: The claim checks are exactly the policy: a token's claims are accepted when it is not
    issued in the future, every requirement the policy sets (Confidential Space, no
    debug, secure boot, account, project, zone, instance) holds, container claims are
    present and, when workload identity is enforced, name the pinned image and key; the
    result is the report data of the nonces, equal to the expected one. *)
Theorem verify_claims_spec {B64 : Base64Crate} (v : GcpConfidentialSpaceVerifier) (now : N)
  (claims : ConfidentialSpaceClaims) (expected : option bytes) (rd : bytes) :
  verify_claims v (Some now) claims expected = Ok rd <->
  claims_accepted (policy v) (enforce_workload_identity v) now claims /\
  nonce_reportdata (eat_nonce claims) = Ok rd /\ (forall e, expected = Some e -> e = rd).
Proof. apply verify_claims_accepted. Qed.

(** C8: An accepted Confidential Space token is Google's and fresh: the claims that are judged
    are those the JWT crate decodes from this very token, signed with RS256 by a key with
    the token's key id from the configured key set (or the one at the configured address,
    or at the address the issuer's metadata names: both documents requested from https
    addresses and, when they are used, at most half an hour old); they name the policy's
    issuer and audience and are within their validity, up to five minutes, they meet the
    policy, which itself is validated when workload identity is enforced, and their nonces
    are the report data that is returned. *)
Theorem gcp_verify_sound {UC : UrlCrate} {JC : JsonCrate} {HH : HttpHost} {KJ : KeyJson}
  {JW : JwtCrate} {JWL : JwtLaws} {B64 : Base64Crate}
  (v : GcpConfidentialSpaceVerifier) (now : N) (ev : Evidence) (m : option bytes)
  (s s' : JsonState) (rd : bytes)
  (Hinv : json_inv s) (Hok : gcp_verify v (Some now) ev m s = (Ok rd, s')) :
  tee_type ev = GcpConfidentialSpace /\
  (enforce_workload_identity v = true -> policy_validate (policy v) = Ok tt) /\
  (forall e, m = Some e -> e = rd) /\
  exists k set jwk key claims,
    jwt_decode_header (data ev) = Some (RS256, Some k) /\
    keys_from v (json_clock s) (json_clock s') set /\
    jwk ∈ keys set /\ kid jwk = k /\ kty jwk = lit "RSA" /\
    (alg jwk = None \/ alg jwk = Some (lit "RS256")) /\
    rsa_key (jwk_n jwk) (jwk_e jwk) = Some key /\ jwt_signed (data ev) key = true /\
    jwt_decode (data ev) key (token_validation (policy v)) (Some now) = Some claims /\
    iss claims = issuer (policy v) /\ aud claims = audience (policy v) /\
    now <= exp claims + 300 /\ nbf claims <= now + 300 /\
    claims_accepted (policy v) (enforce_workload_identity v) now claims /\
    nonce_reportdata (eat_nonce claims) = Ok rd.
Proof.
  unfold gcp_verify in Hok.
  apply stm_bind_Ok in Hok as (u1 & s1 & H1 & Hok). apply pure_Ok in H1 as [H1 ->].
  apply stm_bind_Ok in Hok as (u2 & s1 & H2 & Hok). apply pure_Ok in H2 as [H2 ->].
  apply stm_bind_Ok in Hok as (u3 & s1 & H3 & Hok). apply pure_Ok in H3 as [H3 ->].
  apply stm_bind_Ok in Hok as (u4 & s1 & H4 & Hok). apply pure_Ok in H4 as [H4 ->].
  apply stm_bind_Ok in Hok as (claims & s1 & Hd & Hok). apply pure_Ok in Hok as [Hc ->].
  apply decode_Ok in Hd as (k & set & jwk & key & Hh & Hs & Hin & Hkid & Hkty & Halg & Hkey & Hdec); [|done].
  pose proof Hdec as Hdec'. apply jwt_decode_checks in Hdec as (Hsig & Hiss & Haud & Hexp & Hnbf).
  apply verify_claims_accepted in Hc as (Ha & Hn & He).
  apply list_elem_of_singleton in Hiss, Haud. inv_outcome. split_bool.
  split_and!; [done| |done|].
  - intros E. rewrite E in H2. by destruct u2.
  - exists (kid jwk), set, jwk, key, claims. split_and!; try done; [by apply Hexp|by apply Hnbf].
Qed.

(** ** A concrete token service *)

Module RefGcp.
Definition claims : ConfidentialSpaceClaims := {|
  aud := lit "relay"; dbgstat := lit "disabled-since-boot";
  eat_nonce := Many (reportdata_nonces (B64 := Ref.base64) (replicate 64 "r"%byte));
  exp := 100; google_service_accounts := []; iat := 0; iss := DEFAULT_ISSUER; nbf := 0;
  secboot := true; sub := []; swname := lit "CONFIDENTIAL_SPACE"; swversion := [];
  submods := {|
    container := Some {|
      c_args := []; c_env := []; c_env_override := [];
      c_image_digest := Some (lit "sha256:" ++ replicate 64 "a"%byte); c_image_id := None;
      c_image_reference := None; c_image_signatures := None; c_restart_policy := None;
      c_extra := [] |};
    gce := None; s_extra := [] |};
  extra := [] |}.
(** A crate for which one text is signed by one key and holds these claims. *)
#[export] Instance jwt : JwtCrate := {|
  jwt_decode_header _ := Some (RS256, Some (lit "k1"));
  rsa_key n _ := Some n;
  jwt_signed token key := bool_decide (token = lit "token") && bool_decide (key = lit "n");
  jwt_decode token key v now :=
    match now with
    | Some now =>
        if bool_decide (token = lit "token") && bool_decide (key = lit "n")
           && bool_decide (DEFAULT_ISSUER ∈ v_issuer v) && bool_decide (lit "relay" ∈ v_audience v)
           && (now <=? 100 + v_leeway v)
        then Some claims else None
    | None => None
    end;
|}.
#[export] Instance jwt_laws : JwtLaws.
Proof.
  split. intros token key v now c. cbn [jwt_decode jwt].
  destruct (bool_decide_reflect (token = lit "token")) as [->|]; [|done].
  destruct (bool_decide_reflect (key = lit "n")) as [->|]; [|done].
  destruct (bool_decide_reflect (DEFAULT_ISSUER ∈ v_issuer v)); [|done].
  destruct (bool_decide_reflect (lit "relay" ∈ v_audience v)); [|done].
  destruct (N.leb_spec now (100 + v_leeway v)); [|done]. intros [= <-].
  split_and!; try done. intros _. cbn [nbf claims]. lia.
Qed.
#[export] Instance key_json : KeyJson :=
  {| jwks_from_value _ := None; well_known_from_value _ := None |}.
#[export] Instance host : HttpHost := {|
  http_client_builds := false; http_get _ _ := (SendFailed, 0);
  runtime_flavor := NoRuntime; runtime_builds := false |}.
Definition jwk : Jwk := {|
  kty := lit "RSA"; kid := lit "k1"; jwk_n := lit "n"; jwk_e := lit "AQAB"; alg := None;
  key_use := None |}.
(** Google's policy with a static key set, so that the network is not used. *)
Definition verifier : GcpConfidentialSpaceVerifier := {|
  policy := {| audience := lit "relay"; image_digest := Some (replicate 64 "a"%byte);
    image_reference := None; signature_key_ids := []; service_account := None;
    project_id := None; zone := None; instance_name := None; require_debug_disabled := true;
    require_confidential_space := true; require_secure_boot := true; issuer := DEFAULT_ISSUER;
    jwks_uri := Some (lit "https://keys.example/jwks") |};
  jwks := StaticJwksProvider {| keys := [jwk] |};
  enforce_workload_identity := true |}.
Definition start : JsonState := {| json_cache := ∅; json_clock := 0 |}.
Definition evidence : Evidence := {| tee_type := GcpConfidentialSpace; data := lit "token" |}.
End RefGcp.

Lemma gcp_verify_sound_witness :
  exists s' claims,
    gcp_verify (UC := Ref.url) (JC := Ref.json) (HH := RefGcp.host) (KJ := RefGcp.key_json)
      (JW := RefGcp.jwt) (B64 := Ref.base64) RefGcp.verifier (Some 50) RefGcp.evidence
      (Some (replicate 64 "r"%byte)) RefGcp.start = (Ok (replicate 64 "r"%byte), s') /\
    claims_accepted (policy RefGcp.verifier) true 50 claims.
Proof.
  assert (E : exists s', gcp_verify (UC := Ref.url) (JC := Ref.json) (HH := RefGcp.host)
      (KJ := RefGcp.key_json) (JW := RefGcp.jwt) (B64 := Ref.base64) RefGcp.verifier (Some 50)
      RefGcp.evidence (Some (replicate 64 "r"%byte)) RefGcp.start
    = (Ok (replicate 64 "r"%byte), s')) by (eexists; vm_compute; reflexivity).
  destruct E as [s' E].
  destruct (gcp_verify_sound (UC := Ref.url) (JC := Ref.json) (HH := RefGcp.host)
    (KJ := RefGcp.key_json) (JW := RefGcp.jwt) (JWL := RefGcp.jwt_laws) (B64 := Ref.base64)
    RefGcp.verifier 50 RefGcp.evidence (Some (replicate 64 "r"%byte)) RefGcp.start s'
    (replicate 64 "r"%byte))
    as (_ & _ & _ & k & set & j & key & claims & _ & _ & _ & _ & _ & _ & _ & _ & _ & _ & _ & _ & _ & Ha & _).
  - intros url e H. cbn [json_cache RefGcp.start] in H. by rewrite lookup_empty in H.
  - exact E.
  - exists s', claims. split; [exact E|exact Ha].
Defined.
