(* ===== verification/Server.v ===== *)
(** * The relay server

    [server/src/main.rs] and [crates/relay-core/src/router.rs]: the command
    line, the choice of the attestation backend, startup, the private admin
    endpoint and the running server. The running server is a step relation: an
    admin request is one step, a proxied request takes one step that reads the
    credential and sends, one for each redirect the HTTP client follows, and another
    that answers, and steps of different requests interleave. The listeners are in
    Listen. *)

From S2P Require Import Prelude RustStr NetAddr BTree Extern Config ConfigHash Secrets AppError Proxy.
From S2P Require Import Attest MockTee AttestedTls SnpReport Launcher GcpPolicy.

Local Open Scope N_scope.

(** ** Command line *)

Record Cli := {
  cli_listen : bytes;
  cli_upstream : bytes;
  cli_max_request_bytes : N;
  cli_upstream_timeout_secs : N;
  cli_allowed_upstream : list bytes;
  cli_upstream_tls_leaf_sha256 : list bytes;
  cli_provider_token : option bytes;
  cli_provider_auth_scheme : bytes;
  cli_admin_listen : option bytes;
  cli_allow_client_provider_auth : bool;
  cli_release_artifact_digest : option bytes;
}.

(** The values [clap] gives the options that are not set. *)
Definition Cli_default : Cli := {|
  cli_listen := lit "0.0.0.0:8443"; cli_upstream := lit "https://api.openai.com";
  cli_max_request_bytes := 1048576; cli_upstream_timeout_secs := 120;
  cli_allowed_upstream := []; cli_upstream_tls_leaf_sha256 := [];
  cli_provider_token := None; cli_provider_auth_scheme := lit "Bearer";
  cli_admin_listen := None; cli_allow_client_provider_auth := false;
  cli_release_artifact_digest := None;
|}.

Inductive StartError :=
  | PinForm
  | ConfigInvalid (e : ConfigError)
  | TlsSetup (e : AttestError)
  | HttpClient (e : HttpClientError).

Definition push_raw_pin (pins : btree (list bytes)) (item : bytes)
  : outcome StartError (btree (list bytes)) :=
  '(origin, pin) ← ok_or (split_once "="%byte item) PinForm;
  Ok (bt_entry origin [] (fun l => l ++ [pin]) pins).

Definition parse_upstream_tls_pins (raw : list bytes)
  : outcome StartError (btree (list bytes)) := try_fold push_raw_pin bt_empty raw.

Definition cli_runtime (cli : Cli) : RuntimeConfig := {|
  allow_client_provider_auth := cli_allow_client_provider_auth cli;
  private_admin_enabled := bool_decide (is_Some (cli_admin_listen cli));
  provider_auth_scheme := trim (cli_provider_auth_scheme cli);
  body_log_policy := lit "metadata-only";
|}.

Definition cli_config (cli : Cli) : outcome StartError RelayConfig :=
  pins ← parse_upstream_tls_pins (cli_upstream_tls_leaf_sha256 cli);
  Ok {| listen_addr := cli_listen cli;
        runtime := cli_runtime cli;
        default_upstream := cli_upstream cli;
        routes := routes RelayConfig_default;
        allowed_upstreams := match cli_allowed_upstream cli with
                             | [] => [cli_upstream cli]
                             | l => l
                             end;
        max_request_bytes := cli_max_request_bytes cli;
        release_artifact_digest := cli_release_artifact_digest cli;
        upstream_timeout_secs := cli_upstream_timeout_secs cli;
        upstream_tls_leaf_sha256 := pins |}.

(** ** Admin addresses *)

Definition is_private_admin_ip (ip : IpAddr) : bool :=
  match ip with
  | V4 o0 o1 _ _ =>
      is_loopback ip || bool_decide (ip = V4 0 0 0 0) || is_private_v4 o0 o1
      || ((o0 =? 169) && (o1 =? 254))
  | V6 s0 _ _ _ _ _ _ _ =>
      is_loopback ip || bool_decide (ip = V6 0 0 0 0 0 0 0 0)
      || (N.land s0 0xfe00 =? 0xfc00) || (N.land s0 0xffc0 =? 0xfe80)
  end.

(** ** Choice of the attestation backend *)

(** The [tee-*] cargo features. *)
Record Features := {
  tee_gcp_confidential_space : bool;
  tee_tdx : bool;
  tee_sev_snp : bool;
  tee_mock : bool;
}.

(** [std::env::var_os] and [Path::exists]. *)
Class Platform := {
  env_var_os : bytes -> option bytes;
  path_exists : bytes -> bool;
}.

(** [std::env::var] fails on text that is not Unicode. *)
#[global] Instance platform_env {PL : Platform} : Environment := fun name =>
  v ← env_var_os name; if utf8_valid v then Some v else None.

Definition env_set {PL : Platform} (name : bytes) : bool := bool_decide (is_Some (env_var_os name)).

(** [Box<dyn Attester>] *)
Inductive AnyAttester :=
  | AnyGcp (a : GcpConfidentialSpaceAttester)
  | AnyTdx
  | AnySev
  | AnyMock.

Section select.
Context {PL : Platform} {LS : LauncherSocket}.

Definition gcp_detected (now : N) : bool :=
  let socket_path := default (lit "/run/container_launcher/teeserver.sock")
                       (env_var (lit "TRUSTED_RELAY_GCP_CS_SOCKET")) in
  env_set (lit "TRUSTED_RELAY_GCP_CONFIDENTIAL_SPACE")
  || can_connect_launcher_socket socket_path now.
Definition tdx_detected : bool :=
  path_exists (lit "/dev/tdx_guest") || path_exists (lit "/dev/tdx-guest").
Definition sev_detected : bool :=
  path_exists (lit "/dev/sev-guest") || path_exists (lit "/dev/sev").
Definition mock_override : bool :=
  env_set (lit "TRUSTED_RELAY_ALLOW_MOCK_FALLBACK_IN_SNP")
  && env_set (lit "TRUSTED_RELAY_DEV_MOCK").

(** The panics are the two [panic!] calls. *)
Definition select_attester {E} (f : Features) (now : N) : outcome E AnyAttester :=
  if tee_gcp_confidential_space f && gcp_detected now then Ok (AnyGcp attester_from_env)
  else if tee_tdx f && tdx_detected then Ok AnyTdx
  else if tee_sev_snp f && sev_detected then
    if tee_mock f && mock_override then Ok AnyMock else Ok AnySev
  else if tee_mock f then
    if env_set (lit "TRUSTED_RELAY_DEV_MOCK") then Ok AnyMock else Panic
  else Panic.
End select.

#[global] Instance AnyAttester_attest {SC : Sha2Crate} {ED : Ed25519Crate} {QJ : MockQuoteJson}
  {B64 : Base64Crate} {TJ : TokenRequestJson} {LS : LauncherSocket} {BP : BuildProfile}
  {DEV : SevGuest} : Attester AnyAttester := fun a user_data =>
  match a with
  | AnyGcp g => attest g user_data
  | AnyTdx => attest tdx_attester user_data
  | AnySev => attest sev_snp_attester user_data
  | AnyMock => attest mock_attester user_data
  end.

(** ** Startup *)

Record Server := {
  srv_app : AppState;
  srv_tls : AttestedTlsServer;
  srv_http : UpstreamHttpClient;
  srv_admin : bool;
}.

Section start.
Context {UC : UrlCrate} {UT : UnicodeTables} {SC : Sha2Crate}.
Context {KP : Type} {RG : RcgenCrate KP} {RS : RustlsServer} {UCL : UpstreamClient}.
Context {A : Type} {AT : Attester A}.

(** [main] after the choice of the attester and before the listeners are bound. *)
Definition start (attester : A) (generated : option KP) (cli : Cli) : outcome StartError Server :=
  config ← cli_config cli;
  _ ← map_err ConfigInvalid (RelayConfig_validate config);
  hash ← config_hash config;
  tls_server ← map_err TlsSetup (AttestedTlsServer_new attester (Some hash) generated);
  let provider_credentials :=
    match cli_provider_token cli with
    | Some t => store_set {| auth_scheme := trim (cli_provider_auth_scheme cli); token := t |} store_new
    | None => store_new
    end in
  http_client ← map_err HttpClient (build_upstream_http_client config);
  Ok {| srv_app := {| Proxy.config := config; Proxy.provider_credentials := provider_credentials;
                      Proxy.require_provider_credential :=
                        negb (cli_allow_client_provider_auth cli) |};
        srv_tls := tls_server; srv_http := http_client;
        srv_admin := bool_decide (is_Some (cli_admin_listen cli)) |}.
End start.

Definition start_with_backend {UC : UrlCrate} {UT : UnicodeTables} {SC : Sha2Crate}
  {KP : Type} {RG : RcgenCrate KP} {RS : RustlsServer} {UCL : UpstreamClient} {PL : Platform}
  {ED : Ed25519Crate} {QJ : MockQuoteJson}
  {B64 : Base64Crate} {TJ : TokenRequestJson} {LS : LauncherSocket} {BP : BuildProfile}
  {DEV : SevGuest} (f : Features) (now : N) (generated : option KP) (cli : Cli)
  : outcome StartError Server :=
  attester ← select_attester f now; start attester generated cli.

(** ** The routers *)

Inductive Method := GET | POST.
Inductive Endpoint := ChatCompletions | Health | AdminHealthGet | AdminInject.

(** Routes, and the body limit of the layer around them. *)
Record Router := {
  router_routes : list (bytes * Method * Endpoint);
  router_limit : option N;
}.
Definition build_router (st : AppState) : Router := {|
  router_routes := [(lit "/v1/chat/completions", POST, ChatCompletions);
                    (lit "/health", GET, Health)];
  router_limit := Some (body_limit (config st));
|}.
Definition build_admin_router : Router := {|
  router_routes := [(lit "/admin/health", GET, AdminHealthGet);
                    (lit "/admin/provider-credential", POST, AdminInject)];
  router_limit := None;
|}.

(** ** The admin handlers *)

Record AdminHealth := {
  ok : bool;
  provider_credential_loaded : bool;
}.

Definition admin_health (s : ProviderCredentialStore) : AdminHealth :=
  {| ok := true; provider_credential_loaded := is_loaded s |}.

Definition BAD_REQUEST : N := 400.
Definition NO_CONTENT : N := 204.
Definition CONFLICT : N := 409.

Definition inject_provider_credential {HV : HeaderValueCrate} (credential : ProviderCredential)
  (s : ProviderCredentialStore) : N * ProviderCredentialStore :=
  if negb (is_ok (ProviderCredential_validate credential)) then (BAD_REQUEST, s)
  else match set_once credential s with
       | (Ok _, s') => (NO_CONTENT, s')
       | (_, s') => (CONFLICT, s')
       end.

(** ** The running server *)

(** A call of the HTTP client that has not returned: the request it was handed, with
    whether a credential goes along, and the requests it sent after that one in answer to
    redirects, the latest first. *)
Record Exchange (M : Type) := {
  ex_call : UpstreamRequest M * bool;
  ex_hops : list (UpstreamRequest M);
}.
Arguments ex_call {M}. Arguments ex_hops {M}. Arguments Build_Exchange {M}.

(** The request whose response is awaited. *)
Definition ex_current {M} (e : Exchange M) : UpstreamRequest M := default (ex_call e).1 (head (ex_hops e)).
Definition ex_follow {M} (e : Exchange M) (req : UpstreamRequest M) : Exchange M :=
  Build_Exchange (ex_call e) (req :: ex_hops e).

Record Running (M : Type) := {
  app_state : AppState;
  http_client : UpstreamHttpClient;
  admin : bool;
  in_flight : list (Exchange M);
}.
Arguments app_state {M}. Arguments http_client {M}. Arguments admin {M}. Arguments in_flight {M}.
Arguments Build_Running {M}.

Definition running {M} (srv : Server) : Running M :=
  {| app_state := srv_app srv; http_client := srv_http srv; admin := srv_admin srv; in_flight := [] |}.

Definition with_app_state {M} (st : AppState) (s : Running M) : Running M := {|
  app_state := st; http_client := http_client s; admin := admin s; in_flight := in_flight s |}.
Definition with_in_flight {M} (l : list (Exchange M)) (s : Running M) : Running M := {|
  app_state := app_state s; http_client := http_client s; admin := admin s; in_flight := l |}.

Definition with_credentials (cr : ProviderCredentialStore) (st : AppState) : AppState := {|
  config := config st; provider_credentials := cr;
  require_provider_credential := require_provider_credential st |}.

(** What an observer at the server's sockets sees: [Sent] is the request a handler sends
    to its upstream, [Followed] one the HTTP client sends because the answer to the one
    before was a redirect. *)
Inductive Action (M : Type) :=
  | Injected (c : ProviderCredential) (st : N)
  | Reported (h : AdminHealth)
  | Refused (e : AppError)
  | Sent (req : UpstreamRequest M)
  | Followed (from req : UpstreamRequest M)
  | Answered (req : UpstreamRequest M) (r : outcome AppError (Response M)).
Arguments Injected {M}. Arguments Reported {M}. Arguments Refused {M}. Arguments Sent {M}. Arguments Followed {M}.
Arguments Answered {M}.

Section running.
Context {UC : UrlCrate} {UT : UnicodeTables} {JC : JsonCrate}.
Context {HV : HeaderValueCrate} {M : Type} {HM : HeaderMapCrate M} {RD : RedirectRule M}.

(** The two halves of [proxy_chat_completions], around the wait for the upstream. *)
Definition begin_proxy (st : AppState) (client : M) (bd : bytes)
  : outcome AppError (UpstreamRequest M * bool) :=
  req ← prepare_request st client bd; Ok (req, is_loaded (provider_credentials st)).
Definition end_proxy (pending : UpstreamRequest M * bool) (reply : bytes + UpstreamResponse M)
  : outcome AppError (Response M) :=
  match reply with
  | inl e => Err (AppError_from_reqwest e)
  | inr r => finish_response pending.2 r
  end.

Inductive step : Running M -> Action M -> Running M -> Prop :=
  | step_inject s c st cr :
      admin s = true ->
      inject_provider_credential c (provider_credentials (app_state s)) = (st, cr) ->
      step s (Injected c st) (with_app_state (with_credentials cr (app_state s)) s)
  | step_health s :
      admin s = true -> step s (Reported (admin_health (provider_credentials (app_state s)))) s
  | step_refuse s client bd e :
      begin_proxy (app_state s) client bd = Err e -> step s (Refused e) s
  | step_send s client bd p :
      begin_proxy (app_state s) client bd = Ok p ->
      step s (Sent p.1) (with_in_flight (Build_Exchange p [] :: in_flight s) s)
  | step_follow s l1 e l2 resp req :
      in_flight s = l1 ++ e :: l2 ->
      follows (hc_redirect (http_client s)) (length (ex_hops e)) = true ->
      redirect_request (ex_current e) resp = Some req ->
      step s (Followed (ex_current e) req) (with_in_flight (l1 ++ ex_follow e req :: l2) s)
  | step_answer s l1 e l2 reply :
      in_flight s = l1 ++ e :: l2 ->
      final_reply (hc_redirect (http_client s)) (ex_current e) reply = true ->
      step s (Answered (ex_call e).1 (end_proxy (ex_call e) reply)) (with_in_flight (l1 ++ l2) s).

Inductive run (s0 : Running M) : list (Action M) -> Running M -> Prop :=
  | run_nil : run s0 [] s0
  | run_snoc tr s a s' : run s0 tr s -> step s a s' -> run s0 (tr ++ [a]) s'.

Definition accepted (a : Action M) : bool :=
  match a with Injected _ st => st =? NO_CONTENT | _ => false end.
Definition count_accepted (tr : list (Action M)) : nat :=
  length (filter (fun a => accepted a = true) tr).

(** ** Facts *)

(** The sequential handler is its two halves. *)
Lemma proxy_halves st send client bd :
  (proxy_chat_completions st send client bd).2 =
  (p ← begin_proxy st client bd; end_proxy p (send p.1)).
Proof.
  unfold proxy_chat_completions, begin_proxy, end_proxy.
  by destruct (prepare_request st client bd).
Qed.

Lemma count_accepted_snoc tr a :
  count_accepted (tr ++ [a]) = (count_accepted tr + if accepted a then 1 else 0)%nat.
Proof.
  unfold count_accepted. rewrite filter_app, length_app. f_equal.
  destruct (accepted a) eqn:E.
  - by rewrite filter_cons_True.
  - rewrite filter_cons_False; [done|by rewrite E].
Qed.

Lemma inject_cases c s st cr : inject_provider_credential c s = (st, cr) ->
  (st = BAD_REQUEST /\ cr = s /\ is_ok (ProviderCredential_validate c) = false) \/
  (st = NO_CONTENT /\ s = None /\ cr = Some c /\ ProviderCredential_validate c = Ok tt) \/
  (st = CONFLICT /\ cr = s /\ is_loaded s = true).
Proof.
  unfold inject_provider_credential, set_once.
  destruct (ProviderCredential_validate c) as [[]|e|]; cbn [is_ok negb].
  2,3: intros [= <- <-]; by left.
  destruct s; intros [= <- <-]; right; [by right|by left].
Qed.

(** A step only changes the credential, and that only from none to an accepted one. *)
Lemma step_app s a s' : step s a s' ->
  config (app_state s') = config (app_state s) /\
  require_provider_credential (app_state s') = require_provider_credential (app_state s) /\
  ((provider_credentials (app_state s') = provider_credentials (app_state s) /\ accepted a = false) \/
   exists c, a = Injected c NO_CONTENT /\ ProviderCredential_validate c = Ok tt /\
     provider_credentials (app_state s) = None /\ provider_credentials (app_state s') = Some c).
Proof.
  destruct 1 as [s c st cr _ Hi|s _|s client bd e _|s client bd p _|s l1 e l2 resp req _ _ _|s l1 e l2 reply _ _];
    cbn [app_state with_app_state with_in_flight with_credentials config require_provider_credential provider_credentials];
    split_and!; try done; try (by left).
  apply inject_cases in Hi as [(-> & -> & _)|[(-> & Hn & -> & Hv)|(-> & -> & _)]];
    [by left| |by left]. right. by exists c.
Qed.

Lemma run_app s0 tr s : run s0 tr s ->
  config (app_state s) = config (app_state s0) /\
  require_provider_credential (app_state s) = require_provider_credential (app_state s0) /\
  (count_accepted tr + (if is_loaded (provider_credentials (app_state s0)) then 1 else 0) =
   if is_loaded (provider_credentials (app_state s)) then 1 else 0)%nat /\
  (forall c, provider_credentials (app_state s0) = Some c -> provider_credentials (app_state s) = Some c) /\
  (forall c, provider_credentials (app_state s) = Some c ->
     provider_credentials (app_state s0) = Some c \/
     (Injected c NO_CONTENT ∈ tr /\ ProviderCredential_validate c = Ok tt)).
Proof.
  induction 1 as [|tr s a s' Hrun (Hc & Hr & Hn & Hk & Ho) Hs]; [by split_and!; auto|].
  apply step_app in Hs as (Hc' & Hr' & [[He Hna]|(c & -> & Hv & Hb & He)]);
    rewrite count_accepted_snoc, He in *.
  - rewrite Hna. split_and!; try congruence; [lia|auto|].
    intros c Hcs. destruct (Ho c Hcs) as [?|[? ?]]; [by left|right; set_solver].
  - cbn [accepted]. rewrite N.eqb_refl, Hb in *. cbn [is_loaded] in *.
    split_and!; try congruence; [lia| |].
    + intros c' Hc0. by apply Hk in Hc0.
    + intros c' [= <-]. right. set_solver.
Qed.

Lemma run_trans s0 tr1 s1 tr2 s2 : run s0 tr1 s1 -> run s1 tr2 s2 -> run s0 (tr1 ++ tr2) s2.
Proof.
  intros H1. induction 1 as [|tr s a s' _ IH Hs]; [by rewrite app_nil_r|].
  rewrite app_assoc. by eapply run_snoc.
Qed.

Lemma run_split s0 pre a post s : run s0 (pre ++ a :: post) s ->
  exists s1 s2, run s0 pre s1 /\ step s1 a s2 /\ run s2 post s.
Proof.
  revert s. induction post as [|b post IH] using rev_ind; intros s H.
  - inversion H as [Hnil|tr s1 a' s' Hr Hs Heq]; subst; [by destruct pre|].
    apply app_inj_tail in Heq as [-> ->]. exists s1, s. split_and!; [done..|constructor].
  - rewrite app_comm_cons, app_assoc in H.
    inversion H as [Hnil|tr s1 a' s' Hr Hs Heq]; subst; [by destruct pre|].
    apply app_inj_tail in Heq as [-> ->]. apply IH in Hr as (t1 & t2 & ? & ? & ?).
    exists t1, t2. split_and!; [done..|by eapply run_snoc].
Qed.

(** A request leaves the relay only as [prepare_request] made it, from the state the
    steps before produced. *)
Lemma sent_prepared s0 pre req post s : run s0 (pre ++ Sent req :: post) s ->
  exists s1 client bd, run s0 pre s1 /\ prepare_request (app_state s1) client bd = Ok req /\
    config (app_state s1) = config (app_state s0) /\
    (forall c, provider_credentials (app_state s1) = Some c -> provider_credentials (app_state s) = Some c).
Proof.
  intros (s1 & s2 & H1 & Hs & H2)%run_split.
  destruct (run_app _ _ _ H1) as (Hc & _).
  destruct (run_app _ _ _ H2) as (_ & _ & _ & Hk & _).
  inversion Hs as [| | |? client bd p Hb Hp| |]; subst. unfold begin_proxy in Hb. inv_outcome.
  exists s1, client, bd. by split_and!.
Qed.

(** [b] is reached from [a] by [n] redirects. *)
Inductive redirected : nat -> UpstreamRequest M -> UpstreamRequest M -> Prop :=
  | redirected_none a : redirected 0 a a
  | redirected_more n a b resp c :
      redirected n a b -> redirect_request b resp = Some c -> redirected (S n) a c.

Lemma run_client s0 tr s : run s0 tr s -> http_client s = http_client s0.
Proof. induction 1 as [|tr s a s' _ IH Hs]; [done|]. by destruct Hs. Qed.

(** A call that is out was sent by a handler, and redirects led to where it is. *)
Definition traced (tr : list (Action M)) (e : Exchange M) : Prop :=
  Sent (ex_call e).1 ∈ tr /\ redirected (length (ex_hops e)) (ex_call e).1 (ex_current e).

Lemma run_traced s0 tr s : run s0 tr s -> in_flight s0 = [] -> Forall (traced tr) (in_flight s).
Proof.
  intros Hrun H0. induction Hrun as [|tr s a s' _ IH Hs]; [by rewrite H0|].
  assert (Hm : forall e, traced tr e -> traced (tr ++ [a]) e) by (intros e [? ?]; split; set_solver).
  assert (IH' : Forall (traced (tr ++ [a])) (in_flight s)) by (eapply Forall_impl; eauto).
  destruct Hs as [s c st cr _ _|s _|s client bd er _|s client bd p _|s l1 e l2 resp req Hq _ Hr|s l1 e l2 reply Hq _];
    cbn [in_flight with_app_state with_in_flight]; try done.
  - constructor; [|done]. split; [set_solver|apply redirected_none].
  - rewrite Hq in IH'. apply Forall_app in IH' as [H1 [[Hsent Hch] H2]%Forall_cons].
    apply Forall_app. split; [done|]. constructor; [|done]. split; [done|].
    by eapply redirected_more.
  - rewrite Hq in IH'. apply Forall_app in IH' as [H1 [_ H2]%Forall_cons]. by apply Forall_app.
Qed.

(** Everything the client contacts beyond what the handlers sent is reached by redirects. *)
Lemma followed_traced s0 pre from req post s :
  run s0 (pre ++ Followed from req :: post) s -> in_flight s0 = [] ->
  exists first n, Sent first ∈ pre /\ redirected n first from /\
    follows (hc_redirect (http_client s0)) n = true /\ redirected (S n) first req.
Proof.
  intros (s1 & s2 & H1 & Hs & _)%run_split H0. pose proof (run_traced _ _ _ H1 H0) as Ht.
  inversion Hs as [| | | |? l1 e l2 resp ? Hq Hf Hr|]; subst.
  rewrite Hq in Ht. apply Forall_app in Ht as [_ [[Hsent Hch] _]%Forall_cons].
  rewrite (run_client _ _ _ H1) in Hf. exists (ex_call e).1, (length (ex_hops e)).
  split_and!; [done..|]. by eapply redirected_more.
Qed.

(** The property of a sent request in [run_credential]. *)
Definition carries (req : UpstreamRequest M) (c : ProviderCredential) : Prop :=
  hm_get_all (lit "authorization") (rq_headers req) = [auth_scheme c ++ lit " " ++ token c].

Lemma prepared_carries {HML : HeaderMapLaws M} st client bd req :
  prepare_request st client bd = Ok req -> require_provider_credential st = true ->
  exists c, provider_credentials st = Some c /\ carries req c.
Proof.
  intros Hp Hr. pose proof (prepared_headers _ _ _ _ Hp (lit "authorization")) as Hh.
  apply prepare_request_Ok in Hp as (base & po & _ & _ & _ & Hc & _).
  destruct (Hc Hr) as [c Hs]. exists c. split; [done|]. unfold carries. rewrite Hh, Hs.
  unfold expected_values. rewrite decide_False by (by vm_compute). by rewrite decide_True.
Qed.
End running.

(** ** Facts on startup *)

Section start_facts.
Context {UC : UrlCrate} {UT : UnicodeTables} {SC : Sha2Crate} {SL : Sha2Laws}.
Context {KP : Type} {RG : RcgenCrate KP} {RS : RustlsServer} {UCL : UpstreamClient} {XC : X509Crate} {XL : X509Laws KP}.
Context {A : Type} {AT : Attester A}.

Lemma cli_config_Ok cli c : cli_config cli = Ok c ->
  default_upstream c = cli_upstream cli /\ routes c = [] /\ allowed_upstreams c <> [].
Proof.
  unfold cli_config. intros H. inv_outcome. split_and!; [done..|]. cbn [allowed_upstreams].
  by destruct (cli_allowed_upstream cli).
Qed.

Lemma validated_default c : RelayConfig_validate c = Ok tt -> allowed_upstreams c <> [] ->
  check_upstream_allowed c (default_upstream c) = Ok tt.
Proof.
  unfold RelayConfig_validate. intros Hv Hne. inv_outcome.
  destruct (allowed_upstreams _) eqn:E; [done|]. inv_outcome.
  match goal with H : check_upstream_allowed _ (default_upstream _) = Ok ?u |- _ =>
    by destruct u end.
Qed.

(** What [AttestedTlsServer_new] had attested is in the certificate it returns. *)
Lemma attested_certificate (a : A) h generated s :
  length h = 32%nat -> AttestedTlsServer_new a (Some h) generated = Ok s ->
  exists kp ev, generated = Some kp /\
    attest a (sha384 (public_key_der kp) ++ take 16 h) = Ok ev /\
    extract_evidence_from_cert (server_cert_der s) = Ok ev /\
    extract_spki_from_cert (server_cert_der s) = Ok (public_key_der kp).
Proof.
  intros Hh Hs. unfold AttestedTlsServer_new, from_key_pair, from_cert_key_pair,
    from_cert_der_and_key in Hs. inv_outcome. cbn [server_cert_der].
  match goal with H : self_signed (cert_params_with_evidence ?e) ?k = Some ?d |- _ =>
    destruct (extract_from_self_signed e k d H) as [He Hk]; exists k, e end.
  rewrite reportdata_is_layout in * by done. by split_and!.
Qed.

Lemma start_Ok (a : A) generated cli srv : start a generated cli = Ok srv ->
  let c := config (srv_app srv) in
  cli_config cli = Ok c /\ RelayConfig_validate c = Ok tt /\
  (exists h, config_hash (E := StartError) c = Ok h /\
     AttestedTlsServer_new a (Some h) generated = Ok (srv_tls srv)) /\
  provider_credentials (srv_app srv) =
    (fun t => {| auth_scheme := trim (cli_provider_auth_scheme cli); token := t |})
      <$> cli_provider_token cli /\
  require_provider_credential (srv_app srv) = negb (cli_allow_client_provider_auth cli) /\
  build_upstream_http_client c = Ok (srv_http srv).
Proof.
  unfold start. intros H. inv_outcome. cbn [srv_app srv_tls srv_http config
    provider_credentials require_provider_credential].
  match goal with H : RelayConfig_validate _ = Ok ?u |- _ => destruct u end.
  split_and!; eauto.
Qed.
End start_facts.

(** A started relay's client follows at most ten redirects from a request it was handed. *)
Lemma started_follows {UC : UrlCrate} {UT : UnicodeTables} {UCL : UpstreamClient} {JC : JsonCrate}
  {HV : HeaderValueCrate} {M : Type} {HM : HeaderMapCrate M} {RD : RedirectRule M}
  (srv : Server) c pre from req post (s : Running M) :
  build_upstream_http_client c = Ok (srv_http srv) ->
  run (running srv) (pre ++ Followed from req :: post) s ->
  exists first n, Sent first ∈ pre /\ (n < 10)%nat /\ redirected n first from /\
    redirected (S n) first req.
Proof.
  intros Hcl Hrun. apply build_client_Ok in Hcl as (by_host & _ & Hcl & _).
  apply followed_traced in Hrun as (first & n & Hf & Hn & Hlim & Hch); [|done].
  cbn [running http_client] in Hlim. rewrite Hcl in Hlim.
  cbn [hc_redirect follows] in Hlim. exists first, n. split_and!; [done|by apply Nat.ltb_lt|done..].
Qed.

(** ** Address blocks *)

(** An address as a number, and the width of its kind. *)
Definition ip_bits (ip : IpAddr) : N :=
  match ip with
  | V4 o0 o1 o2 o3 => ((o0 * 256 + o1) * 256 + o2) * 256 + o3
  | V6 s0 s1 s2 s3 s4 s5 s6 s7 =>
      ((((((s0 * 65536 + s1) * 65536 + s2) * 65536 + s3) * 65536 + s4) * 65536 + s5) * 65536
       + s6) * 65536 + s7
  end.
Definition ip_width (ip : IpAddr) : N := match ip with V4 _ _ _ _ => 32 | _ => 128 end.
(** Membership in the block of a first address and a prefix length. *)
Definition in_block (ip : IpAddr) (block : IpAddr * N) : Prop :=
  ip_width ip = ip_width block.1 /\
  ip_bits ip / 2 ^ (ip_width ip - block.2) = ip_bits block.1 / 2 ^ (ip_width ip - block.2).

Definition loopback_blocks : list (IpAddr * N) := [(V4 127 0 0 0, 8); (V6 0 0 0 0 0 0 0 1, 128)].
Definition private_blocks : list (IpAddr * N) :=
  [(V4 10 0 0 0, 8); (V4 172 16 0 0, 12); (V4 192 168 0 0, 16); (V6 0xfc00 0 0 0 0 0 0 0, 7)].
Definition link_local_blocks : list (IpAddr * N) :=
  [(V4 169 254 0 0, 16); (V6 0xfe80 0 0 0 0 0 0 0, 10)].
Definition unspecified_blocks : list (IpAddr * N) :=
  [(V4 0 0 0 0, 32); (V6 0 0 0 0 0 0 0 0, 128)].

Lemma land_mask s k m : N.land s (N.shiftl (N.ones k) m) = (s / 2 ^ m) mod 2 ^ k * 2 ^ m.
Proof.
  rewrite <-N.land_ones, <-N.shiftr_div_pow2, <-N.shiftl_mul_pow2.
  apply N.bits_inj. intros n. rewrite N.land_spec.
  destruct (N.leb_spec m n) as [Hm|Hm].
  - rewrite !N.shiftl_spec_high' by done. rewrite N.land_spec, N.shiftr_spec'.
    by replace (n - m + m) with n by lia.
  - rewrite !N.shiftl_spec_low by done. apply andb_false_r.
Qed.

Lemma mask_block s k m v : s < 2 ^ (k + m) -> v < 2 ^ k ->
  (N.land s (N.shiftl (N.ones k) m) =? N.shiftl v m) = bool_decide (s / 2 ^ m = v).
Proof.
  intros Hs Hv. rewrite land_mask, N.shiftl_mul_pow2. rewrite N.pow_add_r in Hs.
  rewrite N.mod_small by (apply N.Div0.div_lt_upper_bound; lia).
  assert (Hp : 2 ^ m <> 0) by (by apply N.pow_nonzero).
  apply eq_true_iff_eq. rewrite N.eqb_eq, bool_decide_eq_true. nia.
Qed.

(** The high bits of a number. *)
Lemma high_bits a b k : b < 2 ^ k -> (a * 2 ^ k + b) / 2 ^ k = a.
Proof. intros Hb. rewrite N.div_add_l by (by apply N.pow_nonzero). rewrite N.div_small by done. lia. Qed.

(** An address lies in a block of the other kind never, and in one of its kind when the
    high bits agree. *)
Ltac block_bits :=
  unfold in_block; cbn [fst snd ip_bits ip_width];
  repeat match goal with |- context [2 ^ (?w - ?n)] =>
    let d := eval vm_compute in (w - n) in change (w - n) with d end;
  repeat match goal with |- context [?x = ?a / 2 ^ ?k] =>
    let v := eval vm_compute in (a / 2 ^ k) in
    replace (a / 2 ^ k) with v by (vm_compute; reflexivity) end.

Definition admin_blocks : list (IpAddr * N) :=
  loopback_blocks ++ private_blocks ++ link_local_blocks ++ unspecified_blocks.

Lemma v4_admin_blocks o0 o1 o2 o3 : ip_wf (V4 o0 o1 o2 o3) ->
  is_private_admin_ip (V4 o0 o1 o2 o3) = true <-> Exists (in_block (V4 o0 o1 o2 o3)) admin_blocks.
Proof.
  unfold ip_wf. rewrite !Forall_cons. intros (H0 & H1 & H2 & H3 & _).
  unfold admin_blocks, loopback_blocks, private_blocks, link_local_blocks, unspecified_blocks.
  cbn [app]. rewrite !Exists_cons, Exists_nil. block_bits. rewrite N.pow_0_r, N.div_1_r.
  set (bits := ((o0 * 256 + o1) * 256 + o2) * 256 + o3).
  assert (E24 : bits / 2 ^ 24 = o0).
  { replace bits with (o0 * 2 ^ 24 + ((o1 * 256 + o2) * 256 + o3)) by (unfold bits; lia).
    apply high_bits. lia. }
  assert (E16 : bits / 2 ^ 16 = o0 * 256 + o1).
  { replace bits with ((o0 * 256 + o1) * 2 ^ 16 + (o2 * 256 + o3)) by (unfold bits; lia).
    apply high_bits. lia. }
  assert (E20 : bits / 2 ^ 20 = o0 * 16 + o1 / 16).
  { change (2 ^ 20) with (2 ^ 16 * 16). rewrite <-N.Div0.div_div, E16.
    replace (o0 * 256 + o1) with (o0 * 16 * 16 + o1) by lia. by rewrite N.div_add_l. }
  rewrite E24, E16, E20. unfold is_private_admin_ip, is_loopback, is_private_v4.
  rewrite !orb_true_iff, !andb_true_iff, !N.eqb_eq, bool_decide_eq_true, !N.leb_le.
  assert (Hu : V4 o0 o1 o2 o3 = V4 0 0 0 0 <-> bits = 0).
  { split; [by intros [= -> -> -> ->]|]. intros Hb. f_equal; lia. }
  rewrite Hu. clearbody bits. clear -H0 H1.
  generalize (bits / 2 ^ 25) (bits / 2 ^ 22). intros b1 b2.
  Zify.zify. Z.to_euclidean_division_equations. lia.
Qed.

Lemma v6_admin_blocks s0 s1 s2 s3 s4 s5 s6 s7 : ip_wf (V6 s0 s1 s2 s3 s4 s5 s6 s7) ->
  is_private_admin_ip (V6 s0 s1 s2 s3 s4 s5 s6 s7) = true <->
  Exists (in_block (V6 s0 s1 s2 s3 s4 s5 s6 s7)) admin_blocks.
Proof.
  unfold ip_wf. rewrite !Forall_cons. intros (H0 & H1 & H2 & H3 & H4 & H5 & H6 & H7 & _).
  unfold admin_blocks, loopback_blocks, private_blocks, link_local_blocks, unspecified_blocks.
  cbn [app]. rewrite !Exists_cons, Exists_nil. block_bits. rewrite N.pow_0_r, !N.div_1_r.
  unfold is_private_admin_ip, is_loopback.
  replace (N.land s0 65024 =? 64512) with (bool_decide (s0 / 2 ^ 9 = 126))
    by (symmetry; by apply (mask_block s0 7 9 126)).
  replace (N.land s0 65472 =? 65152) with (bool_decide (s0 / 2 ^ 6 = 1018))
    by (symmetry; by apply (mask_block s0 10 6 1018)).
  set (bits := ((((((s0 * 65536 + s1) * 65536 + s2) * 65536 + s3) * 65536 + s4) * 65536 + s5)
    * 65536 + s6) * 65536 + s7).
  assert (E112 : bits / 2 ^ 112 = s0).
  { replace bits with (s0 * 2 ^ 112 + ((((((s1 * 65536 + s2) * 65536 + s3) * 65536 + s4) * 65536
      + s5) * 65536 + s6) * 65536 + s7)) by (unfold bits; lia).
    apply high_bits. lia. }
  change (2 ^ 121) with (2 ^ 112 * 2 ^ 9). change (2 ^ 118) with (2 ^ 112 * 2 ^ 6).
  rewrite <-!N.Div0.div_div, E112, !orb_true_iff, !bool_decide_eq_true.
  assert (Hl : V6 s0 s1 s2 s3 s4 s5 s6 s7 = V6 0 0 0 0 0 0 0 1 <-> bits = 1).
  { split; [by intros [= -> -> -> -> -> -> -> ->]|]. intros Hb. f_equal; lia. }
  assert (Hu : V6 s0 s1 s2 s3 s4 s5 s6 s7 = V6 0 0 0 0 0 0 0 0 <-> bits = 0).
  { split; [by intros [= -> -> -> -> -> -> -> ->]|]. intros Hb. f_equal; lia. }
  rewrite Hl, Hu. clearbody bits. intuition done.
Qed.

Lemma admin_ip_blocks ip : ip_wf ip -> is_private_admin_ip ip = false <-> ~ Exists (in_block ip) admin_blocks.
Proof.
  intros Hwf. rewrite <-not_true_iff_false. apply not_iff_compat.
  destruct ip; [by apply v4_admin_blocks|by apply v6_admin_blocks].
Qed.

(** ** Properties *)

(** C1: In every interleaving of admin and client requests on a relay that requires a provider
    credential, at most one injection is ever accepted (none when one was loaded at
    startup), and every upstream request carries exactly one Authorization value: that
    of the one credential the relay holds, which was loaded at startup or was validated
    and accepted before the request was sent. *)
Theorem run_credential {UC : UrlCrate} {UT : UnicodeTables} {JC : JsonCrate}
  {HV : HeaderValueCrate} {M : Type} {HM : HeaderMapCrate M} {HML : HeaderMapLaws M} {RD : RedirectRule M}
  (s0 s : Running M) (tr : list (Action M))
  (Hreq : require_provider_credential (app_state s0) = true) (Hrun : run s0 tr s) :
  (count_accepted tr + (if is_loaded (provider_credentials (app_state s0)) then 1 else 0) =
   if is_loaded (provider_credentials (app_state s)) then 1 else 0)%nat /\
  forall pre req post, tr = pre ++ Sent req :: post ->
    exists c, provider_credentials (app_state s) = Some c /\
      hm_get_all (lit "authorization") (rq_headers req) = [auth_scheme c ++ lit " " ++ token c] /\
      (provider_credentials (app_state s0) = Some c \/
       (Injected c NO_CONTENT ∈ pre /\ ProviderCredential_validate c = Ok tt)).
Proof.
  split; [by apply run_app|]. intros pre req post ->.
  apply sent_prepared in Hrun as (s1 & client & bd & Hr & Hp & _ & Hk).
  destruct (run_app _ _ _ Hr) as (_ & Hq & _ & _ & Ho).
  destruct (prepared_carries _ _ _ _ Hp) as (c & Hc & Hh); [congruence|].
  exists c. split_and!; auto.
Qed.

(** C6: A started relay is the one its certificate attests: its configuration is the validated
    one the command line describes, the evidence in the certificate was produced for the
    SHA-384 of the certificate's key followed by the first half of the hash of that very
    configuration, and whatever requests it serves afterwards, in any interleaving, every
    handler POSTs to the chat completions path of the command line's upstream, which the
    allowlist admits. Any other request the relay's HTTP client makes is reached from one
    of those by at most ten redirects; their targets are not checked. *)
Theorem started_relay {UC : UrlCrate} {UT : UnicodeTables} {SC : Sha2Crate} {SL : Sha2Laws}
  {KP : Type} {RG : RcgenCrate KP} {RS : RustlsServer} {UCL : UpstreamClient} {XC : X509Crate} {XL : X509Laws KP}
  {JC : JsonCrate} {HV : HeaderValueCrate} {M : Type} {HM : HeaderMapCrate M} {RD : RedirectRule M}
  {A : Type} {AT : Attester A} (a : A) (generated : option KP) (cli : Cli) (srv : Server)
  (Hs : start a generated cli = Ok srv) :
  let c := config (srv_app srv) in
  RelayConfig_validate c = Ok tt /\
  check_upstream_allowed c (cli_upstream cli) = Ok tt /\
  (exists h kp ev, config_hash (E := StartError) c = Ok h /\ generated = Some kp /\
     attest a (sha384 (public_key_der kp) ++ take 16 h) = Ok ev /\
     extract_evidence_from_cert (server_cert_der (srv_tls srv)) = Ok ev /\
     extract_spki_from_cert (server_cert_der (srv_tls srv)) = Ok (public_key_der kp)) /\
  forall tr (s : Running M), run (running srv) tr s ->
    config (app_state s) = c /\
    (forall req, Sent req ∈ tr ->
       rq_method req = lit "POST" /\ rq_url req = upstream_url (cli_upstream cli) None) /\
    (forall pre from req post, tr = pre ++ Followed from req :: post ->
       exists first n, Sent first ∈ pre /\ (n < 10)%nat /\ redirected n first from /\
         redirected (S n) first req).
Proof.
  cbv zeta. apply start_Ok in Hs as (Hcli & Hv & (h & Hh & Htls) & _ & _ & Hcl).
  destruct (cli_config_Ok _ _ Hcli) as (Hd & Hr & Hal).
  split_and!; [done| | |].
  - rewrite <-Hd. by apply validated_default.
  - assert (Hl : length h = 32%nat).
    { unfold config_hash in Hh. destruct (normalize_upstream_tls_pins _); simplify_eq.
      apply sha256_length. }
    destruct (attested_certificate a h generated _ Hl Htls) as (kp & ev & ? & ? & ? & ?).
    exists h, kp, ev. by split_and!.
  - intros tr s Hrun. destruct (run_app _ _ _ Hrun) as (Hc & _). split; [done|]. split.
    + intros req (pre & post & ->)%list_elem_of_split.
      apply sent_prepared in Hrun as (s1 & client & bd & _ & Hp & Hc1 & _).
      apply prepare_request_Ok in Hp as (base & po & _ & Hres & _ & _ & hs & _ & ->).
      cbn [running app_state] in Hc1. rewrite Hc1 in Hres. unfold resolve_upstream in Hres.
      rewrite Hr in Hres. cbn [sort_by first_match] in Hres. cbn [rq_method rq_url]. split; congruence.
    + intros pre from req post ->. by eapply started_follows.
Qed.

(** C40: The development backend is never a silent fallback: the mock attester is chosen only
    when it is compiled in and TRUSTED_RELAY_DEV_MOCK is set, only without a detected GCP
    launcher or TDX device, and with an SEV-SNP device only under the second override; a
    detected backend that is compiled in always yields an attester; and the relay refuses
    to start exactly when nothing applies. *)
Theorem select_attester_safe {PL : Platform} {LS : LauncherSocket} {E : Type}
  (f : Features) (now : N) :
  let gcp := tee_gcp_confidential_space f && gcp_detected now in
  let tdx := tee_tdx f && tdx_detected in
  let sev := tee_sev_snp f && sev_detected in
  let dev := tee_mock f && env_set (lit "TRUSTED_RELAY_DEV_MOCK") in
  (select_attester (E := E) f now = Ok AnyMock <->
     gcp = false /\ tdx = false /\ dev = true /\
     (sev = true -> env_set (lit "TRUSTED_RELAY_ALLOW_MOCK_FALLBACK_IN_SNP") = true)) /\
  (select_attester (E := E) f now = Panic <-> gcp || tdx || sev || dev = false) /\
  (gcp = true -> select_attester (E := E) f now = Ok (AnyGcp attester_from_env)).
Proof.
  cbv zeta. unfold select_attester, mock_override.
  destruct (tee_gcp_confidential_space f && gcp_detected now);
    destruct (tee_tdx f && tdx_detected); destruct (tee_sev_snp f && sev_detected);
    destruct (tee_mock f); destruct (env_set (lit "TRUSTED_RELAY_DEV_MOCK"));
    destruct (env_set (lit "TRUSTED_RELAY_ALLOW_MOCK_FALLBACK_IN_SNP"));
    cbn [andb orb]; intuition congruence.
Qed.

(** ** Witnesses *)

Definition idle : Running Ref.headers :=
  {| app_state := unloaded_state; http_client := with_timeout 120 Client_builder; admin := true;
     in_flight := [] |}.

(** A client that follows a 307 or 308 with a Location, and repeats the request there
    without the Authorization header. *)
Definition sample_redirects : RedirectRule Ref.headers := fun req r =>
  if (rs_status r =? 307) || (rs_status r =? 308) then
    url ← hm_get (HeaderMapCrate := Ref.header_map) (lit "location") (rs_headers r);
    Some {| rq_method := rq_method req; rq_url := url;
            rq_headers := hm_remove (HeaderMapCrate := Ref.header_map) (lit "authorization") (rq_headers req);
            rq_body := rq_body req |}
  else None.

Lemma run_credential_witness :
  exists req s,
    run (UC := Ref.url) (UT := Ref.unicode) (JC := Ref.json) (HV := Ref.header_value)
      (HM := Ref.header_map) (RD := sample_redirects) idle
      [Injected sample_credential NO_CONTENT; Injected sample_credential CONFLICT; Sent req] s /\
    hm_get_all (HeaderMapCrate := Ref.header_map) (lit "authorization") (rq_headers req)
      = [auth_scheme sample_credential ++ lit " " ++ token sample_credential].
Proof.
  destruct (is_ok_Ok (begin_proxy (UC := Ref.url) (UT := Ref.unicode) (JC := Ref.json)
    (HV := Ref.header_value) (HM := Ref.header_map) sample_state sample_headers sample_body))
    as [p E]; [vm_compute; reflexivity|].
  eexists p.1, _.
  match goal with |- run _ ?tr ?s /\ _ => assert (Hrun : run (UC := Ref.url) (UT := Ref.unicode)
    (JC := Ref.json) (HV := Ref.header_value) (HM := Ref.header_map) (RD := sample_redirects) idle tr s) end.
  { eapply (run_snoc _ [_; _]); [eapply (run_snoc _ [_]); [eapply (run_snoc _ []); [constructor|]|]|].
    - eapply step_inject; [reflexivity|]. vm_compute. reflexivity.
    - eapply step_inject; [reflexivity|]. vm_compute. reflexivity.
    - eapply step_send. exact E. }
  split; [exact Hrun|].
  destruct (run_credential (HML := Ref.header_map_laws) _ _ _ (eq_refl : require_provider_credential (app_state idle) = true) Hrun) as [_ Hc].
  destruct (Hc [Injected sample_credential NO_CONTENT; Injected sample_credential CONFLICT]
    p.1 [] eq_refl) as (c & Hs & Hh & _).
  injection Hs as <-. exact Hh.
Defined.

Definition client_ok : UpstreamClient :=
  {| webpki_verifier_builds := true; reqwest_client_builds := true |}.

Definition sample_cli : Cli := {|
  cli_listen := lit "0.0.0.0:8443"; cli_upstream := lit "https://api.openai.com/";
  cli_max_request_bytes := 1024; cli_upstream_timeout_secs := 120;
  cli_allowed_upstream := []; cli_upstream_tls_leaf_sha256 := [];
  cli_provider_token := None; cli_provider_auth_scheme := lit " Bearer ";
  cli_admin_listen := Some (lit "127.0.0.1:9000"); cli_allow_client_provider_auth := false;
  cli_release_artifact_digest := None;
|}.

Lemma started_relay_witness :
  exists srv, start (UC := Ref.url) (UT := Ref.unicode) (SC := Ref.sha2) (RG := RefX509.rcgen)
      (RS := rustls_ok) (UCL := client_ok) (AT := sample_mock_attester) mock_attester (Some (lit "key")) sample_cli
      = Ok srv /\
    check_upstream_allowed (UC := Ref.url) (UT := Ref.unicode) (config (srv_app srv))
      (lit "https://api.openai.com/") = Ok tt.
Proof.
  destruct (is_ok_Ok (start (UC := Ref.url) (UT := Ref.unicode) (SC := Ref.sha2)
    (RG := RefX509.rcgen) (RS := rustls_ok) (UCL := client_ok) (AT := sample_mock_attester) mock_attester
    (Some (lit "key")) sample_cli)) as [srv E]; [vm_compute; reflexivity|].
  exists srv. split; [exact E|].
  destruct (started_relay (UC := Ref.url) (UT := Ref.unicode) (SC := Ref.sha2)
    (SL := Ref.sha2_laws) (RG := RefX509.rcgen) (RS := rustls_ok) (UCL := client_ok) (XC := RefX509.x509)
    (XL := RefX509.laws) (JC := Ref.json) (HV := Ref.header_value) (HM := Ref.header_map)
    (RD := sample_redirects) (AT := sample_mock_attester) mock_attester (Some (lit "key")) sample_cli srv E)
    as (_ & Hal & _). exact Hal.
Defined.

(** The allowlist and the pins are about the URL a handler asks for. When the upstream
    answers with a redirect, the client sends the body of the request to an address that
    neither the allowlist nor any pin has a say in. *)
Theorem redirect_leaves_allowlist :
  exists req req' s,
    run (UC := Ref.url) (UT := Ref.unicode) (JC := Ref.json) (HV := Ref.header_value)
      (HM := Ref.header_map) (RD := sample_redirects)
      {| app_state := sample_state; http_client := with_timeout 120 Client_builder; admin := false;
         in_flight := [] |} [Sent req; Followed req req'] s /\
    rq_url req' = lit "https://elsewhere.example/log" /\ rq_body req' = sample_body /\
    is_ok (check_upstream_allowed (UC := Ref.url) (UT := Ref.unicode) (config sample_state) (rq_url req'))
    = false.
Proof.
  destruct (is_ok_Ok (begin_proxy (UC := Ref.url) (UT := Ref.unicode) (JC := Ref.json)
    (HV := Ref.header_value) (HM := Ref.header_map) sample_state sample_headers sample_body))
    as [p E]; [vm_compute; reflexivity|].
  set (moved := {| rs_status := 307; rs_headers := [(lit "location", lit "https://elsewhere.example/log")];
    rs_chunks := []; rs_complete := true |} : UpstreamResponse Ref.headers).
  assert (Hr : exists req', redirect_request (RedirectRule := sample_redirects) p.1 moved = Some req' /\
    rq_url req' = lit "https://elsewhere.example/log" /\ rq_body req' = rq_body p.1)
    by (eexists; split; [vm_compute; reflexivity|split; reflexivity]).
  destruct Hr as (req' & Hr & Hu & Hb). exists p.1, req'. eexists. split; [|split; [exact Hu|split]].
  - eapply (run_snoc _ [_]); [eapply (run_snoc _ []); [constructor|by eapply step_send]|].
    by eapply (step_follow _ [] (Build_Exchange p []) [] moved).
  - rewrite Hb. vm_compute in E. injection E as <-. reflexivity.
  - rewrite Hu. vm_compute. reflexivity.
Qed.
