(* ===== verification/RelaySpec.v ===== *)
(** * An abstract relay and the refinement

    What an observer may expect of a relay, independent of how the handlers compute it: a
    register that is written at most once, requests that leave only when they are
    permitted, requests beyond those only where the answer to the one before points, and
    answers that do not pass on what the provider says about the relay's credential. The
    running server of [Server.v] refines it, step by step. The second half is about
    progress: the server never gets stuck. *)

From S2P Require Import Prelude RustStr BTree Extern Config ConfigHash Secrets AppError Proxy.
From S2P Require Import Attest MockTee AttestedTls Server.

Local Open Scope N_scope.

(** ** The specification *)

(** [held] is the write-once register, [pending] the calls that are out: the request, with
    whether a credential went with it, and the redirects since. *)
Record SpecState (M : Type) := {
  held : option ProviderCredential;
  pending : list (Exchange M);
}.
Arguments held {M}. Arguments pending {M}. Arguments Build_SpecState {M}.

Section spec.
Context {UC : UrlCrate} {UT : UnicodeTables}.
Context {HV : HeaderValueCrate} {M : Type} {HM : HeaderMapCrate M} {RD : RedirectRule M}.
Variables (cfg : RelayConfig) (redirects : RedirectPolicy) (need admin_open : bool).

(** The requests that may leave while the register holds [h]. *)
Record permitted (h : option ProviderCredential) (req : UpstreamRequest M) : Prop := {
  permitted_size : len (rq_body req) <= max_request_bytes cfg;
  permitted_upstream : exists model base po, resolves cfg model (base, po) /\
    check_upstream_allowed cfg base = Ok tt /\ rq_url req = upstream_url base po;
  permitted_credential : match h with
    | Some c => hm_get_all (lit "authorization") (rq_headers req)
                = [auth_scheme c ++ lit " " ++ token c]
    | None => need = false /\ (length (hm_get_all (lit "authorization") (rq_headers req)) <= 1)%nat
    end;
  permitted_type : hm_get_all (lit "content-type") (rq_headers req) = [lit "application/json"];
  permitted_headers : forall k, hm_get_all k (rq_headers req) <> [] ->
    k = lit "content-type" \/ k ∈ FORWARDED_REQUEST_HEADERS;
}.

(** An answer is a value, and when a credential went with the request, a buffered answer
    that reports an authentication failure has a fixed body. *)
Definition discreet (with_credential : bool) (r : outcome AppError (Response M)) : Prop :=
  r <> Panic /\
  forall resp b, r = Ok resp -> with_credential = true -> status resp = 401 \/ status resp = 403 ->
    body resp = Buffered b -> b = provider_auth_failed_body.

Inductive spec_step : SpecState M -> Action M -> SpecState M -> Prop :=
  | spec_accept c q :
      admin_open = true -> ProviderCredential_validate c = Ok tt ->
      spec_step (Build_SpecState None q) (Injected c NO_CONTENT) (Build_SpecState (Some c) q)
  | spec_duplicate c c0 q :
      admin_open = true ->
      spec_step (Build_SpecState (Some c0) q) (Injected c CONFLICT) (Build_SpecState (Some c0) q)
  | spec_invalid c s :
      admin_open = true -> ProviderCredential_validate c <> Ok tt ->
      spec_step s (Injected c BAD_REQUEST) s
  | spec_report s b :
      admin_open = true -> (b = true <-> is_Some (held s)) ->
      spec_step s (Reported {| ok := true; provider_credential_loaded := b |}) s
  | spec_refuse s e : spec_step s (Refused e) s
  | spec_send s req :
      permitted (held s) req ->
      spec_step s (Sent req)
        (Build_SpecState (held s)
           (Build_Exchange (req, bool_decide (is_Some (held s))) [] :: pending s))
  | spec_follow h l1 e l2 resp req :
      follows redirects (length (ex_hops e)) = true ->
      redirect_request (ex_current e) resp = Some req ->
      spec_step (Build_SpecState h (l1 ++ e :: l2)) (Followed (ex_current e) req)
        (Build_SpecState h (l1 ++ ex_follow e req :: l2))
  | spec_answer h l1 e l2 r :
      discreet (ex_call e).2 r ->
      spec_step (Build_SpecState h (l1 ++ e :: l2)) (Answered (ex_call e).1 r)
        (Build_SpecState h (l1 ++ l2)).

Inductive spec_run (s0 : SpecState M) : list (Action M) -> SpecState M -> Prop :=
  | spec_run_nil : spec_run s0 [] s0
  | spec_run_snoc tr s a s' : spec_run s0 tr s -> spec_step s a s' -> spec_run s0 (tr ++ [a]) s'.
End spec.

(** The abstraction of a running server. *)
Definition abs {M} (s : Running M) : SpecState M :=
  {| held := provider_credentials (app_state s); pending := in_flight s |}.

(** ** The simulation *)

Section simulation.
Context {UC : UrlCrate} {UT : UnicodeTables} {JC : JsonCrate}.
Context {HV : HeaderValueCrate} {M : Type} {HM : HeaderMapCrate M} {HML : HeaderMapLaws M} {RD : RedirectRule M}.
Implicit Types (s : Running M) (st : AppState) (tr : list (Action M)).

Lemma expected_values_names cred (client : M) k :
  expected_values cred client k <> [] -> k = lit "content-type" \/ k ∈ FORWARDED_REQUEST_HEADERS.
Proof.
  unfold expected_values. case_decide; [by left|]. case_decide as Ha; [|by case_decide; [right|]].
  intros _. right. subst k. apply (bool_decide_unpack _). by vm_compute.
Qed.

Lemma prepared_permitted st (client : M) bd req : prepare_request st client bd = Ok req ->
  permitted (config st) (require_provider_credential st) (provider_credentials st) req.
Proof.
  intros Hp. pose proof (prepared_headers _ _ _ _ Hp) as Hh.
  apply prepare_request_Ok in Hp as (base & po & Hlen & Hres & Hal & Hc & hs & _ & Hreq).
  split.
  - by subst req.
  - exists (default [] (extract_model_name bd)), base, po. subst req. split_and!; [|done..].
    rewrite <-Hres. apply resolve_upstream_resolves.
  - rewrite Hh. unfold expected_values. rewrite decide_False by (by vm_compute).
    rewrite decide_True by done. unfold credential_headers.
    destruct (provider_credentials st) as [c|]; [done|]. split.
    + destruct (require_provider_credential st); [|done]. by destruct (Hc eq_refl).
    + destruct (forwarded_value client None (lit "authorization")); simpl; lia.
  - rewrite Hh. unfold expected_values. by rewrite decide_True.
  - intros k Hk. rewrite Hh in Hk. by apply expected_values_names in Hk.
Qed.

Lemma build_response_no_panic code hs b : build_response (M := M) code hs b <> Panic.
Proof. unfold build_response. by destruct (fold_left _ _ _). Qed.

Lemma finish_response_no_panic b (r : UpstreamResponse M) : finish_response b r <> Panic.
Proof.
  unfold finish_response, streaming_response, buffered_response.
  destruct (is_streaming r); [apply build_response_no_panic|].
  apply bind_no_panic; [apply ensure_no_panic|]. intros _ _.
  destruct (_ && _); apply build_response_no_panic.
Qed.

Lemma end_proxy_discreet (p : UpstreamRequest M * bool) reply : discreet p.2 (end_proxy p reply).
Proof.
  destruct reply as [e|r]; cbn [end_proxy].
  { split; [|done]. unfold AppError_from_reqwest. done. }
  split; [apply finish_response_no_panic|]. intros resp b Hr Hb Hst Hbody.
  unfold finish_response in Hr. destruct (is_streaming r) eqn:Es.
  - unfold streaming_response in Hr. apply build_response_Ok in Hr as (_ & Hbd & _). congruence.
  - unfold buffered_response in Hr. inv_outcome. rewrite Hb in *. cbn [andb] in *.
    destruct ((rs_status r =? 401) || (rs_status r =? 403)) eqn:Ea;
      match goal with H : build_response _ _ _ = Ok _ |- _ =>
        apply build_response_Ok in H as (Hs & Hbd & _) end.
    + rewrite Hbd in Hbody. by injection Hbody.
    + exfalso. apply orb_false_iff in Ea as [E1%N.eqb_neq E2%N.eqb_neq].
      rewrite Hs in Hst. unfold status_or in Hst. destruct (status_code_valid _); [|lia]. lia.
Qed.

(** The admin listener is there for the whole run or not at all. *)
Lemma step_admin s a s' : step s a s' -> admin s' = admin s.
Proof. by destruct 1. Qed.

Lemma run_admin s0 tr s : run s0 tr s -> admin s = admin s0.
Proof. induction 1 as [|tr s a s' _ IH Hs%step_admin]; congruence. Qed.

Lemma step_refines s a s' : step s a s' ->
  spec_step (config (app_state s)) (hc_redirect (http_client s))
    (require_provider_credential (app_state s)) (admin s) (abs s) a (abs s').
Proof.
  destruct 1 as [s c st cr Ha Hi|s Ha|s client bd e He|s client bd p Hp|s l1 e l2 resp req Hq Hf Hr|s l1 e l2 reply Hq Hf];
    unfold abs; cbn [app_state in_flight with_app_state with_in_flight with_credentials provider_credentials].
  - apply inject_cases in Hi as [(-> & -> & Hv)|[(-> & -> & -> & Hv)|(-> & -> & Hl)]].
    + apply spec_invalid; [done|]. intros Hok. by rewrite Hok in Hv.
    + by apply spec_accept.
    + destruct (provider_credentials (app_state s)) as [c0|]; [|done]. by apply spec_duplicate.
  - apply spec_report; [done|]. cbn [held]. unfold is_loaded.
    destruct (provider_credentials (app_state s)); split; done.
  - apply spec_refuse.
  - unfold begin_proxy in Hp. inv_outcome. cbn [fst].
    match goal with H : prepare_request _ _ _ = Ok ?r |- _ =>
      pose proof (spec_send _ (hc_redirect (http_client s)) _ (admin s) (abs s) r
        (prepared_permitted _ _ _ _ H)) as Hs end.
    revert Hs. unfold abs. cbn [held pending]. unfold is_loaded.
    destruct (provider_credentials (app_state s)); intros Hs; exact Hs.
  - rewrite Hq. by apply spec_follow with resp.
  - rewrite Hq. apply spec_answer. apply end_proxy_discreet.
Qed.
End simulation.

(** ** Progress *)

Section progress.
Context {UC : UrlCrate} {UT : UnicodeTables} {JC : JsonCrate}.
Context {HV : HeaderValueCrate} {M : Type} {HM : HeaderMapCrate M} {RD : RedirectRule M}.
Implicit Types (s : Running M) (tr : list (Action M)).

Lemma run_one s a s' : step s a s' -> run s [a] s'.
Proof. intros H. eapply (run_snoc _ []); [constructor|done]. Qed.

(** What a request needs apart from a credential. *)
Definition admissible (cfg : RelayConfig) (bd : bytes) : Prop :=
  len bd <= max_request_bytes cfg /\
  check_upstream_allowed cfg (resolve_upstream cfg (default [] (extract_model_name bd))).1 = Ok tt.

Lemma prepare_admissible st (client : M) bd c : admissible (config st) bd ->
  provider_credentials st = Some c -> is_Some (authorization_value c) ->
  exists req, prepare_request st client bd = Ok req /\ rq_body req = bd /\
    let r := resolve_upstream (config st) (default [] (extract_model_name bd)) in
    rq_url req = upstream_url r.1 r.2.
Proof.
  intros [Hlen Hal] Hc [v Hv]. unfold prepare_request, store_get. apply N.leb_le in Hlen.
  rewrite Hlen, Hc. simp_out. destruct (resolve_upstream _ _) as [base po]. cbn [fst snd] in *.
  rewrite Hal. simp_out. rewrite bool_decide_eq_true_2 by eauto. cbn [negb]. rewrite andb_false_r.
  cbn [negb]. simp_out. unfold add_credential. rewrite Hv. simp_out. by eexists.
Qed.

(** The credential a relay holds, or can be given. *)
Definition supplied s (c : ProviderCredential) : Prop :=
  provider_credentials (app_state s) = Some c \/
  (provider_credentials (app_state s) = None /\ admin s = true).

Lemma run_supply s c : ProviderCredential_validate c = Ok tt -> supplied s c ->
  exists tr s', run s tr s' /\ provider_credentials (app_state s') = Some c /\
    config (app_state s') = config (app_state s) /\ in_flight s' = in_flight s /\
    (tr = [] \/ tr = [Injected c NO_CONTENT]).
Proof.
  intros Hv [Hc|[Hn Ha]].
  - exists [], s. split_and!; [constructor|done..|by left].
  - exists [Injected c NO_CONTENT], (with_app_state (with_credentials (Some c) (app_state s)) s).
    split_and!; [|done..|by right]. apply run_one, step_inject; [done|].
    unfold inject_provider_credential. by rewrite Hv, Hn.
Qed.

(** One request, from its arrival to the answer. *)
Lemma run_exchange s (client : M) bd req c reply :
  prepare_request (app_state s) client bd = Ok req ->
  provider_credentials (app_state s) = Some c ->
  final_reply (hc_redirect (http_client s)) req reply = true ->
  exists s', run s [Sent req; Answered req (end_proxy (req, true) reply)] s' /\
    in_flight s' = in_flight s.
Proof.
  intros Hp Hc Hf. assert (Hb : begin_proxy (app_state s) client bd = Ok (req, true))
    by (unfold begin_proxy; rewrite Hp, Hc; done).
  set (s1 := with_in_flight (Build_Exchange (req, true) [] :: in_flight s) s).
  exists s. split; [|done]. apply (run_snoc _ [Sent req] s1).
  - apply run_one. exact (step_send s client bd (req, true) Hb).
  - pose proof (step_answer s1 [] (Build_Exchange (req, true) []) (in_flight s) reply eq_refl Hf) as Ha.
    by destruct s.
Qed.

(** A call can end: with the given reply, or with an error when that is a redirect. *)
Lemma some_final p (req : UpstreamRequest M) (reply : bytes + UpstreamResponse M) :
  exists reply', final_reply p req reply' = true /\
    ((forall r, reply = inr r -> redirect_request req r = None) -> reply' = reply).
Proof.
  destruct (final_reply p req reply) eqn:E; [by exists reply|]. exists (inl []). split; [done|].
  intros H. destruct reply as [|r]; [done|]. unfold final_reply in E. rewrite (H r eq_refl) in E.
  by destruct p.
Qed.

(** Whatever happened so far, there is a credential to go on with: the accepted one, or
    any valid one. *)
Lemma supplied_by_run {HML : HeaderMapLaws M} s0 tr s c : run s0 tr s ->
  provider_credentials (app_state s0) = None -> admin s0 = true ->
  ProviderCredential_validate c = Ok tt ->
  exists c', supplied s c' /\ ProviderCredential_validate c' = Ok tt /\
    (Injected c' NO_CONTENT ∈ tr \/ provider_credentials (app_state s) = None).
Proof.
  intros Hr Hn Ha Hc. pose proof (run_admin _ _ _ Hr) as Had.
  destruct (run_app _ _ _ Hr) as (_ & _ & _ & _ & Ho).
  destruct (provider_credentials (app_state s)) as [c'|] eqn:E.
  - destruct (Ho c' eq_refl) as [?|[? ?]]; [congruence|]. exists c'. split_and!; [by left|done|by left].
  - exists c. split_and!; [right; split; congruence|done|by right].
Qed.
End progress.

(** What a started relay brings along. *)
Lemma start_serves {UC : UrlCrate} {UT : UnicodeTables} {SC : Sha2Crate} {SL : Sha2Laws}
  {KP : Type} {RG : RcgenCrate KP} {RS : RustlsServer} {UCL : UpstreamClient} {XC : X509Crate} {XL : X509Laws KP}
  {A : Type} {AT : Attester A} (a : A) (generated : option KP) cli srv :
  start a generated cli = Ok srv ->
  max_request_bytes (config (srv_app srv)) = cli_max_request_bytes cli /\
  srv_admin srv = bool_decide (is_Some (cli_admin_listen cli)) /\
  provider_credentials (srv_app srv) =
    (fun t => {| auth_scheme := trim (cli_provider_auth_scheme cli); token := t |})
      <$> cli_provider_token cli /\
  check_upstream_allowed (config (srv_app srv)) (cli_upstream cli) = Ok tt /\
  forall model, resolve_upstream (config (srv_app srv)) model = (cli_upstream cli, None).
Proof.
  intros Hs. pose proof (start_Ok _ _ _ _ Hs) as (Hcli & Hv & _ & Hp & _).
  destruct (cli_config_Ok _ _ Hcli) as (Hd & Hr & Hal). split_and!; [|by unfold start in Hs; inv_outcome|done| |].
  - unfold cli_config in Hcli. apply bind_Ok in Hcli as (pins & _ & [= <-]). done.
  - rewrite <-Hd. by apply validated_default.
  - intros model. unfold resolve_upstream. by rewrite Hr, Hd.
Qed.

(** ** Properties *)

(** C3: The running relay refines the abstract relay: every interleaving of admin and client
    requests it performs is one of the specification, in which the credential register is
    written at most once and only with a valid credential, every request a handler sends is
    permitted under the register's content at that moment, every other request is where
    the answer to the one before redirects the client, as often as its policy allows, and
    every answer is a value that hides what the provider says about the relay's
    credential. *)
Theorem relay_refines_spec {UC : UrlCrate} {UT : UnicodeTables} {JC : JsonCrate}
  {HV : HeaderValueCrate} {M : Type} {HM : HeaderMapCrate M} {HML : HeaderMapLaws M} {RD : RedirectRule M}
  (s0 s : Running M) (tr : list (Action M)) (Hrun : run s0 tr s) :
  spec_run (config (app_state s0)) (hc_redirect (http_client s0)) (require_provider_credential (app_state s0)) (admin s0)
    (abs s0) tr (abs s).
Proof.
  induction Hrun as [|tr s a s' Hrun IH Hs]; [constructor|]. eapply spec_run_snoc; [exact IH|].
  apply step_refines in Hs. destruct (run_app _ _ _ Hrun) as (Hc & Hr & _).
  by rewrite Hc, Hr, (run_admin _ _ _ Hrun), (run_client _ _ _ Hrun) in Hs.
Qed.

(** C10: A relay started with an admin listener and no token of its own never gets stuck: from
    every state it can reach, every client request within the size limit can still be
    sent to the configured upstream and answered, after at most one injection of a valid
    credential, carrying the credential that was accepted before, and without touching
    the requests that are out. The answer is made from any given reply of the upstream
    that is not a redirect the client follows. *)
Theorem relay_serves {UC : UrlCrate} {UT : UnicodeTables} {SC : Sha2Crate} {SL : Sha2Laws}
  {KP : Type} {RG : RcgenCrate KP} {RS : RustlsServer} {UCL : UpstreamClient} {XC : X509Crate} {XL : X509Laws KP}
  {JC : JsonCrate} {HV : HeaderValueCrate} {M : Type} {HM : HeaderMapCrate M} {HML : HeaderMapLaws M}
  {RD : RedirectRule M} {A : Type} {AT : Attester A} (a : A) (generated : option KP) (cli : Cli) (srv : Server)
  (Hs : start a generated cli = Ok srv) (Hadmin : is_Some (cli_admin_listen cli))
  (Htoken : cli_provider_token cli = None)
  (tr : list (Action M)) (s : Running M) (Hrun : run (running srv) tr s)
  (c : ProviderCredential) (Hc : ProviderCredential_validate c = Ok tt)
  (client : M) (bd : bytes) (Hlen : len bd <= cli_max_request_bytes cli)
  (reply : bytes + UpstreamResponse M) :
  exists tr' s' req c' reply', run s tr' s' /\ in_flight s' = in_flight s /\
    Sent req ∈ tr' /\ Answered req (end_proxy (req, true) reply') ∈ tr' /\
    ((forall r, reply = inr r -> redirect_request req r = None) -> reply' = reply) /\
    rq_body req = bd /\ rq_url req = upstream_url (cli_upstream cli) None /\
    hm_get_all (lit "authorization") (rq_headers req) = [auth_scheme c' ++ lit " " ++ token c'] /\
    Injected c' NO_CONTENT ∈ tr ++ tr'.
Proof.
  destruct (start_serves _ _ _ _ Hs) as (Hmax & Hadm & Hcred & Hal & Hres).
  rewrite Htoken in Hcred. apply (bool_decide_eq_true_2 _) in Hadmin. rewrite Hadmin in Hadm.
  destruct (supplied_by_run _ _ _ c Hrun Hcred Hadm) as (c' & Hsup & Hv' & Hin); [exact Hc|].
  destruct (run_supply s c' Hv' Hsup) as (tr1 & s1 & Hr1 & Hc1 & Hcfg1 & Hfl1 & Htr1).
  destruct (run_app _ _ _ Hrun) as (Hcfg & _). cbn [running app_state] in Hcfg.
  assert (Hcf : config (app_state s1) = config (srv_app srv)) by congruence.
  pose proof (ProviderCredential_validate_Ok _ Hv') as (_ & _ & _ & _ & Hav).
  destruct (prepare_admissible (app_state s1) client bd c') as (req & Hp & Hb & Hu); [|done|eauto|].
  { unfold admissible. rewrite Hcf, Hres, Hmax. done. }
  cbv zeta in Hu. rewrite Hcf, Hres in Hu.
  destruct (some_final (hc_redirect (http_client s1)) req reply) as (reply' & Hf & Hsame).
  destruct (run_exchange s1 client bd req c' reply' Hp Hc1 Hf) as (s2 & Hr2 & Hfl2).
  eexists (tr1 ++ [_; _]), s2, req, c', reply'. split; [by eapply run_trans|].
  split_and!; [congruence|set_solver..|exact Hsame|done|done| |].
  - rewrite (prepared_headers _ _ _ _ Hp), Hc1. unfold expected_values.
    rewrite decide_False by (by vm_compute). by rewrite decide_True.
  - destruct Hin as [Hin|Hn]; [set_solver|]. destruct Htr1 as [-> | ->]; [|set_solver].
    inversion Hr1; subst; [congruence|by destruct tr0].
Qed.

(** ** Witnesses *)

Lemma relay_refines_spec_witness :
  spec_run (UC := Ref.url) (UT := Ref.unicode) (HV := Ref.header_value) (HM := Ref.header_map)
    (RD := sample_redirects) (config unloaded_state) (PolicyLimited 10) true true
    (Build_SpecState None [])
    [Injected sample_credential NO_CONTENT; Reported {| ok := true; provider_credential_loaded := true |}]
    (Build_SpecState (Some sample_credential) []).
Proof.
  apply (relay_refines_spec (UC := Ref.url) (UT := Ref.unicode) (JC := Ref.json)
    (HV := Ref.header_value) (HM := Ref.header_map) (HML := Ref.header_map_laws) (RD := sample_redirects)
    idle (with_app_state (with_credentials (Some sample_credential) unloaded_state) idle)).
  eapply (run_snoc _ [_]); [eapply (run_snoc _ []); [constructor|]|].
  - apply step_inject; [reflexivity|]. vm_compute. reflexivity.
  - apply (step_health (with_app_state (with_credentials (Some sample_credential) unloaded_state) idle)). reflexivity.
Defined.

Lemma relay_serves_witness :
  exists srv tr s req, start (UC := Ref.url) (UT := Ref.unicode) (SC := Ref.sha2) (RG := RefX509.rcgen)
      (RS := rustls_ok) (UCL := client_ok) (AT := sample_mock_attester) mock_attester (Some (lit "key")) sample_cli
      = Ok srv /\
    run (UC := Ref.url) (UT := Ref.unicode) (JC := Ref.json) (HV := Ref.header_value)
      (HM := Ref.header_map) (RD := sample_redirects) (running srv) tr s /\
    Sent req ∈ tr /\ rq_body req = sample_body.
Proof.
  destruct (is_ok_Ok (start (UC := Ref.url) (UT := Ref.unicode) (SC := Ref.sha2)
    (RG := RefX509.rcgen) (RS := rustls_ok) (UCL := client_ok) (AT := sample_mock_attester) mock_attester
    (Some (lit "key")) sample_cli)) as [srv E]; [vm_compute; reflexivity|].
  destruct (relay_serves (UC := Ref.url) (UT := Ref.unicode) (SC := Ref.sha2) (SL := Ref.sha2_laws)
    (RG := RefX509.rcgen) (RS := rustls_ok) (UCL := client_ok) (XC := RefX509.x509)
    (XL := RefX509.laws) (JC := Ref.json) (HV := Ref.header_value) (HM := Ref.header_map)
    (HML := Ref.header_map_laws) (RD := sample_redirects) (AT := sample_mock_attester) mock_attester (Some (lit "key"))
    sample_cli srv E) with (tr := @nil (Action Ref.headers)) (s := running (M := Ref.headers) srv)
      (c := sample_credential) (client := sample_headers) (bd := sample_body)
      (reply := @inl bytes (UpstreamResponse Ref.headers) []) as (tr & s & req & c & reply & Hr & _ & Hin & _ & _ & Hb & _).
  - eexists. reflexivity.
  - reflexivity.
  - constructor.
  - vm_compute. reflexivity.
  - vm_compute. discriminate.
  - exists srv, tr, s, req. split; [exact E|]. split; [exact Hr|]. split; [exact Hin|exact Hb].
Defined.
