(* ===== verification/Listen.v ===== *)
(** * The relay's listeners

    The rest of [main] of [server/src/main.rs] after startup: the private admin listener,
    the warnings about it, and the public listener. The state is the sockets the process
    holds and the notices in its log; the listen addresses are parsed from the command
    line as in NetAddr. *)

From S2P Require Import Prelude RustStr NetAddr Extern Config ConfigHash Secrets AppError Proxy.
From S2P Require Import Attest MockTee AttestedTls Server RelaySpec.

Local Open Scope N_scope.

Inductive ServeError :=
  | NotStarted (e : StartError)
  | AddrInvalid (text : bytes)
  | BindFailed (a : SocketAddr).

(** The log lines about the listeners. *)
Inductive Notice :=
  | AdminNotPrivate (a : SocketAddr)
  | AdminListening (a : SocketAddr)
  | AdminDisabledLoaded
  | DataPlaneFailsClosed
  | RelayListening (a : SocketAddr).
#[global] Instance Notice_eq_dec : EqDecision Notice.
Proof. solve_decision. Defined.

Record Listeners := {
  held : list SocketAddr;
  notices : list Notice;
}.
Definition no_listeners : Listeners := {| held := []; notices := [] |}.

Abbreviation serving := (stm Listeners ServeError).

Definition note (n : Notice) : serving unit := fun s =>
  (Ok tt, {| held := held s; notices := notices s ++ [n] |}).

Section listen.
Context {TB : TcpBind}.

Definition bind_listener (a : SocketAddr) : serving unit := fun s =>
  if tcp_bind (held s) a then (Ok tt, {| held := held s ++ [a]; notices := notices s |})
  else (Err (BindFailed a), s).

Definition parse_listen (text : bytes) : serving SocketAddr :=
  pure (ok_or (parse_socket_addr text) (AddrInvalid text)).

(** The private admin endpoint, before the public one. *)
Definition open_admin (srv : Server) (cli : Cli) : serving unit :=
  match cli_admin_listen cli with
  | Some admin_listen =>
      admin_addr ← parse_listen admin_listen;
      _ ← (if is_private_admin_ip (sa_ip admin_addr) then mret tt
           else note (AdminNotPrivate admin_addr));
      _ ← bind_listener admin_addr;
      note (AdminListening admin_addr)
  | None =>
      if is_loaded (provider_credentials (srv_app srv)) then note AdminDisabledLoaded
      else if require_provider_credential (srv_app srv) then note DataPlaneFailsClosed
      else mret tt
  end.

Definition open_relay (cli : Cli) : serving unit :=
  addr ← parse_listen (cli_listen cli);
  _ ← bind_listener addr;
  note (RelayListening addr).

Section main.
Context {UC : UrlCrate} {UT : UnicodeTables} {SC : Sha2Crate}.
Context {KP : Type} {RG : RcgenCrate KP} {RS : RustlsServer} {UCL : UpstreamClient}.
Context {A : Type} {AT : Attester A}.

(** [main] after the choice of the attester, up to the accept loop. *)
Definition main (attester : A) (generated : option KP) (cli : Cli) : serving Server :=
  srv ← pure (map_err NotStarted (start attester generated cli));
  _ ← open_admin srv cli;
  _ ← open_relay cli;
  mret srv.
End main.

(** ** Facts *)

(** An address the text of the command line stands for, on a socket that could be bound. *)
Definition opens (text : bytes) (before : list SocketAddr) (a : SocketAddr) : Prop :=
  parse_socket_addr text = Some a /\ tcp_bind before a = true.

Lemma parse_listen_Ok text s a s' :
  parse_listen text s = (Ok a, s') <-> parse_socket_addr text = Some a /\ s' = s.
Proof.
  unfold parse_listen. rewrite pure_Ok. destruct (parse_socket_addr text); cbn [ok_or]; naive_solver.
Qed.

Lemma bind_listener_Ok a s u s' : bind_listener a s = (Ok u, s') <->
  tcp_bind (held s) a = true /\ s' = {| held := held s ++ [a]; notices := notices s |}.
Proof. unfold bind_listener. destruct u, (tcp_bind (held s) a); naive_solver. Qed.

Lemma note_Ok n s u s' : note n s = (Ok u, s') <->
  s' = {| held := held s; notices := notices s ++ [n] |}.
Proof. unfold note. destruct u. naive_solver. Qed.

Lemma open_relay_Ok cli s u s' : open_relay cli s = (Ok u, s') <->
  exists a, opens (cli_listen cli) (held s) a /\
    s' = {| held := held s ++ [a]; notices := notices s ++ [RelayListening a] |}.
Proof.
  unfold open_relay, opens. rewrite stm_bind_Ok. setoid_rewrite stm_bind_Ok.
  setoid_rewrite parse_listen_Ok. setoid_rewrite bind_listener_Ok. setoid_rewrite note_Ok.
  split.
  - intros (a & ? & (Hp & ->) & [] & ? & (Hb & ->) & ->). by exists a.
  - intros (a & (Hp & Hb) & ->). exists a, s. split; [done|]. exists tt. eexists. by split.
Qed.

(** What the admin endpoint adds to the sockets and the log. *)
Definition admin_notices (a : SocketAddr) : list Notice :=
  (if is_private_admin_ip (sa_ip a) then [] else [AdminNotPrivate a]) ++ [AdminListening a].
Definition disabled_notices (srv : Server) : list Notice :=
  if is_loaded (provider_credentials (srv_app srv)) then [AdminDisabledLoaded]
  else if require_provider_credential (srv_app srv) then [DataPlaneFailsClosed] else [].

Lemma open_admin_Ok srv cli s u s' : open_admin srv cli s = (Ok u, s') <->
  match cli_admin_listen cli with
  | Some text => exists a, opens text (held s) a /\
      s' = {| held := held s ++ [a]; notices := notices s ++ admin_notices a |}
  | None => s' = {| held := held s; notices := notices s ++ disabled_notices srv |}
  end.
Proof.
  unfold open_admin, opens, admin_notices, disabled_notices.
  destruct (cli_admin_listen cli) as [text|].
  - rewrite stm_bind_Ok. setoid_rewrite parse_listen_Ok. split.
    + intros (a & ? & (Hp & ->) & H). exists a. rewrite stm_bind_Ok in H. destruct H as (v & s1 & Hw & H).
      rewrite stm_bind_Ok in H. destruct H as (w & s2 & Hb & H).
      apply bind_listener_Ok in Hb as [Hb ->]. apply note_Ok in H as ->.
      destruct (is_private_admin_ip _); [apply mret_Ok in Hw as [_ ->]|apply note_Ok in Hw as ->];
        cbn [held notices] in *; (split; [done|]); by rewrite <-?app_assoc.
    + intros (a & (Hp & Hb) & ->). exists a, s. split; [done|]. rewrite stm_bind_Ok.
      exists tt, {| held := held s; notices := notices s ++
        if is_private_admin_ip (sa_ip a) then [] else [AdminNotPrivate a] |}. split.
      { destruct (is_private_admin_ip _); [rewrite app_nil_r; by destruct s|done]. }
      rewrite stm_bind_Ok. exists tt. eexists. rewrite bind_listener_Ok. split; [by split|].
      rewrite note_Ok. cbn [held notices]. by rewrite <-app_assoc.
  - destruct u, (is_loaded _); [by rewrite note_Ok|].
    destruct (require_provider_credential _); [by rewrite note_Ok|].
    rewrite mret_Ok, app_nil_r. destruct s. naive_solver.
Qed.

Section main_facts.
Context {UC : UrlCrate} {UT : UnicodeTables} {SC : Sha2Crate}.
Context {KP : Type} {RG : RcgenCrate KP} {RS : RustlsServer} {UCL : UpstreamClient}.
Context {A : Type} {AT : Attester A}.

Lemma main_Ok (a : A) generated cli s srv s' : main a generated cli s = (Ok srv, s') <->
  start a generated cli = Ok srv /\
  exists s1 r, open_admin srv cli s = (Ok tt, s1) /\ opens (cli_listen cli) (held s1) r /\
    s' = {| held := held s1 ++ [r]; notices := notices s1 ++ [RelayListening r] |}.
Proof.
  unfold main. rewrite stm_bind_Ok. split.
  - intros (v & ? & [Hs ->]%pure_Ok & H). apply map_err_Ok in Hs.
    apply stm_bind_Ok in H as ([] & s1 & Ha & H). apply stm_bind_Ok in H as (u & s2 & Hr & H).
    apply mret_Ok in H as [-> ->]. apply open_relay_Ok in Hr as (r & Hr & ->).
    split; [done|]. by exists s1, r.
  - intros (Hs & s1 & r & Ha & Hr & ->). exists srv, s. rewrite Hs. split; [done|].
    rewrite stm_bind_Ok. exists tt, s1. split; [done|]. rewrite stm_bind_Ok. exists tt. eexists.
    split; [apply open_relay_Ok; by exists r|done].
Qed.
End main_facts.
End listen.

(** ** Facts: every outcome *)

Section outcomes.
Context {TB : TcpBind}.

(** Sockets are well formed, the log claims no listener the process does not hold, and
    warns of the admin address only for reason. *)
Record listeners_wf (s : Listeners) : Prop := {
  lw_held : Forall socket_wf (held s);
  lw_listening a : AdminListening a ∈ notices s \/ RelayListening a ∈ notices s -> a ∈ held s;
  lw_warned a : AdminNotPrivate a ∈ notices s -> socket_wf a /\ is_private_admin_ip (sa_ip a) = false;
}.

Lemma no_listeners_wf : listeners_wf no_listeners.
Proof. split; cbn [held notices no_listeners]; [constructor|intros a [H|H]|intros a H]; by apply elem_of_nil in H. Qed.

(** Sockets and log entries are only added. *)
Definition grows (s s' : Listeners) : Prop :=
  held s `prefix_of` held s' /\ notices s `prefix_of` notices s'.
#[global] Instance grows_pre : PreOrder grows.
Proof. split; [by split|]. intros s1 s2 s3 [] []. by split; etrans. Qed.

Abbreviation careful := (safe (E := ServeError) listeners_wf grows).

Lemma open_careful a (n : Notice) : socket_wf a -> n = AdminListening a \/ n = RelayListening a ->
  careful (_ ← bind_listener a; note n).
Proof.
  intros Ha Hn s [Hh Hl Hw]. unfold bind_listener, mbind, stm_bind, note.
  destruct (tcp_bind (held s) a); cbn [fst snd]; [|by split_and!; [split| |]].
  split_and!; [split|split; cbn [held notices]; by eexists|done]; cbn [held notices].
  - by apply Forall_app_2; [|constructor].
  - intros b Hb. rewrite !elem_of_app, !list_elem_of_singleton in Hb. rewrite elem_of_app, list_elem_of_singleton.
    destruct Hb as [[?|?]|[?|?]]; [left; auto| |left; auto|]; right; destruct Hn; congruence.
  - intros b [Hb|Hb%list_elem_of_singleton]%elem_of_app; [auto|]. destruct Hn; congruence.
Qed.

Lemma note_careful n :
  match n with
  | AdminNotPrivate a => socket_wf a /\ is_private_admin_ip (sa_ip a) = false
  | AdminDisabledLoaded | DataPlaneFailsClosed => True
  | _ => False
  end -> careful (note n).
Proof.
  intros Hn s [Hh Hl Hw]. unfold note. cbn [fst snd].
  split_and!; [split|split; cbn [held notices]; [done|by eexists]|done]; cbn [held notices]; [done| |].
  - intros a. rewrite !elem_of_app, !list_elem_of_singleton. intros [[?|?]|[?|?]]; [auto|by subst n|auto|by subst n].
  - intros a [?|Ha%list_elem_of_singleton]%elem_of_app; [auto|by subst n].
Qed.

Lemma parse_careful {B} text (f : SocketAddr -> serving B) :
  (forall a, socket_wf a -> careful (f a)) -> careful (parse_listen text ≫= f).
Proof.
  intros Hf. unfold parse_listen. apply (safe_bind_pure _ _); [by destruct (parse_socket_addr text)|].
  intros a Ha. apply Hf. apply (parse_socket_wf text). by destruct (parse_socket_addr text); simplify_eq/=.
Qed.

Lemma open_relay_careful cli : careful (open_relay cli).
Proof. apply parse_careful. intros a Ha. apply open_careful; auto. Qed.

Lemma open_admin_careful srv cli : careful (open_admin srv cli).
Proof.
  unfold open_admin. destruct (cli_admin_listen cli) as [text|].
  - apply parse_careful. intros a Ha. apply (safe_bind _ _).
    + destruct (is_private_admin_ip (sa_ip a)) eqn:E; [apply (safe_ret _ _)|by apply note_careful].
    + intros _. apply open_careful; auto.
  - destruct (is_loaded _); [by apply note_careful|].
    destruct (require_provider_credential _); [by apply note_careful|apply (safe_ret _ _)].
Qed.
End outcomes.

Section refusing.
Context {UC : UrlCrate} {UT : UnicodeTables} {JC : JsonCrate} {HV : HeaderValueCrate}.
Context {M : Type} {HM : HeaderMapCrate M} {RD : RedirectRule M}.

(** A relay without admin listener whose handler prepares no request only refuses. *)
Lemma refuses_everything (s0 : Running M) tr s : run s0 tr s ->
  admin s0 = false -> in_flight s0 = [] ->
  (forall client bd p, begin_proxy (app_state s0) client bd <> Ok p) ->
  (forall act, act ∈ tr -> exists e, act = Refused e).
Proof.
  intros Hrun Ha Hf Hno. enough (H : s = s0 /\ forall act, act ∈ tr -> exists e, act = Refused e) by apply H.
  induction Hrun as [|tr s a s' Hrun [-> IH] Hs]; [split; [done|by intros act ?%elem_of_nil]|].
  assert (Hr : s' = s0 /\ exists e, a = Refused e).
  { destruct Hs as [s c st cr Had _|s Had|s client bd e _|s client bd p Hb|s l1 e l2 resp req Hp _ _|s l1 e l2 reply Hp _].
    - congruence.
    - congruence.
    - by eauto.
    - by apply Hno in Hb.
    - rewrite Hf in Hp. by destruct l1.
    - rewrite Hf in Hp. by destruct l1. }
  destruct Hr as [-> Hr]. split; [done|]. intros act [?| ->%list_elem_of_singleton]%elem_of_app; auto.
Qed.

(** Nothing is prepared without a required credential, or with one that is no header value. *)
Lemma prepares_nothing st :
  (provider_credentials st = None /\ require_provider_credential st = true) \/
  (exists c, provider_credentials st = Some c /\ authorization_value c = None) ->
  forall (client : M) bd p, begin_proxy st client bd <> Ok p.
Proof.
  intros Hst client bd p Hb. unfold begin_proxy in Hb. inv_outcome.
  match goal with H : prepare_request _ _ _ = Ok _ |- _ =>
    apply prepare_request_Ok in H as (? & ? & _ & _ & _ & Hreq & hs & Hadd & _) end.
  destruct Hst as [[Hn Hq]|(c & Hc & Hv)].
  - destruct (Hreq Hq) as [c Hs]. congruence.
  - unfold add_credential in Hadd. rewrite Hc, Hv in Hadd. by inv_outcome.
Qed.
End refusing.

(** An entry that a literal log does not have. *)
Ltac not_listed H :=
  exfalso; repeat (apply elem_of_cons in H as [H|H]; [discriminate H|]); by apply elem_of_nil in H.

(** ** Properties *)

Section properties.
Context {TB : TcpBind} {UC : UrlCrate} {UT : UnicodeTables} {SC : Sha2Crate}.
Context {KP : Type} {RG : RcgenCrate KP} {RS : RustlsServer} {UCL : UpstreamClient}.
Context {A : Type} {AT : Attester A}.

(** C23: However [main] ends, its sockets are well formed (octets, segments and ports in their
    ranges), its log names only listeners it holds and warns only of an admin address that
    is not private, and it opened a socket only after startup succeeded: on a validated
    configuration that the TLS certificate attests. *)
Theorem listeners_well_formed (a : A) (generated : option KP) (cli : Cli) r s
  (Hmain : main a generated cli no_listeners = (r, s)) :
  listeners_wf s /\
  (held s <> [] -> exists srv, start a generated cli = Ok srv /\
     RelayConfig_validate (config (srv_app srv)) = Ok tt).
Proof.
  unfold main, mbind at 1, stm_bind at 1, pure in Hmain.
  destruct (start a generated cli) as [srv|e|] eqn:Hs; cbn [map_err] in Hmain.
  2,3: injection Hmain as <- <-; split; [apply no_listeners_wf|done].
  assert (Hsafe : safe (E := ServeError) listeners_wf grows
    (_ ← open_admin srv cli; _ ← open_relay cli; mret srv)).
  { apply (safe_bind _ _); [apply open_admin_careful|]. intros _.
    apply (safe_bind _ _); [apply open_relay_careful|]. intros _. apply (safe_ret _ _). }
  destruct (Hsafe _ no_listeners_wf) as [Hwf _]. rewrite Hmain in Hwf. split; [done|].
  intros _. exists srv. split; [done|]. by apply start_Ok in Hs as (_ & Hv & _).
Qed.

Lemma start_admin (a : A) generated cli srv : start a generated cli = Ok srv ->
  srv_admin srv = bool_decide (is_Some (cli_admin_listen cli)).
Proof. unfold start. intros H. by inv_outcome. Qed.

Lemma main_sockets (a : A) generated cli srv s : main a generated cli no_listeners = (Ok srv, s) ->
  start a generated cli = Ok srv /\
  exists r, parse_socket_addr (cli_listen cli) = Some r /\
    match cli_admin_listen cli with
    | Some text => exists p, parse_socket_addr text = Some p /\ held s = [p; r] /\
        notices s = admin_notices p ++ [RelayListening r]
    | None => held s = [r] /\ notices s = disabled_notices srv ++ [RelayListening r]
    end.
Proof.
  intros (Hs & s1 & r & Ha & [Hr _] & ->)%main_Ok. split; [done|]. exists r. split; [done|].
  apply open_admin_Ok in Ha. destruct (cli_admin_listen cli) as [text|].
  - destruct Ha as (p & [Hp _] & ->). by exists p.
  - by subst s1.
Qed.

(** C25: A relay that runs listens exactly where its command line says: when it has an admin
    address, that is bound first and the public address next; and the log warns of the
    admin address exactly when it is outside the loopback, private, link-local and
    unspecified address blocks. *)
Theorem admin_warning_exact (a : A) (generated : option KP) (cli : Cli) srv s text
  (Hmain : main a generated cli no_listeners = (Ok srv, s)) (Hadmin : cli_admin_listen cli = Some text) :
  exists p r, parse_socket_addr text = Some p /\ parse_socket_addr (cli_listen cli) = Some r /\
    held s = [p; r] /\ srv_admin srv = true /\
    (AdminNotPrivate p ∈ notices s <->
     ~ Exists (in_block (sa_ip p))
         (loopback_blocks ++ private_blocks ++ link_local_blocks ++ unspecified_blocks)).
Proof.
  apply main_sockets in Hmain as (Hs & r & Hr & Hm). rewrite Hadmin in Hm.
  destruct Hm as (p & Hp & Hh & Hn). exists p, r. split_and!; [done..| |].
  - rewrite (start_admin _ _ _ _ Hs). by rewrite Hadmin.
  - rewrite <-(admin_ip_blocks _ (proj1 (parse_socket_wf _ _ Hp))), Hn. unfold admin_notices.
    destruct (is_private_admin_ip _); cbn [app]; [|by split; [|left]].
    split; [|done]. intros Hin. not_listed Hin.
Qed.

(** The public address of a running relay is an IPv4 address and port exactly when the
    listen text is the four octets in decimal without leading zeros, separated by dots,
    a colon, and the decimal port below 65536 (for which leading zeros are allowed). *)
Theorem relay_listens_ipv4 (a : A) (generated : option KP) (cli : Cli) srv s
  (Hmain : main a generated cli no_listeners = (Ok srv, s)) b0 b1 b2 b3 port :
  last (held s) = Some {| sa_ip := V4 b0 b1 b2 b3; sa_port := port; sa_scope := 0 |} <->
  ip_wf (V4 b0 b1 b2 b3) /\ exists ds, cli_listen cli = NetAddr.dotted b0 b1 b2 b3 ++ lit ":" ++ ds /\
    digits ds /\ ds <> [] /\ digits_value ds = port /\ port < 65536.
Proof.
  apply main_sockets in Hmain as (_ & r & Hr & Hm).
  assert (last (held s) = Some r) as ->.
  { destruct (cli_admin_listen cli); [destruct Hm as (p & _ & -> & _)|destruct Hm as [-> _]]; done. }
  pose proof (parse_v4_text (cli_listen cli) b0 b1 b2 b3 port 0) as Hv. rewrite Hr in Hv. rewrite Hv. tauto.
Qed.

(** C22: The relay announces that its data plane fails closed exactly when it has no admin
    address and no provider token and does not forward client credentials, and then it
    holds to it: in every run every request is refused, and nothing is sent to any
    upstream. There is no such announcement, though every request is refused as well, when
    the command line's token does not make a header value and there is no admin address. *)
Theorem fails_closed_as_announced {JC : JsonCrate} {HV : HeaderValueCrate} {M : Type} {HM : HeaderMapCrate M}
  {RD : RedirectRule M} (a : A) (generated : option KP) (cli : Cli) srv s
  (Hmain : main a generated cli no_listeners = (Ok srv, s)) :
  let refuses := forall tr (st : Running M), run (running srv) tr st ->
    forall act, act ∈ tr -> exists e, act = Refused e in
  (DataPlaneFailsClosed ∈ notices s <->
     cli_admin_listen cli = None /\ cli_provider_token cli = None /\
     cli_allow_client_provider_auth cli = false) /\
  (DataPlaneFailsClosed ∈ notices s -> refuses) /\
  (forall t, cli_admin_listen cli = None -> cli_provider_token cli = Some t ->
     authorization_value {| auth_scheme := trim (cli_provider_auth_scheme cli); token := t |} = None ->
     DataPlaneFailsClosed ∉ notices s /\ refuses).
Proof.
  cbv zeta. apply main_sockets in Hmain as (Hs & r & _ & Hm).
  pose proof (start_Ok _ _ _ _ Hs) as (_ & _ & _ & Hc & Hq & _).
  assert (Hadm : cli_admin_listen cli = None -> srv_admin srv = false).
  { intros Hn. rewrite (start_admin _ _ _ _ Hs). by rewrite Hn. }
  assert (Hiff : DataPlaneFailsClosed ∈ notices s <-> cli_admin_listen cli = None /\
    cli_provider_token cli = None /\ cli_allow_client_provider_auth cli = false).
  { destruct (cli_admin_listen cli) as [text|].
    - destruct Hm as (p & _ & _ & ->). unfold admin_notices. split; [|by intros [? _]].
      destruct (is_private_admin_ip _); cbn [app]; intros Hin; not_listed Hin.
    - destruct Hm as [_ ->]. unfold disabled_notices. rewrite Hc, Hq, elem_of_app, list_elem_of_singleton.
      destruct (cli_provider_token cli), (cli_allow_client_provider_auth cli);
        cbn [fmap option_fmap option_map is_loaded negb];
        rewrite ?list_elem_of_singleton, ?elem_of_nil; intuition congruence. }
  split_and!; [exact Hiff| |].
  - intros (Hna & Hnt & Hna')%Hiff tr st Hrun. rewrite Hnt in Hc. rewrite Hna' in Hq.
    apply (refuses_everything _ _ _ Hrun); [by apply Hadm|done|]. apply prepares_nothing. by left.
  - intros t Hna Ht Hv. split; [rewrite Hiff; by intros (_ & Hn & _); congruence|].
    intros tr st Hrun. rewrite Ht in Hc.
    apply (refuses_everything _ _ _ Hrun); [by apply Hadm|done|]. apply prepares_nothing. right. by eexists.
Qed.
End properties.

(** ** Witnesses *)

Definition sample_main (admin_listen : option bytes) : outcome ServeError Server * Listeners :=
  main (TB := any_bind) (UC := Ref.url) (UT := Ref.unicode) (SC := Ref.sha2) (RG := RefX509.rcgen)
    (RS := rustls_ok) (UCL := client_ok) (AT := sample_mock_attester) mock_attester (Some (lit "key"))
    {| cli_listen := cli_listen sample_cli; cli_upstream := cli_upstream sample_cli;
       cli_max_request_bytes := 1024; cli_upstream_timeout_secs := 120;
       cli_allowed_upstream := []; cli_upstream_tls_leaf_sha256 := [];
       cli_provider_token := None; cli_provider_auth_scheme := lit "Bearer";
       cli_admin_listen := admin_listen; cli_allow_client_provider_auth := false;
       cli_release_artifact_digest := None |} no_listeners.

Lemma sample_main_runs admin_listen (H : is_ok (sample_main admin_listen).1 = true) :
  exists srv s, sample_main admin_listen = (Ok srv, s).
Proof. destruct (sample_main admin_listen) as [[srv|e|] s]; [by exists srv, s|discriminate H..]. Defined.

Lemma listeners_well_formed_witness :
  exists r s, sample_main (Some (lit "127.0.0.1:99999")) = (r, s) /\ is_ok r = false /\ listeners_wf s.
Proof.
  destruct (sample_main (Some (lit "127.0.0.1:99999"))) as [r s] eqn:E. exists r, s.
  split; [reflexivity|]. split; [vm_compute in E; injection E as <- _; reflexivity|].
  exact (proj1 (listeners_well_formed (TB := any_bind) (UC := Ref.url) (UT := Ref.unicode) (SC := Ref.sha2)
    (RG := RefX509.rcgen) (RS := rustls_ok) (UCL := client_ok) (AT := sample_mock_attester) _ _ _ _ _ E)).
Defined.

Lemma admin_warning_exact_witness :
  exists srv s p, sample_main (Some (lit "8.8.8.8:9000")) = (Ok srv, s) /\
    parse_socket_addr (lit "8.8.8.8:9000") = Some p /\ AdminNotPrivate p ∈ notices s /\
    ~ Exists (in_block (sa_ip p))
        (loopback_blocks ++ private_blocks ++ link_local_blocks ++ unspecified_blocks).
Proof.
  destruct (sample_main_runs (Some (lit "8.8.8.8:9000"))) as (srv & s & E); [vm_compute; reflexivity|].
  destruct (admin_warning_exact (TB := any_bind) (UC := Ref.url) (UT := Ref.unicode) (SC := Ref.sha2)
    (RG := RefX509.rcgen) (RS := rustls_ok) (UCL := client_ok) (AT := sample_mock_attester) _ _ _ srv s
    (lit "8.8.8.8:9000") E eq_refl) as (p & r & Hp & _ & _ & _ & H).
  assert (Hin : AdminNotPrivate p ∈ notices s).
  { vm_compute in Hp. injection Hp as <-. vm_compute in E. injection E as _ <-. by left. }
  exists srv, s, p. split; [exact E|]. split; [exact Hp|]. split; [exact Hin|]. exact (proj1 H Hin).
Defined.

Lemma relay_listens_ipv4_witness :
  exists srv s, sample_main None = (Ok srv, s) /\
    last (held s) = Some {| sa_ip := V4 0 0 0 0; sa_port := 8443; sa_scope := 0 |}.
Proof.
  destruct (sample_main_runs None) as (srv & s & E); [vm_compute; reflexivity|].
  exists srv, s. split; [exact E|].
  apply (relay_listens_ipv4 (TB := any_bind) (UC := Ref.url) (UT := Ref.unicode) (SC := Ref.sha2)
    (RG := RefX509.rcgen) (RS := rustls_ok) (UCL := client_ok) (AT := sample_mock_attester) _ _ _ srv s E).
  split; [by repeat constructor|]. exists (lit "8443"). split_and!; [reflexivity|by repeat constructor|done|done|lia].
Defined.

Lemma fails_closed_as_announced_witness :
  exists srv s, sample_main None = (Ok srv, s) /\ DataPlaneFailsClosed ∈ notices s /\
    forall tr (st : Running Ref.headers), run (UC := Ref.url) (UT := Ref.unicode) (JC := Ref.json)
      (HV := Ref.header_value) (HM := Ref.header_map) (RD := sample_redirects) (running srv) tr st ->
      forall act, act ∈ tr -> exists e, act = Refused e.
Proof.
  destruct (sample_main_runs None) as (srv & s & E); [vm_compute; reflexivity|].
  exists srv, s. split; [exact E|].
  destruct (fails_closed_as_announced (TB := any_bind) (UC := Ref.url) (UT := Ref.unicode) (SC := Ref.sha2)
    (RG := RefX509.rcgen) (RS := rustls_ok) (UCL := client_ok) (JC := Ref.json) (HV := Ref.header_value)
    (HM := Ref.header_map) (RD := sample_redirects) (AT := sample_mock_attester) _ _ _ srv s E)
    as (Hiff & Hall & _).
  assert (Hin : DataPlaneFailsClosed ∈ notices s) by (apply Hiff; split_and!; reflexivity).
  split; [exact Hin|]. exact (Hall Hin).
Defined.
