(* ===== verification/BufRead.v ===== *)
(** * Buffered line reading

    The interface the source uses of [tokio::io::BufReader] on a TCP connection, and
    its documented behaviour: [read_line] returns the next line of what the peer sends,
    whatever the sizes of the reads it arrives in, and taking the connection back out of
    the reader discards what was read but not consumed. [Module RefRead] is a concrete
    reader over explicit reads that satisfies the laws. *)

From S2P Require Import Prelude RustStr.

Local Open Scope N_scope.

Inductive IoError := ReadFailed | NotUtf8 | WriteFailed | ConnectFailed.

(** ** The byte stream *)

(** The next line with its line feed and the rest; at the end of the stream, what is left. *)
Definition next_line (s : bytes) : bytes * bytes :=
  match split_once byte_lf s with
  | Some (l, rest) => (l ++ [byte_lf], rest)
  | None => (s, [])
  end.

Lemma next_line_app s : (next_line s).1 ++ (next_line s).2 = s.
Proof.
  unfold next_line. destruct (split_once byte_lf s) as [[l r]|] eqn:E; cbn [fst snd].
  - apply split_once_Some in E as [-> _]. by rewrite <-app_assoc.
  - apply app_nil_r.
Qed.

Lemma next_line_lf l rest : byte_lf ∉ l -> next_line (l ++ byte_lf :: rest) = (l ++ [byte_lf], rest).
Proof. intros H. unfold next_line. by rewrite split_once_app. Qed.

Lemma next_line_shorter s : (next_line s).1 <> [] -> (length (next_line s).2 < length s)%nat.
Proof.
  intros H. rewrite <-(next_line_app s) at 2. rewrite length_app.
  destruct (next_line s).1; [done|]. cbn [length]. lia.
Qed.

(** ** The reader *)

(** [unread] is everything the peer will have sent that no call has returned, the part
    [buffered] already in the reader first and [into_inner] still on the connection;
    [broken] says that the connection fails after it instead of being closed. *)
Class LineReader (R : Type) := {
  unread : R -> bytes;
  broken : R -> bool;
  read_line : R -> outcome IoError (bytes * R);
  buffered : R -> bytes;
  into_inner : R -> bytes;
}.

Class LineReaderLaws (R : Type) `{LineReader R} : Prop := {
  unread_parts : forall r, unread r = buffered r ++ into_inner r;
  read_line_Ok : forall r line r', read_line r = Ok (line, r') ->
    next_line (unread r) = (line, unread r') /\ broken r' = broken r /\ utf8_valid line = true;
  read_line_total : forall r, broken r = false -> utf8_valid (next_line (unread r)).1 = true ->
    exists r', read_line r = Ok ((next_line (unread r)).1, r') /\
      unread r' = (next_line (unread r)).2 /\ broken r' = false;
  read_line_no_panic : forall r, read_line r <> Panic;
}.

(** ** A concrete reader *)

Module RefRead.
(** Bytes already read, and the later reads. *)
Record reader := {
  buffer : bytes;
  reads : list bytes;
  breaks : bool;
}.

(** One read per round until a line feed is seen. *)
Fixpoint read_until_lf (acc buf : bytes) (rs : list bytes) (br : bool)
  : outcome IoError (bytes * reader) :=
  match split_once byte_lf buf with
  | Some (l, r) => Ok (acc ++ l ++ [byte_lf], {| buffer := r; reads := rs; breaks := br |})
  | None =>
      match rs with
      | [] => if br then Err ReadFailed
              else Ok (acc ++ buf, {| buffer := []; reads := []; breaks := br |})
      | b :: rs' => read_until_lf (acc ++ buf) b rs' br
      end
  end.

Definition rest (r : reader) : bytes := buffer r ++ concat (reads r).
Definition next (r : reader) : outcome IoError (bytes * reader) :=
  '(line, r') ← read_until_lf [] (buffer r) (reads r) (breaks r);
  if utf8_valid line then Ok (line, r') else Err NotUtf8.

#[export] Instance line_reader : LineReader reader := {|
  unread := rest; broken := breaks; read_line := next; buffered := buffer;
  into_inner r := concat (reads r) |}.

(** A connection that delivers byte by byte. *)
Definition byte_reads (s : bytes) : reader :=
  {| buffer := []; reads := map (fun b => [b]) s; breaks := false |}.

Lemma read_until_Ok acc buf rs br line r' :
  byte_lf ∉ acc -> read_until_lf acc buf rs br = Ok (line, r') ->
  next_line (acc ++ buf ++ concat rs) = (line, rest r') /\ breaks r' = br.
Proof.
  revert acc buf. induction rs as [|b rs IH]; intros acc buf Ha; cbn [read_until_lf];
    destruct (split_once byte_lf buf) as [[l r]|] eqn:E.
  1,3: intros [= <- <-]; split; [|done]; apply split_once_Some in E as [-> Hl];
    unfold rest; cbn [buffer reads]; rewrite <-!app_assoc, <-app_comm_cons, app_assoc, next_line_lf;
    [by rewrite <-app_assoc|set_solver].
  - apply split_once_None in E. destruct br; [done|]. intros [= <- <-]. split; [|done].
    unfold next_line, rest. cbn [concat buffer reads]. rewrite !app_nil_r.
    by rewrite (proj2 (split_once_None _ _)) by set_solver.
  - apply split_once_None in E. intros H. apply IH in H; [|set_solver].
    by rewrite <-app_assoc in H.
Qed.

Lemma read_until_total acc buf rs : exists line r', read_until_lf acc buf rs false = Ok (line, r').
Proof.
  revert acc buf. induction rs as [|b rs IH]; intros acc buf; cbn [read_until_lf];
    destruct (split_once byte_lf buf) as [[l r]|]; eauto.
Qed.

Lemma read_until_no_panic acc buf rs br : read_until_lf acc buf rs br <> Panic.
Proof.
  revert acc buf. induction rs as [|b rs IH]; intros acc buf; cbn [read_until_lf];
    destruct (split_once byte_lf buf) as [[l r]|]; try done. by destruct br.
Qed.

#[export] Instance laws : LineReaderLaws reader.
Proof.
  split; cbn [unread broken read_line buffered into_inner line_reader].
  - done.
  - intros r line r' H. apply bind_Ok in H as ([l r1] & H1 & H2).
    destruct (utf8_valid l) eqn:Hu; [|done]. injection H2 as -> ->.
    apply read_until_Ok in H1 as [? ?]; [|apply not_elem_of_nil]. done.
  - intros r Hb Hu. destruct (read_until_total [] (buffer r) (reads r)) as (line & r' & H).
    unfold next. rewrite Hb, H. simp_out.
    apply read_until_Ok in H as [Hn Hb']; [|apply not_elem_of_nil].
    change (next_line (rest r) = (line, rest r')) in Hn.
    rewrite Hn in *. cbn [fst snd] in *. rewrite Hu. by exists r'.
  - intros r. unfold next. apply bind_no_panic; [apply read_until_no_panic|].
    intros [line r'] _. by destruct (utf8_valid line).
Qed.

Lemma byte_reads_rest s : rest (byte_reads s) = s.
Proof.
  unfold byte_reads, rest. cbn [buffer reads app].
  induction s as [|b s IH]; [done|]. cbn [map concat app]. by rewrite IH.
Qed.
End RefRead.
