(* ===== verification/Gateway.v ===== *)
(** * The tunnel gateway

    [tools/gateway/src/main.rs]: the gateway reads the head of one HTTP CONNECT
    request, checks the tunnel token and the target, and then copies bytes
    blindly. [handle_connection] is the handler up to the copy loop: its result
    is what it wrote to the client and, for a tunnel, what the copy loop starts
    with. [gateway_main] is the program: the listen address and the accept loop. *)

From S2P Require Import Prelude RustStr NetAddr BufRead.

Local Open Scope N_scope.

(** The network as the handler sees it: whether the relay accepts a connection and
    whether a write to the client succeeds. *)
Class GatewayNet := {
  relay_connects : bytes -> bool;
  client_write_ok : bytes -> bool;
}.

(** [Closed]: the connection ends after the bytes written. [Tunnel]: the copy loop
    runs, with the later bytes from the client going to the relay; the bytes that
    stayed in the dropped reader never do. *)
Inductive Connection :=
  | Closed (written : bytes)
  | Tunnel (written to_relay dropped : bytes).

Definition is_eol (b : byte) : bool := bool_decide (b ∈ [byte_cr; byte_lf]).
Definition chomp (line : bytes) : bytes := trim_end_matches is_eol line.

Definition reject_response (status body : bytes) : bytes :=
  lit "HTTP/1.1 " ++ status ++ crlf ++ lit "Content-Length: " ++ dec (len body) ++ crlf
  ++ lit "Connection: close" ++ crlf ++ crlf ++ body.

Definition established : bytes := lit "HTTP/1.1 200 Connection Established" ++ crlf ++ crlf.

Section gateway.
Context {NET : GatewayNet} {R : Type} {LR : LineReader R}.

Definition write_all (b : bytes) : outcome IoError unit := ensure (client_write_ok b) WriteFailed.

Definition reject (status body : bytes) : outcome IoError Connection :=
  _ ← write_all (reject_response status body); Ok (Closed (reject_response status body)).

(** The [authorized] flag after a header line. *)
Definition header_line (expected_token : bytes) (authorized : bool) (trimmed : bytes) : bool :=
  match split_once ":"%byte trimmed with
  | Some (name, value) =>
      if eq_ignore_ascii_case name (lit "authorization")
      then bool_decide (trim value = lit "Bearer " ++ expected_token)
      else authorized
  | None => authorized
  end.

(** The header loop; [None] is the end of the stream. Every round consumes a line, so
    the length of the stream bounds the rounds. *)
Fixpoint header_loop (fuel : nat) (expected_token : bytes) (authorized : bool) (reader : R)
  : outcome IoError (option (bool * R)) :=
  match fuel with
  | O => Panic
  | S fuel' =>
      '(line, reader') ← read_line reader;
      if bool_decide (line = []) then Ok None
      else
        let trimmed := chomp line in
        if bool_decide (trimmed = []) then Ok (Some (authorized, reader'))
        else header_loop fuel' expected_token (header_line expected_token authorized trimmed) reader'
  end.

Definition handle_connection (client : R) (relay_addr expected_token : bytes)
  : outcome IoError Connection :=
  '(line, reader) ← read_line client;
  if bool_decide (line = []) then Ok (Closed [])
  else
    let parts := split_whitespace (chomp line) in
    let method := default [] (parts !! 0%nat) in
    let authority := default [] (parts !! 1%nat) in
    if negb (bool_decide (method = lit "CONNECT"))
    then reject (lit "405 Method Not Allowed") (lit "CONNECT required")
    else
      head ← header_loop (S (length (unread reader))) expected_token false reader;
      match head with
      | None => Ok (Closed [])
      | Some (authorized, reader') =>
          if negb authorized then reject (lit "403 Forbidden") (lit "invalid tunnel token")
          else if negb (bool_decide (authority = relay_addr))
          then reject (lit "403 Forbidden") (lit "relay target not allowed")
          else
            _ ← ensure (relay_connects relay_addr) ConnectFailed;
            _ ← write_all established;
            Ok (Tunnel established (into_inner reader') (buffered reader'))
      end.
End gateway.

(** ** The program *)

Record GatewayCli := {
  gw_listen : bytes;
  gw_relay_addr : bytes;
  gw_token : bytes;
}.

Inductive GatewayError := GwListenInvalid | GwBindFailed (a : SocketAddr) | GwAcceptFailed.

Section gateway_main.
Context {TB : TcpBind} {NET : GatewayNet} {R : Type} {LR : LineReader R}.

(** What [accept] returns one call after the other, [None] for an error. Every connection
    is handled in a task of its own, whose result only the log sees; an error of [accept]
    ends the program, and without one the loop goes on. *)
Fixpoint accept_loop (cli : GatewayCli) (incoming : list (option R))
  : list (outcome IoError Connection) * outcome GatewayError unit :=
  match incoming with
  | [] => ([], Ok tt)
  | None :: _ => ([], Err GwAcceptFailed)
  | Some stream :: incoming' =>
      let '(tasks, ended) := accept_loop cli incoming' in
      (handle_connection stream (gw_relay_addr cli) (gw_token cli) :: tasks, ended)
  end.

Definition gateway_main (cli : GatewayCli) (incoming : list (option R))
  : list (outcome IoError Connection) * outcome GatewayError unit :=
  match (addr ← ok_or (parse_socket_addr (gw_listen cli)) GwListenInvalid;
         ensure (tcp_bind [] addr) (GwBindFailed addr)) with
  | Ok _ => accept_loop cli incoming
  | r => ([], r)
  end.
End gateway_main.

(** ** The head of a request as a list of lines *)

(** [s] starts with the lines, each with its line feed, of which none is blank, and a
    blank line; [rest] follows. *)
Inductive head_block : bytes -> list bytes -> bytes -> Prop :=
  | head_end s line rest :
      next_line s = (line, rest) -> line <> [] -> utf8_valid line = true -> chomp line = [] ->
      head_block s [] rest
  | head_line s line s' ls rest :
      next_line s = (line, s') -> utf8_valid line = true -> chomp line <> [] ->
      head_block s' ls rest -> head_block s (chomp line :: ls) rest.

(** The value of an Authorization header line. *)
Definition authorization_of (line : bytes) : option bytes :=
  '(name, value) ← split_once ":"%byte line;
  if eq_ignore_ascii_case name (lit "authorization") then Some value else None.

(** The last Authorization line carries the token. *)
Definition authorized_by (expected_token : bytes) (ls : list bytes) : Prop :=
  exists pre line post value, ls = pre ++ line :: post /\ authorization_of line = Some value /\
    trim value = lit "Bearer " ++ expected_token /\
    forall l, l ∈ post -> authorization_of l = None.

Lemma header_line_cases expected_token authorized line :
  header_line expected_token authorized line =
  match authorization_of line with
  | Some value => bool_decide (trim value = lit "Bearer " ++ expected_token)
  | None => authorized
  end.
Proof.
  unfold header_line, authorization_of. destruct (split_once _ line) as [[name value]|]; [|done].
  cbn [mbind option_bind]. by destruct (eq_ignore_ascii_case _ _).
Qed.

Lemma fold_header_line expected_token ls :
  fold_left (header_line expected_token) ls false = true <-> authorized_by expected_token ls.
Proof.
  induction ls as [|line ls IH] using rev_ind.
  { split; [done|]. by intros ([|] & ? & ? & ? & ? & _). }
  rewrite fold_left_app. cbn [fold_left]. rewrite header_line_cases.
  destruct (authorization_of line) as [value|] eqn:E.
  - rewrite bool_decide_eq_true. split.
    + intros Hv. exists ls, line, [], value. split_and!; try done. intros l Hl. by apply elem_of_nil in Hl.
    + intros (pre & l & post & v & Heq & Ha & Hv & Hno).
      destruct post as [|x post _] using rev_ind.
      * apply app_inj_tail in Heq as [-> ->]. congruence.
      * rewrite app_comm_cons, app_assoc in Heq. apply app_inj_tail in Heq as [_ ->].
        rewrite Hno in E; [done|set_solver].
  - rewrite IH. split.
    + intros (pre & l & post & v & -> & Ha & Hv & Hno). exists pre, l, (post ++ [line]), v.
      split_and!; try done; [by rewrite <-app_assoc|]. intros l' [Hl'|Hl']%elem_of_app; [auto|].
      apply list_elem_of_singleton in Hl'. congruence.
    + intros (pre & l & post & v & Heq & Ha & Hv & Hno).
      destruct post as [|x post _] using rev_ind.
      * apply app_inj_tail in Heq as [-> ->]. congruence.
      * rewrite app_comm_cons, app_assoc in Heq. apply app_inj_tail in Heq as [-> ->].
        exists pre, l, post, v. split_and!; try done. intros l' Hl'. apply Hno. set_solver.
Qed.

Lemma chomp_nil : chomp [] = [].
Proof. done. Qed.

Section gateway_facts.
Context {R : Type} {LR : LineReader R} {LL : LineReaderLaws R} (expected_token : bytes).
Implicit Types r : R.

Lemma header_loop_sound fuel authorized r authorized' r' :
  header_loop fuel expected_token authorized r = Ok (Some (authorized', r')) ->
  exists ls, head_block (unread r) ls (unread r') /\ broken r' = broken r /\
    authorized' = fold_left (header_line expected_token) ls authorized.
Proof.
  revert authorized r. induction fuel as [|fuel IH]; intros authorized r H; [done|].
  cbn [header_loop] in H. apply bind_Ok in H as ([line r1] & Hl & H).
  apply read_line_Ok in Hl as (Hn & Hb & Hu).
  case_bool_decide as He; [done|]. case_bool_decide as Hc.
  - injection H as -> ->. exists []. split_and!; [|done..]. by econstructor.
  - apply IH in H as (ls & Hh & Hb' & ->). exists (chomp line :: ls).
    split_and!; [by econstructor|congruence|done].
Qed.

Lemma header_loop_complete fuel authorized r ls rest :
  broken r = false -> head_block (unread r) ls rest -> (length (unread r) < fuel)%nat ->
  exists r', header_loop fuel expected_token authorized r =
      Ok (Some (fold_left (header_line expected_token) ls authorized, r')) /\
    unread r' = rest /\ broken r' = false.
Proof.
  intros Hb Hh. remember (unread r) as s eqn:Hs. revert fuel authorized r Hb Hs.
  induction Hh as [s line rest Hn Hne Hu Hc|s line s' ls rest Hn Hu Hc Hh IH];
    intros fuel authorized r Hb -> Hf; (destruct fuel as [|fuel]; [lia|]); cbn [header_loop];
    destruct (read_line_total r Hb) as (r1 & Hr & Hs1 & Hb1); try (by rewrite Hn);
    rewrite Hr, Hn in *; cbn [fst snd] in *; simp_out.
  - rewrite bool_decide_eq_false_2, bool_decide_eq_true_2 by done. by exists r1.
  - assert (Hl : line <> []) by (intros ->; by rewrite chomp_nil in Hc).
    rewrite !bool_decide_eq_false_2 by done. apply IH; [done..|].
    pose proof (next_line_shorter (unread r)) as Hsh. rewrite Hn in Hsh. cbn [fst snd] in Hsh.
    specialize (Hsh Hl). lia.
Qed.

(** The fuel is never used up. *)
Lemma header_loop_no_panic fuel authorized r :
  (length (unread r) < fuel)%nat -> header_loop fuel expected_token authorized r <> Panic.
Proof.
  revert authorized r. induction fuel as [|fuel IH]; intros authorized r Hf; [lia|].
  cbn [header_loop]. apply bind_no_panic; [apply read_line_no_panic|]. intros [line r'] Hl.
  apply read_line_Ok in Hl as (Hn & _). case_bool_decide as Hne; [done|].
  case_bool_decide; [done|]. apply IH.
  pose proof (next_line_shorter (unread r)) as Hsh. rewrite Hn in Hsh. cbn [fst snd] in Hsh.
  specialize (Hsh Hne). lia.
Qed.
End gateway_facts.

(** The request line asks for a tunnel to [authority]. *)
Definition connect_line (line authority : bytes) : Prop :=
  exists ws, split_whitespace (chomp line) = lit "CONNECT" :: ws /\ default [] (ws !! 0%nat) = authority.

(** A well-formed and authorized request for a tunnel to [relay_addr], followed by [rest]. *)
Definition tunnel_request (s relay_addr expected_token rest : bytes) : Prop :=
  exists line s' ls, next_line s = (line, s') /\ utf8_valid line = true /\
    connect_line line relay_addr /\ head_block s' ls rest /\ authorized_by expected_token ls.

Lemma connect_line_parts line authority : line <> [] ->
  connect_line line authority <->
  default [] (split_whitespace (chomp line) !! 0%nat) = lit "CONNECT" /\
  default [] (split_whitespace (chomp line) !! 1%nat) = authority.
Proof.
  intros _. unfold connect_line. split.
  - intros (ws & -> & <-). done.
  - destruct (split_whitespace (chomp line)) as [|w ws]; cbn [lookup list_lookup default];
      [by intros [Hf _]|]. intros [Hm <-]. cbv [id] in Hm. subst w. by exists ws.
Qed.

Section handler_facts.
Context {NET : GatewayNet} {R : Type} {LR : LineReader R} {LL : LineReaderLaws R}.

Lemma handle_connection_no_panic (client : R) relay_addr expected_token :
  handle_connection client relay_addr expected_token <> Panic.
Proof.
  unfold handle_connection, reject, write_all. apply bind_no_panic; [apply read_line_no_panic|].
  intros [line r] _. case_bool_decide; [done|]. destruct (negb _); [no_panic|].
  apply bind_no_panic; [apply header_loop_no_panic; lia|].
  intros [[a r']|] _; [|done]. do 2 (destruct (negb _); [no_panic|]). no_panic.
Qed.

Lemma tunnel_sound (client : R) relay_addr expected_token w tr dr :
  handle_connection client relay_addr expected_token = Ok (Tunnel w tr dr) ->
  w = established /\ tunnel_request (unread client) relay_addr expected_token (dr ++ tr).
Proof.
  intros H. unfold handle_connection, reject in H.
  apply bind_Ok in H as ([line r] & Hl & H). case_bool_decide as Hne; [done|].
  destruct (negb (bool_decide (_ = lit "CONNECT"))) eqn:Hc; [by inv_outcome|].
  apply bind_Ok in H as ([[a r']|] & Hh & H); [|done].
  destruct (negb a) eqn:Ha; [by inv_outcome|].
  destruct (negb (bool_decide (_ = relay_addr))) eqn:Hr; [by inv_outcome|].
  inv_outcome. split_bool. split; [done|]. apply header_loop_sound in Hh as (ls & Hh & _ & Hau).
  apply read_line_Ok in Hl as (Hn & _ & Hu). exists line, (unread r), ls. rewrite <-unread_parts.
  split_and!; try done.
  - by apply connect_line_parts.
  - apply fold_header_line. congruence.
Qed.
End handler_facts.

Section loop_facts.
Context {TB : TcpBind} {NET : GatewayNet} {R : Type} {LR : LineReader R} (cli : GatewayCli).
Implicit Types incoming : list (option R).

(** The task of a connection. *)
Definition task_of (c : R) : outcome IoError Connection :=
  handle_connection c (gw_relay_addr cli) (gw_token cli).

(** The accept loop runs one handler for each connection before the first error. *)
Lemma accept_loop_spec incoming :
  exists clients rest, incoming = map Some clients ++ rest /\
    (accept_loop cli incoming).1 = map task_of clients /\
    ((rest = [] /\ (accept_loop cli incoming).2 = Ok tt) \/
     ((exists later, rest = None :: later) /\ (accept_loop cli incoming).2 = Err GwAcceptFailed)).
Proof.
  induction incoming as [|[c|] incoming (cs & rest & -> & Ht & He)]; cbn [accept_loop].
  - exists [], []. auto.
  - destruct (accept_loop cli _) as [tasks ended]. cbn [fst snd] in *. subst tasks.
    exists (c :: cs), rest. auto.
  - exists [], (None :: map Some cs ++ rest). split_and!; [done|done|]. right. eauto.
Qed.

(** Another client in the place of one changes that client's task and nothing else. *)
Lemma accept_loop_insert incoming n client client' : incoming !! n = Some (Some client) ->
  accept_loop cli (<[n := Some client']> incoming) =
  (<[n := task_of client']> (accept_loop cli incoming).1, (accept_loop cli incoming).2).
Proof.
  revert n. induction incoming as [|[c|] incoming IH]; intros n Hn; [done| |].
  - destruct n as [|n].
    + cbn [accept_loop insert list_insert]. by destruct (accept_loop cli incoming).
    + change (<[S n := Some client']> (Some c :: incoming)) with (Some c :: <[n := Some client']> incoming).
      cbn [accept_loop]. rewrite (IH n Hn).
      by destruct (accept_loop cli incoming).
  - by destruct n.
Qed.
End loop_facts.

(** ** Properties *)

(** C19: The gateway opens a tunnel only for a CONNECT request, authenticated by its last
    Authorization header, to the configured relay, and for every such request however
    the network cuts it into reads; the copy loop then starts exactly behind the blank
    line, except that bytes read together with it are dropped. Over any finite stream the
    handler ends, without a panic, and whatever else it is sent it answers with a refusal
    or an error. *)
Theorem gateway_tunnel_spec {NET : GatewayNet} {R : Type} {LR : LineReader R} {LL : LineReaderLaws R}
  (client : R) (relay_addr expected_token : bytes) :
  handle_connection client relay_addr expected_token <> Panic /\
  (forall w tr dr, handle_connection client relay_addr expected_token = Ok (Tunnel w tr dr) ->
     w = established /\ tunnel_request (unread client) relay_addr expected_token (dr ++ tr)) /\
  (forall rest, tunnel_request (unread client) relay_addr expected_token rest ->
     broken client = false -> relay_connects relay_addr = true ->
     client_write_ok established = true ->
     exists tr dr, dr ++ tr = rest /\
       handle_connection client relay_addr expected_token = Ok (Tunnel established tr dr)).
Proof.
  split_and!; [apply handle_connection_no_panic|by apply tunnel_sound|].
  intros rest (line & s' & ls & Hn & Hu & Hc & Hh & Ha) Hb Hcon Hw.
  assert (Hne : line <> []) by (intros ->; by destruct Hc as (ws & Hf & _)).
  apply connect_line_parts in Hc as [Hm Hau]; [|done].
  destruct (read_line_total client Hb) as (r & Hr & Hs & Hbr); [by rewrite Hn|].
  rewrite Hn in *. cbn [fst snd] in *. subst s'.
  destruct (header_loop_complete expected_token (S (length (unread r))) false r ls rest Hbr Hh)
    as (r' & Hl & Hs' & _); [lia|].
  exists (into_inner r'), (buffered r'). rewrite <-unread_parts. split; [done|]. unfold handle_connection.
  rewrite Hr. simp_out. rewrite bool_decide_eq_false_2 by done. cbv zeta.
  rewrite (bool_decide_eq_true_2 _ Hm). cbn [negb]. rewrite Hl. simp_out.
  apply fold_header_line in Ha. rewrite Ha. cbn [negb].
  rewrite (bool_decide_eq_true_2 _ Hau). cbn [negb]. rewrite Hcon. simp_out.
  unfold write_all. by rewrite Hw.
Qed.


(** ** Witnesses *)

Definition open_net : GatewayNet := {| relay_connects _ := true; client_write_ok _ := true |}.
Definition sample_connect : RefRead.reader :=
  RefRead.byte_reads (lit "CONNECT relay:8443 HTTP/1.1" ++ crlf ++ lit "Authorization: Bearer t" ++ crlf
    ++ crlf ++ lit "hello").

Lemma gateway_tunnel_spec_witness :
  tunnel_request (RefRead.rest sample_connect) (lit "relay:8443") (lit "t") (lit "hello") /\
  exists tr dr, dr ++ tr = lit "hello" /\
    handle_connection (NET := open_net) (LR := RefRead.line_reader) sample_connect (lit "relay:8443")
      (lit "t") = Ok (Tunnel established tr dr).
Proof.
  destruct (gateway_tunnel_spec (NET := open_net) (LR := RefRead.line_reader) (LL := RefRead.laws)
    sample_connect (lit "relay:8443") (lit "t")) as (_ & Hs & Hc).
  destruct (Hs established (lit "hello") []) as [_ H]; [vm_compute; reflexivity|].
  split; [exact H|]. apply Hc; [exact H|reflexivity..].
Defined.

