(* ===== verification/Backends.v ===== *)
(** * Verification backends of the clients

    The verifier the client programs choose at run time ([Arc<dyn Verifier>]), and the
    command-line options for Confidential Space that the local proxy
    ([tools/local-proxy/src/main.rs]) and the online check
    ([tools/online-check/src/main.rs]) share. *)

From S2P Require Import Prelude RustStr Extern Attest MockTee SevSnp GcpPolicy GcpCs.

Local Open Scope N_scope.

Inductive AnyVerifier :=
  | AnyMockVerifier
  | AnySevVerifier
  | AnyGcpVerifier (v : GcpConfidentialSpaceVerifier).

(** The clocks and process-wide caches a verification runs on. *)
Class World := {
  now_secs : N;
  system_time : option N;
  kds_state : KdsState;
  json_state : JsonState;
}.

#[global] Instance AnyVerifier_verify {ED : Ed25519Crate} {QJ : MockQuoteJson} {HX : HexCrate}
  {EC : EndorsementCrates} {SC : Sha2Crate} {BP : BuildProfile} {HH : HttpHost}
  {UC : UrlCrate} {JC : JsonCrate} {KJ : KeyJson} {JW : JwtCrate} {B64 : Base64Crate}
  {W : World} : Verifier AnyVerifier := fun v evidence expected =>
  match v with
  | AnyMockVerifier => verify mock_verifier evidence expected
  | AnySevVerifier => verify {| sev_time := now_secs; sev_state := kds_state |} evidence expected
  | AnyGcpVerifier g =>
      verify {| gcp_verifier := g; gcp_time := system_time; gcp_state := json_state |}
        evidence expected
  end.

(** The cargo features of the client crates. *)
Record ClientFeatures := {
  sev_snp : bool;
  gcp_confidential_space : bool;
  mock : bool;
}.

(** The [--gcp-cs-*] options. *)
Record GcpArgs := {
  gcp_cs_audience : bytes;
  gcp_cs_image_digest : option bytes;
  gcp_cs_image_reference : option bytes;
  gcp_cs_signature_key_id : list bytes;
  gcp_cs_service_account : option bytes;
  gcp_cs_project_id : option bytes;
  gcp_cs_zone : option bytes;
}.

Definition args_policy (a : GcpArgs) : GcpConfidentialSpacePolicy :=
  let p := policy_new (gcp_cs_audience a) in {|
  audience := audience p;
  image_digest := gcp_cs_image_digest a;
  image_reference := gcp_cs_image_reference a;
  signature_key_ids := gcp_cs_signature_key_id a;
  service_account := gcp_cs_service_account a;
  project_id := gcp_cs_project_id a;
  zone := gcp_cs_zone a;
  instance_name := instance_name p;
  require_debug_disabled := require_debug_disabled p;
  require_confidential_space := require_confidential_space p;
  require_secure_boot := require_secure_boot p;
  issuer := issuer p; jwks_uri := jwks_uri p |}.

(** The verifier for Confidential Space, with [audit] the relaxed mode. *)
Definition gcp_backend {UC : UrlCrate} (audit : bool) (a : GcpArgs) : attest_result AnyVerifier :=
  if audit then Ok (AnyGcpVerifier (verifier_new_audit (args_policy a)))
  else AnyGcpVerifier <$> verifier_new (args_policy a).

(** Hexadecimal options, with an optional prefix. *)
Definition strip_0x (raw : bytes) : bytes :=
  match strip_prefix (lit "0x") raw with
  | Some s => s
  | None => match strip_prefix (lit "0X") raw with Some s => s | None => raw end
  end.

(** ** Facts *)

Lemma verifier_new_Ok {UC : UrlCrate} p v : verifier_new p = Ok v ->
  policy_validate p = Ok tt /\ policy v = p /\ enforce_workload_identity v = true.
Proof.
  unfold verifier_new. intros H. inv_outcome.
  by match goal with H : policy_validate _ = Ok ?u |- _ => destruct u end.
Qed.

(** A validated policy pins the workload. *)
Lemma policy_validate_pins {UC : UrlCrate} p : policy_validate p = Ok tt ->
  is_Some (image_digest p) \/ signature_key_ids p <> [].
Proof.
  unfold policy_validate. intros H. inv_outcome.
  match goal with H : (_ || _) = true |- _ => apply orb_true_iff in H as [H|H] end; split_bool; auto.
Qed.

Lemma verifier_new_no_panic {UC : UrlCrate} p : verifier_new p <> Panic.
Proof.
  unfold verifier_new, policy_validate, validate_metadata_sources, validate_https_url,
    validate_image_digest. no_panic.
  all: repeat match goal with |- (match ?x with _ => _ end) <> _ => destruct x end; no_panic.
Qed.
