(* ===== verification/Reports.v ===== *)
(** * The backends report what was attested

    Instances of [Attest.Reports] for the three backends, from what their hardware or
    service documents: the mock key signs the data, the SEV-SNP firmware copies it into
    the report, the Confidential Space token service copies the nonces into the token. *)

From S2P Require Import Prelude RustStr Extern Attest MockTee SnpReport SevSnp.
From S2P Require Import Launcher GcpPolicy GcpCs Backends Server.

Local Open Scope N_scope.

(** ** Mock *)

Section mock_reports.
Context {SC : Sha2Crate} {ED : Ed25519Crate} {QJ : MockQuoteJson} {HX : HexCrate}.
Context {EDL : Ed25519Laws} {QJL : MockQuoteJsonLaws}.

(** The JSON of a quote with 64 bytes of user data fits its length field. *)
Class SmallQuotes : Prop := small_quote : forall ud, length ud = 64%nat ->
  len (quote_to_vec {| measurement := mock_measurement; user_data := ud |}) < 2 ^ 32.

Lemma mock_reports {SQ : SmallQuotes} : Reports mock_attester mock_verifier.
Proof.
  intros rd ev m rd' Hl Ha Hv. rewrite (mock_verify_signed _ _ _ _ (small_quote rd Hl) Ha Hl) in Hv.
  destruct m as [e|]; [|congruence]. case_bool_decide; [congruence|done].
Qed.
End mock_reports.

(** ** SEV-SNP *)

(** The firmware puts the user data at [REPORT_DATA] of the report it returns. *)
Class SevGuestLaws {DEV : SevGuest} : Prop := {
  report_carries : forall ud resp, snp_get_report ud = Some resp ->
    slice_get resp (32 + REPORT_DATA_OFFSET) (32 + (REPORT_DATA_OFFSET + REPORT_DATA_LEN)) = Some ud;
  ext_report_carries : forall ud resp certs, snp_get_ext_report ud = Some (resp, certs) ->
    slice_get resp (32 + REPORT_DATA_OFFSET) (32 + (REPORT_DATA_OFFSET + REPORT_DATA_LEN)) = Some ud;
}.

Section sev_reports.
Context {DEV : SevGuest} {DL : SevGuestLaws}.
Context {EC : EndorsementCrates} {SC : Sha2Crate} {HX : HexCrate} {BP : BuildProfile} {HH : HttpHost}.

(** The evidence starts with a report that carries the user data. *)
Lemma sev_attest_report ud ev : attest sev_snp_attester ud = Ok ev ->
  exists report rest, data ev = report ++ rest /\ len report = SNP_REPORT_SIZE /\
    slice_get report REPORT_DATA_OFFSET (REPORT_DATA_OFFSET + REPORT_DATA_LEN) = Some ud.
Proof.
  assert (Hcut : forall resp report, slice_get resp 32 (32 + SNP_REPORT_SIZE) = Some report ->
    slice_get resp (32 + REPORT_DATA_OFFSET) (32 + (REPORT_DATA_OFFSET + REPORT_DATA_LEN)) = Some ud ->
    len report = SNP_REPORT_SIZE /\
    slice_get report REPORT_DATA_OFFSET (REPORT_DATA_OFFSET + REPORT_DATA_LEN) = Some ud).
  { intros resp report Hr Hu. pose proof (slice_get_length _ _ _ _ Hr) as Hl.
    assert (Hl' : len report = SNP_REPORT_SIZE) by lia. split; [done|].
    destruct (slice_get_is_Some report REPORT_DATA_OFFSET (REPORT_DATA_OFFSET + REPORT_DATA_LEN))
      as [t Ht]; [done|by rewrite Hl'|].
    pose proof (slice_get_slice _ _ _ _ _ _ _ Hr Ht). congruence. }
  unfold attest, SevSnpAttester_attest, attest_linux. intros H.
  destruct (attest_linux_ext ud) as [ev'|e|] eqn:E; [|clear E|done].
  - injection H as <-. unfold attest_linux_ext in E. inv_outcome.
    match goal with p : (bytes * bytes)%type |- _ => destruct p end. inv_outcome.
    match goal with H : snp_get_ext_report _ = Some (?r, ?c), H2 : slice_idx ?r 32 _ = Ok ?rep |- _ =>
      apply slice_idx_Ok in H2; destruct (Hcut _ _ H2 (ext_report_carries _ _ _ H)) as [? ?];
      exists rep; eexists; by split_and! end.
  - unfold attest_linux_report_only in H. inv_outcome.
    match goal with H : snp_get_report _ = Some ?r, H2 : slice_idx ?r 32 _ = Ok ?rep |- _ =>
      apply slice_idx_Ok in H2; destruct (Hcut _ _ H2 (report_carries _ _ H)) as [? ?];
      exists rep, []; rewrite app_nil_r; by split_and! end.
Qed.

Lemma sev_verify_report t ev m s rd s' : sev_verify t ev m s = (Ok rd, s') ->
  exists report, report_bytes (data ev) = Ok report /\
    slice_get report REPORT_DATA_OFFSET (REPORT_DATA_OFFSET + REPORT_DATA_LEN) = Some rd.
Proof.
  unfold sev_verify. cbv zeta. intros H.
  repeat match goal with
  | H : (_ ≫= _) _ = (Ok _, _) |- _ => apply stm_bind_Ok in H as (? & ? & ? & ?)
  | H : pure _ _ = (Ok _, _) |- _ => apply pure_Ok in H as [? ->]
  | H : mret _ _ = (Ok _, _) |- _ => apply mret_Ok in H as [-> ->]
  end.
  match goal with H : report_bytes _ = Ok ?r, H2 : slice_idx ?r REPORT_DATA_OFFSET _ = Ok _ |- _ =>
    exists r; apply slice_idx_Ok in H2; by split end.
Qed.

Lemma sev_reports v : Reports (V := SevSnpVerifier) sev_snp_attester v.
Proof.
  intros rd ev m rd' _ (report & rest & Hd & Hl & Hs)%sev_attest_report Hv.
  unfold verify, SevSnpVerifier_verify in Hv. destruct (sev_verify _ _ _ _) as [r s'] eqn:E.
  cbn [fst] in Hv. subst r. apply sev_verify_report in E as (report' & Hr & Hs').
  assert (report' = report) as ->; [|congruence].
  unfold report_bytes in Hr. rewrite Hd in Hr.
  pose proof (slice_get_here [] report rest) as Hh. cbn [app] in Hh.
  change (len []) with 0 in Hh. rewrite N.add_0_l, Hl in Hh. rewrite Hh in Hr. by inv_outcome.
Qed.
End sev_reports.

(** ** Confidential Space *)

(** The token service answers a request with a token of which the claims, in any key and
    validation it decodes under, carry the requested nonces. *)
Class TokenServiceLaws {LS : LauncherSocket} {BP : BuildProfile} {TJ : TokenRequestJson}
  {JW : JwtCrate} : Prop :=
  token_nonces : forall path r token key val t claims,
    request_token_over_unix_socket path (token_request_to_vec r) = Ok token ->
    jwt_decode token key val t = Some claims -> eat_nonce claims = Many (tr_nonces r).

Section gcp_reports.
Context {LS : LauncherSocket} {BP : BuildProfile} {TJ : TokenRequestJson} {JW : JwtCrate}.
Context {TL : TokenServiceLaws} {B64 : Base64Crate} {B64L : Base64Laws}.
Context {UC : UrlCrate} {JC : JsonCrate} {HH : HttpHost} {KJ : KeyJson}.

Lemma decode_claims v t token s claims s' :
  decode_and_validate v t token s = (Ok claims, s') ->
  exists key val, jwt_decode token key val t = Some claims.
Proof.
  unfold decode_and_validate. intros H.
  apply stm_bind_Ok in H as ([a ok] & s1 & _ & H).
  repeat match goal with
  | H : (_ ≫= _) _ = (Ok _, _) |- _ => apply stm_bind_Ok in H as (? & ? & _ & H)
  end.
  apply pure_Ok in H as [H _]. apply ok_or_Ok in H. eauto.
Qed.

Lemma gcp_reports (a : GcpConfidentialSpaceAttester) (v : GcpVerifier) : Reports a v.
Proof.
  intros rd ev m rd' Hl Ha Hv. unfold attest, GcpConfidentialSpaceAttester_attest in Ha.
  apply bind_Ok in Ha as (token & Ht & [= <-]).
  unfold verify, GcpVerifier_verify in Hv. destruct (gcp_verify _ _ _ _ _) as [r s'] eqn:E.
  cbn [fst] in Hv. subst r. unfold gcp_verify in E. cbn [data] in E.
  repeat match goal with
  | H : (_ ≫= _) _ = (Ok _, _) |- _ => apply stm_bind_Ok in H as (? & ? & ? & ?)
  | H : decode_and_validate _ _ _ _ = _ |- _ => apply decode_claims in H as (key & val & Hd)
  end.
  apply (token_nonces _ _ _ _ _ _ _ Ht) in Hd.
  match goal with H : pure (verify_claims _ _ _ _) _ = _ |- _ => apply pure_Ok in H as [H _];
    rename H into Hc end.
  match type of Hd with eat_nonce ?c = _ => assert (Hn : nonce_reportdata (eat_nonce c) = Ok rd') end.
  { unfold verify_claims in Hc. inv_outcome. destruct m; [case_bool_decide|]; congruence. }
  rewrite Hd in Hn. cbn [tr_nonces token_request] in Hn.
  rewrite (reportdata_nonces_decode rd Hl) in Hn. congruence.
Qed.

(** Asking for report data changes the result of an accepted token only by the comparison. *)
Lemma gcp_verify_compares v t ev e s rd s' : gcp_verify v t ev None s = (Ok rd, s') ->
  length e = 64%nat ->
  gcp_verify v t ev (Some e) s = (if bool_decide (rd = e) then Ok rd else Err ReportDataMismatch, s').
Proof.
  intros H He. unfold gcp_verify in *.
  apply stm_bind_Ok in H as (u1 & s1 & H1 & H). rewrite (stm_bind_run _ _ _ _ _ H1).
  apply stm_bind_Ok in H as (u2 & s2 & H2 & H). rewrite (stm_bind_run _ _ _ _ _ H2).
  apply stm_bind_Ok in H as (u3 & s3 & H3 & H). apply pure_Ok in H3 as [_ ->].
  assert (Hl : (len e =? 64) = true) by (unfold len; by rewrite He). rewrite Hl. cbn [ensure].
  rewrite (stm_bind_run _ _ tt s2 s2) by done.
  apply stm_bind_Ok in H as (u4 & s4 & H4 & H). rewrite (stm_bind_run _ _ _ _ _ H4).
  apply stm_bind_Ok in H as (claims & s5 & Hd & H). rewrite (stm_bind_run _ _ _ _ _ Hd).
  apply pure_Ok in H as [Hc ->]. unfold pure. f_equal. unfold verify_claims in *.
  repeat (apply bind_Ok in Hc as (? & ?E & Hc); rewrite E; clear E; simp_out).
  by injection Hc as ->.
Qed.

(** A Confidential Space attester whose tokens a verifier accepts goes with it. *)
Lemma gcp_attests_bound (a : GcpConfidentialSpaceAttester) (v : GcpVerifier) :
  (forall rd ev, length rd = 64%nat -> attest a rd = Ok ev -> is_ok (verify v ev None) = true) ->
  AttestsBound a v.
Proof.
  intros Hacc.
  assert (Hok : forall rd ev, length rd = 64%nat -> attest a rd = Ok ev -> verify v ev None = Ok rd).
  { intros rd ev Hl Ha. destruct (is_ok_Ok _ (Hacc rd ev Hl Ha)) as [rd' Hv].
    by rewrite (gcp_reports a v rd ev None rd' Hl Ha Hv) in Hv. }
  split; [|done|].
  - intros rd ev Ha. unfold attest, GcpConfidentialSpaceAttester_attest in Ha. by inv_outcome.
  - intros rd ev e Hl He Ha. specialize (Hok rd ev Hl Ha). unfold verify, GcpVerifier_verify in *.
    destruct (gcp_verify _ _ _ None _) as [r s'] eqn:E. cbn [fst] in Hok. subst r.
    by rewrite (gcp_verify_compares _ _ _ _ _ _ _ E He).
Qed.
End gcp_reports.

(** ** Any backend *)

(** The pairs of an attester of the relay and a verifier of a client that belong together. *)
Inductive backend_pair : AnyAttester -> AnyVerifier -> Prop :=
  | pair_mock : backend_pair AnyMock AnyMockVerifier
  | pair_sev : backend_pair AnySev AnySevVerifier
  | pair_gcp a v : backend_pair (AnyGcp a) (AnyGcpVerifier v).

Section any_reports.
Context {SC : Sha2Crate} {ED : Ed25519Crate} {QJ : MockQuoteJson} {HX : HexCrate}.
Context {EDL : Ed25519Laws} {QJL : MockQuoteJsonLaws} {SQ : SmallQuotes}.
Context {DEV : SevGuest} {DL : SevGuestLaws} {EC : EndorsementCrates} {BP : BuildProfile} {HH : HttpHost}.
Context {LS : LauncherSocket} {TJ : TokenRequestJson} {JW : JwtCrate} {TL : TokenServiceLaws}.
Context {B64 : Base64Crate} {B64L : Base64Laws} {UC : UrlCrate} {JC : JsonCrate} {KJ : KeyJson}.
Context {W : World}.

Lemma backend_pair_reports a v : backend_pair a v -> Reports a v.
Proof.
  intros [| |g w] rd ev m rd' Hl Ha Hv.
  - exact (mock_reports rd ev m rd' Hl Ha Hv).
  - exact (sev_reports _ rd ev m rd' Hl Ha Hv).
  - exact (gcp_reports _ _ rd ev m rd' Hl Ha Hv).
Qed.
End any_reports.
