(* ===== verification/Sdk.v ===== *)
(** * The client library

    [crates/relay-sdk/src/verify.rs], [client.rs] and [types.rs]: verification
    policies, the builder that turns a policy into the TLS verifier of a client, and
    the chat call. The policy decision is a function of the cargo features. *)

From S2P Require Import Prelude RustStr Extern Attest MockTee AttestedTls GcpPolicy GcpCs Backends.

Local Open Scope N_scope.

(** ** Policies *)

Inductive VerificationPolicy :=
  | Strict (measurement : bytes)
  | TrustOnFirstUse
  | Audit
  | GcpConfidentialSpace (audience image_digest : bytes)
  | MockDev.

Definition policy_measurement (p : VerificationPolicy) : option bytes :=
  match p with Strict m => Some m | _ => None end.

(** ** Builder *)

(** The verifier of a client: one of the library's or one the user passed in. *)
Inductive ClientVerifier (U : Type) :=
  | Builtin (v : AnyVerifier)
  | Explicit (u : U).
Arguments Builtin {U}. Arguments Explicit {U}.

#[global] Instance ClientVerifier_verify {U} {VA : Verifier AnyVerifier} {VU : Verifier U}
  : Verifier (ClientVerifier U) := fun v ev m =>
  match v with Builtin b => verify b ev m | Explicit u => verify u ev m end.

Record TrustedRelayClientBuilder (U : Type) := {
  b_endpoint : bytes;
  b_api_key : option bytes;
  b_policy : VerificationPolicy;
  b_explicit_verifier : option U;
  b_expected_config_hash : option bytes;
}.
Arguments b_endpoint {U}. Arguments b_api_key {U}. Arguments b_policy {U}.
Arguments b_explicit_verifier {U}. Arguments b_expected_config_hash {U}.

Record TrustedRelayClient (U : Type) := {
  endpoint : bytes;
  api_key : option bytes;
  tls_config : AttestedCertVerifier (ClientVerifier U);
}.
Arguments endpoint {U}. Arguments api_key {U}. Arguments tls_config {U}.

Inductive BuildError :=
  | GcpFeatureMissing
  | GcpPolicyInvalid (e : AttestError)
  | MockFeatureMissing
  | TofuNotImplemented
  | NoVerifier
  | ConfigHashRequired
  | EndpointEmpty
  | HttpClientFailed.

Section builder.
Context {UC : UrlCrate} {HH : HttpHost} {U : Type}.

Definition builder : TrustedRelayClientBuilder U := {|
  b_endpoint := []; b_api_key := None; b_policy := Audit; b_explicit_verifier := None;
  b_expected_config_hash := None |}.
Definition with_endpoint (e : bytes) (b : TrustedRelayClientBuilder U) := {|
  b_endpoint := e; b_api_key := b_api_key b; b_policy := b_policy b;
  b_explicit_verifier := b_explicit_verifier b;
  b_expected_config_hash := b_expected_config_hash b |}.
Definition with_api_key (k : bytes) (b : TrustedRelayClientBuilder U) := {|
  b_endpoint := b_endpoint b; b_api_key := Some k; b_policy := b_policy b;
  b_explicit_verifier := b_explicit_verifier b;
  b_expected_config_hash := b_expected_config_hash b |}.
Definition verification (p : VerificationPolicy) (b : TrustedRelayClientBuilder U) := {|
  b_endpoint := b_endpoint b; b_api_key := b_api_key b; b_policy := p;
  b_explicit_verifier := b_explicit_verifier b;
  b_expected_config_hash := b_expected_config_hash b |}.
Definition with_verifier (v : U) (b : TrustedRelayClientBuilder U) := {|
  b_endpoint := b_endpoint b; b_api_key := b_api_key b; b_policy := b_policy b;
  b_explicit_verifier := Some v; b_expected_config_hash := b_expected_config_hash b |}.
Definition with_config_hash (h : bytes) (b : TrustedRelayClientBuilder U) := {|
  b_endpoint := b_endpoint b; b_api_key := b_api_key b; b_policy := b_policy b;
  b_explicit_verifier := b_explicit_verifier b; b_expected_config_hash := Some h |}.

(** The [match] at the head of [build]. *)
Definition choose_verifier (f : ClientFeatures) (b : TrustedRelayClientBuilder U)
  : outcome BuildError (ClientVerifier U) :=
  match b_policy b with
  | GcpConfidentialSpace audience image_digest =>
      match b_explicit_verifier b with
      | Some v => Ok (Explicit v)
      | None =>
          if gcp_confidential_space f then
            (fun g => Builtin (AnyGcpVerifier g)) <$>
              map_err GcpPolicyInvalid (verifier_new (strict_for_image audience image_digest))
          else Err GcpFeatureMissing
      end
  | MockDev => if mock f then Ok (Builtin AnyMockVerifier) else Err MockFeatureMissing
  | TrustOnFirstUse => Err TofuNotImplemented
  | Strict _ | Audit =>
      match b_explicit_verifier b with
      | Some v => Ok (Explicit v)
      | None => if sev_snp f then Ok (Builtin AnySevVerifier) else Err NoVerifier
      end
  end.

Definition needs_config_hash (p : VerificationPolicy) : bool :=
  match p with Strict _ | GcpConfidentialSpace _ _ => true | _ => false end.

Definition build (f : ClientFeatures) (b : TrustedRelayClientBuilder U)
  : outcome BuildError (TrustedRelayClient U) :=
  verifier ← choose_verifier f b;
  _ ← ensure (negb (needs_config_hash (b_policy b)
              && negb (bool_decide (is_Some (b_expected_config_hash b))))) ConfigHashRequired;
  _ ← ensure (negb (bool_decide (trim (b_endpoint b) = []))) EndpointEmpty;
  let config := attested_client_config verifier (policy_measurement (b_policy b))
                  (b_expected_config_hash b) in
  _ ← ensure http_client_builds HttpClientFailed;
  Ok {| endpoint := b_endpoint b; api_key := b_api_key b; tls_config := config |}.
End builder.

(** ** Chat messages ([types.rs]) *)

Record Message := { role : bytes; content : bytes; }.
(** A floating-point number is the text [serde_json] writes for it. *)
Record ChatRequest := {
  rq_model : bytes;
  messages : list Message;
  stream_flag : option bool;
  temperature : option bytes;
  max_tokens : option N;
  extra : list (bytes * Value);
}.
Record Choice := {
  choice_index : N;
  choice_message : Message;
  finish_reason : option bytes;
}.
Record Usage := { prompt_tokens : N; completion_tokens : N; total_tokens : N; }.
Record ChatResponse := {
  id : bytes;
  object : bytes;
  created : N;
  rs_model : bytes;
  choices : list Choice;
  usage : option Usage;
}.

Definition ChatRequest_simple (model content : bytes) : ChatRequest := {|
  rq_model := model; messages := [{| role := lit "user"; content := content |}];
  stream_flag := None; temperature := None; max_tokens := None; extra := [] |}.

(** The code [serde] derives for the messages. *)
Class ChatJson := {
  chat_request_to_vec : ChatRequest -> bytes;
  chat_response_from_slice : bytes -> option ChatResponse;
}.

(** ** The chat call *)

Record ClientRequest := {
  cr_url : bytes;
  cr_authorization : option bytes;
  cr_body : bytes;
}.

Inductive ChatError :=
  | RequestInvalid
  | SendError
  | UpstreamStatus (status : N) (body : bytes)
  | ResponseInvalid.

Section chat.
Context {CJ : ChatJson} {HV : HeaderValueCrate} {U : Type}.

Definition is_slash (b : byte) : bool := bool_decide (b = "/"%byte).

(** [bearer_auth] and the URL are checked when the request is built. *)
Definition chat_request (c : TrustedRelayClient U) (r : ChatRequest) : outcome ChatError ClientRequest :=
  let url := trim_end_matches is_slash (endpoint c) ++ lit "/v1/chat/completions" in
  auth ← match api_key c with
         | Some key =>
             let v := lit "Bearer " ++ key in
             _ ← ensure (header_value_valid v) RequestInvalid; Ok (Some v)
         | None => Ok None
         end;
  Ok {| cr_url := url; cr_authorization := auth; cr_body := chat_request_to_vec r |}.

Definition chat_completions (c : TrustedRelayClient U) (r : ChatRequest)
  (send : ClientRequest -> HttpReply) : outcome ChatError ChatResponse :=
  req ← chat_request c r;
  match send req with
  | SendFailed => Err SendError
  | HttpResponse status body =>
      if negb (is_success status) then Err (UpstreamStatus status (default [] body))
      else
        b ← ok_or body ResponseInvalid;
        ok_or (chat_response_from_slice b) ResponseInvalid
  end.
End chat.

(** ** Facts *)

(** What a policy promises about the verifier of a client. *)
Definition policy_enforced {U} {UC : UrlCrate} (f : ClientFeatures) (b : TrustedRelayClientBuilder U)
  (c : AttestedCertVerifier (ClientVerifier U)) : Prop :=
  expected_config_hash c = b_expected_config_hash b /\
  match b_policy b with
  | MockDev => mock f = true /\ verifier c = Builtin AnyMockVerifier /\ expected_measurement c = None
  | TrustOnFirstUse => False
  | Strict m =>
      expected_measurement c = Some m /\ is_Some (b_expected_config_hash b) /\
      match b_explicit_verifier b with
      | Some u => verifier c = Explicit u
      | None => sev_snp f = true /\ verifier c = Builtin AnySevVerifier
      end
  | Audit =>
      expected_measurement c = None /\
      match b_explicit_verifier b with
      | Some u => verifier c = Explicit u
      | None => sev_snp f = true /\ verifier c = Builtin AnySevVerifier
      end
  | GcpConfidentialSpace audience image_digest =>
      expected_measurement c = None /\ is_Some (b_expected_config_hash b) /\
      match b_explicit_verifier b with
      | Some u => verifier c = Explicit u
      | None => gcp_confidential_space f = true /\
          exists g, verifier c = Builtin (AnyGcpVerifier g) /\
            enforce_workload_identity g = true /\
            policy g = strict_for_image audience image_digest /\ policy_validate (policy g) = Ok tt
      end
  end.

(** Whether there is a verifier for the policy of a builder: one the user passed in, whatever
    it is, or the library's own, if the feature is compiled in. [MockDev] takes the
    library's in any case. *)
Definition verifier_available {U} {UC : UrlCrate} (f : ClientFeatures)
  (b : TrustedRelayClientBuilder U) : Prop :=
  match b_policy b with
  | GcpConfidentialSpace audience image_digest =>
      is_Some (b_explicit_verifier b) \/
      (gcp_confidential_space f = true /\
       policy_validate (strict_for_image audience image_digest) = Ok tt)
  | MockDev => mock f = true
  | TrustOnFirstUse => False
  | Strict _ | Audit => is_Some (b_explicit_verifier b) \/ sev_snp f = true
  end.

Lemma choose_verifier_available {U} {UC : UrlCrate} (f : ClientFeatures)
  (b : TrustedRelayClientBuilder U) : is_ok (choose_verifier f b) = true <-> verifier_available f b.
Proof.
  assert (HN : forall P : Prop, is_Some (None : option U) \/ P <-> P)
    by (intros P; split; [intros [[? ?]|?]; done|by right]).
  assert (HS : forall (u : U) (P : Prop), is_Some (Some u) \/ P <-> True) by (intros; split; eauto).
  unfold choose_verifier, verifier_available.
  destruct (b_policy b), (b_explicit_verifier b); rewrite ?HN, ?HS; try done;
    try (by destruct (sev_snp f)); try (by destruct (mock f)).
  destruct (gcp_confidential_space f); [|by split; [|intros [? _]]].
  unfold verifier_new. destruct (policy_validate _) as [[]|e|]; simp_out; by split; [|intros [_ ?]].
Qed.

(** The scheme of the endpoint is not examined: a strict client for an [http] endpoint is
    built, and its requests go out without a TLS handshake to verify. *)
Lemma plain_http_client {UC : UrlCrate} {HH : HttpHost} {CJ : ChatJson} {HV : HeaderValueCrate} {U : Type}
  (f : ClientFeatures) (m h : bytes) (r : ChatRequest) :
  sev_snp f = true -> http_client_builds = true ->
  exists c : TrustedRelayClient U,
    build f (with_config_hash h (verification (Strict m) (with_endpoint (lit "http://relay") builder)))
      = Ok c /\
    chat_request c r = Ok {| cr_url := lit "http://relay/v1/chat/completions";
                             cr_authorization := None; cr_body := chat_request_to_vec r |}.
Proof.
  intros Hf Hb. unfold build, choose_verifier. cbn [b_policy b_explicit_verifier builder verification
    with_config_hash with_endpoint b_expected_config_hash b_endpoint needs_config_hash andb].
  rewrite Hf, Hb. eexists. split; [vm_compute; reflexivity|]. reflexivity.
Qed.

(** ** Properties *)

(** C17: The client library refuses what it cannot enforce: a client is built exactly when the
    endpoint is not blank, a configuration hash is pinned where the policy demands one,
    the HTTP client builds, and there is a verifier: for a strict or audit policy one the
    caller passed in or the SEV-SNP one, for a Confidential Space policy one the caller
    passed in or the library's own under a valid policy, for [MockDev] the mock one, for
    trust on first use none. The TLS verifier of the client then uses that verifier with
    the measurement and the hash of the policy in every attested handshake (an [http]
    endpoint has none). The library picks the mock verifier of its own accord for
    [MockDev] only; a caller may pass any verifier with the other policies. *)
Theorem build_enforces_policy {UC : UrlCrate} {HH : HttpHost} {U : Type} (f : ClientFeatures)
  (b : TrustedRelayClientBuilder U) :
  build f b <> Panic /\
  (forall c, build f b = Ok c ->
     endpoint c = b_endpoint b /\ trim (endpoint c) <> [] /\ policy_enforced f b (tls_config c) /\
     (verifier (tls_config c) = Builtin AnyMockVerifier -> b_policy b = MockDev)) /\
  (is_ok (build f b) = true <->
     trim (b_endpoint b) <> [] /\ http_client_builds = true /\
     (needs_config_hash (b_policy b) = true -> is_Some (b_expected_config_hash b)) /\
     verifier_available f b).
Proof.
  rewrite <-choose_verifier_available. assert (Hok : forall c, build f b = Ok c ->
    trim (b_endpoint b) <> [] /\ http_client_builds = true /\
    (needs_config_hash (b_policy b) = true -> is_Some (b_expected_config_hash b)) /\
    choose_verifier f b = Ok (verifier (tls_config c)) /\ endpoint c = b_endpoint b /\
    expected_config_hash (tls_config c) = b_expected_config_hash b /\
    expected_measurement (tls_config c) = policy_measurement (b_policy b)).
  { intros c H. unfold build in H. inv_outcome. split_bool. split_and!; try done. intros Hn.
    rewrite Hn in *. cbn [andb] in *. by split_bool. }
  split_and!.
  - unfold build, choose_verifier. apply bind_no_panic; [|intros; no_panic].
    destruct (b_policy b), (b_explicit_verifier b); try done; repeat case_match; try done.
    pose proof (verifier_new_no_panic (strict_for_image audience image_digest)).
    by destruct (verifier_new _).
  - intros c (He & _ & Hh & Hv & Hend & Hc & Hm)%Hok. rewrite Hend. split_and!; [done..| |].
    + unfold policy_enforced. split; [done|]. revert Hv Hm Hh. unfold choose_verifier.
      destruct (b_policy b), (b_explicit_verifier b); cbn [policy_measurement needs_config_hash];
        intros Hv Hm Hh; repeat case_match; inv_outcome; split_and!; auto.
      match goal with H : verifier_new _ = Ok ?g |- _ =>
        apply verifier_new_Ok in H as (? & Hp & ?); exists g; by rewrite Hp end.
    + intros Hmock. rewrite Hmock in Hv. revert Hv. unfold choose_verifier.
      destruct (b_policy b), (b_explicit_verifier b); intros Hv; repeat case_match;
        inv_outcome; done.
  - split.
    + intros [c Hc]%is_ok_Ok. apply Hok in Hc as (? & ? & ? & Hv & _). split_and!; try done.
      by rewrite Hv.
    + intros (He & Hh & Hn & [v Hv]%is_ok_Ok). unfold build. rewrite Hv. simp_out.
      assert (Hc : negb (needs_config_hash (b_policy b)
        && negb (bool_decide (is_Some (b_expected_config_hash b)))) = true).
      { destruct (needs_config_hash (b_policy b)); [|done]. rewrite bool_decide_eq_true_2; auto. }
      rewrite Hc. simp_out. rewrite bool_decide_eq_false_2 by done. simp_out. by rewrite Hh.
Qed.
