(* ===== verification/LocalProxy.v ===== *)
(** * The local proxy

    [tools/local-proxy/src/lib.rs] and [main.rs]: the proxy on the user's machine
    connects to the relay, directly or through the gateway, verifies its attestation
    in the TLS handshake, and forwards requests without the local credential. The HTTP
    client's connection pool is a parameter. *)

From S2P Require Import Prelude RustStr NetAddr Extern Attest MockTee AttestedTls GcpPolicy GcpCs Backends.
From S2P Require Import BufRead Gateway.

Local Open Scope N_scope.

Inductive ProxyError :=
  | InvalidEndpoint
  | EndpointNotHttps
  | MissingHost
  | MissingPort
  | GatewayConnect
  | TokenRequired
  | Io (e : IoError)
  | ConnectRefused (status : bytes)
  | GatewayClosed
  | RelayConnect
  | InvalidServerName
  | HandshakeFailed
  | AttestationRefused (e : TlsError)
  | ListenFailed.

Definition relay_authority (url : Url) : outcome ProxyError bytes :=
  host ← ok_or (u_host_str url) MissingHost;
  port ← ok_or (u_port_or_known_default url) MissingPort;
  Ok (host ++ lit ":" ++ dec port).

(** ** The transport *)

(** The TCP connections of this machine: which addresses accept one, and what a
    gateway sends back for a request, if the request can be written. *)
Class LocalNet (R : Type) := {
  tcp_connects : bytes -> bool;
  gateway_replies : bytes -> option R;
}.

Inductive Transport :=
  | Direct (addr : bytes)
  | ViaGateway (gateway addr rest : bytes).

Definition connect_request (relay_authority token : bytes) : bytes :=
  lit "CONNECT " ++ relay_authority ++ lit " HTTP/1.1" ++ crlf
  ++ lit "Host: " ++ relay_authority ++ crlf
  ++ lit "Authorization: Bearer " ++ token ++ crlf ++ crlf.

(** The rest of the response head. Every round consumes a line. *)
Fixpoint skip_headers {R : Type} {LR : LineReader R} (fuel : nat) (reader : R) : outcome ProxyError R :=
  match fuel with
  | O => Panic
  | S fuel' =>
      '(line, reader') ← map_err Io (read_line reader);
      if bool_decide (line = []) then Err GatewayClosed
      else if bool_decide (line = crlf) || bool_decide (line = [byte_lf]) then Ok reader'
      else skip_headers fuel' reader'
  end.

Section transport.
Context {R : Type} {LR : LineReader R} {LN : LocalNet R}.

Definition connect_transport (relay_base : Url) (gateway_addr gateway_token : option bytes)
  : outcome ProxyError Transport :=
  match gateway_addr with
  | Some gateway_addr =>
      _ ← ensure (tcp_connects gateway_addr) GatewayConnect;
      relay_authority ← relay_authority relay_base;
      token ← ok_or gateway_token TokenRequired;
      stream ← ok_or (gateway_replies (connect_request relay_authority token)) (Io WriteFailed);
      '(status, reader) ← map_err Io (read_line stream);
      _ ← ensure (contains (lit " 200 ") status) (ConnectRefused (trim status));
      reader' ← skip_headers (S (length (unread reader))) reader;
      Ok (ViaGateway gateway_addr relay_authority (into_inner reader'))
  | None =>
      addr ← relay_authority relay_base;
      _ ← ensure (tcp_connects addr) RelayConnect;
      Ok (Direct addr)
  end.
End transport.

(** ** The attested connector *)

(** [ServerName::try_from], and the leaf certificate a handshake over a transport
    presents when everything but the certificate check succeeds. *)
Class TlsClient := {
  server_name_valid : bytes -> bool;
  handshake_leaf : Transport -> bytes -> option bytes;
}.

Record AttestedConnector (V : Type) := {
  relay_base : Url;
  gateway_addr : option bytes;
  gateway_token : option bytes;
  tls_config : AttestedCertVerifier V;
}.
Arguments relay_base {V}. Arguments gateway_addr {V}. Arguments gateway_token {V}.
Arguments tls_config {V}.

Section connector.
Context {R : Type} {LR : LineReader R} {LN : LocalNet R}.
Context {TC : TlsClient} {SC : Sha2Crate} {HX : HexCrate} {XC : X509Crate}.
Context {V : Type} {VF : Verifier V}.

(** [call]: the transport and the certificate of the connection. *)
Definition connector_call (c : AttestedConnector V) : outcome ProxyError (Transport * bytes) :=
  tcp ← connect_transport (relay_base c) (gateway_addr c) (gateway_token c);
  host ← ok_or (u_host_str (relay_base c)) MissingHost;
  _ ← ensure (server_name_valid host) InvalidServerName;
  leaf ← ok_or (handshake_leaf tcp host) HandshakeFailed;
  _ ← map_err AttestationRefused (verify_server_cert (tls_config c) leaf);
  Ok (tcp, leaf).
End connector.

(** ** Requests *)

(** The parts of an [http::Request] the handler may touch or that reach the relay. *)
Record LocalRequest (M : Type) := {
  lr_method : bytes;
  lr_path_and_query : option bytes;
  lr_headers : M;
  lr_body : bytes;
}.
Arguments lr_method {M}. Arguments lr_path_and_query {M}. Arguments lr_headers {M}. Arguments lr_body {M}.

Record RelayRequest (M : Type) := {
  rr_method : bytes;
  rr_uri : bytes;
  rr_headers : M;
  rr_body : bytes;
}.
Arguments rr_method {M}. Arguments rr_uri {M}. Arguments rr_headers {M}. Arguments rr_body {M}.

Record LocalProxyError := {
  status : N;
  message : bytes;
}.
Definition internal (m : bytes) : LocalProxyError := {| status := 500; message := m |}.
Definition bad_gateway (m : bytes) : LocalProxyError := {| status := 502; message := m |}.

(** [http::Uri]'s parser. *)
Class UriCrate := uri_valid : bytes -> bool.

Section request.
Context {UR : UriCrate} {M : Type} {HM : HeaderMapCrate M}.

Definition sanitize_local_headers (hs : M) : M :=
  hm_remove (lit "host") (hm_remove (lit "authorization") hs).

Definition relay_request (base : Url) (r : LocalRequest M)
  : outcome LocalProxyError (RelayRequest M) :=
  let path_and_query := default (lit "/") (lr_path_and_query r) in
  authority ← map_err (fun _ => internal (lit "invalid relay endpoint")) (relay_authority base);
  let uri := u_scheme base ++ lit "://" ++ authority ++ path_and_query in
  _ ← ensure (uri_valid uri) (internal (lit "failed to build relay URI"));
  Ok {| rr_method := lr_method r; rr_uri := uri;
        rr_headers := sanitize_local_headers (lr_headers r); rr_body := lr_body r |}.

(** [client] is the pooled HTTP client: its error text or the relay's response. *)
Definition proxy_request {R : Type} (base : Url) (client : RelayRequest M -> bytes + R)
  (r : LocalRequest M) : outcome LocalProxyError R :=
  req ← relay_request base r;
  match client req with
  | inl e => Err (bad_gateway (lit "relay request failed: " ++ e))
  | inr resp => Ok resp
  end.
End request.

(** ** Error responses *)

Definition redacted : bytes := lit "<redacted>".
Definition is_token_char (b : byte) : bool :=
  is_ascii_alphanumeric b || bool_decide (b = "-"%byte) || bool_decide (b = "_"%byte).

Definition redact_sensitive_part (part : bytes) : bytes :=
  let lower := to_ascii_lowercase part in
  if starts_with (lit "authorization") lower || starts_with (lit "bearer") lower
     || contains (lit "token") lower || contains (lit "secret") lower
     || contains (lit "api_key") lower
  then redacted
  else match find_at (lit "sk-") part with
       | Some (prefix, rest) =>
           if 8 <=? len (take_while is_token_char rest)
           then prefix ++ redacted ++ drop_while is_token_char rest
           else part
       | None => part
       end.
Definition redact_sensitive (raw : bytes) : bytes :=
  join (lit " ") (map redact_sensitive_part (split_whitespace raw)).

Definition quote : byte := "034"%byte.
Definition unquote (s : bytes) : bytes := map (fun b => if decide (b = quote) then "'"%byte else b) s.
Definition requote (s : bytes) : bytes := map (fun b => if decide (b = "'"%byte) then quote else b) s.

Definition error_response (e : LocalProxyError) : N * bytes :=
  (status e,
   requote (lit "{'error':{'message':'") ++ unquote (redact_sensitive (message e))
   ++ requote (lit "','type':'local_proxy_error'}}")).

(** ** Startup *)

Inductive AttestationBackend := SevSnpBackend | GcpBackend | MockBackend.

Record LocalCli := {
  lc_listen : bytes;
  lc_relay_endpoint : bytes;
  lc_gateway_addr : option bytes;
  lc_gateway_token : option bytes;
  lc_backend : AttestationBackend;
  lc_expected_measurement : bytes;
  lc_expected_config_hash : bytes;
  lc_gcp : GcpArgs;
  lc_allow_audit : bool;
}.

Inductive MainError :=
  | ListenInvalid
  | FeatureMissing (b : AttestationBackend)
  | PolicyInvalid (e : AttestError)
  | MeasurementRequired (b : AttestationBackend)
  | MeasurementInvalid
  | HashNotHex
  | HashLength (got : N).

Record RunConfig := {
  rc_listen : SocketAddr;
  relay_endpoint : bytes;
  rc_gateway_addr : option bytes;
  rc_gateway_token : option bytes;
  rc_verifier : AnyVerifier;
  rc_measurement : option bytes;
  rc_config_hash : option bytes;
}.

Section main.
Context {UC : UrlCrate} {HX : HexCrate}.

Definition verifier_for_backend (f : ClientFeatures) (cli : LocalCli)
  : outcome MainError AnyVerifier :=
  match lc_backend cli with
  | SevSnpBackend => if sev_snp f then Ok AnySevVerifier else Err (FeatureMissing SevSnpBackend)
  | GcpBackend =>
      if gcp_confidential_space f
      then map_err PolicyInvalid (gcp_backend (lc_allow_audit cli) (lc_gcp cli))
      else Err (FeatureMissing GcpBackend)
  | MockBackend => if mock f then Ok AnyMockVerifier else Err (FeatureMissing MockBackend)
  end.

Definition parse_hex_vec (raw : bytes) : option bytes := hex_decode (strip_0x raw).
Definition parse_hash32 (raw : bytes) : outcome MainError bytes :=
  b ← ok_or (hex_decode (strip_0x raw)) HashNotHex;
  _ ← ensure (len b =? 32) (HashLength (len b));
  Ok b.

(** [main] up to [run]. *)
Definition main_config (f : ClientFeatures) (cli : LocalCli) : outcome MainError RunConfig :=
  listen ← ok_or (parse_socket_addr (lc_listen cli)) ListenInvalid;
  verifier ← verifier_for_backend f cli;
  let empty_measurement := bool_decide (lc_expected_measurement cli = []) in
  expected_measurement ←
    match lc_backend cli with
    | GcpBackend => Ok None
    | b =>
        if lc_allow_audit cli && empty_measurement then Ok None
        else if empty_measurement then Err (MeasurementRequired b)
        else Some <$> ok_or (parse_hex_vec (lc_expected_measurement cli)) MeasurementInvalid
    end;
  expected_config_hash ←
    (if lc_allow_audit cli then
       if bool_decide (lc_expected_config_hash cli = []) then Ok None
       else Some <$> parse_hash32 (lc_expected_config_hash cli)
     else Some <$> parse_hash32 (lc_expected_config_hash cli));
  Ok {| rc_listen := listen; relay_endpoint := lc_relay_endpoint cli; rc_gateway_addr := lc_gateway_addr cli;
        rc_gateway_token := lc_gateway_token cli; rc_verifier := verifier;
        rc_measurement := expected_measurement; rc_config_hash := expected_config_hash |}.

(** [run] up to the accept loop: the listener is the last thing that is opened. *)
Definition run {TB : TcpBind} (c : RunConfig) : outcome ProxyError (AttestedConnector AnyVerifier) :=
  base ← ok_or (url_parse (relay_endpoint c)) InvalidEndpoint;
  _ ← ensure (bool_decide (u_scheme base = lit "https")) EndpointNotHttps;
  _ ← ensure (tcp_bind [] (rc_listen c)) ListenFailed;
  Ok {| relay_base := base; gateway_addr := rc_gateway_addr c; gateway_token := rc_gateway_token c;
        tls_config := attested_client_config (rc_verifier c) (rc_measurement c) (rc_config_hash c) |}.
End main.

(** ** Facts: the request head *)

Lemma chomp_crlf l : Forall (fun b => is_eol b = false) l -> chomp (l ++ crlf) = l.
Proof.
  intros Hl. unfold chomp, trim_end_matches. rewrite rev_app_distr. cbn [rev app crlf drop_while].
  change (is_eol byte_lf) with true. change (is_eol byte_cr) with true. cbn iota.
  assert (Hr : Forall (fun b => is_eol b = false) (rev l)) by by apply List.Forall_rev.
  rewrite <-(rev_involutive l) at 2. f_equal. destruct Hr as [|b r Hb _]; [done|].
  cbn [drop_while]. by rewrite Hb.
Qed.

Lemma next_line_crlf l rest : byte_lf ∉ l -> next_line (l ++ crlf ++ rest) = (l ++ crlf, rest).
Proof.
  intros H. replace (l ++ crlf ++ rest) with ((l ++ [byte_cr]) ++ byte_lf :: rest)
    by (by rewrite <-app_assoc).
  rewrite next_line_lf by (rewrite elem_of_app, list_elem_of_singleton; by intros [?|?]).
  by rewrite <-app_assoc.
Qed.

(** Visible text with spaces: no line ends in it. *)
Definition line_byte (b : byte) : bool := word_byte b || bool_decide (b = " "%byte).

Lemma line_byte_eol b : line_byte b = true -> is_eol b = false /\ is_ascii b = true.
Proof. by destruct b; vm_compute. Qed.

Lemma line_text l : Forall (fun b => line_byte b = true) l ->
  (byte_lf ∉ l) /\ chomp (l ++ crlf) = l /\ utf8_valid (l ++ crlf) = true.
Proof.
  intros H. assert (He : Forall (fun b => is_eol b = false) l).
  { eapply Forall_impl; [exact H|]. intros b ?%line_byte_eol. tauto. }
  split_and!; [|by apply chomp_crlf|].
  - intros Hin. rewrite Forall_forall in He. by apply He in Hin.
  - apply utf8_ascii, Forall_app. split; [|by repeat constructor].
    eapply Forall_impl; [exact H|]. intros b ?%line_byte_eol. tauto.
Qed.

Lemma head_text l ls s rest : Forall (fun b => line_byte b = true) l -> l <> [] ->
  head_block s ls rest -> head_block (l ++ crlf ++ s) (l :: ls) rest.
Proof.
  intros Hl Hne Hh. destruct (line_text l Hl) as (N & C & U). rewrite <-C at 2.
  eapply head_line; [by apply next_line_crlf|done|by rewrite C|done].
Qed.

Lemma head_blank rest : head_block (crlf ++ rest) [] rest.
Proof. by apply (head_end _ crlf). Qed.

Lemma word_line w : Forall (fun b => word_byte b = true) w -> Forall (fun b => line_byte b = true) w.
Proof. intros H. eapply Forall_impl; [exact H|]. intros b Hb. unfold line_byte. by rewrite Hb. Qed.

Section request_head.
Context (addr token : bytes).
Hypothesis Haddr : Forall (fun b => word_byte b = true) addr.
Hypothesis Htoken : Forall (fun b => word_byte b = true) token.
Hypothesis Hnonempty : token <> [].

Definition first_line : bytes := lit "CONNECT " ++ addr ++ lit " HTTP/1.1".
Definition host_line : bytes := lit "Host: " ++ addr.
Definition auth_line : bytes := lit "Authorization: Bearer " ++ token.

Lemma request_lines :
  connect_request addr token = first_line ++ crlf ++ host_line ++ crlf ++ auth_line ++ crlf ++ crlf.
Proof. unfold connect_request, first_line, host_line, auth_line. by rewrite <-!app_assoc. Qed.

Lemma lines_ok : Forall (fun b => line_byte b = true) first_line /\
  Forall (fun b => line_byte b = true) host_line /\ Forall (fun b => line_byte b = true) auth_line.
Proof.
  unfold first_line, host_line, auth_line. rewrite !Forall_app.
  split_and!; try (by apply word_line); by repeat constructor.
Qed.

Lemma flush_rev w ws : w <> [] -> flush (rev w) ws = w :: ws.
Proof.
  intros H. unfold flush. destruct (rev w) as [|b r] eqn:E.
  - exfalso. apply H. by rewrite <-(rev_involutive w), E.
  - by rewrite <-E, rev_involutive.
Qed.

Lemma first_line_words : addr <> [] -> split_whitespace first_line = [lit "CONNECT"; addr; lit "HTTP/1.1"].
Proof.
  intros Hne. unfold split_whitespace, first_line.
  change (lit "CONNECT ") with (lit "CONNECT" ++ [" "%byte]). rewrite <-app_assoc. cbn [app].
  rewrite split_ws_word by (by repeat constructor). rewrite split_ws_space.
  change (lit " HTTP/1.1") with (" "%byte :: lit "HTTP/1.1").
  rewrite split_ws_word by done. rewrite split_ws_space, !app_nil_r, !flush_rev by done.
  by vm_compute.
Qed.

Lemma auth_line_token expected authorized :
  header_line expected authorized auth_line = bool_decide (token = expected).
Proof.
  unfold header_line.
  assert (Hs : split_once ":"%byte auth_line = Some (lit "Authorization", lit " Bearer " ++ token)).
  { apply split_once_Some. split; [done|].
    apply (bool_decide_unpack (":"%byte ∉ lit "Authorization")). by vm_compute. }
  rewrite Hs.
  replace (eq_ignore_ascii_case (lit "Authorization") (lit "authorization")) with true by done.
  assert (Ht : trim (lit " Bearer " ++ token) = lit "Bearer " ++ token).
  { change (trim (lit "Bearer " ++ token) = lit "Bearer " ++ token).
    destruct token as [|b t] using rev_ind; [done|]. apply Forall_app in Htoken as [Ht Hb].
    rewrite Forall_singleton in Hb.
    apply (trim_visible "B"%byte (lit "earer " ++ t)); [|done|done].
    change (Forall (fun b => is_ascii b = true) (lit "Bearer " ++ t)).
    apply Forall_app. split; [by repeat constructor|by apply word_ascii]. }
  rewrite Ht. apply bool_decide_ext. split; [|by intros ->]. by intros H%app_inv_head.
Qed.

(** What the gateway answers a request of the local proxy. *)
Lemma gateway_answers {NET : GatewayNet} {R : Type} {LR : LineReader R} {LL : LineReaderLaws R}
  (client : R) relay_addr expected :
  addr <> [] -> broken client = false -> unread client = connect_request addr token ->
  handle_connection client relay_addr expected =
  if negb (bool_decide (token = expected))
  then reject (lit "403 Forbidden") (lit "invalid tunnel token")
  else if negb (bool_decide (addr = relay_addr))
  then reject (lit "403 Forbidden") (lit "relay target not allowed")
  else _ ← ensure (relay_connects relay_addr) ConnectFailed;
       _ ← write_all established; Ok (Tunnel established [] []).
Proof.
  intros Hne Hb Hs. rewrite request_lines in Hs. destruct lines_ok as (L1 & L2 & L3).
  destruct (line_text _ L1) as (N1 & C1 & U1). destruct (line_text _ L2) as (N2 & C2 & U2).
  destruct (line_text _ L3) as (N3 & C3 & U3).
  assert (Hn1 : next_line (unread client) =
    (first_line ++ crlf, host_line ++ crlf ++ auth_line ++ crlf ++ crlf))
    by (rewrite Hs; by apply next_line_crlf).
  destruct (read_line_total client Hb) as (r & Hr & Hs1 & Hb1); [by rewrite Hn1|].
  rewrite Hn1 in Hr, Hs1. cbn [fst snd] in *.
  assert (Hh : head_block (unread r) [host_line; auth_line] []).
  { rewrite Hs1. apply head_text; [done..|]. apply head_text; [done..|]. apply (head_blank []). }
  destruct (header_loop_complete expected (S (length (unread r))) false r _ _ Hb1 Hh)
    as (r' & Hl & Hs' & _); [lia|].
  rewrite unread_parts in Hs'. apply app_nil in Hs' as [Hbuf Hinner].
  unfold handle_connection. rewrite Hr. simp_out.
  rewrite bool_decide_eq_false_2 by (by unfold first_line). cbv zeta.
  rewrite C1, first_line_words by done. cbn [lookup list_lookup default].
  change (id (lit "CONNECT")) with (lit "CONNECT"). change (id addr) with addr.
  rewrite bool_decide_eq_true_2 by done. cbn [negb]. rewrite Hl. simp_out. cbn [fold_left].
  rewrite auth_line_token. destruct (negb (bool_decide (token = expected))); [done|].
  destruct (negb (bool_decide (addr = relay_addr))); [done|].
  destruct (relay_connects relay_addr); [|done]. simp_out.
  destruct (write_all established) as [u|e|]; [|done..]. simp_out.
  by rewrite Hbuf, Hinner.
Qed.
End request_head.

(** ** Facts: the response head *)

Lemma skip_headers_blank {R : Type} {LR : LineReader R} {LL : LineReaderLaws R} fuel (r : R) : broken r = false -> unread r = crlf ->
  (0 < fuel)%nat -> exists r', skip_headers fuel r = Ok r' /\ into_inner r' = [].
Proof.
  intros Hb Hs Hf. destruct fuel as [|fuel]; [lia|].
  assert (Hn : next_line (unread r) = (crlf, [])) by by rewrite Hs.
  destruct (read_line_total r Hb) as (r1 & Hr & Hs1 & _); [by rewrite Hn|].
  rewrite Hn in Hr, Hs1. cbn [fst snd] in *. exists r1. cbn [skip_headers]. rewrite Hr. simp_out.
  rewrite bool_decide_eq_false_2, (bool_decide_eq_true_2 (crlf = crlf)) by done. cbn [orb].
  split; [done|]. rewrite unread_parts in Hs1. by apply app_nil in Hs1 as [_ ?].
Qed.

(** The rounds of the header loop suffice, so that connecting always ends with a result. *)
Lemma skip_headers_no_panic {R : Type} {LR : LineReader R} {LL : LineReaderLaws R} fuel (r : R) :
  (length (unread r) < fuel)%nat -> skip_headers fuel r <> Panic.
Proof.
  revert r. induction fuel as [|fuel IH]; intros r Hf; [lia|]. cbn [skip_headers].
  apply bind_no_panic; [apply map_err_no_panic, read_line_no_panic|]. intros [line r'] Hl.
  apply map_err_Ok, read_line_Ok in Hl as (Hn & _). case_bool_decide as Hne; [done|].
  destruct (_ || _); [done|]. apply IH. pose proof (next_line_shorter (unread r)) as Hsh.
  rewrite Hn in Hsh. cbn [fst snd] in Hsh. specialize (Hsh Hne). lia.
Qed.

Lemma connect_transport_no_panic {R : Type} {LR : LineReader R} {LL : LineReaderLaws R}
  {LN : LocalNet R} base gw token : connect_transport base gw token <> Panic.
Proof.
  unfold connect_transport, relay_authority. destruct gw as [gw|]; no_panic.
  - apply read_line_no_panic.
  - match goal with |- context [match ?p with pair _ _ => _ end] => destruct p end.
    apply bind_no_panic; [apply ensure_no_panic|]. intros _ _.
    apply bind_no_panic; [apply skip_headers_no_panic; lia|]. done.
Qed.

Section reply.
Context {R : Type} {LR : LineReader R} {LL : LineReaderLaws R} {LN : LocalNet R} (base : Url) (gw addr token : bytes) (reply : R).
Hypothesis Haddr : relay_authority base = Ok addr.
Hypothesis Hgw : tcp_connects gw = true.
Hypothesis Hreply : gateway_replies (connect_request addr token) = Some reply.
Hypothesis Hb : broken reply = false.

(** A reply of which the first line is [status]. *)
Lemma transport_status status rest : next_line (unread reply) = (status, rest) ->
  utf8_valid status = true ->
  exists r, unread r = rest /\ broken r = false /\
  connect_transport base (Some gw) (Some token) =
  (_ ← ensure (contains (lit " 200 ") status) (ConnectRefused (trim status));
   reader' ← skip_headers (S (length (unread r))) r;
   Ok (ViaGateway gw addr (into_inner reader'))).
Proof.
  intros Hn Hu. destruct (read_line_total reply Hb) as (r & Hr & Hs & Hbr); [by rewrite Hn|].
  rewrite Hn in Hr, Hs. cbn [fst snd] in *. exists r. split_and!; [done..|].
  unfold connect_transport. rewrite Hgw, Haddr. simp_out. rewrite Hreply. simp_out.
  by rewrite Hr.
Qed.

Lemma transport_established : unread reply = established ->
  connect_transport base (Some gw) (Some token) = Ok (ViaGateway gw addr []).
Proof.
  intros Hs. assert (Hn : next_line (unread reply) =
    (lit "HTTP/1.1 200 Connection Established" ++ crlf, crlf)) by (rewrite Hs; by vm_compute).
  destruct (transport_status _ _ Hn) as (r & Hsr & Hbr & ->); [by vm_compute|].
  destruct (skip_headers_blank (S (length (unread r))) r) as (r' & Hk & Hu); [done..|lia|].
  replace (contains _ _) with true by (by vm_compute). simp_out. by rewrite Hk, <-Hu.
Qed.

Lemma transport_refused line rest : next_line (unread reply) = (line, rest) ->
  utf8_valid line = true -> contains (lit " 200 ") line = false ->
  connect_transport base (Some gw) (Some token) = Err (ConnectRefused (trim line)).
Proof.
  intros Hn Hu Hc. destruct (transport_status _ _ Hn Hu) as (r & _ & _ & ->). by rewrite Hc.
Qed.
End reply.

Lemma next_line_reject m :
  next_line (reject_response (lit "403 Forbidden") m) =
  (lit "HTTP/1.1 403 Forbidden" ++ crlf, lit "Content-Length: " ++ dec (len m) ++ crlf
    ++ lit "Connection: close" ++ crlf ++ crlf ++ m).
Proof.
  unfold reject_response. apply (next_line_crlf (lit "HTTP/1.1 403 Forbidden")).
  apply (bool_decide_unpack (byte_lf ∉ lit "HTTP/1.1 403 Forbidden")). by vm_compute.
Qed.

Lemma authority_word base addr : relay_authority base = Ok addr ->
  (forall h, u_host_str base = Some h -> Forall (fun b => word_byte b = true) h) ->
  Forall (fun b => word_byte b = true) addr /\ addr <> [].
Proof.
  unfold relay_authority. intros H Hh. inv_outcome. split; [|by destruct x].
  apply Forall_app. split; [by apply Hh|]. constructor; [done|].
  eapply Forall_impl; [apply dec_digits|]. clear. intros b. by destruct b; vm_compute.
Qed.

(** ** Properties *)

(** What the gateway handler writes to its client before it closes or copies. *)
Definition sent_by (r : outcome IoError Gateway.Connection) : bytes :=
  match r with Ok (Closed w) => w | Ok (Tunnel w _ _) => w | _ => [] end.

(** The peer of the local proxy is a gateway of the repository; the network may cut both
    directions of the conversation into any reads. *)
Definition gateway_peer {NET : GatewayNet} {R : Type} {LR : LineReader R} {LN : LocalNet R} (relay_addr expected : bytes) : Prop :=
  forall req, exists client reply : R,
    unread client = req /\ broken client = false /\
    gateway_replies req = Some reply /\ broken reply = false /\
    unread reply = sent_by (handle_connection client relay_addr expected).

(** C18: The local proxy and the gateway understand each other, for a token of visible
    characters that is not empty (the gateway can be given others, which no client can
    present): through any segmentation of the conversation the tunnel is set up, with
    nothing of it consumed or dropped, when the tokens and the relay addresses agree and
    the relay accepts the gateway's connection, and otherwise the proxy reports the
    gateway's refusal or, for a relay that does not accept, the closed connection. *)
Theorem tunnel_handshake {NET : GatewayNet} {R : Type} {LR : LineReader R} {LL : LineReaderLaws R}
  {LN : LocalNet R} (base : Url)
  (gw addr token relay_addr expected : bytes)
  (Haddr : relay_authority base = Ok addr)
  (Hhost : forall h, u_host_str base = Some h -> Forall (fun b => word_byte b = true) h)
  (Htoken : Forall (fun b => word_byte b = true) token) (Hne : token <> [])
  (Hgw : tcp_connects gw = true) (Hw : forall b, client_write_ok b = true)
  (Hpeer : gateway_peer relay_addr expected) :
  (token = expected -> addr = relay_addr -> relay_connects relay_addr = true ->
     connect_transport base (Some gw) (Some token) = Ok (ViaGateway gw addr [])) /\
  (token <> expected \/ addr <> relay_addr ->
     connect_transport base (Some gw) (Some token)
       = Err (ConnectRefused (lit "HTTP/1.1 403 Forbidden"))) /\
  (token = expected -> addr = relay_addr -> relay_connects relay_addr = false ->
     connect_transport base (Some gw) (Some token) = Err (ConnectRefused [])).
Proof.
  destruct (authority_word base addr Haddr Hhost) as [Hword Hane].
  destruct (Hpeer (connect_request addr token)) as (client & reply & Hs & Hb & Hreply & Hbr & Hsent).
  rewrite (gateway_answers addr token Hword Htoken Hne client relay_addr expected Hane Hb Hs) in Hsent.
  clear Hpeer. unfold reject, write_all in Hsent.
  rewrite !Hw in Hsent. cbn [ensure mbind outcome_bind] in Hsent.
  split_and!.
  - intros -> -> Hc. rewrite Hc, !bool_decide_eq_true_2 in Hsent by done.
    by eapply transport_established.
  - intros Hdiff. assert (Hm : exists m, unread reply = reject_response (lit "403 Forbidden") m).
    { destruct (decide (token = expected)); [destruct (decide (addr = relay_addr)); [tauto|]|];
        rewrite ?(bool_decide_eq_true_2 (token = expected)),
          ?(bool_decide_eq_false_2 (addr = relay_addr)),
          ?(bool_decide_eq_false_2 (token = expected)) in Hsent by done;
        cbn [negb sent_by] in Hsent; eauto. }
    destruct Hm as [m Hm]. assert (Hn := next_line_reject m). rewrite <-Hm in Hn.
    erewrite transport_refused; [|done..|exact Hn| |]; by vm_compute.
  - intros -> -> Hc. rewrite Hc, !bool_decide_eq_true_2 in Hsent by done.
    cbn [negb sent_by ensure mbind outcome_bind] in Hsent.
    assert (Hn : next_line (unread reply) = ([], [])) by by rewrite Hsent.
    erewrite transport_refused; [|done..|exact Hn| |]; by vm_compute.
Qed.

Lemma relay_request_Ok {UR : UriCrate} {M : Type} {HM : HeaderMapCrate M} {HML : HeaderMapLaws M}
  (base : Url) (r : LocalRequest M) (req : RelayRequest M) : relay_request base r = Ok req ->
  hm_get_all (lit "authorization") (rr_headers req) = [] /\
  hm_get_all (lit "host") (rr_headers req) = [] /\
  (forall k, k <> lit "authorization" -> k <> lit "host" ->
     hm_get_all k (rr_headers req) = hm_get_all k (lr_headers r)) /\
  rr_method req = lr_method r /\ rr_body req = lr_body r /\
  exists host port, u_host_str base = Some host /\ u_port_or_known_default base = Some port /\
    rr_uri req = u_scheme base ++ lit "://" ++ (host ++ lit ":" ++ dec port)
                 ++ default (lit "/") (lr_path_and_query r).
Proof.
  intros Hr. unfold relay_request, relay_authority in Hr. inv_outcome.
  cbn [rr_method rr_headers rr_body rr_uri]. unfold sanitize_local_headers.
  split_and!; [| | |done|done|by eauto].
  - rewrite !hm_get_all_remove. rewrite decide_False by (by vm_compute). by rewrite decide_True.
  - rewrite hm_get_all_remove. by rewrite decide_True.
  - intros k Ha Hh. rewrite !hm_get_all_remove. by rewrite !decide_False by congruence.
Qed.

(** The settings of the connector are those of the run configuration. *)
Lemma run_verifier {UC : UrlCrate} {TB : TcpBind} (rc : RunConfig) conn : run rc = Ok conn ->
  u_scheme (relay_base conn) = lit "https" /\
  tls_config conn = attested_client_config (rc_verifier rc) (rc_measurement rc) (rc_config_hash rc).
Proof. unfold run. intros H. inv_outcome. by split_bool. Qed.

Lemma main_pins_hash {UC : UrlCrate} {TB : TcpBind} {HX : HexCrate} f cli rc conn :
  main_config f cli = Ok rc -> run rc = Ok conn -> lc_allow_audit cli = false ->
  exists h, expected_config_hash (tls_config conn) = Some h /\ length h = 32%nat /\
    hex_decode (strip_0x (lc_expected_config_hash cli)) = Some h.
Proof.
  intros Hm [_ ->]%run_verifier Ha. unfold main_config, parse_hash32 in Hm. rewrite Ha in Hm. inv_outcome.
  cbn [attested_client_config expected_config_hash rc_config_hash]. eexists. split_and!; [done| |done].
  match goal with H : (len _ =? 32) = true |- _ => apply N.eqb_eq in H; unfold len in H; lia end.
Qed.

Lemma connector_call_Ok {R : Type} {LR : LineReader R} {LN : LocalNet R}
  {TC : TlsClient} {SC : Sha2Crate} {HX : HexCrate} {XC : X509Crate} {V : Type} {VF : Verifier V}
  (c : AttestedConnector V) t leaf : connector_call c = Ok (t, leaf) ->
  connect_transport (relay_base c) (gateway_addr c) (gateway_token c) = Ok t /\
  verify_server_cert (tls_config c) leaf = Ok tt.
Proof.
  unfold connector_call. intros H. inv_outcome.
  match goal with H : verify_server_cert _ _ = Ok ?u |- _ => by destruct u end.
Qed.

(** C33: The local credential stays local: a request goes to the relay's own authority with the
    method, path, query and body it came with, without any Authorization or Host header of
    the local application, and with every other header unchanged. *)
Theorem local_request_exact {UR : UriCrate} {M : Type} {HM : HeaderMapCrate M} {HML : HeaderMapLaws M}
  (base : Url) (r : LocalRequest M) (req : RelayRequest M) (Hr : relay_request base r = Ok req) :
  hm_get_all (lit "authorization") (rr_headers req) = [] /\
  hm_get_all (lit "host") (rr_headers req) = [] /\
  (forall k, k <> lit "authorization" -> k <> lit "host" ->
     hm_get_all k (rr_headers req) = hm_get_all k (lr_headers r)) /\
  rr_method req = lr_method r /\ rr_body req = lr_body r /\
  exists host port, u_host_str base = Some host /\ u_port_or_known_default base = Some port /\
    rr_uri req = u_scheme base ++ lit "://" ++ (host ++ lit ":" ++ dec port)
                 ++ default (lit "/") (lr_path_and_query r).
Proof. by apply relay_request_Ok. Qed.

(** What a local proxy that is not in audit mode pins. *)
Definition pins_relay {UC : UrlCrate} {HX : HexCrate} (cli : LocalCli)
  (c : AttestedCertVerifier AnyVerifier) : Prop :=
  (exists h, expected_config_hash c = Some h /\ length h = 32%nat /\
     hex_decode (strip_0x (lc_expected_config_hash cli)) = Some h) /\
  match lc_backend cli with
  | GcpBackend => expected_measurement c = None /\
      exists g, verifier c = AnyGcpVerifier g /\ enforce_workload_identity g = true /\
        policy g = args_policy (lc_gcp cli) /\
        (is_Some (gcp_cs_image_digest (lc_gcp cli)) \/ gcp_cs_signature_key_id (lc_gcp cli) <> [])
  | SevSnpBackend => verifier c = AnySevVerifier /\
      exists m, expected_measurement c = Some m /\
        hex_decode (strip_0x (lc_expected_measurement cli)) = Some m
  | MockBackend => verifier c = AnyMockVerifier /\
      exists m, expected_measurement c = Some m /\
        hex_decode (strip_0x (lc_expected_measurement cli)) = Some m
  end.

(** C32: Without audit mode the local proxy only ever runs with everything pinned: it uses the
    verifier of the backend it was asked for, the configuration hash is given and 32
    bytes long, and the workload is pinned by a measurement or, for Confidential Space,
    by an enforced image digest or signature key. *)
Theorem local_proxy_pins {UC : UrlCrate} {TB : TcpBind} {HX : HexCrate} (f : ClientFeatures) (cli : LocalCli)
  (rc : RunConfig) (conn : AttestedConnector AnyVerifier)
  (Hm : main_config f cli = Ok rc) (Hr : run rc = Ok conn) (Ha : lc_allow_audit cli = false) :
  u_scheme (relay_base conn) = lit "https" /\ pins_relay cli (tls_config conn).
Proof.
  destruct (run_verifier _ _ Hr) as [Hscheme Htls]. split; [done|]. split; [by eapply main_pins_hash|].
  rewrite Htls. unfold attested_client_config. cbn [expected_measurement verifier].
  unfold main_config in Hm. rewrite Ha in Hm. inv_outcome. cbn [rc_verifier rc_measurement].
  unfold verifier_for_backend, gcp_backend in *. rewrite Ha in *.
  destruct (lc_backend cli); repeat case_match; inv_outcome; split_and!; eauto.
  match goal with H : verifier_new _ = Ok ?g |- _ =>
      apply verifier_new_Ok in H as (Hv & Hp & He); exists g; split_and!; [done..|];
      by apply policy_validate_pins in Hv end.
Qed.

(** ** Witnesses *)

(** A gateway for [10.0.0.1:8443] behind a network that delivers byte by byte. *)
Definition sample_net : GatewayNet := {| relay_connects _ := true; client_write_ok _ := true |}.
Definition sample_local_net : LocalNet RefRead.reader := {|
  tcp_connects _ := true;
  gateway_replies req := Some (RefRead.byte_reads (sent_by (handle_connection (NET := sample_net)
    (LR := RefRead.line_reader) (RefRead.byte_reads req) (lit "10.0.0.1:8443") (lit "tunnel-token"))));
|}.
Definition sample_base : Url := {|
  u_scheme := lit "https"; u_username := []; u_password := None;
  u_host_str := Some (lit "10.0.0.1"); u_port_or_known_default := Some 8443; u_path := lit "/" |}.

Lemma sample_peer :
  gateway_peer (NET := sample_net) (LR := RefRead.line_reader) (LN := sample_local_net)
    (lit "10.0.0.1:8443") (lit "tunnel-token").
Proof.
  intros req. exists (RefRead.byte_reads req). eexists. cbn [unread RefRead.line_reader].
  rewrite RefRead.byte_reads_rest. split_and!; [done..|]. by rewrite RefRead.byte_reads_rest.
Qed.

Lemma tunnel_handshake_witness :
  connect_transport (LR := RefRead.line_reader) (LN := sample_local_net) sample_base
    (Some (lit "gw:443")) (Some (lit "tunnel-token"))
  = Ok (ViaGateway (lit "gw:443") (lit "10.0.0.1:8443") []).
Proof.
  destruct (tunnel_handshake (NET := sample_net) (LR := RefRead.line_reader) (LL := RefRead.laws)
    (LN := sample_local_net) sample_base (lit "gw:443")
    (lit "10.0.0.1:8443") (lit "tunnel-token") (lit "10.0.0.1:8443") (lit "tunnel-token"))
    as (H & _ & _).
  - vm_compute. reflexivity.
  - intros h [= <-]. repeat constructor.
  - repeat constructor.
  - discriminate.
  - reflexivity.
  - intros b. reflexivity.
  - exact sample_peer.
  - apply H; reflexivity.
Defined.

Lemma local_request_exact_witness :
  exists req, relay_request (UR := fun _ => true) (HM := Ref.header_map) sample_base
      {| lr_method := lit "GET"; lr_path_and_query := Some (lit "/v1/models?x=1");
         lr_headers := [(lit "authorization", lit "Bearer local"); (lit "accept", lit "*/*")];
         lr_body := [] |} = Ok req /\
    hm_get_all (HeaderMapCrate := Ref.header_map) (lit "authorization") (rr_headers req) = [].
Proof.
  match goal with |- exists req, ?r = Ok req /\ _ =>
    destruct (is_ok_Ok r) as [req E]; [vm_compute; reflexivity|] end.
  exists req. split; [exact E|].
  exact (proj1 (local_request_exact (UR := fun _ => true) (HM := Ref.header_map)
    (HML := Ref.header_map_laws) _ _ req E)).
Defined.

Definition sample_local_cli : LocalCli := {|
  lc_listen := lit "127.0.0.1:8080";
  lc_relay_endpoint := lit "https://relay.internal:8443"; lc_gateway_addr := None;
  lc_gateway_token := None; lc_backend := SevSnpBackend;
  lc_expected_measurement := lit "0xabcd";
  lc_expected_config_hash := replicate 64 "a"%byte;
  lc_gcp := {| gcp_cs_audience := lit "aud"; gcp_cs_image_digest := None;
               gcp_cs_image_reference := None; gcp_cs_signature_key_id := [];
               gcp_cs_service_account := None; gcp_cs_project_id := None; gcp_cs_zone := None |};
  lc_allow_audit := false;
|}.

Lemma local_proxy_pins_witness :
  exists rc conn, main_config (UC := Ref.url) (HX := Ref.hex)
      {| sev_snp := true; gcp_confidential_space := true; mock := false |} sample_local_cli = Ok rc /\
    run (UC := Ref.url) (TB := any_bind) rc = Ok conn /\
    pins_relay (UC := Ref.url) (HX := Ref.hex) sample_local_cli (tls_config conn).
Proof.
  destruct (is_ok_Ok (rc ← map_err (fun _ => InvalidEndpoint) (main_config (UC := Ref.url)
      (HX := Ref.hex) {| sev_snp := true; gcp_confidential_space := true; mock := false |}
      sample_local_cli); run (UC := Ref.url) (TB := any_bind) rc)) as [conn E]; [vm_compute; reflexivity|].
  apply bind_Ok in E as (rc & Hm & Hr). apply map_err_Ok in Hm.
  exists rc, conn. split; [exact Hm|]. split; [exact Hr|].
  exact (proj2 (local_proxy_pins (UC := Ref.url) (TB := any_bind) (HX := Ref.hex) _ _ _ _ Hm Hr eq_refl)).
Defined.
