(* ===== verification/OnlineCheck.v ===== *)
(** * The online check

    [tools/online-check/src/main.rs]: the operator's tool that fetches the relay's
    certificate, recomputes the expected configuration hash, and verifies the
    attestation offline. The requests written to the relay are the state. The output is
    in OnlinePrint; whether the printed data can be extracted is here, because a failure
    ends the check. *)

From S2P Require Import Prelude RustStr BTree Extern Config ConfigHash Attest MockTee AttestedTls.
From S2P Require Import SnpReport GcpPolicy GcpCs Backends Server.

Local Open Scope N_scope.

Definition REPORT_DATA_OFFSET : N := 0x50.
Definition REPORT_DATA_LEN : N := 64.
Definition MEASUREMENT_OFFSET : N := 0x90.
Definition MEASUREMENT_LEN : N := 48.
Definition POLICY_OFFSET : N := 0x08.
Definition REPORTED_TCB_OFFSET : N := 0x180.
Definition CHIP_ID_OFFSET : N := 0x1A0.
Definition CHIP_ID_LEN : N := 64.
Definition POLICY_DEBUG_ALLOWED_BIT : N := N.shiftl 1 19.

(** ** Command line *)

Inductive Mode := AuditMode | StrictMode.
Inductive Backend := SevBackend | GcpCsBackend.

Record OnlineCli := {
  oc_endpoint : bytes;
  oc_backend : Backend;
  oc_mode : Mode;
  oc_expected_measurement : option bytes;
  oc_expected_config_hash : option bytes;
  oc_upstream : bytes;
  oc_allowed_upstream : list bytes;
  oc_route : list bytes;
  oc_max_request_bytes : N;
  oc_release_artifact_digest : option bytes;
  oc_upstream_timeout_secs : N;
  oc_upstream_tls_leaf_sha256 : list bytes;
  oc_allow_client_provider_auth : bool;
  oc_private_admin_enabled : bool;
  oc_provider_auth_scheme : bytes;
  oc_body_log_policy : bytes;
  oc_print_only : bool;
  oc_gcp : GcpArgs;
  oc_health : bool;
}.

Inductive CheckError :=
  | EndpointInvalid
  | EndpointNotHttps
  | NotHex (label : bytes)
  | WrongLength (label : bytes) (want got : N)
  | RouteForm (raw : bytes)
  | CheckPinForm
  | InputsInvalid (e : ConfigError)
  | StrictNeedsMeasurement
  | StrictNeedsImage
  | StrictNeedsHash
  | EndpointNoHost
  | EndpointNoPort
  | InvalidServerName
  | ConnectFailed (addr : bytes)
  | HandshakeFailed
  | NoCertificate
  | HealthFailed
  | NoEvidence (e : AttestError)
  | WrongTee (expected actual : TeeType)
  | NoSpki (e : AttestError)
  | ReportTooShort (label : bytes)
  | TokenNotUtf8
  | TokenNoPayload
  | TokenNotBase64
  | TokenNotJson
  | BackendMissing (b : Backend)
  | CheckPolicy (e : AttestError)
  | EvidenceRefused (e : AttestError)
  | SpkiMismatch (expected actual : bytes)
  | HashMismatch (expected actual : bytes).

(** ** The expected configuration hash *)

Definition add_route (routes : btree ProviderConfig) (raw : bytes)
  : outcome CheckError (btree ProviderConfig) :=
  '(prefix, rest) ← ok_or (split_once "="%byte raw) (RouteForm raw);
  let pc := match split_once "|"%byte rest with
            | Some (base, path) => {| base_url := base; path := Some path |}
            | None => {| base_url := rest; path := None |}
            end in
  Ok (bt_insert prefix pc routes).

Definition push_raw_pin (pins : btree (list bytes)) (item : bytes)
  : outcome CheckError (btree (list bytes)) :=
  '(origin, pin) ← ok_or (split_once "="%byte item) CheckPinForm;
  Ok (bt_entry origin [] (fun l => l ++ [pin]) pins).
Definition parse_upstream_tls_pins (raw : list bytes)
  : outcome CheckError (btree (list bytes)) := try_fold push_raw_pin bt_empty raw.

Section hash.
Context {UC : UrlCrate} {UT : UnicodeTables} {SC : Sha2Crate}.

Definition online_config (cli : OnlineCli) : outcome CheckError RelayConfig :=
  routes ← try_fold add_route bt_empty (oc_route cli);
  pins ← parse_upstream_tls_pins (oc_upstream_tls_leaf_sha256 cli);
  Ok {| listen_addr := lit "0.0.0.0:8443";
        runtime := {| allow_client_provider_auth := oc_allow_client_provider_auth cli;
                      private_admin_enabled := oc_private_admin_enabled cli;
                      provider_auth_scheme := oc_provider_auth_scheme cli;
                      body_log_policy := oc_body_log_policy cli |};
        default_upstream := oc_upstream cli;
        routes := routes;
        allowed_upstreams := match oc_allowed_upstream cli with
                             | [] => [oc_upstream cli]
                             | l => l
                             end;
        max_request_bytes := oc_max_request_bytes cli;
        release_artifact_digest := oc_release_artifact_digest cli;
        upstream_timeout_secs := oc_upstream_timeout_secs cli;
        upstream_tls_leaf_sha256 := pins |}.

Definition compute_expected_config_hash (cli : OnlineCli) : outcome CheckError bytes :=
  config ← online_config cli;
  _ ← map_err InputsInvalid (RelayConfig_validate config);
  config_hash config.
End hash.

(** ** Options *)

Section options.
Context {UC : UrlCrate} {UT : UnicodeTables} {SC : Sha2Crate} {HX : HexCrate}.

Definition parse_hex_array (n : N) (raw label : bytes) : outcome CheckError bytes :=
  let clean := strip_0x raw in
  b ← ok_or (hex_decode clean) (NotHex label);
  _ ← ensure (len b =? n) (WrongLength label n (len b));
  Ok b.
Definition parse_optional_hex (n : N) (raw : option bytes) (label : bytes)
  : outcome CheckError (option bytes) :=
  match raw with Some value => Some <$> parse_hex_array n value label | None => Ok None end.

Definition is_strict (cli : OnlineCli) : bool :=
  match oc_mode cli with StrictMode => true | AuditMode => false end.
Definition is_sev (cli : OnlineCli) : bool :=
  match oc_backend cli with SevBackend => true | GcpCsBackend => false end.

(** The first part of [main]: the measurement and the configuration hash to expect. *)
Definition expected_pins (cli : OnlineCli) : outcome CheckError (option bytes * option bytes) :=
  expected_measurement ← parse_optional_hex MEASUREMENT_LEN (oc_expected_measurement cli)
    (lit "--expected-measurement");
  expected_config_hash ←
    match oc_expected_config_hash cli with
    | Some raw => Some <$> parse_hex_array 32 raw (lit "--expected-config-hash")
    | None =>
        if is_strict cli || oc_print_only cli then Some <$> compute_expected_config_hash cli
        else Ok None
    end;
  _ ← (if is_strict cli && negb (oc_print_only cli) then
         _ ← ensure (negb (is_sev cli && bool_decide (expected_measurement = None)))
               StrictNeedsMeasurement;
         _ ← ensure (negb (negb (is_sev cli)
                && bool_decide (gcp_cs_image_digest (oc_gcp cli) = None)
                && bool_decide (gcp_cs_signature_key_id (oc_gcp cli) = []))) StrictNeedsImage;
         ensure (negb (bool_decide (expected_config_hash = None))) StrictNeedsHash
       else Ok tt);
  Ok (expected_measurement, expected_config_hash).
End options.

(** ** What is printed *)

(** [base64::engine::general_purpose::STANDARD]. *)
Class Base64Std := b64_std_decode : bytes -> option bytes.

Record ReportDetails := {
  reportdata : bytes;
  rd_measurement : bytes;
  rd_policy : N;
  debug_allowed : bool;
  rd_reported_tcb : N;
  chip_id_prefix : bytes;
}.

Definition slice (buf : bytes) (offset n : N) (label : bytes) : outcome CheckError bytes :=
  ok_or (slice_get buf offset (offset + n)) (ReportTooShort label).

Definition report_details {HX : HexCrate} (report : bytes) : outcome CheckError ReportDetails :=
  reportdata ← slice report REPORT_DATA_OFFSET REPORT_DATA_LEN (lit "REPORTDATA");
  measurement ← slice report MEASUREMENT_OFFSET MEASUREMENT_LEN (lit "MEASUREMENT");
  policy ← le_to_N <$> slice report POLICY_OFFSET 8 (lit "POLICY");
  reported_tcb ← le_to_N <$> slice report REPORTED_TCB_OFFSET 8 (lit "REPORTED_TCB");
  chip_id ← slice report CHIP_ID_OFFSET CHIP_ID_LEN (lit "CHIP_ID");
  prefix ← slice_idx chip_id 0 8;
  Ok {| reportdata := reportdata; rd_measurement := measurement; rd_policy := policy;
        debug_allowed := negb (N.land policy POLICY_DEBUG_ALLOWED_BIT =? 0);
        rd_reported_tcb := reported_tcb; chip_id_prefix := hex_encode prefix |}.

Definition url_to_std (b : byte) : byte :=
  if decide (b = "-"%byte) then "+"%byte else if decide (b = "_"%byte) then "/"%byte else b.

(** The padding loop; three rounds always suffice. *)
Fixpoint pad4 (rounds : nat) (s : bytes) : bytes :=
  match rounds with
  | O => s
  | S k => if len s mod 4 =? 0 then s else pad4 k (s ++ ["="%byte])
  end.

Definition base64_url_decode {BS : Base64Std} (raw : bytes) : outcome CheckError bytes :=
  ok_or (b64_std_decode (pad4 3 (map url_to_std raw))) TokenNotBase64.

Definition decode_jwt_claims_without_verification {BS : Base64Std} {JC : JsonCrate} (token : bytes)
  : outcome CheckError Value :=
  payload ← ok_or (split_char "."%byte token !! 1%nat) TokenNoPayload;
  b ← base64_url_decode payload;
  ok_or (json_parse b) TokenNotJson.

(** The part of [print_gcp_confidential_space_token] that can fail. *)
Definition token_claims {BS : Base64Std} {JC : JsonCrate} (token : bytes)
  : outcome CheckError Value :=
  _ ← ensure (utf8_valid token) TokenNotUtf8;
  decode_jwt_claims_without_verification token.

Definition is_slash (b : byte) : bool := bool_decide (b = "/"%byte).
Definition health_path (endpoint : Url) : bytes :=
  let path := trim_end_matches is_slash (u_path endpoint) in
  let path := if bool_decide (path = []) then lit "/" else path in
  if bool_decide (path = lit "/") then lit "/health" else path ++ lit "/health".

(** ** Verification *)

Definition expected_reportdata (cert_spki_hash : bytes) (expected_config_hash : option bytes) : bytes :=
  let reportdata := copy_at 0 (take 48 cert_spki_hash) (zeros 64) in
  match expected_config_hash with
  | Some hash => copy_at 48 (take 16 hash) reportdata
  | None => reportdata
  end.

Section verify.
Context {UC : UrlCrate} {SC : Sha2Crate} {HX : HexCrate} {XC : X509Crate} {BS : Base64Std}.
Context {JC : JsonCrate} {VA : Verifier AnyVerifier}.

Definition verify_reportdata (actual cert_spki_hash : bytes) (expected_config_hash : option bytes)
  : outcome CheckError unit :=
  _ ← ensure (bool_decide (take 48 actual = take 48 cert_spki_hash))
        (SpkiMismatch (hex_encode (take 48 cert_spki_hash)) (hex_encode (take 48 actual)));
  match expected_config_hash with
  | Some config_hash =>
      ensure (bool_decide (take 16 (drop 48 actual) = take 16 config_hash))
        (HashMismatch (hex_encode (take 16 config_hash)) (hex_encode (take 16 (drop 48 actual))))
  | None => Ok tt
  end.

Definition verifier_for_backend (f : ClientFeatures) (cli : OnlineCli)
  : outcome CheckError AnyVerifier :=
  match oc_backend cli with
  | SevBackend => if sev_snp f then Ok AnySevVerifier else Err (BackendMissing SevBackend)
  | GcpCsBackend =>
      if gcp_confidential_space f
      then map_err CheckPolicy (gcp_backend (negb (is_strict cli)) (oc_gcp cli))
      else Err (BackendMissing GcpCsBackend)
  end.

Definition expected_tee_type (cli : OnlineCli) : TeeType :=
  match oc_backend cli with SevBackend => SevSnp | GcpCsBackend => GcpConfidentialSpace end.

Definition printable (cli : OnlineCli) (data : bytes) : outcome CheckError unit :=
  match oc_backend cli with
  | SevBackend => _ ← report_details data; Ok tt
  | GcpCsBackend => _ ← token_claims data; Ok tt
  end.

(** The second part of [main], on the certificate that was fetched. *)
Definition check_cert (f : ClientFeatures) (cli : OnlineCli)
  (expected_measurement expected_config_hash : option bytes) (cert_der : bytes)
  : outcome CheckError unit :=
  evidence ← map_err NoEvidence (extract_evidence_from_cert cert_der);
  _ ← ensure (bool_decide (tee_type evidence = expected_tee_type cli))
        (WrongTee (expected_tee_type cli) (tee_type evidence));
  spki ← map_err NoSpki (extract_spki_from_cert cert_der);
  let cert_spki_hash := sha384 spki in
  _ ← printable cli (data evidence);
  if oc_print_only cli then Ok tt
  else
    verifier ← verifier_for_backend f cli;
    let expected_attestation_data :=
      match oc_backend cli with
      | SevBackend => match oc_mode cli with
                      | AuditMode => None
                      | StrictMode => expected_measurement
                      end
      | GcpCsBackend => Some (expected_reportdata cert_spki_hash expected_config_hash)
      end in
    let config_hash_for_verify :=
      match oc_mode cli with AuditMode => None | StrictMode => expected_config_hash end in
    reportdata ← map_err EvidenceRefused (verify verifier evidence expected_attestation_data);
    verify_reportdata reportdata cert_spki_hash config_hash_for_verify.
End verify.

Definition parse_endpoint {UC : UrlCrate} (raw : bytes) : outcome CheckError Url :=
  endpoint ← ok_or (url_parse raw) EndpointInvalid;
  _ ← ensure (bool_decide (u_scheme endpoint = lit "https")) EndpointNotHttps;
  Ok endpoint.

(** ** Fetching the certificate *)

(** The network and TLS under the capturing client configuration, of which the verifier
    accepts every certificate: [ServerName::try_from], the addresses that accept a
    connection, the certificates of a completed handshake, whether a request can be
    written and what is read until the end. *)
Class CaptureNet := {
  capture_name_valid : bytes -> bool;
  capture_connects : bytes -> bool;
  capture_handshake : bytes -> bytes -> option (list bytes);
  capture_writes : bytes -> bytes -> bool;
  capture_reads : bytes -> bytes -> option bytes;
}.

Record CapturedCert := {
  der : bytes;
  health_response : option bytes;
}.

Definition health_request (path host : bytes) : bytes :=
  lit "GET " ++ path ++ lit " HTTP/1.1" ++ crlf ++ lit "Host: " ++ host ++ crlf
  ++ lit "Connection: close" ++ crlf ++ crlf.

Definition capture {CN : CaptureNet} (endpoint : Url) : outcome CheckError (bytes * bytes * bytes) :=
  host ← ok_or (u_host_str endpoint) EndpointNoHost;
  port ← ok_or (u_port_or_known_default endpoint) EndpointNoPort;
  let addr := host ++ lit ":" ++ dec port in
  _ ← ensure (capture_name_valid host) InvalidServerName;
  _ ← ensure (capture_connects addr) (ConnectFailed addr);
  certs ← ok_or (capture_handshake addr host) HandshakeFailed;
  cert ← ok_or (head certs) NoCertificate;
  Ok (host, addr, cert).

(** The state: the requests written so far. The response is kept as the bytes read. *)
Definition get_health {CN : CaptureNet} (addr request : bytes)
  : stm (list bytes) CheckError (option bytes) := fun sent =>
  if capture_writes addr request
  then (response ← ok_or (capture_reads addr request) HealthFailed; Ok (Some response),
        sent ++ [request])
  else (Err HealthFailed, sent).

Definition fetch_cert_with_optional_health {CN : CaptureNet} (endpoint : Url) (health : bool)
  : stm (list bytes) CheckError CapturedCert :=
  '(host, addr, cert) ← pure (capture endpoint);
  health_response ←
    (if health then get_health addr (health_request (health_path endpoint) host)
     else mret None : stm (list bytes) CheckError (option bytes));
  mret {| der := cert; health_response := health_response |}.

(** [main]. *)
Definition online_check {CN : CaptureNet} {UC : UrlCrate} {UT : UnicodeTables} {SC : Sha2Crate}
  {HX : HexCrate} {XC : X509Crate} {BS : Base64Std} {JC : JsonCrate} {VA : Verifier AnyVerifier}
  (f : ClientFeatures) (cli : OnlineCli) : stm (list bytes) CheckError unit :=
  endpoint ← pure (parse_endpoint (oc_endpoint cli));
  '(expected_measurement, expected_config_hash) ← pure (expected_pins cli);
  cert ← fetch_cert_with_optional_health endpoint (oc_health cli);
  pure (check_cert f cli expected_measurement expected_config_hash (der cert)).

(** ** Facts *)

Lemma pad4_fuel k s : len s mod 4 = 0 \/ 4 <= len s mod 4 + N.of_nat k ->
  len (pad4 k s) mod 4 = 0.
Proof.
  revert s. induction k as [|k IH]; intros s Hs; cbn [pad4].
  - pose proof (N.mod_lt (len s) 4 ltac:(done)). lia.
  - destruct (N.eqb_spec (len s mod 4) 0) as [|Hne]; [done|]. apply IH.
    rewrite len_app. change (len ["="%byte]) with 1.
    revert Hs Hne. generalize (len s). intros n Hs Hne.
    Zify.zify. Z.to_euclidean_division_equations. lia.
Qed.

(** The padding loop ends within its rounds, on a multiple of four. *)
Lemma pad4_multiple s : len (pad4 3 s) mod 4 = 0.
Proof.
  apply pad4_fuel. generalize (len s). intros n. Zify.zify. Z.to_euclidean_division_equations. lia.
Qed.

(** Neither validation nor the hash reads the listen address. *)
Definition with_listen (l : bytes) (c : RelayConfig) : RelayConfig := {|
  listen_addr := l; runtime := runtime c; default_upstream := default_upstream c;
  routes := routes c; allowed_upstreams := allowed_upstreams c;
  max_request_bytes := max_request_bytes c; release_artifact_digest := release_artifact_digest c;
  upstream_timeout_secs := upstream_timeout_secs c;
  upstream_tls_leaf_sha256 := upstream_tls_leaf_sha256 c |}.

Lemma validate_listen {UC : UrlCrate} {UT : UnicodeTables} l c :
  RelayConfig_validate (with_listen l c) = RelayConfig_validate c.
Proof. reflexivity. Qed.

Lemma hash_listen {UC : UrlCrate} {UT : UnicodeTables} {SC : Sha2Crate} {E} l c :
  config_hash (E := E) (with_listen l c) = config_hash c.
Proof. reflexivity. Qed.

(** The two copies of the pin parser agree. *)
Lemma pin_parsers_agree raw pins pins0 :
  try_fold Server.push_raw_pin pins0 raw = Ok pins -> try_fold push_raw_pin pins0 raw = Ok pins.
Proof.
  revert pins0. induction raw as [|item raw IH]; intros pins0; [by intros [= ->]|]. cbn [try_fold].
  unfold push_raw_pin, Server.push_raw_pin. destruct (split_once "="%byte item) as [[o p]|]; simp_out;
    [apply IH|done].
Qed.

(** The options of the online check that describe a relay's command line. *)
Record mirrors (oc : OnlineCli) (cli : Cli) : Prop := {
  m_upstream : oc_upstream oc = cli_upstream cli;
  m_allowed : oc_allowed_upstream oc = cli_allowed_upstream cli;
  m_route : oc_route oc = [];
  m_bytes : oc_max_request_bytes oc = cli_max_request_bytes cli;
  m_digest : oc_release_artifact_digest oc = cli_release_artifact_digest cli;
  m_timeout : oc_upstream_timeout_secs oc = cli_upstream_timeout_secs cli;
  m_pins : oc_upstream_tls_leaf_sha256 oc = cli_upstream_tls_leaf_sha256 cli;
  m_client_auth : oc_allow_client_provider_auth oc = cli_allow_client_provider_auth cli;
  m_admin : oc_private_admin_enabled oc = bool_decide (is_Some (cli_admin_listen cli));
  m_scheme : oc_provider_auth_scheme oc = trim (cli_provider_auth_scheme cli);
  m_body_log : oc_body_log_policy oc = lit "metadata-only";
}.

Lemma online_config_mirrors {UC : UrlCrate} {UT : UnicodeTables} oc cli c :
  mirrors oc cli -> cli_config cli = Ok c ->
  online_config oc = Ok (with_listen (lit "0.0.0.0:8443") c).
Proof.
  intros [] H. unfold cli_config, Server.parse_upstream_tls_pins in H. inv_outcome.
  unfold online_config, parse_upstream_tls_pins. rewrite m_route0, m_pins0. cbn [try_fold]. simp_out.
  match goal with H : try_fold Server.push_raw_pin _ _ = Ok _ |- _ =>
    rewrite (pin_parsers_agree _ _ _ H) end.
  simp_out. unfold with_listen. cbn [default_upstream runtime routes allowed_upstreams
    max_request_bytes release_artifact_digest upstream_timeout_secs upstream_tls_leaf_sha256].
  unfold cli_runtime.
  by rewrite m_upstream0, m_allowed0, m_bytes0, m_digest0, m_timeout0, m_client_auth0, m_admin0,
    m_scheme0, m_body_log0.
Qed.

(** What a passing check of the report data says, against the client's view of it. *)
Lemma expected_reportdata_layout {SC : Sha2Crate} {SL : Sha2Laws} spki ch : hash_ok ch ->
  expected_reportdata (sha384 spki) ch = reportdata_layout spki ch.
Proof.
  intros H. rewrite <-reportdata_is_layout by done. unfold expected_reportdata, server_reportdata.
  rewrite take_ge; [done|]. rewrite sha384_length. lia.
Qed.

Lemma verify_reportdata_Ok {SC : Sha2Crate} {SL : Sha2Laws} {HX : HexCrate} rd spki ch :
  verify_reportdata rd (sha384 spki) ch = Ok tt <->
  take 48 rd = sha384 spki /\ forall h, ch = Some h -> take 16 (drop 48 rd) = take 16 h.
Proof.
  unfold verify_reportdata. assert (Ht : take 48 (sha384 spki) = sha384 spki)
    by (apply take_ge; rewrite sha384_length; lia).
  rewrite Ht. split.
  - intros H. destruct ch as [h|]; inv_outcome; split_bool; split; try done. by intros ? [= <-].
  - intros [H1 H2]. rewrite bool_decide_eq_true_2 by done. simp_out. destruct ch as [h|]; [|done].
    by rewrite bool_decide_eq_true_2 by auto.
Qed.

Lemma expected_pins_hash {UC : UrlCrate} {UT : UnicodeTables} {SC : Sha2Crate} {SL : Sha2Laws}
  {HX : HexCrate} cli m ch : expected_pins cli = Ok (m, ch) -> hash_ok ch.
Proof.
  unfold expected_pins, parse_hex_array, compute_expected_config_hash, config_hash. intros H.
  inv_outcome. destruct (oc_expected_config_hash cli); [|destruct (_ || _)]; inv_outcome; try done.
  - cbn [hash_ok]. match goal with H : (len ?b =? 32) = true |- _ =>
      apply N.eqb_eq in H; unfold len in H; lia end.
  - cbn [hash_ok]. match goal with H : match ?x with _ => _ end = Ok _ |- _ =>
      destruct x; inv_outcome; apply sha256_length end.
Qed.

(** A strict check that is not print-only has a configuration hash, and a measurement for
    SEV-SNP. *)
Lemma expected_pins_strict {UC : UrlCrate} {UT : UnicodeTables} {SC : Sha2Crate} {HX : HexCrate}
  cli m ch : expected_pins cli = Ok (m, ch) -> oc_mode cli = StrictMode -> oc_print_only cli = false ->
  is_Some ch /\ (oc_backend cli = SevBackend -> is_Some m).
Proof.
  intros H Hs Hp. unfold expected_pins in H.
  assert (Hst : is_strict cli = true) by (unfold is_strict; by rewrite Hs).
  rewrite Hst, Hp in H. cbn [andb negb orb] in H. inv_outcome. split_bool.
  split; [by destruct ch; eauto|]. intros Hb.
  assert (Hsev : is_sev cli = true) by (unfold is_sev; by rewrite Hb).
  rewrite Hsev in *. cbn [andb] in *. split_bool. destruct m; [eauto|done].
Qed.

(** The verifier of Confidential Space returns the report data it was asked for. *)
Lemma gcp_verify_expected {UC : UrlCrate} {JC : JsonCrate} {HH : HttpHost} {KJ : KeyJson}
  {JW : JwtCrate} {B64 : Base64Crate} (v : GcpVerifier) ev m rd :
  verify v ev (Some m) = Ok rd -> rd = m.
Proof.
  unfold verify, GcpVerifier_verify. destruct (gcp_verify _ _ _ _ _) as [r s] eqn:E.
  cbn [fst]. intros ->. unfold gcp_verify in E. inv_stm.
  match goal with H : verify_claims _ _ _ _ = Ok _ |- _ => unfold verify_claims in H; inv_outcome end.
  by case_bool_decide; simplify_eq.
Qed.

(** The request for the health page does not wait for the verification: whatever the check
    of the certificate says, the request has been written. *)
Lemma health_request_unconditional {CN : CaptureNet} {UC : UrlCrate} {UT : UnicodeTables}
  {SC : Sha2Crate} {HX : HexCrate} {XC : X509Crate} {BS : Base64Std} {JC : JsonCrate}
  {VA : Verifier AnyVerifier} f cli endpoint m ch host addr cert reply
  (Hhealth : oc_health cli = true) (He : parse_endpoint (oc_endpoint cli) = Ok endpoint)
  (Hp : expected_pins cli = Ok (m, ch)) (Hc : capture endpoint = Ok (host, addr, cert)) :
  let request := health_request (health_path endpoint) host in
  capture_writes addr request = true -> capture_reads addr request = Some reply ->
  online_check f cli [] = (check_cert f cli m ch cert, [request]).
Proof.
  intros request Hw Hr. unfold online_check, fetch_cert_with_optional_health.
  rewrite He, Hp, Hhealth. unfold pure, mbind at 1 2 3, stm_bind. rewrite Hc. subst request.
  unfold mbind, stm_bind, get_health. rewrite Hw, Hr. reflexivity.
Qed.

(** ** Properties *)

(** C20: An operator who gives the online check the options of a relay's command line computes
    the hash the relay has attested: whenever the relay starts, the recomputation
    succeeds with the hash of the relay's own configuration, half of which is in the
    evidence of its certificate. *)
Theorem online_hash_matches_relay {UC : UrlCrate} {UT : UnicodeTables} {SC : Sha2Crate}
  {SL : Sha2Laws} {KP : Type} {RG : RcgenCrate KP} {RS : RustlsServer} {UCL : Proxy.UpstreamClient} {XC : X509Crate}
  {XL : X509Laws KP} {A : Type} {AT : Attester A} (a : A) (generated : option KP)
  (oc : OnlineCli) (cli : Cli) (srv : Server)
  (Hmirror : mirrors oc cli) (Hs : start a generated cli = Ok srv) :
  exists h kp ev, compute_expected_config_hash oc = Ok h /\
    config_hash (E := StartError) (Proxy.config (srv_app srv)) = Ok h /\
    attest a (sha384 (public_key_der kp) ++ take 16 h) = Ok ev /\
    extract_evidence_from_cert (server_cert_der (srv_tls srv)) = Ok ev.
Proof.
  apply start_Ok in Hs as (Hcli & Hv & (h & Hh & Htls) & _).
  pose proof (online_config_mirrors _ _ _ Hmirror Hcli) as Ho.
  assert (Hl : length h = 32%nat).
  { unfold config_hash in Hh. destruct (normalize_upstream_tls_pins _); simplify_eq.
    apply sha256_length. }
  destruct (attested_certificate a h generated _ Hl Htls) as (kp & ev & _ & Ha & He & _).
  exists h, kp, ev. split_and!; [|done..].
  unfold compute_expected_config_hash. rewrite Ho. simp_out.
  rewrite validate_listen, Hv. simp_out. rewrite hash_listen.
  unfold config_hash in *. by destruct (normalize_upstream_tls_pins _); simplify_eq.
Qed.

(** C21: A strict online check accepts a certificate exactly when a client with the same
    verifier, measurement and configuration hash would complete its handshake with it,
    provided the evidence is of the backend's kind and can be printed. *)
Theorem online_strict_agrees {UC : UrlCrate} {UT : UnicodeTables} {SC : Sha2Crate} {SL : Sha2Laws}
  {HX : HexCrate} {XC : X509Crate} {BS : Base64Std} {JC : JsonCrate} {VA : Verifier AnyVerifier}
  (f : ClientFeatures) (cli : OnlineCli) (m ch : option bytes) (v : AnyVerifier) (cert : bytes)
  (Hpins : expected_pins cli = Ok (m, ch)) (Hmode : oc_mode cli = StrictMode)
  (Hprint : oc_print_only cli = false) (Hv : verifier_for_backend f cli = Ok v) :
  check_cert f cli m ch cert = Ok tt <->
  verify_server_cert (attested_client_config v m ch) cert = Ok tt /\
  exists ev, extract_evidence_from_cert cert = Ok ev /\ tee_type ev = expected_tee_type cli /\
    printable cli (data ev) = Ok tt.
Proof.
  pose proof (expected_pins_hash _ _ _ Hpins) as Hch.
  destruct (expected_pins_strict _ _ _ Hpins Hmode Hprint) as [[h ->] _].
  rewrite verify_server_cert_Ok by done.
  cbn [attested_client_config verifier expected_config_hash].
  unfold check_cert. rewrite Hprint, Hv, Hmode.
  assert (Hd : forall ev spki, tee_type ev = expected_tee_type cli ->
    match oc_backend cli with
    | SevBackend => m
    | GcpCsBackend => Some (expected_reportdata (sha384 spki) (Some h))
    end = expected_attested_data (attested_client_config v m (Some h)) (tee_type ev)
            (reportdata_layout spki (Some h))).
  { intros ev spki ->. unfold expected_tee_type. destruct (oc_backend cli); [done|].
    cbn [expected_attested_data attested_client_config expected_config_hash].
    by rewrite bool_decide_eq_true_2, expected_reportdata_layout by eauto. }
  split.
  - intros H. inv_outcome. split_bool.
    match goal with H : extract_evidence_from_cert _ = Ok ?e, H2 : extract_spki_from_cert _ = Ok ?s,
      H3 : verify _ _ _ = Ok ?r, H4 : verify_reportdata _ _ _ = Ok _, H5 : printable _ _ = Ok ?u |- _ =>
      rewrite (Hd e s) in H3 by done; apply verify_reportdata_Ok in H4 as [Hk Hc]; destruct u;
      split; [exists e, s, r|exists e]; by split_and! end.
  - intros ((ev & spki & rd & He & Hs & Hr & Hk & Hc) & (ev' & He' & Ht & Hp)).
    assert (ev' = ev) as -> by congruence. rewrite He. simp_out.
    rewrite bool_decide_eq_true_2 by done. simp_out. rewrite Hs. simp_out. rewrite Hp. simp_out.
    rewrite (Hd ev spki Ht), Hr. simp_out. by apply verify_reportdata_Ok.
Qed.

(** An audit of a Confidential Space relay without a given hash accepts only relays whose
    evidence carries sixteen zero bytes for the configuration, although every relay
    binds a configuration hash: the audit demands the full report data, with zeros for
    the hash it was not given. *)
Theorem gcp_audit_demands_zero_hash {UC : UrlCrate} {SC : Sha2Crate} {SL : Sha2Laws} {HX : HexCrate}
  {XC : X509Crate} {BS : Base64Std} {ED : Ed25519Crate} {QJ : MockQuoteJson}
  {EC : SevSnp.EndorsementCrates} {BP : BuildProfile} {HH : HttpHost}
  {JC : JsonCrate} {KJ : KeyJson} {JW : JwtCrate} {B64 : Base64Crate} {W : World}
  (f : ClientFeatures) (cli : OnlineCli) (m : option bytes) (cert : bytes)
  (Hgcp : oc_backend cli = GcpCsBackend) (Hmode : oc_mode cli = AuditMode)
  (Hprint : oc_print_only cli = false)
  (Hok : check_cert f cli m None cert = Ok tt) :
  exists ev spki v, extract_evidence_from_cert cert = Ok ev /\
    extract_spki_from_cert cert = Ok spki /\ verifier_for_backend f cli = Ok (AnyGcpVerifier v) /\
    enforce_workload_identity v = false /\
    verify (AnyGcpVerifier v) ev (Some (sha384 spki ++ zeros 16)) = Ok (sha384 spki ++ zeros 16).
Proof.
  unfold check_cert in Hok. rewrite Hprint, Hgcp, Hmode in Hok. inv_outcome.
  match goal with H : verifier_for_backend _ _ = Ok ?w |- _ => pose proof H as Hv; unfold verifier_for_backend,
    gcp_backend, is_strict in H; rewrite Hgcp, Hmode in H; cbn [negb] in H end.
  destruct (gcp_confidential_space f); [|done]. inv_outcome.
  rewrite expected_reportdata_layout in * by done.
  match goal with H : verify _ ?e _ = Ok ?r, H2 : extract_spki_from_cert _ = Ok ?s |- _ =>
    exists e, s, (verifier_new_audit (args_policy (oc_gcp cli))); split_and!; try done;
    pose proof (gcp_verify_expected _ _ _ _ H) as ->; exact H end.
Qed.

(** ** Witnesses *)

Definition no_gcp : GcpArgs := {|
  gcp_cs_audience := lit "relay"; gcp_cs_image_digest := None; gcp_cs_image_reference := None;
  gcp_cs_signature_key_id := []; gcp_cs_service_account := None; gcp_cs_project_id := None;
  gcp_cs_zone := None |}.

(** The options that mirror [Server.sample_cli], for the backend and mode given. *)
Definition sample_check (b : Backend) (mode : Mode) (m ch : option bytes) : OnlineCli := {|
  oc_endpoint := lit "https://relay:8443"; oc_backend := b; oc_mode := mode;
  oc_expected_measurement := m; oc_expected_config_hash := ch;
  oc_upstream := lit "https://api.openai.com/"; oc_allowed_upstream := []; oc_route := [];
  oc_max_request_bytes := 1024; oc_release_artifact_digest := None;
  oc_upstream_timeout_secs := 120; oc_upstream_tls_leaf_sha256 := [];
  oc_allow_client_provider_auth := false; oc_private_admin_enabled := true;
  oc_provider_auth_scheme := lit "Bearer"; oc_body_log_policy := lit "metadata-only";
  oc_print_only := false; oc_gcp := no_gcp; oc_health := false |}.

Lemma sample_mirrors : mirrors (sample_check SevBackend AuditMode None None) sample_cli.
Proof. split; vm_compute; reflexivity. Qed.

Lemma online_hash_matches_relay_witness :
  exists srv h, start (UC := Ref.url) (UT := Ref.unicode) (SC := Ref.sha2) (RG := RefX509.rcgen)
      (RS := rustls_ok) (UCL := client_ok) (AT := sample_mock_attester) mock_attester (Some (lit "key")) sample_cli
      = Ok srv /\
    compute_expected_config_hash (UC := Ref.url) (UT := Ref.unicode) (SC := Ref.sha2)
      (sample_check SevBackend AuditMode None None) = Ok h.
Proof.
  destruct (is_ok_Ok (start (UC := Ref.url) (UT := Ref.unicode) (SC := Ref.sha2)
    (RG := RefX509.rcgen) (RS := rustls_ok) (UCL := client_ok) (AT := sample_mock_attester) mock_attester
    (Some (lit "key")) sample_cli)) as [srv E]; [vm_compute; reflexivity|].
  destruct (online_hash_matches_relay (UC := Ref.url) (UT := Ref.unicode) (SC := Ref.sha2)
    (SL := Ref.sha2_laws) (RG := RefX509.rcgen) (RS := rustls_ok) (UCL := client_ok) (XC := RefX509.x509)
    (XL := RefX509.laws) (AT := sample_mock_attester) _ _ _ _ srv sample_mirrors E)
    as (h & _ & _ & Hh & _).
  exists srv, h. split; [exact E|exact Hh].
Defined.

Module RefCheck.
(** An SEV-SNP report of zeros with its data, and a verifier that reads it. *)
Definition report (rd : bytes) : bytes := zeros 80 ++ rd ++ zeros 1040.
Definition cert (t : TeeType) (d : bytes) : bytes :=
  RefX509.enc (lit "key") ++ [tee_type_to_byte t] ++ d.
Definition reader : Verifier AnyVerifier := fun _ ev m =>
  if bool_decide (m = Some (zeros 48)) then Ok (take 64 (drop 80 (data ev)))
  else Err (Other (lit "measurement")).
Definition b64 : Base64Std := fun _ => Some (lit "{x}").

(** A token service as in [RefGcp], over HTTP with a warm cache, whose one token carries
    the key of the certificate and no configuration hash. *)
Definition rd0 : bytes := sha384 (Sha2Crate := Ref.sha2) (lit "key") ++ zeros 16.
Definition claims : ConfidentialSpaceClaims := {|
  aud := lit "relay"; dbgstat := lit "disabled-since-boot";
  eat_nonce := Many (reportdata_nonces (B64 := Ref.base64) rd0);
  exp := 100; google_service_accounts := []; iat := 0; iss := DEFAULT_ISSUER; nbf := 0;
  secboot := true; sub := []; swname := lit "CONFIDENTIAL_SPACE"; swversion := [];
  submods := submods RefGcp.claims; extra := [] |}.
Definition jwt : JwtCrate := {|
  jwt_decode_header _ := Some (RS256, Some (lit "k1"));
  rsa_key n _ := Some n;
  jwt_signed token _ := bool_decide (token = lit "h.p.s");
  jwt_decode token _ _ _ := if bool_decide (token = lit "h.p.s") then Some claims else None |}.
Definition key_json : KeyJson := {|
  jwks_from_value _ := Some {| keys := [RefGcp.jwk] |};
  well_known_from_value _ := Some {| wk_jwks_uri := lit "https://keys.example/jwks" |} |}.
Definition entry : CacheEntry := {| entry_fetched_at := 0; entry_body := VNull |}.
Definition world : World := {|
  now_secs := 50; system_time := Some 50;
  kds_state := {| SevSnp.cert_cache := ∅; SevSnp.clock := 0 |};
  json_state := {| json_cache := <[well_known_url DEFAULT_ISSUER := entry]>
                     {[lit "https://keys.example/jwks" := entry]}; json_clock := 0 |} |}.
End RefCheck.

Lemma online_strict_agrees_witness :
  verify_server_cert (SC := Ref.sha2) (HX := Ref.hex) (XC := RefX509.x509) (VF := RefCheck.reader)
    (attested_client_config AnySevVerifier (Some (zeros 48)) (Some (zeros 32)))
    (RefCheck.cert SevSnp (RefCheck.report RefCheck.rd0)) = Ok tt.
Proof.
  refine (proj1 (proj1 (online_strict_agrees (UC := Ref.url) (UT := Ref.unicode) (SC := Ref.sha2)
    (SL := Ref.sha2_laws) (HX := Ref.hex) (XC := RefX509.x509) (BS := RefCheck.b64)
    (JC := Ref.json) (VA := RefCheck.reader)
    {| sev_snp := true; gcp_confidential_space := true; mock := true |}
    (sample_check SevBackend StrictMode (Some (replicate 96 "0"%byte)) (Some (replicate 64 "0"%byte)))
    (Some (zeros 48)) (Some (zeros 32)) AnySevVerifier
    (RefCheck.cert SevSnp (RefCheck.report RefCheck.rd0)) _ _ _ _) _)).
  - vm_compute. reflexivity.
  - reflexivity.
  - reflexivity.
  - reflexivity.
  - vm_compute. reflexivity.
Defined.

Lemma gcp_audit_demands_zero_hash_witness :
  exists ev, extract_evidence_from_cert (XC := RefX509.x509)
      (RefCheck.cert GcpConfidentialSpace (lit "h.p.s")) = Ok ev /\
    tee_type ev = GcpConfidentialSpace.
Proof.
  destruct (gcp_audit_demands_zero_hash (UC := Ref.url) (SC := Ref.sha2) (SL := Ref.sha2_laws)
    (HX := Ref.hex) (XC := RefX509.x509) (BS := RefCheck.b64) (ED := RefMock.ed25519)
    (QJ := RefMock.json) (EC := SevSnp.RefSev.crates) (BP := false) (HH := RefGcp.host)
    (JC := Ref.json) (KJ := RefCheck.key_json) (JW := RefCheck.jwt) (B64 := Ref.base64)
    (W := RefCheck.world) {| sev_snp := true; gcp_confidential_space := true; mock := true |}
    (sample_check GcpCsBackend AuditMode None None) None
    (RefCheck.cert GcpConfidentialSpace (lit "h.p.s"))) as (ev & spki & v & He & _).
  - reflexivity.
  - reflexivity.
  - reflexivity.
  - vm_compute. reflexivity.
  - exists ev. split; [exact He|]. vm_compute in He. by injection He as <-.
Defined.
