(* ===== verification/OnlinePrint.v ===== *)
(** * What the online check prints

    The output of [tools/online-check/src/main.rs]: what is printed about the certificate
    before anything is verified, the result line after the verification, and the health
    response. The state is the list of the texts printed so far; each ends in a line feed
    on standard output, but may contain others. *)

From S2P Require Import Prelude RustStr BTree Extern Config ConfigHash Attest MockTee AttestedTls.
From S2P Require Import SnpReport GcpPolicy GcpCs Backends Server OnlineCheck.

Local Open Scope N_scope.

(** ** Texts *)

(** [String::from_utf8_lossy]: U+FFFD replaces the longest prefix of a character that the
    bytes have, or one byte. *)
Definition replacement : bytes := ["239"%byte; "191"%byte; "189"%byte].
Definition second_of_three (a b : byte) : bool :=
  (b2n a =? 0xE0) && in_range 0xA0 0xBF b || in_range 0xE1 0xEC a && cont b
  || (b2n a =? 0xED) && in_range 0x80 0x9F b || in_range 0xEE 0xEF a && cont b.
Definition second_of_four (a b : byte) : bool :=
  (b2n a =? 0xF0) && in_range 0x90 0xBF b || in_range 0xF1 0xF3 a && cont b
  || (b2n a =? 0xF4) && in_range 0x80 0x8F b.
Fixpoint from_utf8_lossy (s : bytes) : bytes :=
  match s with
  | [] => []
  | a :: s1 =>
      if is_ascii a then a :: from_utf8_lossy s1 else
      match s1 with
      | [] => replacement
      | b :: s2 =>
          if in_range 0xC2 0xDF a && cont b then a :: b :: from_utf8_lossy s2
          else if second_of_three a b then
            match s2 with
            | c :: s3 => if cont c then a :: b :: c :: from_utf8_lossy s3
                         else replacement ++ from_utf8_lossy s2
            | [] => replacement
            end
          else if second_of_four a b then
            match s2 with
            | c :: s3 =>
                if cont c then
                  match s3 with
                  | d :: s4 => if cont d then a :: b :: c :: d :: from_utf8_lossy s4
                               else replacement ++ from_utf8_lossy s3
                  | [] => replacement
                  end
                else replacement ++ from_utf8_lossy s2
            | [] => replacement
            end
          else replacement ++ from_utf8_lossy s1
      end
  end.

(** [{:016x}] of a 64-bit number. *)
Definition hex_nibble (n : N) : byte := if n <? 10 then n2b (48 + n) else n2b (87 + n).
Definition hex16 (n : N) : bytes :=
  map (fun i => hex_nibble (N.land (N.shiftr n (4 * i)) 15))
    [15; 14; 13; 12; 11; 10; 9; 8; 7; 6; 5; 4; 3; 2; 1; 0].
Definition show_bool (b : bool) : bytes := if b then lit "true" else lit "false".

(** [s.rsplit(sub).next()] for a non-empty [sub]: what follows its last occurrence. *)
Fixpoint after_last (sub s : bytes) : option bytes :=
  match s with
  | [] => strip_prefix sub []
  | _ :: s' => match after_last sub s' with Some r => Some r | None => strip_prefix sub s end
  end.
Definition rsplit_next (sub s : bytes) : bytes := default s (after_last sub s).

(** The subject of a certificate as x509-parser shows it, if it parses, and
    [Value::to_string] of serde_json. *)
Class PrintCrates := {
  x_subject : bytes -> option bytes;
  json_text : Value -> bytes;
}.

Abbreviation printing := (stm (list bytes) CheckError).

Definition println (text : bytes) : printing unit := fun out => (Ok tt, out ++ [text]).
Definition print_all (texts : list bytes) : printing unit := fun out => (Ok tt, out ++ texts).

(** ** The report *)

Section print.
Context {HX : HexCrate} {PC : PrintCrates}.

Definition certificate_lines (subject : bytes) (cert_len : N) (cert_spki_hash : bytes) : list bytes :=
  [lit "certificate.subject=" ++ subject;
   lit "certificate.der_len=" ++ dec cert_len;
   lit "certificate.spki_sha384=" ++ hex_encode cert_spki_hash].

Definition print_report (subject : bytes) (cert_len : N) (cert_spki_hash : bytes)
  (details : ReportDetails) (expected_config_hash : option bytes) : printing unit :=
  print_all (certificate_lines subject cert_len cert_spki_hash ++
    [lit "report.measurement=" ++ hex_encode (rd_measurement details);
     lit "report.reportdata=" ++ hex_encode (reportdata details);
     lit "report.reportdata_spki=" ++ hex_encode (take 48 (reportdata details));
     lit "report.reportdata_config16=" ++ hex_encode (take 16 (drop 48 (reportdata details)));
     lit "report.policy=0x" ++ hex16 (rd_policy details);
     lit "report.debug_allowed=" ++ show_bool (debug_allowed details);
     lit "report.reported_tcb=0x" ++ hex16 (rd_reported_tcb details);
     lit "report.chip_id_prefix=" ++ chip_id_prefix details] ++
    match expected_config_hash with
    | Some hash => [lit "expected.config_hash=" ++ hex_encode hash;
                    lit "expected.config_hash16=" ++ hex_encode (take 16 hash)]
    | None => []
    end).

Definition json_string (value : Value) (key : bytes) : bytes :=
  default (lit "<missing>") (value_get key value ≫= value_as_str).
Definition json_value (value : Value) (key : bytes) : bytes :=
  default (lit "null") (json_text <$> value_get key value).

Definition token_lines (claims : Value) : list bytes :=
  [lit "token.issuer=" ++ json_string claims (lit "iss");
   lit "token.audience=" ++ json_string claims (lit "aud");
   lit "token.swname=" ++ json_string claims (lit "swname");
   lit "token.dbgstat=" ++ json_string claims (lit "dbgstat");
   lit "token.service_accounts=" ++ json_value claims (lit "google_service_accounts")] ++
  match value_get (lit "submods") claims with
  | Some submods =>
      match value_get (lit "container") submods with
      | Some container =>
          [lit "token.container.image_digest=" ++ json_string container (lit "image_digest");
           lit "token.container.image_reference=" ++ json_string container (lit "image_reference");
           lit "token.container.image_signatures=" ++ json_value container (lit "image_signatures")]
      | None => []
      end ++
      match value_get (lit "gce") submods with
      | Some gce =>
          [lit "token.gce.project_id=" ++ json_string gce (lit "project_id");
           lit "token.gce.zone=" ++ json_string gce (lit "zone");
           lit "token.gce.instance_name=" ++ json_string gce (lit "instance_name")]
      | None => []
      end
  | None => []
  end.

Definition print_gcp_confidential_space_token {BS : Base64Std} {JC : JsonCrate} (subject : bytes)
  (cert_len : N) (cert_spki_hash token : bytes) : printing unit :=
  claims ← pure (token_claims token);
  print_all (certificate_lines subject cert_len cert_spki_hash ++ token_lines claims).

(** ** The health response *)

Definition health_lines (response : bytes) : list bytes :=
  [lit "health.status=" ++ default (lit "<empty>") (head (lines response));
   lit "health.body=" ++ trim (rsplit_next (crlf ++ crlf) response)].
Definition print_health (response : option bytes) : printing unit :=
  match response with
  | Some response => print_all (health_lines response)
  | None => mret tt
  end.

(** ** The check with its output *)

Definition mode_name (m : Mode) : bytes :=
  match m with AuditMode => lit "Audit" | StrictMode => lit "Strict" end.
Definition backend_name (b : Backend) : bytes :=
  match b with SevBackend => lit "SevSnp" | GcpCsBackend => lit "GcpConfidentialSpace" end.
Definition result_line (cli : OnlineCli) : bytes :=
  lit "RESULT: OK - " ++ backend_name (oc_backend cli) ++ lit "/" ++ mode_name (oc_mode cli)
  ++ lit " verification succeeded".

Section main.
Context {UC : UrlCrate} {SC : Sha2Crate} {XC : X509Crate} {BS : Base64Std}.
Context {JC : JsonCrate} {VA : Verifier AnyVerifier}.

Definition print_evidence (cli : OnlineCli) (expected_config_hash : option bytes) (cert_der data : bytes)
  (cert_spki_hash : bytes) : printing unit :=
  let subject := default (lit "<unparseable>") (x_subject cert_der) in
  match oc_backend cli with
  | SevBackend =>
      details ← pure (report_details data);
      print_report subject (len cert_der) cert_spki_hash details expected_config_hash
  | GcpCsBackend => print_gcp_confidential_space_token subject (len cert_der) cert_spki_hash data
  end.

(** The second part of [main]. *)
Definition main_output (f : ClientFeatures) (cli : OnlineCli)
  (expected_measurement expected_config_hash : option bytes) (cert : CapturedCert)
  : printing unit :=
  let response := from_utf8_lossy <$> health_response cert in
  evidence ← pure (map_err NoEvidence (extract_evidence_from_cert (der cert)));
  _ ← pure (ensure (bool_decide (tee_type evidence = expected_tee_type cli))
        (WrongTee (expected_tee_type cli) (tee_type evidence)));
  spki ← pure (map_err NoSpki (extract_spki_from_cert (der cert)));
  let cert_spki_hash := sha384 spki in
  _ ← print_evidence cli expected_config_hash (der cert) (data evidence) cert_spki_hash;
  if oc_print_only cli then print_health response
  else
    verifier ← pure (verifier_for_backend f cli);
    let expected_attestation_data :=
      match oc_backend cli with
      | SevBackend => match oc_mode cli with
                      | AuditMode => None
                      | StrictMode => expected_measurement
                      end
      | GcpCsBackend => Some (expected_reportdata cert_spki_hash expected_config_hash)
      end in
    let config_hash_for_verify :=
      match oc_mode cli with AuditMode => None | StrictMode => expected_config_hash end in
    reportdata ← pure (map_err EvidenceRefused (verify verifier evidence expected_attestation_data));
    _ ← pure (verify_reportdata reportdata cert_spki_hash config_hash_for_verify);
    _ ← println (result_line cli);
    print_health response.
End main.
End print.

(** Standard output. *)
Definition stdout (texts : list bytes) : bytes := unlines texts.

Example lossy_examples :
  map from_utf8_lossy [lit "ok"; ["195"%byte; "169"%byte]; ["195"%byte; "x"%byte]; ["226"%byte; "130"%byte];
    ["240"%byte; "159"%byte; "146"%byte; "x"%byte]; ["255"%byte; "128"%byte]] =
  [lit "ok"; ["195"%byte; "169"%byte]; replacement ++ lit "x"; replacement; replacement ++ lit "x";
   replacement ++ replacement].
Proof. vm_compute. reflexivity. Qed.
Example rsplit_examples :
  map (rsplit_next (lit "--")) [lit "a--b--c"; lit "abc"; lit "a---"; lit ""] = [lit "c"; lit "abc"; lit ""; lit ""].
Proof. vm_compute. reflexivity. Qed.
Example hex16_example : hex16 0x30000 = lit "0000000000030000".
Proof. vm_compute. reflexivity. Qed.

(** ** Facts *)

(** Every text but the result line starts with one of these. *)
Definition labels : list bytes :=
  [lit "certificate."; lit "report."; lit "expected."; lit "token."; lit "health."].
Definition labelled (text : bytes) : bool := existsb (fun l => starts_with l text) labels.

Lemma result_not_labelled cli : labelled (result_line cli) = false.
Proof. unfold result_line. by destruct (oc_backend cli), (oc_mode cli). Qed.

Ltac label_all :=
  repeat first [apply Forall_nil_2|apply Forall_cons_2; [vm_compute; reflexivity|]|apply Forall_app_2].

Lemma split_char_app c u r : split_char c (u ++ c :: r) = split_char c u ++ split_char c r.
Proof.
  induction u as [|b u IH]; cbn [app split_char]; [by rewrite decide_True|].
  case_decide; [by rewrite IH|]. rewrite IH.
  pose proof (split_char_not_nil c u). by destruct (split_char c u).
Qed.
Lemma split_char_none c u : c ∉ u -> split_char c u = [u].
Proof.
  induction u as [|b u IH]; [done|]. rewrite elem_of_cons. intros H. cbn [split_char].
  rewrite decide_False by naive_solver. by rewrite IH by naive_solver.
Qed.

(** The lines of the output are those of the printed texts. *)
Lemma stdout_lines texts : split_char byte_lf (stdout texts) = flat_map (split_char byte_lf) texts ++ [[]].
Proof.
  induction texts as [|t texts IH]; [done|]. unfold stdout in *. cbn [unlines flat_map].
  unfold nl. rewrite <-!app_assoc. cbn [app]. rewrite split_char_app. f_equal. exact IH.
Qed.

Lemma stdout_text t l texts : t ∈ texts -> l ∈ split_char byte_lf t -> l ∈ split_char byte_lf (stdout texts).
Proof.
  intros Ht Hl. rewrite stdout_lines. apply elem_of_app. left. apply list_elem_of_In, in_flat_map.
  exists t. by split; apply list_elem_of_In.
Qed.

Lemma stdout_clean texts : Forall no_lf texts -> split_char byte_lf (stdout texts) = texts ++ [[]].
Proof.
  intros H. rewrite stdout_lines. f_equal. induction H as [|t texts Ht _ IH]; [done|].
  cbn [flat_map]. by rewrite split_char_none, IH.
Qed.

(** A text after a line feed is a line of its own. *)
Lemma inner_line u l : no_lf l -> l ∈ split_char byte_lf (u ++ byte_lf :: l).
Proof. intros H. rewrite split_char_app, (split_char_none _ l) by done. apply elem_of_app. right. by left. Qed.

Lemma pure_step {A B} (r : outcome CheckError A) (f : A -> printing B) out :
  (pure r ≫= f) out =
  match r with Ok a => f a out | Err e => (Err e, out) | Panic => (Panic, out) end.
Proof. done. Qed.
Lemma outcome_step {A B} (r : outcome CheckError A) (f : A -> outcome CheckError B) :
  r ≫= f = match r with Ok a => f a | Err e => Err e | Panic => Panic end.
Proof. done. Qed.

Section output.
Context {HX : HexCrate} {PC : PrintCrates}.
Context {UC : UrlCrate} {SC : Sha2Crate} {XC : X509Crate} {BS : Base64Std}.
Context {JC : JsonCrate} {VA : Verifier AnyVerifier}.

Lemma print_evidence_texts cli h cert_der d k out :
  exists texts, print_evidence cli h cert_der d k out = (printable cli d, out ++ texts) /\
    Forall (fun t => labelled t = true) texts /\
    forall claims, oc_backend cli = GcpCsBackend -> token_claims d = Ok claims ->
      Forall (fun t => t ∈ texts) (token_lines claims).
Proof.
  unfold print_evidence, printable. destruct (oc_backend cli).
  - unfold mbind, stm_bind, pure, outcome_bind. destruct (report_details d) as [details|e|].
    + unfold print_report, print_all. eexists. split; [reflexivity|]. split; [|done]. label_all.
      destruct h; label_all.
    + exists []. by rewrite app_nil_r.
    + exists []. by rewrite app_nil_r.
  - unfold print_gcp_confidential_space_token, mbind, stm_bind, pure, outcome_bind.
    destruct (token_claims d) as [claims|e|].
    + unfold print_all. eexists. split; [reflexivity|]. split.
      * label_all. unfold token_lines. label_all.
        destruct (value_get (lit "submods") claims) as [sub|]; [|constructor].
        destruct (value_get (lit "container") sub), (value_get (lit "gce") sub); label_all.
      * intros c _ [= <-]. apply Forall_forall. intros t Ht. apply elem_of_app. by right.
    + exists []. by rewrite app_nil_r.
    + exists []. by rewrite app_nil_r.
Qed.

Lemma print_health_texts r out : exists texts, print_health r out = (Ok tt, out ++ texts) /\
  Forall (fun t => labelled t = true) texts.
Proof.
  destruct r as [r|]; [|exists []; by rewrite app_nil_r]. eexists. split; [reflexivity|].
  unfold health_lines. label_all.
Qed.

(** Printing changes no outcome, and the output is what is known of the certificate, the
    result line after a verification that succeeded, and the health response. *)
Lemma main_output_texts f cli em eh cert out :
  let r := check_cert f cli em eh (der cert) in
  exists ev h, main_output f cli em eh cert out =
      (r, out ++ ev ++ (if is_ok r && negb (oc_print_only cli) then [result_line cli] else []) ++ h) /\
    Forall (fun t => labelled t = true) (ev ++ h) /\
    forall evidence spki claims, extract_evidence_from_cert (der cert) = Ok evidence ->
      tee_type evidence = expected_tee_type cli -> extract_spki_from_cert (der cert) = Ok spki ->
      oc_backend cli = GcpCsBackend -> token_claims (data evidence) = Ok claims ->
      Forall (fun t => t ∈ ev) (token_lines claims).
Proof.
  assert (Hstop : forall (P : list bytes -> Prop) (x : outcome CheckError unit), P [] -> is_ok x = false ->
    exists ev h, (x, out) = (x, out ++ ev ++ (if is_ok x && negb (oc_print_only cli)
      then [result_line cli] else []) ++ h) /\ Forall (fun t => labelled t = true) (ev ++ h) /\ P ev).
  { intros P x HP Hx. exists [], []. rewrite Hx. cbn [andb app]. rewrite app_nil_r. by split_and!. }
  cbv zeta. unfold main_output, check_cert. cbv zeta.
  rewrite pure_step, outcome_step. destruct (extract_evidence_from_cert (der cert)) as [evidence|e|];
    cbn [map_err]; [|by apply Hstop..].
  rewrite pure_step, outcome_step. destruct (ensure _ _) as [u|e|] eqn:Et; 
    [|apply Hstop; [|done]; intros ? ? ? [= <-] Ht; unfold ensure in Et; by rewrite bool_decide_eq_true_2 in Et..].
  rewrite pure_step, outcome_step. destruct (extract_spki_from_cert (der cert)) as [spki|e|];
    cbn [map_err]; [|by apply Hstop..].
  destruct (print_evidence_texts cli eh (der cert) (data evidence) (sha384 spki) out) as (ev & Hev & Hl & Htok).
  rewrite outcome_step. unfold mbind at 1, stm_bind at 1. rewrite Hev.
  assert (Htok' : forall evidence' spki' claims, Ok (E := AttestError) evidence = Ok evidence' ->
      tee_type evidence' = expected_tee_type cli -> Ok (E := AttestError) spki = Ok spki' ->
      oc_backend cli = GcpCsBackend -> token_claims (data evidence') = Ok claims ->
      Forall (fun t => t ∈ ev) (token_lines claims)).
  { intros ? ? claims [= <-] _ _. by apply Htok. }
  clear Hev Htok. destruct (print_health_texts (from_utf8_lossy <$> health_response cert)
    (out ++ ev)) as (h & Hh & Hlh).
  assert (Hfail : forall x : outcome CheckError unit, is_ok x = false -> exists ev0 h0, (x, out ++ ev) =
      (x, out ++ ev0 ++ (if is_ok x && negb (oc_print_only cli) then [result_line cli] else []) ++ h0) /\
      Forall (fun t => labelled t = true) (ev0 ++ h0) /\ forall evidence' spki' claims,
      Ok (E := AttestError) evidence = Ok evidence' -> tee_type evidence' = expected_tee_type cli ->
      Ok (E := AttestError) spki = Ok spki' -> oc_backend cli = GcpCsBackend ->
      token_claims (data evidence') = Ok claims -> Forall (fun t => t ∈ ev0) (token_lines claims)).
  { intros x Hx. exists ev, []. rewrite Hx. cbn [andb app]. rewrite !app_nil_r. by split_and!. }
  destruct (printable cli (data evidence)) as [[]|e|]; [|by apply Hfail..].
  destruct (oc_print_only cli) eqn:Hpo.
  { exists ev, h. rewrite Hh. cbn [is_ok negb andb app]. rewrite <-app_assoc.
    split_and!; [done|by apply Forall_app_2|done]. }
  rewrite pure_step, outcome_step. destruct (verifier_for_backend f cli) as [v|e|]; [|by apply Hfail..].
  rewrite pure_step, outcome_step. destruct (map_err EvidenceRefused _) as [rd|e|]; [|by apply Hfail..].
  rewrite pure_step. destruct (verify_reportdata _ _ _) as [[]|e|]; [|by apply Hfail..].
  destruct (print_health_texts (from_utf8_lossy <$> health_response cert)
    ((out ++ ev) ++ [result_line cli])) as (h' & Hh' & Hlh').
  unfold println, mbind, stm_bind. rewrite Hh'. exists ev, h'. cbn [is_ok negb andb].
  rewrite <-!app_assoc. split_and!; [done|by apply Forall_app_2|done].
Qed.
End output.

(** ** Properties *)

(** C38: What the online check prints is faithful to what it decides: printing changes no
    outcome, and as long as no text taken from the relay holds a line feed, the line
    RESULT: OK is in the output exactly when the check ran to the end of a verification
    that succeeded. *)
Theorem result_line_exact {HX : HexCrate} {PC : PrintCrates} {UC : UrlCrate} {SC : Sha2Crate}
  {XC : X509Crate} {BS : Base64Std} {JC : JsonCrate} {VA : Verifier AnyVerifier}
  (f : ClientFeatures) (cli : OnlineCli) (em eh : option bytes) (cert : CapturedCert) r texts
  (Hm : main_output f cli em eh cert [] = (r, texts)) :
  r = check_cert f cli em eh (der cert) /\
  (Forall no_lf texts ->
     result_line cli ∈ split_char byte_lf (stdout texts) <-> r = Ok tt /\ oc_print_only cli = false).
Proof.
  destruct (main_output_texts f cli em eh cert []) as (ev & h & E & Hl & _).
  rewrite Hm in E. injection E as -> ->. split; [done|]. intros Hno. rewrite (stdout_clean _ Hno).
  assert (Hnot : forall t, labelled t = true -> result_line cli <> t).
  { intros t Ht <-. by rewrite result_not_labelled in Ht. }
  cbn [app] in *. rewrite Forall_app, !Forall_forall in Hl. destruct Hl as [Hle Hlh].
  rewrite !elem_of_app, list_elem_of_singleton. split.
  - intros [[Hin|[Hin|Hin]]|Hin]; [by destruct (Hnot _ (Hle _ Hin))| |by destruct (Hnot _ (Hlh _ Hin))|done].
    destruct (check_cert f cli em eh (der cert)) as [[]|e|], (oc_print_only cli); cbn [is_ok negb andb] in Hin;
      (done || by apply elem_of_nil in Hin).
  - intros [Hr Hp]. rewrite Hr, Hp. cbn [is_ok negb andb]. left. right. left. by left.
Qed.

(** The condition is needed: a token whose issuer holds a line feed, which nobody has
    verified when it is printed, puts the result line into the output of a check that
    fails. *)
Theorem result_line_forged {HX : HexCrate} {PC : PrintCrates} {UC : UrlCrate} {SC : Sha2Crate}
  {XC : X509Crate} {BS : Base64Std} {JC : JsonCrate} {VA : Verifier AnyVerifier}
  (f : ClientFeatures) (cli : OnlineCli) (em eh : option bytes) (cert : CapturedCert) r texts
  (Hm : main_output f cli em eh cert [] = (r, texts)) (Hb : oc_backend cli = GcpCsBackend)
  evidence spki claims issuer (He : extract_evidence_from_cert (der cert) = Ok evidence)
  (Ht : tee_type evidence = GcpConfidentialSpace) (Hs : extract_spki_from_cert (der cert) = Ok spki)
  (Hc : token_claims (data evidence) = Ok claims)
  (Hi : value_get (lit "iss") claims = Some (VString (issuer ++ byte_lf :: result_line cli))) :
  result_line cli ∈ split_char byte_lf (stdout texts).
Proof.
  destruct (main_output_texts f cli em eh cert []) as (ev & h & E & _ & Htok).
  rewrite Hm in E. injection E as _ ->. cbn [app].
  assert (Hexp : tee_type evidence = expected_tee_type cli) by (unfold expected_tee_type; by rewrite Hb).
  specialize (Htok _ _ _ He Hexp Hs Hb Hc). unfold token_lines in Htok. apply Forall_cons in Htok as [Hin _].
  unfold json_string in Hin. rewrite Hi in Hin. cbn [mbind option_bind value_as_str default id] in Hin.
  rewrite app_assoc in Hin. eapply stdout_text; [apply elem_of_app; left; exact Hin|].
  apply inner_line. unfold result_line, no_lf. apply (bool_decide_unpack _).
  by destruct (oc_backend cli), (oc_mode cli).
Qed.

(** ** Witnesses *)

Module RefPrint.
#[export] Instance crates : PrintCrates := {|
  x_subject _ := Some (lit "CN=rcgen self signed cert"); json_text _ := lit "[]" |}.
(** A JSON parser that reads every text as a token with a forged issuer. *)
Definition forged (cli : OnlineCli) : JsonCrate := fun _ =>
  Some (VObject [(lit "iss", VString (lit "x" ++ byte_lf :: result_line cli))]).
End RefPrint.

Lemma result_line_exact_witness :
  exists texts, main_output (HX := Ref.hex) (PC := RefPrint.crates) (UC := Ref.url) (SC := Ref.sha2)
      (XC := RefX509.x509) (BS := RefCheck.b64) (JC := Ref.json) (VA := RefCheck.reader)
      {| sev_snp := true; gcp_confidential_space := true; mock := true |}
      (sample_check SevBackend StrictMode (Some (replicate 96 "0"%byte)) (Some (replicate 64 "0"%byte)))
      (Some (zeros 48)) (Some (zeros 32))
      {| der := RefCheck.cert SevSnp (RefCheck.report RefCheck.rd0);
         health_response := Some (lit "HTTP/1.1 200 OK" ++ crlf ++ crlf ++ lit "ok") |} []
    = (Ok tt, texts) /\ lit "RESULT: OK - SevSnp/Strict verification succeeded" ∈ split_char byte_lf (stdout texts).
Proof.
  match goal with |- exists texts, ?m = _ /\ _ => destruct m as [r texts] eqn:E end.
  destruct (result_line_exact _ _ _ _ _ r texts E) as [_ H].
  assert (Hr : r = Ok tt) by (vm_compute in E; by injection E as <- _).
  exists texts. split; [by rewrite Hr|]. apply H; [|by split].
  clear H Hr. vm_compute in E. injection E as _ <-. apply (bool_decide_unpack _). vm_compute. reflexivity.
Defined.

Lemma result_line_forged_witness :
  let cli := sample_check GcpCsBackend AuditMode None None in
  exists e texts, main_output (HX := Ref.hex) (PC := RefPrint.crates) (UC := Ref.url) (SC := Ref.sha2)
      (XC := RefX509.x509) (BS := RefCheck.b64) (JC := RefPrint.forged cli) (VA := fun _ _ _ => Err (Other (lit "refused")))
      {| sev_snp := true; gcp_confidential_space := true; mock := true |} cli None None
      {| der := RefCheck.cert GcpConfidentialSpace (lit "h.p.s"); health_response := None |} []
    = (Err e, texts) /\ result_line cli ∈ split_char byte_lf (stdout texts).
Proof.
  cbv zeta.
  match goal with |- exists e texts, ?m = _ /\ _ => destruct m as [r texts] eqn:E end.
  destruct r as [u|e|]; [exfalso; vm_compute in E; discriminate E| |exfalso; vm_compute in E; discriminate E].
  exists e, texts. split; [reflexivity|].
  destruct (is_ok_Ok (extract_evidence_from_cert (XC := RefX509.x509)
    (RefCheck.cert GcpConfidentialSpace (lit "h.p.s")))) as [ev He]; [vm_compute; reflexivity|].
  destruct (is_ok_Ok (extract_spki_from_cert (XC := RefX509.x509)
    (RefCheck.cert GcpConfidentialSpace (lit "h.p.s")))) as [sp Hs]; [vm_compute; reflexivity|].
  destruct (is_ok_Ok (token_claims (BS := RefCheck.b64)
    (JC := RefPrint.forged (sample_check GcpCsBackend AuditMode None None)) (data ev))) as [cl Hc];
    [vm_compute in He; injection He as <-; vm_compute; reflexivity|].
  refine (result_line_forged _ _ _ _ _ _ _ E eq_refl ev sp cl (lit "x") He _ Hs Hc _).
  - vm_compute in He. by injection He as <-.
  - vm_compute in He. injection He as <-. vm_compute in Hc. injection Hc as <-. vm_compute. reflexivity.
Defined.
