(* ===== verification/EndToEnd.v ===== *)
(** * From the local application to the provider

    The parts put together: a client that pins the configuration hash of a configuration
    it has read, the relay whose certificate passes the client's check, and everything
    that relay sends afterwards. The local proxy stands for the client in the second
    part. *)

From S2P Require Import Prelude RustStr BTree Extern Config ConfigHash Secrets AppError Proxy.
From S2P Require Import Attest MockTee AttestedTls Server RelaySpec Backends Reports.
From S2P Require SevSnp GcpCs LocalProxy OnlineCheck.

Local Open Scope N_scope.

(** ** What a client can conclude about the relay *)

(** These two different texts have SHA-256 digests that agree on the attested half. (That
    some two texts do follows from the length of the digest.) *)
Definition half_collision {SC : Sha2Crate} (m1 m2 : bytes) : Prop :=
  m1 <> m2 /\ take 16 (sha256 m1) = take 16 (sha256 m2).

(** The requests of a relay that serves [c]: every one a handler sends fits and goes to the
    default upstream, and unless the client's own authorization is allowed, it carries one
    credential that was there from the start or was accepted before; and every other one
    is reached from one of those by at most ten redirects. *)
Record serves_only {HV : HeaderValueCrate} {M : Type} {HM : HeaderMapCrate M} {RD : RedirectRule M}
  (c : RelayConfig) (initial : ProviderCredentialStore) (tr : list (Action M)) : Prop := {
  serves_sent : forall pre req post, tr = pre ++ Sent req :: post ->
    len (rq_body req) <= max_request_bytes c /\
    rq_url req = upstream_url (default_upstream c) None /\
    (allow_client_provider_auth (runtime c) = false ->
     exists cr, hm_get_all (lit "authorization") (rq_headers req)
                  = [auth_scheme cr ++ lit " " ++ token cr] /\
       (initial = Some cr \/ (Injected cr NO_CONTENT ∈ pre /\ ProviderCredential_validate cr = Ok tt)));
  serves_followed : forall pre from req post, tr = pre ++ Followed from req :: post ->
    exists first n, Sent first ∈ pre /\ (n < 10)%nat /\ redirected n first from /\
      redirected (S n) first req;
}.

Section conclude.
Context {UC : UrlCrate} {UT : UnicodeTables} {SC : Sha2Crate} {SL : Sha2Laws} {HX : HexCrate}.
Context {KP : Type} {RG : RcgenCrate KP} {RS : RustlsServer} {UCL : UpstreamClient}.
Context {XC : X509Crate} {XL : X509Laws KP}.
Context {A V : Type} {AT : Attester A} {VF : Verifier V}.

(** The relay's own hash agrees with a pinned one on the attested half. *)
Lemma accepted_relay_hash (a : A) (generated : option KP) cli srv (c : AttestedCertVerifier V) h :
  Reports a (verifier c) -> start a generated cli = Ok srv ->
  expected_config_hash c = Some h -> length h = 32%nat ->
  AttestedTls.verify_server_cert c (server_cert_der (srv_tls srv)) = Ok tt ->
  (exists kp, generated = Some kp /\
     extract_spki_from_cert (server_cert_der (srv_tls srv)) = Ok (public_key_der kp)) /\
  exists h', config_hash (E := StartError) (config (srv_app srv)) = Ok h' /\ take 16 h' = take 16 h.
Proof.
  intros Hrep Hs He Hl Hok. apply start_Ok in Hs as (_ & _ & (h' & Hh' & Htls) & _).
  assert (Hl' : length h' = 32%nat).
  { unfold config_hash in Hh'. destruct (normalize_upstream_tls_pins _); simplify_eq.
    apply sha256_length. }
  destruct (attested_certificate a h' generated _ Hl' Htls) as (kp & ev & Hg & Ha & Hev & Hk).
  split; [by exists kp|]. exists h'. split; [done|].
  apply verify_server_cert_Ok in Hok as (ev' & spki & rd & Hev' & Hk' & Hv & _ & Hc); [|by rewrite He].
  assert (ev' = ev) as -> by congruence.
  assert (Hlen : length (sha384 (public_key_der kp)) = 48%nat) by apply sha384_length.
  apply (Hrep (sha384 (public_key_der kp) ++ take 16 h')) in Hv as ->; [| |done].
  - rewrite <-(Hc h He), drop_app_length' by done. by rewrite take_take.
  - rewrite length_app, length_take, Hlen, Hl'. done.
Qed.

(** Equal halves of two hashes mean equal configurations unless these two texts collide. *)
Lemma half_hash_binds (c1 c2 : RelayConfig) pins1 pins2 h1 h2 :
  normalize_upstream_tls_pins (upstream_tls_leaf_sha256 c1) = Ok pins1 ->
  normalize_upstream_tls_pins (upstream_tls_leaf_sha256 c2) = Ok pins2 ->
  clean_config c1 pins1 -> clean_config c2 pins2 ->
  config_hash (E := StartError) c1 = Ok h1 -> config_hash (E := StartError) c2 = Ok h2 ->
  take 16 h1 = take 16 h2 ->
  ~ half_collision (config_preimage c1 pins1) (config_preimage c2 pins2) ->
  same_hashed_config c1 c2 pins1 pins2.
Proof.
  unfold config_hash. intros -> -> C1 C2 [= <-] [= <-] Hh Hno.
  apply config_preimage_same; [done..|].
  destruct (decide (config_preimage c1 pins1 = config_preimage c2 pins2)) as [Heq|Hne]; [done|].
  by destruct Hno.
Qed.

(** The upstream client depends on the hashed part of the configuration only. *)
Lemma same_upstream_client c1 c2 pins1 pins2 :
  normalize_upstream_tls_pins (upstream_tls_leaf_sha256 c1) = Ok pins1 ->
  normalize_upstream_tls_pins (upstream_tls_leaf_sha256 c2) = Ok pins2 ->
  same_hashed_config c1 c2 pins1 pins2 ->
  build_upstream_http_client c1 = build_upstream_http_client c2.
Proof.
  intros H1 H2 Hs. unfold build_upstream_http_client, upstream_tls_pin_hosts.
  by rewrite H1, H2, (same_pins _ _ _ _ Hs), (same_timeout _ _ _ _ Hs).
Qed.
End conclude.

(** Everything a started relay sends, in terms of its own configuration. *)
Lemma started_serves {UC : UrlCrate} {UT : UnicodeTables} {SC : Sha2Crate} {SL : Sha2Laws}
  {KP : Type} {RG : RcgenCrate KP} {RS : RustlsServer} {UCL : UpstreamClient} {XC : X509Crate} {XL : X509Laws KP}
  {JC : JsonCrate} {HV : HeaderValueCrate} {M : Type} {HM : HeaderMapCrate M} {HML : HeaderMapLaws M}
  {RD : RedirectRule M} {A : Type} {AT : Attester A} (a : A) (generated : option KP) cli srv tr (s : Running M) :
  start a generated cli = Ok srv -> run (running srv) tr s ->
  serves_only (config (srv_app srv)) (provider_credentials (srv_app srv)) tr.
Proof.
  intros Hs Hrun. pose proof (start_serves _ _ _ _ Hs) as (_ & _ & _ & _ & Hres).
  apply start_Ok in Hs as (Hcli & _ & _ & _ & Hreq & Hcl).
  split; [|intros pre from req post ->; by eapply started_follows]. intros pre req post ->.
  destruct (cli_config_Ok _ _ Hcli) as (Hd & _).
  apply sent_prepared in Hrun as (s1 & client & bd & Hr & Hp & Hcfg & _).
  cbn [running app_state] in Hcfg.
  pose proof Hp as Hp'. apply prepare_request_Ok in Hp' as (base & po & Hlen & Hb & _ & _ & hs & _ & Hq).
  rewrite Hcfg, Hres in Hb. injection Hb as <- <-. rewrite Hcfg in Hlen.
  assert (Hallow : allow_client_provider_auth (runtime (config (srv_app srv))) =
    cli_allow_client_provider_auth cli).
  { unfold cli_config in Hcli. apply bind_Ok in Hcli as (pins & _ & [= <-]). done. }
  split_and!; [by subst req|subst req; cbn [rq_url]; by rewrite Hd|].
  intros Hno. destruct (run_app _ _ _ Hr) as (_ & Hq' & _ & _ & Ho).
  destruct (prepared_carries _ _ _ _ Hp) as (cr & Hc & Hh).
  { rewrite Hq'. cbn [running app_state]. by rewrite Hreq, <-Hallow, Hno. }
  exists cr. split; [exact Hh|]. by apply Ho.
Qed.

Lemma serves_same {HV : HeaderValueCrate} {M : Type} {HM : HeaderMapCrate M} {RD : RedirectRule M} c1 c2 pins1 pins2 initial
  (tr : list (Action M)) : same_hashed_config c1 c2 pins1 pins2 ->
  serves_only c2 initial tr -> serves_only c1 initial tr.
Proof.
  intros [Hr Hd _ _ Hm _ _ _] [H Hf]. split; [|done].
  intros pre req post Heq. rewrite Hr, Hd, Hm. by apply H with post.
Qed.

(** ** What a local application contributes *)

(** What the relay sees of a request the local proxy sends: the body, and the headers it
    forwards; the HTTP client and server may add and change others. *)
Definition delivered {M : Type} {HM : HeaderMapCrate M} (rr : LocalProxy.RelayRequest M)
  (client : M) (bd : bytes) : Prop :=
  bd = LocalProxy.rr_body rr /\
  forall k, k ∈ FORWARDED_REQUEST_HEADERS -> hm_get k client = hm_get k (LocalProxy.rr_headers rr).

Section application.
Context {UC : UrlCrate} {UT : UnicodeTables} {JC : JsonCrate}.
Context {HV : HeaderValueCrate} {M : Type} {HM : HeaderMapCrate M}.

(** The handler reads the forwarded headers of a client and no others. *)
Lemma forwarded_headers_ext (client1 client2 : M) cred :
  (forall k, k ∈ FORWARDED_REQUEST_HEADERS -> hm_get k client1 = hm_get k client2) ->
  forwarded_headers client1 cred = forwarded_headers client2 cred.
Proof.
  unfold forwarded_headers. generalize (hm_empty : M). induction FORWARDED_REQUEST_HEADERS as [|k l IH];
    intros acc H; [done|]. cbn [fold_left]. unfold forward_header at 2 4. rewrite (H k) by set_solver.
  apply IH. set_solver.
Qed.

Lemma prepare_request_ext st (client1 client2 : M) bd :
  (forall k, k ∈ FORWARDED_REQUEST_HEADERS -> hm_get k client1 = hm_get k client2) ->
  prepare_request st client1 bd = prepare_request st client2 bd.
Proof. intros H. unfold prepare_request. by rewrite (forwarded_headers_ext _ _ _ H). Qed.

Lemma delivered_auth {HML : HeaderMapLaws M} (rr : LocalProxy.RelayRequest M) client bd :
  delivered rr client bd -> hm_get_all (lit "authorization") (LocalProxy.rr_headers rr) = [] ->
  hm_get (lit "authorization") client = None.
Proof.
  intros [_ H] Ha. rewrite H by (apply (bool_decide_unpack _); by vm_compute).
  by rewrite hm_get_head, Ha.
Qed.
End application.

(** ** Properties *)

(** C2: A client that pins the configuration hash of a configuration it has read, and whose
    check a relay passes, can rely on that configuration: unless the hashed texts of this
    very configuration and the relay's collide on the attested half of SHA-256, the relay
    it reached holds the certificate's key, was started with a configuration that agrees
    on every security-relevant field, verifies the provider as that configuration says,
    and whatever requests it serves afterwards, in any interleaving, every request a
    handler sends fits that configuration's limit, goes to its default upstream and
    carries the relay's credential, not the client's, and the HTTP client leaves that
    upstream only by following redirects, at most ten for a request. *)
Theorem pinned_relay {UC : UrlCrate} {UT : UnicodeTables} {SC : Sha2Crate} {SL : Sha2Laws} {HX : HexCrate}
  {KP : Type} {RG : RcgenCrate KP} {RS : RustlsServer} {UCL : UpstreamClient} {XC : X509Crate} {XL : X509Laws KP}
  {JC : JsonCrate} {HV : HeaderValueCrate} {M : Type} {HM : HeaderMapCrate M} {HML : HeaderMapLaws M}
  {RD : RedirectRule M} {A V : Type} {AT : Attester A} {VF : Verifier V} (a : A) (client : AttestedCertVerifier V)
  (Hrep : Reports a (verifier client))
  (generated : option KP) (cli : Cli) (srv : Server) (Hs : start a generated cli = Ok srv)
  (audited : RelayConfig) (h : bytes) (pins1 pins2 : btree (list bytes))
  (Hh : config_hash (E := StartError) audited = Ok h) (Hpin : expected_config_hash client = Some h)
  (Hn1 : normalize_upstream_tls_pins (upstream_tls_leaf_sha256 audited) = Ok pins1)
  (Hn2 : normalize_upstream_tls_pins (upstream_tls_leaf_sha256 (config (srv_app srv))) = Ok pins2)
  (Hc1 : clean_config audited pins1) (Hc2 : clean_config (config (srv_app srv)) pins2)
  (Hok : AttestedTls.verify_server_cert client (server_cert_der (srv_tls srv)) = Ok tt)
  (Hcol : ~ half_collision (config_preimage audited pins1) (config_preimage (config (srv_app srv)) pins2)) :
  (exists kp, generated = Some kp /\
     extract_spki_from_cert (server_cert_der (srv_tls srv)) = Ok (public_key_der kp)) /\
  same_hashed_config audited (config (srv_app srv)) pins1 pins2 /\
  build_upstream_http_client audited = Ok (srv_http srv) /\
  forall tr (s : Running M), run (running srv) tr s ->
    serves_only audited (provider_credentials (srv_app srv)) tr.
Proof.
  assert (Hl : length h = 32%nat).
  { unfold config_hash in Hh. rewrite Hn1 in Hh. injection Hh as <-. apply sha256_length. }
  destruct (accepted_relay_hash _ _ _ _ _ _ Hrep Hs Hpin Hl Hok) as [Hk (h' & Hh' & He)].
  pose proof (half_hash_binds _ _ _ _ _ _ Hn1 Hn2 Hc1 Hc2 Hh Hh' (eq_sym He) Hcol) as Hsame.
  split_and!; [done|done| |].
  - rewrite (same_upstream_client _ _ _ _ Hn1 Hn2 Hsame). by apply start_Ok in Hs as (_ & _ & _ & _ & _ & ?).
  - intros tr s Hrun. eapply serves_same; [exact Hsame|]. by eapply started_serves.
Qed.

(** C11: The credential of a local application plays no part: two local requests that agree on
    path, body and every header but Authorization and Host lead, whatever the transport
    does to headers the relay does not forward, to the same upstream request or the same
    refusal in every state of the relay, and the upstream request carries the relay's
    credential or none at all. *)
Theorem local_credential_irrelevant {UC : UrlCrate} {UT : UnicodeTables} {JC : JsonCrate}
  {UR : LocalProxy.UriCrate} {HV : HeaderValueCrate} {M : Type} {HM : HeaderMapCrate M} {HML : HeaderMapLaws M}
  (base : Url) (r1 r2 : LocalProxy.LocalRequest M) (rr1 rr2 : LocalProxy.RelayRequest M)
  (H1 : LocalProxy.relay_request base r1 = Ok rr1) (H2 : LocalProxy.relay_request base r2 = Ok rr2)
  (Hpath : LocalProxy.lr_path_and_query r1 = LocalProxy.lr_path_and_query r2)
  (Hbody : LocalProxy.lr_body r1 = LocalProxy.lr_body r2)
  (Hheaders : forall k, k <> lit "authorization" -> k <> lit "host" ->
     hm_get_all k (LocalProxy.lr_headers r1) = hm_get_all k (LocalProxy.lr_headers r2))
  (client1 client2 : M) (bd1 bd2 : bytes)
  (Hd1 : delivered rr1 client1 bd1) (Hd2 : delivered rr2 client2 bd2) (st : AppState) :
  LocalProxy.rr_uri rr1 = LocalProxy.rr_uri rr2 /\
  prepare_request st client1 bd1 = prepare_request st client2 bd2 /\
  forall req, prepare_request st client1 bd1 = Ok req ->
    hm_get_all (lit "authorization") (rq_headers req) =
    match provider_credentials st with
    | Some c => [auth_scheme c ++ lit " " ++ token c]
    | None => []
    end.
Proof.
  apply LocalProxy.relay_request_Ok in H1 as (Ha1 & Hh1 & Hk1 & _ & Hb1 & Hu1).
  apply LocalProxy.relay_request_Ok in H2 as (Ha2 & Hh2 & Hk2 & _ & Hb2 & Hu2).
  pose proof (delivered_auth _ _ _ Hd1 Ha1) as Hn1.
  split; [|split].
  - destruct Hu1 as (host & port & E1 & E2 & ->), Hu2 as (host' & port' & E3 & E4 & ->).
    rewrite Hpath. congruence.
  - destruct Hd1 as [-> Hd1], Hd2 as [-> Hd2]. rewrite Hb1, Hb2, Hbody. apply prepare_request_ext.
    intros k Hk. rewrite Hd1, Hd2 by done. rewrite !hm_get_head.
    destruct (decide (k = lit "authorization")) as [->|Hka]; [by rewrite Ha1, Ha2|].
    destruct (decide (k = lit "host")) as [->|Hkh]; [by rewrite Hh1, Hh2|].
    by rewrite Hk1, Hk2, Hheaders by done.
  - intros req Hp. rewrite (prepared_headers _ _ _ _ Hp). unfold expected_values.
    rewrite decide_False by (by vm_compute). rewrite decide_True by done.
    unfold credential_headers. destruct (provider_credentials st); [done|].
    unfold forwarded_value. by rewrite Hn1.
Qed.

(** C12: A user who starts the local proxy outside audit mode with the hash of a configuration
    they have read, and whose proxy connects to a relay with a matching backend, gets
    that configuration: unless the hashed texts of this very configuration and the relay's
    collide on the attested half of SHA-256, the relay's configuration agrees on every
    security-relevant field, and every request a handler of the relay sends in any run
    goes where that configuration says and carries the relay's own credential, from where
    the HTTP client follows at most ten redirects. *)
Theorem local_proxy_end_to_end {UC : UrlCrate} {UT : UnicodeTables} {SC : Sha2Crate} {SL : Sha2Laws} {HX : HexCrate}
  {KP : Type} {RG : RcgenCrate KP} {RS : RustlsServer} {UCL : UpstreamClient} {XC : X509Crate} {XL : X509Laws KP}
  {JC : JsonCrate} {HV : HeaderValueCrate} {M : Type} {HM : HeaderMapCrate M} {HML : HeaderMapLaws M}
  {RD : RedirectRule M} {R : Type} {LR : BufRead.LineReader R} {LN : LocalProxy.LocalNet R} {TC : LocalProxy.TlsClient}
  {TB : NetAddr.TcpBind} {A : Type} {AT : Attester A} {VF : Verifier AnyVerifier} (a : A)
  (f : ClientFeatures) (lc : LocalProxy.LocalCli) (rc : LocalProxy.RunConfig)
  (conn : LocalProxy.AttestedConnector AnyVerifier) (t : LocalProxy.Transport)
  (Hm : LocalProxy.main_config f lc = Ok rc) (Hr : LocalProxy.run rc = Ok conn)
  (Haudit : LocalProxy.lc_allow_audit lc = false) (Hrep : Reports a (LocalProxy.rc_verifier rc))
  (generated : option KP) (cli : Cli) (srv : Server) (Hs : start a generated cli = Ok srv)
  (Hconn : LocalProxy.connector_call conn = Ok (t, server_cert_der (srv_tls srv)))
  (audited : RelayConfig) (h : bytes) (pins1 pins2 : btree (list bytes))
  (Hhex : hex_decode (strip_0x (LocalProxy.lc_expected_config_hash lc)) = Some h)
  (Hh : config_hash (E := StartError) audited = Ok h)
  (Hn1 : normalize_upstream_tls_pins (upstream_tls_leaf_sha256 audited) = Ok pins1)
  (Hn2 : normalize_upstream_tls_pins (upstream_tls_leaf_sha256 (config (srv_app srv))) = Ok pins2)
  (Hc1 : clean_config audited pins1) (Hc2 : clean_config (config (srv_app srv)) pins2)
  (Hcol : ~ half_collision (config_preimage audited pins1) (config_preimage (config (srv_app srv)) pins2)) :
  same_hashed_config audited (config (srv_app srv)) pins1 pins2 /\
  forall tr (s : Running M), run (running srv) tr s ->
    serves_only audited (provider_credentials (srv_app srv)) tr.
Proof.
  destruct (LocalProxy.main_pins_hash _ _ _ _ Hm Hr Haudit) as (h' & Hpin & Hl & Hhex').
  assert (h' = h) as -> by congruence.
  apply LocalProxy.connector_call_Ok in Hconn as (_ & Hok).
  destruct (LocalProxy.run_verifier _ _ Hr) as (_ & Hver).
  assert (Hrep' : Reports a (verifier (LocalProxy.tls_config conn))) by by rewrite Hver.
  destruct (accepted_relay_hash _ _ _ _ _ _ Hrep' Hs Hpin Hl Hok) as [_ (h' & Hh' & He)].
  pose proof (half_hash_binds _ _ _ _ _ _ Hn1 Hn2 Hc1 Hc2 Hh Hh' (eq_sym He) Hcol) as Hsame.
  split; [done|]. intros tr s Hrun. eapply serves_same; [exact Hsame|]. by eapply started_serves.
Qed.

(** ** Witnesses *)

(** The relay of [Server.sample_cli] with the mock backend. *)
Definition sample_start : outcome StartError Server :=
  start (UC := Ref.url) (UT := Ref.unicode) (SC := Ref.sha2) (RG := RefX509.rcgen)
    (RS := rustls_ok) (UCL := client_ok) (AT := sample_mock_attester) mock_attester
    (Some (lit "key")) sample_cli.
Definition sample_config (listen : bytes) : RelayConfig := {|
  listen_addr := listen; runtime := cli_runtime sample_cli;
  default_upstream := lit "https://api.openai.com/"; routes := bt_empty;
  allowed_upstreams := [lit "https://api.openai.com/"]; max_request_bytes := 1024;
  release_artifact_digest := None; upstream_timeout_secs := 120;
  upstream_tls_leaf_sha256 := bt_empty;
|}.
Definition sample_audited : RelayConfig := sample_config (lit "[::]:443").
Definition sample_audited_hash : bytes :=
  Ref.mix 32 (config_preimage sample_audited []).

Lemma sample_reports : Reports (H := sample_mock_attester) (H0 := sample_mock_verifier)
  mock_attester mock_verifier.
Proof.
  apply (mock_reports (SC := Ref.sha2) (ED := RefMock.ed25519) (QJ := RefMock.json) (HX := Ref.hex)
    (EDL := RefMock.ed25519_laws) (QJL := RefMock.json_laws) (SQ := sample_small)).
Qed.

Lemma sample_clean listen : clean_config (sample_config listen) [].
Proof.
  assert (Hd : forall s, bool_decide (byte_lf ∈ s) = false -> no_lf s) by apply no_lf_decide.
  split; repeat first
    [ apply Forall_nil_2 | apply Forall_cons_2 | apply Hd; vm_compute; reflexivity ].
Qed.

(** The listen address is not hashed, so the two configurations hash the same text. *)
Lemma sample_no_collision listen : ~ half_collision (SC := Ref.sha2)
  (config_preimage sample_audited []) (config_preimage (sample_config listen) []).
Proof. intros [Hne _]. apply Hne. vm_compute. reflexivity. Qed.

Lemma pinned_relay_witness :
  exists srv, sample_start = Ok srv /\
    same_hashed_config sample_audited (config (srv_app srv)) [] [].
Proof.
  destruct (is_ok_Ok sample_start) as [srv E]; [vm_compute; reflexivity|].
  exists srv. split; [exact E|].
  assert (Hcfg : config (srv_app srv) = sample_config (lit "0.0.0.0:8443")).
  { vm_compute in E. injection E as <-. vm_compute. reflexivity. }
  assert (Hcert : AttestedTls.verify_server_cert (SC := Ref.sha2) (HX := Ref.hex) (XC := RefX509.x509)
      (VF := sample_mock_verifier) (sample_client (Some sample_audited_hash))
      (server_cert_der (srv_tls srv)) = Ok tt).
  { vm_compute in E. injection E as <-. vm_compute. reflexivity. }
  destruct (pinned_relay (UC := Ref.url) (UT := Ref.unicode) (SC := Ref.sha2) (SL := Ref.sha2_laws)
    (HX := Ref.hex) (RG := RefX509.rcgen) (RS := rustls_ok) (UCL := client_ok) (XC := RefX509.x509)
    (XL := RefX509.laws) (JC := Ref.json) (HV := Ref.header_value) (HM := Ref.header_map)
    (HML := Ref.header_map_laws) (RD := sample_redirects) (AT := sample_mock_attester) (VF := sample_mock_verifier)
    mock_attester (sample_client (Some sample_audited_hash)) sample_reports (Some (lit "key"))
    sample_cli srv E sample_audited sample_audited_hash [] []) as (_ & H & _).
  - vm_compute. reflexivity.
  - reflexivity.
  - vm_compute. reflexivity.
  - rewrite Hcfg. vm_compute. reflexivity.
  - apply sample_clean.
  - rewrite Hcfg. apply sample_clean.
  - exact Hcert.
  - rewrite Hcfg. apply sample_no_collision.
  - exact H.
Defined.

(** A local request with its own credential, and one with another. *)
Definition sample_local (auth : bytes) : LocalProxy.LocalRequest Ref.headers := {|
  LocalProxy.lr_method := lit "POST";
  LocalProxy.lr_path_and_query := Some (lit "/v1/chat/completions");
  LocalProxy.lr_headers := [(lit "authorization", auth); (lit "accept", lit "*/*")];
  LocalProxy.lr_body := sample_body |}.

Lemma sample_local_relay auth : LocalProxy.relay_request (UR := fun _ => true) (HM := Ref.header_map)
  LocalProxy.sample_base (sample_local auth) = Ok {|
    LocalProxy.rr_method := lit "POST"; LocalProxy.rr_uri := lit "https://10.0.0.1:8443/v1/chat/completions";
    LocalProxy.rr_headers := [(lit "accept", lit "*/*")]; LocalProxy.rr_body := sample_body |}.
Proof. vm_compute. reflexivity. Qed.

Lemma local_credential_irrelevant_witness :
  exists req, prepare_request (UC := Ref.url) (UT := Ref.unicode) (JC := Ref.json)
      (HV := Ref.header_value) (HM := Ref.header_map) sample_state
      [(lit "accept", lit "*/*"); (lit "host", lit "relay")] sample_body = Ok req /\
    hm_get_all (HeaderMapCrate := Ref.header_map) (lit "authorization") (rq_headers req)
      = [auth_scheme sample_credential ++ lit " " ++ token sample_credential].
Proof.
  match goal with |- exists req, ?r = Ok req /\ _ =>
    destruct (is_ok_Ok r) as [req Hp]; [vm_compute; reflexivity|] end.
  exists req. split; [exact Hp|].
  destruct (local_credential_irrelevant (UC := Ref.url) (UT := Ref.unicode) (JC := Ref.json)
    (UR := fun _ => true) (HV := Ref.header_value) (HM := Ref.header_map) (HML := Ref.header_map_laws)
    LocalProxy.sample_base (sample_local (lit "Bearer a")) (sample_local (lit "Bearer b")) _ _
    (sample_local_relay _) (sample_local_relay _) eq_refl eq_refl) with
    (client1 := [(lit "accept", lit "*/*"); (lit "host", lit "relay")] : Ref.headers)
    (client2 := [(lit "accept", lit "*/*")] : Ref.headers) (bd1 := sample_body) (bd2 := sample_body)
    (st := sample_state) as (_ & _ & H).
  - intros k Hk _. cbn [LocalProxy.lr_headers sample_local hm_get_all Ref.header_map]. unfold Ref.hl_get_all.
    rewrite !filter_cons. cbn [fst].
    destruct (decide (lit "authorization" = k)); [congruence|reflexivity].
  - split; [reflexivity|]. apply Forall_forall. unfold FORWARDED_REQUEST_HEADERS.
    repeat (apply Forall_cons_2; [vm_compute; reflexivity|]). by apply Forall_nil_2.
  - split; [reflexivity|]. intros k _. reflexivity.
  - exact (H req Hp).
Defined.

Definition sample_any_verifier : Verifier AnyVerifier :=
  AnyVerifier_verify (ED := RefMock.ed25519) (QJ := RefMock.json) (HX := Ref.hex)
    (EC := SevSnp.RefSev.crates) (SC := Ref.sha2) (BP := false) (HH := GcpCs.RefGcp.host)
    (UC := Ref.url) (JC := Ref.json) (KJ := OnlineCheck.RefCheck.key_json)
    (JW := OnlineCheck.RefCheck.jwt) (B64 := Ref.base64) (W := OnlineCheck.RefCheck.world).

Definition sample_pinned_cli : LocalProxy.LocalCli := {|
  LocalProxy.lc_listen := lit "127.0.0.1:8080";
  LocalProxy.lc_relay_endpoint := lit "https://relay.internal:8443";
  LocalProxy.lc_gateway_addr := None; LocalProxy.lc_gateway_token := None;
  LocalProxy.lc_backend := LocalProxy.MockBackend;
  LocalProxy.lc_expected_measurement := Ref.hex_enc (mock_measurement (SC := Ref.sha2));
  LocalProxy.lc_expected_config_hash := lit "0x" ++ Ref.hex_enc sample_audited_hash;
  LocalProxy.lc_gcp := OnlineCheck.no_gcp; LocalProxy.lc_allow_audit := false;
|}.

(** A network on which every address accepts and every handshake presents [cert]. *)
Definition sample_tls (cert : bytes) : LocalProxy.TlsClient := {|
  LocalProxy.server_name_valid _ := true; LocalProxy.handshake_leaf _ _ := Some cert |}.

Lemma sample_any_reports : Reports (H := sample_mock_attester) (H0 := sample_any_verifier)
  mock_attester AnyMockVerifier.
Proof. exact sample_reports. Qed.

Lemma local_proxy_end_to_end_witness :
  exists srv, sample_start = Ok srv /\
    same_hashed_config sample_audited (config (srv_app srv)) [] [].
Proof.
  destruct (is_ok_Ok sample_start) as [srv E]; [vm_compute; reflexivity|].
  exists srv. split; [exact E|].
  assert (Hcfg : config (srv_app srv) = sample_config (lit "0.0.0.0:8443")).
  { vm_compute in E. injection E as <-. vm_compute. reflexivity. }
  destruct (is_ok_Ok (LocalProxy.main_config (UC := Ref.url) (HX := Ref.hex)
    {| sev_snp := true; gcp_confidential_space := true; mock := true |} sample_pinned_cli))
    as [rc Em]; [vm_compute; reflexivity|].
  destruct (is_ok_Ok (LocalProxy.run (UC := Ref.url) (TB := NetAddr.any_bind) rc)) as [conn Er];
    [vm_compute in Em; injection Em as <-; vm_compute; reflexivity|].
  destruct (local_proxy_end_to_end (UC := Ref.url) (UT := Ref.unicode) (SC := Ref.sha2)
    (SL := Ref.sha2_laws) (HX := Ref.hex) (RG := RefX509.rcgen) (RS := rustls_ok) (UCL := client_ok)
    (XC := RefX509.x509) (XL := RefX509.laws) (JC := Ref.json) (HV := Ref.header_value)
    (HM := Ref.header_map) (HML := Ref.header_map_laws) (RD := sample_redirects) (LR := BufRead.RefRead.line_reader)
    (LN := LocalProxy.sample_local_net) (TC := sample_tls (server_cert_der (srv_tls srv)))
    (TB := NetAddr.any_bind) (AT := sample_mock_attester) (VF := sample_any_verifier) mock_attester
    {| sev_snp := true; gcp_confidential_space := true; mock := true |} sample_pinned_cli rc conn
    (LocalProxy.Direct (lit "relay.internal:8443")) Em Er) with (generated := Some (lit "key"))
    (cli := sample_cli) (srv := srv) (audited := sample_audited) (h := sample_audited_hash)
    (pins1 := @nil (bytes * list bytes)) (pins2 := @nil (bytes * list bytes)) as [H _].
  - reflexivity.
  - vm_compute in Em. injection Em as <-. exact sample_any_reports.
  - exact E.
  - vm_compute in Em. injection Em as <-. vm_compute in Er. injection Er as <-.
    vm_compute in E. injection E as <-. vm_compute. reflexivity.
  - vm_compute. reflexivity.
  - vm_compute. reflexivity.
  - vm_compute. reflexivity.
  - rewrite Hcfg. vm_compute. reflexivity.
  - apply sample_clean.
  - rewrite Hcfg. apply sample_clean.
  - rewrite Hcfg. apply sample_no_collision.
  - exact H.
Defined.
