(* ===== verification/UnitTests.v ===== *)
(** * The repository's unit tests

    The [#[cfg(test)]] modules of the crates, translated to boolean definitions and
    evaluated: the model passes the tests of the code. The third-party crates are the
    [Ref] instances. A test that fails an assertion or an [unwrap] is [false]. *)

From S2P Require Import Prelude RustStr BTree Extern Config ConfigHash Secrets AppError Proxy.
From S2P Require Import Attest MockTee AttestedTls SnpReport SevSnp Launcher GcpPolicy GcpCs Server.

Local Open Scope N_scope.

(** ** Assertions *)

Definition ok_eq {E A} `{EqDecision A} (r : outcome E A) (a : A) : bool :=
  match r with Ok x => bool_decide (x = a) | _ => false end.
Definition differ {E} (r s : outcome E bytes) : bool :=
  match r, s with Ok x, Ok y => negb (bool_decide (x = y)) | _, _ => false end.

(** ** relay-core: config *)

Section config_tests.
#[local] Existing Instances Ref.url Ref.unicode Ref.sha2.

(** [RelayConfig { field, ..Default::default() }] *)
Definition config_allowing (l : list bytes) (rs : btree ProviderConfig) : RelayConfig := {|
  listen_addr := listen_addr RelayConfig_default; runtime := runtime RelayConfig_default;
  default_upstream := default_upstream RelayConfig_default; routes := rs; allowed_upstreams := l;
  max_request_bytes := max_request_bytes RelayConfig_default; release_artifact_digest := None;
  upstream_timeout_secs := upstream_timeout_secs RelayConfig_default;
  upstream_tls_leaf_sha256 := bt_empty |}.
Definition config_with (r : RuntimeConfig) (digest : option bytes) (pins : btree (list bytes)) : RelayConfig := {|
  listen_addr := listen_addr RelayConfig_default; runtime := r;
  default_upstream := default_upstream RelayConfig_default; routes := routes RelayConfig_default;
  allowed_upstreams := allowed_upstreams RelayConfig_default;
  max_request_bytes := max_request_bytes RelayConfig_default; release_artifact_digest := digest;
  upstream_timeout_secs := upstream_timeout_secs RelayConfig_default;
  upstream_tls_leaf_sha256 := pins |}.
Definition route (prefix base : bytes) (p : option bytes) (rs : btree ProviderConfig) : btree ProviderConfig :=
  bt_insert prefix {| base_url := base; path := p |} rs.
Definition pin (origin p : bytes) (pins : btree (list bytes)) : btree (list bytes) :=
  bt_insert origin [p] pins.
Definition allows (c : RelayConfig) (url : bytes) : bool := is_ok (check_upstream_allowed c url).
Definition validates (c : RelayConfig) : bool := is_ok (RelayConfig_validate c).
Definition hash (c : RelayConfig) : outcome ConfigError bytes := config_hash c.
Definition openai : bytes := lit "https://api.openai.com".
Definition a64 : bytes := replicate 64 "a"%byte.
Definition b64s : bytes := replicate 64 "b"%byte.

Definition origin_basic : bool :=
  bool_decide (url_origin openai = Some (lit "https://api.openai.com:443")) &&
  bool_decide (url_origin (lit "http://localhost:3000/v1") = Some (lit "http://localhost:3000")) &&
  bool_decide (url_origin (lit "http://api.openai.com/v1") = None).
Definition origin_normalises_case : bool :=
  bool_decide (url_origin (lit "HTTPS://API.OpenAI.COM/v1") = Some (lit "https://api.openai.com:443")).
Definition origin_rejects_userinfo : bool :=
  bool_decide (url_origin (lit "https://api.openai.com@evil.com") = None).

Definition allowlist_permits_same_origin : bool :=
  let config := config_allowing [openai] bt_empty in
  allows config (lit "https://api.openai.com/v1/chat") && allows config openai.
Definition allowlist_blocks_subdomain_trick : bool :=
  negb (allows (config_allowing [openai] bt_empty) (lit "https://api.openai.com.evil.com/steal")).
Definition allowlist_blocks_userinfo_trick : bool :=
  negb (allows (config_allowing [openai] bt_empty) (lit "https://api.openai.com@evil.com/steal")).
Definition allowlist_blocks_unknown_upstream : bool :=
  negb (allows (config_allowing [openai] bt_empty) (lit "https://evil.com/steal")).
Definition empty_allowlist_permits_all : bool :=
  allows RelayConfig_default (lit "https://anything.com").

Definition longest_prefix_wins : bool :=
  let config := config_allowing []
    (route (lit "gpt-4") (lit "https://api.openai-special.com") None (route (lit "gpt-") openai None bt_empty)) in
  bool_decide ((resolve_upstream config (lit "gpt-4-turbo")).1 = lit "https://api.openai-special.com") &&
  bool_decide ((resolve_upstream config (lit "gpt-3.5")).1 = openai).
Definition falls_back_to_default : bool :=
  bool_decide ((resolve_upstream RelayConfig_default (lit "unknown-model")).1 = openai).
Definition validate_catches_bad_routes : bool :=
  negb (validates (config_allowing [openai] (route (lit "evil-") (lit "https://evil.com") None bt_empty))).

Definition config_hash_differs_when_path_changes : bool :=
  let config_a := config_allowing [] (route (lit "gpt-") openai (Some (lit "/v1/chat/completions")) bt_empty) in
  let config_b := config_allowing [] (route (lit "gpt-") openai (Some (lit "/v1/evil/exfiltrate")) bt_empty) in
  differ (hash config_a) (hash config_b).
Definition config_hash_differs_with_and_without_path : bool :=
  let config_a := config_allowing [] (route (lit "gpt-") openai None bt_empty) in
  let config_b := config_allowing [] (route (lit "gpt-") openai (Some (lit "/v1/chat/completions")) bt_empty) in
  differ (hash config_a) (hash config_b).
Definition with_digest (d : bytes) : RelayConfig := config_with RuntimeConfig_default (Some d) bt_empty.
Definition config_hash_differs_when_release_artifact_digest_changes : bool :=
  differ
    (hash (with_digest (lit "5610754eb95be37c666c5240287027cc1173c26d249a3deaade30f12cdbf8bfd")))
    (hash (with_digest (lit "9743b9e2023398158544ee5b46d8173a08b020e1d19afd6acb13e7f548768bd5"))).
Definition validate_rejects_bad_release_artifact_digest : bool :=
  negb (validates (with_digest (lit "not-a-digest"))).

Definition with_pins (pins : btree (list bytes)) : RelayConfig := config_with RuntimeConfig_default None pins.
Definition upstream_tls_pins_are_normalized_by_origin : bool :=
  ok_eq (upstream_tls_pins_for (with_pins (pin (lit "https://API.OpenAI.COM/v1") (replicate 64 "A"%byte) bt_empty))
           (lit "https://api.openai.com/v1/chat/completions"))
    (Some [lit "sha256:" ++ a64]).
Definition validate_rejects_bad_upstream_tls_pin : bool :=
  negb (validates (with_pins (pin openai (lit "not-a-pin") bt_empty))).
Definition validate_rejects_http_upstream_tls_pin_origin : bool :=
  negb (validates (with_pins (pin (lit "http://localhost:3000") a64 bt_empty))).
Definition upstream_tls_pin_hosts_union_same_host_pins : bool :=
  match upstream_tls_pin_hosts (with_pins
          (pin (lit "https://api.openai.com:8443") b64s (pin openai a64 bt_empty))) with
  | Ok hosts => bool_decide (bt_get (lit "api.openai.com") hosts
                             = Some [lit "sha256:" ++ a64; lit "sha256:" ++ b64s])
  | _ => false
  end.
Definition config_hash_differs_when_upstream_tls_pin_changes : bool :=
  differ (hash (with_pins (pin openai a64 bt_empty))) (hash (with_pins (pin openai b64s bt_empty))).

Definition with_runtime (allow admin : bool) (scheme policy : bytes) : RelayConfig :=
  config_with {| allow_client_provider_auth := allow; private_admin_enabled := admin;
                 provider_auth_scheme := scheme; body_log_policy := policy |} None bt_empty.
Definition config_hash_differs_when_runtime_security_flags_change : bool :=
  let config_a := RelayConfig_default in
  let config_b := with_runtime true false default_provider_auth_scheme default_body_log_policy in
  let config_c := with_runtime false true default_provider_auth_scheme default_body_log_policy in
  differ (hash config_a) (hash config_b) && differ (hash config_a) (hash config_c) &&
  differ (hash config_b) (hash config_c).
Definition config_hash_differs_when_runtime_policy_changes : bool :=
  differ (hash RelayConfig_default)
    (hash (with_runtime false false (lit "Basic") default_body_log_policy)).
Definition validate_rejects_body_logging_policy_that_is_not_metadata_only : bool :=
  negb (validates (with_runtime false false default_provider_auth_scheme (lit "full-body"))).
Definition validate_rejects_invalid_provider_auth_scheme : bool :=
  negb (validates (with_runtime false false (lit "Bearer token") default_body_log_policy)).
Definition config_hash_is_deterministic : bool :=
  match hash RelayConfig_default with Ok h => ok_eq (hash RelayConfig_default) h | _ => false end.
End config_tests.

Lemma config_tests_pass : forallb id
  [origin_basic; origin_normalises_case; origin_rejects_userinfo; allowlist_permits_same_origin;
   allowlist_blocks_subdomain_trick; allowlist_blocks_userinfo_trick; allowlist_blocks_unknown_upstream;
   empty_allowlist_permits_all; longest_prefix_wins; falls_back_to_default; validate_catches_bad_routes;
   config_hash_differs_when_path_changes; config_hash_differs_with_and_without_path;
   config_hash_differs_when_release_artifact_digest_changes; validate_rejects_bad_release_artifact_digest;
   upstream_tls_pins_are_normalized_by_origin; validate_rejects_bad_upstream_tls_pin;
   validate_rejects_http_upstream_tls_pin_origin; upstream_tls_pin_hosts_union_same_host_pins;
   config_hash_differs_when_upstream_tls_pin_changes;
   config_hash_differs_when_runtime_security_flags_change; config_hash_differs_when_runtime_policy_changes;
   validate_rejects_body_logging_policy_that_is_not_metadata_only;
   validate_rejects_invalid_provider_auth_scheme; config_hash_is_deterministic] = true.
Proof. vm_compute. reflexivity. Qed.

(** ** relay-core: proxy *)

(** The WebPKI verifier whose only root is the certificate for [localhost]. *)
Definition localhost_cert : bytes := lit "self-signed localhost".
Definition localhost_webpki (cert name : bytes) : bool :=
  bool_decide (cert = localhost_cert) && bool_decide (name = lit "localhost").
Definition pinned_verifier_for_localhost (p : bytes) : PinnedServerCertVerifier :=
  {| pins_by_host := bt_insert (lit "localhost") [p] bt_empty |}.
Definition verify_localhost (p : bytes) : bool :=
  is_ok (Proxy.verify_server_cert (SC := Ref.sha2) (HX := Ref.hex) (pinned_verifier_for_localhost p)
    localhost_webpki localhost_cert (lit "localhost")).

Definition pinned_verifier_accepts_matching_leaf_pin : bool :=
  verify_localhost (leaf_sha256_pin (SC := Ref.sha2) (HX := Ref.hex) localhost_cert).
Definition pinned_verifier_rejects_changed_leaf_pin : bool :=
  negb (verify_localhost (lit "sha256:" ++ a64)).

Lemma proxy_tests_pass :
  pinned_verifier_accepts_matching_leaf_pin && pinned_verifier_rejects_changed_leaf_pin = true.
Proof. vm_compute. reflexivity. Qed.

(** ** relay-attest: mock *)

Definition mock_attest (user_data : bytes) : outcome AttestError Evidence :=
  attest (Attester := sample_mock_attester) mock_attester user_data.
Definition mock_verify (ev : Evidence) (m : option bytes) : outcome AttestError bytes :=
  verify (Verifier := sample_mock_verifier) mock_verifier ev m.
Definition the_mock_measurement : bytes := mock_measurement (SC := Ref.sha2).
Definition measurement_mismatch {A} (r : outcome AttestError A) : bool :=
  match r with Err (MeasurementMismatch _ _) => true | _ => false end.

Definition round_trip_attest_verify : bool :=
  let user_data := replicate 64 "042"%byte in
  match mock_attest user_data with
  | Ok evidence => bool_decide (tee_type evidence = Mock) && ok_eq (mock_verify evidence None) user_data
  | _ => false
  end.
Definition verify_with_correct_measurement : bool :=
  let user_data := replicate 64 "007"%byte in
  match mock_attest user_data with
  | Ok evidence => ok_eq (mock_verify evidence (Some the_mock_measurement)) user_data
  | _ => false
  end.
Definition verify_rejects_wrong_measurement : bool :=
  match mock_attest (zeros 64) with
  | Ok evidence => measurement_mismatch (mock_verify evidence (Some (replicate 32 "255"%byte)))
  | _ => false
  end.
(** [evidence.data[10] ^= 0xFF] *)
Definition tamper (b : byte) : byte := n2b (N.lxor (b2n b) 255).
Definition verify_rejects_tampered_evidence : bool :=
  match mock_attest (replicate 64 "001"%byte) with
  | Ok evidence =>
      let tampered := {| tee_type := tee_type evidence; data := alter tamper 10%nat (data evidence) |} in
      negb (is_ok (mock_verify tampered None))
  | _ => false
  end.

Lemma mock_tests_pass : round_trip_attest_verify && verify_with_correct_measurement &&
  verify_rejects_wrong_measurement && verify_rejects_tampered_evidence = true.
Proof. vm_compute. reflexivity. Qed.

(** ** relay-tls: client *)

(** The certificate of each test: the attested report data is the SHA-384 of the key and
    the first half of a configuration hash, or zeros. *)
Definition test_key : bytes := lit "key".
Definition attested_cert (config_hash : option bytes) : outcome AttestError bytes :=
  let hash := sha384 (Sha2Crate := Ref.sha2) test_key in
  let reportdata := copy_at 0 hash (zeros 64) in
  let reportdata := match config_hash with
                    | Some ch => copy_at 48 (take 16 ch) reportdata
                    | None => reportdata
                    end in
  evidence ← mock_attest reportdata;
  ok_or (self_signed (RcgenCrate := RefX509.rcgen) (cert_params_with_evidence evidence) test_key)
    (X509Error (lit "self_signed")).
Definition client_verify (m ch : option bytes) (cert : bytes) : outcome TlsError unit :=
  AttestedTls.verify_server_cert (SC := Ref.sha2) (HX := Ref.hex) (XC := RefX509.x509)
    (VF := sample_mock_verifier)
    {| verifier := mock_verifier; expected_measurement := m; expected_config_hash := ch |} cert.
Definition verdict (server_hash m ch : option bytes) : option bool :=
  match attested_cert server_hash with
  | Ok cert => Some (is_ok (client_verify m ch cert))
  | _ => None
  end.

Definition verify_mock_cert_succeeds : bool := bool_decide (verdict None None None = Some true).
Definition client_rejects_wrong_measurement : bool :=
  bool_decide (verdict None (Some (replicate 32 "255"%byte)) None = Some false).
Definition verify_config_hash_match_succeeds : bool :=
  let config_hash := replicate 32 "171"%byte in
  bool_decide (verdict (Some config_hash) None (Some config_hash) = Some true).
(** The error names the configuration hash. *)
Definition verify_config_hash_mismatch_fails : bool :=
  let config_hash_a := replicate 32 "170"%byte in
  let config_hash_b := replicate 32 "187"%byte in
  match attested_cert (Some config_hash_a) with
  | Ok cert => match client_verify None (Some config_hash_b) cert with
               | Err (ConfigHashMismatch _ _) => true
               | _ => false
               end
  | _ => false
  end.
Definition verify_no_expected_config_hash_ignores_server_config : bool :=
  bool_decide (verdict (Some (replicate 32 "171"%byte)) None None = Some true).

Lemma tls_client_tests_pass : verify_mock_cert_succeeds && client_rejects_wrong_measurement &&
  verify_config_hash_match_succeeds && verify_config_hash_mismatch_fails &&
  verify_no_expected_config_hash_ignores_server_config = true.
Proof. vm_compute. reflexivity. Qed.

(** ** relay-tls: server *)

Definition test_server (config_hash : option bytes) : outcome AttestError AttestedTlsServer :=
  AttestedTlsServer_new (SC := Ref.sha2) (RG := RefX509.rcgen) (RS := rustls_ok)
    (AT := sample_mock_attester) mock_attester config_hash (Some test_key).
Definition server_evidence (config_hash : option bytes) : outcome AttestError Evidence :=
  server ← test_server config_hash;
  extract_evidence_from_cert (XC := RefX509.x509) (server_cert_der server).

Definition creates_server_config_with_mock : bool :=
  match test_server None with
  | Ok server => negb (bool_decide (server_cert_der server = []))
  | _ => false
  end.
Definition cert_contains_evidence : bool :=
  match server_evidence None with Ok evidence => bool_decide (tee_type evidence = Mock) | _ => false end.
Definition config_hash_is_embedded_in_reportdata : bool :=
  let config_hash := replicate 32 "171"%byte in
  ok_eq (evidence ← server_evidence (Some config_hash);
         reportdata ← mock_verify evidence None; Ok (take 16 (drop 48 reportdata)))
    (take 16 config_hash).

Lemma tls_server_tests_pass : creates_server_config_with_mock && cert_contains_evidence &&
  config_hash_is_embedded_in_reportdata = true.
Proof. vm_compute. reflexivity. Qed.

(** ** relay-attest: gcp_confidential_space *)

Definition error_contains {A} (text : bytes) (r : outcome AttestError A) : bool :=
  match r with Err e => contains text (AttestError_display e) | _ => false end.

(** The clock of the tests. *)
Definition test_now : N := 1000000.
Definition test_digest : bytes := lit "sha256:" ++ a64.

Definition test_jwks : JwksSet := {| keys :=
  [{| kty := lit "RSA"; kid := lit "test-kid"; jwk_n := lit "n"; jwk_e := lit "e";
      alg := Some (lit "RS256"); key_use := None |}] |}.

Definition test_policy : GcpConfidentialSpacePolicy :=
  let policy := strict_for_image (lit "trusted-relay-test") test_digest in {|
  audience := audience policy; image_digest := image_digest policy;
  image_reference := image_reference policy; signature_key_ids := signature_key_ids policy;
  service_account := Some (lit "relay@project.iam.gserviceaccount.com");
  project_id := Some (lit "project"); zone := Some (lit "us-central1-a");
  instance_name := instance_name policy; require_debug_disabled := require_debug_disabled policy;
  require_confidential_space := require_confidential_space policy;
  require_secure_boot := require_secure_boot policy; issuer := lit "https://issuer.test";
  jwks_uri := Some (lit "https://issuer.test/jwks") |}.

(** The claims of [token], with those the tests change as arguments. *)
Definition token (reportdata au dbg digest account : bytes) (expiry : N) : ConfidentialSpaceClaims := {|
  aud := au; dbgstat := dbg; eat_nonce := Many (reportdata_nonces (B64 := Ref.base64) reportdata);
  exp := expiry; google_service_accounts := [account]; iat := test_now;
  iss := lit "https://issuer.test"; nbf := test_now - 5; secboot := true;
  sub := lit "https://www.googleapis.com/compute/v1/projects/project/zones/us-central1-a/instances/relay";
  swname := lit "CONFIDENTIAL_SPACE"; swversion := [lit "260500"];
  submods := {|
    container := Some {|
      c_args := []; c_env := []; c_env_override := []; c_image_digest := Some digest; c_image_id := None;
      c_image_reference := Some (lit "us-docker.pkg.dev/project/repo/relay:latest");
      c_image_signatures := Some [{| key_id := lit "key-1"; signature := Some (lit "abc");
        signature_algorithm := Some (lit "RSASSA_PSS_SHA256") |}];
      c_restart_policy := Some (lit "Never"); c_extra := [] |};
    gce := Some {| g_instance_id := None; g_instance_name := Some (lit "relay");
      g_project_id := Some (lit "project"); g_project_number := None;
      g_zone := Some (lit "us-central1-a"); g_extra := [] |};
    s_extra := [] |};
  extra := [] |}.
Definition good_account : bytes := lit "relay@project.iam.gserviceaccount.com".
Definition good_token (reportdata : bytes) : ConfidentialSpaceClaims :=
  token reportdata (lit "trusted-relay-test") (lit "disabled-since-boot") test_digest good_account
    (test_now + 3600).

(** A JWT crate for which one text is these claims, signed by the test key. *)
Definition test_jwt (claims : ConfidentialSpaceClaims) : JwtCrate := {|
  jwt_decode_header _ := Some (RS256, Some (lit "test-kid"));
  rsa_key n e := if bool_decide (n = lit "n") && bool_decide (e = lit "e") then Some (lit "rsa") else None;
  jwt_signed token key := bool_decide (token = lit "jwt") && bool_decide (key = lit "rsa");
  jwt_decode token key v now :=
    match now with
    | Some now =>
        if bool_decide (token = lit "jwt") && bool_decide (key = lit "rsa")
           && bool_decide (iss claims ∈ v_issuer v) && bool_decide (aud claims ∈ v_audience v)
           && (negb (v_validate_exp v) || (now <=? exp claims + v_leeway v))
           && (negb (v_validate_nbf v) || (nbf claims <=? now + v_leeway v))
        then Some claims else None
    | None => None
    end |}.

Definition verify_with (p : GcpConfidentialSpacePolicy) (claims : ConfidentialSpaceClaims) (reportdata : bytes)
  : outcome AttestError bytes :=
  verifier ← with_static_jwks (UC := Ref.url) p test_jwks;
  (gcp_verify (UC := Ref.url) (JC := Ref.json) (HH := RefGcp.host) (KJ := RefGcp.key_json)
    (JW := test_jwt claims) (B64 := Ref.base64) verifier (Some test_now)
    {| tee_type := GcpConfidentialSpace; data := lit "jwt" |} (Some reportdata) RefGcp.start).1.
Definition verify_token (claims : ConfidentialSpaceClaims) (reportdata : bytes) : outcome AttestError bytes :=
  verify_with test_policy claims reportdata.
Definition reportdata1 : bytes := replicate 64 "001"%byte.
Definition reportdata2 : bytes := replicate 64 "002"%byte.

Definition reportdata_nonce_round_trips : bool :=
  let reportdata := replicate 64 "007"%byte in
  ok_eq (nonce_reportdata (B64 := Ref.base64) (Many (reportdata_nonces (B64 := Ref.base64) reportdata)))
    reportdata.
Definition parses_chunked_token_response : bool :=
  let response := lit "HTTP/1.1 200 OK" ++ crlf ++ lit "Transfer-Encoding: chunked" ++ crlf ++ crlf
    ++ lit "4" ++ crlf ++ lit "abc." ++ crlf ++ lit "7" ++ crlf ++ lit "def.ghi" ++ crlf
    ++ lit "0" ++ crlf ++ crlf in
  ok_eq (parse_http_token_response (BP := true) response) (lit "abc.def.ghi").
Definition accepts_matching_token : bool :=
  ok_eq (verify_token (good_token reportdata1) reportdata1) reportdata1.
Definition rejects_changed_image_digest : bool :=
  error_contains (lit "Confidential Space image digest mismatch")
    (verify_token (token reportdata1 (lit "trusted-relay-test") (lit "disabled-since-boot")
      (lit "sha256:" ++ b64s) good_account (test_now + 3600)) reportdata1).
Definition rejects_wrong_nonce : bool :=
  error_contains (lit "REPORTDATA mismatch") (verify_token (good_token reportdata2) reportdata1).
Definition rejects_debug_image : bool :=
  error_contains (lit "debug status")
    (verify_token (token reportdata1 (lit "trusted-relay-test") (lit "enabled") test_digest good_account
      (test_now + 3600)) reportdata1).
Definition rejects_wrong_audience : bool :=
  error_contains (lit "JWT validation failed")
    (verify_token (token reportdata1 (lit "wrong") (lit "disabled-since-boot") test_digest good_account
      (test_now + 3600)) reportdata1).
Definition rejects_wrong_service_account : bool :=
  error_contains (lit "service account mismatch")
    (verify_token (token reportdata1 (lit "trusted-relay-test") (lit "disabled-since-boot") test_digest
      (lit "other@project.iam.gserviceaccount.com") (test_now + 3600)) reportdata1).
Definition rejects_expired_token : bool :=
  error_contains (lit "JWT validation failed")
    (verify_token (token reportdata1 (lit "trusted-relay-test") (lit "disabled-since-boot") test_digest
      good_account (test_now - 1000)) reportdata1).
Definition can_pin_signature_key_instead_of_digest : bool :=
  let policy := policy_new (lit "trusted-relay-test") in
  is_ok (verify_with {|
    audience := audience policy; image_digest := image_digest policy;
    image_reference := image_reference policy; signature_key_ids := [lit "key-1"];
    service_account := service_account policy; project_id := project_id policy; zone := zone policy;
    instance_name := instance_name policy; require_debug_disabled := require_debug_disabled policy;
    require_confidential_space := require_confidential_space policy;
    require_secure_boot := require_secure_boot policy; issuer := lit "https://issuer.test";
    jwks_uri := Some (lit "https://issuer.test/jwks") |} (good_token reportdata1) reportdata1).

Lemma gcp_tests_pass : forallb id
  [reportdata_nonce_round_trips; parses_chunked_token_response; accepts_matching_token;
   rejects_changed_image_digest; rejects_wrong_nonce; rejects_debug_image; rejects_wrong_audience;
   rejects_wrong_service_account; rejects_expired_token; can_pin_signature_key_instead_of_digest] = true.
Proof. vm_compute. reflexivity. Qed.

(** ** relay-attest: sev_snp *)

(** The copy of [cert_blob_used_len] that is compiled for tests. *)
Definition cert_table_used_len (certs : bytes) : N :=
  let '(used, header_end) :=
    used_len_loop (len certs) (chunks_exact SNP_CERT_TABLE_ENTRY_SIZE certs) 0 0 in
  if used =? 0 then 0 else N.max used header_end.

(** [dst[offset..offset + src.len()].copy_from_slice(src)] within the bounds. *)
Definition write_at (offset : N) (src dst : bytes) : bytes := copy_at (N.to_nat offset) src dst.
Definition u32_le (n : N) : bytes := N_to_le 4 (n mod 2 ^ 32).
Definition write_cert_entry (table : bytes) (index : N) (guid : bytes) (offset n : N) : bytes :=
  let start := index * 24 in
  write_at (start + 20) (u32_le n) (write_at (start + 16) (u32_le offset) (write_at start guid table)).

Definition vcek_url_construction : bool :=
  let url := vcek_url (HX := Ref.hex) (lit "Milan") (replicate 64 "171"%byte) 0x0300000000000201 in
  starts_with (lit "https://kdsintf.amd.com/vcek/v1/Milan/") url && contains (lit "blSPL=1") url &&
  contains (lit "teeSPL=2") url.
Definition cert_chain_url_supports_vcek_and_vlek : bool :=
  bool_decide (cert_chain_url (lit "vcek") (lit "Milan") = lit "https://kdsintf.amd.com/vcek/v1/Milan/cert_chain") &&
  bool_decide (cert_chain_url (lit "vlek") (lit "Milan") = lit "https://kdsintf.amd.com/vlek/v1/Milan/cert_chain").
Definition guid_bytes_match_snp_cert_table_encoding : bool :=
  bool_decide (GUID_VCEK = map n2b
    [0x8d; 0x75; 0xda; 0x63; 0x64; 0xe6; 0x64; 0x45; 0xad; 0xc5; 0xf4; 0xb9; 0x3b; 0xe8; 0xac; 0xcd]) &&
  bool_decide (GUID_VLEK = map n2b
    [0xc2; 0x4b; 0x07; 0xa8; 0x5a; 0xa2; 0x3e; 0x48; 0xaa; 0xe6; 0x39; 0xc0; 0x45; 0xa0; 0xb8; 0xa1]).

Definition zero_report : bytes := zeros 0x4A0.
Definition report_signed_with (info : N) : bytes := write_at SIGNING_KEY_OFFSET (u32_le info) zero_report.
Definition signing_key_parses_four_byte_signer_info : bool :=
  ok_eq (signing_key (report_signed_with 0)) SNP_SIGNING_KEY_VCEK &&
  ok_eq (signing_key (report_signed_with (N.shiftl SNP_SIGNING_KEY_VLEK 2))) SNP_SIGNING_KEY_VLEK &&
  negb (is_ok (signing_key (report_signed_with (N.shiftl 2 2)))) &&
  negb (is_ok (signing_key (report_signed_with (N.shiftl 7 2)))).

Definition cert_blob_helpers_find_expected_leaf_and_used_length : bool :=
  let vcek := lit "vcek-cert" in
  let vlek := lit "vlek-cert-longer" in
  let header_len := 3 * 24 in
  let vcek_offset := header_len in
  let vlek_offset := vcek_offset + len vcek in
  let certs := zeros (N.to_nat (vlek_offset + len vlek + 8)) in
  let certs := write_cert_entry certs 0 GUID_VCEK vcek_offset (len vcek) in
  let certs := write_cert_entry certs 1 GUID_VLEK vlek_offset (len vlek) in
  let certs := write_at vlek_offset vlek (write_at vcek_offset vcek certs) in
  bool_decide (find_cert certs GUID_VCEK = Some vcek) &&
  bool_decide (find_cert certs GUID_VLEK = Some vlek) &&
  (cert_table_used_len certs =? vlek_offset + len vlek).
Definition evidence_data_splits_report_and_certificate_blob : bool :=
  let data := zero_report ++ map n2b [1; 2; 3; 4] in
  match report_bytes data with
  | Ok report => len report =? SNP_REPORT_SIZE
  | _ => false
  end && bool_decide (cert_blob_bytes data = Some (map n2b [1; 2; 3; 4])).

Definition sev_check (t : TeeType) (d : bytes) (m : option bytes) : outcome AttestError bytes :=
  (sev_verify (EC := RefSev.crates) (SC := Ref.sha2) (HX := Ref.hex) (BP := true) (HH := RefSev.host)
    0 {| tee_type := t; data := d |} m RefSev.start).1.
Definition verifier_rejects_wrong_tee_type : bool :=
  match sev_check Mock zero_report None with Err (UnsupportedTeeType _) => true | _ => false end.
Definition verifier_rejects_short_report : bool := negb (is_ok (sev_check SevSnp (zeros 100) None)).
Definition verifier_rejects_all_zero_signature : bool :=
  let report := write_at REPORT_DATA_OFFSET (replicate 64 "066"%byte) zero_report in
  error_contains (lit "all-zero signature") (sev_check SevSnp report None).
Definition verifier_rejects_debug_guest_policy : bool :=
  let report := write_at POLICY_OFFSET (N_to_le 8 POLICY_DEBUG_ALLOWED_BIT) zero_report in
  error_contains (lit "debug") (sev_check SevSnp report None).
Definition verifier_checks_measurement_before_signature : bool :=
  let report := write_at MEASUREMENT_OFFSET (replicate 48 "170"%byte) zero_report in
  measurement_mismatch (sev_check SevSnp report (Some (replicate 48 "187"%byte))).
Definition candidate_products_are_known : bool :=
  bool_decide (candidate_product_names = [lit "Milan"; lit "Genoa"; lit "Turin"]).

Lemma sev_tests_pass : forallb id
  [vcek_url_construction; cert_chain_url_supports_vcek_and_vlek; guid_bytes_match_snp_cert_table_encoding;
   signing_key_parses_four_byte_signer_info; cert_blob_helpers_find_expected_leaf_and_used_length;
   evidence_data_splits_report_and_certificate_blob; verifier_rejects_wrong_tee_type;
   verifier_rejects_short_report; verifier_rejects_all_zero_signature; verifier_rejects_debug_guest_policy;
   verifier_checks_measurement_before_signature; candidate_products_are_known] = true.
Proof. vm_compute. reflexivity. Qed.

(** ** relay-attest: quote *)

Definition generated_cert (user_data : bytes) : outcome AttestError (Evidence * bytes) :=
  evidence ← mock_attest user_data;
  cert ← generate_attested_cert (RG := RefX509.rcgen) (Some test_key) evidence;
  Ok (evidence, cert.1).

Definition embed_and_extract_round_trip : bool :=
  match generated_cert (replicate 64 "099"%byte) with
  | Ok (evidence, cert_der) =>
      match extract_evidence_from_cert (XC := RefX509.x509) cert_der with
      | Ok extracted => bool_decide (tee_type extracted = tee_type evidence) &&
                        bool_decide (data extracted = data evidence)
      | _ => false
      end
  | _ => false
  end.
Definition extract_spki_works : bool :=
  match generated_cert (zeros 64) with
  | Ok (_, cert_der) => match extract_spki_from_cert (XC := RefX509.x509) cert_der with
                        | Ok spki => negb (bool_decide (spki = []))
                        | _ => false
                        end
  | _ => false
  end.

Lemma quote_tests_pass : embed_and_extract_round_trip && extract_spki_works = true.
Proof. vm_compute. reflexivity. Qed.
